(* ===== verification/_CoqProject ===== *)
-Q . S2P
Prelude.v
PyText.v
PyPath.v
PyDict.v
PyStruct.v
PyFloat.v
PyFloatThms.v
PyJson.v
PyNum.v
PyRepr.v
PyJsonText.v
PyJsonThms.v
PyCsv.v
PyCsvThms.v
PySort.v
PyArgparse.v
Wire.v
Room.v
RoomFrames.v
RoomSpec.v
RoomProps.v
RoomThms.v
Server.v
ServerSteps.v
ServerInv.v
ServerOwner.v
ServerHandler.v
ServerDemo.v
ServerThms.v
ServerSafety.v
ServerEffects.v
RoomPace.v
ServerMain.v
RunnerSpecs.v
RunnerThms.v
Procfs.v
ProcfsThms.v
Lifecycle.v
LifecycleThms.v
Matrix.v
MatrixThms.v
RunnerCli.v
PlotData.v
PlotThms.v
Html.v
PlotHtml.v
PlotHtmlThms.v
PlotDoc.v
Results.v
ResultsThms.v
PlotTotal.v
CutShort.v
PlotJs.v
PlotJsThms.v
PlotAssets.v
PlotPage.v
PlotCli.v
PlotPageThms.v
PlotDocThms.v
EndToEnd.v
