(* ===== verification/Prelude.v ===== *)
(** * game-bench: the Python programs of the benchmark, modelled and verified

    game-bench compares game servers written in many languages under one wire
    protocol (PROTOCOL.md).  Its Python parts are the asyncio server
    (src/servers/python/server.py), the benchmark runner (src/runner/run.py)
    and the report generator (src/runner/plot.py).  This library models the
    three and proves what makes them correct.

    ** The program

    The server is one event loop without threads.  A connection has a coroutine
    [handle] that reads length-prefixed frames; JOIN enters a player into a
    [Room] (created on demand in the dictionary [rooms]) and is acknowledged,
    MOVE sets the player's velocity and sequence number.  Every room has a task
    [run] that moves all players once per tick and writes one snapshot frame to
    all its connections.  The runner starts each server of its table pinned to
    the server cores, waits for its port, runs a load generator on the client
    cores while a thread samples /proc, kills the server's process groups and
    writes CSV rows.  The report generator reads the rows back, groups them by
    chart, server and load, and makes a page whose script draws the medians and
    hides servers on a click.

    ** The files

    Shared language and library models:
    - [Prelude] (this file): Python exceptions [exn], the error monad [res], the
      state-and-exception monad [st], sequences of steps [star], list and
      integer lemmas, the hint database [bench], the tactics [res_inv] and
      [zbool];
    - [PyText] (strings), [PyDict] (insertion-ordered dictionaries), [PyStruct]
      ([struct] and [bytearray]), [PyFloat], [PyFloatThms] (binary64 floats and
      when operations stay in the format), [PyNum], [PyRepr] (numbers to and
      from text, [repr] of a float), [PyJson], [PyJsonText], [PyJsonThms] (JSON
      values, [json.loads], [json.dumps] and their round trip), [PyCsv],
      [PyCsvThms] ([csv.writer], [csv.reader], [csv.DictReader] and their round
      trip), [PyPath] ([os.path]), [PySort] ([sorted]), [PyArgparse]
      ([argparse]), [Html] (how a page is read).

    The server (src/servers/python/server.py):
    - [Wire]: the messages of PROTOCOL.md with their reference codecs (class
      [Codec]: decoding inverts encoding) and framing;
    - [Room]: [new_pid], [Player], [Room] with [join], [move], [leave], [step],
      and the coroutine [run] over explicit clock readings ([run_loop],
      [run_wake]);
    - [RoomFrames]: [step]'s in-place packing is the reference encoder;
    - [RoomSpec], [RoomProps]: the abstract game (a finite map from ids to
      avatars), the class [RoomModel] a room implementation has to satisfy with
      the theorems clients get from it, the invariant [room_wf], and the
      instance for [Room];
    - [RoomThms]: frame of a tick, refinement of the game, exactly when a tick
      raises, how long a room lives;  [RoomPace]: pacing of [run];
    - [Server]: the process: streams, connections, [get_room], [handle] as code
      between two awaits ([handle_iter], [run_handler]), [broadcast], and the
      turns of the event loop ([event], [exec], [runs]);
    - [ServerSteps]: the core invariant and the decomposition of every turn into
      atomic steps [astep];  [ServerInv]: one obligation per primitive update
      ([Preserve]), and what is written to each connection;  [ServerOwner]:
      which players a connection owns;  [ServerHandler]: fuel, segmentation of
      the stream, the specification [serve] of one message;
    - [ServerDemo]: executable runs, the inputs of the witnesses;
    - [ServerThms], [ServerSafety], [ServerEffects]: the theorems, for every
      state that a run of the event loop reaches;
    - [ServerMain]: [parse_args], the tick period, [main] up to serving.

    The runner (src/runner/run.py):
    - [RunnerSpecs], [RunnerThms]: [cpuspec], [parse_cores], the launch plans
      [spec_*] and the table [SERVERS];
    - [Procfs], [ProcfsThms]: [pids_in_groups], [sample_cpu_ticks],
      [sample_rss_kb], the thread [Sampler];
    - [Lifecycle], [LifecycleThms]: [start_server], [wait_ready], [stop_server],
      [run_loadgen], [build] against the class [Kernel] of operating-system
      calls with their documented laws (a process that was sent SIGKILL may run
      on for a while), and [OneGroup], what the runner relies on of the servers:
      that they stay in the process group they were started in;
    - [Matrix], [MatrixThms]: [main]: configuration, rows and their checks, the
      three loops, the messages on standard error;
    - [RunnerCli]: the command line, and the program from its arguments on;
    - [CutShort]: the two files of a run that is stopped at any moment.

    The report (src/runner/plot.py):
    - [PlotData], [PlotThms]: [load], [load_timeline], [series_json] over the
      rows of [csv.DictReader];
    - [PlotHtml], [PlotHtmlThms]: [esc], [table_html], [legend_html],
      [saturation_body], [nice_max], [timeline_svg], [timeline_body];
    - [Results], [ResultsThms]: the two CSV files as the runner writes and the
      report reads them;  [PlotTotal]: on rows that make sense the drawing of
      the timeline raises nothing;
    - [PlotJs], [PlotJsThms]: the script of the page: its numbers, [fmt],
      [niceMax], [render], and the page as a state that clicks change;
    - [PlotAssets]: the texts of style sheet and scripts;  [PlotPage],
      [PlotPageThms]: [build_html], the literal it gives the script, [main] with
      its paths and files;  [PlotCli]: the command line;  [PlotDoc],
      [PlotDocThms]: what a browser finds in the page;
    - [EndToEnd]: from the runner's command line to the report's page.

    ** How state and operations correspond

    A Python object that several references share is modelled as shared: the
    [Room] objects live in a heap [w_heap], [rooms] and each connection's local
    [room] hold indices.  A connection's record has the reader and writer and
    the locals of its [handle].  A coroutine is the code between two awaits; the
    event loop may interleave resumptions in any order, and data, end of stream,
    reader exceptions and write faults may occur at any point ([event]), so the
    invariants hold under every interleaving.  Integers are unbounded as in
    Python; the widths appear in [struct] (which raises) and in the masks.  An
    exception keeps the state changes made before it.

    ** The theorems

    - Rooms: a tick's frame decodes to the abstract game's state; the packing
      raises exactly when a value does not fit; a moving player kills the room
      within 2^32/|v| ticks, no room dies in its first 65536; the deadlines of
      [run] do not drift, and an overloaded room starves the loop.
    - Server: handlers terminate; the segmentation of the stream is irrelevant;
      every client reads whole protocol frames, a JOINED first; ids are unique,
      a live connection finds its player, the number of its players is exact;
      no input makes an exception escape; a turn of one handler touches nothing
      of the others; frames are delivered in order to exactly the members; a
      dead room stays dead; re-JOIN and a wrapped id leave players behind.
    - Runner: plans use every server core once, and tell the runtime how many
      there are; core sets and command lines
      survive printing and parsing; /proc is read correctly for any process
      names; what a stopped server leaves running has been sent SIGKILL, so trials
      are sequential; every row has its file's columns and types, and no suspect row goes
      unmarked, however the run ended; whenever it is stopped, what was recorded
      is on the disk and the report reads it; a Python server that is started
      serves the runner's port at the runner's rate.
    - Report: every number of the file is counted once, where it belongs; the
      charts and the table show its median and nothing else; the rows of a run
      are in the order of time; a browser finds in the page exactly the
      elements and scripts meant, if the names have no double quote and no [<];
      after any clicks a chart is that of a report without the hidden servers; the
      script's number format is Python's except at exact ties and minus zero.
    - From end to end ([matrix_report], [timeline_report], [measured_to_page]):
      whatever was measured survives the way through CSV, JSON and the page
      unchanged, to the points the script draws; and the page is made, from the
      files where the runner put them, by both programs from their command lines
      on, if a trial was recorded, the latencies are 0 or between 10 us and
      10^21 ms, and the page's file is named with its directory.

    ** Bounds

    [handler_fuel], twice the bytes waiting plus 3, is enough for a resumption
    of a handler ([ServerThms.handler_terminates]).  [run_loop] is structural
    in the list of clock readings; [RSpin] is the result of a loop that has used
    them all.  The eight rounds of [PlotHtml.ticks_of] are enough
    ([PlotHtmlThms.ticks_of_spec]).  The JSON scanner gets one more than the
    length of the text, enough for everything [json.dumps] prints
    ([PyJsonThms.json_roundtrip]); the search of [PyRepr.shortest] ends with the
    exact decimal, so [repr] always reads back.  Uniqueness of ids is stated for
    fewer than 9 * 2^32 bytes received: a JOIN takes nine, so the 32-bit counter
    cannot have wrapped.

    ** Not modelled

    asyncio beyond the streams' documented behaviour (flow control, the
    scheduler's fairness), socket options, uvloop; messages on standard output,
    and those that quote the output of a command; the recursion limit of
    [json.loads]; [repr] of a list or dictionary (a parameter); whether the
    server's port can be bound (a parameter); the separator [--] on a command
    line.  The servers and load generators in other languages are outside this
    library.

    [math.log10], [Math.log10] and powers of ten with a negative exponent are
    parameters.  A browser is modelled as far as it tokenizes the page ([Html])
    and the script uses it: numbers, strings, one regular expression, the parts
    of the document it reads and changes.  Members every JavaScript object
    inherits are taken not to be names of servers.  Files are named by
    normalised absolute paths, without links; directories exist or can be made,
    and writing does not fail.

    What is left of the three programs are imports, the start of asyncio, the
    banner and the lines of progress they print, and [Sampler.stop], which the
    list of iterations of [Procfs.sampler_run] stands for. *)

From Stdlib Require Export ZArith Lia.
From stdpp Require Export base numbers strings option.
From stdpp Require Export list_basics list_relations list_monad list_misc list.
Export list_basics.list list_relations.list list_monad.list list_misc.list.

(** ** Python exceptions

    One constructor per exception class the modelled code raises, catches or
    lets through.  [is_connection_error] is the test made by
    [except ConnectionError]. *)

Inductive exn :=
  | IncompleteReadError
  | ConnectionError
  | RuntimeError
  | StructError
  | ValueError
  | IndexError
  | KeyError
  | TypeError
  | AttributeError
  | ZeroDivisionError
  | OverflowError
  | StatisticsError
  | JSONDecodeError
  | CsvError
  | FileNotFoundError
  | SystemExit
  | ProcessLookupError
  | PermissionError
  | OSError
  | TimeoutExpired.

#[export] Instance exn_eq_dec : EqDecision exn.
Proof. solve_decision. Defined.

(** ** The error monad

    [res A] is the outcome of a Python expression: a value or the exception
    that left it. *)

Inductive res (A : Type) :=
  | Ok (a : A)
  | Raise (e : exn).

Arguments Ok {A} a.
Arguments Raise {A} e.

#[export] Instance res_ret : MRet res := fun A a => Ok a.

#[export] Instance res_bind : MBind res := fun A B f m =>
  match m with Ok a => f a | Raise e => Raise e end.

#[export] Instance res_fmap : FMap res := fun A B f m =>
  match m with Ok a => Ok (f a) | Raise e => Raise e end.

#[export] Instance res_eq_dec `{EqDecision A} : EqDecision (res A).
Proof. solve_decision. Defined.

(** [res_of_option e o]: an operation that raises [e] when there is no
    result. *)
Definition res_of_option {A} (e : exn) (o : option A) : res A :=
  match o with Some a => Ok a | None => Raise e end.

Definition is_ok {A} (r : res A) : bool :=
  match r with Ok _ => true | Raise _ => false end.

(** Sequential evaluation of a comprehension whose body may raise: the first
    exception, in list order, wins. *)
Fixpoint res_map {A B} (f : A -> res B) (l : list A) : res (list B) :=
  match l with
  | [] => Ok []
  | x :: l' => y ← f x; ys ← res_map f l'; Ok (y :: ys)
  end.

(** ** State and exceptions

    [st S A]: code that reads and changes a state [S] and returns a value or
    raises; the changes made before an exception stay. *)

Definition st (S A : Type) : Type := S -> S * res A.

#[export] Instance st_ret S : MRet (st S) := fun A a s => (s, Ok a).

#[export] Instance st_bind S : MBind (st S) := fun A B f m s =>
  match m s with
  | (s', Ok a) => f a s'
  | (s', Raise e) => (s', Raise e)
  end.

Definition st_raise {S A} (e : exn) : st S A := fun s => (s, Raise e).
Definition st_lift {S A} (r : res A) : st S A := fun s => (s, r).
Definition st_get {S} : st S S := fun s => (s, Ok s).
Definition st_modify {S} (f : S -> S) : st S () := fun s => (f s, Ok tt).

Lemma st_bind_Ok {S A B} (m : st S A) (f : A -> st S B) s s' a :
  m s = (s', Ok a) -> (m ≫= f) s = f a s'.
Proof. intros Hm. unfold mbind, st_bind. by rewrite Hm. Qed.

Lemma st_bind_Raise {S A B} (m : st S A) (f : A -> st S B) s s' e :
  m s = (s', Raise e) -> (m ≫= f) s = (s', Raise e).
Proof. intros Hm. unfold mbind, st_bind. by rewrite Hm. Qed.

Lemma forallb_elem {A} (f : A -> bool) l x : forallb f l = true -> x ∈ l -> f x = true.
Proof. intros Hall Hx. rewrite forallb_forall in Hall. apply Hall. by apply list_elem_of_In. Qed.

Lemma res_Ok_inj {A} (a b : A) : Ok a = Ok b -> a = b.
Proof. by intros [= ->]. Qed.

Section ResLemmas.
Context {A B : Type}.

Lemma res_bind_Ok (m : res A) (f : A -> res B) b :
  (m ≫= f) = Ok b <-> exists a, m = Ok a /\ f a = Ok b.
Proof.
  destruct m as [a|e]; split; intros H; cbn in *; [eauto| |discriminate|];
    destruct H as (? & ? & ?); by simplify_eq.
Qed.

Lemma res_bind_Raise (m : res A) (f : A -> res B) e :
  (m ≫= f) = Raise e <-> m = Raise e \/ exists a, m = Ok a /\ f a = Raise e.
Proof.
  destruct m as [a|e']; split; intros H; cbn in *; simplify_eq; eauto.
  - destruct H as [?|(? & ? & ?)]; by simplify_eq.
  - destruct H as [?|(? & ? & ?)]; by simplify_eq.
Qed.

Lemma res_map_cons (f : A -> res B) x l :
  res_map f (x :: l) = (y ← f x; ys ← res_map f l; Ok (y :: ys)).
Proof. done. Qed.

Lemma res_map_Ok (f : A -> res B) l ys :
  res_map f l = Ok ys <-> Forall2 (fun x y => f x = Ok y) l ys.
Proof.
  revert ys. induction l as [|x l IH]; intros ys.
  - split; intros H; [cbn in H; simplify_eq; constructor|by inversion H].
  - rewrite res_map_cons. split.
    + intros H. destruct (f x) as [y|] eqn:Hy; [|done]; cbn in H.
      destruct (res_map f l) as [zs|] eqn:Hz; [|done]; cbn in H.
      simplify_eq. constructor; [done|]. by apply IH.
    + intros H. inversion H as [|? y ? zs Hy Hz]; subst.
      apply IH in Hz. by rewrite Hy, Hz.
Qed.

Lemma res_map_ext_Ok (f : A -> res B) (g : A -> B) l :
  (forall x, x ∈ l -> f x = Ok (g x)) -> res_map f l = Ok (g <$> l).
Proof.
  intros H. apply res_map_Ok. induction l; constructor; [apply H; left|].
  apply IHl. intros x Hx. apply H. by right.
Qed.
End ResLemmas.

(** ** Sequences of steps *)

Section Star.
Context {S L : Type} (step : S -> L -> S -> Prop).

(** [star s ls t]: [t] is reached from [s] by the labelled steps [ls]. *)
Inductive star : S -> list L -> S -> Prop :=
  | star_nil s : star s [] s
  | star_cons s l s' ls t : step s l s' -> star s' ls t -> star s (l :: ls) t.

Lemma star_app s ls t ls' u : star s ls t -> star t ls' u -> star s (ls ++ ls') u.
Proof. induction 1; simpl; [done|]. intros. econstructor; eauto. Qed.

Lemma star_one s l t : step s l t -> star s [l] t.
Proof. intros. econstructor; [done|constructor]. Qed.

(** Invariants proved step by step hold along every sequence. *)
Lemma star_invariant (P : S -> Prop) s ls t :
  (forall s l s', P s -> step s l s' -> P s') -> star s ls t -> P s -> P t.
Proof. intros Hstep H. induction H; eauto. Qed.
End Star.

(** ** Lists *)

Definition z_in_range (lo hi z : Z) : bool := ((lo <=? z) && (z <? hi))%Z.

Lemma z_in_range_spec lo hi z : z_in_range lo hi z = true <-> (lo <= z < hi)%Z.
Proof. unfold z_in_range. rewrite andb_true_iff, Z.leb_le, Z.ltb_lt. lia. Qed.

Lemma z_in_range_false lo hi z : z_in_range lo hi z = false <-> ~ (lo <= z < hi)%Z.
Proof. rewrite <- z_in_range_spec. by destruct (z_in_range lo hi z). Qed.

(** [splice off new buf]: the in-place write [buf[off:off+len(new)] = new] of
    an equally long slice; the caller checks the bounds. *)
Definition splice {A} (off : nat) (new buf : list A) : list A :=
  take off buf ++ new ++ drop (off + length new) buf.

Lemma length_splice {A} off (new buf : list A) :
  off + length new <= length buf -> length (splice off new buf) = length buf.
Proof.
  intros H. unfold splice. rewrite !length_app, length_take, length_drop. lia.
Qed.

Lemma splice_app {A} (pre new mid rest : list A) :
  length new = length mid ->
  splice (length pre) new (pre ++ mid ++ rest) = pre ++ new ++ rest.
Proof.
  intros H. unfold splice. rewrite take_app_length, drop_app_ge by lia.
  do 2 f_equal. rewrite drop_app_ge by lia.
  replace (length pre + length new - length pre - length mid) with 0 by lia.
  done.
Qed.

(** Sums of integer lists. *)
Definition zsum (l : list Z) : Z := foldr Z.add 0%Z l.

Lemma zsum_app l1 l2 : zsum (l1 ++ l2) = (zsum l1 + zsum l2)%Z.
Proof. induction l1 as [|z l1 IH]; cbn; [done|]. fold (zsum (l1 ++ l2)) (zsum l1). lia. Qed.

(** ** Automation *)

Create HintDb bench.
#[export] Hint Resolve length_splice : bench.

(** [res_inv H]: decompose a hypothesis [e = Ok v] about a monadic
    expression into one equation per sub-expression. *)
Ltac res_inv H :=
  lazymatch type of H with
  | (_ ≫= _) = Ok _ =>
      let a := fresh "v" in let Ha := fresh "Hv" in
      apply res_bind_Ok in H as (a & Ha & H); res_inv Ha; res_inv H
  | Ok _ = Ok _ => simplify_eq H
  | _ => idtac
  end.

(** [case_bool]: case analysis on every boolean comparison of integers in the
    context and the goal. *)
Ltac zbool :=
  repeat match goal with
  | H : (_ <? _)%Z = true |- _ => apply Z.ltb_lt in H
  | H : (_ <? _)%Z = false |- _ => apply Z.ltb_ge in H
  | H : (_ <=? _)%Z = true |- _ => apply Z.leb_le in H
  | H : (_ <=? _)%Z = false |- _ => apply Z.leb_gt in H
  | H : (_ =? _)%Z = true |- _ => apply Z.eqb_eq in H
  | H : (_ =? _)%Z = false |- _ => apply Z.eqb_neq in H
  | H : _ && _ = true |- _ => apply andb_true_iff in H as [? ?]
  | H : _ || _ = false |- _ => apply orb_false_iff in H as [? ?]
  | H : z_in_range _ _ _ = true |- _ => apply z_in_range_spec in H
  | H : z_in_range _ _ _ = false |- _ => apply z_in_range_false in H
  end.
