(* ===== verification/PyText.v ===== *)
(** * Python text: the [str] operations the program uses

    A Python [str] is the Rocq [string] of its UTF-8 bytes.  [strip], [split()],
    [isdigit] and [int] are given on ASCII text (command lines, /proc files,
    CSV fields), where bytes and characters coincide; splitting on and
    replacing an ASCII character is the same on bytes and on characters.

    - [str_of_Z] is [str(n)], [int_of_str] is [int(s)];
    - [split_char c s] is [s.split(c)], [split_ws s] is [s.split()];
    - [strip], [rfind_char], [slice_from], [startswith], [isdigit],
      [replace_char] are the methods of the same names, [join] is
      [sep.join(l)]. *)

From Stdlib Require Import Ascii String.
From Stdlib Require Import DecimalString DecimalZ DecimalPos DecimalN.
From S2P Require Import Prelude.

Open Scope string_scope.
Open Scope list_scope.

#[global] Arguments String.append : simpl nomatch.

(** ** Characters *)

Definition ascii_code (c : ascii) : Z := Z.of_N (N_of_ascii c).

(** ASCII white space of [str.isspace]: tab, line feed, vertical tab, form
    feed, carriage return, the four separators 0x1c-0x1f, and space. *)
Definition is_space (c : ascii) : bool :=
  z_in_range 9 14 (ascii_code c) || z_in_range 28 33 (ascii_code c).

Definition is_digit (c : ascii) : bool := z_in_range 48 58 (ascii_code c).

Definition digit_val (c : ascii) : Z := (ascii_code c - 48)%Z.

(** ** Strings as lists of characters *)

Fixpoint all_chars (p : ascii -> bool) (s : string) : bool :=
  match s with
  | "" => true
  | String c s' => p c && all_chars p s'
  end.

(** [isdigit]: not empty and only digits. *)
Definition isdigit (s : string) : bool :=
  match s with "" => false | _ => all_chars is_digit s end.

(** [s.startswith(p)] *)
Definition startswith (s p : string) : bool := String.prefix p s.

(** [s[n:]] for [n >= 0] *)
Fixpoint slice_from (n : nat) (s : string) : string :=
  match n, s with
  | O, _ => s
  | S n', String _ s' => slice_from n' s'
  | S _, "" => ""
  end.

(** [s.rfind(c)]: the last index of [c], -1 when it does not occur. *)
Fixpoint rfind_char (c : ascii) (s : string) : Z :=
  match s with
  | "" => -1
  | String d s' =>
      let r := rfind_char c s' in
      if (0 <=? r)%Z then (r + 1)%Z
      else if Ascii.eqb d c then 0%Z else -1
  end.

(** ** Stripping and splitting *)

Fixpoint lstrip (s : string) : string :=
  match s with
  | String c s' => if is_space c then lstrip s' else s
  | "" => ""
  end.

Fixpoint rstrip (s : string) : string :=
  match s with
  | "" => ""
  | String c s' =>
      match rstrip s' with
      | "" => if is_space c then "" else String c ""
      | t => String c t
      end
  end.

Definition strip (s : string) : string := rstrip (lstrip s).

(** [s.split(c)]: never empty; [n] separators give [n+1] parts. *)
Fixpoint split_char (c : ascii) (s : string) : list string :=
  match s with
  | "" => [""]
  | String d s' =>
      if Ascii.eqb d c then "" :: split_char c s'
      else match split_char c s' with
           | [] => [String d ""]
           | w :: ws => String d w :: ws
           end
  end.

(** [s.split()]: the maximal runs of characters that are not white space.
    [cur] is the run being read, [None] between runs. *)
Fixpoint split_ws_go (cur : option string) (s : string) : list string :=
  match s with
  | "" => match cur with None => [] | Some w => [w] end
  | String c s' =>
      if is_space c then
        match cur with
        | None => split_ws_go None s'
        | Some w => w :: split_ws_go None s'
        end
      else split_ws_go (Some (default "" cur +:+ String c "")) s'
  end.

Definition split_ws (s : string) : list string := split_ws_go None s.

(** [sep.join(l)] *)
Definition join (sep : string) (l : list string) : string := String.concat sep l.

(** [s.replace(c, t)] for a one-character [c] *)
Fixpoint replace_char (c : ascii) (t s : string) : string :=
  match s with
  | "" => ""
  | String d s' =>
      (if Ascii.eqb d c then t else String d "") +:+ replace_char c t s'
  end.

(** ** Integers and text *)

(** [str(n)] *)
Definition str_of_Z (z : Z) : string := NilZero.string_of_int (Z.to_int z).

(** The digits of [int(s)]: underscores only between two digits, at least one
    digit. [prev] tells whether the previous character was a digit. *)
Fixpoint parse_digits (prev : bool) (acc : Z) (s : string) : option Z :=
  match s with
  | "" => if prev then Some acc else None
  | String c s' =>
      if is_digit c then parse_digits true (10 * acc + digit_val c)%Z s'
      else if Ascii.eqb c "_" && prev then parse_digits false acc s'
      else None
  end.

(** [int(s)]: surrounding white space, an optional sign, the digits. *)
Definition int_of_str (s : string) : res Z :=
  res_of_option ValueError
    match strip s with
    | String "-" s' => Z.opp <$> parse_digits false 0 s'
    | String "+" s' => parse_digits false 0 s'
    | s' => parse_digits false 0 s'
    end.

(** ** Lemmas on characters *)

Lemma append_nil_r s : s +:+ "" = s.
Proof. induction s as [|c s IH]; cbn; [done|by rewrite IH]. Qed.

Lemma append_assoc s t u : s +:+ (t +:+ u) = (s +:+ t) +:+ u.
Proof. induction s as [|c s IH]; cbn; [done|by rewrite IH]. Qed.

Section Chars.
Lemma all_chars_app p s t : all_chars p (s +:+ t) = all_chars p s && all_chars p t.
Proof. induction s as [|c s IH]; [done|]. cbn. by rewrite IH, andb_assoc. Qed.

Lemma all_chars_impl (p q : ascii -> bool) s :
  (forall c, p c = true -> q c = true) -> all_chars p s = true -> all_chars q s = true.
Proof.
  intros Hpq. induction s as [|c s IH]; [done|]. cbn.
  rewrite !andb_true_iff. intros [? ?]. eauto.
Qed.

Lemma digit_not_space c : is_digit c = true -> is_space c = false.
Proof.
  unfold is_digit, is_space. intros H%z_in_range_spec.
  apply orb_false_iff; split; apply z_in_range_false; lia.
Qed.

(** The characters of [str(n)]. *)
Definition is_int_char (c : ascii) : bool := is_digit c || Ascii.eqb c "-".

Lemma int_char_not_space c : is_int_char c = true -> is_space c = false.
Proof.
  unfold is_int_char. intros [H|H]%orb_true_iff; [by apply digit_not_space|].
  by apply Ascii.eqb_eq in H as ->.
Qed.
End Chars.

(** ** Lemmas on stripping *)

Lemma lstrip_id s : all_chars (fun c => negb (is_space c)) s = true -> lstrip s = s.
Proof.
  destruct s as [|c s]; [done|]. cbn. intros [H _]%andb_true_iff.
  by destruct (is_space c).
Qed.

Lemma rstrip_id s : all_chars (fun c => negb (is_space c)) s = true -> rstrip s = s.
Proof.
  induction s as [|c s IH]; [done|]. cbn. intros [Hc Hs]%andb_true_iff.
  rewrite IH by done. destruct s; [|done]. by destruct (is_space c).
Qed.

Lemma strip_id s : all_chars (fun c => negb (is_space c)) s = true -> strip s = s.
Proof. intros H. unfold strip. by rewrite lstrip_id, rstrip_id. Qed.

(** ** Lemmas on splitting *)

Definition lacks (c : ascii) (s : string) : bool := all_chars (fun d => negb (Ascii.eqb d c)) s.

Lemma lacks_app c s t : lacks c (s +:+ t) = lacks c s && lacks c t.
Proof. apply all_chars_app. Qed.

Lemma digits_lack c s : is_digit c = false -> all_chars is_digit s = true -> lacks c s = true.
Proof.
  intros Hc. apply all_chars_impl. intros d Hd. apply negb_true_iff, Ascii.eqb_neq. intros ->. congruence.
Qed.

Lemma startswith_cons c s p : startswith (String c s) (String c p) = startswith s p.
Proof. unfold startswith. cbn. by destruct (ascii_dec c c). Qed.

Lemma startswith_ne c d s p : c <> d -> startswith (String c s) (String d p) = false.
Proof. intros Hne. unfold startswith. cbn. by destruct (ascii_dec d c) as [->|]. Qed.

Lemma startswith_app old t : startswith (old +:+ t) old = true.
Proof.
  unfold startswith. induction old as [|c old IH]; [by destruct t|]. change (String c old +:+ t) with (String c (old +:+ t)).
  cbn. by destruct (ascii_dec c c).
Qed.

Lemma split_char_lacks c s : lacks c s = true -> split_char c s = [s].
Proof.
  induction s as [|d s IH]; [done|]. cbn. intros [Hd Hs]%andb_true_iff.
  destruct (Ascii.eqb d c); [done|]. by rewrite IH.
Qed.

Lemma split_char_app c s t :
  lacks c s = true -> split_char c (s +:+ String c t) = s :: split_char c t.
Proof.
  induction s as [|d s IH]; cbn.
  - intros _. by rewrite Ascii.eqb_refl.
  - intros [Hd Hs]%andb_true_iff. destruct (Ascii.eqb d c); [done|]. by rewrite IH.
Qed.

Lemma split_char_ne c s : split_char c s <> [].
Proof.
  destruct s as [|d s]; [done|]. cbn. destruct (Ascii.eqb d c); [done|].
  by destruct (split_char c s).
Qed.

(** [c.join(l).split(c) == l] for a list that is not empty and whose parts
    lack [c]. *)
Lemma split_join c l :
  l <> [] -> Forall (fun s => lacks c s = true) l ->
  split_char c (join (String c "") l) = l.
Proof.
  intros Hne Hl. induction Hl as [|s l Hs Hl IH]; [done|].
  destruct l as [|t l]; [by apply split_char_lacks|].
  change (join (String c "") (s :: t :: l))
    with (s +:+ String c (join (String c "") (t :: l))).
  rewrite split_char_app by done. by rewrite IH.
Qed.

Lemma split_char_two c s t : 2 <= length (split_char c (s +:+ String c t)).
Proof.
  induction s as [|d s IH]; cbn.
  - rewrite Ascii.eqb_refl. pose proof (split_char_ne c t).
    destruct (split_char c t); cbn; [done|lia].
  - destruct (Ascii.eqb d c); cbn; [lia|].
    destruct (split_char c (s +:+ String c t)); cbn in *; lia.
Qed.

(** A separator in front: what [split(c)[-1]] returns on ["...:last"]. *)
Lemma last_split_char c s t :
  lacks c t = true -> list.last (split_char c (s +:+ String c t)) = Some t.
Proof.
  intros Ht. induction s as [|d s IH]; cbn.
  - by rewrite Ascii.eqb_refl, (split_char_lacks c t).
  - pose proof (split_char_two c s t) as H2.
    destruct (split_char c (s +:+ String c t)) as [|w [|w' ws]]; cbn in H2; [lia..|].
    by destruct (Ascii.eqb d c).
Qed.

(** ** Lemmas on searching *)

Lemma rfind_char_lacks c s : lacks c s = true -> rfind_char c s = (-1)%Z.
Proof.
  induction s as [|d s IH]; [done|]. cbn. intros [Hd Hs]%andb_true_iff.
  rewrite IH by done. cbn. by destruct (Ascii.eqb d c).
Qed.

Lemma rfind_char_app c s t :
  lacks c t = true -> rfind_char c (s +:+ String c t) = Z.of_nat (String.length s).
Proof.
  intros Ht. induction s as [|d s IH]; cbn.
  - rewrite rfind_char_lacks by done. cbn. by rewrite Ascii.eqb_refl.
  - rewrite IH. destruct (Z.leb_spec 0 (Z.of_nat (String.length s))); lia.
Qed.

Lemma slice_from_app s t : slice_from (String.length s) (s +:+ t) = t.
Proof. induction s; [done|]. cbn. done. Qed.

(** ** Lemmas on [split()] *)

Lemma split_ws_go_word w cur t :
  all_chars (fun c => negb (is_space c)) w = true ->
  split_ws_go (Some cur) (w +:+ t) = split_ws_go (Some (cur +:+ w)) t.
Proof.
  revert cur. induction w as [|c w IH]; intros cur; cbn.
  - intros _. by rewrite append_nil_r.
  - intros [Hc Hw]%andb_true_iff. apply negb_true_iff in Hc. rewrite Hc. cbn.
    rewrite IH by done. by rewrite <- append_assoc.
Qed.

(** A word, then white space, then the rest. *)
Lemma split_ws_cons w c t :
  w <> "" -> all_chars (fun c => negb (is_space c)) w = true -> is_space c = true ->
  split_ws (w +:+ String c t) = w :: split_ws t.
Proof.
  intros Hne Hw Hc. destruct w as [|d w]; [done|]. cbn in Hw.
  apply andb_true_iff in Hw as [Hd%negb_true_iff Hw].
  unfold split_ws. cbn. rewrite Hd. cbn.
  rewrite split_ws_go_word by done. cbn. by rewrite Hc.
Qed.

Lemma split_ws_word w :
  w <> "" -> all_chars (fun c => negb (is_space c)) w = true -> split_ws w = [w].
Proof.
  intros Hne Hw. destruct w as [|d w]; [done|]. cbn in Hw.
  apply andb_true_iff in Hw as [Hd%negb_true_iff Hw].
  unfold split_ws. cbn. rewrite Hd. cbn.
  rewrite <- (append_nil_r w). rewrite split_ws_go_word by done.
  cbn. by rewrite append_nil_r.
Qed.

(** ** [int(str(n)) == n] *)

(** The value of a decimal numeral read after [acc]. *)
Fixpoint uint_value (acc : Z) (d : Decimal.uint) : Z :=
  match d with
  | Decimal.Nil => acc
  | Decimal.D0 d => uint_value (10 * acc) d
  | Decimal.D1 d => uint_value (10 * acc + 1) d
  | Decimal.D2 d => uint_value (10 * acc + 2) d
  | Decimal.D3 d => uint_value (10 * acc + 3) d
  | Decimal.D4 d => uint_value (10 * acc + 4) d
  | Decimal.D5 d => uint_value (10 * acc + 5) d
  | Decimal.D6 d => uint_value (10 * acc + 6) d
  | Decimal.D7 d => uint_value (10 * acc + 7) d
  | Decimal.D8 d => uint_value (10 * acc + 8) d
  | Decimal.D9 d => uint_value (10 * acc + 9) d
  end%Z.

Lemma pos_of_uint_acc_value d p : Z.pos (Pos.of_uint_acc d p) = uint_value (Z.pos p) d.
Proof.
  revert p. induction d as [|d IH|d IH|d IH|d IH|d IH|d IH|d IH|d IH|d IH|d IH];
    intros p; cbn; [done|..]; rewrite IH; f_equal; lia.
Qed.

Lemma of_uint_value d : Z.of_N (Pos.of_uint d) = uint_value 0 d.
Proof. induction d; cbn; [done|done|..]; apply pos_of_uint_acc_value. Qed.

Lemma parse_digits_uint d acc b :
  d <> Decimal.Nil \/ b = true ->
  parse_digits b acc (NilEmpty.string_of_uint d) = Some (uint_value acc d).
Proof.
  revert acc b. induction d as [|d IH|d IH|d IH|d IH|d IH|d IH|d IH|d IH|d IH|d IH];
    intros acc b H; [by destruct H as [?| ->]|..];
    cbn -[digit_val Z.mul]; rewrite IH by (by right); do 2 f_equal;
    match goal with |- context [digit_val ?c] =>
      let v := eval vm_compute in (digit_val c) in change (digit_val c) with v end; lia.
Qed.

Lemma all_digits_uint d : all_chars is_digit (NilEmpty.string_of_uint d) = true.
Proof. induction d; cbn; done. Qed.

Lemma nilzero_uint d :
  NilZero.string_of_uint d =
  NilEmpty.string_of_uint (match d with Decimal.Nil => Decimal.D0 Decimal.Nil | _ => d end).
Proof. by destruct d. Qed.

Lemma all_digits_nilzero d : all_chars is_digit (NilZero.string_of_uint d) = true.
Proof. rewrite nilzero_uint. apply all_digits_uint. Qed.

Lemma nilzero_ne d : NilZero.string_of_uint d <> "".
Proof. by destruct d. Qed.

Lemma parse_digits_nilzero d :
  parse_digits false 0 (NilZero.string_of_uint d) = Some (Z.of_N (Pos.of_uint d)).
Proof.
  rewrite nilzero_uint, of_uint_value. destruct d; (rewrite parse_digits_uint by (by left)); done.
Qed.

Lemma str_of_Z_chars z : all_chars is_int_char (str_of_Z z) = true.
Proof.
  unfold str_of_Z, NilZero.string_of_int.
  assert (forall d, all_chars is_int_char (NilZero.string_of_uint d) = true) as H.
  { intros d. apply (all_chars_impl is_digit); [|apply all_digits_nilzero].
    intros c Hc. unfold is_int_char. by rewrite Hc. }
  destruct (Z.to_int z); [apply H|]. cbn. apply H.
Qed.

Lemma str_of_Z_ne z : str_of_Z z <> "".
Proof.
  unfold str_of_Z, NilZero.string_of_int.
  destruct (Z.to_int z) as [d|d]; [apply nilzero_ne|done].
Qed.

Lemma str_of_Z_lacks c z : is_int_char c = false -> lacks c (str_of_Z z) = true.
Proof.
  intros Hc. apply (all_chars_impl is_int_char); [|apply str_of_Z_chars].
  intros d Hd. apply negb_true_iff. apply not_true_iff_false.
  intros ->%Ascii.eqb_eq. congruence.
Qed.

Lemma str_of_Z_no_space z : all_chars (fun c => negb (is_space c)) (str_of_Z z) = true.
Proof.
  apply (all_chars_impl is_int_char); [|apply str_of_Z_chars].
  intros c Hc. by rewrite int_char_not_space.
Qed.

Lemma str_of_Z_nonneg z : (0 <= z)%Z -> all_chars is_digit (str_of_Z z) = true.
Proof.
  intros Hz. unfold str_of_Z, NilZero.string_of_int.
  destruct z as [|p|p]; [done| |lia]. apply all_digits_nilzero.
Qed.

Lemma isdigit_str_of_Z z : (0 <= z)%Z -> isdigit (str_of_Z z) = true.
Proof.
  intros Hz. pose proof (str_of_Z_nonneg z Hz). pose proof (str_of_Z_ne z).
  by destruct (str_of_Z z).
Qed.

(** The digits read back whatever comes first is not a sign. *)
Lemma int_of_digits s z :
  all_chars is_digit s = true -> parse_digits false 0 s = Some z -> int_of_str s = Ok z.
Proof.
  intros Hs Hp. unfold int_of_str. rewrite strip_id.
  2:{ apply (all_chars_impl is_digit); [|done].
      intros c Hc. by rewrite digit_not_space. }
  destruct s as [|c s]; [done|]. cbn in Hs. apply andb_true_iff in Hs as [Hc _].
  assert (c <> "-"%char /\ c <> "+"%char) as [H1 H2] by (split; intros ->; done).
  destruct c as [[] [] [] [] [] [] [] []]; try (by rewrite Hp); done.
Qed.

Lemma int_of_neg_digits s z :
  all_chars is_digit s = true -> parse_digits false 0 s = Some z ->
  int_of_str (String "-" s) = Ok (- z)%Z.
Proof.
  intros Hs Hp. unfold int_of_str. rewrite strip_id.
  - by rewrite Hp.
  - cbn. apply (all_chars_impl is_digit); [|done].
    intros c Hc. by rewrite digit_not_space.
Qed.

(** [int(str(n)) == n]. *)
Lemma int_of_str_of_Z z : int_of_str (str_of_Z z) = Ok z.
Proof.
  rewrite <- (DecimalZ.of_to z) at 2. unfold str_of_Z.
  destruct (Z.to_int z) as [d|d]; cbn.
  - apply int_of_digits; [apply all_digits_nilzero|apply parse_digits_nilzero].
  - apply int_of_neg_digits; [apply all_digits_nilzero|apply parse_digits_nilzero].
Qed.

#[export] Instance str_of_Z_inj : Inj (=) (=) str_of_Z.
Proof.
  intros x y H. pose proof (int_of_str_of_Z x) as Hx.
  rewrite H, int_of_str_of_Z in Hx. congruence.
Qed.

#[export] Hint Resolve str_of_Z_chars str_of_Z_ne str_of_Z_no_space
  str_of_Z_nonneg : bench.
#[export] Hint Rewrite int_of_str_of_Z : bench.
