(* ===== verification/PyPath.v ===== *)
(** * Paths: the functions of [os.path] (posixpath)

    - [path_join], [normpath], [abspath], [dirname] are the functions of those
      names; [abspath] is given the current directory;
    - [makedirs] is [os.makedirs(d, exist_ok=True)] as far as it fails whatever
      the files are;
    - a path names the file of its absolute path: links are left out;
    - [program_root] is where a program finds its project;
    - [sibling_path]: a file next to another is found through the absolute path
      as through the path. *)

From Stdlib Require Import Ascii String ZArith Lia.
From S2P Require Import Prelude PyText.

Open Scope string_scope.
Open Scope list_scope.
Open Scope Z_scope.

(** [os.path.join(a, b)] *)
Definition path_join (a b : string) : string :=
  if startswith b "/" then b
  else if bool_decide (a = "") || bool_decide (rfind_char "/"%char a = Z.of_nat (String.length a) - 1)
  then a +:+ b
  else a +:+ "/" +:+ b.

(** The loop of [os.path.normpath] over the components. *)
Definition norm_step (rooted : bool) (comps : list string) (comp : string) : list string :=
  if bool_decide (comp = "" \/ comp = ".") then comps
  else if negb (bool_decide (comp = "..")) || (negb rooted && bool_decide (comps = []))
          || bool_decide (list.last comps = Some "..")
  then comps ++ [comp]
  else take (pred (length comps)) comps.

Definition initial_slashes (p : string) : string :=
  if startswith p "//" && negb (startswith p "///") then "//"
  else if startswith p "/" then "/" else "".

Definition normpath (p : string) : string :=
  let root := initial_slashes p in
  let comps := foldl (norm_step (negb (bool_decide (root = "")))) [] (split_char "/" p) in
  let q := root +:+ join "/" comps in
  if bool_decide (q = "") then "." else q.

(** [os.path.abspath], in the directory [cwd] *)
Definition abspath (cwd p : string) : string := normpath (path_join cwd p).

(** [head.rstrip("/")] *)
Fixpoint rstrip_slash (s : string) : string :=
  match s with
  | "" => ""
  | String c s' =>
      let r := rstrip_slash s' in
      if bool_decide (r = "") && Ascii.eqb c "/" then "" else String c r
  end.

(** [os.path.dirname]: a head of slashes only is kept. *)
Definition dirname (p : string) : string :=
  let head := substring 0 (Z.to_nat (rfind_char "/"%char p + 1)) p in
  if bool_decide (rstrip_slash head = "") then head else rstrip_slash head.

(** [os.path.dirname(os.path.dirname(os.path.abspath(__file__)))] *)
Definition program_root (cwd file : string) : string := dirname (dirname (abspath cwd file)).

(** [os.makedirs(d, exist_ok=True)] cannot make the directory "". *)
Definition makedirs (d : string) : res () := if bool_decide (d = "") then Raise FileNotFoundError else Ok tt.

Example paths_ex :
  abspath "/home/x" "../y//./z.csv" = "/home/y/z.csv" /\ abspath "/" "../../a/.." = "/" /\
  abspath "/home" "//a/b" = "//a/b" /\ abspath "/home" "///a" = "/a" /\ normpath "../a/../../b" = "../../b" /\
  dirname "/a/b.csv" = "/a" /\ dirname "b.csv" = "" /\ dirname "/b" = "/" /\ dirname "a//b" = "a" /\
  path_join "a/" "b" = "a/b" /\ path_join "a" "/b" = "/b".
Proof. vm_compute. repeat split; reflexivity. Qed.

(** ** Components *)

(** The components of [p], after those of [l]. *)
Definition walk (p : string) (l : list string) : list string := foldl (norm_step true) l (split_char "/" p).

Lemma split_char_cat c s t : split_char c (s +:+ String c t) = split_char c s ++ split_char c t.
Proof.
  induction s as [|d s IH].
  - change ("" +:+ String c t) with (String c t). cbn [split_char]. by rewrite Ascii.eqb_refl.
  - change (String d s +:+ String c t) with (String d (s +:+ String c t)). cbn [split_char]. rewrite IH.
    destruct (Ascii.eqb d c); [done|]. pose proof (split_char_ne c s). by destruct (split_char c s).
Qed.

Lemma walk_slash p q l : walk (p +:+ "/" +:+ q) l = walk q (walk p l).
Proof. unfold walk. change ("/" +:+ q) with (String "/" q). by rewrite split_char_cat, foldl_app. Qed.

Lemma walk_empty l : walk "" l = l.
Proof. done. Qed.

(** A name: neither empty nor a dot or two, and without slashes. *)
Definition path_name (c : string) : Prop := lacks "/" c = true /\ c <> "" /\ c <> "." /\ c <> "..".

Lemma norm_step_name l c : path_name c -> norm_step true l c = l ++ [c].
Proof.
  intros (_ & H1 & H2 & H3). unfold norm_step. rewrite bool_decide_eq_false_2 by tauto.
  by rewrite bool_decide_eq_false_2.
Qed.

Lemma walk_name l c : path_name c -> walk c l = l ++ [c].
Proof. intros Hc. unfold walk. rewrite split_char_lacks by apply Hc. by apply norm_step_name. Qed.

Lemma walk_names cs l : Forall path_name cs -> walk (join "/" cs) l = l ++ cs.
Proof.
  intros Hcs. destruct cs as [|c cs]; [by rewrite app_nil_r|]. revert c l Hcs.
  induction cs as [|c' cs IH]; intros c l [Hc Hcs]%Forall_cons; [by apply walk_name|].
  change (join "/" (c :: c' :: cs)) with (c +:+ "/" +:+ join "/" (c' :: cs)).
  rewrite walk_slash, (walk_name l c), IH by done. by rewrite <- (assoc_L (++)).
Qed.

(** All the components kept are names. *)
Lemma norm_step_names l c : lacks "/" c = true -> Forall path_name l -> Forall path_name (norm_step true l c).
Proof.
  intros Hc Hl. unfold norm_step. destruct (bool_decide (c = "" \/ c = ".")) eqn:H1; [done|].
  apply bool_decide_eq_false in H1. destruct (bool_decide (c = "..")) eqn:H2; cbn [negb orb andb].
  - destruct (bool_decide (list.last l = Some "..")) eqn:Hlast; [|by apply Forall_take].
    apply bool_decide_eq_true, last_Some_elem_of in Hlast. rewrite Forall_forall in Hl.
    by destruct (Hl _ Hlast) as (_ & _ & _ & ?).
  - apply bool_decide_eq_false in H2. apply Forall_app. split; [done|]. constructor; [|done]. repeat split; tauto.
Qed.

Lemma split_lacks c s : Forall (fun t => lacks c t = true) (split_char c s).
Proof.
  induction s as [|d s IH]; [by repeat constructor|]. cbn [split_char]. destruct (Ascii.eqb d c) eqn:Hd; [by constructor|].
  destruct (split_char c s) as [|w ws]; [constructor; [|done]|apply Forall_cons in IH as [Hw Hws]; constructor; [|done]];
    unfold lacks in *; cbn [all_chars]; by rewrite Hd.
Qed.

Lemma walk_path_names p l : Forall path_name l -> Forall path_name (walk p l).
Proof.
  unfold walk. pose proof (split_lacks "/" p) as Hp. revert l. induction Hp as [|c cs Hc _ IH]; intros l Hl; [done|].
  cbn [foldl]. by apply IH, norm_step_names.
Qed.

(** ** Slashes at the ends *)

Lemma rstrip_slash_app s t :
  rstrip_slash (s +:+ t) = if bool_decide (rstrip_slash t = "") then rstrip_slash s else s +:+ rstrip_slash t.
Proof.
  induction s as [|c s IH].
  - change ("" +:+ t) with t. case_bool_decide as H; [by rewrite H|done].
  - change (String c s +:+ t) with (String c (s +:+ t)). cbn [rstrip_slash]. rewrite IH.
    destruct (bool_decide (rstrip_slash t = "")) eqn:H; [done|]. apply bool_decide_eq_false in H.
    rewrite bool_decide_eq_false_2; [done|]. by destruct s.
Qed.

Lemma rstrip_slash_lacks s : lacks "/" s = true -> rstrip_slash s = s.
Proof.
  induction s as [|c s IH]; [done|]. intros [Hc%negb_true_iff Hs]%andb_true_iff. cbn [rstrip_slash].
  by rewrite IH, Hc, andb_false_r.
Qed.

(** What is cut off is slashes. *)
Lemma rstrip_slash_spec s : exists u, s = rstrip_slash s +:+ u /\ rstrip_slash u = "".
Proof.
  induction s as [|c s (u & Hu & Hr)]; [by exists ""|]. cbn [rstrip_slash].
  destruct (bool_decide (rstrip_slash s = "") && Ascii.eqb c "/") eqn:Hc; [|exists u; split; [cbn; by f_equal|done]].
  apply andb_true_iff in Hc as [Hs%bool_decide_eq_true Hc]. exists (String c s). split; [done|]. cbn [rstrip_slash].
  by rewrite Hs, Hc.
Qed.

Lemma walk_slashes u l : rstrip_slash u = "" -> walk u l = l.
Proof.
  induction u as [|c u IH]; [done|]. cbn [rstrip_slash].
  destruct (bool_decide (rstrip_slash u = "") && Ascii.eqb c "/") eqn:Hc; [|done].
  apply andb_true_iff in Hc as [Hu%bool_decide_eq_true ->%Ascii.eqb_eq]. intros _.
  change (String "/" u) with ("" +:+ "/" +:+ u). by rewrite walk_slash, walk_empty, IH.
Qed.

Lemma walk_rstrip s l : walk (rstrip_slash s) l = walk s l.
Proof.
  destruct (rstrip_slash_spec s) as (u & Hs & Hu). destruct u as [|c u].
  - by rewrite append_nil_r in Hs; rewrite <- Hs.
  - assert (c = "/"%char /\ rstrip_slash u = "") as [-> Hu'].
    { cbn [rstrip_slash] in Hu. destruct (bool_decide (rstrip_slash u = "") && Ascii.eqb c "/") eqn:Hc; [|done].
      apply andb_true_iff in Hc as [H1%bool_decide_eq_true H2%Ascii.eqb_eq]. done. }
    rewrite Hs at 2. change (String "/" u) with ("/" +:+ u). by rewrite walk_slash, (walk_slashes u).
Qed.

(** ** Joining *)

Definition ends_slash (a : string) : bool := bool_decide (rfind_char "/" a = Z.of_nat (String.length a) - 1).

Lemma rfind_char_bounds c s : -1 <= rfind_char c s < Z.of_nat (String.length s).
Proof.
  induction s as [|d s IH]; cbn [rfind_char String.length]; [lia|]. destruct (Z.leb_spec 0 (rfind_char c s)); [lia|].
  destruct (Ascii.eqb d c); lia.
Qed.

Lemma ends_slash_cons c s : s <> "" -> ends_slash (String c s) = ends_slash s.
Proof.
  intros Hs. unfold ends_slash. apply bool_decide_ext. cbn [rfind_char String.length]. pose proof (rfind_char_bounds "/" s).
  assert (0 < Z.of_nat (String.length s)) by (destruct s; cbn; [done|lia]).
  destruct (Z.leb_spec 0 (rfind_char "/" s)); [lia|]. destruct (Ascii.eqb c "/"); lia.
Qed.

Lemma ends_slash_false a : a <> "" -> rstrip_slash a = a -> ends_slash a = false.
Proof.
  induction a as [|c a IH]; [done|]. intros _. cbn [rstrip_slash].
  destruct (bool_decide (rstrip_slash a = "") && Ascii.eqb c "/") eqn:Hc; [done|]. intros [= Ha].
  destruct a as [|d a]; [|rewrite ends_slash_cons by done; by apply IH].
  change (Ascii.eqb c "/" = false) in Hc. unfold ends_slash. cbn [rfind_char String.length]. by rewrite Hc.
Qed.

Lemma ends_slash_true a : a <> "" -> rstrip_slash a = "" -> ends_slash a = true.
Proof.
  induction a as [|c a IH]; [done|]. intros _. cbn [rstrip_slash].
  destruct (bool_decide (rstrip_slash a = "") && Ascii.eqb c "/") eqn:Hc; [|done]. intros _.
  apply andb_true_iff in Hc as [Ha%bool_decide_eq_true ->%Ascii.eqb_eq].
  destruct a as [|d a]; [done|]. rewrite ends_slash_cons by done. by apply IH.
Qed.

Lemma ends_slash_split a : a <> "" -> ends_slash a = true -> exists a', a = a' +:+ "/".
Proof.
  induction a as [|c a IH]; [done|]. intros _. destruct a as [|d a].
  - unfold ends_slash. cbn. destruct (Ascii.eqb c "/") eqn:Hc; [|done]. apply Ascii.eqb_eq in Hc as ->. by exists "".
  - rewrite ends_slash_cons by done. intros [a' Ha]%IH; [|done]. exists (String c a'). cbn. by f_equal.
Qed.

(** Where [path_join] puts a relative path. *)
Definition join_sep (a : string) : string := if bool_decide (a = "") || ends_slash a then "" else "/".

Lemma path_join_rel a b : startswith b "/" = false -> path_join a b = a +:+ join_sep a +:+ b.
Proof. intros Hb. unfold path_join, join_sep, ends_slash. rewrite Hb. by destruct (_ || _). Qed.

Lemma walk_join a b l : startswith b "/" = false -> walk (path_join a b) l = walk b (walk a l).
Proof.
  intros Hb. rewrite path_join_rel by done. unfold join_sep. destruct (bool_decide (a = "")) eqn:Ha.
  { apply bool_decide_eq_true in Ha as ->. done. }
  apply bool_decide_eq_false in Ha. destruct (ends_slash a) eqn:He; [|apply walk_slash].
  destruct (ends_slash_split a Ha He) as [a' ->].
  change (if false || true then "" else "/") with "". change ("" +:+ b) with b.
  rewrite <- append_assoc, walk_slash. change (a' +:+ "/") with (a' +:+ "/" +:+ ""). by rewrite walk_slash.
Qed.

(** ** The root *)

Lemma initial_slashes_rel p : startswith p "/" = false -> initial_slashes p = "".
Proof.
  intros Hp. unfold initial_slashes. rewrite Hp. destruct p as [|c p]; [done|].
  destruct (decide (c = "/"%char)) as [->|Hc]; [|by rewrite startswith_ne by done].
  rewrite startswith_cons in Hp. by destruct p.
Qed.

Lemma initial_slashes_cons c p : c <> "/"%char -> initial_slashes (String c p) = "".
Proof. intros Hc. apply initial_slashes_rel. by rewrite startswith_ne. Qed.

Lemma initial_slashes_slash p :
  initial_slashes (String "/" p) = if startswith p "/" && negb (startswith p "//") then "//" else "/".
Proof.
  unfold initial_slashes. rewrite !startswith_cons. assert (startswith p "" = true) as -> by by destruct p. done.
Qed.

Lemma startswith_char c d p : startswith (String c p) (String d "") = Ascii.eqb c d.
Proof.
  destruct (decide (c = d)) as [->|Hc].
  - rewrite startswith_cons, Ascii.eqb_refl. by destruct p.
  - rewrite startswith_ne by done. symmetry. by apply Ascii.eqb_neq.
Qed.

(** The root of [s ++ x] is in [s], if [x] begins with no slash, or [s] ends
    with none. *)
Lemma initial_slashes_app s x y :
  startswith x "/" = false -> startswith y "/" = false -> initial_slashes (s +:+ x) = initial_slashes (s +:+ y).
Proof.
  intros Hx Hy. destruct s as [|c s]; [by rewrite !initial_slashes_rel|].
  change (String c s +:+ ?z) with (String c (s +:+ z)).
  destruct (decide (c = "/"%char)) as [->|Hc]; [|by rewrite !initial_slashes_cons]. rewrite !initial_slashes_slash.
  destruct s as [|d s]; [change ("" +:+ ?z) with z; by rewrite Hx, Hy|].
  change (String d s +:+ ?z) with (String d (s +:+ z)). rewrite !startswith_char.
  destruct (decide (d = "/"%char)) as [->|Hd]; [|by apply Ascii.eqb_neq in Hd as ->]. rewrite !startswith_cons.
  destruct s as [|e s]; [change ("" +:+ ?z) with z; by rewrite Hx, Hy|].
  change (String e s +:+ ?z) with (String e (s +:+ z)). by rewrite !startswith_char.
Qed.

Lemma rstrip_slash_tail c s : rstrip_slash (String c s) = String c s -> rstrip_slash s = s /\ (s = "" -> c <> "/"%char).
Proof.
  cbn [rstrip_slash]. destruct (bool_decide (rstrip_slash s = "") && Ascii.eqb c "/") eqn:Hc; [done|]. intros [= Hs].
  split; [done|]. intros -> ->. done.
Qed.

Lemma initial_slashes_stripped s x y :
  s <> "" -> rstrip_slash s = s -> initial_slashes (s +:+ x) = initial_slashes (s +:+ y).
Proof.
  destruct s as [|c s]; [done|]. intros _ [Hs H1]%rstrip_slash_tail. change (String c s +:+ ?z) with (String c (s +:+ z)).
  destruct (decide (c = "/"%char)) as [->|Hc]; [|by rewrite !initial_slashes_cons]. rewrite !initial_slashes_slash.
  destruct s as [|d s]; [by destruct (H1 eq_refl)|]. apply rstrip_slash_tail in Hs as [Hs H2].
  change (String d s +:+ ?z) with (String d (s +:+ z)). rewrite !startswith_char.
  destruct (decide (d = "/"%char)) as [->|Hd]; [|by apply Ascii.eqb_neq in Hd as ->]. rewrite !startswith_cons.
  destruct s as [|e s]; [by destruct (H2 eq_refl)|].
  change (String e s +:+ ?z) with (String e (s +:+ z)). by rewrite !startswith_char.
Qed.

(** ** Absolute paths *)

Definition root (r : string) : Prop := r = "/" \/ r = "//".

Lemma initial_slashes_root p : startswith p "/" = true -> root (initial_slashes p).
Proof. intros Hp. unfold initial_slashes. rewrite Hp. destruct (_ && _); [by right|by left]. Qed.

Lemma normpath_root p :
  startswith p "/" = true -> normpath p = initial_slashes p +:+ join "/" (walk p []).
Proof.
  intros Hp. unfold normpath. destruct (initial_slashes_root p Hp) as [-> | ->]; reflexivity.
Qed.

Lemma join_names_rel cs : Forall path_name cs -> startswith (join "/" cs) "/" = false.
Proof.
  intros Hcs. destruct Hcs as [|c cs (Hc & Hne & _) _]; [done|]. destruct c as [|x c]; [done|].
  apply andb_true_iff in Hc as [Hx%negb_true_iff _].
  assert (exists s, join "/" (String x c :: cs) = String x s) as [s ->] by by destruct cs; eexists.
  by rewrite startswith_char.
Qed.

Lemma walk_root r cs : root r -> Forall path_name cs -> walk (r +:+ join "/" cs) [] = cs.
Proof.
  intros [-> | ->] Hcs.
  - change ("/" +:+ join "/" cs) with ("" +:+ "/" +:+ join "/" cs). by rewrite walk_slash, walk_empty, walk_names.
  - change ("//" +:+ join "/" cs) with ("/" +:+ "/" +:+ join "/" cs). by rewrite walk_slash, walk_names.
Qed.

Lemma root_slashes r s : root r -> startswith s "/" = false -> initial_slashes (r +:+ s) = r.
Proof. intros [-> | ->] Hs; by rewrite (initial_slashes_app _ s "") by done. Qed.

Lemma root_startswith r s : root r -> startswith (r +:+ s) "/" = true.
Proof. intros [-> | ->]; by destruct s. Qed.

(** A path in normal form. *)
Lemma normpath_names r cs : root r -> Forall path_name cs -> normpath (r +:+ join "/" cs) = r +:+ join "/" cs.
Proof.
  intros Hr Hcs. rewrite normpath_root by by apply root_startswith.
  by rewrite root_slashes, walk_root by (done || by apply join_names_rel).
Qed.

Lemma join_snoc cs c : cs <> [] -> join "/" (cs ++ [c]) = join "/" cs +:+ "/" +:+ c.
Proof.
  induction cs as [|d cs IH]; [done|]. intros _. destruct cs as [|e cs]; [done|].
  change (join "/" ((d :: e :: cs) ++ [c])) with (d +:+ "/" +:+ join "/" ((e :: cs) ++ [c])).
  rewrite IH by done. change (join "/" (d :: e :: cs)) with (d +:+ "/" +:+ join "/" (e :: cs)).
  by rewrite !append_assoc.
Qed.

Lemma rstrip_slash_join cs : cs <> [] -> Forall path_name cs -> rstrip_slash (join "/" cs) = join "/" cs.
Proof.
  intros Hne Hcs. destruct cs as [|c cs] using rev_ind; [done|]. apply Forall_app in Hcs as [_ [(Hl & Hc & _) _]%Forall_cons].
  assert (rstrip_slash c = c) as Hr by by apply rstrip_slash_lacks.
  destruct cs as [|d cs]; [done|]. rewrite join_snoc by done.
  rewrite append_assoc, rstrip_slash_app, Hr. by rewrite bool_decide_eq_false_2.
Qed.

(** ** The directory of a file *)

Lemma substring_prefix s t : substring 0 (String.length s) (s +:+ t) = s.
Proof. induction s as [|c s IH]; [by destruct t|]. cbn. f_equal. exact IH. Qed.

Lemma dirname_slash h b :
  lacks "/" b = true ->
  dirname (h +:+ "/" +:+ b) =
    if bool_decide (rstrip_slash (h +:+ "/") = "") then h +:+ "/" else rstrip_slash (h +:+ "/").
Proof.
  intros Hb. unfold dirname. change ("/" +:+ b) with (String "/" b). rewrite rfind_char_app by done.
  assert (substring 0 (Z.to_nat (Z.of_nat (String.length h) + 1)) (h +:+ String "/" b) = h +:+ "/") as ->; [|done].
  assert (h +:+ String "/" b = (h +:+ "/") +:+ b) as -> by by rewrite <- append_assoc.
  assert (Z.to_nat (Z.of_nat (String.length h) + 1) = String.length (h +:+ "/")) as ->.
  { clear. induction h as [|c h IH]; cbn in *; lia. }
  apply substring_prefix.
Qed.

Lemma dirname_bare b : lacks "/" b = true -> dirname b = "".
Proof.
  intros Hb. unfold dirname. rewrite rfind_char_lacks by done. change (Z.to_nat (-1 + 1)) with 0%nat.
  assert (substring 0 0 b = "") as -> by by destruct b. done.
Qed.

(** The other file of a directory, by its absolute path. *)
Lemma sibling_abs r cs b t :
  root r -> Forall path_name cs -> path_name b -> path_name t ->
  path_join (dirname (r +:+ join "/" (cs ++ [b]))) t = r +:+ join "/" (cs ++ [t]).
Proof.
  intros Hr Hcs Hb Ht. assert (startswith t "/" = false) as Hrel by (apply (join_names_rel [t]); by constructor).
  destruct cs as [|c cs].
  - cbn [app join]. assert (exists h, r = h +:+ "/") as [h Hh] by (destruct Hr as [-> | ->]; [by exists ""|by exists "/"]).
    assert (rstrip_slash r = "" /\ r <> "") as [Hrs Hne] by by destruct Hr as [-> | ->].
    change (String.concat "/" [b]) with b. change (String.concat "/" [t]) with t.
    rewrite Hh at 1. rewrite <- append_assoc, dirname_slash by apply Hb. rewrite <- Hh, Hrs. cbn [bool_decide].
    rewrite bool_decide_eq_true_2 by done. rewrite path_join_rel by done. unfold join_sep.
    by rewrite ends_slash_true, orb_true_r.
  - rewrite !join_snoc by done. set (j := join "/" (c :: cs)).
    assert (rstrip_slash j = j /\ j <> "") as [Hj Hjne].
    { split; [by apply rstrip_slash_join|]. subst j. apply Forall_cons in Hcs as [(_ & Hne & _) _]. by destruct c, cs. }
    assert (rstrip_slash (r +:+ j) = r +:+ j) as Hd by (rewrite rstrip_slash_app, Hj; by rewrite bool_decide_eq_false_2).
    assert (r +:+ j <> "") as Hne by (destruct Hr as [-> | ->]; done).
    rewrite (append_assoc r), dirname_slash by apply Hb.
    rewrite (rstrip_slash_app (r +:+ j)). change (rstrip_slash "/") with "". cbv beta.
    rewrite (bool_decide_eq_true_2 ("" = "")) by done. rewrite Hd, bool_decide_eq_false_2 by done.
    rewrite path_join_rel by done. unfold join_sep. rewrite bool_decide_eq_false_2, ends_slash_false by done.
    by rewrite !append_assoc.
Qed.

(** The path of a file: its last component is a name. *)
Definition file_path (p : string) : Prop := path_name p \/ exists h b, p = h +:+ "/" +:+ b /\ path_name b.

Lemma file_path_ne p : file_path p -> p <> "".
Proof. intros [(_ & Hp & _)|(h & b & -> & _)]; [done|]. by destruct h. Qed.

Lemma path_name_rel t : path_name t -> startswith t "/" = false.
Proof. intros Ht. apply (join_names_rel [t]). by constructor. Qed.

Lemma startswith_first s x y : s <> "" -> startswith (s +:+ x) "/" = startswith (s +:+ y) "/".
Proof. destruct s as [|c s]; [done|]. intros _. change (String c s +:+ ?z) with (String c (s +:+ z)). by rewrite !startswith_char. Qed.

(** [p] and the other file of its directory have the same root and the same
    components but the last. *)
Lemma dirname_sibling p t :
  file_path p -> path_name t ->
  let q := path_join (dirname p) t in
  startswith q "/" = startswith p "/" /\
  (startswith p "/" = true -> initial_slashes q = initial_slashes p) /\
  exists b, path_name b /\ forall l, exists cs, (walk p l = cs ++ [b] /\ walk q l = cs ++ [t]) /\ (Forall path_name l -> Forall path_name cs).
Proof.
  intros Hp Ht. pose proof (path_name_rel t Ht) as Htr. destruct Hp as [Hb|(h & b & -> & Hb)]; cbv zeta.
  - rewrite dirname_bare by apply Hb. change (path_join "" t) with (if startswith t "/" then t else t).
    assert ((if startswith t "/" then t else t) = t) as -> by by destruct (startswith t "/").
    rewrite Htr, (path_name_rel p Hb). split_and!; [done..|]. exists p. split; [done|]. intros l. exists l.
    by rewrite !walk_name.
  - rewrite dirname_slash by apply Hb. set (e := h +:+ "/"). set (d := if bool_decide (rstrip_slash e = "") then e else rstrip_slash e).
    assert (h +:+ "/" +:+ b = e +:+ b) as Hpe by (unfold e; by rewrite <- append_assoc).
    assert (forall l, walk d l = walk h l) as Hd.
    { intros l. assert (walk e l = walk h l) as <- by (unfold e; change "/" with ("/" +:+ ""); by rewrite walk_slash).
      unfold d. destruct (bool_decide _); [done|apply walk_rstrip]. }
    assert (exists s x y, s <> "" /\ h +:+ "/" +:+ b = s +:+ x /\ path_join d t = s +:+ y /\
      initial_slashes (s +:+ y) = initial_slashes (s +:+ x)) as (s & x & y & Hs & Hx & Hy & Hi).
    { rewrite Hpe, path_join_rel by done. unfold join_sep, d. destruct (bool_decide (rstrip_slash e = "")) eqn:Hr.
      - apply bool_decide_eq_true in Hr. assert (e <> "") as Hne by (unfold e; by destruct h).
        exists e, b, t. rewrite ends_slash_true, orb_true_r by done. split_and!; [done..|].
        by apply initial_slashes_app, path_name_rel.
      - apply bool_decide_eq_false in Hr. destruct (rstrip_slash_spec e) as (u & Hu & Hu').
        assert (rstrip_slash (rstrip_slash e) = rstrip_slash e) as Hi.
        { rewrite Hu at 2. rewrite rstrip_slash_app, Hu'. by rewrite bool_decide_eq_true_2. }
        exists (rstrip_slash e), (u +:+ b), ("/" +:+ t). rewrite bool_decide_eq_false_2, ends_slash_false by done.
        split_and!; [done| |done|by apply initial_slashes_stripped]. rewrite append_assoc, <- Hu. done. }
    split; [rewrite Hx, Hy; by apply startswith_first|]. split; [by rewrite Hx, Hy|]. exists b. split; [done|].
    intros l. exists (walk h l). split; [|apply walk_path_names].
    by rewrite walk_slash, walk_join, Hd, (walk_name _ b), (walk_name _ t).
Qed.

(** The other file of a directory, by path or by absolute path. *)
Lemma sibling_path cwd p t :
  startswith cwd "/" = true -> file_path p -> path_name t ->
  let q := path_join (dirname (abspath cwd p)) t in
  q = abspath cwd (path_join (dirname p) t) /\ abspath cwd q = q.
Proof.
  intros Hcwd Hp Ht. pose proof (dirname_sibling p t Hp Ht) as (Hst & Hin & b & Hb & Hcs).
  set (s := path_join (dirname p) t) in *.
  assert (forall x, startswith (path_join cwd x) "/" = true) as Habs.
  { intros x. destruct (startswith x "/") eqn:Hx; [unfold path_join; by rewrite Hx|].
    rewrite path_join_rel by done. rewrite (startswith_first cwd _ ""); [by rewrite append_nil_r|by destruct cwd]. }
  assert (exists cs, Forall path_name cs /\ initial_slashes (path_join cwd s) = initial_slashes (path_join cwd p) /\
    walk (path_join cwd p) [] = cs ++ [b] /\ walk (path_join cwd s) [] = cs ++ [t]) as (cs & Hn & Hi & Hwp & Hws).
  { destruct (startswith p "/") eqn:Hpr.
    - destruct (Hcs []) as (cs & (H1 & H2) & H3). exists cs. unfold path_join. rewrite Hst, Hpr. split_and!; auto.
    - destruct (Hcs (walk cwd [])) as (cs & (H1 & H2) & H3). exists cs. rewrite !walk_join by done. split_and!; [|..|done|done].
      + by apply H3, walk_path_names.
      + rewrite !path_join_rel by done. rewrite !append_assoc. by apply initial_slashes_app. }
  pose proof (initial_slashes_root _ (Habs p)) as Hroot. cbv zeta. unfold abspath.
  rewrite (normpath_root _ (Habs p)), (normpath_root _ (Habs s)), Hi, Hwp, Hws, sibling_abs by done. split; [done|].
  unfold path_join at 1. rewrite root_startswith by done. apply normpath_names; [done|].
  apply Forall_app. split; [done|by constructor].
Qed.

(** ** The directory of a program *)

Lemma rstrip_slash_idem s : rstrip_slash (rstrip_slash s) = rstrip_slash s.
Proof.
  destruct (rstrip_slash_spec s) as (u & Hu & Hu'). rewrite Hu at 2. rewrite rstrip_slash_app, Hu'.
  by rewrite bool_decide_eq_true_2.
Qed.

Lemma dirname_ends p : rstrip_slash (dirname p) = "" \/ rstrip_slash (dirname p) = dirname p.
Proof.
  unfold dirname. set (head := substring _ _ _). case_bool_decide as Hr; [by left|]. right.
  apply rstrip_slash_idem.
Qed.

(** A file put into a directory is in that directory. *)
Lemma dirname_join p t : path_name t -> dirname (path_join (dirname p) t) = dirname p.
Proof.
  intros Ht. pose proof (path_name_rel t Ht) as Hrel. pose proof (dirname_ends p) as Hends.
  set (d := dirname p) in *. destruct (decide (d = "")) as [-> |Hne].
  { change (path_join "" t) with (if startswith t "/" then t else t). rewrite Hrel. apply dirname_bare, Ht. }
  rewrite path_join_rel by done. unfold join_sep. rewrite bool_decide_eq_false_2 by done.
  destruct Hends as [Hd|Hd].
  - rewrite ends_slash_true by done. cbn [orb]. change ("" +:+ t) with t.
    destruct (ends_slash_split d Hne) as [h Hh]; [by apply ends_slash_true|].
    rewrite Hh at 1. rewrite <- append_assoc, dirname_slash by apply Ht. rewrite <- Hh, Hd.
    by rewrite bool_decide_eq_true_2.
  - rewrite ends_slash_false by done. cbn [orb]. rewrite dirname_slash by apply Ht. rewrite rstrip_slash_app.
    change (rstrip_slash "/") with "". rewrite (bool_decide_eq_true_2 ("" = "")) by done.
    by rewrite Hd, bool_decide_eq_false_2.
Qed.

(** Two files of one directory have the same root. *)
Lemma program_root_sibling cwd p t :
  startswith cwd "/" = true -> file_path p -> path_name t ->
  program_root cwd (path_join (dirname p) t) = program_root cwd p.
Proof.
  intros Hcwd Hp Ht. unfold program_root. destruct (sibling_path cwd p t Hcwd Hp Ht) as [Hq _]. cbv zeta in Hq.
  by rewrite <- Hq, dirname_join.
Qed.

Lemma file_path_join d t : path_name t -> file_path (path_join d t).
Proof.
  intros Ht. rewrite path_join_rel by by apply path_name_rel. unfold join_sep.
  destruct (bool_decide (d = "")) eqn:Hd; [apply bool_decide_eq_true in Hd as ->; by left|].
  apply bool_decide_eq_false in Hd. right. destruct (ends_slash d) eqn:He; [|by exists d, t].
  destruct (ends_slash_split d Hd He) as [h ->]. exists h, t. by rewrite <- append_assoc.
Qed.
