(* ===== verification/PyDict.v ===== *)
(** * Python dictionaries: finite maps that remember insertion order

    [dict K V] is the list of the items in iteration order.  [d[k] = v] keeps
    the position of an existing key and appends a new one; [d.pop(k, None)]
    removes the item; [d.get(k)] returns [None] for a missing key.  Iterating
    [values()] while changing the value objects is [dict_map]. *)

From S2P Require Import Prelude.

Notation dict K V := (list (K * V)).

Section Ops.
Context {K V : Type} `{EqDecision K}.
Implicit Types (d : dict K V) (k : K) (v : V).

(** [d.get(k)] *)
Fixpoint dict_get d k : option V :=
  match d with
  | [] => None
  | (k', v) :: d' => if decide (k' = k) then Some v else dict_get d' k
  end.

(** [d[k] = v] *)
Fixpoint dict_set d k v : dict K V :=
  match d with
  | [] => [(k, v)]
  | (k', v') :: d' =>
      if decide (k' = k) then (k', v) :: d' else (k', v') :: dict_set d' k v
  end.

(** [d.pop(k, None)] *)
Definition dict_pop d k : dict K V := filter (fun kv => kv.1 <> k) d.

(** [d.keys()], [d.values()] *)
Definition dict_keys d : list K := d.*1.
Definition dict_values d : list V := d.*2.

(** [d[k]] *)
Definition dict_index d k : res V := res_of_option KeyError (dict_get d k).

(** [d.update(items)] *)
Definition dict_update d (items : dict K V) : dict K V :=
  foldl (fun acc kv => dict_set acc kv.1 kv.2) d items.
End Ops.

(** Changing every value in place. *)
Definition dict_map {K V W} (f : V -> W) (d : dict K V) : dict K W := prod_map id f <$> d.

Section Laws.
Context {K V : Type} `{EqDecision K}.
Implicit Types (d : dict K V) (k : K) (v : V).

Lemma dict_get_set_eq d k v : dict_get (dict_set d k v) k = Some v.
Proof.
  induction d as [|[k' v'] d IH]; cbn; [by case_decide|].
  destruct (decide (k' = k)) eqn:E; cbn; by rewrite E.
Qed.

Lemma dict_get_set_ne d k k' v : k <> k' -> dict_get (dict_set d k v) k' = dict_get d k'.
Proof.
  intros Hne. induction d as [|[k1 v1] d IH]; cbn.
  - by rewrite decide_False.
  - case_decide; subst; cbn; [by rewrite !decide_False|]. by case_decide.
Qed.

Lemma dict_get_set d k k' v :
  dict_get (dict_set d k v) k' = if decide (k = k') then Some v else dict_get d k'.
Proof.
  case_decide; subst; [apply dict_get_set_eq|by apply dict_get_set_ne].
Qed.

Lemma dict_get_pop_eq d k : dict_get (dict_pop d k) k = None.
Proof.
  induction d as [|[k' v'] d IH]; [done|]. unfold dict_pop. rewrite filter_cons.
  case_decide as H; cbn in *; [|done]. by rewrite decide_False.
Qed.

Lemma dict_get_pop_ne d k k' : k <> k' -> dict_get (dict_pop d k) k' = dict_get d k'.
Proof.
  intros Hne. induction d as [|[k1 v1] d IH]; [done|].
  unfold dict_pop in *. rewrite filter_cons. cbn.
  case_decide as H; cbn; [by rewrite IH|].
  rewrite decide_False; [done|]. destruct (decide (k1 = k)) as [->|]; [done|tauto].
Qed.

Lemma dict_get_pop d k k' :
  dict_get (dict_pop d k) k' = if decide (k = k') then None else dict_get d k'.
Proof.
  case_decide; subst; [apply dict_get_pop_eq|by apply dict_get_pop_ne].
Qed.

Lemma dict_get_Some_elem d k v : dict_get d k = Some v -> (k, v) ∈ d.
Proof.
  induction d as [|[k' v'] d IH]; cbn; [done|].
  case_decide; intros Hg; simplify_eq; [left|right; auto].
Qed.

Lemma dict_get_keys d k : is_Some (dict_get d k) <-> k ∈ dict_keys d.
Proof.
  unfold dict_keys. induction d as [|[k' v'] d IH]; cbn.
  - split; [by intros []|by intros ?%not_elem_of_nil].
  - rewrite elem_of_cons, <- IH. case_decide as Hk; subst.
    + split; [by left|by eauto].
    + split; [by right|by intros [->|?]].
Qed.

Lemma dict_get_None d k : dict_get d k = None <-> k ∉ dict_keys d.
Proof. rewrite <- dict_get_keys, eq_None_not_Some. done. Qed.

Lemma dict_elem_get d k v : NoDup (dict_keys d) -> (k, v) ∈ d -> dict_get d k = Some v.
Proof.
  unfold dict_keys. induction d as [|[k' v'] d IH]; cbn; intros Hnd Hin.
  - by apply not_elem_of_nil in Hin.
  - apply NoDup_cons in Hnd as [Hk Hnd]. apply elem_of_cons in Hin as [Hin|Hin].
    + simplify_eq. by rewrite decide_True.
    + rewrite decide_False; [auto|]. intros ->. apply Hk.
      by apply (list_elem_of_fmap_2 fst) in Hin.
Qed.

Lemma dict_keys_set_new d k v :
  k ∉ dict_keys d -> dict_set d k v = d ++ [(k, v)].
Proof.
  unfold dict_keys. induction d as [|[k' v'] d IH]; cbn; [done|].
  intros [Hk Hd]%not_elem_of_cons. rewrite decide_False by done. by rewrite IH.
Qed.

Lemma dict_keys_set_old d k v :
  k ∈ dict_keys d -> dict_keys (dict_set d k v) = dict_keys d.
Proof.
  unfold dict_keys. induction d as [|[k' v'] d IH]; cbn; [by intros ?%not_elem_of_nil|].
  intros H. case_decide; cbn; [done|]. f_equal. apply IH.
  apply elem_of_cons in H as [->|?]; done.
Qed.

Lemma dict_keys_set d k v :
  dict_keys (dict_set d k v) =
  if decide (k ∈ dict_keys d) then dict_keys d else dict_keys d ++ [k].
Proof.
  case_decide as H; [by apply dict_keys_set_old|].
  rewrite dict_keys_set_new by done. unfold dict_keys. by rewrite fmap_app.
Qed.

Lemma dict_keys_pop d k : dict_keys (dict_pop d k) = filter (fun x => x <> k) (dict_keys d).
Proof.
  unfold dict_keys, dict_pop. induction d as [|[k' v'] d IH]; [done|].
  rewrite fmap_cons, !filter_cons. cbn. by case_decide; cbn; rewrite IH.
Qed.

Lemma dict_keys_map {W} (f : V -> W) d : dict_keys (dict_map f d) = dict_keys d.
Proof. unfold dict_keys, dict_map. rewrite <- list_fmap_compose. by apply list_fmap_ext. Qed.

Lemma dict_values_map {W} (f : V -> W) d : dict_values (dict_map f d) = f <$> dict_values d.
Proof.
  unfold dict_values, dict_map. rewrite <- !list_fmap_compose. by apply list_fmap_ext.
Qed.

Lemma dict_get_map {W} (f : V -> W) d k : dict_get (dict_map f d) k = f <$> dict_get d k.
Proof. induction d as [|[k' v'] d IH]; cbn; [done|]. by case_decide. Qed.

Lemma dict_set_NoDup d k v : NoDup (dict_keys d) -> NoDup (dict_keys (dict_set d k v)).
Proof.
  intros H. rewrite dict_keys_set. case_decide as Hk; [done|].
  apply NoDup_app. split_and!; [done| |apply NoDup_singleton].
  intros x Hx ->%list_elem_of_singleton. done.
Qed.

Lemma dict_pop_NoDup d k : NoDup (dict_keys d) -> NoDup (dict_keys (dict_pop d k)).
Proof. intros H. rewrite dict_keys_pop. by apply NoDup_filter. Qed.

Lemma dict_map_NoDup {W} (f : V -> W) d :
  NoDup (dict_keys d) -> NoDup (dict_keys (dict_map f d)).
Proof. by rewrite dict_keys_map. Qed.

(** Every value of [dict_set d k v] is [v] or was there. *)
Lemma dict_set_elem d k v k' v' :
  (k', v') ∈ dict_set d k v -> (k' = k /\ v' = v) \/ (k', v') ∈ d.
Proof.
  induction d as [|[k1 v1] d IH]; cbn.
  - intros H%list_elem_of_singleton. left. by simplify_eq.
  - case_decide; intros [?|?]%elem_of_cons; simplify_eq; [by left|right; by right|right; left|].
    destruct IH as [?|?]; [done|by left|right; by right].
Qed.

Lemma dict_set_Forall (P : K * V -> Prop) d k v : Forall P d -> P (k, v) -> Forall P (dict_set d k v).
Proof.
  intros Hd Hk. induction Hd as [|[k' v'] d Hx Hd IH]; cbn; [by constructor|].
  case_decide; constructor; subst; done.
Qed.

Lemma dict_pop_elem d k k' v' : (k', v') ∈ dict_pop d k -> k' <> k /\ (k', v') ∈ d.
Proof. unfold dict_pop. by intros [? ?]%list_elem_of_filter. Qed.

Lemma dict_pop_set_new d k v :
  k ∉ dict_keys d -> dict_pop (dict_set d k v) k = d.
Proof.
  intros Hk. rewrite dict_keys_set_new by done. unfold dict_pop.
  rewrite filter_app, filter_cons, decide_False, filter_nil, app_nil_r by (cbn; tauto).
  unfold dict_keys in Hk. induction d as [|[k' v'] d IH]; [done|].
  rewrite filter_cons. cbn in Hk. apply not_elem_of_cons in Hk as [? ?].
  rewrite decide_True by (cbn; congruence). by rewrite IH.
Qed.

Lemma dict_update_get d items k :
  dict_get (dict_update d items) k =
  match dict_get (reverse items) k with Some v => Some v | None => dict_get d k end.
Proof.
  unfold dict_update. revert d. induction items as [|[k' v'] items IH] using rev_ind; intros d.
  - done.
  - rewrite foldl_app, reverse_app. cbn. rewrite dict_get_set. case_decide; [done|].
    by rewrite IH.
Qed.
End Laws.

#[export] Hint Resolve dict_set_NoDup dict_pop_NoDup dict_map_NoDup : bench.
#[export] Hint Rewrite @dict_keys_map @dict_get_set_eq @dict_get_pop_eq @dict_values_map : bench.

#[global] Arguments dict_keys : simpl never.
#[global] Arguments dict_values : simpl never.
#[global] Arguments dict_pop : simpl never.
#[global] Arguments dict_map : simpl never.
