(* ===== verification/PyStruct.v ===== *)
(** * The [struct] module and byte buffers

    Bytes are [list byte].  [be_pack n z] and [be_unpack] are big-endian
    integers of [n] bytes; [code] is the format characters the server uses,
    [pack], [pack_into], [unpack] and [unpack_from] the functions of the
    [struct] module for a format with the prefix [">"].  A value out of the
    range of its code, and a buffer of the wrong size, raise [struct.error]. *)

From Stdlib Require Import ZArith Lia.
From coqutil Require Byte Word.LittleEndianList.
From S2P Require Import Prelude.

Open Scope Z_scope.

Notation byte := Init.Byte.byte.
Notation bytes := (list byte).

Definition byte_of_Z : Z -> byte := Byte.byte.of_Z.
Definition Z_of_byte : byte -> Z := Byte.byte.unsigned.

(** ** Big-endian integers *)

Definition be_pack (n : nat) (z : Z) : bytes := rev (LittleEndianList.le_split n z).
Definition be_unpack (bs : bytes) : Z := LittleEndianList.le_combine (rev bs).

Lemma length_be_pack n z : length (be_pack n z) = n.
Proof. unfold be_pack. by rewrite length_rev, LittleEndianList.length_le_split. Qed.

Lemma be_unpack_pack n z : be_unpack (be_pack n z) = z mod 2 ^ (8 * Z.of_nat n).
Proof.
  unfold be_unpack, be_pack. rewrite rev_involutive, LittleEndianList.le_combine_split.
  by rewrite Z.mul_comm.
Qed.

Lemma be_pack_unpack bs n : length bs = n -> be_pack n (be_unpack bs) = bs.
Proof.
  intros <-. unfold be_unpack, be_pack.
  by rewrite <- (length_rev bs), LittleEndianList.split_le_combine, rev_involutive.
Qed.

Lemma be_unpack_bound bs : 0 <= be_unpack bs < 2 ^ (8 * Z.of_nat (length bs)).
Proof.
  unfold be_unpack. rewrite <- (length_rev bs). apply LittleEndianList.le_combine_bound.
Qed.

Lemma byte_of_Z_unsigned z : 0 <= z < 256 -> Z_of_byte (byte_of_Z z) = z.
Proof.
  intros H. unfold Z_of_byte, byte_of_Z. rewrite Byte.byte.unsigned_of_Z.
  unfold Byte.byte.wrap. by apply Z.mod_small.
Qed.

Lemma Z_of_byte_bound b : 0 <= Z_of_byte b < 256.
Proof. apply Byte.byte.unsigned_range. Qed.

(** ** Format codes *)

(** [H], [h], [I], [i]: unsigned and signed, 2 and 4 bytes. *)
Inductive code := CH | Ch | CI | Ci.

Definition code_size (c : code) : nat := match c with CH | Ch => 2 | CI | Ci => 4 end.

Definition code_min (c : code) : Z :=
  match c with CH | CI => 0 | Ch => - 2 ^ 15 | Ci => - 2 ^ 31 end.

(** One more than the largest value. *)
Definition code_max (c : code) : Z :=
  match c with CH => 2 ^ 16 | CI => 2 ^ 32 | Ch => 2 ^ 15 | Ci => 2 ^ 31 end.

Definition fits (c : code) (z : Z) : bool := z_in_range (code_min c) (code_max c) z.

(** [struct.calcsize] *)
Definition calcsize (fmt : list code) : nat := sum_list (code_size <$> fmt).

Definition pack_code (c : code) (z : Z) : res bytes :=
  if fits c z then Ok (be_pack (code_size c) z) else Raise StructError.

(** Two's complement for the signed codes. *)
Definition unpack_code (c : code) (bs : bytes) : Z :=
  let z := be_unpack bs in if z <? code_max c then z else z - 2 ^ (8 * Z.of_nat (code_size c)).

(** ** The functions of the module *)

(** [struct.pack(fmt, v1, ..)] *)
Fixpoint pack (fmt : list code) (vs : list Z) : res bytes :=
  match fmt, vs with
  | [], [] => Ok []
  | c :: fmt, v :: vs =>
      b ← pack_code c v; bs ← pack fmt vs; Ok (b ++ bs)
  | _, _ => Raise StructError
  end.

(** [struct.pack_into(fmt, buf, off, v1, ..)]: the buffer after the call.  The
    program never looks at a buffer whose [pack_into] raised. *)
Definition pack_into (fmt : list code) (buf : bytes) (off : nat) (vs : list Z) : res bytes :=
  if decide (off + calcsize fmt <= length buf)%nat
  then bs ← pack fmt vs; Ok (splice off bs buf)
  else Raise StructError.

Fixpoint unpack_all (fmt : list code) (bs : bytes) : list Z :=
  match fmt with
  | [] => []
  | c :: fmt => unpack_code c (take (code_size c) bs) :: unpack_all fmt (drop (code_size c) bs)
  end.

(** [struct.unpack(fmt, bs)]: [bs] has exactly the size of the format. *)
Definition unpack (fmt : list code) (bs : bytes) : res (list Z) :=
  if decide (length bs = calcsize fmt) then Ok (unpack_all fmt bs) else Raise StructError.

(** [struct.unpack_from(fmt, bs, off)] *)
Definition unpack_from (fmt : list code) (bs : bytes) (off : nat) : res (list Z) :=
  if decide (off + calcsize fmt <= length bs)%nat
  then Ok (unpack_all fmt (drop off bs)) else Raise StructError.

(** ** [bytearray] *)

(** [bytearray(n)]: [n] zero bytes. *)
Definition bytearray (n : nat) : bytes := replicate n Byte.x00.

(** [buf[i] = v] *)
Definition set_byte (buf : bytes) (i : nat) (v : Z) : res bytes :=
  if decide (i < length buf)%nat
  then if z_in_range 0 256 v then Ok (<[i := byte_of_Z v]> buf) else Raise ValueError
  else Raise IndexError.

(** ** Lemmas *)

Lemma fits_spec c z : fits c z = true <-> code_min c <= z < code_max c.
Proof. apply z_in_range_spec. Qed.

Lemma code_max_bound c : code_max c <= 2 ^ (8 * Z.of_nat (code_size c)).
Proof. by destruct c. Qed.

Lemma pack_code_ok c z : fits c z = true -> pack_code c z = Ok (be_pack (code_size c) z).
Proof. unfold pack_code. by intros ->. Qed.

Lemma pack_code_err c z : fits c z = false -> pack_code c z = Raise StructError.
Proof. unfold pack_code. by intros ->. Qed.

Lemma unpack_code_pack c z :
  fits c z = true -> unpack_code c (be_pack (code_size c) z) = z.
Proof.
  intros H%fits_spec. unfold unpack_code. rewrite be_unpack_pack.
  destruct c; cbn [code_min code_max code_size Z.of_nat] in *;
    repeat change (2 ^ ?a) with ltac:(let v := eval vm_compute in (2 ^ a) in exact v) in *.
  all: match goal with |- context [if ?b then _ else _] => destruct b eqn:E end; zbool;
    change (2 ^ (8 * _)) with 65536 in * || change (2 ^ (8 * _)) with 4294967296 in *;
    cbn in H; pose proof (Z.mod_pos_bound z 65536 eq_refl);
    pose proof (Z.mod_pos_bound z 4294967296 eq_refl);
    Z.div_mod_to_equations; lia.
Qed.

Lemma unpack_code_fits c bs : length bs = code_size c -> fits c (unpack_code c bs) = true.
Proof.
  intros H. apply fits_spec. unfold unpack_code. pose proof (be_unpack_bound bs) as Hb.
  rewrite H in Hb. destruct c; cbn in *; destruct (_ <? _) eqn:E; zbool; lia.
Qed.

Lemma length_pack fmt vs bs : pack fmt vs = Ok bs -> length bs = calcsize fmt.
Proof.
  revert vs bs. induction fmt as [|c fmt IH]; intros [|v vs] bs H; cbn in H; simplify_eq; [done|].
  unfold pack_code in H. destruct (fits c v); [|done]. cbn in H.
  destruct (pack fmt vs) as [bs'|] eqn:E; [|done]. cbn in H. simplify_eq.
  rewrite length_app, length_be_pack, (IH vs bs') by done. done.
Qed.

Lemma pack_cons c fmt v vs :
  pack (c :: fmt) (v :: vs) = (b ← pack_code c v; bs ← pack fmt vs; Ok (b ++ bs)).
Proof. done. Qed.

Lemma pack_ok fmt vs :
  Forall2 (fun c v => fits c v = true) fmt vs ->
  pack fmt vs = Ok (concat (zip_with (fun c v => be_pack (code_size c) v) fmt vs)).
Proof.
  induction 1 as [|c v fmt vs Hc Hvs IH]; [done|].
  rewrite pack_cons, pack_code_ok, IH by done. done.
Qed.

(** [pack] raises, and raises [struct.error], exactly when a value does not
    fit its code. *)
Lemma pack_err fmt vs :
  length fmt = length vs ->
  ~ Forall2 (fun c v => fits c v = true) fmt vs -> pack fmt vs = Raise StructError.
Proof.
  revert vs. induction fmt as [|c fmt IH]; intros [|v vs] Hl Hn; try done.
  { by destruct Hn. }
  rewrite pack_cons. destruct (fits c v) eqn:E; [|by rewrite pack_code_err].
  rewrite pack_code_ok by done. cbn.
  rewrite (IH vs); [done|by injection Hl|]. intros ?. apply Hn. by constructor.
Qed.

Lemma unpack_all_pack fmt vs rest :
  Forall2 (fun c v => fits c v = true) fmt vs ->
  unpack_all fmt (concat (zip_with (fun c v => be_pack (code_size c) v) fmt vs) ++ rest) = vs.
Proof.
  induction 1 as [|c v fmt vs Hc Hvs IH]; cbn; [done|].
  rewrite <- app_assoc.
  rewrite <- (length_be_pack (code_size c) v) at 1 3.
  rewrite take_app_length, drop_app_length, IH. f_equal. by apply unpack_code_pack.
Qed.

(** [unpack(fmt, pack(fmt, vs)) == vs]. *)
Lemma unpack_pack fmt vs bs : pack fmt vs = Ok bs -> unpack fmt bs = Ok vs.
Proof.
  intros H. pose proof (length_pack _ _ _ H) as Hl. unfold unpack. rewrite decide_True by done.
  destruct (decide (length fmt = length vs)) as [Hlv|Hlv].
  - destruct (decide (Forall2 (fun c v => fits c v = true) fmt vs)) as [Hf|Hf].
    + rewrite pack_ok in H by done. injection H as <-. f_equal.
      rewrite <- (unpack_all_pack fmt vs [] Hf) at 2. by rewrite app_nil_r.
    + by rewrite pack_err in H.
  - exfalso. clear Hl. revert vs bs H Hlv.
    induction fmt as [|c fmt IH]; intros [|v vs] bs H Hlv; try done.
    rewrite pack_cons in H. destruct (pack_code c v); [|done]. cbn in H.
    destruct (pack fmt vs) eqn:E; [|done]. apply (IH vs _ E). cbn in Hlv. lia.
Qed.

Lemma unpack_from_ok fmt bs off :
  (off + calcsize fmt <= length bs)%nat ->
  unpack_from fmt bs off = Ok (unpack_all fmt (drop off bs)).
Proof. intros H. unfold unpack_from. by rewrite decide_True. Qed.

Lemma pack_into_app fmt pre mid rest vs bs :
  pack fmt vs = Ok bs -> length mid = calcsize fmt ->
  pack_into fmt (pre ++ mid ++ rest) (length pre) vs = Ok (pre ++ bs ++ rest).
Proof.
  intros H Hm. pose proof (length_pack _ _ _ H) as Hl. unfold pack_into.
  rewrite decide_True by (rewrite !length_app; lia). rewrite H. cbn.
  f_equal. apply splice_app. lia.
Qed.

Lemma pack_into_err fmt buf off vs :
  pack fmt vs = Raise StructError -> pack_into fmt buf off vs = Raise StructError.
Proof. intros H. unfold pack_into. rewrite H. by case_decide. Qed.

#[export] Hint Rewrite length_be_pack : bench.
