(* ===== verification/PyFloat.v ===== *)
(** * Python floats: IEEE 754 binary64

    A [float] is a [spec_float] of the Standard Library at precision 53 and
    maximal exponent 1024; the operations are the correctly rounded ones of
    that specification, so they compute on concrete values.  Division by zero
    and the conversion of an integer that is too large raise, as in Python. *)

From Stdlib Require Import ZArith Lia.
From Stdlib Require Import SpecFloat.
From S2P Require Import Prelude.

Open Scope Z_scope.

Notation float := spec_float.

#[export] Instance float_eq_dec : EqDecision float.
Proof. solve_decision. Defined.

Definition f_prec : Z := 53.
Definition f_emax : Z := 1024.

Definition fadd : float -> float -> float := SFadd f_prec f_emax.
Definition fsub : float -> float -> float := SFsub f_prec f_emax.
Definition fmul : float -> float -> float := SFmul f_prec f_emax.
Definition flt : float -> float -> bool := SFltb.
Definition fle : float -> float -> bool := SFleb.

Definition f_zero : float := S754_zero false.

(** The float nearest to [num / den], ties to even. *)
Definition f_of_ratio (s : bool) (num : Z) (den : positive) : float :=
  match num with
  | Z.pos n =>
      let '(mz, ez, lz) := SFdiv_core_binary f_prec f_emax (Z.pos n) 0 (Z.pos den) 0 in
      binary_round_aux f_prec f_emax s mz ez lz
  | _ => S754_zero s
  end.

(** [float(n)] for an integer: [OverflowError] beyond the largest float. *)
Definition f_of_Z (z : Z) : res float :=
  match binary_normalize f_prec f_emax z 0 false with
  | S754_infinity _ => Raise OverflowError
  | f => Ok f
  end.

(** [x / y] on floats. *)
Definition fdiv (x y : float) : res float :=
  match y with
  | S754_zero _ => Raise ZeroDivisionError
  | _ => Ok (SFdiv f_prec f_emax x y)
  end.

(** Finite numbers, and their sign. *)
Definition f_finite (x : float) : bool :=
  match x with S754_zero _ | S754_finite _ _ _ => true | _ => false end.

(** [a / b] on integers: the float nearest to the quotient. *)
Definition int_div (a b : Z) : res float :=
  match b with
  | 0 => Raise ZeroDivisionError
  | _ =>
      match f_of_ratio (Z.ltb a 0 && Z.ltb 0 b || Z.ltb 0 a && Z.ltb b 0) (Z.abs a) (Z.to_pos (Z.abs b)) with
      | S754_infinity _ => Raise OverflowError
      | f => Ok f
      end
  end.

(** [num / den] rounded to an integer, ties to even. *)
Definition round_half_even (num : Z) (den : positive) : Z :=
  let q := num / Z.pos den in
  let r := 2 * (num mod Z.pos den) in
  if r <? Z.pos den then q
  else if Z.pos den <? r then q + 1
  else if Z.even q then q else q + 1.

(** [round(x, ndigits)]: the decimal nearest to the exact value of [x], then
    the float nearest to it. *)
Definition f_round (x : float) (ndigits : nat) : float :=
  match x with
  | S754_finite s m e =>
      if 0 <=? e then x
      else
        let scale := (10 ^ Pos.of_nat ndigits)%positive in
        let scale := match ndigits with O => xH | _ => scale end in
        f_of_ratio s (round_half_even (Z.pos (m * scale)) (Z.to_pos (2 ^ (- e)))) scale
  | _ => x
  end.

(** [int(x)]: towards zero. *)
Definition f_trunc (x : float) : res Z :=
  match x with
  | S754_nan => Raise ValueError
  | S754_infinity _ => Raise OverflowError
  | S754_zero _ => Ok 0
  | S754_finite s m e =>
      let n := if 0 <=? e then Z.pos m * 2 ^ e else Z.pos m / 2 ^ (- e) in
      Ok (if s then - n else n)
  end.

(** [round(2.675, 2) == 2.67], [round(0.125, 2) == 0.12], [round(37.96, 1) == 38.0] *)
Example f_round_ex :
  f_round (f_of_ratio false 2675 1000) 2 = f_of_ratio false 267 100 /\
  f_round (f_of_ratio false 125 1000) 2 = f_of_ratio false 12 100 /\
  f_round (f_of_ratio false 3796 100) 1 = f_of_ratio false 38 1 /\
  f_trunc (f_of_ratio true 29 10) = Ok (-2).
Proof. repeat split; reflexivity. Qed.

Example fdiv_third : (one ← f_of_Z 1; d ← f_of_Z 30; fdiv one d) =
  Ok (S754_finite false 4803839602528529 (-57)).
Proof. reflexivity. Qed.
