(* ===== verification/PyFloatThms.v ===== *)
(** * Floats: exactness and validity of the rounding

    The operations of [PyFloat] go through [binary_round_aux] of the Standard
    Library.  Two facts about it are enough here: a number that is a float is
    rounded to itself ([f_of_ratio_exact]), and every result is a well-formed
    float ([f_of_ratio_valid] and its companions). *)

From Stdlib Require Import ZArith Lia.
From Stdlib Require Import SpecFloat.
From S2P Require Import Prelude PyFloat.

Open Scope Z_scope.

(** A float of the format: mantissa of at most 53 bits, canonical exponent. *)
Definition f_valid (x : float) : Prop := valid_binary f_prec f_emax x = true.

#[export] Instance f_valid_dec x : Decision (f_valid x).
Proof. unfold f_valid. apply _. Defined.

(** ** Digits and exponents *)

Notation f_exp := (fexp f_prec f_emax).
Notation f_emin := (emin f_prec f_emax).

Lemma f_exp_eq x : f_exp x = Z.max (x - 53) (-1074).
Proof. reflexivity. Qed.

Lemma digits2_pos_log2 p : Z.pos (digits2_pos p) = Z.log2 (Z.pos p) + 1.
Proof.
  induction p as [p IH|p IH|]; cbn [digits2_pos]; [..|done]; rewrite Pos2Z.inj_succ, IH.
  - change (Z.pos p~1) with (2 * Z.pos p + 1). rewrite Z.log2_succ_double by lia. lia.
  - change (Z.pos p~0) with (2 * Z.pos p). rewrite Z.log2_double by lia. lia.
Qed.

Lemma Zdigits2_pos z : 0 < z -> Zdigits2 z = Z.log2 z + 1.
Proof. destruct z as [|p|p]; [lia| |lia]. intros _. apply digits2_pos_log2. Qed.

Lemma Zdigits2_bound z : 0 <= z -> z < 2 ^ Zdigits2 z.
Proof.
  intros Hz. destruct (decide (z = 0)) as [->|Hn]; [done|].
  rewrite Zdigits2_pos by lia. destruct (Z.log2_spec z) as [_ H]; [lia|]. by rewrite Z.add_1_r.
Qed.

Lemma Zdigits2_le z d : 0 <= z -> 0 <= d -> z < 2 ^ d <-> Zdigits2 z <= d.
Proof.
  intros Hz Hd. destruct (decide (z = 0)) as [->|Hn].
  - cbn. pose proof (Z.pow_pos_nonneg 2 d). lia.
  - rewrite Zdigits2_pos, (Z.log2_lt_pow2 z d) by lia. lia.
Qed.

Lemma Zdigits2_shift z k : 0 < z -> 0 <= k -> Zdigits2 (z * 2 ^ k) = Zdigits2 z + k.
Proof.
  intros Hz Hk. pose proof (Z.pow_pos_nonneg 2 k ltac:(lia) Hk).
  rewrite !Zdigits2_pos by nia. rewrite Z.log2_mul_pow2 by lia. lia.
Qed.

Lemma Zdigits2_div z k : 0 < z -> 0 <= k -> k < Zdigits2 z -> Zdigits2 (z / 2 ^ k) = Zdigits2 z - k.
Proof.
  intros Hz Hk Hlt. rewrite (Zdigits2_pos z) in Hlt |- * by done.
  rewrite <- Z.shiftr_div_pow2 by done.
  assert (0 < Z.shiftr z k) as Hp.
  { rewrite Z.shiftr_div_pow2 by done. apply Z.div_str_pos. split; [by apply Z.pow_pos_nonneg|].
    apply Z.log2_le_pow2; lia. }
  rewrite Zdigits2_pos by done. rewrite Z.log2_shiftr by done. lia.
Qed.

(** ** Shifts to the right *)

Lemma iter_pos_nat {A} (f : A -> A) p x : SpecFloat.iter_pos f p x = Nat.iter (Pos.to_nat p) f x.
Proof.
  revert x. induction p as [p IH|p IH|]; intros x; cbn [SpecFloat.iter_pos].
  - rewrite !IH. rewrite Pos2Nat.inj_xI. replace (S (2 * Pos.to_nat p)) with (Pos.to_nat p + (Pos.to_nat p + 1))%nat by lia.
    by rewrite !Nat.iter_add.
  - rewrite !IH, Pos2Nat.inj_xO. replace (2 * Pos.to_nat p)%nat with (Pos.to_nat p + Pos.to_nat p)%nat by lia.
    by rewrite Nat.iter_add.
  - done.
Qed.

Lemma shr_1_m mrs : 0 <= shr_m mrs -> shr_m (shr_1 mrs) = shr_m mrs / 2.
Proof.
  destruct mrs as [[|[p|p|]|p] r s]; cbn [shr_m shr_1]; intros Hm; [done| | |done|lia].
  - change (Z.pos p~1) with (2 * Z.pos p + 1). rewrite Z.mul_comm, Z.div_add_l by done. change (1 / 2) with 0. lia.
  - change (Z.pos p~0) with (2 * Z.pos p). by rewrite Z.mul_comm, Z.div_mul.
Qed.

Lemma shr_iter_m n mrs : 0 <= shr_m mrs -> shr_m (Nat.iter n shr_1 mrs) = shr_m mrs / 2 ^ Z.of_nat n.
Proof.
  intros Hm. induction n as [|n IH]; [by rewrite Z.div_1_r|].
  rewrite Nat.iter_succ.
  pose proof (Z.pow_pos_nonneg 2 (Z.of_nat n) ltac:(lia) ltac:(lia)).
  rewrite shr_1_m by (rewrite IH; by apply Z.div_pos).
  rewrite IH, Z.div_div by lia. f_equal. rewrite Nat2Z.inj_succ, Z.pow_succ_r by lia. lia.
Qed.

Lemma shr_1_even k : shr_1 (Build_shr_record (k * 2) false false) = Build_shr_record k false false.
Proof.
  destruct k as [|p|p]; [done| |].
  - by replace (Z.pos p * 2) with (Z.pos p~0) by lia.
  - by replace (Z.neg p * 2) with (Z.neg p~0) by lia.
Qed.

Lemma shr_iter_exact n k :
  Nat.iter n shr_1 (Build_shr_record (k * 2 ^ Z.of_nat n) false false) = Build_shr_record k false false.
Proof.
  revert k. induction n as [|n IH]; intros k; [by rewrite Z.mul_1_r|].
  rewrite Nat2Z.inj_succ, Z.pow_succ_r, Z.mul_assoc by lia. rewrite Nat.iter_succ.
  by rewrite IH, shr_1_even.
Qed.

(** [shr] by a number of bits that may be negative: then nothing happens. *)
Lemma shr_m_div mrs e n :
  0 <= shr_m mrs ->
  shr_m (shr mrs e n).1 = shr_m mrs / 2 ^ Z.max 0 n /\ (shr mrs e n).2 = e + Z.max 0 n.
Proof.
  intros Hm. destruct n as [|p|p]; cbn [shr fst snd].
  - by rewrite Z.div_1_r, Z.add_0_r.
  - rewrite iter_pos_nat, shr_iter_m, positive_nat_Z by done. by rewrite Z.max_r.
  - rewrite Z.max_l by lia. by rewrite Z.div_1_r, Z.add_0_r.
Qed.

Lemma shr_exact k e n :
  0 <= n -> shr (Build_shr_record (k * 2 ^ n) false false) e n = (Build_shr_record k false false, e + n).
Proof.
  destruct n as [|p|p]; [|intros _|lia]; cbn [shr].
  - by rewrite Z.mul_1_r, Z.add_0_r.
  - rewrite iter_pos_nat. rewrite <- (positive_nat_Z p) at 1. by rewrite shr_iter_exact.
Qed.

Lemma shr_record_m m l : shr_m (shr_record_of_loc m l) = m.
Proof. by destruct l as [|[]]. Qed.

(** ** Rounding *)

Notation round_aux := (binary_round_aux f_prec f_emax).

Lemma bounded_spec m e :
  bounded f_prec f_emax m e = true <-> f_exp (Z.pos (digits2_pos m) + e) = e /\ e <= 971.
Proof.
  unfold bounded, canonical_mantissa. rewrite andb_true_iff, Z.eqb_eq, Z.leb_le. done.
Qed.

(** A float given with too many bits at the end, all zero, is found again. *)
Lemma round_aux_exact s m e k :
  bounded f_prec f_emax m (e + k) = true -> 0 <= k ->
  round_aux s (Z.pos m * 2 ^ k) e loc_Exact = S754_finite s m (e + k).
Proof.
  intros Hb Hk. pose proof Hb as [Hc He]%bounded_spec.
  unfold binary_round_aux, shr_fexp. cbn [shr_record_of_loc].
  rewrite Zdigits2_shift by lia.
  replace (f_exp (Zdigits2 (Z.pos m) + k + e) - e) with k by (cbn [Zdigits2] in *; rewrite <- Z.add_assoc, (Z.add_comm k e), Hc; lia).
  rewrite shr_exact by done. cbn [shr_m loc_of_shr_record round_nearest_even shr_record_of_loc].
  replace (f_exp (Zdigits2 (Z.pos m) + (e + k)) - (e + k)) with 0 by (cbn [Zdigits2]; lia).
  cbn [shr shr_m]. unfold f_prec, f_emax. by rewrite (proj2 (Z.leb_le _ _)).
Qed.

(** The second half: the rounded mantissa may have grown by one bit. *)
Lemma round_aux_valid_2 s m1 m2 e1 :
  0 <= m1 -> Zdigits2 m1 <= 53 -> (e1 = -1074 \/ e1 = Zdigits2 m1 + e1 - 53) -> m1 <= m2 <= m1 + 1 ->
  -1074 <= e1 ->
  valid_binary f_prec f_emax
    (let '(mrs, e) := shr_fexp f_prec f_emax m2 e1 loc_Exact in
     match shr_m mrs with
     | 0 => S754_zero s
     | Z.pos m => if e <=? f_emax - f_prec then S754_finite s m e else S754_infinity s
     | Z.neg _ => S754_nan
     end) = true.
Proof.
  intros Hp1 Hd1 Hc1 Hm2 He1. unfold shr_fexp. cbn [shr_record_of_loc].
  assert (m1 < 2 ^ 53) as Hb1 by (apply Zdigits2_le; lia).
  destruct (decide (m2 = 2 ^ 53)) as [->|Hn].
  - change (Zdigits2 (2 ^ 53)) with 54.
    replace (f_exp (54 + e1) - e1) with 1 by (rewrite f_exp_eq; lia).
    change (Build_shr_record (2 ^ 53) false false) with (Build_shr_record (2 ^ 52 * 2 ^ 1) false false).
    rewrite shr_exact by done. cbn [shr_m]. change (2 ^ 52) with (Z.pos (2 ^ 52)).
    destruct (Z.leb_spec (e1 + 1) (f_emax - f_prec)); [|done].
    apply bounded_spec. split; [|done]. change (Z.pos (digits2_pos (2 ^ 52))) with 53. rewrite f_exp_eq. lia.
  - assert (Zdigits2 m2 <= 53) as Hd2 by (apply Zdigits2_le; lia).
    assert (Zdigits2 m1 <= Zdigits2 m2) as Hdd.
    { apply Zdigits2_le; [done|by destruct m2|]. pose proof (Zdigits2_bound m2). lia. }
    destruct (shr_m_div (Build_shr_record m2 false false) e1 (f_exp (Zdigits2 m2 + e1) - e1)) as [Hm He]; [cbn; lia|].
    rewrite Z.max_l in Hm, He by (rewrite f_exp_eq; lia). rewrite Z.div_1_r in Hm. rewrite Z.add_0_r in He.
    destruct (shr _ _ _) as [mrs e]. cbn [fst snd shr_m] in Hm, He. subst e. rewrite Hm.
    destruct m2 as [|p|p]; [done| |lia].
    destruct (Z.leb_spec e1 (f_emax - f_prec)); [|done].
    apply bounded_spec. split; [|done]. change (Z.pos (digits2_pos p)) with (Zdigits2 (Z.pos p)). rewrite f_exp_eq. lia.
Qed.

Lemma round_aux_valid s m e l :
  0 <= m -> e <= f_exp (Zdigits2 m + e) -> f_valid (round_aux s m e l).
Proof.
  intros Hm He. unfold f_valid, binary_round_aux, shr_fexp.
  set (mrs := shr_record_of_loc m l). set (n := f_exp (Zdigits2 m + e) - e).
  destruct (shr_m_div mrs e n) as [Hm1 He1]; [by unfold mrs; rewrite shr_record_m|].
  rewrite Z.max_r in Hm1, He1 by (unfold n; lia). unfold mrs in Hm1 at 2. rewrite shr_record_m in Hm1.
  destruct (shr mrs e n) as [mrs1 e1]. cbn [fst snd] in Hm1, He1.
  set (m2 := round_nearest_even (shr_m mrs1) (loc_of_shr_record mrs1)).
  assert (e1 = Z.max (Zdigits2 m + e - 53) (-1074)) as He1' by (unfold n in He1; rewrite f_exp_eq in He1; lia).
  assert (0 <= shr_m mrs1 /\ Zdigits2 (shr_m mrs1) <= 53 /\
          (e1 = -1074 \/ e1 = Zdigits2 (shr_m mrs1) + e1 - 53)) as (Hp1 & Hd1 & Hc1).
  { assert (0 <= shr_m mrs1) as Hp by (rewrite Hm1; apply Z.div_pos; [done|apply Z.pow_pos_nonneg; lia]).
    split; [done|]. assert (0 <= n) as Hn by lia.
    destruct (decide (m = 0)) as [->|Hm0].
    { rewrite Hm1, Z.div_0_l by (pose proof (Z.pow_pos_nonneg 2 n); lia). cbn [Zdigits2] in *.
      rewrite f_exp_eq in *. lia. }
    destruct (decide (n < Zdigits2 m)) as [Hlt|Hge].
    - rewrite Hm1, Zdigits2_div by lia. lia.
    - assert (shr_m mrs1 = 0) as -> by (rewrite Hm1; apply Z.div_small; split; [done|];
        apply Zdigits2_le; [done|lia|lia]). cbn [Zdigits2]. lia. }
  assert (shr_m mrs1 <= m2 <= shr_m mrs1 + 1) as Hm2
    by (unfold m2; destruct (loc_of_shr_record mrs1) as [|[]]; cbn; [lia|destruct (Z.even _); lia|lia|lia]).
  apply (round_aux_valid_2 s (shr_m mrs1)); lia.
Qed.

(** ** Quotients *)

Lemma f_exp_mono x y : x <= y -> f_exp x <= f_exp y.
Proof. rewrite !f_exp_eq. lia. Qed.

(** What [SFdiv_core_binary] returns, on positive numbers. *)
Lemma div_core_spec n1 e1 n2 e2 :
  0 < n1 -> 0 < n2 ->
  exists e,
    e = Z.min (f_exp (Zdigits2 n1 + e1 - (Zdigits2 n2 + e2))) (e1 - e2) /\
    SFdiv_core_binary f_prec f_emax n1 e1 n2 e2 =
      (n1 * 2 ^ (e1 - e2 - e) / n2, e, new_location n2 (n1 * 2 ^ (e1 - e2 - e) mod n2)).
Proof.
  intros H1 H2. eexists. split; [reflexivity|]. unfold SFdiv_core_binary.
  set (e := Z.min _ _). assert (0 <= e1 - e2 - e) as Hs by (unfold e; lia).
  assert (match e1 - e2 - e with 0 => n1 | Z.pos _ => Z.shiftl n1 (e1 - e2 - e) | Z.neg _ => 0 end =
          n1 * 2 ^ (e1 - e2 - e)) as ->.
  { destruct (e1 - e2 - e) as [|p|p]; [by rewrite Z.mul_1_r| |lia]. by rewrite Z.shiftl_mul_pow2. }
  unfold Z.div, Z.modulo. by destruct (Z.div_eucl _ _).
Qed.

Lemma div_core_exp n1 e1 n2 e2 q e l :
  0 < n1 -> 0 < n2 -> SFdiv_core_binary f_prec f_emax n1 e1 n2 e2 = (q, e, l) ->
  0 <= q /\ e <= f_exp (Zdigits2 q + e).
Proof.
  intros H1 H2. destruct (div_core_spec n1 e1 n2 e2 H1 H2) as (e' & He' & ->). intros [= <- <- <-].
  set (k := e1 - e2 - e') in *. assert (0 <= k) as Hk by lia.
  pose proof (Z.pow_pos_nonneg 2 k ltac:(lia) Hk) as Hpow.
  assert (0 <= n1 * 2 ^ k / n2) as Hq by (apply Z.div_pos; nia). split; [done|].
  transitivity (f_exp (Zdigits2 n1 + e1 - (Zdigits2 n2 + e2))); [lia|].
  apply f_exp_mono. pose proof (Zdigits2_shift n1 k H1 Hk) as Hd.
  enough (Zdigits2 (n1 * 2 ^ k) <= Zdigits2 n2 + Zdigits2 (n1 * 2 ^ k / n2)) by lia.
  assert (forall z, 0 <= Zdigits2 z) as Hd0 by (by intros [|p|p]).
  apply Zdigits2_le; [nia|pose proof (Hd0 n2); pose proof (Hd0 (n1 * 2 ^ k / n2)); lia|].
  rewrite Z.pow_add_r by done.
  pose proof (Zdigits2_bound n2 ltac:(lia)). pose proof (Zdigits2_bound (n1 * 2 ^ k / n2) Hq).
  pose proof (Z.div_mod (n1 * 2 ^ k) n2 ltac:(lia)). pose proof (Z.mod_pos_bound (n1 * 2 ^ k) n2 H2). nia.
Qed.

Lemma f_of_ratio_valid s num den : f_valid (f_of_ratio s num den).
Proof.
  unfold f_of_ratio. destruct num as [|n|n]; [done| |done].
  destruct (SFdiv_core_binary f_prec f_emax (Z.pos n) 0 (Z.pos den) 0) as [[q e] l] eqn:Hd.
  apply div_core_exp in Hd as [Hq He]; [|done..]. by apply round_aux_valid.
Qed.

(** A fraction that is a float is read as that float. *)
Lemma f_of_ratio_exact s num den m e :
  bounded f_prec f_emax m e = true ->
  num * 2 ^ Z.max 0 (- e) = Z.pos m * 2 ^ Z.max 0 e * Z.pos den ->
  f_of_ratio s num den = S754_finite s m e.
Proof.
  intros Hb Heq. pose proof Hb as [Hc He]%bounded_spec.
  assert (0 < num) as Hnum.
  { pose proof (Z.pow_pos_nonneg 2 (Z.max 0 (- e))). pose proof (Z.pow_pos_nonneg 2 (Z.max 0 e)). nia. }
  destruct num as [|n|n]; [lia| |lia]. unfold f_of_ratio.
  destruct (div_core_spec (Z.pos n) 0 (Z.pos den) 0 ltac:(done) ltac:(done)) as (e' & He' & ->).
  rewrite !Z.add_0_r in He'. change (0 - 0) with 0 in *. rewrite (Z.sub_0_l e').
  assert (e' <= e) as Hle.
  { transitivity (f_exp (Zdigits2 (Z.pos n) - Zdigits2 (Z.pos den))); [lia|]. rewrite <- Hc.
    apply f_exp_mono. change (Z.pos (digits2_pos m)) with (Zdigits2 (Z.pos m)).
    assert (Zdigits2 (Z.pos n * 2 ^ Z.max 0 (- e)) <= Zdigits2 (Z.pos m) + Z.max 0 e + Zdigits2 (Z.pos den)).
    { rewrite Heq. apply Zdigits2_le; [nia|cbn; lia|]. rewrite !Z.pow_add_r by (cbn; lia).
      pose proof (Zdigits2_bound (Z.pos m) ltac:(done)). pose proof (Zdigits2_bound (Z.pos den) ltac:(done)).
      pose proof (Z.pow_pos_nonneg 2 (Z.max 0 e) ltac:(lia) ltac:(lia)) as Hp.
      apply Z.mul_lt_mono_nonneg; [nia| |done..]. by apply Z.mul_lt_mono_pos_r. }
    rewrite Zdigits2_shift in H by lia. lia. }
  assert (Z.pos n * 2 ^ (- e') = Z.pos m * 2 ^ (e - e') * Z.pos den) as Hn.
  { apply (Z.mul_cancel_r _ _ (2 ^ Z.max 0 (- e))); [pose proof (Z.pow_pos_nonneg 2 (Z.max 0 (- e))); lia|].
    assert (2 ^ Z.max 0 e * 2 ^ (- e') = 2 ^ (e - e') * 2 ^ Z.max 0 (- e)) as Hp
      by (rewrite <- !Z.pow_add_r by lia; f_equal; lia).
    transitivity (Z.pos m * Z.pos den * (2 ^ Z.max 0 e * 2 ^ (- e'))); [|rewrite Hp; ring].
    rewrite Z.mul_shuffle0, Heq. ring. }
  rewrite Hn, Z.div_mul, Z.mod_mul by done.
  replace (new_location (Z.pos den) 0) with loc_Exact by (unfold new_location; by destruct (Z.even _)).
  pose proof (round_aux_exact s m e' (e - e')) as Hr. rewrite Zplus_minus in Hr. apply Hr; [done|lia].
Qed.

(** ** Validity of the operations *)

Lemma binary_round_valid s m e : f_valid (binary_round f_prec f_emax s m e).
Proof.
  unfold binary_round, shl_align. set (ez := f_exp (Z.pos (digits2_pos m) + e)).
  destruct (ez - e) as [|d|d] eqn:Hd; cbn [fst snd].
  - apply round_aux_valid; [done|]. cbn [Zdigits2]. fold ez. lia.
  - apply round_aux_valid; [done|]. cbn [Zdigits2]. fold ez. lia.
  - assert (Z.pos (Pos.iter xO m d) = Z.pos m * 2 ^ Z.pos d) as ->.
    { change (Pos.iter xO m d) with (shift_pos d m). rewrite shift_pos_correct.
      change (2 ^ Z.pos d) with (Z.pow_pos 2 d). ring. }
    apply round_aux_valid; [lia|]. rewrite Zdigits2_shift by lia. cbn [Zdigits2].
    replace (Z.pos (digits2_pos m) + Z.pos d + ez) with (Z.pos (digits2_pos m) + e) by lia. done.
Qed.

Lemma binary_normalize_valid z e s : f_valid (binary_normalize f_prec f_emax z e s).
Proof. destruct z as [|p|p]; [done|apply binary_round_valid..]. Qed.

Lemma f_of_Z_valid z f : f_of_Z z = Ok f -> f_valid f.
Proof.
  unfold f_of_Z. intros H. pose proof (binary_normalize_valid z 0 false) as Hv.
  destruct (binary_normalize _ _ z 0 false); by simplify_eq.
Qed.

Lemma fadd_valid x y : f_valid x -> f_valid y -> f_valid (fadd x y).
Proof.
  intros Hx Hy. destruct x as [[]|[]| |s1 m1 e1], y as [[]|[]| |s2 m2 e2]; try done; apply binary_normalize_valid.
Qed.

Lemma fsub_valid x y : f_valid x -> f_valid y -> f_valid (fsub x y).
Proof.
  intros Hx Hy. destruct x as [[]|[]| |s1 m1 e1], y as [[]|[]| |s2 m2 e2]; try done; apply binary_normalize_valid.
Qed.

Lemma fdiv_valid x y q : f_valid x -> f_valid y -> fdiv x y = Ok q -> f_valid q.
Proof.
  intros Hx Hy. destruct y as [s2|s2| |s2 m2 e2]; cbn [fdiv]; [done|intros [= <-]..]; destruct x as [s1|s1| |s1 m1 e1]; try done.
  unfold SFdiv. destruct (SFdiv_core_binary _ _ (Z.pos m1) e1 (Z.pos m2) e2) as [[q e] l] eqn:Hd.
  apply div_core_exp in Hd as [Hq He]; [|done..]. by apply round_aux_valid.
Qed.

Lemma fmul_valid x y : f_valid x -> f_valid y -> f_valid (fmul x y).
Proof.
  intros Hx Hy. destruct x as [s1|s1| |s1 m1 e1], y as [s2|s2| |s2 m2 e2]; try done.
  apply round_aux_valid; [done|]. apply bounded_spec in Hx as [Hc1 _], Hy as [Hc2 _].
  assert (Zdigits2 (Z.pos m1) + Zdigits2 (Z.pos m2) - 1 <= Zdigits2 (Z.pos (m1 * m2))) as Hd.
  { rewrite !Zdigits2_pos, Pos2Z.inj_mul by done. pose proof (Z.log2_mul_below (Z.pos m1) (Z.pos m2)). lia. }
  cbn [Zdigits2] in *. rewrite f_exp_eq in *. lia.
Qed.

Lemma int_div_valid a b q : int_div a b = Ok q -> f_valid q.
Proof.
  unfold int_div. destruct b as [|p|p]; [done|..];
    match goal with |- context [f_of_ratio ?s ?a ?d] => pose proof (f_of_ratio_valid s a d) as Hv;
      destruct (f_of_ratio s a d) end; intros; by simplify_eq.
Qed.

Lemma f_round_valid x n : f_valid x -> f_valid (f_round x n).
Proof.
  intros Hx. destruct x as [s|s| |s m e]; try done. unfold f_round.
  destruct (0 <=? e); [done|]. apply f_of_ratio_valid.
Qed.

(** ** No overflow *)

Lemma round_aux_finite s m e l :
  0 <= m -> e <= f_exp (Zdigits2 m + e) -> Zdigits2 m + e <= 1000 ->
  forall s', round_aux s m e l <> S754_infinity s'.
Proof.
  intros Hm He Hb s'. unfold binary_round_aux, shr_fexp.
  set (mrs := shr_record_of_loc m l). set (n := f_exp (Zdigits2 m + e) - e).
  destruct (shr_m_div mrs e n) as [Hm1 He1]; [by unfold mrs; rewrite shr_record_m|].
  rewrite Z.max_r in Hm1, He1 by (unfold n; lia). unfold mrs in Hm1 at 2. rewrite shr_record_m in Hm1.
  destruct (shr mrs e n) as [mrs1 e1]. cbn [fst snd] in Hm1, He1.
  set (m2 := round_nearest_even (shr_m mrs1) (loc_of_shr_record mrs1)).
  assert (e1 <= 947) as He1' by (unfold n in He1; rewrite f_exp_eq in He1; lia).
  assert (0 <= n) as Hn by (unfold n; lia).
  assert (shr_m mrs1 < 2 ^ 53) as Hlt.
  { rewrite Hm1. apply Z.div_lt_upper_bound; [by apply Z.pow_pos_nonneg|]. rewrite <- Z.pow_add_r by lia.
    apply Zdigits2_le; [done|lia|]. unfold n. rewrite f_exp_eq. lia. }
  assert (0 <= shr_m mrs1) as Hp by (rewrite Hm1; apply Z.div_pos; [done|by apply Z.pow_pos_nonneg]).
  assert (0 <= m2 < 2 ^ 54) as Hm2
    by (unfold m2; destruct (loc_of_shr_record mrs1) as [|[]]; cbn; [lia|destruct (Z.even _); lia|lia|lia]).
  change (shr_record_of_loc m2 loc_Exact) with (Build_shr_record m2 false false).
  assert (Zdigits2 m2 <= 54) as Hd by (apply Zdigits2_le; lia).
  destruct (shr_m_div (Build_shr_record m2 false false) e1 (f_exp (Zdigits2 m2 + e1) - e1)) as [_ He2]; [cbn; lia|].
  destruct (shr _ _ _) as [mrs2 e2]. cbn [fst snd] in He2. rewrite f_exp_eq in He2.
  destruct (shr_m mrs2) as [|p|p]; [done| |done].
  destruct (Z.leb_spec e2 (f_emax - f_prec)) as [|Hbig]; [done|]. unfold f_emax, f_prec in Hbig. lia.
Qed.

Lemma f_of_ratio_finite s num den s' : num < Z.pos den * 2 ^ 900 -> f_of_ratio s num den <> S754_infinity s'.
Proof.
  intros Hb. unfold f_of_ratio. destruct num as [|n|n]; [done| |done].
  destruct (SFdiv_core_binary f_prec f_emax (Z.pos n) 0 (Z.pos den) 0) as [[q e] l] eqn:Hd.
  destruct (div_core_exp (Z.pos n) 0 (Z.pos den) 0 q e l) as [Hq He]; [done..|].
  destruct (div_core_spec (Z.pos n) 0 (Z.pos den) 0 ltac:(done) ltac:(done)) as (e' & He' & Hd').
  rewrite Hd in Hd'. injection Hd' as -> <- ->. change (0 - 0) with 0 in *.
  apply round_aux_finite; [done..|].
  enough (Zdigits2 (Z.pos n * 2 ^ (0 - e) / Z.pos den) <= 900 - e) by lia.
  apply Zdigits2_le; [done|lia|]. apply Z.div_lt_upper_bound; [done|].
  replace (900 - e) with (900 + (0 - e)) by lia. rewrite Z.pow_add_r by lia. rewrite Z.mul_assoc.
  apply Z.mul_lt_mono_pos_r; [|done]. apply Z.pow_pos_nonneg; lia.
Qed.

(** A quotient of integers that is not too large. *)
Lemma int_div_ok a b : b <> 0 -> Z.abs a < Z.abs b * 2 ^ 900 -> exists q, int_div a b = Ok q.
Proof.
  intros Hb Hlt. unfold int_div. destruct b as [|p|p]; [done|..];
    match goal with |- context [f_of_ratio ?s ?a ?d] =>
      pose proof (fun s' => f_of_ratio_finite s a d s' Hlt) as Hf; destruct (f_of_ratio s a d) as [|s'| |] end;
    try (by eexists); by destruct (Hf s').
Qed.

(** An integer of at most 53 bits is a float. *)
Lemma f_of_Z_small z : z <> 0 -> Z.abs z < 2 ^ 53 -> exists s m e, f_of_Z z = Ok (S754_finite s m e).
Proof.
  intros Hz Hlt. unfold f_of_Z.
  assert (forall s p, Z.pos p < 2 ^ 53 -> exists m e, binary_round f_prec f_emax s p 0 = S754_finite s m e) as Hr.
  { clear. intros s p Hp. unfold binary_round, shl_align. rewrite Z.add_0_r.
    pose proof (Zdigits2_le (Z.pos p) 53 ltac:(done) ltac:(done)) as [Hd _]. specialize (Hd Hp). cbn [Zdigits2] in Hd.
    set (d := Z.pos (digits2_pos p)) in *. rewrite (f_exp_eq d). assert (1 <= d) by (unfold d; lia).
    replace (Z.max (d - 53) (-1074)) with (d - 53) by lia. rewrite Z.sub_0_r.
    assert (forall m e, Z.pos (digits2_pos m) + e = d -> e = d - 53 ->
      round_aux s (Z.pos m) e loc_Exact = S754_finite s m e) as Hx.
    { intros m e Hm He. pose proof (round_aux_exact s m e 0) as Hr. rewrite Z.mul_1_r, Z.add_0_r in Hr.
      apply Hr; [|done]. apply bounded_spec. rewrite Hm, f_exp_eq. lia. }
    destruct (d - 53) as [|k|k] eqn:Hk; [|lia|].
    - exists p, 0. apply Hx; [fold d; lia|done].
    - eexists _, _. apply Hx; [|done].
      assert (Z.pos (digits2_pos (Pos.iter xO p k)) = Zdigits2 (Z.pos p * 2 ^ Z.pos k)) as ->.
      { change (Pos.iter xO p k) with (shift_pos k p). change (Z.pos (digits2_pos ?x)) with (Zdigits2 (Z.pos x)).
        f_equal. rewrite shift_pos_correct. change (2 ^ Z.pos k) with (Z.pow_pos 2 k). ring. }
      rewrite Zdigits2_shift by lia. cbn [Zdigits2]. fold d. lia. }
  destruct z as [|p|p]; [done|..]; cbn [binary_normalize];
    [destruct (Hr false p Hlt) as (m & e & ->)|destruct (Hr true p Hlt) as (m & e & ->)]; by eexists _, _, _.
Qed.
