(* ===== verification/PyJson.v ===== *)
(** * JSON values, as [json.loads] returns them

    Only the operations the program applies to such values: subscripts,
    [get], iteration, unpacking, [round] and [int]. *)

From Stdlib Require Import Ascii String ZArith.
From S2P Require Import Prelude PyText PyDict PyFloat PyFloatThms.

Open Scope string_scope.
Open Scope list_scope.
Open Scope Z_scope.

Inductive json :=
  | JNull
  | JBool (b : bool)
  | JInt (z : Z)
  | JFloat (f : float)
  | JStr (s : string)
  | JArr (l : list json)
  | JObj (d : list (string * json)).

(** [v[k]] for a string [k]. *)
Definition json_index (v : json) (k : string) : res json :=
  match v with JObj d => dict_index d k | _ => Raise TypeError end.

(** [v.get(k, default)]; only dictionaries have the method. *)
Definition json_get (v : json) (k : string) (default : json) : res json :=
  match v with
  | JObj d => Ok (match dict_get d k with Some x => x | None => default end)
  | _ => Raise AttributeError
  end.

(** [for x in v] *)
Definition json_iter (v : json) : res (list json) :=
  match v with
  | JArr l => Ok l
  | JObj d => Ok (JStr <$> dict_keys d)
  | JStr s => Ok ((fun c => JStr (String c "")) <$> list_ascii_of_string s)
  | _ => Raise TypeError
  end.

(** [round(v, n)] with [n > 0] *)
Definition json_round (v : json) (n : nat) : res json :=
  match v with
  | JInt z => Ok (JInt z)
  | JBool b => Ok (JInt (if b then 1 else 0))
  | JFloat f => Ok (JFloat (f_round f n))
  | _ => Raise TypeError
  end.

(** [int(v)] *)
Definition json_int (v : json) : res Z :=
  match v with
  | JInt z => Ok z
  | JBool b => Ok (if b then 1 else 0)
  | JFloat f => f_trunc f
  | JStr s => int_of_str s
  | _ => Raise TypeError
  end.

(** ** Well-formed values *)

(** Every float in the value is one of the format. *)
Fixpoint json_valid (v : json) : Prop :=
  match v with
  | JFloat f => f_valid f
  | JArr l => foldr (fun x P => json_valid x /\ P) True l
  | JObj d => foldr (fun kv P => json_valid kv.2 /\ P) True d
  | _ => True
  end.

Lemma json_valid_arr l : json_valid (JArr l) <-> Forall json_valid l.
Proof. cbn. induction l as [|x l IH]; cbn; [by split|]. by rewrite Forall_cons, IH. Qed.

Lemma json_valid_obj d : json_valid (JObj d) <-> Forall (fun kv => json_valid kv.2) d.
Proof. cbn. induction d as [|x d IH]; cbn; [by split|]. by rewrite Forall_cons, IH. Qed.

Lemma json_valid_get d k v : json_valid (JObj d) -> dict_get d k = Some v -> json_valid v.
Proof.
  rewrite json_valid_obj, Forall_forall. intros Hd Hk. by apply (Hd (k, v)), dict_get_Some_elem.
Qed.

(** A number, as [round] returns it. *)
Definition number (v : json) : Prop :=
  match v with JInt _ => True | JFloat f => f_valid f | _ => False end.

Lemma json_index_valid v k x : json_valid v -> json_index v k = Ok x -> json_valid x.
Proof.
  destruct v; try done. cbn [json_index]. unfold dict_index. intros Hv.
  destruct (dict_get d k) as [y|] eqn:Hk; [|done]. intros [= <-]. by eapply json_valid_get.
Qed.

Lemma json_get_valid v k x y : json_valid v -> json_valid x -> json_get v k x = Ok y -> json_valid y.
Proof.
  destruct v; try done. cbn [json_get]. intros Hv Hx.
  destruct (dict_get d k) as [z|] eqn:Hk; intros [= <-]; [by eapply json_valid_get|done].
Qed.

Lemma json_round_number v n x : json_valid v -> json_round v n = Ok x -> number x.
Proof. destruct v; try done; intros Hv [= <-]; [done|done|by apply f_round_valid]. Qed.

Lemma json_iter_valid v l : json_valid v -> json_iter v = Ok l -> Forall json_valid l.
Proof.
  destruct v as [| | | |s|l'|d]; try done.
  - intros _ [= <-]. by apply Forall_fmap, Forall_true.
  - intros Hv [= <-]. by apply json_valid_arr.
  - intros _ [= <-]. by apply Forall_fmap, Forall_true.
Qed.
