(* ===== verification/PyNum.v ===== *)
(** * Reading and printing of numbers

    [float_of_str] is [float(s)], [fmt_fixed v n] is the format [f"{v:.nf}"],
    [fmt_comma v] is [f"{v:,.0f}"] and [int_comma n] is [f"{n:,}"].  Both
    directions go through the exact rational value, rounded once. *)

From Stdlib Require Import Ascii String ZArith Lia SpecFloat.
From S2P Require Import Prelude PyText PyFloat.

Open Scope string_scope.
Open Scope list_scope.
Open Scope Z_scope.

(** ** [float(s)] *)

(** Digits with single underscores between them: the value after [acc], the
    number of digits, and what follows. *)
Fixpoint scan_digits (acc : Z) (n : nat) (s : string) : Z * nat * string :=
  match s with
  | String c s' =>
      if is_digit c then scan_digits (10 * acc + digit_val c) (S n) s'
      else if Ascii.eqb c "_" && negb (n =? 0)%nat then
        match s' with
        | String d s'' =>
            if is_digit d then scan_digits (10 * acc + digit_val d) (S n) s'' else (acc, n, s)
        | "" => (acc, n, s)
        end
      else (acc, n, s)
  | "" => (acc, n, s)
  end.

(** A sign, if any: whether it is a minus, and the rest. *)
Definition scan_sign (s : string) : bool * string :=
  match s with
  | String "-" s' => (true, s')
  | String "+" s' => (false, s')
  | _ => (false, s)
  end.

(** The exponent part, to the end of the string. *)
Definition scan_exp (s : string) : option Z :=
  match s with
  | "" => Some 0
  | String c s' =>
      if Ascii.eqb c "e" || Ascii.eqb c "E" then
        let '(neg, s') := scan_sign s' in
        let '(e, n, rest) := scan_digits 0 0 s' in
        if (n =? 0)%nat then None
        else match rest with "" => Some (if neg then - e else e) | _ => None end
      else None
  end.

(** The float nearest to [m * 10^e]. *)
Definition f_of_decimal (neg : bool) (m e : Z) : float :=
  if 0 <=? e then f_of_ratio neg (m * 10 ^ e) 1
  else f_of_ratio neg m (Z.to_pos (10 ^ (- e))).

Definition lower (c : ascii) : ascii :=
  if z_in_range 65 91 (ascii_code c) then ascii_of_nat (nat_of_ascii c + 32) else c.

Fixpoint str_lower (s : string) : string :=
  match s with "" => "" | String c s' => String (lower c) (str_lower s') end.

Definition float_of_str (s : string) : res float :=
  let '(neg, body) := scan_sign (strip s) in
  let low := str_lower body in
  if bool_decide (low = "inf" \/ low = "infinity") then Ok (S754_infinity neg)
  else if bool_decide (low = "nan") then Ok S754_nan
  else
    let '(m, n, rest) := scan_digits 0 0 body in
    let '(m, n', rest) :=
      match rest with
      | String "." rest' =>
          (* the digits after the point start a group of their own *)
          let '(m', k, rest'') := scan_digits 0 0 rest' in (m * 10 ^ Z.of_nat k + m', k, rest'')
      | _ => (m, 0%nat, rest)
      end in
    if (n + n' =? 0)%nat then Raise ValueError
    else match scan_exp rest with
         | Some e => Ok (f_of_decimal neg m (e - Z.of_nat n'))
         | None => Raise ValueError
         end.

(** ** Fixed-point formats *)

Fixpoint zeros (n : nat) : string := match n with O => "" | S n => String "0" (zeros n) end.

(** [q] of at least [n + 1] digits. *)
Definition pad_digits (n : nat) (q : Z) : string :=
  let s := str_of_Z q in zeros (S n - String.length s) +:+ s.

(** The last [n] characters after a point. *)
Definition put_point (n : nat) (s : string) : string :=
  match n with
  | O => s
  | _ => let k := (String.length s - n)%nat in
         substring 0 k s +:+ "." +:+ substring k n s
  end.

(** [|v| * 10^n] rounded to an integer. *)
Definition scaled (n : nat) (m : positive) (e : Z) : Z :=
  let num := Z.pos m * 10 ^ Z.of_nat n in
  if 0 <=? e then num * 2 ^ e else round_half_even num (Z.to_pos (2 ^ (- e))).

(** [f"{v:.nf}"] *)
Definition fmt_fixed (n : nat) (v : float) : string :=
  match v with
  | S754_nan => "nan"
  | S754_infinity s => if s then "-inf" else "inf"
  | S754_zero s => (if s then "-" else "") +:+ put_point n (pad_digits n 0)
  | S754_finite s m e => (if s then "-" else "") +:+ put_point n (pad_digits n (scaled n m e))
  end.

(** Commas every three digits from the right. *)
Fixpoint group3 (s : string) : string :=
  match s with
  | "" => ""
  | String c s' =>
      let r := group3 s' in
      if ((String.length s' mod 3 =? 0)%nat && negb (String.length s' =? 0)%nat)
      then String c (String "," r) else String c r
  end.

(** [f"{n:,}"] *)
Definition int_comma (z : Z) : string :=
  (if z <? 0 then "-" else "") +:+ group3 (str_of_Z (Z.abs z)).

(** [f"{v:,.0f}"] *)
Definition fmt_comma (v : float) : string :=
  match v with
  | S754_nan => "nan"
  | S754_infinity s => if s then "-inf" else "inf"
  | S754_zero s => if s then "-0" else "0"
  | S754_finite s m e => (if s then "-" else "") +:+ group3 (str_of_Z (scaled 0 m e))
  end.

Example float_of_str_ex :
  float_of_str " 1_0.25e1 " = Ok (f_of_ratio false 1025 10) /\
  float_of_str "-.5" = Ok (f_of_ratio true 1 2) /\
  float_of_str "1e" = Raise ValueError /\ float_of_str "." = Raise ValueError /\
  float_of_str "" = Raise ValueError /\ float_of_str "-Inf" = Ok (S754_infinity true).
Proof. repeat split; reflexivity. Qed.

Example fmt_ex :
  fmt_fixed 1 (f_of_ratio false 25 100) = "0.2" /\ fmt_fixed 2 (f_of_ratio true 1005 1000) = "-1.00" /\
  fmt_comma (f_of_ratio false 12345675 10) = "1,234,568" /\ int_comma 1000 = "1,000" /\
  fmt_fixed 1 (f_of_ratio false 5 100) = "0.1".
Proof. repeat split; reflexivity. Qed.
