(* ===== verification/PyRepr.v ===== *)
(** * [repr] of a float

    [float_repr f] is Python's [repr(f)] and [str(f)]: the shortest decimal that
    [float()] reads back as [f] and, among those, the nearest to [f], written
    in positional or exponent notation.

    The search tries one digit more at a time; for each number of digits only
    the two decimals around the exact value can be the answer.  It ends with
    the exact expansion of the binary fraction, which always reads back, so
    [float_repr_roundtrip] holds for every float of the format. *)

From Stdlib Require Import Ascii String ZArith Lia SpecFloat.
From Stdlib Require DecimalFacts DecimalPos DecimalString.
From S2P Require Import Prelude PyText PyFloat PyFloatThms PyNum.

Open Scope string_scope.
Open Scope list_scope.
Open Scope Z_scope.

(** ** The text of a decimal [a * 10^E] *)

(** Without zeros at the end of [a]. *)
Fixpoint strip_zeros (fuel : nat) (a E : Z) : Z * Z :=
  match fuel with
  | S fuel => if (a mod 10 =? 0) then strip_zeros fuel (a / 10) (E + 1) else (a, E)
  | O => (a, E)
  end.

Definition sign_text (s : bool) : string := if s then "-" else "".

(** [e+16], [e-05]: at least two digits. *)
Definition exp_text (x : Z) : string :=
  "e" +:+ (if x <? 0 then "-" else "+") +:+ (if Z.abs x <? 10 then "0" else "") +:+ str_of_Z (Z.abs x).

(** The digits [ds] with the point after the first [decpt]. *)
Definition positional (ds : string) (decpt : Z) : string :=
  let nd := Z.of_nat (String.length ds) in
  if decpt <=? 0 then "0." +:+ zeros (Z.to_nat (- decpt)) +:+ ds
  else if nd <=? decpt then ds +:+ zeros (Z.to_nat (decpt - nd)) +:+ ".0"
  else substring 0 (Z.to_nat decpt) ds +:+ "." +:+ slice_from (Z.to_nat decpt) ds.

(** A point and the digits after it, if any. *)
Definition fraction (fp : string) : string := match fp with "" => "" | _ => "." +:+ fp end.

Definition scientific (ds : string) (decpt : Z) : string :=
  substring 0 1 ds +:+ fraction (slice_from 1 ds) +:+ exp_text (decpt - 1).

Definition decimal_text (s : bool) (a E : Z) : string :=
  let '(a, E) := strip_zeros (String.length (str_of_Z a)) a E in
  let ds := str_of_Z a in
  let decpt := Z.of_nat (String.length ds) + E in
  sign_text s +:+ (if (-4 <? decpt) && (decpt <=? 16) then positional ds decpt else scientific ds decpt).

(** ** The search *)

(** [m * 2^e] as a decimal. *)
Definition exact_decimal (m : positive) (e : Z) : Z * Z :=
  if 0 <=? e then (Z.pos m * 2 ^ e, 0) else (Z.pos m * 5 ^ (- e), e).

Definition reads_back (s : bool) (a E : Z) (f : float) : bool :=
  bool_decide (float_of_str (decimal_text s a E) = Ok f).

(** [M * 10^E] without its last [k] digits, [k - 1], ...: the nearer neighbour
    first. *)
Fixpoint shortest (s : bool) (f : float) (M E : Z) (k : nat) : Z * Z :=
  match k with
  | O => (M, E)
  | S k' =>
      let p := 10 ^ Z.of_nat k in
      let q := M / p in
      let r := 2 * (M mod p) in
      let down := (r <? p) || (r =? p) && Z.even q in
      let near := if down then q else q + 1 in
      let far := if down then q + 1 else q in
      if reads_back s near (E + Z.of_nat k) f then (near, E + Z.of_nat k)
      else if reads_back s far (E + Z.of_nat k) f then (far, E + Z.of_nat k)
      else shortest s f M E k'
  end.

Definition float_repr (f : float) : string :=
  match f with
  | S754_nan => "nan"
  | S754_infinity s => if s then "-inf" else "inf"
  | S754_zero s => sign_text s +:+ "0.0"
  | S754_finite s m e =>
      let '(M, E) := exact_decimal m e in
      let '(a, E) := shortest s f M E (pred (String.length (str_of_Z M))) in
      decimal_text s a E
  end.

Example float_repr_ex :
  float_repr (f_of_ratio false 1 10) = "0.1" /\ float_repr (f_of_ratio false 1 3) = "0.3333333333333333" /\
  float_repr (f_of_ratio true 10000 1) = "-10000.0" /\ float_repr (f_of_ratio false 1 100000) = "1e-05" /\
  float_repr (f_of_ratio false (10 ^ 23) 1) = "1e+23" /\ float_repr (f_of_ratio false (10 ^ 16) 1) = "1e+16" /\
  float_repr (S754_finite false 1 (-1074)) = "5e-324" /\
  float_repr (S754_finite false (2 ^ 53 - 1) 971) = "1.7976931348623157e+308".
Proof. repeat split; vm_compute; reflexivity. Qed.

(** ** Digits *)

(** The value of a string of digits read after [acc]. *)
Fixpoint digits_val (acc : Z) (s : string) : Z :=
  match s with
  | "" => acc
  | String c s => digits_val (10 * acc + digit_val c) s
  end.

Lemma digits_val_app acc s t : digits_val acc (s +:+ t) = digits_val (digits_val acc s) t.
Proof. revert acc. induction s as [|c s IH]; intros acc; [done|]. cbn. apply IH. Qed.

Lemma digits_val_acc acc s : digits_val acc s = acc * 10 ^ Z.of_nat (String.length s) + digits_val 0 s.
Proof.
  revert acc. induction s as [|c s IH]; intros acc; cbn [digits_val String.length]; [lia|].
  rewrite IH, (IH (10 * 0 + _)), Nat2Z.inj_succ, Z.pow_succ_r by lia. ring.
Qed.

Lemma length_append s t : String.length (s +:+ t) = (String.length s + String.length t)%nat.
Proof. induction s as [|c s IH]; [done|]. cbn. by rewrite IH. Qed.

Lemma length_zeros n : String.length (zeros n) = n.
Proof. induction n as [|n IH]; [done|]. cbn. by rewrite IH. Qed.

Lemma digits_zeros n : all_chars is_digit (zeros n) = true.
Proof. by induction n. Qed.

Lemma digits_val_zeros n : digits_val 0 (zeros n) = 0.
Proof. by induction n. Qed.

Lemma parse_digits_val b acc s :
  all_chars is_digit s = true -> s <> "" \/ b = true -> parse_digits b acc s = Some (digits_val acc s).
Proof.
  revert acc b. induction s as [|c s IH]; intros acc b Hs Hb; [by destruct Hb as [?| ->]|].
  cbn in Hs. apply andb_true_iff in Hs as [Hc Hs]. cbn [parse_digits digits_val].
  rewrite Hc. apply IH; [done|by right].
Qed.

Lemma digits_val_str z : 0 <= z -> digits_val 0 (str_of_Z z) = z.
Proof.
  intros Hz. pose proof (int_of_str_of_Z z) as H.
  rewrite (int_of_digits _ (digits_val 0 (str_of_Z z))) in H; [by simplify_eq|by apply str_of_Z_nonneg|].
  apply parse_digits_val; [by apply str_of_Z_nonneg|left; apply str_of_Z_ne].
Qed.

(** What may follow a group of digits. *)
Definition ends_digits (s : string) : bool :=
  match s with "" => true | String c _ => negb (is_digit c) && negb (Ascii.eqb c "_") end.

Lemma scan_digits_app acc n s t :
  all_chars is_digit s = true -> ends_digits t = true ->
  scan_digits acc n (s +:+ t) = (digits_val acc s, (n + String.length s)%nat, t).
Proof.
  intros Hs Ht. revert acc n Hs. induction s as [|c s IH]; intros acc n Hs.
  - rewrite Nat.add_0_r. destruct t as [|c t]; [done|]. cbn in Ht |- *.
    apply andb_true_iff in Ht as [->%negb_true_iff ->%negb_true_iff]. done.
  - cbn in Hs. apply andb_true_iff in Hs as [Hc Hs].
    change (String c s +:+ t) with (String c (s +:+ t)). cbn [scan_digits]. rewrite Hc, IH by done.
    cbn [digits_val String.length]. do 2 f_equal. lia.
Qed.

Lemma substring_slice k s : substring 0 k s +:+ slice_from k s = s.
Proof.
  revert k. induction s as [|c s IH]; intros [|k]; try done. cbn. f_equal. apply IH.
Qed.

Lemma length_slice_from k s : String.length (slice_from k s) = (String.length s - k)%nat.
Proof. revert k. induction s as [|c s IH]; intros [|k]; try done. cbn. apply IH. Qed.

Lemma digits_substring k s : all_chars is_digit s = true -> all_chars is_digit (substring 0 k s) = true.
Proof.
  intros Hs. rewrite <- (substring_slice k s), all_chars_app in Hs. by apply andb_true_iff in Hs as [? _].
Qed.

Lemma digits_slice k s : all_chars is_digit s = true -> all_chars is_digit (slice_from k s) = true.
Proof.
  intros Hs. rewrite <- (substring_slice k s), all_chars_app in Hs. by apply andb_true_iff in Hs as [_ ?].
Qed.

(** ** Reading back *)

(** The exponent part: nothing, or as [exp_text] writes it. *)
Definition is_exp (ex : string) (x : Z) : Prop := (ex = "" /\ x = 0) \/ ex = exp_text x.

Definition float_char (c : ascii) : bool :=
  is_digit c || bool_decide (c ∈ ["."; "e"; "+"; "-"]%char).

Lemma float_char_not_space c : float_char c = true -> negb (is_space c) = true.
Proof. destruct c as [[] [] [] [] [] [] [] []]; vm_compute; done. Qed.

Lemma float_chars_digits s : all_chars is_digit s = true -> all_chars float_char s = true.
Proof. apply all_chars_impl. intros c Hc. unfold float_char. by rewrite Hc. Qed.

Lemma exp_text_digits x :
  exists sg pad, exp_text x = "e" +:+ String sg (pad +:+ str_of_Z (Z.abs x)) /\
    all_chars is_digit (pad +:+ str_of_Z (Z.abs x)) = true /\
    digits_val 0 (pad +:+ str_of_Z (Z.abs x)) = Z.abs x /\
    ((sg = "-"%char /\ x < 0) \/ (sg = "+"%char /\ 0 <= x)).
Proof.
  unfold exp_text. exists (if x <? 0 then "-"%char else "+"%char), (if Z.abs x <? 10 then "0" else "").
  pose proof (str_of_Z_nonneg (Z.abs x) ltac:(lia)). split_and!.
  - by destruct (x <? 0), (Z.abs x <? 10).
  - by destruct (Z.abs x <? 10).
  - rewrite digits_val_app.
    replace (digits_val 0 (if Z.abs x <? 10 then "0" else "")) with 0 by (by destruct (Z.abs x <? 10)).
    by rewrite digits_val_str by lia.
  - destruct (Z.ltb_spec x 0); [left|right]; done.
Qed.

Lemma scan_exp_is_exp ex x : is_exp ex x -> scan_exp ex = Some x /\ ends_digits ex = true /\ all_chars float_char ex = true.
Proof.
  intros [[-> ->]| ->]; [done|]. destruct (exp_text_digits x) as (sg & pad & -> & Hd & Hv & Hs).
  set (ds := pad +:+ str_of_Z (Z.abs x)) in *.
  assert (scan_digits 0 0 ds = (Z.abs x, String.length ds, "")) as Hscan.
  { rewrite <- (append_nil_r ds) at 1. rewrite scan_digits_app by done. by rewrite Hv. }
  assert (String.length ds <> 0%nat) as Hne.
  { unfold ds. rewrite length_append. pose proof (str_of_Z_ne (Z.abs x)). destruct (str_of_Z (Z.abs x)); [done|]. cbn. lia. }
  apply Nat.eqb_neq in Hne.
  destruct Hs as [[-> Hx]|[-> Hx]]; (split_and!; [|done|by apply float_chars_digits in Hd]).
  - cbn [String.append scan_exp scan_sign]. change (Ascii.eqb "e" "e" || _) with true. cbv iota. rewrite Hscan, Hne.
    f_equal. lia.
  - cbn [String.append scan_exp scan_sign]. change (Ascii.eqb "e" "e" || _) with true. cbv iota. rewrite Hscan, Hne.
    f_equal. lia.
Qed.

Lemma ends_digits_fraction fp ex : ends_digits ex = true -> ends_digits (fraction fp +:+ ex) = true.
Proof. by destruct fp. Qed.

(** A number as Python prints it: digits, a fraction, an exponent. *)
Lemma float_of_number s ip fp ex x :
  all_chars is_digit ip = true -> ip <> "" -> all_chars is_digit fp = true -> is_exp ex x ->
  float_of_str (sign_text s +:+ ip +:+ fraction fp +:+ ex) =
  Ok (f_of_decimal s (digits_val 0 (ip +:+ fp)) (x - Z.of_nat (String.length fp))).
Proof.
  intros Hi Hne Hf Hx. destruct (scan_exp_is_exp ex x Hx) as (Hex & Hends & Hchars).
  set (body := ip +:+ fraction fp +:+ ex).
  assert (exists c b, body = String c b /\ is_digit c = true) as (c & b & Hbody & Hc).
  { destruct ip as [|c ip]; [done|]. cbn in Hi. apply andb_true_iff in Hi as [Hc _]. by eexists _, _. }
  assert (all_chars float_char (sign_text s +:+ body) = true) as Hall.
  { rewrite all_chars_app. apply andb_true_iff. split; [by destruct s|]. unfold body. rewrite !all_chars_app.
    rewrite (float_chars_digits _ Hi), Hchars. destruct fp as [|d fp]; [done|].
    change (fraction (String d fp)) with ("." +:+ String d fp). by rewrite all_chars_app, (float_chars_digits _ Hf). }
  unfold float_of_str. rewrite strip_id by (by apply (all_chars_impl float_char); [apply float_char_not_space|]).
  assert (scan_sign (sign_text s +:+ body) = (s, body)) as ->.
  { destruct s; [done|]. cbn. rewrite Hbody. destruct c as [[] [] [] [] [] [] [] []]; try done. }
  assert (exists d, str_lower body = String d (str_lower b) /\ is_digit d = true) as (d & Hlow & Hd).
  { exists (lower c). rewrite Hbody. split; [done|]. unfold lower. rewrite (proj2 (z_in_range_false _ _ _)); [done|].
    apply z_in_range_spec in Hc. lia. }
  rewrite !bool_decide_false by (rewrite Hlow; intros H; destruct_or?; by simplify_eq).
  unfold body. rewrite scan_digits_app by (done || by apply ends_digits_fraction). cbn [Nat.add].
  destruct fp as [|f fp].
  - cbn [fraction String.append String.length Nat.add]. change ("" +:+ ex) with ex. rewrite append_nil_r.
    assert ((String.length ip + 0 =? 0)%nat = false) as Hl by (by destruct ip).
    destruct ex as [|e ex]; [by rewrite Hl, Hex|].
    destruct (Ascii.ascii_dec e ".") as [->|Hn]; [destruct Hx as [[? _]|He]; [done|by unfold exp_text in He]|].
    destruct e as [[] [] [] [] [] [] [] []]; try done; by rewrite Hl, Hex.
  - change (fraction (String f fp) +:+ ex) with (String "." (String f fp +:+ ex)). cbv iota beta.
    rewrite scan_digits_app by done. cbn [Nat.add].
    assert ((String.length ip + String.length (String f fp) =? 0)%nat = false) as -> by (destruct ip; done).
    rewrite Hex. by rewrite digits_val_app, (digits_val_acc (digits_val 0 ip)).
Qed.

(** ** Exact decimals *)

(** [a * 10^E = m * 2^e] *)
Definition dec_is (a E : Z) (m : positive) (e : Z) : Prop :=
  a * 10 ^ Z.max 0 E * 2 ^ Z.max 0 (- e) = Z.pos m * 2 ^ Z.max 0 e * 10 ^ Z.max 0 (- E).

Lemma f_of_decimal_exact s a E m e :
  bounded f_prec f_emax m e = true -> dec_is a E m e -> f_of_decimal s a E = S754_finite s m e.
Proof.
  intros Hb Hd. unfold f_of_decimal. unfold dec_is in Hd. destruct (Z.leb_spec 0 E) as [HE|HE].
  - apply f_of_ratio_exact; [done|]. rewrite (Z.max_r 0 E), (Z.max_l 0 (- E)) in Hd by lia.
    by rewrite !Z.mul_1_r in Hd |- *.
  - apply f_of_ratio_exact; [done|]. rewrite (Z.max_l 0 E), (Z.max_r 0 (- E)), Z.mul_1_r in Hd by lia.
    rewrite Z2Pos.id; [done|]. apply Z.pow_pos_nonneg; lia.
Qed.

Lemma dec_is_shift a E m e (k : nat) : dec_is (a * 10 ^ Z.of_nat k) E m e <-> dec_is a (E + Z.of_nat k) m e.
Proof.
  revert a E. induction k as [|k IH]; intros a E; [by rewrite Z.add_0_r, Z.mul_1_r|].
  rewrite Nat2Z.inj_succ, Z.pow_succ_r, Z.mul_assoc, IH by lia.
  replace (E + Z.succ (Z.of_nat k)) with (E + Z.of_nat k + 1) by lia.
  generalize (E + Z.of_nat k). clear. intros E. unfold dec_is.
  destruct (Z.le_gt_cases 0 E) as [HE|HE].
  - rewrite !(Z.max_r 0 E), !(Z.max_r 0 (E + 1)), !(Z.max_l 0 (- E)), !(Z.max_l 0 (- (E + 1))) by lia.
    rewrite Z.pow_add_r by lia. change (10 ^ 1) with 10. split; intros H; rewrite <- H; ring.
  - rewrite !(Z.max_l 0 E), !(Z.max_l 0 (E + 1)), !(Z.max_r 0 (- E)), !(Z.max_r 0 (- (E + 1))) by lia.
    replace (- E) with (- (E + 1) + 1) at 1 by lia. rewrite Z.pow_add_r by lia. change (10 ^ 1) with 10.
    change (10 ^ 0) with 1. split; intros H; nia.
Qed.

Lemma strip_zeros_spec fuel a E m e :
  0 < a -> dec_is a E m e ->
  let p := strip_zeros fuel a E in 0 < p.1 /\ dec_is p.1 p.2 m e.
Proof.
  revert a E. induction fuel as [|fuel IH]; intros a E Ha Hd; [done|]. cbn [strip_zeros].
  destruct (Z.eqb_spec (a mod 10) 0) as [Hm|Hm]; [|done].
  pose proof (Z.div_mod a 10 ltac:(done)) as Hdm. apply IH; [lia|].
  apply (dec_is_shift (a / 10) E m e 1). change (10 ^ Z.of_nat 1) with 10. by replace (a / 10 * 10) with a by lia.
Qed.

(** What the positional notation reads back as. *)
Lemma positional_reads s a E m e :
  0 < a -> dec_is a E m e ->
  exists a' E', float_of_str (sign_text s +:+ positional (str_of_Z a) (Z.of_nat (String.length (str_of_Z a)) + E))
    = Ok (f_of_decimal s a' E') /\ dec_is a' E' m e.
Proof.
  intros Ha Hd. unfold positional. set (ds := str_of_Z a).
  assert (all_chars is_digit ds = true) as Hds by (apply str_of_Z_nonneg; lia).
  assert (digits_val 0 ds = a) as Hval by (apply digits_val_str; lia).
  assert (ds <> "") as Hne by apply str_of_Z_ne. set (nd := Z.of_nat (String.length ds)).
  assert (is_exp "" 0) as Hex by by left.
  destruct (Z.leb_spec (nd + E) 0) as [H0|H0]; [|destruct (Z.leb_spec nd (nd + E)) as [H1|H1]].
  - exists a, E. split; [|done]. set (z := zeros _).
    assert (all_chars is_digit (z +:+ ds) = true) as Hz by (unfold z; by rewrite all_chars_app, Hds, digits_zeros).
    pose proof (float_of_number s "0" (z +:+ ds) "" 0 eq_refl ltac:(done) Hz Hex) as Hr.
    replace (fraction (z +:+ ds) +:+ "") with (String "." (z +:+ ds)) in Hr
      by (rewrite append_nil_r; by destruct z, ds).
    change ("0" +:+ String "." (z +:+ ds)) with ("0." +:+ z +:+ ds) in Hr. rewrite Hr.
    change ("0" +:+ z +:+ ds) with (String "0" (z +:+ ds)). cbn [digits_val].
    rewrite digits_val_app. unfold z. rewrite length_append, length_zeros.
    change (10 * 0 + digit_val "0") with 0. rewrite digits_val_zeros, Hval. do 2 f_equal. unfold nd in *. lia.
  - exists (a * 10 ^ Z.of_nat (S (Z.to_nat E))), (-1). split.
    + replace (nd + E - nd) with E by lia. set (z := zeros (Z.to_nat E)).
      assert (all_chars is_digit (ds +:+ z) = true) as Hz by (unfold z; rewrite all_chars_app, Hds; apply digits_zeros).
      pose proof (float_of_number s (ds +:+ z) "0" "" 0 Hz ltac:(by destruct ds) eq_refl Hex) as Hr.
      change (fraction "0" +:+ "") with ".0" in Hr. rewrite <- append_assoc in Hr. rewrite Hr.
      do 2 f_equal. rewrite !digits_val_app, Hval. unfold z.
      rewrite (digits_val_acc a), digits_val_zeros, length_zeros, Nat2Z.inj_succ, Z.pow_succ_r by lia.
      cbn [digits_val]. change (digit_val "0") with 0. ring.
    + apply dec_is_shift. by replace (-1 + Z.of_nat (S (Z.to_nat E))) with E by lia.
  - exists a, E. split; [|done]. set (k := Z.to_nat (nd + E)).
    pose proof (float_of_number s (substring 0 k ds) (slice_from k ds) "" 0 (digits_substring _ _ Hds)) as Hr.
    rewrite substring_slice, length_slice_from, Hval in Hr.
    replace (fraction (slice_from k ds) +:+ "") with ("." +:+ slice_from k ds) in Hr.
    + rewrite Hr; [do 2 f_equal; unfold k, nd in *; lia| |by apply digits_slice|done].
      assert (k <> 0%nat) as Hk by (unfold k; lia). by destruct k, ds.
    + rewrite append_nil_r. pose proof (length_slice_from k ds) as Hl.
      destruct (slice_from k ds); [|done]. cbn in Hl. unfold k, nd in *. lia.
Qed.

Lemma scientific_reads s a E m e :
  0 < a -> dec_is a E m e ->
  float_of_str (sign_text s +:+ scientific (str_of_Z a) (Z.of_nat (String.length (str_of_Z a)) + E))
    = Ok (f_of_decimal s a E).
Proof.
  intros Ha Hd. unfold scientific. set (ds := str_of_Z a).
  assert (all_chars is_digit ds = true) as Hds by (apply str_of_Z_nonneg; lia).
  assert (digits_val 0 ds = a) as Hval by (apply digits_val_str; lia).
  assert (ds <> "") as Hne by apply str_of_Z_ne. set (x := Z.of_nat (String.length ds) + E - 1).
  pose proof (float_of_number s (substring 0 1 ds) (slice_from 1 ds) (exp_text x) x (digits_substring _ _ Hds)) as Hr.
  rewrite substring_slice, length_slice_from, Hval in Hr.
  rewrite Hr; [|by destruct ds|by apply digits_slice|by right].
  do 2 f_equal. unfold x. destruct ds; [done|]. cbn. lia.
Qed.

Lemma decimal_text_reads s a E m e :
  0 < a -> dec_is a E m e ->
  exists a' E', float_of_str (decimal_text s a E) = Ok (f_of_decimal s a' E') /\ dec_is a' E' m e.
Proof.
  intros Ha Hd. unfold decimal_text.
  destruct (strip_zeros_spec (String.length (str_of_Z a)) a E m e Ha Hd) as [Hp Hd'].
  destruct (strip_zeros _ a E) as [b F]. cbn [fst snd] in *.
  destruct (_ && _); [by apply positional_reads|].
  exists b, F. split; [by eapply scientific_reads|done].
Qed.

(** ** The round trip *)

Lemma exact_decimal_spec m e :
  let p := exact_decimal m e in 0 < p.1 /\ dec_is p.1 p.2 m e.
Proof.
  unfold exact_decimal, dec_is. destruct (Z.leb_spec 0 e) as [He|He]; cbn [fst snd].
  - rewrite (Z.max_l 0 (- e)), (Z.max_r 0 e) by lia. pose proof (Z.pow_pos_nonneg 2 e). split; [lia|].
    change (Z.max 0 0) with 0. change (Z.max 0 (- 0)) with 0. ring.
  - rewrite (Z.max_l 0 e), (Z.max_r 0 (- e)) by lia. pose proof (Z.pow_pos_nonneg 5 (- e)). split; [lia|].
    assert (10 ^ (- e) = 5 ^ (- e) * 2 ^ (- e)) as -> by (by rewrite <- Z.pow_mul_l).
    change (2 ^ 0) with 1. change (10 ^ 0) with 1. ring.
Qed.

Lemma shortest_reads s f M E k a F :
  float_of_str (decimal_text s M E) = Ok f -> shortest s f M E k = (a, F) ->
  float_of_str (decimal_text s a F) = Ok f.
Proof.
  intros Hexact. induction k as [|k IH]; cbn [shortest]; [by intros [= <- <-]|].
  destruct (reads_back s _ _ f) eqn:H1; [intros [= <- <-]; by apply bool_decide_eq_true in H1|].
  clear H1. destruct (reads_back s _ _ f) eqn:H2; [intros [= <- <-]; by apply bool_decide_eq_true in H2|done].
Qed.

(** [float(repr(f)) == f], for every float. *)
Lemma float_repr_roundtrip f : f_valid f -> float_of_str (float_repr f) = Ok f.
Proof.
  destruct f as [[]|[]| |s m e]; try done. intros Hb. unfold float_repr.
  destruct (exact_decimal_spec m e) as [Hp Hd]. destruct (exact_decimal m e) as [M E]. cbn [fst snd] in *.
  destruct (decimal_text_reads s M E m e Hp Hd) as (a' & E' & Hr & Hd').
  rewrite (f_of_decimal_exact s a' E' m e Hb Hd') in Hr.
  destruct (shortest _ _ M E _) as [a F] eqn:Hs. by eapply shortest_reads.
Qed.

(** ** Its characters *)

Lemma decimal_text_chars s a E : 0 <= a -> all_chars float_char (decimal_text s a E) = true.
Proof.
  intros Ha. unfold decimal_text.
  assert (forall fuel a E, 0 <= a -> 0 <= (strip_zeros fuel a E).1) as Hstrip.
  { clear. induction fuel as [|fuel IH]; intros a E Ha; [done|]. cbn [strip_zeros].
    destruct (a mod 10 =? 0); [|done]. apply IH. by apply Z.div_pos. }
  specialize (Hstrip (String.length (str_of_Z a)) a E Ha). destruct (strip_zeros _ a E) as [b F]. cbn in Hstrip.
  assert (all_chars is_digit (str_of_Z b) = true) as Hd by by apply str_of_Z_nonneg.
  rewrite all_chars_app. apply andb_true_iff. split; [by destruct s|].
  assert (forall k, all_chars float_char (substring 0 k (str_of_Z b)) = true) as Hsub
    by (intros k; by apply float_chars_digits, digits_substring).
  assert (forall k, all_chars float_char (slice_from k (str_of_Z b)) = true) as Hsl
    by (intros k; by apply float_chars_digits, digits_slice).
  assert (forall n, all_chars float_char (zeros n) = true) as Hz by (intros n; by apply float_chars_digits, digits_zeros).
  apply float_chars_digits in Hd.
  destruct (_ && _).
  - unfold positional. destruct (_ <=? 0); [|destruct (_ <=? _)]; by rewrite !all_chars_app, ?Hd, ?Hz, ?Hsub, ?Hsl.
  - unfold scientific. rewrite !all_chars_app, Hsub.
    destruct (scan_exp_is_exp (exp_text (Z.of_nat (String.length (str_of_Z b)) + F - 1)) _ (or_intror eq_refl)) as (_ & _ & ->).
    unfold fraction. specialize (Hsl 1%nat). destruct (slice_from 1 (str_of_Z b)); [done|].
    by rewrite all_chars_app, Hsl.
Qed.

(** A number has as many digits as the powers of ten it reaches. *)
Lemma digits_lower s : all_chars is_digit s = true -> (forall t, s <> String "0" t) -> s <> "" ->
  10 ^ Z.of_nat (pred (String.length s)) <= digits_val 0 s.
Proof.
  intros Hs H0 Hne. destruct s as [|c s]; [done|]. apply andb_true_iff in Hs as [Hc Hs].
  cbn [digits_val String.length pred]. rewrite digits_val_acc.
  assert (0 <= digits_val 0 s) as Hp.
  { clear -Hs. assert (forall acc, 0 <= acc -> 0 <= digits_val acc s) as H; [|by apply H].
    induction s as [|c s IH]; intros acc Ha; [done|]. apply andb_true_iff in Hs as [Hc Hs]. cbn [digits_val].
    apply IH; [done|]. unfold is_digit in Hc. apply z_in_range_spec in Hc. unfold digit_val. lia. }
  assert (1 <= digit_val c) as Hd.
  { unfold is_digit in Hc. apply z_in_range_spec in Hc. unfold digit_val.
    destruct (decide (ascii_code c = 48)) as [H48|]; [|lia]. exfalso. apply (H0 s). f_equal.
    rewrite <- (ascii_N_embedding c). unfold ascii_code in H48. by replace (N_of_ascii c) with 48%N by lia. }
  pose proof (Z.pow_pos_nonneg 10 (Z.of_nat (String.length s))). nia.
Qed.

Lemma str_of_pos_head p t : str_of_Z (Z.pos p) <> String "0" t.
Proof.
  unfold str_of_Z. cbn [Z.to_int DecimalString.NilZero.string_of_int].
  pose proof (DecimalPos.Unsigned.to_of (Pos.to_uint p)) as Hu.
  rewrite DecimalPos.Unsigned.of_to in Hu.
  pose proof (DecimalPos.Unsigned.to_uint_nonzero p) as Hz.
  destruct (Pos.to_uint p) as [|d|d|d|d|d|d|d|d|d|d] eqn:Hd; try done.
  { by pose proof (DecimalPos.Unsigned.to_uint_nonnil p). }
  exfalso. cbn [N.to_uint] in Hu. rewrite Hd in Hu. unfold Decimal.unorm in Hu.
  destruct (Decimal.nzhead (Decimal.D0 d)) eqn:Hnz; try discriminate Hu.
  - by rewrite Hu in Hz.
  - by apply DecimalFacts.nzhead_nonzero in Hnz.
Qed.

Lemma pred_length_bound M : 0 < M -> 10 ^ Z.of_nat (pred (String.length (str_of_Z M))) <= M.
Proof.
  intros HM. rewrite <- (digits_val_str M) at 2 by lia.
  apply digits_lower; [apply str_of_Z_nonneg; lia| |apply str_of_Z_ne].
  destruct M as [|p|p]; [lia| |lia]. apply str_of_pos_head.
Qed.

Lemma shortest_pos s f M E k a F : 10 ^ Z.of_nat k <= M -> shortest s f M E k = (a, F) -> 0 < a.
Proof.
  revert a F. induction k as [|k IH]; cbn [shortest]; intros a F HM.
  - intros [= <- <-]. cbn in HM. lia.
  - pose proof (Z.pow_pos_nonneg 10 (Z.of_nat (S k)) ltac:(lia) ltac:(lia)) as Hpow.
    assert (0 < M / 10 ^ Z.of_nat (S k)) as Hq by (apply Z.div_str_pos; lia).
    assert (10 ^ Z.of_nat k <= M) as Hk.
    { transitivity (10 ^ Z.of_nat (S k)); [apply Z.pow_le_mono_r; lia|done]. }
    repeat case_match; intros; simplify_eq; try lia; by eapply IH.
Qed.

Lemma float_repr_no_space f : all_chars (fun c => negb (is_space c)) (float_repr f) = true.
Proof.
  destruct f as [[]|[]| |s m e]; try done. unfold float_repr.
  destruct (exact_decimal_spec m e) as [Hp _]. destruct (exact_decimal m e) as [M E]. cbn [fst] in Hp.
  apply (all_chars_impl float_char); [apply float_char_not_space|].
  destruct (shortest _ _ M E _) as [a F] eqn:Hs. apply decimal_text_chars.
  apply shortest_pos in Hs; [lia|by apply pred_length_bound].
Qed.

(** [float(str(n))] for an integer: the nearest float, infinite if out of range. *)
Lemma float_of_int z : float_of_str (str_of_Z z) = Ok (f_of_decimal (z <? 0) (Z.abs z) 0).
Proof.
  assert (str_of_Z z = sign_text (z <? 0) +:+ str_of_Z (Z.abs z)) as ->.
  { destruct z as [|p|p]; [done|done|]. reflexivity. }
  pose proof (float_of_number (z <? 0) (str_of_Z (Z.abs z)) "" "" 0) as Hr.
  rewrite !append_nil_r in Hr. rewrite Hr;
    [by rewrite digits_val_str by lia|apply str_of_Z_nonneg; lia|apply str_of_Z_ne|done|by left].
Qed.
