(* ===== verification/PyJsonText.v ===== *)
(** * The text of JSON values

    - [json_loads] is Python's [json.loads] (the C scanner): white space, the
      literals (also [NaN], [Infinity], [-Infinity]), numbers, strings with
      their escapes (control characters are refused), arrays and objects, of
      which a repeated key keeps the last value;
    - [json_dumps] is [json.dumps] with its defaults: separators with a space,
      everything outside printable ASCII escaped.

    Text is UTF-8, so the scanner can pass over the bytes of other characters;
    the escape of a lone surrogate becomes its three-byte code.  The parser
    descends on fuel, as much as the text is long ([json_roundtrip] shows it
    enough for what [json_dumps] prints); Python's recursion limit is not
    modelled. *)

From Stdlib Require Import Ascii String ZArith Lia SpecFloat.
From S2P Require Import Prelude PyText PyDict PyFloat PyFloatThms PyJson PyNum PyRepr.

Open Scope string_scope.
Open Scope list_scope.
Open Scope Z_scope.

Definition jquote : ascii := "034".
Definition backslash : ascii := "092".

(** ** Characters *)

Definition chr (z : Z) : ascii := ascii_of_N (Z.to_N z).

(** A code point in UTF-8. *)
Definition utf8_encode (z : Z) : string :=
  if z <? 0x80 then String (chr z) ""
  else if z <? 0x800 then String (chr (0xC0 + z / 64)) (String (chr (0x80 + z mod 64)) "")
  else if z <? 0x10000 then
    String (chr (0xE0 + z / 4096)) (String (chr (0x80 + z / 64 mod 64)) (String (chr (0x80 + z mod 64)) ""))
  else
    String (chr (0xF0 + z / 262144)) (String (chr (0x80 + z / 4096 mod 64))
      (String (chr (0x80 + z / 64 mod 64)) (String (chr (0x80 + z mod 64)) ""))).

Definition hex_digit (z : Z) : ascii := chr (if z <? 10 then 48 + z else 87 + z).

Definition hex_val (c : ascii) : option Z :=
  let z := ascii_code c in
  if z_in_range 48 58 z then Some (z - 48)
  else if z_in_range 97 103 z then Some (z - 87)
  else if z_in_range 65 71 z then Some (z - 55)
  else None.

Definition hex4 (a b c d : ascii) : option Z :=
  a ← hex_val a; b ← hex_val b; c ← hex_val c; d ← hex_val d;
  Some (4096 * a + 256 * b + 16 * c + d).

(** [\uXXXX] *)
Definition u_escape (z : Z) : string :=
  String backslash (String "u" (String (hex_digit (z / 4096)) (String (hex_digit (z / 256 mod 16))
    (String (hex_digit (z / 16 mod 16)) (String (hex_digit (z mod 16)) ""))))).

(** ** Reading *)

Fixpoint skip_ws (s : string) : string :=
  match s with
  | String c s' => if z_in_range 9 11 (ascii_code c) || Ascii.eqb c "013" || Ascii.eqb c " " then skip_ws s' else s
  | "" => ""
  end.

(** The character after a backslash. *)
Definition simple_escape (c : ascii) : option ascii :=
  match c with
  | "034" => Some "034" | "092" => Some "092" | "/" => Some "/" | "b" => Some "008" | "f" => Some "012"
  | "n" => Some "010" | "r" => Some "013" | "t" => Some "009" | _ => None
  end%char.

Definition prepend (c : string) (r : option (string * string)) : option (string * string) :=
  '(s, rest) ← r; Some (c +:+ s, rest).

(** A string after its opening quote: the value and what follows the closing
    quote. *)
Fixpoint scan_string (s : string) : option (string * string) :=
  match s with
  | "" => None
  | String c s =>
      if Ascii.eqb c jquote then Some ("", s)
      else if Ascii.eqb c backslash then
        match s with
        | String "u" (String a (String b (String c (String d s)))) =>
            match hex4 a b c d with
            | None => None
            | Some u =>
                match s with
                | String e (String "u" (String a (String b (String c (String d s'))))) =>
                    match hex4 a b c d with
                    | Some v =>
                        if Ascii.eqb e backslash && z_in_range 0xD800 0xDC00 u && z_in_range 0xDC00 0xE000 v
                        then prepend (utf8_encode (0x10000 + (u - 0xD800) * 1024 + (v - 0xDC00))) (scan_string s')
                        else prepend (utf8_encode u) (scan_string s)
                    | None =>
                        if Ascii.eqb e backslash && z_in_range 0xD800 0xDC00 u then None
                        else prepend (utf8_encode u) (scan_string s)
                    end
                | _ => prepend (utf8_encode u) (scan_string s)
                end
            end
        | String e s =>
            match simple_escape e with
            | Some x => prepend (String x "") (scan_string s)
            | None => None
            end
        | "" => None
        end
      else if ascii_code c <? 32 then None
      else prepend (String c "") (scan_string s)
  end.

(** The longest prefix of digits, and the rest. *)
Fixpoint take_digits (s : string) : string * string :=
  match s with
  | String c s' => if is_digit c then let '(d, r) := take_digits s' in (String c d, r) else ("", s)
  | "" => ("", "")
  end.

(** A fraction or an exponent; without digits it is not part of the number. *)
Definition take_fraction (s : string) : string * string :=
  match s with
  | String "." s' =>
      match take_digits s' with ("", _) => ("", s) | (d, r) => (String "." d, r) end
  | _ => ("", s)
  end.

Definition take_exponent (s : string) : string * string :=
  match s with
  | String c s' =>
      if Ascii.eqb c "e" || Ascii.eqb c "E" then
        let '(sg, s'') := match s' with
          | String "+" s'' => ("+", s'') | String "-" s'' => ("-", s'') | _ => ("", s') end in
        match take_digits s'' with ("", _) => ("", s) | (d, r) => (String c (sg +:+ d), r) end
      else ("", s)
  | "" => ("", "")
  end.

(** The integer part: a zero, or digits that do not begin with one. *)
Definition take_int (s : string) : string * string :=
  match s with
  | String "0" s' => ("0", s')
  | _ => take_digits s
  end.

Definition scan_number (s : string) : option (json * string) :=
  let '(sg, body) := match s with String "-" s' => ("-", s') | _ => ("", s) end in
  match take_int body with
  | ("", _) => None
  | (ip, r) =>
      let '(fp, r) := take_fraction r in
      let '(ex, r) := take_exponent r in
      match fp, ex with
      | "", "" => match int_of_str (sg +:+ ip) with Ok z => Some (JInt z, r) | Raise _ => None end
      | _, _ => match float_of_str (sg +:+ ip +:+ fp +:+ ex) with Ok f => Some (JFloat f, r) | Raise _ => None end
      end
  end.

(** A literal at the start of the text. *)
Fixpoint scan_literals (l : list (string * json)) (s : string) : option (json * string) :=
  match l with
  | [] => None
  | (w, v) :: l => if startswith s w then Some (v, slice_from (String.length w) s) else scan_literals l s
  end.

Definition literals : list (string * json) :=
  [("null", JNull); ("true", JBool true); ("false", JBool false); ("NaN", JFloat S754_nan);
   ("Infinity", JFloat (S754_infinity false)); ("-Infinity", JFloat (S754_infinity true))].

Definition scan_scalar (s : string) : option (json * string) :=
  match scan_literals literals s with Some r => Some r | None => scan_number s end.

(** [scan_once], the elements of an array after a value may start, and the
    members of an object after a key may start. *)
Fixpoint scan_value (fuel : nat) (s : string) : option (json * string) :=
  match fuel, s with
  | S fuel, String c s' =>
      if Ascii.eqb c jquote then '(t, r) ← scan_string s'; Some (JStr t, r)
      else if Ascii.eqb c "{" then
        match skip_ws s' with
        | String "}" r => Some (JObj [], r)
        | s' => '(d, r) ← scan_members fuel s'; Some (JObj (dict_update [] d), r)
        end
      else if Ascii.eqb c "[" then
        match skip_ws s' with
        | String "]" r => Some (JArr [], r)
        | s' => '(l, r) ← scan_elements fuel s'; Some (JArr l, r)
        end
      else scan_scalar s
  | _, _ => None
  end
with scan_elements (fuel : nat) (s : string) : option (list json * string) :=
  match fuel with
  | O => None
  | S fuel =>
      '(v, r) ← scan_value fuel s;
      match skip_ws r with
      | String "]" r => Some ([v], r)
      | String "," r => '(l, r) ← scan_elements fuel (skip_ws r); Some (v :: l, r)
      | _ => None
      end
  end
with scan_members (fuel : nat) (s : string) : option (list (string * json) * string) :=
  match fuel, s with
  | S fuel, String c s' =>
      if Ascii.eqb c jquote then
        '(k, r) ← scan_string s';
        match skip_ws r with
        | String ":" r =>
            '(v, r) ← scan_value fuel (skip_ws r);
            match skip_ws r with
            | String "}" r => Some ([(k, v)], r)
            | String "," r => '(d, r) ← scan_members fuel (skip_ws r); Some ((k, v) :: d, r)
            | _ => None
            end
        | _ => None
        end
      else None
  | _, _ => None
  end.

Definition json_loads (s : string) : res json :=
  match scan_value (S (String.length s)) (skip_ws s) with
  | Some (v, r) => match skip_ws r with "" => Ok v | _ => Raise JSONDecodeError end
  | None => Raise JSONDecodeError
  end.

(** ** Printing *)

(** A character by its first byte, [None] for a byte that starts none. *)
Definition cont (c : ascii) : Z := ascii_code c - 0x80.
Definition is_cont (c : ascii) : bool := z_in_range 0x80 0xC0 (ascii_code c).

Definition escape_char (c : ascii) : string :=
  if Ascii.eqb c jquote then String backslash (String jquote "")
  else if Ascii.eqb c backslash then String backslash (String backslash "")
  else match c with
       | "010" => String backslash "n" | "013" => String backslash "r" | "009" => String backslash "t"
       | "012" => String backslash "f" | "008" => String backslash "b"
       | _ => if z_in_range 32 127 (ascii_code c) then String c "" else u_escape (ascii_code c)
       end%char.

(** [\uXXXX] of a code point, as a surrogate pair beyond the first plane. *)
Definition escape_point (z : Z) : string :=
  if z <? 0x10000 then u_escape z
  else u_escape (0xD800 + (z - 0x10000) / 1024) +:+ u_escape (0xDC00 + (z - 0x10000) mod 1024).

Fixpoint escape_text (s : string) : string :=
  match s with
  | "" => ""
  | String a s1 =>
      let z := ascii_code a in
      if z <? 0x80 then escape_char a +:+ escape_text s1
      else match s1 with
      | String b s2 =>
          if z <? 0xE0 then escape_point ((z - 0xC0) * 64 + cont b) +:+ escape_text s2
          else match s2 with
          | String c s3 =>
              if z <? 0xF0 then escape_point ((z - 0xE0) * 4096 + cont b * 64 + cont c) +:+ escape_text s3
              else match s3 with
              | String d s4 =>
                  escape_point ((z - 0xF0) * 262144 + cont b * 4096 + cont c * 64 + cont d) +:+ escape_text s4
              | "" => ""
              end
          | "" => ""
          end
      | "" => ""
      end
  end.

Definition dumps_string (s : string) : string := String jquote (escape_text s +:+ String jquote "").

Definition dumps_float (f : float) : string :=
  match f with
  | S754_nan => "NaN"
  | S754_infinity s => if s then "-Infinity" else "Infinity"
  | _ => float_repr f
  end.

Fixpoint json_dumps (v : json) : string :=
  match v with
  | JNull => "null"
  | JBool b => if b then "true" else "false"
  | JInt z => str_of_Z z
  | JFloat f => dumps_float f
  | JStr s => dumps_string s
  | JArr l => "[" +:+ join ", " (json_dumps <$> l) +:+ "]"
  | JObj d => "{" +:+ join ", " ((fun kv => dumps_string kv.1 +:+ ": " +:+ json_dumps kv.2) <$> d) +:+ "}"
  end.

(** Text written with [`] for the double quote. *)
Definition qt (s : string) : string := replace_char "`" (String jquote "") s.

Example json_loads_ex :
  json_loads (qt " {`a` : [1, -2.5e3 , true,null, NaN], `b`:{ }, `a`:``}  ") =
    Ok (JObj [("a", JStr ""); ("b", JObj [])]) /\
  json_loads "[1, -2.5e3 ,[], -0, -Infinity]" =
    Ok (JArr [JInt 1; JFloat (f_of_ratio true 2500 1); JArr []; JInt 0; JFloat (S754_infinity true)]) /\
  json_loads (qt "`\u00e9\ud83d\ude00\n\/`") = Ok (JStr (utf8_encode 0xe9 +:+ utf8_encode 0x1f600 +:+ String "010" "/")) /\
  json_loads "[1,]" = Raise JSONDecodeError /\ json_loads "01" = Raise JSONDecodeError /\
  json_loads "" = Raise JSONDecodeError /\ json_loads "1 2" = Raise JSONDecodeError /\
  json_loads (qt "`\ud83d\u00zz`") = Raise JSONDecodeError.
Proof. repeat split; vm_compute; reflexivity. Qed.

Example json_dumps_ex :
  json_dumps (JObj [("a", JArr [JInt 1; JFloat (f_of_ratio false 1 10); JNull]); ("é😀", JStr (String "010" "/"))]) =
    qt "{`a`: [1, 0.1, null], `\u00e9\ud83d\ude00`: `\n/`}".
Proof. vm_compute. reflexivity. Qed.
