(* ===== verification/PyJsonThms.v ===== *)
(** * JSON text: what is printed is parsed back

    [json_roundtrip]: [json.loads(json.dumps(v))] is [v], for values with
    proper text, distinct keys and floats of the format;
    [json_loads_valid]: the parser only makes floats of the format. *)

From Stdlib Require Import Ascii String ZArith Lia SpecFloat.
From S2P Require Import Prelude PyText PyDict PyFloat PyFloatThms PyJson PyNum PyRepr PyJsonText.

Open Scope string_scope.
Open Scope list_scope.
Open Scope Z_scope.

(** ** Strings *)

Definition scalar_point (z : Z) : bool := z_in_range 0 0xD800 z || z_in_range 0xE000 0x110000 z.

(** Well-formed UTF-8. *)
Fixpoint utf8_ok (s : string) : bool :=
  match s with
  | "" => true
  | String a s1 =>
      let z := ascii_code a in
      if z <? 0x80 then utf8_ok s1
      else match s1 with
      | String b s2 =>
          if z <? 0xE0 then (0xC2 <=? z) && is_cont b && utf8_ok s2
          else match s2 with
          | String c s3 =>
              if z <? 0xF0 then
                let p := (z - 0xE0) * 4096 + cont b * 64 + cont c in
                is_cont b && is_cont c && (0x800 <=? p) && scalar_point p && utf8_ok s3
              else match s3 with
              | String d s4 =>
                  let p := (z - 0xF0) * 262144 + cont b * 4096 + cont c * 64 + cont d in
                  is_cont b && is_cont c && is_cont d && (0x10000 <=? p) && (p <? 0x110000) && utf8_ok s4
              | "" => false
              end
          | "" => false
          end
      | "" => false
      end
  end.

Lemma ascii_code_chr z : 0 <= z < 256 -> ascii_code (chr z) = z.
Proof. intros Hz. unfold ascii_code, chr. rewrite N_ascii_embedding; lia. Qed.

Lemma chr_ascii_code c : chr (ascii_code c) = c.
Proof. unfold chr, ascii_code. rewrite N2Z.id. apply ascii_N_embedding. Qed.

Lemma ascii_code_bound c : 0 <= ascii_code c < 256.
Proof. unfold ascii_code. pose proof (N_ascii_bounded c). lia. Qed.

Lemma hex_val_digit z : 0 <= z < 16 -> hex_val (hex_digit z) = Some z.
Proof.
  intros Hz. unfold hex_digit. destruct (Z.ltb_spec z 10); unfold hex_val; rewrite ascii_code_chr by lia.
  - rewrite (proj2 (z_in_range_spec 48 58 (48 + z))) by lia. f_equal. lia.
  - rewrite (proj2 (z_in_range_false 48 58 (87 + z))) by lia.
    rewrite (proj2 (z_in_range_spec 97 103 (87 + z))) by lia. f_equal. lia.
Qed.

Lemma hex4_digits z :
  0 <= z < 0x10000 ->
  hex4 (hex_digit (z / 4096)) (hex_digit (z / 256 mod 16)) (hex_digit (z / 16 mod 16)) (hex_digit (z mod 16)) = Some z.
Proof.
  intros Hz. unfold hex4.
  rewrite !hex_val_digit by (Z.to_euclidean_division_equations; lia). cbn [mbind option_bind].
  f_equal. Z.to_euclidean_division_equations; lia.
Qed.

Lemma scan_string_quote s : scan_string (String jquote s) = Some ("", s).
Proof. done. Qed.

Lemma scan_string_u u a b c d s :
  hex4 a b c d = Some u -> ~ (0xD800 <= u < 0xDC00) ->
  scan_string (String backslash (String "u" (String a (String b (String c (String d s)))))) =
  prepend (utf8_encode u) (scan_string s).
Proof.
  intros Hu Hn%z_in_range_false. cbn [scan_string]. change (Ascii.eqb backslash jquote) with false.
  change (Ascii.eqb backslash backslash) with true. cbv iota. rewrite Hu, Hn.
  repeat case_match; try done; match goal with H : _ = true |- _ => by rewrite ?andb_false_r in H end.
Qed.

Lemma scan_string_pair u v a b c d a' b' c' d' s :
  hex4 a b c d = Some u -> hex4 a' b' c' d' = Some v -> 0xD800 <= u < 0xDC00 -> 0xDC00 <= v < 0xE000 ->
  scan_string (String backslash (String "u" (String a (String b (String c (String d
    (String backslash (String "u" (String a' (String b' (String c' (String d' s)))))))))))) =
  prepend (utf8_encode (0x10000 + (u - 0xD800) * 1024 + (v - 0xDC00))) (scan_string s).
Proof.
  intros Hu Hv Hur%z_in_range_spec Hvr%z_in_range_spec. cbn [scan_string].
  change (Ascii.eqb backslash jquote) with false.
  change (Ascii.eqb backslash backslash) with true. cbv iota. by rewrite Hu, Hv, Hur, Hvr.
Qed.

Lemma append_u_escape z t :
  u_escape z +:+ t = String backslash (String "u" (String (hex_digit (z / 4096)) (String (hex_digit (z / 256 mod 16))
    (String (hex_digit (z / 16 mod 16)) (String (hex_digit (z mod 16)) t))))).
Proof. done. Qed.

Lemma scan_escape_point z t :
  0 <= z < 0x110000 -> scalar_point z = true ->
  scan_string (escape_point z +:+ t) = prepend (utf8_encode z) (scan_string t).
Proof.
  intros Hz Hs. assert (~ (0xD800 <= z < 0xE000)) as Hn.
  { unfold scalar_point in Hs. apply orb_true_iff in Hs as [H|H]; apply z_in_range_spec in H; lia. }
  unfold escape_point. destruct (Z.ltb_spec z 0x10000) as [Hlt|Hge].
  - rewrite append_u_escape. apply scan_string_u; [apply hex4_digits; lia|lia].
  - rewrite <- append_assoc, append_u_escape, append_u_escape.
    rewrite (scan_string_pair (0xD800 + (z - 0x10000) / 1024) (0xDC00 + (z - 0x10000) mod 1024)).
    + do 2 f_equal. Z.to_euclidean_division_equations; lia.
    + apply hex4_digits. Z.to_euclidean_division_equations; lia.
    + apply hex4_digits. Z.to_euclidean_division_equations; lia.
    + Z.to_euclidean_division_equations; lia.
    + Z.to_euclidean_division_equations; lia.
Qed.

Lemma scan_escape_char c t :
  ascii_code c < 0x80 -> scan_string (escape_char c +:+ t) = prepend (String c "") (scan_string t).
Proof.
  intros Hc. destruct (z_in_range 32 127 (ascii_code c)) eqn:Hp.
  - destruct (decide (c = jquote)) as [->|Hq]; [done|]. destruct (decide (c = backslash)) as [->|Hb]; [done|].
    assert (escape_char c = String c "") as ->.
    { unfold escape_char. rewrite (proj2 (Ascii.eqb_neq c jquote) Hq), (proj2 (Ascii.eqb_neq c backslash) Hb), Hp.
      destruct c as [[] [] [] [] [] [] [] []]; try reflexivity; discriminate Hp. }
    change (String c "" +:+ t) with (String c t). cbn [scan_string].
    rewrite (proj2 (Ascii.eqb_neq c jquote) Hq), (proj2 (Ascii.eqb_neq c backslash) Hb).
    apply z_in_range_spec in Hp. by rewrite (proj2 (Z.ltb_ge _ _)) by lia.
  - assert (forall z, 0 <= z < 0x80 -> scan_string (u_escape z +:+ t) = prepend (String (chr z) "") (scan_string t)) as Hu.
    { intros z Hz. rewrite append_u_escape, (scan_string_u z); [|apply hex4_digits; lia|lia].
      unfold utf8_encode. by rewrite (proj2 (Z.ltb_lt _ _)) by lia. }
    destruct (decide (escape_char c = u_escape (ascii_code c))) as [->|Hn].
    + rewrite Hu, chr_ascii_code; [done|]. pose proof (ascii_code_bound c). lia.
    + destruct c as [[] [] [] [] [] [] [] []]; try discriminate Hp; try reflexivity; try (by destruct Hn); discriminate Hc.
Qed.

(** The bytes of a code point are found again. *)
Lemma utf8_two a b :
  0xC2 <= ascii_code a < 0xE0 -> is_cont b = true ->
  utf8_encode ((ascii_code a - 0xC0) * 64 + cont b) = String a (String b "").
Proof.
  intros Ha Hb%z_in_range_spec. set (x := ascii_code a) in *. unfold cont. set (y := ascii_code b) in *.
  unfold utf8_encode. rewrite (proj2 (Z.ltb_ge _ 0x80)), (proj2 (Z.ltb_lt _ 0x800)) by lia.
  replace (0xC0 + ((x - 0xC0) * 64 + (y - 0x80)) / 64) with x by (Z.to_euclidean_division_equations; lia).
  replace (0x80 + ((x - 0xC0) * 64 + (y - 0x80)) mod 64) with y by (Z.to_euclidean_division_equations; lia).
  unfold x, y. by rewrite !chr_ascii_code.
Qed.

Lemma utf8_three a b c p :
  0xE0 <= ascii_code a < 0xF0 -> is_cont b = true -> is_cont c = true ->
  p = (ascii_code a - 0xE0) * 4096 + cont b * 64 + cont c -> 0x800 <= p ->
  utf8_encode p = String a (String b (String c "")).
Proof.
  intros Ha Hb%z_in_range_spec Hc%z_in_range_spec. unfold cont.
  set (x := ascii_code a) in *. set (y := ascii_code b) in *. set (z := ascii_code c) in *. intros Hp Hp800.
  unfold utf8_encode. rewrite (proj2 (Z.ltb_ge _ 0x80)), (proj2 (Z.ltb_ge _ 0x800)), (proj2 (Z.ltb_lt _ 0x10000)) by lia.
  replace (0xE0 + p / 4096) with x by (Z.to_euclidean_division_equations; lia).
  replace (0x80 + p / 64 mod 64) with y by (Z.to_euclidean_division_equations; lia).
  replace (0x80 + p mod 64) with z by (Z.to_euclidean_division_equations; lia).
  unfold x, y, z. by rewrite !chr_ascii_code.
Qed.

Lemma utf8_four a b c d p :
  0xF0 <= ascii_code a -> is_cont b = true -> is_cont c = true -> is_cont d = true ->
  p = (ascii_code a - 0xF0) * 262144 + cont b * 4096 + cont c * 64 + cont d -> 0x10000 <= p ->
  utf8_encode p = String a (String b (String c (String d ""))).
Proof.
  intros Ha Hb%z_in_range_spec Hc%z_in_range_spec Hd%z_in_range_spec. unfold cont.
  set (x := ascii_code a) in *. set (y := ascii_code b) in *. set (z := ascii_code c) in *. set (w := ascii_code d) in *.
  intros Hp Hp1.
  unfold utf8_encode. rewrite !(proj2 (Z.ltb_ge p _)) by lia.
  replace (0xF0 + p / 262144) with x by (Z.to_euclidean_division_equations; lia).
  replace (0x80 + p / 4096 mod 64) with y by (Z.to_euclidean_division_equations; lia).
  replace (0x80 + p / 64 mod 64) with z by (Z.to_euclidean_division_equations; lia).
  replace (0x80 + p mod 64) with w by (Z.to_euclidean_division_equations; lia).
  unfold x, y, z, w. by rewrite !chr_ascii_code.
Qed.

Lemma scan_escape_text s rest :
  utf8_ok s = true -> scan_string (escape_text s +:+ String jquote rest) = Some (s, rest).
Proof.
  remember (String.length s) as n eqn:Hn. revert s Hn. induction (lt_wf n) as [n _ IH]. intros s -> Hs.
  assert (forall s', (String.length s' < String.length s)%nat -> utf8_ok s' = true ->
    scan_string (escape_text s' +:+ String jquote rest) = Some (s', rest)) as IH' by eauto. clear IH.
  destruct s as [|a s1]; [done|]. cbn [utf8_ok escape_text] in *. cbn [String.length] in IH'.
  destruct (Z.ltb_spec (ascii_code a) 0x80) as [Ha|Ha].
  { rewrite <- append_assoc, scan_escape_char, IH'; [done|lia|exact Hs|exact Ha]. }
  destruct s1 as [|b s2]; [done|]. cbn [String.length] in IH'. destruct (Z.ltb_spec (ascii_code a) 0xE0) as [Ha2|Ha2].
  { apply andb_true_iff in Hs as [[H1%Z.leb_le Hb]%andb_true_iff Hs].
    pose proof (proj1 (z_in_range_spec _ _ _) Hb) as Hb'.
    rewrite <- append_assoc, scan_escape_point, IH'; [by rewrite utf8_two|lia|done|unfold cont; lia|].
    unfold scalar_point, cont. apply orb_true_iff. left. apply z_in_range_spec. lia. }
  destruct s2 as [|c s3]; [done|]. cbn [String.length] in IH'. destruct (Z.ltb_spec (ascii_code a) 0xF0) as [Ha3|Ha3].
  { apply andb_true_iff in Hs as [[[[Hb Hc]%andb_true_iff H1%Z.leb_le]%andb_true_iff Hsp]%andb_true_iff Hs].
    pose proof (proj1 (z_in_range_spec _ _ _) Hb) as Hb'. pose proof (proj1 (z_in_range_spec _ _ _) Hc) as Hc'.
    rewrite <- append_assoc, scan_escape_point, IH'; [|lia|done|unfold cont in *; lia|done].
    by rewrite (utf8_three a b c). }
  destruct s3 as [|d s4]; [done|]. cbn [String.length] in IH'.
  apply andb_true_iff in Hs as [[[[[Hb Hc]%andb_true_iff Hd]%andb_true_iff H1%Z.leb_le]%andb_true_iff H2%Z.ltb_lt]%andb_true_iff Hs].
  rewrite <- append_assoc, scan_escape_point, IH'; [|lia|done|lia|].
  - by rewrite (utf8_four a b c d).
  - unfold scalar_point. apply orb_true_iff. right. apply z_in_range_spec. lia.
Qed.

(** ** Numbers *)

(** Digits of an integer, without a leading zero. *)
Definition int_digits (s : string) : Prop :=
  all_chars is_digit s = true /\ s <> "" /\ (s = "0" \/ forall t, s <> String "0" t).

Lemma int_digits_str z : 0 <= z -> int_digits (str_of_Z z).
Proof.
  intros Hz. split_and!; [by apply str_of_Z_nonneg|apply str_of_Z_ne|].
  destruct z as [|p|p]; [by left| |lia]. right. apply str_of_pos_head.
Qed.

Lemma all_digits_prefix k s : 0 < k -> int_digits s -> s <> "0" -> int_digits (substring 0 (Z.to_nat k) s).
Proof.
  intros Hk (Hd & Hne & H0) Hs. destruct H0 as [?|H0]; [done|].
  split_and!; [by apply digits_substring| |right].
  - destruct s; [done|]. destruct (Z.to_nat k) eqn:?; [lia|done].
  - intros t. destruct s as [|c s]; [done|]. destruct (Z.to_nat k) eqn:?; [lia|]. cbn. intros [= -> _]. by eapply H0.
Qed.

(** The shape of a float: never that of an integer. *)
Definition number_text (s : bool) (ip fp ex : string) : string := sign_text s +:+ ip +:+ fraction fp +:+ ex.

Lemma decimal_text_shape s a E :
  0 < a -> exists ip fp ex x, decimal_text s a E = number_text s ip fp ex /\
    int_digits ip /\ all_chars is_digit fp = true /\ is_exp ex x /\ (fp <> "" \/ ex <> "").
Proof.
  intros Ha. unfold decimal_text.
  assert (forall fuel a E, 0 < a -> 0 < (strip_zeros fuel a E).1) as Hstrip.
  { clear. induction fuel as [|fuel IH]; intros a E Ha; [done|]. cbn [strip_zeros].
    destruct (Z.eqb_spec (a mod 10) 0) as [Hm|]; [|done]. apply IH. pose proof (Z.div_mod a 10). lia. }
  specialize (Hstrip (String.length (str_of_Z a)) a E Ha). destruct (strip_zeros _ a E) as [b F]. cbn in Hstrip.
  assert (int_digits (str_of_Z b)) as Hb by (apply int_digits_str; lia).
  assert (all_chars is_digit (str_of_Z b) = true) as Hds by apply Hb.
  assert (str_of_Z b <> "0") as Hb0.
  { destruct b as [|p|p]; [lia| |lia]. apply (str_of_pos_head p ""). }
  set (ds := str_of_Z b) in *. unfold number_text.
  destruct (_ && _).
  - unfold positional. destruct (Z.leb_spec (Z.of_nat (String.length ds) + F) 0) as [H0|H0].
    + assert (forall z, z +:+ ds <> "") as Hne by (intros z; destruct Hb as (_ & Hne & _); by destruct z, ds).
      exists "0", (zeros (Z.to_nat (- (Z.of_nat (String.length ds) + F))) +:+ ds), "", 0.
      split_and!; [|by split_and!; [| |left]|by rewrite all_chars_app, digits_zeros|by left|].
      * rewrite append_nil_r. f_equal. change ("0." +:+ ?x) with ("0" +:+ "." +:+ x). f_equal.
        match goal with |- _ = fraction ?x => pose proof (Hne (zeros (Z.to_nat (- (Z.of_nat (String.length ds) + F))))); by destruct x end.
      * left. apply Hne.
    + destruct (Z.leb_spec (Z.of_nat (String.length ds)) (Z.of_nat (String.length ds) + F)) as [H1|H1].
      * exists (ds +:+ zeros (Z.to_nat (Z.of_nat (String.length ds) + F - Z.of_nat (String.length ds)))), "0", "", 0.
        split_and!; [by rewrite <- !append_assoc| |done|by left|by left].
        destruct Hb as (Hb1 & Hb2 & Hb3). split_and!; [by rewrite all_chars_app, Hb1; apply digits_zeros|by destruct ds|right].
        intros t. destruct Hb3 as [?|Hb3]; [done|]. destruct ds as [|c ds]; [done|]. cbn. intros [= -> _]. by eapply Hb3.
      * set (k := Z.of_nat (String.length ds) + F) in *.
        destruct (slice_from (Z.to_nat k) ds) as [|c r] eqn:Hsl.
        -- pose proof (length_slice_from (Z.to_nat k) ds) as Hl. rewrite Hsl in Hl. cbn in Hl.
           unfold k in *. lia.
        -- exists (substring 0 (Z.to_nat k) ds), (String c r), "", 0.
           split_and!; [by rewrite append_nil_r|by apply all_digits_prefix| |by left|by left].
           rewrite <- Hsl. by apply digits_slice.
  - unfold scientific.
    exists (substring 0 1 ds), (slice_from 1 ds), (exp_text (Z.of_nat (String.length ds) + F - 1)), (Z.of_nat (String.length ds) + F - 1).
    split_and!; [done|by apply (all_digits_prefix 1)|by apply digits_slice|by right|by right].
Qed.

(** What follows a value in the text of a larger one. *)
Definition json_stop (s : string) : bool :=
  match s with "" => true | String c _ => bool_decide (c ∈ [","; "]"; "}"]%char) end.

Definition not_digit_head (s : string) : bool := match s with "" => true | String c _ => negb (is_digit c) end.

Lemma take_digits_app s t :
  all_chars is_digit s = true -> not_digit_head t = true -> take_digits (s +:+ t) = (s, t).
Proof.
  intros Hs Ht. induction s as [|c s IH].
  - destruct t as [|c t]; [done|]. cbn in Ht |- *. by apply negb_true_iff in Ht as ->.
  - apply andb_true_iff in Hs as [Hc Hs]. change (String c s +:+ t) with (String c (s +:+ t)).
    cbn [take_digits]. by rewrite Hc, IH.
Qed.

Lemma take_int_app ip t : int_digits ip -> not_digit_head t = true -> take_int (ip +:+ t) = (ip, t).
Proof.
  intros (Hd & Hne & H0) Ht. destruct (decide (ip = "0")) as [->|Hn]; [done|]. destruct H0 as [?|H0]; [done|].
  rewrite <- (take_digits_app ip t) by done. destruct ip as [|c ip]; [done|].
  change (String c ip +:+ t) with (String c (ip +:+ t)).
  destruct c as [[] [] [] [] [] [] [] []]; try done. by destruct (H0 ip).
Qed.

Lemma take_fraction_app fp t :
  all_chars is_digit fp = true -> not_digit_head t = true -> (forall u, t <> String "." u) ->
  take_fraction (fraction fp +:+ t) = (fraction fp, t).
Proof.
  intros Hd Ht Hdot. destruct fp as [|c fp].
  - change (fraction "" +:+ t) with t. destruct t as [|c t]; [done|].
    destruct c as [[] [] [] [] [] [] [] []]; try done. by destruct (Hdot t).
  - change (fraction (String c fp) +:+ t) with (String "." (String c fp +:+ t)). cbn [take_fraction].
    by rewrite take_digits_app.
Qed.

Lemma json_stop_head c s : json_stop (String c s) = true ->
  is_digit c = false /\ c <> "."%char /\ Ascii.eqb c "e" || Ascii.eqb c "E" = false.
Proof.
  intros H%bool_decide_eq_true. rewrite !elem_of_cons in H. destruct_or! H; subst; try done. by apply not_elem_of_nil in H.
Qed.

Lemma take_exponent_app ex x t :
  is_exp ex x -> json_stop t = true -> take_exponent (ex +:+ t) = (ex, t).
Proof.
  intros Hx Ht. assert (not_digit_head t = true) as Hnd.
  { destruct t as [|c t]; [done|]. apply json_stop_head in Ht as [Hc _]. cbn. by rewrite Hc. }
  destruct Hx as [[-> ->]| ->].
  - change ("" +:+ t) with t. destruct t as [|c t]; [done|]. apply json_stop_head in Ht as (_ & _ & Hc).
    cbn [take_exponent]. by rewrite Hc.
  - destruct (exp_text_digits x) as (sg & pad & -> & Hd & _ & Hsg).
    set (ds := pad +:+ str_of_Z (Z.abs x)) in *.
    assert (ds <> "") as Hne by (unfold ds; pose proof (str_of_Z_ne (Z.abs x)); by destruct pad, (str_of_Z (Z.abs x))).
    change (("e" +:+ String sg ds) +:+ t) with (String "e" (String sg (ds +:+ t))). cbn [take_exponent].
    change (Ascii.eqb "e" "e" || _) with true. cbv iota.
    destruct Hsg as [[-> _]|[-> _]]; rewrite take_digits_app by done; by destruct ds.
Qed.

Lemma exp_head ex x t :
  is_exp ex x -> json_stop t = true -> not_digit_head (ex +:+ t) = true /\ forall u, ex +:+ t <> String "." u.
Proof.
  intros [[-> ->]| ->] Ht; [|done]. change ("" +:+ t) with t. destruct t as [|c t]; [done|].
  apply json_stop_head in Ht as (Hc & Hdot & _). split; [cbn; by rewrite Hc|]. by intros u [= ->].
Qed.

Lemma scan_number_text s ip fp ex x t :
  int_digits ip -> all_chars is_digit fp = true -> is_exp ex x -> json_stop t = true ->
  scan_number (number_text s ip fp ex +:+ t) =
  match fraction fp, ex with
  | "", "" => match int_of_str (sign_text s +:+ ip) with Ok z => Some (JInt z, t) | Raise _ => None end
  | _, _ => match float_of_str (number_text s ip fp ex) with Ok f => Some (JFloat f, t) | Raise _ => None end
  end.
Proof.
  intros Hi Hf Hx Ht. unfold scan_number, number_text. rewrite <- !append_assoc.
  destruct (exp_head ex x t Hx Ht) as [Hend Hdot].
  assert (not_digit_head (fraction fp +:+ ex +:+ t) = true) as Hfr by by destruct fp.
  set (body := ip +:+ fraction fp +:+ ex +:+ t).
  assert (match sign_text s +:+ body with String "-" s' => ("-", s') | _ => ("", sign_text s +:+ body) end =
          (sign_text s, body)) as ->.
  { destruct s; [done|]. change (sign_text false +:+ body) with body. unfold body.
    destruct Hi as (Hd & Hne & _). destruct ip as [|c ip]; [done|]. apply andb_true_iff in Hd as [Hc _].
    change (String c ip +:+ ?y) with (String c (ip +:+ y)). destruct c as [[] [] [] [] [] [] [] []]; try done. }
  unfold body. rewrite take_int_app by done.
  assert (exists c r, ip = String c r) as (c & r & Hip) by (destruct Hi as (_ & Hne & _); destruct ip; [done|by eexists _, _]).
  rewrite take_fraction_app, (take_exponent_app ex x) by done. rewrite Hip. done.
Qed.

Lemma scan_int z t : json_stop t = true -> scan_number (str_of_Z z +:+ t) = Some (JInt z, t).
Proof.
  intros Ht. pose proof (scan_number_text (z <? 0) (str_of_Z (Z.abs z)) "" "" 0 t
    (int_digits_str (Z.abs z) (Z.abs_nonneg z)) eq_refl (or_introl (conj eq_refl eq_refl)) Ht) as H.
  unfold number_text in H. cbn [fraction] in H. change ("" +:+ "") with "" in H. rewrite append_nil_r in H.
  assert (sign_text (z <? 0) +:+ str_of_Z (Z.abs z) = str_of_Z z) as Hz by by destruct z.
  by rewrite Hz, int_of_str_of_Z in H.
Qed.

(** The text of a float. *)
Lemma float_repr_shape f :
  f_finite f = true -> exists s ip fp ex x, float_repr f = number_text s ip fp ex /\
    int_digits ip /\ all_chars is_digit fp = true /\ is_exp ex x /\ (fp <> "" \/ ex <> "").
Proof.
  destruct f as [s|s| |s m e]; try done; intros _.
  - exists s, "0", "0", "", 0. split_and!; [by destruct s|by split_and!; [| |left]|done|by left|by left].
  - unfold float_repr. destruct (exact_decimal_spec m e) as [Hp _]. destruct (exact_decimal m e) as [M E]. cbn [fst] in Hp.
    destruct (shortest _ _ M E _) as [a F] eqn:Hs. exists s. apply decimal_text_shape.
    eapply shortest_pos; [by apply pred_length_bound|exact Hs].
Qed.

Lemma scan_float f t :
  f_valid f -> f_finite f = true -> json_stop t = true ->
  scan_number (float_repr f +:+ t) = Some (JFloat f, t).
Proof.
  intros Hv Hf Ht. destruct (float_repr_shape f Hf) as (s & ip & fp & ex & x & He & Hi & Hd & Hx & Hne).
  rewrite He, (scan_number_text s ip fp ex x) by done. rewrite <- He, float_repr_roundtrip by done.
  destruct fp, ex; try done. by destruct Hne.
Qed.

(** ** Values *)

Section JsonInd.
Variable P : json -> Prop.
Hypothesis P_null : P JNull.
Hypothesis P_bool : forall b, P (JBool b).
Hypothesis P_int : forall z, P (JInt z).
Hypothesis P_float : forall f, P (JFloat f).
Hypothesis P_str : forall s, P (JStr s).
Hypothesis P_arr : forall l, Forall P l -> P (JArr l).
Hypothesis P_obj : forall d, Forall (fun kv => P kv.2) d -> P (JObj d).

(** Induction with hypotheses for the elements. *)
Fixpoint json_nested_ind (v : json) : P v :=
  match v with
  | JNull => P_null | JBool b => P_bool b | JInt z => P_int z | JFloat f => P_float f | JStr s => P_str s
  | JArr l => P_arr l ((fix go l : Forall P l :=
      match l with [] => List.Forall_nil _ | x :: l => List.Forall_cons _ x l (json_nested_ind x) (go l) end) l)
  | JObj d => P_obj d ((fix go d : Forall (fun kv => P kv.2) d :=
      match d with [] => List.Forall_nil _ | x :: d => List.Forall_cons _ x d (json_nested_ind x.2) (go d) end) d)
  end.
End JsonInd.

(** Values that have a faithful text. *)
Fixpoint json_ok (v : json) : Prop :=
  match v with
  | JFloat f => f_valid f
  | JStr s => utf8_ok s = true
  | JArr l => foldr (fun x P => json_ok x /\ P) True l
  | JObj d => NoDup (dict_keys d) /\ foldr (fun kv P => (utf8_ok kv.1 = true /\ json_ok kv.2) /\ P) True d
  | _ => True
  end.

Lemma json_ok_arr l : json_ok (JArr l) <-> Forall json_ok l.
Proof. cbn. induction l as [|x l IH]; cbn; [by split|]. by rewrite Forall_cons, IH. Qed.

Lemma json_ok_obj d :
  json_ok (JObj d) <-> NoDup (dict_keys d) /\ Forall (fun kv => utf8_ok kv.1 = true /\ json_ok kv.2) d.
Proof.
  cbn. assert (foldr (fun kv P => (utf8_ok kv.1 = true /\ json_ok kv.2) /\ P) True d <->
    Forall (fun kv => utf8_ok kv.1 = true /\ json_ok kv.2) d) as ->; [|done].
  induction d as [|x d IH]; cbn; [by split|]. by rewrite Forall_cons, IH.
Qed.

(** How a value begins. *)
Definition value_head (c : ascii) : bool :=
  is_digit c || bool_decide (c ∈ [jquote; "{"; "["; "-"; "n"; "t"; "f"; "N"; "I"]%char).

Lemma value_head_spec c s :
  value_head c = true -> skip_ws (String c s) = String c s /\ c <> "]"%char /\ c <> "}"%char.
Proof. by destruct c as [[] [] [] [] [] [] [] []]. Qed.

Lemma number_head s ip fp ex :
  int_digits ip -> exists c r, number_text s ip fp ex = String c r /\ value_head c = true.
Proof.
  intros (Hd & Hne & _). destruct s; [by eexists _, _|].
  unfold number_text. destruct ip as [|c ip]; [done|]. apply andb_true_iff in Hd as [Hc _].
  exists c. eexists. split; [done|]. unfold value_head. by rewrite Hc.
Qed.

Lemma int_text z : str_of_Z z = number_text (z <? 0) (str_of_Z (Z.abs z)) "" "".
Proof. unfold number_text. cbn [fraction]. change ("" +:+ "") with "". rewrite append_nil_r. by destruct z. Qed.

Lemma dumps_head v : exists c r, json_dumps v = String c r /\ value_head c = true.
Proof.
  destruct v as [|b|z|f|s|l|d]; cbn [json_dumps]; try by eexists _, _.
  - destruct b; by eexists _, _.
  - rewrite int_text. apply number_head, int_digits_str. lia.
  - destruct f as [s|[]| |s m e]; try by eexists _, _.
    + destruct s; by eexists _, _.
    + cbn [dumps_float]. destruct (float_repr_shape (S754_finite s m e) eq_refl) as (? & ? & ? & ? & ? & -> & Hi & _).
      by apply number_head.
Qed.

(** Numbers are no literals. *)
Lemma scan_literals_number s ip fp ex t :
  int_digits ip -> scan_literals literals (number_text s ip fp ex +:+ t) = None /\
  exists c r, number_text s ip fp ex +:+ t = String c r /\
    Ascii.eqb c jquote = false /\ Ascii.eqb c "{" = false /\ Ascii.eqb c "[" = false.
Proof.
  intros (Hd & Hne & _). unfold number_text. rewrite <- !append_assoc. destruct ip as [|c ip]; [done|].
  apply andb_true_iff in Hd as [Hc _]. change (String c ip +:+ ?y) with (String c (ip +:+ y)).
  generalize (ip +:+ fraction fp +:+ ex +:+ t). intros u.
  destruct s; cbn [sign_text]; [change ("-" +:+ ?y) with (String "-" y)|change ("" +:+ ?y) with y].
  - split; [|by eexists _, _]. destruct c as [[] [] [] [] [] [] [] []]; try discriminate Hc; reflexivity.
  - split; [|eexists _, _; split; [done|]]; destruct c as [[] [] [] [] [] [] [] []]; try discriminate Hc; try reflexivity; done.
Qed.

Lemma scan_value_number fuel s ip fp ex t v :
  int_digits ip -> scan_number (number_text s ip fp ex +:+ t) = Some (v, t) ->
  scan_value (S fuel) (number_text s ip fp ex +:+ t) = Some (v, t).
Proof.
  intros Hi Hn. destruct (scan_literals_number s ip fp ex t Hi) as (Hl & c & r & Hr & H1 & H2 & H3).
  rewrite Hr in Hl, Hn |- *. cbn [scan_value]. rewrite H1, H2, H3. unfold scan_scalar. by rewrite Hl.
Qed.

(** The text of a value is read whatever follows it. *)
Definition reads (v : json) : Prop :=
  forall fuel t, (String.length (json_dumps v) <= fuel)%nat -> json_stop t = true ->
  scan_value fuel (json_dumps v +:+ t) = Some (v, t).

Lemma skip_ws_stop c s : json_stop (String c s) = true -> skip_ws (String c s) = String c s.
Proof.
  intros H%bool_decide_eq_true. rewrite !elem_of_cons in H. destruct_or! H; subst; try done. by apply not_elem_of_nil in H.
Qed.

(** A text that begins like a value. *)
Definition starts (s : string) : Prop := exists c r, s = String c r /\ value_head c = true.

Lemma starts_app s t : starts s -> starts (s +:+ t).
Proof. intros (c & r & -> & Hc). by exists c, (r +:+ t). Qed.

Lemma starts_skip s : starts s -> skip_ws s = s.
Proof. intros (c & r & -> & Hc). by apply value_head_spec. Qed.

Lemma scan_array fuel s :
  starts s -> scan_value (S fuel) (String "[" s) = ('(l, r) ← scan_elements fuel s; Some (JArr l, r)).
Proof.
  intros Hs. pose proof (starts_skip s Hs) as Hw. destruct Hs as (c & r & -> & Hc).
  cbn [scan_value]. change (Ascii.eqb "[" jquote) with false. change (Ascii.eqb "[" "{") with false.
  change (Ascii.eqb "[" "[") with true. cbv iota. rewrite Hw.
  destruct c as [[] [] [] [] [] [] [] []]; try discriminate Hc; reflexivity.
Qed.

Lemma scan_object fuel s :
  starts s -> scan_value (S fuel) (String "{" s) =
    ('(d, r) ← scan_members fuel s; Some (JObj (dict_update [] d), r)).
Proof.
  intros Hs. pose proof (starts_skip s Hs) as Hw. destruct Hs as (c & r & -> & Hc).
  cbn [scan_value]. change (Ascii.eqb "{" jquote) with false. change (Ascii.eqb "{" "{") with true. cbv iota. rewrite Hw.
  destruct c as [[] [] [] [] [] [] [] []]; try discriminate Hc; reflexivity.
Qed.

Lemma skip_ws_dumps v t : skip_ws (json_dumps v +:+ t) = json_dumps v +:+ t.
Proof. apply starts_skip, starts_app, dumps_head. Qed.

Lemma skip_ws_space s : skip_ws (" " +:+ s) = skip_ws s.
Proof. done. Qed.

Lemma join_cons sep a b l : join sep (a :: b :: l) = a +:+ sep +:+ join sep (b :: l).
Proof. done. Qed.

Lemma scan_elements_dumps v l fuel t :
  Forall reads (v :: l) -> json_stop t = true ->
  (String.length (join ", " (json_dumps <$> v :: l)) < fuel)%nat ->
  scan_elements fuel (join ", " (json_dumps <$> v :: l) +:+ String "]" t) = Some (v :: l, t).
Proof.
  revert v fuel. induction l as [|w l IH]; intros v fuel Hr Ht Hf.
  - apply Forall_cons_1 in Hr as [Hv _]. change (join ", " (json_dumps <$> [v])) with (json_dumps v) in *.
    destruct fuel as [|fuel]; [lia|]. cbn [scan_elements]. rewrite Hv by (done || lia). done.
  - apply Forall_cons_1 in Hr as [Hv Hr]. cbn [fmap list_fmap] in Hf |- *. rewrite join_cons in Hf |- *.
    rewrite !length_append in Hf. destruct fuel as [|fuel]; [lia|]. cbn [scan_elements].
    rewrite <- !append_assoc. rewrite Hv by (done || lia). cbn [mbind option_bind].
    change (", " +:+ ?y) with (String "," (" " +:+ y)). rewrite skip_ws_stop by done. cbv iota.
    rewrite skip_ws_space. change (json_dumps w :: _) with (json_dumps <$> w :: l).
    assert (skip_ws (join ", " (json_dumps <$> w :: l) +:+ String "]" t) = join ", " (json_dumps <$> w :: l) +:+ String "]" t) as ->.
    { destruct l as [|w' l]; [apply skip_ws_dumps|]. cbn [fmap list_fmap]. rewrite join_cons, <- !append_assoc. apply skip_ws_dumps. }
    rewrite IH; [done|done|done|]. cbn [String.length] in Hf. change (json_dumps w :: _) with (json_dumps <$> w :: l) in Hf. lia.
Qed.

Definition member_text (kv : string * json) : string := dumps_string kv.1 +:+ ": " +:+ json_dumps kv.2.

Lemma dumps_string_app s t : dumps_string s +:+ t = String jquote (escape_text s +:+ String jquote t).
Proof. unfold dumps_string. change (String jquote ?x +:+ t) with (String jquote (x +:+ t)). by rewrite <- append_assoc. Qed.

(** One member, up to what follows its value. *)
Lemma scan_member fuel kv t :
  utf8_ok kv.1 = true -> reads kv.2 -> json_stop t = true -> (String.length (member_text kv) <= fuel)%nat ->
  scan_members (S fuel) (member_text kv +:+ t) =
  match t with
  | String "}" r => Some ([kv], r)
  | String "," r => '(d, r) ← scan_members fuel (skip_ws r); Some (kv :: d, r)
  | _ => None
  end.
Proof.
  intros Hk Hv Ht Hf. unfold member_text in *. rewrite <- !append_assoc, dumps_string_app. cbn [scan_members].
  change (Ascii.eqb jquote jquote) with true. cbv iota. rewrite scan_escape_text by done. cbn [mbind option_bind].
  change (": " +:+ ?y) with (String ":" (" " +:+ y)). cbn [skip_ws]. change (z_in_range 9 11 _ || _ || _) with false. cbv iota.
  rewrite skip_ws_space, skip_ws_dumps. rewrite !length_append in Hf.
  rewrite Hv by (done || lia). cbn [mbind option_bind]. destruct t as [|c t]; [done|].
  rewrite skip_ws_stop by done. destruct kv as [k v].
  destruct c as [[] [] [] [] [] [] [] []]; reflexivity.
Qed.

Lemma skip_ws_member kv t : skip_ws (member_text kv +:+ t) = member_text kv +:+ t.
Proof. done. Qed.

Lemma scan_members_dumps kv d fuel t :
  Forall (fun kv => utf8_ok kv.1 = true /\ reads kv.2) (kv :: d) ->
  (String.length (join ", " (member_text <$> kv :: d)) < fuel)%nat ->
  scan_members fuel (join ", " (member_text <$> kv :: d) +:+ String "}" t) = Some (kv :: d, t).
Proof.
  revert kv fuel. induction d as [|kw d IH]; intros kv fuel Hr Hf.
  - apply Forall_cons_1 in Hr as [[Hk Hv] _]. change (join ", " (member_text <$> [kv])) with (member_text kv) in *.
    destruct fuel as [|fuel]; [lia|]. rewrite scan_member by (done || lia). done.
  - apply Forall_cons_1 in Hr as [[Hk Hv] Hr]. cbn [fmap list_fmap] in Hf |- *. rewrite join_cons in Hf |- *.
    rewrite !length_append in Hf. destruct fuel as [|fuel]; [lia|].
    rewrite <- !append_assoc. change (", " +:+ ?y) with (String "," (" " +:+ y)).
    rewrite scan_member by (done || lia). rewrite skip_ws_space.
    change (member_text kw :: _) with (member_text <$> kw :: d).
    assert (skip_ws (join ", " (member_text <$> kw :: d) +:+ String "}" t) = join ", " (member_text <$> kw :: d) +:+ String "}" t) as ->.
    { destruct d as [|kw' d]; [done|]. cbn [fmap list_fmap]. rewrite join_cons, <- !append_assoc. apply skip_ws_member. }
    rewrite IH; [done|done|]. cbn [String.length] in Hf. change (member_text kw :: _) with (member_text <$> kw :: d) in Hf. lia.
Qed.

Lemma dict_update_nodup {V} (d : dict string V) : NoDup (dict_keys d) -> dict_update [] d = d.
Proof.
  intros Hnd. unfold dict_update.
  assert (forall (d1 d2 : dict string V), NoDup (dict_keys (d1 ++ d2)) ->
    foldl (fun acc kv => dict_set acc kv.1 kv.2) d1 d2 = d1 ++ d2) as H; [|by apply H].
  intros d1 d2. revert d1. induction d2 as [|[k v] d2 IH]; intros d1 Hd; cbn [foldl fst snd]; [by rewrite app_nil_r|].
  rewrite dict_keys_set_new.
  - rewrite IH; by rewrite <- app_assoc.
  - unfold dict_keys in *. rewrite fmap_app in Hd. apply NoDup_app in Hd as (_ & Hd & _).
    intros Hin. apply (Hd k Hin). left.
Qed.

Lemma reads_finite f : f_valid f -> f_finite f = true -> dumps_float f = float_repr f -> reads (JFloat f).
Proof.
  intros Hv Hfin Hd fuel t Hf Ht. cbn [json_dumps] in *. rewrite Hd in Hf |- *.
  destruct (float_repr_shape f Hfin) as (s & ip & fp & ex & x & He & Hi & _).
  destruct fuel as [|fuel].
  { destruct (number_head s ip fp ex Hi) as (c & r & Hc & _). rewrite He, Hc in Hf. cbn in Hf. lia. }
  rewrite He. apply scan_value_number; [done|]. rewrite <- He. by apply scan_float.
Qed.

Lemma reads_float f : f_valid f -> reads (JFloat f).
Proof.
  intros Hv. destruct f as [s|[]| |s m e]; [by apply reads_finite| | | |by apply reads_finite];
    (intros [|fuel] t Hf Ht; [cbn in Hf; lia|by destruct t]).
Qed.

Lemma reads_int z : reads (JInt z).
Proof.
  intros fuel t Hf Ht. cbn [json_dumps] in *. pose proof (int_digits_str (Z.abs z) (Z.abs_nonneg z)) as Hi.
  rewrite int_text in Hf |- *. destruct fuel as [|fuel].
  { destruct (number_head (z <? 0) _ "" "" Hi) as (c & r & Hc & _). rewrite Hc in Hf. cbn in Hf. lia. }
  apply scan_value_number; [done|]. rewrite <- int_text. by apply scan_int.
Qed.

Lemma reads_dumps v : json_ok v -> reads v.
Proof.
  induction v as [|b|z|f|s|l IH|d IH] using json_nested_ind; intros Hok.
  - intros [|fuel] t Hf Ht; [cbn in Hf; lia|by destruct t].
  - intros [|fuel] t Hf Ht; [destruct b; cbn in Hf; lia|by destruct b, t].
  - apply reads_int.
  - by apply reads_float.
  - intros [|fuel] t Hf Ht; [cbn in Hf; lia|]. cbn [json_dumps]. rewrite dumps_string_app. cbn [scan_value].
    change (Ascii.eqb jquote jquote) with true. cbv iota. by rewrite scan_escape_text.
  - intros [|fuel] t Hf Ht; [cbn in Hf; lia|]. cbn [json_dumps] in *. apply json_ok_arr in Hok.
    assert (Forall reads l) as Hr by (rewrite Forall_forall in IH, Hok |- *; auto). destruct l as [|v l]; [done|].
    rewrite !length_append in Hf. rewrite <- !append_assoc. change ("]" +:+ t) with (String "]" t).
    change ("[" +:+ ?y) with (String "[" y).
    assert (starts (join ", " (json_dumps <$> v :: l) +:+ String "]" t)) as Hst.
    { apply starts_app. destruct l as [|w l]; [apply dumps_head|]. cbn [fmap list_fmap]. rewrite join_cons. apply starts_app, dumps_head. }
    rewrite scan_array by done.
    rewrite scan_elements_dumps; [done|done|done|]. cbn [String.length] in Hf. lia.
  - intros [|fuel] t Hf Ht; [cbn in Hf; lia|]. apply json_ok_obj in Hok as [Hnd Hok].
    change (json_dumps (JObj d)) with ("{" +:+ join ", " (member_text <$> d) +:+ "}") in *.
    assert (Forall (fun kv => utf8_ok kv.1 = true /\ reads kv.2) d) as Hr.
    { rewrite Forall_forall in IH, Hok |- *. intros kv Hin. destruct (Hok kv Hin). auto. }
    destruct d as [|kv d]; [done|].
    rewrite !length_append in Hf. rewrite <- !append_assoc. change ("}" +:+ t) with (String "}" t).
    change ("{" +:+ ?y) with (String "{" y).
    assert (starts (join ", " (member_text <$> kv :: d) +:+ String "}" t)) as Hst.
    { apply starts_app. destruct d as [|kw d]; [by eexists _, _|]. cbn [fmap list_fmap]. rewrite join_cons. by eexists _, _. }
    rewrite scan_object by done.
    rewrite scan_members_dumps; [|done|cbn [String.length] in Hf; lia]. cbn [mbind option_bind].
    by rewrite dict_update_nodup.
Qed.

(** [json.loads(json.dumps(v)) == v]. *)
Lemma json_roundtrip v : json_ok v -> json_loads (json_dumps v) = Ok v.
Proof.
  intros Hv. unfold json_loads. pose proof (skip_ws_dumps v "") as Hs. rewrite append_nil_r in Hs. rewrite Hs.
  pose proof (reads_dumps v Hv (S (String.length (json_dumps v))) "") as Hr. rewrite append_nil_r in Hr.
  by rewrite Hr by (done || lia).
Qed.

(** ** Validity of what is parsed *)

Lemma f_of_decimal_valid s a E : f_valid (f_of_decimal s a E).
Proof. unfold f_of_decimal. destruct (0 <=? E); apply f_of_ratio_valid. Qed.

Lemma float_of_str_valid s f : float_of_str s = Ok f -> f_valid f.
Proof.
  unfold float_of_str. repeat case_match; intros; simplify_eq; try done; apply f_of_decimal_valid.
Qed.

Lemma scan_scalar_valid s v r : scan_scalar s = Some (v, r) -> json_valid v.
Proof.
  unfold scan_scalar. destruct (scan_literals literals s) as [[v' r']|] eqn:Hl.
  - intros [= -> ->]. revert Hl. unfold literals. cbn [scan_literals].
    repeat (destruct (startswith _ _); [by intros [= <- _]|]). done.
  - unfold scan_number. intros Hn. repeat case_match; simplify_eq; try done; by eapply float_of_str_valid.
Qed.

Lemma dict_update_valid (d : dict string json) :
  Forall (fun kv => json_valid kv.2) d -> json_valid (JObj (dict_update [] d)).
Proof.
  rewrite json_valid_obj. unfold dict_update.
  assert (forall acc, Forall (fun kv => json_valid kv.2) acc -> Forall (fun kv => json_valid kv.2) d ->
    Forall (fun kv : string * json => json_valid kv.2) (foldl (fun acc kv => dict_set acc kv.1 kv.2) acc d)) as H.
  { induction d as [|[k v] d IH]; intros acc Hacc Hd; [done|]. apply Forall_cons_1 in Hd as [Hv Hd].
    cbn [foldl]. apply IH; [|done]. rewrite Forall_forall in Hacc |- *. intros [k' v'] [[_ ->]|Hin]%dict_set_elem; [done|].
    by apply (Hacc (k', v')). }
  by apply H.
Qed.

Lemma scan_valid fuel :
  (forall s v r, scan_value fuel s = Some (v, r) -> json_valid v) /\
  (forall s l r, scan_elements fuel s = Some (l, r) -> Forall json_valid l) /\
  (forall s d r, scan_members fuel s = Some (d, r) -> Forall (fun kv => json_valid kv.2) d).
Proof.
  induction fuel as [|fuel (IH1 & IH2 & IH3)]; [done|]. split_and!.
  - intros [|c s] v r; [done|]. cbn [scan_value].
    destruct (Ascii.eqb c jquote); [destruct (scan_string s) as [[]|]; by intros [= <- _]|].
    destruct (Ascii.eqb c "{").
    { intros H. assert (forall s', ('(d, r) ← scan_members fuel s'; Some (JObj (dict_update [] d), r)) = Some (v, r) -> json_valid v) as Hm.
      { intros s' Hs'. destruct (scan_members fuel s') as [[d r']|] eqn:Hd; [|done]. injection Hs' as <- _.
        apply dict_update_valid. by eapply IH3. }
      revert H. repeat case_match; try (by apply Hm); by intros [= <- _]. }
    destruct (Ascii.eqb c "["); [|apply scan_scalar_valid].
    intros H. assert (forall s', ('(l, r) ← scan_elements fuel s'; Some (JArr l, r)) = Some (v, r) -> json_valid v) as Hm.
    { intros s' Hs'. destruct (scan_elements fuel s') as [[l r']|] eqn:Hl; [|done]. injection Hs' as <- _.
      apply json_valid_arr. by eapply IH2. }
    revert H. repeat case_match; try (by apply Hm); by intros [= <- _].
  - intros s l r. cbn [scan_elements]. destruct (scan_value fuel s) as [[v r1]|] eqn:Hv; [|done]. apply IH1 in Hv.
    cbn [mbind option_bind]. repeat case_match; try done.
    all: try (intros [= <- _]; by repeat constructor).
    match goal with |- context [scan_elements fuel ?x] => destruct (scan_elements fuel x) as [[l' r']|] eqn:Hl end; [|done].
    intros [= <- _]. constructor; [done|by eapply IH2].
  - intros [|c s] d r; [done|]. cbn [scan_members]. destruct (Ascii.eqb c jquote); [|done].
    destruct (scan_string s) as [[k r1]|]; [|done]. cbn [mbind option_bind]. repeat case_match; try done.
    match goal with |- context [scan_value fuel ?x] => destruct (scan_value fuel x) as [[v r2]|] eqn:Hv end; [|done]. apply IH1 in Hv. cbn [mbind option_bind].
    repeat case_match; try done.
    all: try (intros [= <- _]; by repeat constructor).
    match goal with |- context [scan_members fuel ?x] => destruct (scan_members fuel x) as [[d' r']|] eqn:Hd end; [|done].
    intros [= <- _]. constructor; [done|by eapply IH3].
Qed.

Lemma json_loads_valid s v : json_loads s = Ok v -> json_valid v.
Proof.
  unfold json_loads. destruct (scan_value _ _) as [[v' r]|] eqn:Hv; [|done].
  destruct (skip_ws r); [|done]. intros [= <-]. by eapply scan_valid.
Qed.
