(* ===== verification/PyCsv.v ===== *)
(** * CSV files, as Python's [csv] module writes and reads them

    - [csv_line], [csv_text] are [csv.writer] in its default dialect: fields
      with a comma, a quote or a line break are quoted, quotes doubled, lines
      end in CR LF (the files are opened with [newline=""]);
    - [csv_read] is [csv.reader] over a file opened in text mode: CR LF and CR
      become LF first ([universal_newlines]), then the module's state machine
      ([process_char]) runs over every line, with an end-of-line event after
      each;
    - [dict_rows] is [csv.DictReader]: a dictionary per row, [None] for the
      columns a short row lacks.  The surplus fields of a long row, which it
      keeps under the key [None], are left out.

    The limit of 131072 characters per field is not modelled. *)

From Stdlib Require Import Ascii String.
From S2P Require Import Prelude PyText PyDict.

Open Scope string_scope.
Open Scope list_scope.

Definition cr : ascii := "013".
Definition lf : ascii := "010".
Definition dq : ascii := "034".
Definition comma : ascii := ",".

(** ** Writing *)

Definition is_special (c : ascii) : bool :=
  Ascii.eqb c comma || Ascii.eqb c dq || Ascii.eqb c cr || Ascii.eqb c lf.

Definition plain_field (f : string) : bool := all_chars (fun c => negb (is_special c)) f.

(** Quotes are doubled. *)
Definition escape_quotes (f : string) : string := replace_char dq (String dq (String dq "")) f.

Definition quoted (f : string) : string := String dq (escape_quotes f +:+ String dq "").

Definition csv_field (f : string) : string := if plain_field f then f else quoted f.

(** [writer.writerow(fields)]: a row of one empty field is quoted, to tell it
    from an empty row. *)
Definition csv_fields (row : list string) : string :=
  match row with
  | [""] => quoted ""
  | _ => join "," (csv_field <$> row)
  end.

Definition csv_line (row : list string) : string := csv_fields row +:+ String cr (String lf "").

Fixpoint csv_text (rows : list (list string)) : string :=
  match rows with
  | [] => ""
  | row :: rows => csv_line row +:+ csv_text rows
  end.

(** ** Reading *)

Fixpoint universal_newlines (s : string) : string :=
  match s with
  | "" => ""
  | String c s' =>
      if Ascii.eqb c cr then
        match s' with
        | String d s'' => if Ascii.eqb d lf then String lf (universal_newlines s'')
                          else String lf (universal_newlines s')
        | "" => String lf ""
        end
      else String c (universal_newlines s')
  end.

Inductive csv_state := StartRecord | StartField | InField | InQuotedField | QuoteInQuotedField | EatCrnl.

#[export] Instance csv_state_eq_dec : EqDecision csv_state.
Proof. solve_decision. Defined.

(** The record being read: state, finished fields, current field. *)
Record csv_reader := mkReader { rd_state : csv_state; rd_fields : list string; rd_field : string }.

Definition reader_init : csv_reader := mkReader StartRecord [] "".

Definition save_field (r : csv_reader) (st : csv_state) : csv_reader :=
  mkReader st (rd_fields r ++ [rd_field r]) "".
Definition add_char (r : csv_reader) (c : ascii) (st : csv_state) : csv_reader :=
  mkReader st (rd_fields r) (rd_field r +:+ String c "").
Definition set_state (r : csv_reader) (st : csv_state) : csv_reader := mkReader st (rd_fields r) (rd_field r).

Definition is_newline (c : ascii) : bool := Ascii.eqb c cr || Ascii.eqb c lf.

(** A character at the start of a field. *)
Definition start_field (r : csv_reader) (c : ascii) : csv_reader :=
  if is_newline c then save_field r EatCrnl
  else if Ascii.eqb c dq then set_state r InQuotedField
  else if Ascii.eqb c comma then save_field r StartField
  else add_char r c InField.

(** One character, or [None] for the end of a line. *)
Definition process_char (c : option ascii) (r : csv_reader) : res csv_reader :=
  match rd_state r, c with
  | StartRecord, None => Ok r
  | StartRecord, Some c => Ok (if is_newline c then set_state r EatCrnl else start_field r c)
  | StartField, None => Ok (save_field r StartRecord)
  | StartField, Some c => Ok (start_field r c)
  | InField, None => Ok (save_field r StartRecord)
  | InField, Some c =>
      Ok (if is_newline c then save_field r EatCrnl
          else if Ascii.eqb c comma then save_field r StartField
          else add_char r c InField)
  | InQuotedField, None => Ok r
  | InQuotedField, Some c =>
      Ok (if Ascii.eqb c dq then set_state r QuoteInQuotedField else add_char r c InQuotedField)
  | QuoteInQuotedField, None => Ok (save_field r StartRecord)
  | QuoteInQuotedField, Some c =>
      Ok (if Ascii.eqb c dq then add_char r c InQuotedField
          else if Ascii.eqb c comma then save_field r StartField
          else if is_newline c then save_field r EatCrnl
          else add_char r c InField)
  | EatCrnl, None => Ok (set_state r StartRecord)
  | EatCrnl, Some c => if is_newline c then Ok r else Raise CsvError
  end.

(** The input is over: what is left of a record is a last row. *)
Definition end_input (r : csv_reader) : list (list string) :=
  if decide (rd_field r <> "" \/ rd_state r = InQuotedField) then [rd_fields r ++ [rd_field r]] else [].

(** The rows of a text whose lines end after LF; [mid] tells whether the
    current line has begun. *)
Fixpoint csv_run (r : csv_reader) (s : string) (mid : bool) : res (list (list string)) :=
  match s with
  | "" =>
      if mid then
        r ← process_char None r;
        Ok (if decide (rd_state r = StartRecord) then [rd_fields r] else end_input r)
      else Ok (end_input r)
  | String c s' =>
      r ← process_char (Some c) r;
      if Ascii.eqb c lf then
        r ← process_char None r;
        if decide (rd_state r = StartRecord) then
          rows ← csv_run reader_init s' false; Ok (rd_fields r :: rows)
        else csv_run r s' false
      else csv_run r s' true
  end.

Definition csv_read (text : string) : res (list (list string)) :=
  csv_run reader_init (universal_newlines text) false.

(** [csv.DictReader] *)
Definition dict_row (fieldnames row : list string) : dict string (option string) :=
  dict_update [] (zip fieldnames ((Some <$> row) ++ replicate (length fieldnames - length row) None)).

Definition dict_rows (rows : list (list string)) : list (dict string (option string)) :=
  match rows with
  | [] => []
  | fieldnames :: rows => dict_row fieldnames <$> filter (fun row => row <> []) rows
  end.

Example csv_ex :
  csv_line ["a"; "b,c"; "d" +:+ String dq "e"; ""] =
    "a," +:+ String dq ("b,c" +:+ String dq (String "," (String dq ("d" +:+ String dq (String dq ("e" +:+ String dq
      (String "," (String cr (String lf ""))))))))) /\
  csv_read (csv_text [["a"; "b"]; ["1"; "x" +:+ String lf "y"]; []; [""]]) =
    Ok [["a"; "b"]; ["1"; "x" +:+ String lf "y"]; []; [""]] /\
  csv_read ("a,b" +:+ String lf "1") = Ok [["a"; "b"]; ["1"]] /\
  dict_rows [["a"; "b"]; ["1"]] = [[("a", Some "1"); ("b", None)]].
Proof. repeat split; vm_compute; reflexivity. Qed.
