(* ===== verification/PyCsvThms.v ===== *)
(** * CSV files: what is written is read back

    [csv_roundtrip]: rows come back as they were, whatever commas, quotes, line
    breaks and empty fields they have, except that text mode turns the CR LF and
    CR inside a field into LF; [dict_row_full] describes full rows. *)

From Stdlib Require Import Ascii String.
From S2P Require Import Prelude PyText PyDict PyCsv.

Open Scope string_scope.
Open Scope list_scope.

(** ** Line ends *)

Lemma universal_newlines_lacks s t : lacks cr s = true -> universal_newlines (s +:+ t) = s +:+ universal_newlines t.
Proof.
  induction s as [|c s IH]; [done|]. cbn. intros [->%negb_true_iff Hs]%andb_true_iff. f_equal. by apply IH.
Qed.

Lemma universal_newlines_crlf t : universal_newlines (String cr (String lf t)) = String lf (universal_newlines t).
Proof. done. Qed.

Lemma universal_newlines_id s : lacks cr s = true -> universal_newlines s = s.
Proof. intros Hs. pose proof (universal_newlines_lacks s "" Hs) as H. by rewrite !append_nil_r in H. Qed.

(** Induction two characters at a time. *)
Lemma string_pair_ind (P : string -> Prop) :
  P "" -> (forall c, P (String c "")) -> (forall c d s, P s -> P (String d s) -> P (String c (String d s))) ->
  forall s, P s.
Proof.
  intros H0 H1 H2. enough (forall s, P s /\ forall c, P (String c s)) as H by (intros s; apply H).
  induction s as [|c s [IH1 IH2]]; [by split|]. split; [apply IH2|]. intros d. apply H2; [done|apply IH2].
Qed.

Lemma universal_newlines_cons c s :
  c <> cr -> universal_newlines (String c s) = String c (universal_newlines s).
Proof. intros Hc%Ascii.eqb_neq. cbn. by rewrite Hc. Qed.

(** A CR is merged with LF only. *)
Lemma universal_newlines_cr c s :
  c <> lf -> universal_newlines (String cr (String c s)) = String lf (universal_newlines (String c s)).
Proof. intros Hc%Ascii.eqb_neq. cbn [universal_newlines]. change (Ascii.eqb cr cr) with true. by rewrite Hc. Qed.

Lemma universal_newlines_app s c t :
  c <> lf -> c <> cr ->
  universal_newlines (s +:+ String c t) = universal_newlines s +:+ String c (universal_newlines t).
Proof.
  intros Hlf Hcr. induction s as [|d|d e s IH1 IH2] using string_pair_ind.
  - by apply universal_newlines_cons.
  - change (String d "" +:+ ?x) with (String d x). destruct (decide (d = cr)) as [->|Hd].
    + by rewrite universal_newlines_cr, universal_newlines_cons.
    + by rewrite !universal_newlines_cons.
  - change (String d (String e s) +:+ ?x) with (String d (String e (s +:+ x))).
    change (String e s +:+ ?x) with (String e (s +:+ x)) in IH2.
    destruct (decide (d = cr)) as [->|Hd]; [destruct (decide (e = lf)) as [->|He]|].
    + by rewrite !universal_newlines_crlf, IH1.
    + by rewrite !universal_newlines_cr, IH2.
    + by rewrite !(universal_newlines_cons d), IH2.
Qed.

Lemma escape_cons c s :
  escape_quotes (String c s) = (if Ascii.eqb c dq then String dq (String dq "") else String c "") +:+ escape_quotes s.
Proof. done. Qed.

Lemma escape_other c s : c <> dq -> escape_quotes (String c s) = String c (escape_quotes s).
Proof. intros Hc%Ascii.eqb_neq. by rewrite escape_cons, Hc. Qed.

Lemma escape_dq s : escape_quotes (String dq s) = String dq (String dq (escape_quotes s)).
Proof. done. Qed.

Lemma universal_newlines_escape s : universal_newlines (escape_quotes s) = escape_quotes (universal_newlines s).
Proof.
  induction s as [|d|d e s IH1 IH2] using string_pair_ind; [done|by destruct d as [[] [] [] [] [] [] [] []]|].
  destruct (decide (d = cr)) as [->|Hd]; [|destruct (decide (d = dq)) as [->|Hq]].
  - rewrite (escape_other cr) by done. destruct (decide (e = lf)) as [->|He].
    + by rewrite (escape_other lf), !universal_newlines_crlf, IH1, escape_other.
    + rewrite universal_newlines_cr, (escape_other lf), <- IH2 by done.
      destruct (decide (e = dq)) as [->|Hq].
      * by rewrite escape_dq, universal_newlines_cr.
      * by rewrite (escape_other e), universal_newlines_cr.
  - by rewrite escape_dq, !(universal_newlines_cons dq), IH2, escape_dq by done.
  - by rewrite (escape_other d), !(universal_newlines_cons d), IH2, escape_other by done.
Qed.

Lemma universal_newlines_quoted f t :
  universal_newlines (quoted f +:+ t) = quoted (universal_newlines f) +:+ universal_newlines t.
Proof.
  unfold quoted. change (String dq ?x +:+ ?y) with (String dq (x +:+ y)). rewrite <- append_assoc.
  change (String dq "" +:+ ?y) with (String dq y).
  rewrite universal_newlines_cons, universal_newlines_app by done. rewrite universal_newlines_escape.
  change (String dq ?x +:+ ?y) with (String dq (x +:+ y)). by rewrite <- append_assoc.
Qed.

(** A field as it is after the translation: quoted or not. *)
Definition field_text (q : bool) (f : string) : string := if q then quoted f else f.

Lemma plain_lacks_cr f : plain_field f = true -> lacks cr f = true.
Proof.
  apply all_chars_impl. intros c. unfold is_special. intros H%negb_true_iff.
  apply orb_false_iff in H as [[_ H]%orb_false_iff _]. by rewrite H.
Qed.

Lemma universal_newlines_field f t :
  universal_newlines (csv_field f +:+ t) =
  field_text (negb (plain_field f)) (universal_newlines f) +:+ universal_newlines t.
Proof.
  unfold csv_field. destruct (plain_field f) eqn:Hp; cbn [negb field_text].
  - apply plain_lacks_cr in Hp. by rewrite universal_newlines_lacks, (universal_newlines_id f).
  - apply universal_newlines_quoted.
Qed.

(** ** Fields *)

(** What may follow a field: a comma or the end of the line. *)
Definition after_field (r : csv_reader) (f : string) (sep : ascii) (rest : string) : res (list (list string)) :=
  if Ascii.eqb sep comma then csv_run (mkReader StartField (rd_fields r ++ [f]) "") rest true
  else rows ← csv_run reader_init rest false; Ok ((rd_fields r ++ [f]) :: rows).

Definition is_sep (c : ascii) : Prop := c = comma \/ c = lf.

Definition ready (r : csv_reader) : Prop :=
  rd_field r = "" /\ (rd_state r = StartField \/ (rd_state r = StartRecord /\ rd_fields r = [])).

Lemma csv_run_sep r sep rest mid :
  is_sep sep -> rd_state r = InField \/ rd_state r = QuoteInQuotedField \/ rd_state r = StartField ->
  csv_run r (String sep rest) mid = after_field r (rd_field r) sep rest.
Proof. intros [-> | ->] Hst; destruct r as [st fs f]; cbn in Hst; destruct_or! Hst; subst st; done. Qed.

Lemma special_false c :
  negb (is_special c) = true ->
  Ascii.eqb c comma = false /\ Ascii.eqb c dq = false /\ Ascii.eqb c lf = false /\ is_newline c = false.
Proof.
  unfold is_special, is_newline. intros H%negb_true_iff. apply orb_false_iff in H as [[[-> ->]%orb_false_iff ->]%orb_false_iff ->].
  done.
Qed.

Lemma csv_run_plain fs g f sep rest mid :
  is_sep sep -> plain_field f = true ->
  csv_run (mkReader InField fs g) (f +:+ String sep rest) mid =
  after_field (mkReader InField fs g) (g +:+ f) sep rest.
Proof.
  intros Hsep. revert g mid. induction f as [|c f IH]; intros g mid Hf.
  - rewrite append_nil_r. change ("" +:+ String sep rest) with (String sep rest).
    rewrite csv_run_sep; [done|done|by left].
  - cbn in Hf. apply andb_true_iff in Hf as [(Hc & Hq & Hl & Hn)%special_false Hf].
    change (String c f +:+ String sep rest) with (String c (f +:+ String sep rest)).
    cbn [csv_run process_char rd_state mbind res_bind]. rewrite Hn, Hc, Hl.
    unfold add_char. cbn [rd_fields rd_field]. rewrite IH by done. by rewrite <- append_assoc.
Qed.

Lemma csv_run_quoted fs g f rest mid :
  rest <> "" ->
  csv_run (mkReader InQuotedField fs g) (escape_quotes f +:+ String dq rest) mid =
  csv_run (mkReader QuoteInQuotedField fs (g +:+ f)) rest true.
Proof.
  intros Hrest. revert g mid. induction f as [|c f IH]; intros g mid; [by rewrite append_nil_r|].
  unfold escape_quotes in *. cbn [replace_char].
  destruct (Ascii.eqb_spec c dq) as [->|Hc].
  - rewrite <- append_assoc.
    change (String dq (String dq "") +:+ ?x) with (String dq (String dq x)).
    cbn [csv_run process_char rd_state mbind res_bind]. change (Ascii.eqb dq dq) with true. change (Ascii.eqb dq lf) with false.
    cbn [set_state add_char rd_state rd_fields rd_field mbind res_bind process_char]. change (Ascii.eqb dq dq) with true. cbv iota.
    unfold add_char. cbn [rd_fields rd_field]. rewrite IH. by rewrite <- append_assoc.
  - rewrite <- append_assoc. change (String c "" +:+ ?x) with (String c x).
    cbn [csv_run process_char rd_state mbind res_bind]. rewrite (proj2 (Ascii.eqb_neq c dq) Hc).
    unfold add_char. cbn [rd_fields rd_field rd_state process_char mbind res_bind].
    destruct (Ascii.eqb c lf); [rewrite decide_False by done|]; rewrite IH; by rewrite <- append_assoc.
Qed.

Lemma csv_run_quoted_field r f sep rest mid :
  ready r -> is_sep sep ->
  csv_run r (quoted f +:+ String sep rest) mid = after_field r f sep rest.
Proof.
  intros [Hf Hst] Hsep. unfold quoted.
  change (String dq ?x +:+ ?y) with (String dq (x +:+ y)). rewrite <- append_assoc.
  change (String dq "" +:+ ?y) with (String dq y).
  destruct r as [st fs g]. cbn in Hf, Hst. subst g.
  assert (forall s, csv_run (mkReader st fs "") (String dq s) mid = csv_run (mkReader InQuotedField fs "") s true) as Hq.
  { intros s. by destruct Hst as [->|[-> _]]. }
  rewrite Hq, csv_run_quoted by done. rewrite csv_run_sep; [done|done|by right; left].
Qed.

Lemma csv_run_field r q f sep rest mid :
  ready r -> is_sep sep -> q = true \/ plain_field f = true ->
  ~ (rd_state r = StartRecord /\ sep = lf /\ q = false /\ f = "") ->
  csv_run r (field_text q f +:+ String sep rest) mid = after_field r f sep rest.
Proof.
  intros Hr Hsep Hq Hne. destruct q; [by apply csv_run_quoted_field|]. destruct Hq as [?|Hp]; [done|].
  destruct Hr as [Hf Hst]. destruct r as [st fs g]. cbn in Hf, Hst, Hne. subst g. destruct f as [|c f]; cbn [field_text].
  - change ("" +:+ String sep rest) with (String sep rest). destruct Hst as [->|[-> ->]].
    + rewrite csv_run_sep; [done|done|by right; right].
    + destruct Hsep as [-> | ->]; [done|]. by destruct Hne.
  - pose proof Hp as Hp'. cbn in Hp. apply andb_true_iff in Hp as [(Hc & Hq & Hl & Hn)%special_false Hp].
    change (String c f +:+ String sep rest) with (String c (f +:+ String sep rest)).
    assert (csv_run (mkReader st fs "") (String c (f +:+ String sep rest)) mid =
            csv_run (mkReader InField fs (String c "")) (f +:+ String sep rest) true) as ->.
    { destruct Hst as [->|[-> _]]; cbn [csv_run process_char rd_state mbind res_bind];
        unfold start_field; by rewrite Hn, Hq, Hc, Hl. }
    by rewrite csv_run_plain.
Qed.

(** The fields of a row, the comma and the line end included. *)
Fixpoint line_text (row : list (bool * string)) : string :=
  match row with
  | [] => ""
  | [(q, f)] => field_text q f
  | (q, f) :: row => field_text q f +:+ String comma (line_text row)
  end.

Definition writable (qf : bool * string) : Prop := qf.1 = true \/ plain_field qf.2 = true.

Lemma csv_run_fields r qf row rest mid :
  ready r -> Forall writable (qf :: row) -> ~ (rd_state r = StartRecord /\ row = [] /\ qf = (false, "")) ->
  csv_run r (line_text (qf :: row) +:+ String lf rest) mid =
  (rows ← csv_run reader_init rest false; Ok ((rd_fields r ++ (qf :: row).*2) :: rows)).
Proof.
  revert r qf mid. induction row as [|qf' row IH]; intros r [q f] mid Hr Hw Hne.
  - apply Forall_cons_1 in Hw as [Hw _].
    change (line_text [(q, f)]) with (field_text q f).
    rewrite csv_run_field; [done|done|by right|done|naive_solver].
  - apply Forall_cons_1 in Hw as [Hw Hrow].
    change (line_text ((q, f) :: qf' :: row)) with (field_text q f +:+ String comma (line_text (qf' :: row))).
    rewrite <- append_assoc. change (String comma ?x +:+ ?y) with (String comma (x +:+ y)).
    rewrite csv_run_field; [|done|by left|done|by intros (_ & ? & _)].
    unfold after_field. change (Ascii.eqb comma comma) with true. cbv iota.
    rewrite IH; [|by split; [|left]|done|by intros [? _]]. by cbn; rewrite <- app_assoc.
Qed.

(** ** Rows *)

Definition translated (f : string) : bool * string := (negb (plain_field f), universal_newlines f).

Lemma translated_writable f : writable (translated f).
Proof.
  unfold writable, translated. cbn. destruct (plain_field f) eqn:Hp; [|by left]. right.
  by rewrite universal_newlines_id by by apply plain_lacks_cr.
Qed.

Lemma universal_newlines_fields row t :
  row <> [] ->
  universal_newlines (join "," (csv_field <$> row) +:+ t) = line_text (translated <$> row) +:+ universal_newlines t.
Proof.
  intros Hne. induction row as [|f row IH]; [done|]. destruct row as [|f' row].
  - apply universal_newlines_field.
  - change (join "," (csv_field <$> f :: f' :: row)) with (csv_field f +:+ String comma (join "," (csv_field <$> f' :: row))).
    rewrite <- append_assoc. change (String comma ?x +:+ ?y) with (String comma (x +:+ y)).
    rewrite universal_newlines_field, universal_newlines_cons, IH by done.
    change (line_text (translated <$> f :: f' :: row)) with
      (field_text (negb (plain_field f)) (universal_newlines f) +:+ String comma (line_text (translated <$> f' :: row))).
    by rewrite <- append_assoc.
Qed.

Lemma csv_read_line row rest :
  csv_run reader_init (universal_newlines (csv_line row +:+ rest)) false =
  (rows ← csv_run reader_init (universal_newlines rest) false; Ok ((universal_newlines <$> row) :: rows)).
Proof.
  assert (ready reader_init) as Hr by by split; [|right].
  unfold csv_line. rewrite <- append_assoc. change (String cr (String lf "") +:+ ?x) with (String cr (String lf x)).
  destruct row as [|f row]; [done|]. destruct (decide (row = [] /\ f = "")) as [[-> ->]|Hne].
  - change (csv_fields [""]) with (quoted ""). rewrite universal_newlines_quoted, universal_newlines_crlf.
    by rewrite csv_run_quoted_field by (done || by right).
  - assert (csv_fields (f :: row) = join "," (csv_field <$> f :: row)) as ->.
    { destruct f, row; try done. by destruct Hne. }
    rewrite universal_newlines_fields, universal_newlines_crlf by done. cbn [fmap list_fmap].
    rewrite csv_run_fields; [|done|constructor; [apply translated_writable|]; apply Forall_fmap, Forall_true; intros; apply translated_writable|].
    + cbn. by rewrite <- list_fmap_compose.
    + intros (_ & Hnil & Heq). destruct row; [|done]. unfold translated in Heq. injection Heq as Hp Hu.
      destruct f as [|c f]; [by destruct Hne|].
      apply negb_false_iff, plain_lacks_cr in Hp. by rewrite universal_newlines_id in Hu.
Qed.

(** A row as it is read back. *)
Definition as_read (row : list string) : list string := universal_newlines <$> row.

(** What [csv.writer] writes, [csv.reader] reads back. *)
Lemma csv_roundtrip rows : csv_read (csv_text rows) = Ok (as_read <$> rows).
Proof.
  unfold csv_read. induction rows as [|row rows IH]; [done|]. cbn [csv_text].
  by rewrite csv_read_line, IH.
Qed.

(** ** Dictionaries *)

Lemma dict_row_fold (keys : list string) (vals : list (option string)) d :
  NoDup (dict_keys d ++ keys) -> length keys = length vals ->
  foldl (fun d kv => dict_set d kv.1 kv.2) d (zip keys vals) = d ++ zip keys vals.
Proof.
  revert vals d. induction keys as [|k keys IH]; intros [|v vals] d Hnd Hl; try done; [by rewrite app_nil_r|].
  cbn [zip zip_with foldl fst snd]. assert (dict_set d k v = d ++ [(k, v)]) as ->.
  { apply dict_keys_set_new. apply NoDup_app in Hnd as (_ & Hd & _). intros Hin. apply (Hd k Hin). left. }
  rewrite IH; [by rewrite <- app_assoc| |by injection Hl].
  unfold dict_keys in *. by rewrite fmap_app, <- app_assoc.
Qed.

(** A row as long as the header. *)
Lemma dict_row_full fieldnames row :
  NoDup fieldnames -> length row = length fieldnames -> dict_row fieldnames row = zip fieldnames (Some <$> row).
Proof.
  intros Hnd Hl. unfold dict_row, dict_update. rewrite Hl, Nat.sub_diag, app_nil_r.
  by rewrite dict_row_fold; [| |rewrite length_fmap].
Qed.
