(* ===== verification/PySort.v ===== *)
(** * Sorting

    [sort_by R] is Python's [sorted] / [list.sort] for a total preorder [R] on
    the elements: an insertion sort, which like Python's sort is stable
    ([filter_sort_by]).  [sorted_set] is [sorted] of the set of the elements. *)

From Stdlib Require Export Sorted.
From S2P Require Import Prelude.

Section Sort.
Context {A : Type} (R : relation A) `{!RelDecision R}.

Fixpoint insert_by (x : A) (l : list A) : list A :=
  match l with
  | [] => [x]
  | y :: l' => if decide (R x y) then x :: l else y :: insert_by x l'
  end.

Definition sort_by (l : list A) : list A := foldr insert_by [] l.

Lemma insert_by_Permutation x l : insert_by x l ≡ₚ x :: l.
Proof.
  induction l as [|y l IH]; [done|]. cbn. case_decide; [done|]. rewrite IH. constructor.
Qed.

Lemma sort_by_Permutation l : sort_by l ≡ₚ l.
Proof. induction l as [|x l IH]; [done|]. cbn. rewrite insert_by_Permutation. by f_equiv. Qed.

Lemma elem_of_sort_by x l : x ∈ sort_by l <-> x ∈ l.
Proof. by rewrite sort_by_Permutation. Qed.

Lemma length_sort_by l : length (sort_by l) = length l.
Proof. by rewrite sort_by_Permutation. Qed.

Lemma NoDup_sort_by l : NoDup l -> NoDup (sort_by l).
Proof. by rewrite sort_by_Permutation. Qed.

(** Sortedness, for a relation that is a total preorder on the elements of the
    list (floats without NaN, say). *)
Section On.
Variable P : A -> Prop.
Hypothesis R_total : forall x y, P x -> P y -> R x y \/ R y x.
Hypothesis R_trans : forall x y z, P x -> P y -> P z -> R x y -> R y z -> R x z.

Lemma insert_by_sorted x l :
  P x -> Forall P l -> StronglySorted R l -> StronglySorted R (insert_by x l).
Proof.
  intros Hx Hl Hs. induction Hs as [|y l Hs IH Hy]; cbn; [repeat constructor|].
  inversion Hl as [|? ? Hpy Hpl]; subst. case_decide as Hxy.
  - constructor; [by constructor|]. constructor; [done|].
    rewrite Forall_forall in Hy, Hpl |- *. intros z Hz. apply (R_trans x y z); auto.
  - constructor; [by apply IH|]. rewrite insert_by_Permutation. constructor; [|done].
    by destruct (R_total x y).
Qed.

Lemma sort_by_sorted_on l : Forall P l -> StronglySorted R (sort_by l).
Proof.
  induction 1 as [|x l Hx Hl IH]; [constructor|]. cbn. apply insert_by_sorted; [done| |done].
  by rewrite sort_by_Permutation.
Qed.
End On.

Lemma sort_by_sorted `{!Total R, !Transitive R} l : StronglySorted R (sort_by l).
Proof.
  apply (sort_by_sorted_on (fun _ => True)); [|intros x y z _ _ _; apply transitivity|by apply Forall_true].
  intros x y _ _. apply (total R).
Qed.

(** Stability: elements that are pairwise related keep their order. *)
Lemma filter_insert_by (P : A -> Prop) `{!forall x, Decision (P x)} x l :
  (forall y z, P y -> P z -> R y z) -> filter P (insert_by x l) = filter P (x :: l).
Proof.
  intros HP. induction l as [|y l IH]; [done|]. cbn [insert_by]. case_decide as Hxy; [done|].
  rewrite filter_cons, IH, !filter_cons. destruct (decide (P x)) as [Hx|Hx], (decide (P y)) as [Hy|Hy]; try done.
  by destruct Hxy; apply HP.
Qed.

Lemma filter_sort_by (P : A -> Prop) `{!forall x, Decision (P x)} l :
  (forall y z, P y -> P z -> R y z) -> filter P (sort_by l) = filter P l.
Proof.
  intros HP. induction l as [|x l IH]; [done|].
  change (sort_by (x :: l)) with (insert_by x (sort_by l)).
  rewrite filter_insert_by by done. rewrite !filter_cons. by rewrite IH.
Qed.

Definition sorted_set `{!EqDecision A} (l : list A) : list A := sort_by (remove_dups l).

Lemma elem_of_sorted_set `{!EqDecision A} x l : x ∈ sorted_set l <-> x ∈ l.
Proof. unfold sorted_set. by rewrite elem_of_sort_by, elem_of_remove_dups. Qed.

Lemma NoDup_sorted_set `{!EqDecision A} l : NoDup (sorted_set l).
Proof. apply NoDup_sort_by, NoDup_remove_dups. Qed.
End Sort.

(** In a sorted list what stands earlier is smaller. *)
Lemma sorted_lookup {A} (R : relation A) `{!Reflexive R} (l : list A) i j x y :
  StronglySorted R l -> (i <= j)%nat -> l !! i = Some x -> l !! j = Some y -> R x y.
Proof.
  intros Hs. revert i j. induction Hs as [|z l Hs IH Hz]; intros i j Hij Hi Hj; [done|].
  destruct i as [|i], j as [|j]; cbn in *; [by simplify_eq|..|lia|].
  - simplify_eq. rewrite Forall_forall in Hz. by eapply Hz, list_elem_of_lookup_2.
  - apply (IH i j); [lia|done..].
Qed.

(** Sorting through a key. *)
Lemma sort_by_fmap {A B} (R : relation B) `{!RelDecision R} (Q : relation A) `{!RelDecision Q} (f : A -> B) l :
  (forall x y, R (f x) (f y) <-> Q x y) -> sort_by R (f <$> l) = f <$> sort_by Q l.
Proof.
  intros HRQ.
  assert (forall x l, insert_by R (f x) (f <$> l) = f <$> insert_by Q x l) as Hins.
  { intros x l'. induction l' as [|y l' IH]; [done|]. cbn.
    destruct (decide (Q x y)); [rewrite decide_True by by apply HRQ|rewrite decide_False by by rewrite HRQ]; [done|].
    cbn. f_equal. exact IH. }
  induction l as [|x l IH]; [done|]. cbn [fmap list_fmap].
  change (sort_by R (f x :: (f <$> l))) with (insert_by R (f x) (sort_by R (f <$> l))). by rewrite IH, Hins.
Qed.
