(* ===== verification/PyArgparse.v ===== *)
(** * Command lines: [argparse]

    [parse_words] is [ArgumentParser.parse_args] for a parser whose options take
    one value ([--help] apart) and which has at most one positional argument,
    declared with [nargs="?"]: exact names, unambiguous prefixes,
    [--name=value], [-nvalue] and [--name value].  Whatever argparse refuses,
    and [--help], is [SystemExit].  The separator [--] is left out. *)

From Stdlib Require Import Ascii String ZArith Lia.
From S2P Require Import Prelude PyText PyFloat PyNum PyRepr.

Open Scope string_scope.
Open Scope list_scope.
Open Scope Z_scope.

(** ** Words *)

(** [s.split("=", 1)], if there is an equals sign. *)
Fixpoint split_eq (s : string) : option (string * string) :=
  match s with
  | "" => None
  | String c s => if Ascii.eqb c "=" then Some ("", s) else '(a, b) ← split_eq s; Some (String c a, b)
  end.

(** [^-\d+$|^-\d*\.\d+$], for a word that begins with a dash. *)
Definition negative_number (w : string) : bool :=
  let body := slice_from 1 w in
  match split_char "." body with
  | [a] => isdigit a
  | [a; b] => all_chars is_digit a && isdigit b
  | _ => false
  end.

Inductive word := Value | Opt (name : string) (explicit : option string) | Refused.

(** What begins with a dash and names no option can still be a value. *)
Definition value_or_refused (w : string) : word :=
  if negative_number w || negb (lacks " " w) then Value else Refused.

(** [_parse_optional] for options of one letter or two dashes. *)
Definition classify (names : list string) (w : string) : word :=
  if negb (startswith w "-") then Value
  else if bool_decide (w ∈ names) then Opt w None
  else if bool_decide (w = "-") then Value
  else
    let '(prefix, explicit) := match split_eq w with Some (p, v) => (p, Some v) | None => (w, None) end in
    if bool_decide (explicit <> None) && bool_decide (prefix ∈ names) then Opt prefix explicit
    else if startswith w "--" then
      match filter (fun n => startswith n prefix = true) names with
      | [n] => Opt n explicit
      | [] => value_or_refused w
      | _ => Refused
      end
    else if bool_decide (substring 0 2 w ∈ names) then Opt (substring 0 2 w) (Some (slice_from 2 w))
    else value_or_refused w.

(** An argument's [type] raised: argparse ends the program. *)
Definition or_exit {A} (r : res A) : res A := match r with Ok a => Ok a | Raise _ => Raise SystemExit end.

(** ** Parsers *)

(** A parser: the names of its options, what an option with its value does to
    the namespace (an unknown name stands for [--help]), and the positional
    argument, if there is one. *)
Record ArgumentParser (NS : Type) := mkParser {
  ap_names : list string;
  ap_set : NS -> string -> string -> res NS;
  ap_positional : option (NS -> string -> NS) }.
Arguments mkParser {NS}.
Arguments ap_names {NS}.
Arguments ap_set {NS}.
Arguments ap_positional {NS}.

(** No name of an option looks like a negative number. *)
Definition wordy (name : string) : bool :=
  match name with String "-" (String c _) => negb (is_digit c) | _ => false end.
Class Names (names : list string) : Prop := names_wordy : forallb wordy names = true.

Section Parser.
Context {NS : Type} (p : ArgumentParser NS).

(** [pos] is the positional argument that has not been given so far. *)
Fixpoint parse_words (pos : option (NS -> string -> NS)) (ns : NS) (argv : list string) : res NS :=
  match argv with
  | [] => Ok ns
  | w :: argv =>
      match classify (ap_names p) w with
      | Value =>
          match pos with
          | Some f => parse_words None (f ns w) argv
          | None => Raise SystemExit
          end
      | Opt name (Some v) => ns ← ap_set p ns name v; parse_words pos ns argv
      | Opt name None =>
          match argv with
          | v :: argv =>
              match classify (ap_names p) v with
              | Value => ns ← ap_set p ns name v; parse_words pos ns argv
              | _ => Raise SystemExit
              end
          | [] => Raise SystemExit
          end
      | Refused => Raise SystemExit
      end
  end.

Definition parse (defaults : NS) (argv : list string) : res NS := parse_words (ap_positional p) defaults argv.

Lemma parse_option pos ns ns' name v argv :
  classify (ap_names p) name = Opt name None -> classify (ap_names p) v = Value -> ap_set p ns name v = Ok ns' ->
  parse_words pos ns (name :: v :: argv) = parse_words pos ns' argv.
Proof. intros Hn Hv Hset. cbn [parse_words]. by rewrite Hn, Hv, Hset. Qed.

Lemma parse_value f ns v argv :
  classify (ap_names p) v = Value -> parse_words (Some f) ns (v :: argv) = parse_words None (f ns v) argv.
Proof. intros Hv. cbn [parse_words]. by rewrite Hv. Qed.

(** A parser fails in one way only, if setting options does. *)
Lemma parse_exits pos ns argv e :
  (forall ns name v e, ap_set p ns name v = Raise e -> e = SystemExit) ->
  parse_words pos ns argv = Raise e -> e = SystemExit.
Proof.
  intros Hset. revert pos ns. induction argv as [argv IH] using (induction_ltof1 _ (@length string)).
  intros pos ns. destruct argv as [|w argv]; [done|]. cbn [parse_words].
  destruct (classify _ w) as [|name [v|]|]; [|..|congruence].
  - destruct pos; [|congruence]. apply IH. unfold ltof. cbn; lia.
  - destruct (ap_set p ns name v) as [ns'|e'] eqn:Hs; cbn [mbind res_bind];
      [apply IH; unfold ltof; cbn; lia|intros [= <-]; by eapply Hset].
  - destruct argv as [|v argv]; [congruence|]. destruct (classify _ v); [|congruence..].
    destruct (ap_set p ns name v) as [ns'|e'] eqn:Hs; cbn [mbind res_bind];
      [apply IH; unfold ltof; cbn; lia|intros [= <-]; by eapply Hset].
Qed.
End Parser.

Lemma or_exit_Ok {A} (r : res A) a : r = Ok a -> or_exit r = Ok a.
Proof. by intros ->. Qed.

Lemma or_exit_exits {A} (r : res A) e : or_exit r = Raise e -> e = SystemExit.
Proof. destruct r; cbn; congruence. Qed.

(** ** Values *)

Lemma split_eq_lacks s : lacks "=" s = true -> split_eq s = None.
Proof.
  induction s as [|c s IH]; [done|]. intros [Hc%negb_true_iff Hs]%andb_true_iff. cbn [split_eq]. by rewrite Hc, IH.
Qed.

Lemma classify_plain names c s : c <> "-"%char -> classify names (String c s) = Value.
Proof. intros Hc. unfold classify. by rewrite startswith_ne. Qed.

Section Values.
Context (names : list string) `{Hnames : Names names}.

Lemma number_not_name c s : is_digit c = true -> String "-" (String c s) ∉ names.
Proof.
  intros Hc Hin. unfold Names in Hnames. rewrite forallb_forall in Hnames.
  apply list_elem_of_In, Hnames in Hin. cbn in Hin. by rewrite Hc in Hin.
Qed.

Lemma classify_negative c s : all_chars is_digit (String c s) = true -> classify names (String "-" (String c s)) = Value.
Proof using Hnames.
  intros Hd. pose proof Hd as Hc. apply andb_true_iff in Hc as [Hc _].
  assert (c <> "-"%char) as Hdash by by intros ->.
  unfold classify. rewrite startswith_cons. change (negb (startswith (String c s) "")) with false. cbv beta iota.
  rewrite bool_decide_eq_false_2 by by apply number_not_name.
  rewrite bool_decide_eq_false_2 by done. rewrite split_eq_lacks.
  2:{ apply (digits_lack "=") in Hd; [|done]. exact Hd. }
  rewrite bool_decide_eq_false_2 by by intros ?. cbn [andb].
  rewrite startswith_cons, startswith_ne by done.
  rewrite bool_decide_eq_false_2 by (destruct s; by apply number_not_name).
  unfold value_or_refused, negative_number. change (slice_from 1 (String "-" (String c s))) with (String c s).
  rewrite split_char_lacks by by apply digits_lack.
  assert (isdigit (String c s) = true) as -> by exact Hd. done.
Qed.

(** A number is a value, also a negative one. *)
Lemma classify_int z : classify names (str_of_Z z) = Value.
Proof using Hnames.
  destruct (Z.ltb_spec z 0) as [Hz|Hz].
  - destruct z as [|q|q]; try lia.
    change (str_of_Z (Z.neg q)) with (String "-" (str_of_Z (Z.pos q))).
    pose proof (str_of_Z_nonneg (Z.pos q) ltac:(lia)) as Hd. pose proof (str_of_Z_ne (Z.pos q)) as Hne.
    destruct (str_of_Z (Z.pos q)) as [|c s]; [done|]. by apply classify_negative.
  - pose proof (str_of_Z_nonneg z Hz) as Hd. destruct (str_of_Z z) as [|c s]; [done|].
    apply andb_true_iff in Hd as [Hc _]. apply classify_plain. by intros ->.
Qed.
End Values.
