(* ===== verification/Wire.v ===== *)
(** * The wire protocol (PROTOCOL.md)

    The frames of the protocol as data, with their encodings and decodings:
    the reference the server's hand-written buffer code is compared with.  A
    frame on the wire is the payload's length (4 bytes, big-endian) followed by
    the payload; [payload[0]] is the message type.  [Codec] is the interface:
    an encoder and a decoder that inverts it. *)

From Stdlib Require Import ZArith Lia.
From S2P Require Import Prelude PyStruct.

Open Scope Z_scope.

Definition MSG_JOIN : Z := 0x01.
Definition MSG_MOVE : Z := 0x02.
Definition MSG_JOINED : Z := 0x81.
Definition MSG_SNAPSHOT : Z := 0x82.

(** Max accepted frame: 1 MiB. *)
Definition MAX_FRAME : Z := Z.shiftl 1 20.

(** ** Codecs *)

(** [wf a] says the fields fit the widths the protocol gives them. *)
Class Codec (A : Type) := {
  wf : A -> Prop;
  encode : A -> bytes;
  decode : bytes -> option A;
  decode_encode a : wf a -> decode (encode a) = Some a;
}.

(** Fields of given widths, one after the other. *)
Definition fields (cs : list code) (vs : list Z) : bytes :=
  concat (zip_with (fun c v => be_pack (code_size c) v) cs vs).

Lemma length_fields cs vs : length cs = length vs -> length (fields cs vs) = calcsize cs.
Proof.
  revert vs. induction cs as [|c cs IH]; intros [|v vs] H; try done.
  unfold fields in *. cbn. rewrite length_app, length_be_pack, (IH vs) by (cbn in H; lia). done.
Qed.

Definition fields_wf (cs : list code) (vs : list Z) : Prop :=
  Forall2 (fun c v => fits c v = true) cs vs.

Lemma unpack_all_fields cs vs rest :
  fields_wf cs vs -> unpack_all cs (fields cs vs ++ rest) = vs.
Proof. apply unpack_all_pack. Qed.

Lemma pack_fields cs vs : fields_wf cs vs -> pack cs vs = Ok (fields cs vs).
Proof. apply pack_ok. Qed.

(** ** Client to server *)

Inductive client_msg :=
  | Join (room_id : Z)
  | Move (seq dx dy : Z).

Definition client_wf (m : client_msg) : Prop :=
  match m with
  | Join r => fields_wf [CI] [r]
  | Move s dx dy => fields_wf [CI; Ch; Ch] [s; dx; dy]
  end.

Definition encode_client (m : client_msg) : bytes :=
  match m with
  | Join r => byte_of_Z MSG_JOIN :: fields [CI] [r]
  | Move s dx dy => byte_of_Z MSG_MOVE :: fields [CI; Ch; Ch] [s; dx; dy]
  end.

Definition decode_client (payload : bytes) : option client_msg :=
  match payload with
  | [] => None
  | t :: body =>
      if (Z_of_byte t =? MSG_JOIN) && (4 <=? Z.of_nat (length body)) then
        match unpack_all [CI] body with [r] => Some (Join r) | _ => None end
      else if (Z_of_byte t =? MSG_MOVE) && (8 <=? Z.of_nat (length body)) then
        match unpack_all [CI; Ch; Ch] body with
        | [s; dx; dy] => Some (Move s dx dy) | _ => None end
      else None
  end.

Lemma decode_encode_client m : client_wf m -> decode_client (encode_client m) = Some m.
Proof.
  destruct m as [r|s dx dy]; intros H; unfold decode_client, encode_client.
  - rewrite length_fields by done.
    pose proof (unpack_all_fields _ _ [] H) as Hu. rewrite app_nil_r in Hu.
    by rewrite Hu.
  - rewrite length_fields by done.
    pose proof (unpack_all_fields _ _ [] H) as Hu. rewrite app_nil_r in Hu.
    by rewrite Hu.
Qed.

#[export] Instance client_codec : Codec client_msg := {
  wf := client_wf; encode := encode_client; decode := decode_client;
  decode_encode := decode_encode_client }.

(** ** Server to client *)

Record entry := mkEntry { e_pid : Z; e_x : Z; e_y : Z; e_seq : Z }.

Inductive server_msg :=
  | Joined (pid room_id : Z)
  | Snapshot (tick : Z) (entries : list entry).

Definition entry_codes : list code := [CI; Ci; Ci; CI].
Definition entry_vals (e : entry) : list Z := [e_pid e; e_x e; e_y e; e_seq e].
Definition entry_wf (e : entry) : Prop := fields_wf entry_codes (entry_vals e).

Definition encode_entry (e : entry) : bytes := fields entry_codes (entry_vals e).

Definition decode_entry (bs : bytes) : option entry :=
  match unpack_all entry_codes bs with
  | [p; x; y; s] => Some (mkEntry p x y s) | _ => None end.

Definition server_wf (m : server_msg) : Prop :=
  match m with
  | Joined p r => fields_wf [CI; CI] [p; r]
  | Snapshot t es =>
      fields_wf [CI; CH] [t; Z.of_nat (length es)] /\ Forall entry_wf es
  end.

Definition encode_server (m : server_msg) : bytes :=
  match m with
  | Joined p r => byte_of_Z MSG_JOINED :: fields [CI; CI] [p; r]
  | Snapshot t es =>
      byte_of_Z MSG_SNAPSHOT :: fields [CI; CH] [t; Z.of_nat (length es)]
        ++ concat (encode_entry <$> es)
  end.

(** Exactly [n] entries of 16 bytes each. *)
Fixpoint decode_entries (n : nat) (bs : bytes) : option (list entry) :=
  match n with
  | O => match bs with [] => Some [] | _ => None end
  | S n' =>
      if decide (16 <= length bs)%nat then
        e ← decode_entry (take 16 bs); es ← decode_entries n' (drop 16 bs); Some (e :: es)
      else None
  end.

Definition decode_server (payload : bytes) : option server_msg :=
  match payload with
  | [] => None
  | t :: body =>
      if Z_of_byte t =? MSG_JOINED then
        if decide (length body = 8%nat) then
          match unpack_all [CI; CI] body with [p; r] => Some (Joined p r) | _ => None end
        else None
      else if Z_of_byte t =? MSG_SNAPSHOT then
        if decide (6 <= length body)%nat then
          match unpack_all [CI; CH] body with
          | [tick; n] => Snapshot tick <$> decode_entries (Z.to_nat n) (drop 6 body)
          | _ => None
          end
        else None
      else None
  end.

Lemma length_encode_entry e : length (encode_entry e) = 16%nat.
Proof. by apply length_fields. Qed.

Lemma decode_encode_entry e : entry_wf e -> decode_entry (encode_entry e) = Some e.
Proof.
  intros H. unfold decode_entry, encode_entry.
  pose proof (unpack_all_fields _ _ [] H) as Hu. rewrite app_nil_r in Hu.
  rewrite Hu. by destruct e.
Qed.

Lemma decode_encode_entries es :
  Forall entry_wf es ->
  decode_entries (length es) (concat (encode_entry <$> es)) = Some es.
Proof.
  induction 1 as [|e es He Hes IH]; [done|]. cbn [length decode_entries fmap list_fmap concat].
  pose proof (length_encode_entry e) as Hl.
  rewrite decide_True by (rewrite length_app; lia).
  rewrite <- Hl, take_app_length, drop_app_length.
  rewrite decode_encode_entry by done. cbn. by rewrite IH.
Qed.

Lemma decode_encode_server m : server_wf m -> decode_server (encode_server m) = Some m.
Proof.
  destruct m as [p r|t es]; cbn [server_wf]; intros H; unfold decode_server, encode_server.
  - pose proof (unpack_all_fields _ _ [] H) as Hu. rewrite app_nil_r in Hu.
    rewrite length_fields, Hu by done. done.
  - destruct H as [H Hes]. rewrite length_app, length_fields by done.
    rewrite unpack_all_fields by done.
    replace (drop 6 _) with (concat (encode_entry <$> es)).
    + rewrite Nat2Z.id, decode_encode_entries by done. done.
    + symmetry. replace 6%nat with (length (fields [CI; CH] [t; Z.of_nat (length es)]))
        by by apply length_fields. apply drop_app_length.
Qed.

#[export] Instance server_codec : Codec server_msg := {
  wf := server_wf; encode := encode_server; decode := decode_server;
  decode_encode := decode_encode_server }.

(** ** Framing *)

Definition frame (payload : bytes) : bytes := be_pack 4 (Z.of_nat (length payload)) ++ payload.

(** The complete frames at the front of a byte stream, as payloads, and the
    bytes that remain; lengths of 0 or above [MAX_FRAME] stop the parse. *)
Fixpoint parse_frames (fuel : nat) (bs : bytes) : list bytes * bytes :=
  match fuel with
  | O => ([], bs)
  | S fuel =>
      let n := be_unpack (take 4 bs) in
      if decide ((4 <= length bs)%nat /\ 0 < n <= MAX_FRAME /\ n <= Z.of_nat (length bs) - 4)
      then let '(ps, rest) := parse_frames fuel (drop (4 + Z.to_nat n) bs) in
           (take (Z.to_nat n) (drop 4 bs) :: ps, rest)
      else ([], bs)
  end.

Lemma parse_frames_frame fuel p bs :
  0 < Z.of_nat (length p) <= MAX_FRAME ->
  parse_frames (S fuel) (frame p ++ bs) =
  let '(ps, rest) := parse_frames fuel bs in (p :: ps, rest).
Proof.
  intros Hp. cbn [parse_frames]. unfold frame. rewrite <- !app_assoc.
  pose proof (length_be_pack 4 (Z.of_nat (length p))) as Hl.
  assert (MAX_FRAME = 1048576) as HM by reflexivity. rewrite HM in *.
  assert (take 4 (be_pack 4 (Z.of_nat (length p)) ++ p ++ bs) = be_pack 4 (Z.of_nat (length p)))
    as -> by (rewrite <- Hl at 1; apply take_app_length).
  rewrite be_unpack_pack. change (2 ^ (8 * Z.of_nat 4)) with 4294967296.
  rewrite Z.mod_small by lia. rewrite Nat2Z.id.
  rewrite decide_True by (rewrite !length_app, Hl; lia).
  assert (drop 4 (be_pack 4 (Z.of_nat (length p)) ++ p ++ bs) = p ++ bs) as Hd
    by (rewrite <- Hl at 1; apply drop_app_length).
  rewrite <- drop_drop, Hd, take_app_length, drop_app_length. done.
Qed.
