(* ===== verification/Room.v ===== *)
(** * Players and rooms (servers/python/server.py, lines 29-104)

    - [new_pid] is the function of that name on the global [_next_pid];
    - [Player] and [Room] are the classes' attributes; [r_conns] maps a player
      id to its [StreamWriter], named by the connection's number; [r_task] is
      the state of the coroutine created by [asyncio.create_task(self.run())];
    - [join], [move], [leave] and [step] are the methods;
    - [run_loop] and [run_wake] are the coroutine [run] between two
      suspensions.

    Python integers are unbounded, so positions are unbounded [Z]; the only
    place where width matters is [struct.pack_into], which raises. *)

From Stdlib Require Import ZArith Lia.
From S2P Require Import Prelude PyDict PyFloat PyStruct Wire.

Open Scope Z_scope.

(** ** Data *)

(** [_next_pid = (_next_pid + 1) & 0xFFFFFFFF; return _next_pid]: the new
    global and the result. *)
Definition new_pid (next_pid : Z) : Z * Z :=
  let next_pid := Z.land (next_pid + 1) 0xFFFFFFFF in
  (next_pid, next_pid).

Record Player := mkPlayer {
  p_id : Z; p_x : Z; p_y : Z; p_vx : Z; p_vy : Z; p_last_seq : Z }.

(** [Player.__init__] *)
Definition Player_init (pid : Z) : Player := mkPlayer pid 0 0 0 0 0.

(** The task of a room: created and not yet run, suspended in
    [asyncio.sleep] with the local [nxt], or ended by an exception. *)
Inductive task :=
  | Pending
  | Sleeping (nxt : float)
  | Dead (e : exn).

Record Room := mkRoom {
  r_id : Z;
  r_tick : float;
  r_tick_no : Z;
  r_players : dict Z Player;
  r_conns : dict Z nat;
  r_task : task }.

(** [Room.__init__] *)
Definition Room_init (room_id : Z) (tick : float) : Room :=
  mkRoom room_id tick 0 [] [] Pending.

Definition set_task (t : task) (r : Room) : Room :=
  mkRoom (r_id r) (r_tick r) (r_tick_no r) (r_players r) (r_conns r) t.

(** ** Methods *)

(** [self.players[pid] = Player(pid); self.conns[pid] = writer] *)
Definition enter (r : Room) (pid : Z) (writer : nat) : Room :=
  mkRoom (r_id r) (r_tick r) (r_tick_no r)
    (dict_set (r_players r) pid (Player_init pid))
    (dict_set (r_conns r) pid writer) (r_task r).

(** [join(writer)]: the new [_next_pid], the room and the returned id. *)
Definition join (next_pid : Z) (r : Room) (writer : nat) : Z * Room * Z :=
  let '(next_pid, pid) := new_pid next_pid in
  (next_pid, enter r pid writer, pid).

Definition set_velocity (seq dx dy : Z) (p : Player) : Player :=
  mkPlayer (p_id p) (p_x p) (p_y p) dx dy seq.

(** [move(pid, seq, dx, dy)]: nothing happens for an unknown [pid]. *)
Definition move (r : Room) (pid seq dx dy : Z) : Room :=
  match dict_get (r_players r) pid with
  | None => r
  | Some p =>
      mkRoom (r_id r) (r_tick r) (r_tick_no r)
        (dict_set (r_players r) pid (set_velocity seq dx dy p)) (r_conns r) (r_task r)
  end.

(** [leave(pid)] *)
Definition leave (r : Room) (pid : Z) : Room :=
  mkRoom (r_id r) (r_tick r) (r_tick_no r)
    (dict_pop (r_players r) pid) (dict_pop (r_conns r) pid) (r_task r).

(** [p.x += p.vx; p.y += p.vy] *)
Definition advance (p : Player) : Player :=
  mkPlayer (p_id p) (p_x p + p_vx p) (p_y p + p_vy p) (p_vx p) (p_vy p) (p_last_seq p).

(** The loop of [pack_into] calls: the entries are written from [off] on, 16
    bytes each. *)
Fixpoint pack_players (ps : list Player) (buf : bytes) (off : nat) : res bytes :=
  match ps with
  | [] => Ok buf
  | p :: ps =>
      buf ← pack_into [CI; Ci; Ci; CI] buf off [p_id p; p_x p; p_y p; p_last_seq p];
      pack_players ps buf (off + 16)
  end.

(** The frame [step] builds: a zeroed buffer filled in place, then the
    length in front. *)
Definition snapshot_frame (tick_no : Z) (players : dict Z Player) : res bytes :=
  let n := length (dict_keys players) in
  let buf := bytearray (7 + n * 16) in
  buf ← set_byte buf 0 MSG_SNAPSHOT;
  buf ← pack_into [CI; CH] buf 1 [tick_no; Z.of_nat n];
  buf ← pack_players (dict_values players) buf 7;
  header ← pack [CI] [Z.of_nat (length buf)];
  Ok (header ++ buf).

(** [step()] up to the broadcast: the tick number and the positions change
    first, so they stay changed when the packing raises. The broadcast of the
    frame to [conns.values()] is [Server.broadcast]. *)
Definition step (r : Room) : Room * res bytes :=
  let r := mkRoom (r_id r) (r_tick r) (Z.land (r_tick_no r + 1) 0xFFFFFFFF)
             (dict_map advance (r_players r)) (r_conns r) (r_task r) in
  (r, snapshot_frame (r_tick_no r) (r_players r)).

(** ** The coroutine [run] *)

(** What a resumption of [run] ends with: suspended in [asyncio.sleep(delay)],
    still running when the given clock readings are used up, or ended by an
    exception of [step]. *)
Inductive run_result :=
  | RSleep (nxt delay : float)
  | RSpin (nxt : float)
  | RDied (e : exn).

(** The [while] loop from its head. [clock] holds the successive values of
    [loop.time()]. The result carries the frames broadcast and the readings
    that were not used. *)
Fixpoint run_loop (r : Room) (nxt : float) (clock : list float)
    : Room * list bytes * run_result * list float :=
  match clock with
  | [] => (r, [], RSpin nxt, [])
  | now :: clock =>
      let nxt := fadd nxt (r_tick r) in
      let delay := fsub nxt now in
      if flt f_zero delay then (r, [], RSleep nxt delay, clock)
      else
        match step r with
        | (r, Raise e) => (r, [], RDied e, clock)
        | (r, Ok fr) =>
            let '(r, frs, o, clock) := run_loop r nxt clock in
            (r, fr :: frs, o, clock)
        end
  end.

(** One resumption of the task: at its start [nxt = loop.time()] is read and
    the loop entered; after a sleep [step()] comes first. A task that has
    ended is not resumed ([None]). *)
Definition run_wake (r : Room) (clock : list float)
    : option (Room * list bytes * run_result * list float) :=
  match r_task r with
  | Pending =>
      match clock with
      | [] => None
      | now :: clock => Some (run_loop r now clock)
      end
  | Sleeping nxt =>
      match step r with
      | (r, Raise e) => Some (r, [], RDied e, clock)
      | (r, Ok fr) =>
          let '(r, frs, o, clock) := run_loop r nxt clock in
          Some (r, fr :: frs, o, clock)
      end
  | Dead _ => None
  end.

#[global] Arguments step : simpl never.
#[global] Arguments move : simpl never.
#[global] Arguments new_pid : simpl never.
#[global] Arguments snapshot_frame : simpl never.
