(* ===== verification/RoomFrames.v ===== *)
(** * The snapshot frame a room builds

    [step] fills a zeroed buffer in place with [pack_into]; here that loop is
    shown to produce the frame of the protocol's reference encoder, byte for
    byte, whenever the message fits the field widths, and to raise
    [struct.error] in every other case. *)

From Stdlib Require Import ZArith Lia.
From S2P Require Import Prelude PyDict PyStruct Wire Room.

Open Scope Z_scope.

Definition entry_of (p : Player) : entry := mkEntry (p_id p) (p_x p) (p_y p) (p_last_seq p).

(** The message a room with these players sends. *)
Definition snapshot_of (tick_no : Z) (players : dict Z Player) : server_msg :=
  Snapshot tick_no (entry_of <$> dict_values players).

(** ** The entries *)

#[export] Instance fields_wf_dec cs vs : Decision (fields_wf cs vs).
Proof. unfold fields_wf. apply _. Defined.

#[export] Instance entry_wf_dec e : Decision (entry_wf e).
Proof. unfold entry_wf. apply _. Defined.

Lemma pack_entry_ok p :
  entry_wf (entry_of p) ->
  pack [CI; Ci; Ci; CI] [p_id p; p_x p; p_y p; p_last_seq p] = Ok (encode_entry (entry_of p)).
Proof. apply (pack_fields entry_codes (entry_vals (entry_of p))). Qed.

Lemma pack_players_cons p ps buf off :
  pack_players (p :: ps) buf off =
  (buf ← pack_into [CI; Ci; Ci; CI] buf off [p_id p; p_x p; p_y p; p_last_seq p];
   pack_players ps buf (off + 16)).
Proof. done. Qed.

(** The loop fills the middle of the buffer with the encoded entries. *)
Lemma pack_players_ok ps pre mid :
  Forall (fun p => entry_wf (entry_of p)) ps ->
  length mid = (16 * length ps)%nat ->
  pack_players ps (pre ++ mid) (length pre) =
  Ok (pre ++ concat (encode_entry <$> (entry_of <$> ps))).
Proof.
  intros Hps. revert pre mid. induction Hps as [|p ps Hp Hps IH]; intros pre mid Hm.
  - destruct mid; [|done]. done.
  - rewrite pack_players_cons. cbn [length] in Hm.
    rewrite <- (take_drop 16 mid).
    rewrite (pack_into_app _ _ _ _ _ (encode_entry (entry_of p)));
      [|by apply pack_entry_ok|rewrite length_take; change (calcsize _) with 16%nat; lia].
    cbn [mbind res_bind]. rewrite app_assoc.
    replace (length pre + 16)%nat with (length (pre ++ encode_entry (entry_of p)))
      by (rewrite length_app, length_encode_entry; lia).
    rewrite IH by (rewrite length_drop; lia).
    by rewrite <- app_assoc.
Qed.

(** One entry out of range, and the loop raises. *)
Lemma pack_players_err ps pre mid :
  ~ Forall (fun p => entry_wf (entry_of p)) ps ->
  length mid = (16 * length ps)%nat ->
  pack_players ps (pre ++ mid) (length pre) = Raise StructError.
Proof.
  revert pre mid. induction ps as [|p ps IH]; intros pre mid Hn Hm; [by destruct Hn|].
  rewrite pack_players_cons. cbn [length] in Hm. rewrite <- (take_drop 16 mid).
  destruct (decide (entry_wf (entry_of p))) as [Hp|Hp].
  - rewrite (pack_into_app _ _ _ _ _ (encode_entry (entry_of p)));
      [|by apply pack_entry_ok|rewrite length_take; change (calcsize _) with 16%nat; lia].
    cbn [mbind res_bind]. rewrite app_assoc.
    replace (length pre + 16)%nat with (length (pre ++ encode_entry (entry_of p)))
      by (rewrite length_app, length_encode_entry; lia).
    apply IH; [|rewrite length_drop; lia]. intros ?. apply Hn. by constructor.
  - rewrite pack_into_err; [done|]. by apply pack_err.
Qed.

(** ** The whole frame *)

Lemma length_values_keys {V} (d : dict Z V) : length (dict_keys d) = length (dict_values d).
Proof. unfold dict_keys, dict_values. by rewrite !length_fmap. Qed.

Lemma set_byte_hd b buf v :
  0 <= v < 256 -> set_byte (b :: buf) 0 v = Ok (byte_of_Z v :: buf).
Proof.
  intros H. unfold set_byte. rewrite decide_True by (cbn; lia).
  by rewrite (proj2 (z_in_range_spec _ _ _) H).
Qed.

Lemma snapshot_header_ok t n mid rest :
  fields_wf [CI; CH] [t; n] -> length mid = 6%nat ->
  pack_into [CI; CH] (byte_of_Z MSG_SNAPSHOT :: mid ++ rest) 1 [t; n] =
  Ok (byte_of_Z MSG_SNAPSHOT :: fields [CI; CH] [t; n] ++ rest).
Proof.
  intros H Hm. apply (pack_into_app [CI; CH] [byte_of_Z MSG_SNAPSHOT] mid rest).
  - by apply pack_fields.
  - done.
Qed.

Lemma bytearray_split n : bytearray (7 + n) = Byte.x00 :: replicate 6 Byte.x00 ++ replicate n Byte.x00.
Proof. unfold bytearray. by rewrite !replicate_add. Qed.

(** The intermediate buffers of [snapshot_frame], once its two headers are
    written. *)
Lemma snapshot_frame_unfold t players :
  fields_wf [CI; CH] [t; Z.of_nat (length (dict_values players))] ->
  let n := length (dict_values players) in
  let pre := byte_of_Z MSG_SNAPSHOT :: fields [CI; CH] [t; Z.of_nat n] in
  snapshot_frame t players =
  (buf ← pack_players (dict_values players) (pre ++ replicate (n * 16) Byte.x00) (length pre);
   header ← pack [CI] [Z.of_nat (length buf)]; Ok (header ++ buf)).
Proof.
  intros H n pre. unfold snapshot_frame. rewrite length_values_keys. fold n.
  rewrite bytearray_split, set_byte_hd by done. cbn [mbind res_bind].
  rewrite snapshot_header_ok by done. cbn [mbind res_bind].
  assert (length pre = 7%nat) as -> by (unfold pre; cbn [length]; by rewrite length_fields).
  done.
Qed.

Lemma server_wf_snapshot t players :
  wf (snapshot_of t players) <->
  fields_wf [CI; CH] [t; Z.of_nat (length (dict_values players))] /\
  Forall (fun p => entry_wf (entry_of p)) (dict_values players).
Proof.
  cbn [wf server_codec server_wf snapshot_of]. rewrite length_fmap.
  by rewrite Forall_fmap.
Qed.

Lemma length_encode_snapshot t players :
  length (encode (snapshot_of t players)) = (7 + 16 * length (dict_values players))%nat.
Proof.
  cbn [encode server_codec encode_server snapshot_of length].
  rewrite length_app, length_fields by done.
  assert (forall es, length (concat (encode_entry <$> es)) = (16 * length es)%nat) as ->.
  { induction es as [|e es IH]; [done|].
    cbn [fmap list_fmap concat length] in *. rewrite length_app, length_encode_entry, IH. lia. }
  rewrite length_fmap. cbn. lia.
Qed.

Lemma snapshot_frame_ok t players :
  wf (snapshot_of t players) ->
  snapshot_frame t players = Ok (frame (encode (snapshot_of t players))).
Proof.
  intros Hwf. pose proof (length_encode_snapshot t players) as Hlen.
  apply server_wf_snapshot in Hwf as [Hh Hes].
  rewrite snapshot_frame_unfold by done. cbv zeta.
  rewrite pack_players_ok; [|done|by rewrite length_replicate, Nat.mul_comm].
  cbn [mbind res_bind].
  replace (byte_of_Z MSG_SNAPSHOT :: fields [CI; CH] [t; Z.of_nat (length (dict_values players))])
    with (byte_of_Z MSG_SNAPSHOT ::
          fields [CI; CH] [t; Z.of_nat (length (entry_of <$> dict_values players))])
    by by rewrite length_fmap.
  match goal with |- context [pack [CI] [Z.of_nat (length ?b)]] =>
    change b with (encode (snapshot_of t players)) end.
  rewrite Hlen. inversion Hh as [|? ? ? ? _ Hn]; subst. inversion Hn as [|? ? ? ? Hn' _]; subst.
  apply fits_spec in Hn'. cbn [code_min code_max] in Hn'.
  rewrite pack_fields.
  - cbn [mbind res_bind]. unfold frame. by rewrite Hlen.
  - constructor; [|constructor]. apply fits_spec. cbn [code_min code_max]. lia.
Qed.

Lemma snapshot_frame_err t players :
  ~ wf (snapshot_of t players) -> snapshot_frame t players = Raise StructError.
Proof.
  intros Hwf.
  destruct (decide (fields_wf [CI; CH] [t; Z.of_nat (length (dict_values players))])) as [Hh|Hh].
  - rewrite snapshot_frame_unfold by done. cbv zeta.
    rewrite pack_players_err; [done| |by rewrite length_replicate, Nat.mul_comm].
    intros Hes. apply Hwf. by apply server_wf_snapshot.
  - unfold snapshot_frame. rewrite length_values_keys, bytearray_split, set_byte_hd by done.
    cbn [mbind res_bind]. by rewrite pack_into_err; [|apply pack_err].
Qed.

#[export] Instance snapshot_wf_dec t players : Decision (wf (snapshot_of t players)).
Proof.
  destruct (decide (fields_wf [CI; CH] [t; Z.of_nat (length (dict_values players))] /\
    Forall (fun p => entry_wf (entry_of p)) (dict_values players))) as [H|H].
  - left. by apply server_wf_snapshot.
  - right. by intros ?%server_wf_snapshot.
Defined.
