(* ===== verification/RoomSpec.v ===== *)
(** * What a room promises: the simulation of PROTOCOL.md

    "A room owns its players' state.  On MOVE: set vx, vy and last_seq.  On
    each tick: for every player x += vx; y += vy."  [game] is that
    specification as a finite map; [RoomModel] is the interface an
    implementation offers its clients: a view of its state as such a map, and
    one law per operation.  The lemmas of the section hold for every
    implementation of the interface. *)

From Stdlib Require Import ZArith Lia.
From stdpp Require Import gmap.
From S2P Require Import Prelude.

Open Scope Z_scope.

(** ** The abstract simulation *)

Record avatar := mkAvatar { a_x : Z; a_y : Z; a_vx : Z; a_vy : Z; a_seq : Z }.

Definition avatar_init : avatar := mkAvatar 0 0 0 0 0.

Definition avatar_steer (seq dx dy : Z) (a : avatar) : avatar :=
  mkAvatar (a_x a) (a_y a) dx dy seq.

Definition avatar_advance (a : avatar) : avatar :=
  mkAvatar (a_x a + a_vx a) (a_y a + a_vy a) (a_vx a) (a_vy a) (a_seq a).

Notation game := (gmap Z avatar).

Definition game_join (pid : Z) (g : game) : game := <[pid := avatar_init]> g.
Definition game_move (pid seq dx dy : Z) (g : game) : game := alter (avatar_steer seq dx dy) pid g.
Definition game_leave (pid : Z) (g : game) : game := delete pid g.
Definition game_tick (g : game) : game := avatar_advance <$> g.

(** ** The interface *)

Class RoomModel (R : Type) := {
  rm_view : R -> game;
  rm_join : Z -> nat -> R -> R;
  rm_move : Z -> Z -> Z -> Z -> R -> R;
  rm_leave : Z -> R -> R;
  rm_tick : R -> R;
  rm_join_view pid w r : rm_view (rm_join pid w r) = game_join pid (rm_view r);
  rm_move_view pid seq dx dy r :
    rm_view (rm_move pid seq dx dy r) = game_move pid seq dx dy (rm_view r);
  rm_leave_view pid r : rm_view (rm_leave pid r) = game_leave pid (rm_view r);
  rm_tick_view r : rm_view (rm_tick r) = game_tick (rm_view r);
}.

(** What can happen to a room, and the two interpretations. *)
Inductive room_op :=
  | OpJoin (pid : Z) (writer : nat)
  | OpMove (pid seq dx dy : Z)
  | OpLeave (pid : Z)
  | OpTick.

Definition game_op (g : game) (o : room_op) : game :=
  match o with
  | OpJoin pid _ => game_join pid g
  | OpMove pid seq dx dy => game_move pid seq dx dy g
  | OpLeave pid => game_leave pid g
  | OpTick => game_tick g
  end.

Definition rm_op `{RoomModel R} (r : R) (o : room_op) : R :=
  match o with
  | OpJoin pid w => rm_join pid w r
  | OpMove pid seq dx dy => rm_move pid seq dx dy r
  | OpLeave pid => rm_leave pid r
  | OpTick => rm_tick r
  end.

(** ** Consequences, for every implementation *)

Section Clients.
Context `{RoomModel R}.
Implicit Types r : R.

Lemma rm_op_view r o : rm_view (rm_op r o) = game_op (rm_view r) o.
Proof.
  destruct o; cbn; [apply rm_join_view|apply rm_move_view|apply rm_leave_view|apply rm_tick_view].
Qed.

(** A sequence of operations is simulated by the same sequence on the
    abstract game. *)
Lemma rm_ops_view r ops : rm_view (foldl rm_op r ops) = foldl game_op (rm_view r) ops.
Proof.
  revert r. induction ops as [|o ops IH]; intros r; [done|]. cbn.
  by rewrite IH, rm_op_view.
Qed.

(** MOVEs of two players commute. *)
Lemma rm_move_comm r p1 s1 x1 y1 p2 s2 x2 y2 :
  p1 <> p2 ->
  rm_view (rm_move p1 s1 x1 y1 (rm_move p2 s2 x2 y2 r)) =
  rm_view (rm_move p2 s2 x2 y2 (rm_move p1 s1 x1 y1 r)).
Proof. intros ?. rewrite !rm_move_view. unfold game_move. by apply alter_alter_ne. Qed.

(** Only the last MOVE of a player before a tick counts. *)
Lemma rm_move_last r pid s1 x1 y1 s2 x2 y2 :
  rm_view (rm_move pid s2 x2 y2 (rm_move pid s1 x1 y1 r)) =
  rm_view (rm_move pid s2 x2 y2 r).
Proof.
  rewrite !rm_move_view. unfold game_move. by rewrite alter_alter_eq.
Qed.

(** Joining and leaving again leaves no trace. *)
Lemma rm_join_leave r pid w :
  rm_view r !! pid = None -> rm_view (rm_leave pid (rm_join pid w r)) = rm_view r.
Proof.
  intros Hn. rewrite rm_leave_view, rm_join_view. unfold game_leave, game_join.
  by rewrite delete_insert_id.
Qed.
End Clients.

(** [k] ticks without any other operation. *)
Lemma game_ticks_lookup (k : nat) g pid :
  Nat.iter k game_tick g !! pid =
  (fun a => mkAvatar (a_x a + Z.of_nat k * a_vx a) (a_y a + Z.of_nat k * a_vy a)
              (a_vx a) (a_vy a) (a_seq a)) <$> g !! pid.
Proof.
  induction k as [|k IH].
  - cbn. destruct (g !! pid) as [[x y vx vy s]|]; [|done]. cbn. do 2 f_equal; lia.
  - rewrite Nat.iter_succ. unfold game_tick at 1. rewrite lookup_fmap, IH.
    destruct (g !! pid) as [[x y vx vy s]|]; [|done]. cbn -[Z.of_nat].
    unfold avatar_advance. cbn [a_x a_y a_vx a_vy a_seq]. do 2 f_equal; lia.
Qed.
