(* ===== verification/RoomProps.v ===== *)
(** * Rooms: invariant, refinement, bounds

    [room_wf] is the invariant of a room: players and connections have the
    same ids in the same order, every player is filed under its own id, and
    every field a message set is within its width.  [Room_model] shows that
    the methods of [Room] implement the interface of RoomSpec. *)

From Stdlib Require Import ZArith Lia.
From stdpp Require Import gmap.
From S2P Require Import Prelude PyDict PyFloat PyStruct Wire Room.
From S2P Require Import RoomFrames RoomSpec.

Open Scope Z_scope.

(** ** Masks *)

Lemma mask32_mod z : Z.land z 0xFFFFFFFF = z mod 2 ^ 32.
Proof. change 0xFFFFFFFF with (Z.ones 32). by apply Z.land_ones. Qed.

Lemma mask32_fits z : fits CI (Z.land z 0xFFFFFFFF) = true.
Proof. rewrite mask32_mod. apply fits_spec. apply Z.mod_pos_bound. done. Qed.

#[export] Hint Resolve mask32_fits : bench.

(** ** The invariant *)

Record player_ok (k : Z) (p : Player) : Prop := {
  po_id : p_id p = k;
  po_pid : fits CI (p_id p) = true;
  po_vx : fits Ch (p_vx p) = true;
  po_vy : fits Ch (p_vy p) = true;
  po_seq : fits CI (p_last_seq p) = true }.

Record room_wf (r : Room) : Prop := {
  rw_keys : dict_keys (r_players r) = dict_keys (r_conns r);
  rw_nodup : NoDup (dict_keys (r_players r));
  rw_players k p : (k, p) ∈ r_players r -> player_ok k p;
  rw_tick_no : fits CI (r_tick_no r) = true }.

(** What [struct.unpack_from] guarantees of a MOVE's arguments. *)
Definition move_args_ok (seq dx dy : Z) : Prop := fields_wf [CI; Ch; Ch] [seq; dx; dy].

Lemma move_args_inv seq dx dy :
  move_args_ok seq dx dy -> fits CI seq = true /\ fits Ch dx = true /\ fits Ch dy = true.
Proof.
  intros H. inversion H as [|? ? ? ? H1 H']; subst. inversion H' as [|? ? ? ? H2 H'']; subst.
  by inversion H''; subst.
Qed.

Lemma room_wf_init id tick : room_wf (Room_init id tick).
Proof. split; cbn; [done|apply NoDup_nil_2|by intros ? ? ?%not_elem_of_nil|done]. Qed.

Lemma room_wf_set_task t r : room_wf r -> room_wf (set_task t r).
Proof. by intros []. Qed.

Lemma room_wf_enter r pid w : room_wf r -> fits CI pid = true -> room_wf (enter r pid w).
Proof.
  intros [Hk Hnd Hp Ht] Hpid.
  split; cbn; [by rewrite !dict_keys_set, Hk|by apply dict_set_NoDup| |done].
  intros k p [[-> ->]|?]%dict_set_elem; [|by apply Hp]. by split.
Qed.

Lemma room_wf_join g r w g' r' pid : room_wf r -> join g r w = (g', r', pid) -> room_wf r'.
Proof.
  unfold join, new_pid. intros ? [= <- <- <-]. apply room_wf_enter; [done|apply mask32_fits].
Qed.

Lemma room_wf_move r pid seq dx dy :
  room_wf r -> move_args_ok seq dx dy -> room_wf (move r pid seq dx dy).
Proof.
  intros Hwf (Hs & Hdx & Hdy)%move_args_inv. unfold move.
  destruct (dict_get (r_players r) pid) as [p0|] eqn:E; [|done].
  destruct Hwf as [Hk Hnd Hp Ht]. pose proof (Hp _ _ (dict_get_Some_elem _ _ _ E)) as [].
  split; cbn; [|by apply dict_set_NoDup| |done].
  - rewrite dict_keys_set_old; [done|]. apply dict_get_keys. by rewrite E.
  - intros k p [[-> ->]|?]%dict_set_elem; [done|by apply Hp].
Qed.

Lemma room_wf_leave r pid : room_wf r -> room_wf (leave r pid).
Proof.
  intros [Hk Hnd Hp Ht]. split; cbn; [by rewrite !dict_keys_pop, Hk|by apply dict_pop_NoDup| |done].
  intros k p [_ ?]%dict_pop_elem. by apply Hp.
Qed.

Lemma elem_of_dict_map {V W} (f : V -> W) (d : dict Z V) k w :
  (k, w) ∈ dict_map f d -> exists v, w = f v /\ (k, v) ∈ d.
Proof.
  unfold dict_map. intros ([k' v] & Heq & Hin)%list_elem_of_fmap.
  cbn in Heq. simplify_eq. eauto.
Qed.

Lemma room_wf_step r r' o : room_wf r -> step r = (r', o) -> room_wf r'.
Proof.
  intros [Hk Hnd Hp Ht]. unfold step. intros [= <- _].
  split; cbn; [by rewrite dict_keys_map|by rewrite dict_keys_map| |apply mask32_fits].
  intros k p (p0 & -> & Hin)%elem_of_dict_map. by destruct (Hp _ _ Hin).
Qed.

Lemma room_wf_step1 r : room_wf r -> room_wf (step r).1.
Proof. intros H. by eapply room_wf_step, surjective_pairing. Qed.

#[export] Hint Resolve room_wf_step1 room_wf_init room_wf_set_task room_wf_join room_wf_move
  room_wf_leave room_wf_step : bench.

(** ** The interface of RoomSpec *)

Definition avatar_of (p : Player) : avatar :=
  mkAvatar (p_x p) (p_y p) (p_vx p) (p_vy p) (p_last_seq p).

Definition view (r : Room) : game := avatar_of <$> list_to_map (r_players r).

Lemma lookup_list_to_map_dict {V} (d : dict Z V) k :
  (list_to_map d : gmap Z V) !! k = dict_get d k.
Proof.
  induction d as [|[k' v] d IH]; cbn; [apply lookup_empty|].
  rewrite lookup_insert, IH. by repeat case_decide.
Qed.

Lemma lookup_view r k : view r !! k = avatar_of <$> dict_get (r_players r) k.
Proof. unfold view. by rewrite lookup_fmap, lookup_list_to_map_dict. Qed.

Lemma view_enter r pid w : view (enter r pid w) = game_join pid (view r).
Proof.
  apply map_eq. intros k. unfold game_join. rewrite lookup_view. cbn.
  rewrite dict_get_set, lookup_insert, lookup_view. by repeat case_decide.
Qed.

Lemma view_move r pid seq dx dy :
  view (move r pid seq dx dy) = game_move pid seq dx dy (view r).
Proof.
  apply map_eq. intros k. unfold game_move. rewrite lookup_alter, !lookup_view. unfold move.
  destruct (dict_get (r_players r) pid) as [p|] eqn:E; cbn.
  - rewrite dict_get_set. destruct (decide (pid = k)); subst; by rewrite ?E.
  - destruct (decide (pid = k)); subst; by rewrite ?E.
Qed.

Lemma view_leave r pid : view (leave r pid) = game_leave pid (view r).
Proof.
  apply map_eq. intros k. unfold game_leave.
  rewrite lookup_delete, !lookup_view. cbn. rewrite dict_get_pop. by repeat case_decide.
Qed.

Lemma view_step r r' o : step r = (r', o) -> view r' = game_tick (view r).
Proof.
  unfold step. intros [= <- _]. apply map_eq. intros k.
  unfold game_tick. rewrite lookup_fmap, !lookup_view. cbn. rewrite dict_get_map.
  by destruct (dict_get (r_players r) k).
Qed.

#[export] Instance Room_model : RoomModel Room := {
  rm_view := view;
  rm_join pid w r := enter r pid w;
  rm_move pid seq dx dy r := move r pid seq dx dy;
  rm_leave pid r := leave r pid;
  rm_tick r := (step r).1;
  rm_join_view pid w r := view_enter r pid w;
  rm_move_view pid seq dx dy r := view_move r pid seq dx dy;
  rm_leave_view pid r := view_leave r pid;
  rm_tick_view r := view_step r _ _ (surjective_pairing (step r));
}.
