(* ===== verification/RoomThms.v ===== *)
(** * Rooms: what a tick does, how long a room lives

    The theorems on [Room.step]: the broadcast frame, its decoding by a
    client, the exact condition under which it raises, and the two bounds that
    follow (a room survives its first 65536 ticks; a room with a player who
    keeps moving dies). *)

From Stdlib Require Import ZArith Lia.
From stdpp Require Import gmap.
From S2P Require Import Prelude PyDict PyFloat PyStruct Wire Room.
From S2P Require Import RoomFrames RoomSpec RoomProps.

Open Scope Z_scope.

(** ** The outcome of one tick *)

Lemma step_eq r :
  step r = (mkRoom (r_id r) (r_tick r) ((r_tick_no r + 1) mod 2 ^ 32)
              (dict_map advance (r_players r)) (r_conns r) (r_task r),
            snapshot_frame ((r_tick_no r + 1) mod 2 ^ 32) (dict_map advance (r_players r))).
Proof. unfold step. by rewrite mask32_mod. Qed.

Lemma snapshot_frame_dec t players :
  snapshot_frame t players =
  if decide (wf (snapshot_of t players)) then Ok (frame (encode (snapshot_of t players)))
  else Raise StructError.
Proof. case_decide; [by apply snapshot_frame_ok|by apply snapshot_frame_err]. Qed.

(** In a well-formed room only the number of players and the positions can
    be out of range. *)
Lemma snapshot_wf_room r :
  room_wf r ->
  wf (snapshot_of (r_tick_no r) (r_players r)) <->
  Z.of_nat (length (r_players r)) < 2 ^ 16 /\
  (forall pid p, dict_get (r_players r) pid = Some p ->
     fits Ci (p_x p) = true /\ fits Ci (p_y p) = true).
Proof.
  intros [Hk Hnd Hp Ht]. rewrite server_wf_snapshot, <- length_values_keys.
  unfold dict_keys at 1. rewrite length_fmap. split.
  - intros [Hh Hes]. split.
    + inversion Hh as [|? ? ? ? _ Hn]; subst. inversion Hn as [|? ? ? ? Hn' _]; subst.
      apply fits_spec in Hn'. cbn in Hn'. lia.
    + intros pid p Hget%dict_get_Some_elem. rewrite Forall_forall in Hes.
      assert (entry_wf (entry_of p)) as He
        by (apply Hes; unfold dict_values; by apply (list_elem_of_fmap_2 snd _ (pid, p))).
      inversion He as [|? ? ? ? _ He1]; subst. inversion He1 as [|? ? ? ? Hx He2]; subst.
      by inversion He2; subst.
  - intros [Hn Hpos]. split.
    + constructor; [done|]. constructor; [|constructor]. apply fits_spec; cbn; lia.
    + apply Forall_forall. intros p Hin. unfold dict_values in Hin.
      apply list_elem_of_fmap in Hin as ([k p'] & -> & Hin). cbn [snd].
      destruct (Hp _ _ Hin) as [_ Hid _ _ Hseq].
      destruct (Hpos k p') as [Hx Hy]; [by apply dict_elem_get|].
      unfold entry_wf, fields_wf. cbn. by repeat (constructor; [done|]).
Qed.

(** ** [k] ticks in a row *)

Definition ticks (k : nat) (r : Room) : Room := Nat.iter k (fun r => (step r).1) r.

Lemma ticks_succ k r : ticks (S k) r = (step (ticks k r)).1.
Proof. done. Qed.

Lemma ticks_view k r : view (ticks k r) = Nat.iter k game_tick (view r).
Proof.
  induction k as [|k IH]; [done|]. rewrite ticks_succ, Nat.iter_succ, <- IH.
  by eapply view_step, surjective_pairing.
Qed.

Lemma ticks_wf k r : room_wf r -> room_wf (ticks k r).
Proof.
  intros H. induction k as [|k IH]; [done|]. rewrite ticks_succ.
  by apply room_wf_step1.
Qed.

Lemma ticks_length k r : length (r_players (ticks k r)) = length (r_players r).
Proof.
  induction k as [|k IH]; [done|]. rewrite ticks_succ, step_eq. cbn.
  unfold dict_map. by rewrite length_fmap.
Qed.

Lemma step_is_ok r :
  room_wf r ->
  is_ok (step r).2 = true <->
  Z.of_nat (length (r_players r)) < 2 ^ 16 /\
  (forall pid p, dict_get (r_players r) pid = Some p ->
     fits Ci (p_x p + p_vx p) = true /\ fits Ci (p_y p + p_vy p) = true).
Proof.
  intros Hwf. assert (room_wf (step r).1) as Hwf' by (by apply room_wf_step1).
  pose proof (snapshot_wf_room _ Hwf') as Hiff. rewrite step_eq in *. cbn [fst snd r_tick_no r_players] in *. rewrite snapshot_frame_dec.
  unfold dict_map in Hiff at 2. rewrite length_fmap in Hiff.
  transitivity (wf (snapshot_of ((r_tick_no r + 1) mod 2 ^ 32) (dict_map advance (r_players r)))).
  { case_decide; split; done. }
  rewrite Hiff. apply and_iff_compat_l. split.
  - intros H pid p Hp. apply (H pid (advance p)). by rewrite dict_get_map, Hp.
  - intros H pid p Hp. rewrite dict_get_map in Hp.
    destruct (dict_get (r_players r) pid) as [p0|] eqn:E; [|done].
    injection Hp as <-. by apply (H pid).
Qed.

Lemma step_not_ok r : is_ok (step r).2 = false -> (step r).2 = Raise StructError.
Proof. rewrite step_eq. cbn [snd]. rewrite snapshot_frame_dec. by case_decide. Qed.

Lemma ticks_get k r pid p :
  dict_get (r_players r) pid = Some p ->
  exists p', dict_get (r_players (ticks k r)) pid = Some p' /\
    p_x p' = p_x p + Z.of_nat k * p_vx p /\ p_y p' = p_y p + Z.of_nat k * p_vy p /\
    p_vx p' = p_vx p /\ p_vy p' = p_vy p.
Proof.
  intros Hp. pose proof (lookup_view (ticks k r) pid) as H1.
  rewrite ticks_view, game_ticks_lookup, lookup_view, Hp in H1. cbn -[Z.of_nat] in H1.
  destruct (dict_get (r_players (ticks k r)) pid) as [p'|]; [|done].
  cbn in H1. injection H1 as Hx Hy Hvx Hvy _. by exists p'.
Qed.

Lemma ticks_get_inv k r pid p' :
  dict_get (r_players (ticks k r)) pid = Some p' ->
  exists p, dict_get (r_players r) pid = Some p.
Proof.
  intros Hp. pose proof (lookup_view (ticks k r) pid) as H1.
  rewrite ticks_view, game_ticks_lookup, lookup_view, Hp in H1.
  destruct (dict_get (r_players r) pid); [eauto|done].
Qed.

(** ** Sequences of operations *)

(** The room after the operations, and the outcomes of the ticks. *)
Definition room_op_out (r : Room) (o : room_op) : Room * list (res bytes) :=
  (rm_op r o, match o with OpTick => [(step r).2] | _ => [] end).

Fixpoint room_run (r : Room) (ops : list room_op) : Room * list (res bytes) :=
  match ops with
  | [] => (r, [])
  | o :: ops =>
      let '(r, out) := room_op_out r o in
      let '(r, outs) := room_run r ops in (r, out ++ outs)
  end.

(** Arguments within the widths of the wire format. *)
Definition room_op_ok (o : room_op) : Prop :=
  match o with
  | OpJoin pid _ => fits CI pid = true
  | OpMove _ seq dx dy => move_args_ok seq dx dy
  | _ => True
  end.

Definition is_tick (o : room_op) : Z := match o with OpTick => 1 | _ => 0 end.
Definition is_join (o : room_op) : Z := match o with OpJoin _ _ => 1 | _ => 0 end.

(** After [t] ticks and [n] joins. *)
Record room_age (t n : Z) (r : Room) : Prop := {
  ra_wf : room_wf r;
  ra_size : Z.of_nat (length (r_players r)) <= n;
  ra_pos pid p : dict_get (r_players r) pid = Some p ->
    - 2 ^ 15 * t <= p_x p <= (2 ^ 15 - 1) * t /\ - 2 ^ 15 * t <= p_y p <= (2 ^ 15 - 1) * t }.

Lemma dict_set_length {V} (d : dict Z V) k v : (length (dict_set d k v) <= S (length d))%nat.
Proof. induction d as [|[k' v'] d IH]; cbn; [done|]. case_decide; cbn; lia. Qed.

Lemma dict_set_length_old {V} (d : dict Z V) k v :
  is_Some (dict_get d k) -> length (dict_set d k v) = length d.
Proof.
  intros H%dict_get_keys. pose proof (dict_keys_set_old d k v H) as Heq.
  unfold dict_keys in Heq. by rewrite <- (length_fmap fst), Heq, length_fmap.
Qed.

Lemma player_velocity r pid p :
  room_wf r -> dict_get (r_players r) pid = Some p ->
  - 2 ^ 15 <= p_vx p < 2 ^ 15 /\ - 2 ^ 15 <= p_vy p < 2 ^ 15.
Proof.
  intros Hwf Hp%dict_get_Some_elem. destruct (rw_players _ Hwf _ _ Hp) as [_ _ Hx Hy _].
  apply fits_spec in Hx, Hy. cbn in Hx, Hy. lia.
Qed.

Lemma room_age_op t n r o :
  0 <= t -> room_op_ok o -> room_age t n r -> room_age (t + is_tick o) (n + is_join o) (rm_op r o).
Proof.
  intros Ht Ho [Hwf Hn Hpos]. destruct o as [pid w|pid seq dx dy|pid|]; cbn in *;
    rewrite ?Z.add_0_r.
  - split; [by apply room_wf_enter|cbn; pose proof (dict_set_length (r_players r) pid
      (Player_init pid)); lia|].
    intros k p. cbn. rewrite dict_get_set. case_decide; [|apply Hpos].
    intros [= <-]. cbn. lia.
  - split; [by apply room_wf_move|..]; unfold move;
      destruct (dict_get (r_players r) pid) as [p0|] eqn:E; cbn; try done.
    + by rewrite dict_set_length_old by eauto.
    + intros k p. rewrite dict_get_set. case_decide as Hk; [|apply Hpos].
      intros [= <-]. cbn. by apply (Hpos pid).
  - split; [by apply room_wf_leave|..]; cbn.
    + pose proof (length_filter (fun kv : Z * Player => kv.1 <> pid) (r_players r)).
      unfold dict_pop. lia.
    + intros k p. rewrite dict_get_pop. case_decide; [done|apply Hpos].
  - split; [by apply room_wf_step1|..]; rewrite step_eq; cbn.
    + unfold dict_map. rewrite length_fmap. lia.
    + intros k p. rewrite dict_get_map.
      destruct (dict_get (r_players r) k) as [p0|] eqn:E; [|done]. intros [= <-].
      pose proof (player_velocity _ _ _ Hwf E). pose proof (Hpos _ _ E). cbn. lia.
Qed.

Lemma room_age_tick t n r :
  room_age t n r -> 0 <= t < 2 ^ 16 -> n < 2 ^ 16 -> is_ok (step r).2 = true.
Proof.
  intros [Hwf Hn Hpos] Ht Hm. apply step_is_ok; [done|]. split; [lia|].
  intros pid p Hp. pose proof (player_velocity _ _ _ Hwf Hp). pose proof (Hpos _ _ Hp).
  split; apply fits_spec; cbn; lia.
Qed.

Lemma room_age_run t n r ops :
  0 <= t -> Forall room_op_ok ops -> room_age t n r ->
  t + zsum (is_tick <$> ops) <= 2 ^ 16 -> n + zsum (is_join <$> ops) < 2 ^ 16 ->
  Forall (fun o => is_ok o = true) (room_run r ops).2.
Proof.
  intros Ht Hops. revert t n r Ht. induction Hops as [|o ops Ho Hops IH]; intros t n r Ht Hage Ht' Hn.
  - cbn. constructor.
  - cbn [fmap list_fmap zsum foldr] in Ht', Hn. fold (zsum (is_tick <$> ops)) in Ht'.
    fold (zsum (is_join <$> ops)) in Hn.
    assert (forall f : room_op -> Z, (forall o, 0 <= f o) -> 0 <= zsum (f <$> ops)) as Hpos.
    { intros f Hf. clear -Hf. induction ops as [|o ops IH]; cbn; [done|].
      specialize (Hf o). fold (zsum (f <$> ops)). lia. }
    pose proof (Hpos is_tick ltac:(by intros [])). pose proof (Hpos is_join ltac:(by intros [])).
    pose proof (room_age_op t n r o Ht Ho Hage) as Hage'.
    specialize (IH (t + is_tick o) (n + is_join o) (rm_op r o)). cbn [room_run room_op_out].
    destruct (room_run (rm_op r o) ops) as [r' outs]. cbn [snd] in IH |- *.
    assert (0 <= is_tick o <= 1 /\ 0 <= is_join o <= 1) by (destruct o; cbn; lia).
    apply Forall_app. split; [|apply IH; try done; lia].
    destruct o; constructor; [|done]. eapply room_age_tick; [done|cbn in *; lia|cbn in *; lia].
Qed.

Lemma room_age_init id tick : room_age 0 0 (Room_init id tick).
Proof. split; [apply room_wf_init|done|done]. Qed.

(** ** The theorems *)

(** A client's view of one player: the entry of the snapshot. *)
Definition entry_at (pid : Z) (a : avatar) : entry := mkEntry pid (a_x a) (a_y a) (a_seq a).

Lemma snapshot_entries r e :
  room_wf r ->
  e ∈ entry_of <$> dict_values (r_players r) <->
  exists pid a, view r !! pid = Some a /\ e = entry_at pid a.
Proof.
  intros [Hk Hnd Hp Ht]. split.
  - intros (p & -> & Hin)%list_elem_of_fmap. unfold dict_values in Hin.
    apply list_elem_of_fmap in Hin as ([k p'] & -> & Hin). cbn [snd].
    exists k, (avatar_of p'). rewrite lookup_view, (dict_elem_get _ _ _ Hnd Hin).
    split; [done|]. unfold entry_of, entry_at. by rewrite (po_id _ _ (Hp _ _ Hin)).
  - intros (pid & a & Hv & ->). rewrite lookup_view in Hv.
    destruct (dict_get (r_players r) pid) as [p|] eqn:E; [|done]. injection Hv as <-.
    apply dict_get_Some_elem in E. apply list_elem_of_fmap. exists p. split.
    + unfold entry_of, entry_at. by rewrite (po_id _ _ (Hp _ _ E)).
    + by apply (list_elem_of_fmap_2 snd _ (pid, p)).
Qed.

Lemma snapshot_pids r :
  room_wf r -> e_pid <$> (entry_of <$> dict_values (r_players r)) = dict_keys (r_players r).
Proof.
  intros [_ _ Hp _]. unfold dict_values, dict_keys. rewrite <- !list_fmap_compose.
  apply list_fmap_ext. intros i [k p] Hi%list_elem_of_lookup_2. cbn. by apply po_id, Hp.
Qed.

(** C2: [step] builds, in place, exactly the frame of the protocol's reference
    encoder for the message (new tick number, players after the move), and
    raises [struct.error] exactly when that message does not fit the field
    widths; there is no third outcome. *)
Theorem step_frame r :
  let r' := (step r).1 in
  r_tick_no r' = (r_tick_no r + 1) mod 2 ^ 32 /\
  r_players r' = dict_map advance (r_players r) /\
  r_conns r' = r_conns r /\
  (step r).2 =
    if decide (wf (snapshot_of (r_tick_no r') (r_players r')))
    then Ok (frame (encode (snapshot_of (r_tick_no r') (r_players r'))))
    else Raise StructError.
Proof. rewrite step_eq. cbn [fst snd r_tick_no r_players r_conns]. by rewrite snapshot_frame_dec. Qed.

(** C1: a tick that broadcasts sends one frame; the protocol's decoder reads
    back from it the new tick number and an entry list in which every player of
    the simulated game after the tick occurs exactly once, with its position
    and the sequence number of its last MOVE. *)
Theorem step_refines_protocol r fr :
  room_wf r -> (step r).2 = Ok fr ->
  exists payload es,
    fr = frame payload /\
    decode payload = Some (Snapshot ((r_tick_no r + 1) mod 2 ^ 32) es) /\
    NoDup (e_pid <$> es) /\
    forall e, e ∈ es <-> exists pid a, game_tick (view r) !! pid = Some a /\ e = entry_at pid a.
Proof.
  intros Hwf Hfr. pose proof (room_wf_step1 r Hwf) as Hwf'.
  pose proof (view_step r _ _ (surjective_pairing (step r))) as Hview.
  pose proof (step_eq r) as Heq. rewrite Heq in Hfr. cbn [snd] in Hfr.
  rewrite snapshot_frame_dec in Hfr. case_decide as Hok; [|done]. injection Hfr as <-.
  eexists _, (entry_of <$> dict_values (r_players (step r).1)).
  rewrite decode_encode by done. rewrite <- Hview. split_and!; [done| | |].
  - by rewrite Heq.
  - rewrite snapshot_pids by done. apply rw_nodup, Hwf'.
  - intros e. by apply snapshot_entries.
Qed.

(** C3: refinement of PROTOCOL.md: any sequence of [join], [move], [leave] and
    [step] on a room is simulated, player by player, by the same sequence on
    the abstract game. *)
Theorem room_refines_game r ops : view (room_run r ops).1 = foldl game_op (view r) ops.
Proof.
  assert (forall r, (room_run r ops).1 = foldl rm_op r ops) as ->.
  { induction ops as [|o ops IH]; intros r0; [done|]. cbn [room_run room_op_out foldl].
    specialize (IH (rm_op r0 o)). destruct (room_run (rm_op r0 o) ops). done. }
  exact (@rm_ops_view Room Room_model r ops).
Qed.

(** The (k+1)-th of a run of ticks broadcasts when there are fewer than 65536
    players and every coordinate, advanced k+1 times, is still 32-bit. *)
Lemma tick_in_range r k :
  room_wf r ->
  is_ok (step (ticks k r)).2 = true <->
  Z.of_nat (length (r_players r)) < 2 ^ 16 /\
  (forall pid p, dict_get (r_players r) pid = Some p ->
     - 2 ^ 31 <= p_x p + Z.of_nat (S k) * p_vx p < 2 ^ 31 /\
     - 2 ^ 31 <= p_y p + Z.of_nat (S k) * p_vy p < 2 ^ 31).
Proof.
  intros Hwf. rewrite (step_is_ok _ (ticks_wf k r Hwf)), ticks_length.
  apply and_iff_compat_l. split.
  - intros H pid p Hp. destruct (ticks_get k r pid p Hp) as (p' & Hp' & Hx & Hy & Hvx & Hvy).
    destruct (H _ _ Hp') as [H1%fits_spec H2%fits_spec]. cbn in H1, H2. lia.
  - intros H pid p' Hp'. destruct (ticks_get_inv k r pid p' Hp') as [p Hp].
    destruct (ticks_get k r pid p Hp) as (p'' & Hp'' & Hx & Hy & Hvx & Hvy).
    simplify_eq. specialize (H _ _ Hp). split; apply fits_spec; cbn; lia.
Qed.

(** A velocity leads out of range. *)
Lemma tick_out_of_range r pid p v k :
  room_wf r -> dict_get (r_players r) pid = Some p ->
  (v = p_vx p /\ fits Ci (p_x p) = true \/ v = p_vy p /\ fits Ci (p_y p) = true) ->
  2 ^ 32 < Z.of_nat (S k) * Z.abs v ->
  (step (ticks k r)).2 = Raise StructError.
Proof.
  intros Hwf Hp Hv Hgt. apply step_not_ok, not_true_iff_false.
  intros [_ Hok]%tick_in_range; [|done]. specialize (Hok _ _ Hp).
  assert (forall x n, 2 ^ 32 < n * Z.abs v -> - 2 ^ 31 <= x < 2 ^ 31 ->
    - 2 ^ 31 <= x + n * v < 2 ^ 31 -> False) as Hout by (intros; destruct (Z.abs_spec v) as [[_ Ha]|[_ Ha]];
      rewrite Ha in *; lia).
  destruct Hv as [[-> Hc%fits_spec]|[-> Hc%fits_spec]]; cbn in Hc;
    (eapply Hout; [exact Hgt|exact Hc|]); apply Hok.
Qed.

(** C20: the outcome of the (k+1)-th of a run of ticks: it broadcasts when there
    are fewer than 65536 players and every player's coordinates, advanced k+1
    times, are still 32-bit; otherwise it raises [struct.error]. *)
Theorem tick_ok_iff r k :
  room_wf r ->
  let in_range :=
    Z.of_nat (length (r_players r)) < 2 ^ 16 /\
    (forall pid p, dict_get (r_players r) pid = Some p ->
       - 2 ^ 31 <= p_x p + Z.of_nat (S k) * p_vx p < 2 ^ 31 /\
       - 2 ^ 31 <= p_y p + Z.of_nat (S k) * p_vy p < 2 ^ 31) in
  (in_range <-> exists fr, (step (ticks k r)).2 = Ok fr) /\
  (~ in_range <-> (step (ticks k r)).2 = Raise StructError).
Proof.
  intros Hwf in_range. pose proof (tick_in_range r k Hwf) as Hiff. fold in_range in Hiff.
  pose proof (step_not_ok (ticks k r)) as Hno.
  rewrite <- Hiff. destruct (step (ticks k r)).2 as [fr|e]; cbn in *; split; split; eauto; try done.
  by intros [? ?].
Qed.

(** Two players, one of them moving. *)
Definition demo_room : Room :=
  foldl rm_op (Room_init 7 f_zero) [OpJoin 1 0; OpJoin 2 1; OpMove 2 5 2 (-3)].

Lemma demo_room_wf : room_wf demo_room.
Proof.
  unfold demo_room. cbn [foldl rm_op rm_join rm_move Room_model]. apply room_wf_move.
  - by repeat apply room_wf_enter; [apply room_wf_init|..].
  - by repeat constructor.
Qed.

Lemma tick_ok_iff_witness : exists fr, (step (ticks 3 demo_room)).2 = Ok fr.
Proof.
  apply (proj1 (tick_ok_iff demo_room 3 demo_room_wf)). split; [by vm_compute|].
  intros pid p Hp. apply dict_get_Some_elem in Hp. vm_compute in Hp.
  repeat (apply elem_of_cons in Hp as [[= -> ->]|Hp]; [cbn; lia|]).
  by apply not_elem_of_nil in Hp.
Defined.

Lemma step_refines_protocol_witness :
  exists fr payload es,
    (step demo_room).2 = Ok fr /\ fr = frame payload /\
    decode payload = Some (Snapshot ((r_tick_no demo_room + 1) mod 2 ^ 32) es) /\
    NoDup (e_pid <$> es).
Proof.
  destruct (step demo_room).2 as [fr|e] eqn:Hs.
  - destruct (step_refines_protocol demo_room fr demo_room_wf Hs) as (payload & es & H1 & H2 & H3 & _).
    by exists fr, payload, es.
  - exfalso. revert Hs. vm_compute. discriminate.
Defined.

(** C21: a room with a player who keeps a velocity other than zero dies: some
    tick, after at most 2^32 / |v| ticks without a MOVE, raises. *)
Theorem room_dies r pid p v :
  room_wf r -> dict_get (r_players r) pid = Some p ->
  (v = p_vx p /\ fits Ci (p_x p) = true \/ v = p_vy p /\ fits Ci (p_y p) = true) -> v <> 0 ->
  exists k, Z.of_nat k * Z.abs v <= 2 ^ 32 /\ (step (ticks k r)).2 = Raise StructError.
Proof.
  intros Hwf Hp Hv Hv0. exists (Z.to_nat (2 ^ 32 / Z.abs v)).
  pose proof (Z.div_pos (2 ^ 32) (Z.abs v) ltac:(done) ltac:(lia)) as Hq.
  pose proof (Z.mul_div_le (2 ^ 32) (Z.abs v) ltac:(lia)) as Hle.
  pose proof (Z.mod_pos_bound (2 ^ 32) (Z.abs v) ltac:(lia)) as Hr.
  pose proof (Z.div_mod (2 ^ 32) (Z.abs v) ltac:(lia)) as Hdm.
  split; [rewrite Z2Nat.id by done; lia|]. eapply tick_out_of_range; [done..|].
  rewrite Nat2Z.inj_succ, Z2Nat.id by done. lia.
Qed.

Lemma room_dies_witness :
  exists k, Z.of_nat k * 3 <= 2 ^ 32 /\ (step (ticks k demo_room)).2 = Raise StructError.
Proof.
  apply (room_dies demo_room 2 (mkPlayer 2 0 0 2 (-3) 5) (-3) demo_room_wf); [by vm_compute| |lia].
  right. split; [done|]. by vm_compute.
Defined.

(** C22: no operation within the widths of the wire format can make a room die
    during its first 65536 ticks, as long as fewer than 65536 players join it:
    at 30 Hz the first 36 minutes are safe. *)
Theorem room_survives id tick ops :
  Forall room_op_ok ops ->
  zsum (is_tick <$> ops) <= 2 ^ 16 -> zsum (is_join <$> ops) < 2 ^ 16 ->
  Forall (fun o => is_ok o = true) (room_run (Room_init id tick) ops).2.
Proof. intros Hops Ht Hn. by apply (room_age_run 0 0); auto using room_age_init. Qed.

Lemma room_survives_witness :
  Forall (fun o => is_ok o = true)
    (room_run (Room_init 7 f_zero) [OpJoin 1 0; OpMove 1 5 2 (-3); OpTick; OpLeave 1; OpTick]).2.
Proof.
  apply (room_survives 7 f_zero); [|by vm_compute..]. by repeat constructor.
Defined.
