(* ===== verification/Server.v ===== *)
(** * The server process (servers/python/server.py, lines 107-150)

    One event loop, no threads.  The state of the process is [World]: the
    global [_next_pid], the [Room] objects (a heap, so that the dictionary
    [rooms] and the local variable [room] of every handler refer to the same
    object), and one record per connection with the asyncio objects and the
    local variables of its [handle] coroutine.

    - [StreamReader], [readexactly], [Transport], [writer_write] are the parts
      of asyncio's streams the code uses;
    - [get_room], [room_join], [room_move], [room_leave] are the calls a
      handler makes; [process] is the body of its loop after the payload is
      read, [finish] the [except]/[finally] clauses, [handle_iter] the code
      between two [await]s, [run_handler] a resumption of the coroutine;
    - [broadcast] is the last loop of [step], [wake_room] a resumption of a
      room's task;
    - [exec] is one turn of the event loop: a new connection, data or a failure
      on one, the resumption of a handler or of a room's task. *)

From Stdlib Require Import ZArith Lia.
From stdpp Require Import gmap.
From S2P Require Import Prelude PyDict PyFloat PyStruct Wire Room.

Open Scope Z_scope.

(** ** asyncio streams *)

(** The receiving side: bytes fed and not yet read, end of stream, and the
    exception set by [connection_lost]. *)
Record StreamReader := mkReader {
  rd_buf : bytes; rd_eof : bool; rd_exc : option exn }.

Inductive read_result :=
  | RBlocked
  | RRaised (e : exn) (rd : StreamReader)
  | RData (data : bytes) (rd : StreamReader).

(** [await reader.readexactly(n)], as far as it gets without suspending. *)
Definition readexactly (n : nat) (rd : StreamReader) : read_result :=
  match rd_exc rd with
  | Some e => RRaised e rd
  | None =>
      if decide (n <= length (rd_buf rd))%nat
      then RData (take n (rd_buf rd)) (mkReader (drop n (rd_buf rd)) (rd_eof rd) None)
      else if rd_eof rd
      then RRaised IncompleteReadError (mkReader [] true None)
      else RBlocked
  end.

(** The sending side: the buffers passed to [write] calls that returned, the
    exception a [write] raises once the connection is broken, and whether
    [close] was called. *)
Record Transport := mkTransport {
  tr_out : list bytes; tr_fault : option exn; tr_closed : bool }.

(** [writer.write(frame)] *)
Definition writer_write (fr : bytes) : st Transport () := fun t =>
  match tr_fault t with
  | Some e => (t, Raise e)
  | None => (mkTransport (tr_out t ++ [fr]) None (tr_closed t), Ok tt)
  end.

(** [writer.close()]; an exception is swallowed by its caller. *)
Definition writer_close (t : Transport) : Transport := mkTransport (tr_out t) (tr_fault t) true.

(** ** The state of the process *)

(** Where the coroutine [handle] is: at one of its two [await]s, or ended,
    with the exception that left it if any. *)
Inductive phase :=
  | AwaitHeader
  | AwaitPayload (n : Z)
  | Finished (e : option exn).

(** A connection: reader, writer and locals ([room] is a reference). *)
Record Conn := mkConn {
  c_reader : StreamReader;
  c_writer : Transport;
  c_phase : phase;
  c_room : option nat;
  c_pid : Z }.

Definition Conn_init : Conn :=
  mkConn (mkReader [] false None) (mkTransport [] None false) AwaitHeader None 0.

Record World := mkWorld {
  w_next_pid : Z;          (* _next_pid *)
  w_heap : list Room;      (* the Room objects created so far *)
  w_rooms : gmap Z nat;    (* rooms: room id -> reference *)
  w_conns : list Conn }.

Definition World_init : World := mkWorld 0 [] ∅ [].

Definition set_conn (cid : nat) (f : Conn -> Conn) (w : World) : World :=
  mkWorld (w_next_pid w) (w_heap w) (w_rooms w) (alter f cid (w_conns w)).

Definition set_heap (h : list Room) (w : World) : World :=
  mkWorld (w_next_pid w) h (w_rooms w) (w_conns w).

Definition set_reader (rd : StreamReader) (c : Conn) : Conn :=
  mkConn rd (c_writer c) (c_phase c) (c_room c) (c_pid c).
Definition set_writer (t : Transport) (c : Conn) : Conn :=
  mkConn (c_reader c) t (c_phase c) (c_room c) (c_pid c).
Definition set_phase (ph : phase) (c : Conn) : Conn :=
  mkConn (c_reader c) (c_writer c) ph (c_room c) (c_pid c).
Definition set_room (r : nat) (c : Conn) : Conn :=
  mkConn (c_reader c) (c_writer c) (c_phase c) (Some r) (c_pid c).
Definition set_pid (pid : Z) (c : Conn) : Conn :=
  mkConn (c_reader c) (c_writer c) (c_phase c) (c_room c) pid.

(** [writer.write] on the writer of connection [cid]. *)
Definition conn_write (cid : nat) (fr : bytes) : st World () := fun w =>
  match w_conns w !! cid with
  | None => (w, Raise RuntimeError)
  | Some c =>
      let '(t, o) := writer_write fr (c_writer c) in
      (set_conn cid (set_writer t) w, o)
  end.

(** ** Calls on rooms *)

Section Handler.
(** The argument [tick] of [handle]: the tick period in seconds. *)
Variable tick : float.

Definition get_room (room_id : Z) : st World nat := fun w =>
  match w_rooms w !! room_id with
  | Some r => (w, Ok r)
  | None =>
      let r := length (w_heap w) in
      (mkWorld (w_next_pid w) (w_heap w ++ [Room_init room_id tick])
         (<[room_id := r]> (w_rooms w)) (w_conns w), Ok r)
  end.

Definition room_join (r : nat) (cid : nat) : st World Z := fun w =>
  match w_heap w !! r with
  | None => (w, Raise RuntimeError)
  | Some room =>
      let '(next_pid, room, pid) := join (w_next_pid w) room cid in
      (mkWorld next_pid (<[r := room]> (w_heap w)) (w_rooms w) (w_conns w), Ok pid)
  end.

Definition room_move (r : nat) (pid seq dx dy : Z) (w : World) : World :=
  set_heap (alter (fun room => move room pid seq dx dy) r (w_heap w)) w.

Definition room_leave (r : nat) (pid : Z) (w : World) : World :=
  set_heap (alter (fun room => leave room pid) r (w_heap w)) w.

(** ** The coroutine [handle] *)

(** The [JOIN] branch: the locals [room] and [my_pid] are assigned before
    the acknowledgement is written. *)
Definition process_join (cid : nat) (payload : bytes) : st World () :=
  room_id ← st_lift (vs ← unpack_from [CI] payload 1; res_of_option IndexError (head vs));
  r ← get_room room_id;
  st_modify (set_conn cid (set_room r));;
  pid ← room_join r cid;
  st_modify (set_conn cid (set_pid pid));;
  body ← st_lift (pack [CI; CI] [pid; room_id]);
  let jp := byte_of_Z MSG_JOINED :: body in
  header ← st_lift (pack [CI] [Z.of_nat (length jp)]);
  conn_write cid (header ++ jp).

(** The [MOVE] branch; without a room the message is dropped. *)
Definition process_move (cid : nat) (payload : bytes) : st World () :=
  w ← st_get;
  match c ← w_conns w !! cid; r ← c_room c; Some (r, c_pid c) with
  | None => mret ()
  | Some (r, my_pid) =>
      vs ← st_lift (unpack_from [CI; Ch; Ch] payload 1);
      match vs with
      | [seq; dx; dy] => st_modify (room_move r my_pid seq dx dy)
      | _ => st_raise ValueError
      end
  end.

(** The body of the loop once [payload], of [n] bytes, is read. *)
Definition process (cid : nat) (n : Z) (payload : bytes) : st World () :=
  t ← st_lift (Z_of_byte <$> res_of_option IndexError (head payload));
  if (t =? MSG_JOIN) && (5 <=? n) then process_join cid payload
  else if (t =? MSG_MOVE) && (9 <=? n) then process_move cid payload
  else mret ().

(** [except (IncompleteReadError, ConnectionError): pass] *)
Definition caught (e : exn) : bool :=
  match e with IncompleteReadError | ConnectionError => true | _ => false end.

(** The end of the coroutine: the [except] clause and the [finally] block.
    [e] is the exception that ended the loop, [None] for a [break]. *)
Definition finish (cid : nat) (e : option exn) (w : World) : World :=
  match w_conns w !! cid with
  | None => w
  | Some c =>
      let w := match c_room c with
               | Some r => if c_pid c =? 0 then w else room_leave r (c_pid c) w
               | None => w
               end in
      let out := match e with Some e => if caught e then None else Some e | None => None end in
      set_conn cid (fun c => set_phase (Finished out) (set_writer (writer_close (c_writer c)) c)) w
  end.

(** From one [await] to the next; [None]: the coroutine stays suspended (or
    has ended). *)
Definition handle_iter (cid : nat) (w : World) : option World :=
  c ← w_conns w !! cid;
  match c_phase c with
  | Finished _ => None
  | AwaitHeader =>
      match readexactly 4 (c_reader c) with
      | RBlocked => None
      | RRaised e rd => Some (finish cid (Some e) (set_conn cid (set_reader rd) w))
      | RData header rd =>
          let w := set_conn cid (set_reader rd) w in
          match unpack [CI] header with
          | Ok [n] =>
              if (n =? 0) || (Z.shiftl 1 20 <? n) then Some (finish cid None w)
              else Some (set_conn cid (set_phase (AwaitPayload n)) w)
          | Ok _ => Some (finish cid (Some ValueError) w)
          | Raise e => Some (finish cid (Some e) w)
          end
      end
  | AwaitPayload n =>
      match readexactly (Z.to_nat n) (c_reader c) with
      | RBlocked => None
      | RRaised e rd => Some (finish cid (Some e) (set_conn cid (set_reader rd) w))
      | RData payload rd =>
          let w := set_conn cid (fun c => set_phase AwaitHeader (set_reader rd c)) w in
          match process cid n payload w with
          | (w, Ok _) => Some w
          | (w, Raise e) => Some (finish cid (Some e) w)
          end
      end
  end.

(** A resumption of the coroutine: until it suspends or ends. *)
Fixpoint run_handler (fuel : nat) (cid : nat) (w : World) : World :=
  match fuel with
  | O => w
  | S fuel =>
      match handle_iter cid w with
      | None => w
      | Some w => run_handler fuel cid w
      end
  end.

(** Every iteration but the last consumes a byte of the buffer, or changes
    the phase without consuming one; twice the buffer is enough. *)
Definition handler_fuel (cid : nat) (w : World) : nat :=
  match w_conns w !! cid with
  | None => 0
  | Some c => 2 * length (rd_buf (c_reader c)) + 3
  end.

(** ** The rooms' tasks *)

(** [for w in self.conns.values(): try: w.write(frame) except Exception: pass] *)
Definition broadcast (cids : list nat) (fr : bytes) (w : World) : World :=
  foldl (fun w cid => (conn_write cid fr w).1) w cids.

(** The task of room [r] resumed, with the readings of the clock up to its
    next suspension; the frames are broadcast to the room's connections. *)
Definition wake_room (r : nat) (clock : list float) (w : World) : option World :=
  room ← w_heap w !! r;
  match run_wake room clock with
  | Some (room, frs, o, []) =>
      t ← match o with
          | RSleep nxt _ => Some (Sleeping nxt)
          | RDied e => Some (Dead e)
          | RSpin _ => None
          end;
      Some (foldl (fun w fr => broadcast (dict_values (r_conns room)) fr w)
              (set_heap (<[r := set_task t room]> (w_heap w)) w) frs)
  | _ => None
  end.

(** ** The event loop *)

Inductive event :=
  | EvAccept
  | EvData (cid : nat) (bs : bytes)
  | EvEof (cid : nat)
  | EvLost (cid : nat) (e : exn)
  | EvFault (cid : nat) (e : exn)
  | EvHandle (cid : nat)
  | EvWake (r : nat) (clock : list float).

Definition feed (bs : bytes) (rd : StreamReader) : StreamReader :=
  mkReader (rd_buf rd ++ bs) (rd_eof rd) (rd_exc rd).

(** One turn. [EvAccept]: [start_server] creates the streams and the handler
    task; [EvData], [EvEof], [EvLost]: the protocol feeds the reader of a
    connection that is open; [EvFault]: from now on writes raise. *)
Definition exec (w : World) (ev : event) : option World :=
  match ev with
  | EvAccept =>
      Some (mkWorld (w_next_pid w) (w_heap w) (w_rooms w) (w_conns w ++ [Conn_init]))
  | EvData cid bs =>
      c ← w_conns w !! cid;
      if rd_eof (c_reader c) || tr_closed (c_writer c) then None
      else Some (set_conn cid (fun c => set_reader (feed bs (c_reader c)) c) w)
  | EvEof cid =>
      c ← w_conns w !! cid;
      Some (set_conn cid (fun c =>
        set_reader (mkReader (rd_buf (c_reader c)) true (rd_exc (c_reader c))) c) w)
  | EvLost cid e =>
      c ← w_conns w !! cid;
      Some (set_conn cid (fun c =>
        set_reader (mkReader (rd_buf (c_reader c)) (rd_eof (c_reader c)) (Some e)) c) w)
  | EvFault cid e =>
      c ← w_conns w !! cid;
      Some (set_conn cid (fun c =>
        set_writer (mkTransport (tr_out (c_writer c)) (Some e) (tr_closed (c_writer c))) c) w)
  | EvHandle cid =>
      c ← w_conns w !! cid;
      Some (run_handler (handler_fuel cid w) cid w)
  | EvWake r clock => wake_room r clock w
  end.

Definition sys_step (w : World) (ev : event) (w' : World) : Prop := exec w ev = Some w'.

(** The states of the process: what a run of the event loop reaches. *)
Definition runs (evs : list event) (w : World) : Prop := star sys_step World_init evs w.
End Handler.
