(* ===== verification/ServerSteps.v ===== *)
(** * The server's atomic steps

    One resumption of a handler does many things; here every turn of the event
    loop ([Server.exec]) is decomposed into atomic steps [astep] between states
    in which the invariants hold: a change of a reader, a JOIN with its
    acknowledgement, a MOVE, the end of a handler, a resumption of a room's
    task.  A label counts the bytes received and the ids handed out. *)

From Stdlib Require Import ZArith Lia.
From stdpp Require Import gmap.
From S2P Require Import Prelude PyDict PyFloat PyStruct Wire Room.
From S2P Require Import RoomFrames RoomSpec RoomProps RoomThms Server.

Open Scope Z_scope.

(** ** The core invariant *)

(** The announced length passed the test of the loop. *)
Definition phase_ok (c : Conn) : Prop :=
  match c_phase c with AwaitPayload n => 0 < n <= Z.shiftl 1 20 | _ => True end.

Record core (w : World) : Prop := {
  co_pid : fits CI (w_next_pid w) = true;
  co_rooms id r :
    w_rooms w !! id = Some r <-> exists room, w_heap w !! r = Some room /\ r_id room = id;
  co_wf r room : w_heap w !! r = Some room -> room_wf room;
  co_cids r room pid cid :
    w_heap w !! r = Some room -> (pid, cid) ∈ r_conns room -> is_Some (w_conns w !! cid);
  co_croom cid c r : w_conns w !! cid = Some c -> c_room c = Some r -> is_Some (w_heap w !! r);
  co_phase cid c : w_conns w !! cid = Some c -> phase_ok c }.

Definition is_open (c : Conn) : bool := match c_phase c with Finished _ => false | _ => true end.

(** Bytes received by a connection and not yet spent on a message. *)
Definition cpot (c : Conn) : nat :=
  length (rd_buf (c_reader c)) + match c_phase c with AwaitPayload _ => 4 | _ => 0 end.

(** What can end a handler's loop: a [break], the end of the stream, or the
    exception the transport set on the reader. *)
Definition end_cause (c : Conn) (e : option exn) : Prop :=
  match e with
  | None => True
  | Some e => e = IncompleteReadError \/ rd_exc (c_reader c) = Some e
  end.

Section Steps.
Variable tick : float.

(** The state after [join] entered connection [cid], now [c], in room [r]. *)
Definition join_world (cid : nat) (c : Conn) (r : nat) (room : Room) (pid : Z) (w : World)
    : World :=
  mkWorld pid (<[r := enter room pid cid]> (w_heap w)) (w_rooms w) (<[cid := c]> (w_conns w)).

Definition next_id (w : World) : Z := Z.land (w_next_pid w + 1) 0xFFFFFFFF.

Inductive astep : World -> nat * nat -> World -> Prop :=
  | A_accept w :
      astep w (0, 0)%nat
        (mkWorld (w_next_pid w) (w_heap w) (w_rooms w) (w_conns w ++ [Conn_init]))
  | A_reader w cid c c' fed :
      w_conns w !! cid = Some c ->
      c_writer c' = c_writer c -> c_room c' = c_room c -> c_pid c' = c_pid c ->
      is_open c' = is_open c -> (cpot c' <= cpot c + fed)%nat ->
      (phase_ok c -> phase_ok c') ->
      (rd_exc (c_reader c) <> None -> rd_exc (c_reader c') <> None) ->
      (is_open c = false -> c_phase c' = c_phase c) ->
      astep w (fed, 0)%nat (set_conn cid (fun _ => c') w)
  | A_fault w cid c e :
      w_conns w !! cid = Some c ->
      astep w (0, 0)%nat
        (set_conn cid (fun c => set_writer (mkTransport (tr_out (c_writer c)) (Some e)
           (tr_closed (c_writer c))) c) w)
  | A_join w cid c rd room_id r w1 room :
      w_conns w !! cid = Some c -> is_open c = true -> tr_fault (c_writer c) = None ->
      (length (rd_buf rd) + 9 <= cpot c)%nat -> fits CI room_id = true ->
      get_room tick room_id w = (w1, Ok r) -> w_heap w1 !! r = Some room ->
      r_id room = room_id ->
      astep w (0, 1)%nat
        (join_world cid
           (mkConn rd (mkTransport (tr_out (c_writer c) ++
                         [frame (encode (Joined (next_id w) room_id))]) None
                         (tr_closed (c_writer c)))
              AwaitHeader (Some r) (next_id w)) r room (next_id w) w1)
  | A_join_fail w cid c rd room_id r w1 room e :
      w_conns w !! cid = Some c -> is_open c = true -> tr_fault (c_writer c) = Some e ->
      (length (rd_buf rd) + 9 <= cpot c)%nat -> fits CI room_id = true ->
      get_room tick room_id w = (w1, Ok r) -> w_heap w1 !! r = Some room ->
      r_id room = room_id ->
      astep w (0, 1)%nat
        (finish cid (Some e)
           (join_world cid (mkConn rd (c_writer c) AwaitHeader (Some r) (next_id w))
              r room (next_id w) w1))
  | A_move w cid c r seq dx dy :
      w_conns w !! cid = Some c -> c_room c = Some r -> move_args_ok seq dx dy ->
      astep w (0, 0)%nat (room_move r (c_pid c) seq dx dy w)
  | A_finish w cid c e :
      w_conns w !! cid = Some c -> is_open c = true -> end_cause c e ->
      astep w (0, 0)%nat (finish cid e w)
  | A_wake w r room clock room' frs o t :
      w_heap w !! r = Some room -> run_wake room clock = Some (room', frs, o, []) ->
      astep w (0, 0)%nat
        (foldl (fun w fr => broadcast (dict_values (r_conns room')) fr w)
           (set_heap (<[r := set_task t room']> (w_heap w)) w) frs).
End Steps.

(** ** Resuming a room *)

Lemma run_loop_inv (P : Room -> Prop) (Q : bytes -> Prop) clock r nxt r' frs o clock' :
  (forall r, P r -> P (step r).1) ->
  (forall r fr, P r -> (step r).2 = Ok fr -> Q fr) ->
  P r -> run_loop r nxt clock = (r', frs, o, clock') -> P r' /\ Forall Q frs.
Proof.
  intros HP HQ. revert r nxt r' frs o clock'.
  induction clock as [|now clock IH]; intros r nxt r' frs o clock' Hr; cbn.
  - by intros [= <- <- <- <-].
  - case_match; [by intros [= <- <- <- <-]|].
    destruct (step r) as [r1 [fr|e]] eqn:Hs.
    + destruct (run_loop r1 _ clock) as [[[r2 frs2] o2] cl2] eqn:Hl.
      intros [= <- <- <- <-]. pose proof (HP _ Hr) as Hr1. rewrite Hs in Hr1.
      destruct (IH _ _ _ _ _ _ Hr1 Hl). split; [done|]. constructor; [|done].
      apply (HQ r); [done|]. by rewrite Hs.
    + intros [= <- <- <- <-]. pose proof (HP _ Hr) as Hr1. by rewrite Hs in Hr1.
Qed.

Lemma run_wake_inv (P : Room -> Prop) (Q : bytes -> Prop) clock r r' frs o clock' :
  (forall r, P r -> P (step r).1) ->
  (forall r fr, P r -> (step r).2 = Ok fr -> Q fr) ->
  P r -> run_wake r clock = Some (r', frs, o, clock') -> P r' /\ Forall Q frs.
Proof.
  intros HP HQ Hr. unfold run_wake. destruct (r_task r); [|..|done].
  - destruct clock; [done|]. intros [= H]. by eapply run_loop_inv.
  - destruct (step r) as [r1 [fr|e]] eqn:Hs; pose proof (HP _ Hr) as Hr1; rewrite Hs in Hr1.
    + destruct (run_loop r1 nxt clock) as [[[r2 frs2] o2] cl2] eqn:Hl.
      intros [= <- <- <- <-]. eapply run_loop_inv in Hl as [? ?]; [|done..].
      split; [done|]. constructor; [|done]. apply (HQ r); [done|]. by rewrite Hs.
    + by intros [= <- <- <- <-].
Qed.

(** Ticks change neither the room's identity nor its members. *)
Definition same_members (r0 r : Room) : Prop :=
  r_id r = r_id r0 /\ r_conns r = r_conns r0 /\ dict_keys (r_players r) = dict_keys (r_players r0).

Lemma same_members_step r0 r : same_members r0 r -> same_members r0 (step r).1.
Proof. intros (? & ? & ?). rewrite step_eq. split_and!; cbn; rewrite ?dict_keys_map; done. Qed.

Lemma run_wake_members r clock r' frs o clock' :
  run_wake r clock = Some (r', frs, o, clock') -> same_members r r'.
Proof.
  intros H. eapply (run_wake_inv (same_members r) (fun _ => True)) in H as [? _]; [done|..].
  - apply same_members_step.
  - done.
  - done.
Qed.

Lemma run_wake_wf r clock r' frs o clock' :
  room_wf r -> run_wake r clock = Some (r', frs, o, clock') -> room_wf r'.
Proof.
  intros Hwf H. eapply (run_wake_inv room_wf (fun _ => True)) in H as [? _]; [done|..]; [|done..].
  apply room_wf_step1.
Qed.

(** The frames are snapshots that fit the protocol. *)
Definition is_snapshot (fr : bytes) : Prop :=
  exists t es, wf (Snapshot t es) /\ fr = frame (encode (Snapshot t es)).

Lemma step_is_snapshot r fr : (step r).2 = Ok fr -> is_snapshot fr.
Proof.
  rewrite step_eq. cbn [snd]. rewrite snapshot_frame_dec. case_decide; [|done].
  intros [= <-]. by eexists _, _.
Qed.

Lemma run_wake_snapshots r clock r' frs o clock' :
  run_wake r clock = Some (r', frs, o, clock') -> Forall is_snapshot frs.
Proof.
  intros H. eapply (run_wake_inv (fun _ => True) is_snapshot) in H as [_ ?]; [done|done| |done].
  intros r0 fr _. apply step_is_snapshot.
Qed.

(** ** [get_room] *)

Lemma get_room_spec tick room_id w :
  core w ->
  exists w1 r room,
    get_room tick room_id w = (w1, Ok r) /\ w_heap w1 !! r = Some room /\ r_id room = room_id /\
    w_conns w1 = w_conns w /\ w_next_pid w1 = w_next_pid w.
Proof.
  intros Hc. unfold get_room. destruct (w_rooms w !! room_id) as [r|] eqn:E.
  - apply (co_rooms _ Hc) in E as (room & Hr & Hid). by eexists w, r, room.
  - eexists _, _, (Room_init room_id tick). split; [done|]. cbn. split_and!; try done.
    rewrite lookup_app_r, Nat.sub_diag by done. done.
Qed.

Lemma get_room_conns tick room_id w w1 r :
  get_room tick room_id w = (w1, Ok r) -> w_conns w1 = w_conns w.
Proof. unfold get_room. case_match; by intros [= <- <-]. Qed.

(** ** The JOIN branch as one step *)

Lemma unpack_join payload :
  (5 <= length payload)%nat ->
  exists room_id, unpack_from [CI] payload 1 = Ok [room_id] /\ fits CI room_id = true.
Proof.
  intros H. exists (unpack_code CI (take 4 (drop 1 payload))). split.
  - by rewrite unpack_from_ok by done.
  - apply unpack_code_fits. rewrite length_take, length_drop. cbn [code_size]. lia.
Qed.

Lemma unpack_move payload :
  (9 <= length payload)%nat ->
  exists seq dx dy,
    unpack_from [CI; Ch; Ch] payload 1 = Ok [seq; dx; dy] /\ move_args_ok seq dx dy.
Proof.
  intros H. eexists _, _, _. split; [by rewrite unpack_from_ok by done|].
  unfold move_args_ok, fields_wf.
  repeat (constructor; [apply unpack_code_fits; rewrite length_take, !length_drop; cbn [code_size]; lia|]).
  constructor.
Qed.

(** The acknowledgement the handler packs by hand is the protocol's frame. *)
Lemma joined_frame pid room_id :
  fits CI pid = true -> fits CI room_id = true ->
  pack [CI; CI] [pid; room_id] = Ok (fields [CI; CI] [pid; room_id]) /\
  pack [CI] [Z.of_nat (length (byte_of_Z MSG_JOINED :: fields [CI; CI] [pid; room_id]))] =
    Ok (be_pack 4 9) /\
  be_pack 4 9 ++ byte_of_Z MSG_JOINED :: fields [CI; CI] [pid; room_id] =
    frame (encode (Joined pid room_id)).
Proof.
  intros Hp Hr. assert (fields_wf [CI; CI] [pid; room_id]) as Hf by (by repeat constructor).
  split_and!; [by apply pack_fields|..].
  - cbn [length]. by rewrite length_fields.
  - unfold frame. cbn [encode server_codec encode_server length]. by rewrite length_fields.
Qed.

Lemma alter_lookup_insert {A} (f : A -> A) (l : list A) i x :
  l !! i = Some x -> alter f i l = <[i := f x]> l.
Proof.
  intros H. apply list_eq. intros j. destruct (decide (i = j)) as [->|Hne].
  - rewrite list_lookup_alter_eq, H, list_lookup_insert_eq by (by eapply lookup_lt_Some). done.
  - by rewrite list_lookup_alter_ne, list_lookup_insert_ne.
Qed.

Lemma alter_lookup_none {A} (f : A -> A) (l : list A) i : l !! i = None -> alter f i l = l.
Proof.
  intros H. apply list_eq. intros j. rewrite list_lookup_alter.
  case_decide; [subst; by rewrite H|done].
Qed.

Lemma set_conn_eq cid f w c :
  w_conns w !! cid = Some c ->
  set_conn cid f w = mkWorld (w_next_pid w) (w_heap w) (w_rooms w) (<[cid := f c]> (w_conns w)).
Proof. intros H. unfold set_conn. by rewrite (alter_lookup_insert _ _ _ _ H). Qed.

Lemma process_join_spec tick cid c payload w :
  core w -> w_conns w !! cid = Some c -> (5 <= length payload)%nat ->
  exists room_id r w1 room,
    unpack_from [CI] payload 1 = Ok [room_id] /\
    fits CI room_id = true /\ get_room tick room_id w = (w1, Ok r) /\
    w_heap w1 !! r = Some room /\ r_id room = room_id /\
    process_join tick cid payload w =
      let '(t, o) := writer_write (frame (encode (Joined (next_id w) room_id))) (c_writer c) in
      (join_world cid (mkConn (c_reader c) t (c_phase c) (Some r) (next_id w)) r room
         (next_id w) w1, o).
Proof.
  intros Hcore Hc Hlen. destruct (unpack_join payload Hlen) as (room_id & Hu & Hfit).
  destruct (get_room_spec tick room_id w Hcore) as (w1 & r & room & Hg & Hr & Hid & Hcs & Hnp).
  exists room_id, r, w1, room. split_and!; try done.
  unfold process_join, mbind, st_bind, st_lift, st_modify. rewrite Hu.
  cbn [mbind res_bind]. change (res_of_option IndexError (head [room_id])) with (Ok room_id).
  cbv beta iota. rewrite Hg.
  assert (w_conns w1 !! cid = Some c) as Hc1 by by rewrite Hcs.
  rewrite (set_conn_eq _ _ _ _ Hc1). unfold room_join, join, new_pid. cbn [w_heap].
  rewrite Hr. cbn [w_next_pid w_conns w_rooms w_heap]. rewrite Hnp.
  fold (next_id w).
  set (w3 := mkWorld _ _ _ _).
  assert (w_conns w3 !! cid = Some (set_room r c)) as Hc3.
  { cbn. apply list_lookup_insert_eq. by eapply lookup_lt_Some. }
  rewrite (set_conn_eq _ _ _ _ Hc3).
  destruct (joined_frame (next_id w) room_id (mask32_fits _) Hfit) as (-> & Hh & Hfr).
  cbv beta iota zeta. rewrite Hh. rewrite Hfr. unfold conn_write. cbn [w_conns].
  rewrite list_lookup_insert_eq by (cbn; rewrite length_insert; by eapply lookup_lt_Some).
  cbn [c_writer set_room set_pid]. destruct (writer_write _ (c_writer c)) as [t o].
  f_equal. unfold join_world, w3. unfold set_conn. cbn [w_conns w_next_pid w_heap w_rooms].
  f_equal. rewrite !list_insert_insert_eq. cbn.
  erewrite alter_lookup_insert by (apply list_lookup_insert_eq; by eapply lookup_lt_Some).
  by rewrite list_insert_insert_eq, Hcs.
Qed.

(** ** The core invariant is preserved *)

Lemma core_init : core World_init.
Proof.
  split; cbn; try done. intros id r. rewrite lookup_empty. by split; [|intros (? & ? & _)].
Qed.

(** Changing connection records without touching their [room]. *)
Lemma core_conns w cs :
  core w ->
  (forall cid, is_Some (w_conns w !! cid) -> is_Some (cs !! cid)) ->
  (forall cid c r, cs !! cid = Some c -> c_room c = Some r -> is_Some (w_heap w !! r)) ->
  (forall cid c, cs !! cid = Some c -> phase_ok c) ->
  core (mkWorld (w_next_pid w) (w_heap w) (w_rooms w) cs).
Proof. intros [] Hcs Hr Hph. split; cbn; eauto. Qed.

(** Replacing a room by one with the same id. *)
Lemma core_heap w r room room' :
  core w -> w_heap w !! r = Some room -> r_id room' = r_id room -> room_wf room' ->
  (forall pid cid, (pid, cid) ∈ r_conns room' -> is_Some (w_conns w !! cid)) ->
  core (set_heap (<[r := room']> (w_heap w)) w).
Proof.
  intros [Hp Hrooms Hwf Hcids Hcr Hph] Hr Hid Hwf' Hc'.
  pose proof (lookup_lt_Some _ _ _ Hr) as Hlt. split; cbn; [done|..].
  - intros id r'. rewrite Hrooms. destruct (decide (r = r')) as [<-|Hne].
    + rewrite list_lookup_insert_eq by done. rewrite Hr.
      split; intros (room0 & [= <-] & <-); eauto.
    + by rewrite list_lookup_insert_ne.
  - intros r' room1. destruct (decide (r = r')) as [<-|Hne].
    + rewrite list_lookup_insert_eq by done. by intros [= <-].
    + rewrite list_lookup_insert_ne by done. apply Hwf.
  - intros r' room1 pid cid. destruct (decide (r = r')) as [<-|Hne].
    + rewrite list_lookup_insert_eq by done. intros [= <-]. apply Hc'.
    + rewrite list_lookup_insert_ne by done. apply Hcids.
  - intros cid c r' Hc Hcr'. apply lookup_lt_is_Some_2. rewrite length_insert.
    apply lookup_lt_is_Some_1. by eapply Hcr.
  - apply Hph.
Qed.

Lemma core_set_conn w cid c c' :
  core w -> w_conns w !! cid = Some c -> c_room c' = c_room c -> (phase_ok c -> phase_ok c') ->
  core (set_conn cid (fun _ => c') w).
Proof.
  intros Hcore Hc Hroom Hph. rewrite (set_conn_eq _ _ _ _ Hc).
  pose proof (lookup_lt_Some _ _ _ Hc) as Hlt. apply core_conns; [done|..].
  - intros cid' H. apply lookup_lt_is_Some_2. rewrite length_insert. by apply lookup_lt_is_Some_1.
  - intros cid' c0 r. destruct (decide (cid = cid')) as [<-|Hne].
    + rewrite list_lookup_insert_eq by done. intros [= <-]. rewrite Hroom.
      by apply (co_croom _ Hcore cid).
    + rewrite list_lookup_insert_ne by done. apply (co_croom _ Hcore).
  - intros cid' c0. destruct (decide (cid = cid')) as [<-|Hne].
    + rewrite list_lookup_insert_eq by done. intros [= <-]. apply Hph. by apply (co_phase _ Hcore cid).
    + rewrite list_lookup_insert_ne by done. apply (co_phase _ Hcore).
Qed.

Lemma set_conn_const cid f w c :
  w_conns w !! cid = Some c -> set_conn cid f w = set_conn cid (fun _ => f c) w.
Proof. intros H. by rewrite !(set_conn_eq _ _ _ _ H). Qed.

Lemma core_alter_room w r (f : Room -> Room) :
  core w ->
  (forall room, room_wf room -> room_wf (f room) /\ r_id (f room) = r_id room /\
     forall pid cid, (pid, cid) ∈ r_conns (f room) -> (pid, cid) ∈ r_conns room) ->
  core (set_heap (alter f r (w_heap w)) w).
Proof.
  intros Hcore Hf. destruct (w_heap w !! r) as [room|] eqn:Hr.
  - rewrite (alter_lookup_insert _ _ _ _ Hr).
    destruct (Hf room (co_wf _ Hcore _ _ Hr)) as (Hwf & Hid & Hc).
    apply (core_heap _ _ room); [done..|]. intros pid cid Hin.
    by apply (co_cids _ Hcore _ _ pid _ Hr), Hc.
  - by rewrite alter_lookup_none; [destruct w|].
Qed.

Lemma core_move w r pid seq dx dy :
  core w -> move_args_ok seq dx dy -> core (room_move r pid seq dx dy w).
Proof.
  intros Hcore Ha. apply core_alter_room; [done|]. intros room Hwf.
  split_and!; [by apply room_wf_move|unfold move; by case_match..].
Qed.

Lemma core_leave w r pid : core w -> core (room_leave r pid w).
Proof.
  intros Hcore. apply core_alter_room; [done|]. intros room Hwf.
  split_and!; [by apply room_wf_leave|done|]. cbn. by intros ? ? [_ ?]%dict_pop_elem.
Qed.

Lemma core_finish cid e w : core w -> core (finish cid e w).
Proof.
  intros Hcore. unfold finish. destruct (w_conns w !! cid) as [c|] eqn:Hc; [|done].
  assert (forall w', core w' -> w_conns w' = w_conns w ->
    core (set_conn cid (fun c0 => set_phase (Finished (match e with
      | Some e0 => if caught e0 then None else Some e0 | None => None end))
      (set_writer (writer_close (c_writer c0)) c0)) w')) as H.
  { intros w' Hw' Hcs. rewrite (set_conn_const _ _ _ c) by by rewrite Hcs.
    apply (core_set_conn _ _ c); [done|by rewrite Hcs|done..]. }
  destruct (c_room c) as [r|]; [|by apply H].
  destruct (c_pid c =? 0); [by apply H|]. apply H; [by apply core_leave|done].
Qed.

Lemma core_get_room tick room_id w w1 r :
  core w -> fits CI room_id = true -> get_room tick room_id w = (w1, Ok r) -> core w1.
Proof.
  intros Hcore Hfit. unfold get_room. destruct (w_rooms w !! room_id) eqn:E; intros [= <- <-]; [done|].
  destruct Hcore as [Hp Hrooms Hwf Hcids Hcr Hph]. split; cbn; [done|..].
  - intros id r. destruct (decide (room_id = id)) as [<-|Hne].
    + rewrite lookup_insert_eq. split.
      * intros [= <-]. exists (Room_init room_id tick). by rewrite lookup_app_r, Nat.sub_diag.
      * intros (room & [Hr|[Hl Hr]]%lookup_app_Some & Hid).
        -- assert (w_rooms w !! room_id = Some r) by (apply Hrooms; eauto). congruence.
        -- f_equal. apply list_lookup_singleton_Some in Hr as [? _]. lia.
    + rewrite lookup_insert_ne, Hrooms by done. split; intros (room & Hr & Hid); exists room.
      * by rewrite lookup_app_l by by eapply lookup_lt_Some.
      * apply lookup_app_Some in Hr as [?|[_ [_ <-]%list_lookup_singleton_Some]]; [done|].
        by destruct Hne.
  - intros r room [?|[_ [_ <-]%list_lookup_singleton_Some]]%lookup_app_Some; [eauto|].
    apply room_wf_init.
  - intros r room pid cid [?|[_ [_ <-]%list_lookup_singleton_Some]]%lookup_app_Some; [eauto|].
    by intros ?%not_elem_of_nil.
  - intros cid c r Hc Hr. destruct (Hcr _ _ _ Hc Hr) as [room ?]. exists room.
    by rewrite lookup_app_l by by eapply lookup_lt_Some.
  - apply Hph.
Qed.

Lemma core_join_world cid c r room pid w :
  core w -> w_heap w !! r = Some room -> is_Some (w_conns w !! cid) -> fits CI pid = true ->
  c_room c = Some r -> phase_ok c -> core (join_world cid c r room pid w).
Proof.
  intros Hcore Hr [c0 Hc0] Hpid Hcr Hph. unfold join_world.
  assert (core (set_heap (<[r := enter room pid cid]> (w_heap w)) w)) as Hcore1.
  { apply (core_heap _ _ room); [done..| |].
    - apply room_wf_enter; [|done]. by apply (co_wf _ Hcore r).
    - cbn. intros pid' cid' [[-> ->]|Hin]%dict_set_elem; [by eexists|].
      by apply (co_cids _ Hcore r room pid'). }
  pose proof (core_conns _ (<[cid := c]> (w_conns w)) Hcore1) as Hcore2. cbn in Hcore2.
  assert (core (mkWorld (w_next_pid w) (<[r := enter room pid cid]> (w_heap w)) (w_rooms w)
    (<[cid := c]> (w_conns w)))) as [].
  { apply Hcore2.
    - intros cid' H. apply lookup_lt_is_Some_2. rewrite length_insert. by apply lookup_lt_is_Some_1.
    - intros cid' c1 r1. destruct (decide (cid = cid')) as [<-|Hne].
      + rewrite list_lookup_insert_eq by (by eapply lookup_lt_Some). intros [= <-].
        rewrite Hcr. intros [= <-]. apply lookup_lt_is_Some_2. rewrite length_insert.
        by eapply lookup_lt_Some.
      + rewrite list_lookup_insert_ne by done. apply (co_croom _ Hcore1).
    - intros cid' c1. destruct (decide (cid = cid')) as [<-|Hne].
      + rewrite list_lookup_insert_eq by (by eapply lookup_lt_Some). by intros [= <-].
      + rewrite list_lookup_insert_ne by done. apply (co_phase _ Hcore1). }
  by split.
Qed.

Lemma conn_write_conns cid fr w :
  w_heap (conn_write cid fr w).1 = w_heap w /\ w_rooms (conn_write cid fr w).1 = w_rooms w /\
  w_next_pid (conn_write cid fr w).1 = w_next_pid w.
Proof.
  unfold conn_write. destruct (w_conns w !! cid); [|done].
  by destruct (writer_write fr (c_writer c)).
Qed.

Lemma core_conn_write cid fr w : core w -> core (conn_write cid fr w).1.
Proof.
  intros Hcore. unfold conn_write. destruct (w_conns w !! cid) as [c|] eqn:Hc; [|done].
  destruct (writer_write fr (c_writer c)) as [t o]. cbn.
  rewrite (set_conn_const _ _ _ c) by done. by apply (core_set_conn _ _ c).
Qed.

(** Writes keep every invariant that single writes keep. *)
Lemma broadcast_inv (P : World -> Prop) cids fr w :
  (forall w cid, cid ∈ cids -> P w -> P (conn_write cid fr w).1) -> P w -> P (broadcast cids fr w).
Proof.
  intros HP. unfold broadcast. revert w. induction cids as [|cid cids IH]; intros w Hw; [done|].
  cbn. apply IH; [|apply HP; [left|done]]. intros. apply HP; [by right|done].
Qed.

Lemma broadcasts_inv (P : World -> Prop) (Q : bytes -> Prop) cids frs w :
  (forall w cid fr, cid ∈ cids -> Q fr -> P w -> P (conn_write cid fr w).1) ->
  Forall Q frs -> P w -> P (foldl (fun w fr => broadcast cids fr w) w frs).
Proof.
  intros HP Hq. revert w. induction Hq as [|fr frs Hfr Hfrs IH]; intros w Hw; [done|].
  cbn. apply IH. apply broadcast_inv; [|done]. intros. by apply HP.
Qed.

Lemma core_wake w r room clock room' frs o t :
  core w -> w_heap w !! r = Some room -> run_wake room clock = Some (room', frs, o, []) ->
  core (set_heap (<[r := set_task t room']> (w_heap w)) w).
Proof.
  intros Hcore Hr Hw. destruct (run_wake_members _ _ _ _ _ _ Hw) as (Hid & Hc & _).
  apply (core_heap _ _ room); [done..| |].
  - apply room_wf_set_task. eapply run_wake_wf; [|done]. by apply (co_wf _ Hcore r).
  - cbn. rewrite Hc. intros pid cid. by apply (co_cids _ Hcore r).
Qed.

Lemma core_astep tick w l w' : core w -> astep tick w l w' -> core w'.
Proof.
  intros Hcore Hs. destruct Hs as
    [w|w cid c c' fed Hc Hw Hr Hp Ho Hpot Hph He Hcl|w cid c e Hc|w cid c rd room_id r w1 room Hc Ho Hf Hl Hid Hg Hr Hri
    |w cid c rd room_id r w1 room e Hc Ho Hf Hl Hid Hg Hr Hri|w cid c r seq dx dy Hc Hr Ha
    |w cid c e Hc Ho Hend|w r room clock room' frs o t Hr Hw].
  - apply core_conns; [done|..].
    + intros cid [c Hc]. exists c. by rewrite lookup_app_l by by eapply lookup_lt_Some.
    + intros cid c r [Hc|[_ [_ <-]%list_lookup_singleton_Some]]%lookup_app_Some; [|done].
      by apply (co_croom _ Hcore cid).
    + intros cid c [Hc|[_ [_ <-]%list_lookup_singleton_Some]]%lookup_app_Some; [|done].
      by apply (co_phase _ Hcore cid).
  - by apply (core_set_conn _ _ c).
  - rewrite (set_conn_const _ _ _ c) by done. by apply (core_set_conn _ _ c).
  - destruct (get_room_spec tick room_id w Hcore) as (? & ? & ? & Hg' & _ & _ & Hcs & _).
    rewrite Hg in Hg'. simplify_eq. apply core_join_world; [by eapply core_get_room|done| |apply mask32_fits|done|done].
    rewrite Hcs. eauto.
  - destruct (get_room_spec tick room_id w Hcore) as (? & ? & ? & Hg' & _ & _ & Hcs & _).
    rewrite Hg in Hg'. simplify_eq. apply core_finish.
    apply core_join_world; [by eapply core_get_room|done| |apply mask32_fits|done|done].
    rewrite Hcs. eauto.
  - by apply core_move.
  - by apply core_finish.
  - eapply (broadcasts_inv core (fun _ => True)); [|by apply Forall_true|by eapply core_wake].
    intros. by apply core_conn_write.
Qed.

(** ** Every turn of the event loop is a sequence of atomic steps *)

Notation asteps tick := (star (astep tick)).

Lemma core_asteps tick w ls w' : core w -> asteps tick w ls w' -> core w'.
Proof. intros Hc Hs. eapply star_invariant; [|done|done]. intros. by eapply core_astep. Qed.

Definition fed_of (ls : list (nat * nat)) : nat := sum_list ls.*1.
Definition joins_of (ls : list (nat * nat)) : nat := sum_list ls.*2.

Lemma fed_of_app l1 l2 : fed_of (l1 ++ l2) = (fed_of l1 + fed_of l2)%nat.
Proof. unfold fed_of. by rewrite fmap_app, sum_list_with_app. Qed.

Lemma set_conn_set_conn cid f g w :
  set_conn cid f (set_conn cid g w) = set_conn cid (f ∘ g) w.
Proof. unfold set_conn. cbn. by rewrite list_alter_alter_eq. Qed.

Lemma set_conn_lookup cid f w c :
  w_conns w !! cid = Some c -> w_conns (set_conn cid f w) !! cid = Some (f c).
Proof. intros H. cbn. by rewrite list_lookup_alter_eq, H. Qed.

(** [get_room] does not look at the connections. *)
Lemma get_room_set_conn tick room_id cid f w w1 o :
  get_room tick room_id w = (w1, o) ->
  get_room tick room_id (set_conn cid f w) = (set_conn cid f w1, o).
Proof. unfold get_room. cbn. case_match; by intros [= <- <-]. Qed.

Lemma join_world_set_conn cid c r room pid f w :
  join_world cid c r room pid (set_conn cid f w) = join_world cid c r room pid w.
Proof.
  unfold join_world. cbn. f_equal. apply list_eq. intros i.
  destruct (decide (cid = i)) as [<-|Hne].
  - destruct (decide (cid < length (w_conns w))%nat) as [Hlt|Hge].
    + by rewrite !list_lookup_insert_eq by (by rewrite ?length_alter).
    + rewrite !list_insert_ge by (rewrite ?length_alter; lia).
      by rewrite alter_lookup_none by (apply lookup_ge_None_2; lia).
  - by rewrite !list_lookup_insert_ne, list_lookup_alter_ne.
Qed.

(** The two ways a read can end the handler. *)
Lemma read_finish_asteps tick cid c rd e w :
  w_conns w !! cid = Some c -> is_open c = true -> (length (rd_buf rd) <= length (rd_buf (c_reader c)))%nat ->
  (rd_exc (c_reader c) <> None -> rd_exc rd <> None) -> end_cause (set_reader rd c) e ->
  asteps tick w [(0, 0); (0, 0)]%nat (finish cid e (set_conn cid (set_reader rd) w)).
Proof.
  intros Hc Ho Hl He Hend. rewrite (set_conn_const _ _ _ c Hc).
  eapply star_cons; [|eapply star_one].
  - eapply (A_reader _ _ _ c (set_reader rd c) 0); try done; try congruence. unfold cpot. cbn. lia.
  - eapply (A_finish _ _ _ (set_reader rd c)); [|done..].
    by apply (set_conn_lookup _ (fun _ => set_reader rd c) _ c).
Qed.

Lemma readexactly_data n rd data rd' :
  readexactly n rd = RData data rd' ->
  rd_buf rd = data ++ rd_buf rd' /\ length data = n /\ rd_eof rd' = rd_eof rd /\ rd_exc rd' = rd_exc rd.
Proof.
  unfold readexactly. destruct (rd_exc rd) eqn:He; [done|]. case_decide; [|by case_match].
  intros [= <- <-]. cbn. rewrite take_drop, length_take. split_and!; try done. lia.
Qed.

Lemma readexactly_raised n rd e rd' :
  readexactly n rd = RRaised e rd' ->
  (length (rd_buf rd') <= length (rd_buf rd))%nat /\ rd_exc rd' = rd_exc rd /\
  (e = IncompleteReadError \/ rd_exc rd' = Some e).
Proof.
  unfold readexactly. destruct (rd_exc rd) eqn:He.
  - intros [= <- <-]. auto.
  - case_decide; [done|]. case_match; [|done]. intros [= <- <-]. cbn. split_and!; [lia|auto..].
Qed.

Lemma iter_header_asteps tick cid c w w' :
  w_conns w !! cid = Some c -> c_phase c = AwaitHeader -> handle_iter tick cid w = Some w' ->
  exists ls, asteps tick w ls w' /\ fed_of ls = 0%nat.
Proof.
  intros Hc Hph. assert (is_open c = true) as Ho by (unfold is_open; by rewrite Hph).
  unfold handle_iter. rewrite Hc. cbn [mbind option_bind]. rewrite Hph.
  destruct (readexactly 4 (c_reader c)) as [|e rd|header rd] eqn:Hrd; [done|..].
  - intros [= <-]. apply readexactly_raised in Hrd as (Hl & He & Hend).
    eexists. split; [eapply read_finish_asteps; by rewrite ?He|done].
  - apply readexactly_data in Hrd as (Hbuf & Hlen & _ & He).
    assert (length (rd_buf (c_reader c)) = 4 + length (rd_buf rd))%nat as Hl
      by (rewrite Hbuf, length_app; lia).
    unfold unpack. rewrite decide_True by done. cbn [unpack_all code_size].
    case_match eqn:Hn; intros [= <-].
    + eexists. split; [eapply read_finish_asteps; [done..|lia|by rewrite He|done]|done].
    + rewrite set_conn_set_conn, (set_conn_const _ _ _ c Hc).
      eexists. split; [eapply star_one, (A_reader _ _ _ c _ 0); try done; try congruence|done].
      * unfold cpot. cbn. rewrite Hph. lia.
      * intros _. unfold phase_ok. cbn [c_phase compose set_phase]. zbool.
        pose proof (unpack_code_fits CI (take 4 header)) as Hfit.
        rewrite length_take, fits_spec in Hfit. cbn [code_size code_min code_max] in Hfit. lia.
      * cbn. by rewrite He.
Qed.

Lemma process_cases tick cid n payload w :
  match head payload with
  | None => process tick cid n payload w = (w, Raise IndexError)
  | Some b =>
      process tick cid n payload w =
      if (Z_of_byte b =? MSG_JOIN) && (5 <=? n) then process_join tick cid payload w
      else if (Z_of_byte b =? MSG_MOVE) && (9 <=? n) then process_move cid payload w
      else (w, Ok tt)
  end.
Proof.
  destruct payload as [|b payload]; [done|].
  change (process tick cid n (b :: payload) w) with
    ((if (Z_of_byte b =? MSG_JOIN) && (5 <=? n) then process_join tick cid (b :: payload)
      else if (Z_of_byte b =? MSG_MOVE) && (9 <=? n) then process_move cid (b :: payload)
      else mret ()) w).
  cbn [head]. destruct (_ && _); [done|]. by destruct (_ && _).
Qed.

Lemma process_move_spec cid c payload w :
  w_conns w !! cid = Some c -> (9 <= length payload)%nat ->
  process_move cid payload w = (w, Ok tt) \/
  exists r seq dx dy,
    c_room c = Some r /\ move_args_ok seq dx dy /\
    process_move cid payload w = (room_move r (c_pid c) seq dx dy w, Ok tt).
Proof.
  intros Hc Hl. unfold process_move, mbind, st_bind, st_get. rewrite Hc. cbn [option_bind].
  destruct (c_room c) as [r|]; [right|by left]. cbn [option_bind].
  destruct (unpack_move payload Hl) as (seq & dx & dy & -> & Ha).
  by exists r, seq, dx, dy.
Qed.

Lemma join_asteps tick cid c rd payload w :
  core w -> w_conns w !! cid = Some c -> is_open c = true ->
  (length (rd_buf rd) + 9 <= cpot c)%nat -> (5 <= length payload)%nat ->
  let '(w1, o) := process_join tick cid payload
                    (set_conn cid (fun c => set_phase AwaitHeader (set_reader rd c)) w) in
  asteps tick w [(0, 1)]%nat
    match o with Ok _ => w1 | Raise e => finish cid (Some e) w1 end.
Proof.
  intros Hcore Hc Ho Hpot Hl. set (g := fun c => set_phase AwaitHeader (set_reader rd c)).
  assert (core (set_conn cid g w)) as Hcore2.
  { rewrite (set_conn_const _ _ _ c Hc). by apply (core_set_conn _ _ c). }
  destruct (process_join_spec tick cid (g c) payload _ Hcore2 (set_conn_lookup _ _ _ _ Hc) Hl)
    as (room_id & r & w1 & room & _ & Hfit & Hg & Hr & Hid & ->).
  destruct (get_room_spec tick room_id w Hcore) as (w0 & r0 & room0 & Hg0 & Hr0 & Hid0 & Hcs0 & _).
  pose proof (get_room_set_conn _ _ cid g _ _ _ Hg0) as Hg'.
  rewrite Hg' in Hg. injection Hg as <- <-. cbn in Hr. assert (room0 = room) as -> by congruence.
  unfold writer_write. cbn [c_writer g set_phase set_reader].
  destruct (tr_fault (c_writer c)) as [e|] eqn:Hf; cbn; rewrite join_world_set_conn;
    change (next_id (set_conn cid g w)) with (next_id w); apply star_one.
  - by eapply A_join_fail.
  - by eapply A_join.
Qed.

Lemma iter_payload_asteps tick cid c n w w' :
  core w -> w_conns w !! cid = Some c -> c_phase c = AwaitPayload n ->
  handle_iter tick cid w = Some w' -> exists ls, asteps tick w ls w' /\ fed_of ls = 0%nat.
Proof.
  intros Hcore Hc Hph. assert (is_open c = true) as Ho by (unfold is_open; by rewrite Hph).
  unfold handle_iter. rewrite Hc. cbn [mbind option_bind]. rewrite Hph.
  destruct (readexactly (Z.to_nat n) (c_reader c)) as [|e rd|payload rd] eqn:Hrd; [done|..].
  { intros [= <-]. apply readexactly_raised in Hrd as (Hl & He & Hend).
    eexists. split; [eapply read_finish_asteps; by rewrite ?He|done]. }
  pose proof (co_phase _ Hcore _ _ Hc) as Hn. unfold phase_ok in Hn. rewrite Hph in Hn.
  apply readexactly_data in Hrd as (Hbuf & Hlen & _ & He).
  assert (length (rd_buf (c_reader c)) = length payload + length (rd_buf rd))%nat as Hl
    by (by rewrite Hbuf, length_app).
  set (g := fun c => set_phase AwaitHeader (set_reader rd c)).
  assert (astep tick w (0, 0)%nat (set_conn cid g w)) as Hread.
  { rewrite (set_conn_const _ _ _ c Hc). eapply (A_reader _ _ _ c _ 0); try done; try congruence.
    - unfold cpot. cbn. lia.
    - cbn. by rewrite He. }
  pose proof (process_cases tick cid n payload (set_conn cid g w)) as Hp.
  destruct payload as [|b payload]; [cbn in Hlen; lia|]. cbn [head] in Hp. rewrite Hp.
  case_match eqn:Hj; [|case_match eqn:Hm].
  - zbool. pose proof (join_asteps tick cid c rd (b :: payload) w Hcore Hc Ho) as HJ.
    fold g in HJ. destruct (process_join tick cid (b :: payload) (set_conn cid g w)) as [w1 o].
    unfold cpot in HJ. rewrite Hph in HJ. specialize (HJ ltac:(lia) ltac:(lia)).
    destruct o; intros [= <-]; by eexists.
  - zbool. destruct (process_move_spec cid (g c) (b :: payload) (set_conn cid g w)
      (set_conn_lookup _ _ _ _ Hc) ltac:(lia)) as [->|(r & seq & dx & dy & Hr & Ha & ->)];
      intros [= <-].
    + eexists. split; [by apply star_one|done].
    + exists [(0, 0); (0, 0)]%nat. split; [|done]. eapply star_cons; [done|]. apply star_one. apply (A_move _ _ cid (g c)); [by apply set_conn_lookup|done..].
  - intros [= <-]. eexists. split; [by apply star_one|done].
Qed.

Lemma handle_iter_asteps tick cid w w' :
  core w -> handle_iter tick cid w = Some w' ->
  exists ls, asteps tick w ls w' /\ fed_of ls = 0%nat.
Proof.
  intros Hcore H. destruct (w_conns w !! cid) as [c|] eqn:Hc.
  - destruct (c_phase c) as [|n|e] eqn:Hph.
    + by eapply iter_header_asteps.
    + by eapply iter_payload_asteps.
    + unfold handle_iter in H. rewrite Hc in H. cbn in H. by rewrite Hph in H.
  - unfold handle_iter in H. by rewrite Hc in H.
Qed.

Lemma run_handler_asteps tick fuel cid w :
  core w -> exists ls, asteps tick w ls (run_handler tick fuel cid w) /\ fed_of ls = 0%nat.
Proof.
  revert w. induction fuel as [|fuel IH]; intros w Hcore; cbn.
  - exists []. split; [constructor|done].
  - destruct (handle_iter tick cid w) as [w1|] eqn:H1; [|exists []; split; [constructor|done]].
    destruct (handle_iter_asteps _ _ _ _ Hcore H1) as (ls1 & Hs1 & Hf1).
    destruct (IH w1) as (ls2 & Hs2 & Hf2); [by eapply core_asteps|].
    exists (ls1 ++ ls2). split; [by eapply star_app|]. rewrite fed_of_app. lia.
Qed.

(** Bytes an event brings in. *)
Definition ev_bytes (ev : event) : nat := match ev with EvData _ bs => length bs | _ => 0 end.
Definition bytes_in (evs : list event) : nat := sum_list (ev_bytes <$> evs).

Lemma exec_asteps tick w ev w' :
  core w -> exec tick w ev = Some w' ->
  exists ls, asteps tick w ls w' /\ fed_of ls = ev_bytes ev.
Proof.
  intros Hcore H. destruct ev as [|cid bs|cid|cid e|cid e|cid|r clock]; cbn [exec] in H.
  - injection H as <-. eexists. split; [eapply star_one, A_accept|done].
  - destruct (w_conns w !! cid) as [c|] eqn:Hc; [|done]. cbn in H. case_match; [done|].
    injection H as <-. rewrite (set_conn_const _ _ _ c Hc). eexists. split.
    + eapply star_one, (A_reader _ _ _ c _ (length bs)); try done; try congruence.
      unfold cpot. cbn. rewrite length_app. lia.
    + unfold fed_of. cbn. lia.
  - destruct (w_conns w !! cid) as [c|] eqn:Hc; [|done]. cbn in H.
    injection H as <-. rewrite (set_conn_const _ _ _ c Hc). eexists. split.
    + eapply star_one, (A_reader _ _ _ c _ 0); try done; try congruence. unfold cpot. cbn. lia.
    + done.
  - destruct (w_conns w !! cid) as [c|] eqn:Hc; [|done]. cbn in H.
    injection H as <-. rewrite (set_conn_const _ _ _ c Hc). eexists. split.
    + eapply star_one, (A_reader _ _ _ c _ 0); try done; try congruence. unfold cpot. cbn. lia.
    + done.
  - destruct (w_conns w !! cid) as [c|] eqn:Hc; [|done]. cbn in H.
    injection H as <-. eexists. split; [by eapply star_one, A_fault|done].
  - destruct (w_conns w !! cid) as [c|] eqn:Hc; [|done]. cbn in H. injection H as <-.
    by apply run_handler_asteps.
  - unfold wake_room in H. destruct (w_heap w !! r) as [room|] eqn:Hr; [|done]. cbn in H.
    destruct (run_wake room clock) as [[[[room' frs] o] [|]]|] eqn:Hw; [|done..].
    destruct o; cbn in H; [|done|]; injection H as <-;
      (eexists; split; [by eapply star_one, A_wake|done]).
Qed.

(** Runs of the event loop are runs of atomic steps. *)
Lemma runs_asteps tick evs w :
  runs tick evs w ->
  exists ls, asteps tick World_init ls w /\ fed_of ls = bytes_in evs.
Proof.
  unfold runs. assert (forall w0, core w0 -> star (sys_step tick) w0 evs w ->
    exists ls, asteps tick w0 ls w /\ fed_of ls = bytes_in evs) as H; [|by apply H, core_init].
  intros w0 Hcore Hs. induction Hs as [|w0 ev w1 evs w Hstep Hs IH].
  - exists []. split; [constructor|done].
  - destruct (exec_asteps _ _ _ _ Hcore Hstep) as (ls1 & Hs1 & Hf1).
    destruct IH as (ls2 & Hs2 & Hf2); [by eapply core_asteps|].
    exists (ls1 ++ ls2). split; [by eapply star_app|]. rewrite fed_of_app. cbn. unfold bytes_in in *. cbn. lia.
Qed.

Lemma core_runs tick evs w : runs tick evs w -> core w.
Proof.
  intros (ls & Hs & _)%runs_asteps. by eapply core_asteps; [apply core_init|].
Qed.
