(* ===== verification/ServerInv.v ===== *)
(** * Invariants of the server process

    [Preserve] reduces the preservation of an invariant by the atomic steps to
    one obligation per primitive update; two invariants are then proved with
    it: what has been written to each connection ([frames_inv]) and, as long as
    the 32-bit id counter has not wrapped, which room entries each connection
    owns ([owner_inv]). *)

From Stdlib Require Import ZArith Lia.
From stdpp Require Import gmap.
From S2P Require Import Prelude PyDict PyFloat PyStruct Wire Room.
From S2P Require Import RoomFrames RoomSpec RoomProps RoomThms Server ServerSteps.

Open Scope Z_scope.

Definition add_conn (w : World) : World :=
  mkWorld (w_next_pid w) (w_heap w) (w_rooms w) (w_conns w ++ [Conn_init]).

Definition add_room (tick : float) (room_id : Z) (w : World) : World :=
  mkWorld (w_next_pid w) (w_heap w ++ [Room_init room_id tick])
    (<[room_id := length (w_heap w)]> (w_rooms w)) (w_conns w).

Definition set_fault (e : exn) (c : Conn) : Conn :=
  set_writer (mkTransport (tr_out (c_writer c)) (Some e) (tr_closed (c_writer c))) c.

(** [write] on a connection record. *)
Definition cwrite (fr : bytes) (c : Conn) : Conn := set_writer (writer_write fr (c_writer c)).1 c.

Lemma conn_write_eq cid fr w : (conn_write cid fr w).1 = set_conn cid (cwrite fr) w.
Proof.
  unfold conn_write. destruct (w_conns w !! cid) as [c|] eqn:Hc.
  - destruct (writer_write fr (c_writer c)) as [t o] eqn:Hw. cbn.
    rewrite !(set_conn_eq _ _ _ _ Hc). unfold cwrite. by rewrite Hw.
  - unfold set_conn. rewrite alter_lookup_none by done. by destruct w.
Qed.

(** A room has an entry for connection [cid]. *)
Definition member (w : World) (cid : nat) : Prop :=
  exists r room pid, w_heap w !! r = Some room /\ (pid, cid) ∈ r_conns room.

(** What the record of a connection becomes when it joins. *)
Definition joined_conn (c c' : Conn) (r : nat) (pid room_id : Z) : Prop :=
  is_open c' = true /\ c_room c' = Some r /\ c_pid c' = pid /\
  ((tr_fault (c_writer c) = None /\
    c_writer c' = mkTransport (tr_out (c_writer c) ++ [frame (encode (Joined pid room_id))]) None
                    (tr_closed (c_writer c))) \/
   (tr_fault (c_writer c) <> None /\ c_writer c' = c_writer c)).

Section Preserve.
Variable tick : float.
(** [P j w]: the invariant, [j] ids having been handed out. *)
Variable P : nat -> World -> Prop.

Hypothesis P_accept : forall j w, core w -> P j w -> P j (add_conn w).
Hypothesis P_conn : forall j w cid c c',
  core w -> w_conns w !! cid = Some c ->
  c_writer c' = c_writer c \/ (exists e, c' = set_fault e c) ->
  c_room c' = c_room c -> c_pid c' = c_pid c -> is_open c' = is_open c ->
  (rd_exc (c_reader c) <> None -> rd_exc (c_reader c') <> None) ->
  (is_open c = false -> c_phase c' = c_phase c) ->
  P j w -> P j (set_conn cid (fun _ => c') w).
Hypothesis P_new_room : forall j w room_id,
  core w -> w_rooms w !! room_id = None -> P j w -> P j (add_room tick room_id w).
Hypothesis P_join : forall j w cid c c' r room,
  core w -> w_conns w !! cid = Some c -> is_open c = true ->
  w_heap w !! r = Some room -> fits CI (r_id room) = true ->
  joined_conn c c' r (next_id w) (r_id room) ->
  P j w -> P (S j) (join_world cid c' r room (next_id w) w).
Hypothesis P_move : forall j w cid c r seq dx dy,
  core w -> w_conns w !! cid = Some c -> c_room c = Some r -> move_args_ok seq dx dy ->
  P j w -> P j (room_move r (c_pid c) seq dx dy w).
Hypothesis P_finish : forall j w cid c e,
  core w -> w_conns w !! cid = Some c -> is_open c = true ->
  end_cause c e \/ tr_fault (c_writer c) <> None -> P j w -> P j (finish cid e w).
Hypothesis P_ticked : forall j w r room room',
  core w -> w_heap w !! r = Some room -> same_members room room' -> room_wf room' ->
  P j w -> P j (set_heap (<[r := room']> (w_heap w)) w).
Hypothesis P_snapshot : forall j w cid c fr,
  core w -> w_conns w !! cid = Some c -> member w cid -> is_snapshot fr ->
  P j w -> P j (set_conn cid (fun _ => cwrite fr c) w).

Lemma get_room_inv j w room_id w1 r :
  core w -> P j w -> get_room tick room_id w = (w1, Ok r) ->
  P j w1 /\ w_conns w1 = w_conns w /\ next_id w1 = next_id w.
Proof.
  intros Hcore HP. unfold get_room. destruct (w_rooms w !! room_id) eqn:E; intros [= <- <-]; [done|].
  split; [|done]. by apply P_new_room.
Qed.

Lemma broadcasts_preserve j w cids frs :
  (forall cid, cid ∈ cids -> member w cid) -> Forall is_snapshot frs -> core w -> P j w ->
  P j (foldl (fun w fr => broadcast cids fr w) w frs).
Proof.
  intros Hm Hfrs Hcore HP.
  cut ((fun w' => P j w' /\ core w' /\ w_heap w' = w_heap w)
    (foldl (fun w fr => broadcast cids fr w) w frs)); [by intros (? & _)|].
  apply (broadcasts_inv _ is_snapshot); [|done|done].
  intros w' cid fr Hin Hfr (HP' & Hcore' & Hh). split_and!.
  - rewrite conn_write_eq. destruct (w_conns w' !! cid) as [c|] eqn:Hc.
    + rewrite (set_conn_const _ _ _ c Hc). apply P_snapshot; try done.
      destruct (Hm cid Hin) as (r & room & pid & ? & ?). exists r, room, pid. by rewrite Hh.
    + unfold set_conn. rewrite alter_lookup_none by done. by destruct w'.
  - by apply core_conn_write.
  - by destruct (conn_write_conns cid fr w') as (-> & _).
Qed.

Lemma astep_preserve j w l w' : core w -> astep tick w l w' -> P j w -> P (j + l.2) w'.
Proof using P_accept P_conn P_new_room P_join P_move P_finish P_ticked P_snapshot.
  intros Hcore Hs HP. destruct Hs as
    [w|w cid c c' fed Hc Hw Hr Hp Ho Hpot Hph He Hcl|w cid c e Hc
    |w cid c rd room_id r w1 room Hc Ho Hf Hl Hid Hg Hr Hri
    |w cid c rd room_id r w1 room e Hc Ho Hf Hl Hid Hg Hr Hri|w cid c r seq dx dy Hc Hr Ha
    |w cid c e Hc Ho Hend|w r room clock room' frs o t Hr Hw]; cbn [snd];
    rewrite ?Nat.add_0_r, ?Nat.add_1_r.
  - by apply P_accept.
  - eapply P_conn; eauto.
  - rewrite (set_conn_const _ _ _ c Hc). eapply P_conn; eauto.
  - destruct (get_room_inv _ _ _ _ _ Hcore HP Hg) as (HP1 & Hcs & Hn). rewrite <- Hn.
    pose proof (core_get_room _ _ _ _ _ Hcore Hid Hg).
    eapply P_join; [done|by rewrite Hcs|done..|by rewrite Hri| |done].
    split_and!; try done. left. by rewrite Hri.
  - destruct (get_room_inv _ _ _ _ _ Hcore HP Hg) as (HP1 & Hcs & Hn). rewrite <- Hn.
    pose proof (core_get_room _ _ _ _ _ Hcore Hid Hg).
    eapply P_finish.
    + apply core_join_world; [done|done|by rewrite Hcs; eauto|apply mask32_fits|done|done].
    + cbn. apply list_lookup_insert_eq. rewrite Hcs. by eapply lookup_lt_Some.
    + done.
    + right. cbn. by rewrite Hf.
    + eapply P_join; [done|by rewrite Hcs|done..|by rewrite Hri| |done].
      split_and!; try done. right. by rewrite Hf.
  - eapply P_move; eauto.
  - eapply P_finish; eauto.
  - pose proof (run_wake_members _ _ _ _ _ _ Hw) as Hsm.
    pose proof (run_wake_wf _ _ _ _ _ _ (co_wf _ Hcore _ _ Hr) Hw) as Hwf.
    pose proof (core_wake _ _ _ _ _ _ _ t Hcore Hr Hw) as Hcore'.
    apply broadcasts_preserve; [|by eapply run_wake_snapshots|done|].
    + intros cid Hin. unfold dict_values in Hin.
      apply list_elem_of_fmap in Hin as ([pid cid'] & -> & Hin).
      exists r, (set_task t room'), pid. split; [|done]. cbn.
      apply list_lookup_insert_eq. by eapply lookup_lt_Some.
    + eapply P_ticked; [done..| |done]. by apply room_wf_set_task.
Qed.

Lemma asteps_preserve j w ls w' :
  core w -> asteps tick w ls w' -> P j w -> P (j + joins_of ls) w'.
Proof using P_accept P_conn P_new_room P_join P_move P_finish P_ticked P_snapshot.
  intros Hcore Hs. revert j. induction Hs as [w|w l w1 ls w' Hstep Hs IH]; intros j HP.
  - cbn. by rewrite Nat.add_0_r.
  - unfold joins_of. cbn. rewrite Nat.add_assoc. apply IH; [by eapply core_astep|].
    by eapply astep_preserve.
Qed.
End Preserve.

(** ** Reading updated connections *)

Lemma lookup_set_conn cid f w cid' :
  w_conns (set_conn cid f w) !! cid' =
  if decide (cid = cid') then f <$> w_conns w !! cid' else w_conns w !! cid'.
Proof.
  cbn. case_decide; subst; [by rewrite list_lookup_alter_eq|by rewrite list_lookup_alter_ne].
Qed.

Lemma lookup_insert_conn {A} (l : list A) i j x y :
  <[i := x]> l !! j = Some y -> (i = j /\ y = x) \/ (i <> j /\ l !! j = Some y).
Proof.
  destruct (decide (i = j)) as [->|Hne].
  - intros H. left. split; [done|]. assert (j < length l)%nat as Hlt.
    { apply lookup_lt_Some in H. by rewrite length_insert in H. }
    rewrite list_lookup_insert_eq in H by done. congruence.
  - rewrite list_lookup_insert_ne by done. auto.
Qed.

Lemma lookup_add_conn w cid c :
  w_conns (add_conn w) !! cid = Some c ->
  w_conns w !! cid = Some c \/ (cid = length (w_conns w) /\ c = Conn_init).
Proof.
  cbn. intros [?|[? [? <-]%list_lookup_singleton_Some]]%lookup_app_Some; [by left|right].
  split; [lia|done].
Qed.

(** The effect of [finish] on an open connection. *)
Lemma finish_eq cid c e w :
  w_conns w !! cid = Some c ->
  exists out, finish cid e w =
    set_conn cid (fun c => set_phase (Finished out) (set_writer (writer_close (c_writer c)) c))
      (match c_room c with
       | Some r => if c_pid c =? 0 then w else room_leave r (c_pid c) w
       | None => w
       end).
Proof. intros Hc. unfold finish. rewrite Hc. eauto. Qed.

Lemma lookup_finish cid c e w cid' c' :
  w_conns w !! cid = Some c -> w_conns (finish cid e w) !! cid' = Some c' ->
  (cid = cid' /\ is_open c' = false /\ c_writer c' = writer_close (c_writer c) /\
     c_room c' = c_room c /\ c_pid c' = c_pid c) \/
  (cid <> cid' /\ w_conns w !! cid' = Some c').
Proof.
  intros Hc. destruct (finish_eq cid c e w Hc) as (out & ->). rewrite lookup_set_conn.
  assert (forall w2, w_conns w2 = w_conns w ->
    (if decide (cid = cid') then
      (fun c => set_phase (Finished out) (set_writer (writer_close (c_writer c)) c)) <$> w_conns w2 !! cid'
     else w_conns w2 !! cid') = Some c' ->
    (cid = cid' /\ is_open c' = false /\ c_writer c' = writer_close (c_writer c) /\
     c_room c' = c_room c /\ c_pid c' = c_pid c) \/ (cid <> cid' /\ w_conns w !! cid' = Some c')) as H.
  { intros w2 ->. case_decide as Hd; [subst; left|right; done]. rewrite Hc in H.
    cbn in H. by injection H as <-. }
  destruct (c_room c) as [r|]; [destruct (c_pid c =? 0)|]; by apply H.
Qed.

Lemma finish_heap cid c e w :
  w_conns w !! cid = Some c ->
  w_heap (finish cid e w) =
  match c_room c with
  | Some r => if c_pid c =? 0 then w_heap w
              else alter (fun room => leave room (c_pid c)) r (w_heap w)
  | None => w_heap w
  end /\ w_next_pid (finish cid e w) = w_next_pid w.
Proof.
  intros Hc. destruct (finish_eq cid c e w Hc) as (out & ->).
  destruct (c_room c) as [r|]; [destruct (c_pid c =? 0)|]; done.
Qed.

(** ** What is written to a connection *)

Definition is_server_frame (fr : bytes) : Prop := exists m, wf m /\ fr = frame (encode (A := server_msg) m).

Definition is_joined (fr : bytes) : Prop :=
  exists pid room_id, wf (Joined pid room_id) /\ fr = frame (encode (Joined pid room_id)).

(** Every buffer written is a whole frame of the protocol, and the first one
    acknowledges a JOIN. *)
Definition out_ok (out : list bytes) : Prop :=
  Forall is_server_frame out /\ forall fr, head out = Some fr -> is_joined fr.

Record frames_inv (w : World) : Prop := {
  fi_out cid c : w_conns w !! cid = Some c -> out_ok (tr_out (c_writer c));
  fi_member cid c : w_conns w !! cid = Some c -> member w cid ->
    tr_out (c_writer c) <> [] \/ tr_fault (c_writer c) <> None }.

Lemma out_ok_joined out pid room_id :
  fits CI pid = true -> fits CI room_id = true -> out_ok out ->
  out_ok (out ++ [frame (encode (Joined pid room_id))]).
Proof.
  intros Hp Hr [Hf Hh]. assert (wf (Joined pid room_id)) as Hwf.
  { cbn [wf server_codec server_wf]. by repeat constructor. }
  split.
  - apply Forall_app. split; [done|]. constructor; [|done]. by eexists.
  - intros fr. destruct out; cbn; [|apply Hh]. intros [= <-]. by eexists _, _.
Qed.

Lemma out_ok_snapshot out fr :
  is_snapshot fr -> out <> [] -> out_ok out -> out_ok (out ++ [fr]).
Proof.
  intros (t & es & Hwf & ->) Hne [Hf Hh]. split.
  - apply Forall_app. split; [done|]. constructor; [|done]. by eexists.
  - intros fr. destruct out; [done|]. apply Hh.
Qed.

Lemma member_heap w w' cid :
  (forall r room' pid, w_heap w' !! r = Some room' -> (pid, cid) ∈ r_conns room' ->
     exists r0 room, w_heap w !! r0 = Some room /\ (pid, cid) ∈ r_conns room) ->
  member w' cid -> member w cid.
Proof. intros H (r & room & pid & Hr & Hin). destruct (H _ _ _ Hr Hin) as (? & ? & ? & ?). by eexists _, _, _. Qed.

Lemma member_alter w r f cid :
  (forall room pid, (pid, cid) ∈ r_conns (f room) -> (pid, cid) ∈ r_conns room) ->
  member (set_heap (alter f r (w_heap w)) w) cid -> member w cid.
Proof.
  intros Hf. apply member_heap. cbn. intros r0 room' pid. rewrite list_lookup_alter.
  case_decide; [subst|intros; eauto].
  intros Hr Hin. apply fmap_Some in Hr as (room & Hr & ->). eauto.
Qed.

Lemma member_finish cid c e w cid' :
  w_conns w !! cid = Some c -> member (finish cid e w) cid' -> member w cid'.
Proof.
  intros Hc. destruct (finish_heap cid c e w Hc) as [Hh _]. intros Hm.
  destruct (c_room c) as [r|]; [destruct (c_pid c =? 0)|];
    [by apply (member_heap w (finish cid e w)); [rewrite Hh; eauto|]
    | |by apply (member_heap w (finish cid e w)); [rewrite Hh; eauto|]].
  apply (member_alter w r (fun room => leave room (c_pid c))).
  - intros room pid [_ ?]%dict_pop_elem. done.
  - destruct Hm as (r' & room & pid & ? & ?). exists r', room, pid. cbn. by rewrite <- Hh.
Qed.

Lemma frames_init : frames_inv World_init.
Proof. split; cbn; done. Qed.

(** Changing one connection's writer. *)
Lemma frames_update w w' cid c c' :
  frames_inv w -> w_conns w !! cid = Some c ->
  (forall cid', member w' cid' -> cid' = cid \/ member w cid') ->
  w_conns w' = <[cid := c']> (w_conns w) ->
  out_ok (tr_out (c_writer c')) ->
  (member w' cid -> tr_out (c_writer c') <> [] \/ tr_fault (c_writer c') <> None) ->
  frames_inv w'.
Proof.
  intros [Ho Hm] Hc Hmem Hcs Hok Hok'. split; intros cid1 c1; rewrite Hcs;
    intros [[<- ->]|[Hne Hc1]]%lookup_insert_conn; try done; [by apply (Ho cid1)|].
  intros [->|?]%Hmem; [done|]. by apply (Hm cid1).
Qed.

Lemma frames_join w cid c c' r room :
  core w -> w_conns w !! cid = Some c -> w_heap w !! r = Some room ->
  fits CI (r_id room) = true -> joined_conn c c' r (next_id w) (r_id room) ->
  frames_inv w -> frames_inv (join_world cid c' r room (next_id w) w).
Proof.
  intros Hcore Hc Hr Hid (_ & _ & _ & Hw) Hi.
  apply (frames_update w _ cid c c'); [done|done| |done|..].
  - intros cid' (r' & room' & pid & [[<- ->]|[Hne Hr']]%lookup_insert_conn & Hin).
    + apply dict_set_elem in Hin as [[-> ->]|Hin]; [by left|right]. by exists r, room, pid.
    + right. by exists r', room', pid.
  - pose proof (fi_out _ Hi _ _ Hc). destruct Hw as [[_ ->]|[_ ->]]; [|done].
    apply out_ok_joined; [apply mask32_fits|done..].
  - intros _. destruct Hw as [[_ ->]|[Hf ->]]; [left; cbn|by right]. by destruct (tr_out _).
Qed.

Lemma frames_finish w cid c e :
  w_conns w !! cid = Some c -> frames_inv w -> frames_inv (finish cid e w).
Proof.
  intros Hc [Ho Hm]. split.
  - intros cid1 c1 [(<- & _ & -> & _)|[_ Hc1]]%(lookup_finish _ _ _ _ _ _ Hc);
      [by apply (Ho cid)|by apply (Ho cid1)].
  - intros cid1 c1 [(<- & _ & -> & _)|[_ Hc1]]%(lookup_finish _ _ _ _ _ _ Hc)
      Hmem%(member_finish _ _ _ _ _ Hc); [by apply (Hm cid)|by apply (Hm cid1)].
Qed.

(** Updates of rooms that add no member. *)
Lemma frames_rooms w w' :
  w_conns w' = w_conns w -> (forall cid, member w' cid -> member w cid) ->
  frames_inv w -> frames_inv w'.
Proof.
  intros Hcs Hmem [Ho Hm]. split; intros cid c; rewrite Hcs; [apply Ho|].
  intros Hc Hmem'%Hmem. by apply (Hm cid).
Qed.

Lemma frames_asteps tick ls w : asteps tick World_init ls w -> frames_inv w.
Proof.
  intros Hs. eapply (asteps_preserve tick (fun _ => frames_inv)) with (j := 0%nat);
    [..|apply core_init|exact Hs|apply frames_init]; clear.
  - intros _ w Hcore [Ho Hm]. split; intros cid c [Hc|[-> ->]]%lookup_add_conn.
    + by apply (Ho cid).
    + by split.
    + intros Hmem. by apply (Hm cid).
    + intros (r & room & pid & Hr & Hin). exfalso.
      by destruct (co_cids _ Hcore _ _ _ _ Hr Hin) as [? ?%lookup_lt_Some]; lia.
  - intros _ w cid c c' Hcore Hc Hw _ _ _ _ _ Hi.
    apply (frames_update w _ cid c c'); [done|done|by intros ? Hm; right; exact Hm|by rewrite (set_conn_eq _ _ _ _ Hc)|..].
    + destruct Hw as [->|[e ->]]; apply (fi_out _ Hi cid c Hc).
    + intros Hmem. destruct Hw as [->|[e ->]]; [by apply (fi_member _ Hi cid)|by right].
  - intros _ w room_id Hcore _. apply frames_rooms; [done|]. intros cid (r & room & pid & Hr & Hin).
    cbn in Hr. apply lookup_app_Some in Hr as [Hr|[_ [_ <-]%list_lookup_singleton_Some]].
    + by exists r, room, pid.
    + by apply not_elem_of_nil in Hin.
  - intros. by eapply frames_join.
  - intros _ w cid c r seq dx dy _ _ _ _. apply frames_rooms; [done|]. intros cid'.
    apply member_alter. intros room pid. unfold move. by case_match.
  - intros. by eapply frames_finish.
  - intros _ w r room room' Hcore Hr (_ & Hc & _) _. apply frames_rooms; [done|].
    intros cid (r' & room1 & pid & [[<- ->]|[Hne Hr']]%lookup_insert_conn & Hin).
    + exists r, room, pid. by rewrite <- Hc.
    + by exists r', room1, pid.
  - intros _ w cid c fr Hcore Hc Hmem Hfr Hi.
    apply (frames_update w _ cid c (cwrite fr c));
      [done|done|by intros ? Hm; right; exact Hm|by rewrite (set_conn_eq _ _ _ _ Hc)|..].
    + unfold cwrite, writer_write. pose proof (fi_out _ Hi _ _ Hc).
      destruct (fi_member _ Hi _ _ Hc Hmem) as [Hne|Hf]; destruct (tr_fault (c_writer c)); try done.
      by apply out_ok_snapshot.
    + intros _. unfold cwrite, writer_write. destruct (tr_fault (c_writer c)) eqn:E; cbn.
      * right. by rewrite E.
      * left. by destruct (tr_out _).
Qed.
