(* ===== verification/ServerOwner.v ===== *)
(** * Who owns which player

    [owner_inv j w]: after [j] joins, as long as the 32-bit counter of ids has
    not wrapped, ids are unique over all rooms, the handler of every open
    connection that joined finds its own entry in its room, and the number of
    room entries of a connection is known exactly.  [joins_bound] bounds [j] by
    the number of bytes received. *)

From Stdlib Require Import ZArith Lia.
From stdpp Require Import gmap.
From S2P Require Import Prelude PyDict PyFloat PyStruct Wire Room.
From S2P Require Import RoomFrames RoomSpec RoomProps RoomThms Server ServerSteps.
From S2P Require Import ServerInv.

Open Scope Z_scope.

(** ** Counting *)

Definition members (cid : nat) (room : Room) : nat :=
  length (filter (fun kv : Z * nat => kv.2 = cid) (r_conns room)).

(** The entries [pid -> cid] in the rooms of the process. *)
Definition entries (w : World) (cid : nat) : nat := sum_list (members cid <$> w_heap w).

(** A frame that acknowledges a JOIN. *)
Definition is_joined_frame (fr : bytes) : bool :=
  match decode_server (drop 4 fr) with Some (Joined _ _) => true | _ => false end.

(** The JOINED frames written to a connection. *)
Definition joined (c : Conn) : nat :=
  length (filter (fun fr => is_joined_frame fr = true) (tr_out (c_writer c))).

Lemma drop_frame p : drop 4 (frame p) = p.
Proof.
  unfold frame. rewrite <- (length_be_pack 4 (Z.of_nat (length p))) at 1. apply drop_app_length.
Qed.

Lemma joined_app c out fr :
  tr_out (c_writer c) = out ++ [fr] ->
  joined c = (length (filter (fun fr => is_joined_frame fr = true) out) +
              if is_joined_frame fr then 1 else 0)%nat.
Proof.
  intros H. unfold joined. rewrite H, filter_app, length_app. f_equal.
  rewrite filter_cons. by destruct (is_joined_frame fr).
Qed.

Lemma is_joined_frame_joined pid room_id :
  fits CI pid = true -> fits CI room_id = true ->
  is_joined_frame (frame (encode (Joined pid room_id))) = true.
Proof.
  intros Hp Hr. unfold is_joined_frame. rewrite drop_frame.
  cbn [encode server_codec]. rewrite decode_encode_server; [done|].
  cbn [server_wf]. by repeat constructor.
Qed.

Lemma is_joined_frame_snapshot fr : is_snapshot fr -> is_joined_frame fr = false.
Proof.
  intros (t & es & Hwf & ->). unfold is_joined_frame. rewrite drop_frame.
  cbn [encode server_codec]. by rewrite decode_encode_server.
Qed.

Lemma sum_list_insert {A} (f : A -> nat) (l : list A) i x y :
  l !! i = Some x -> (sum_list (f <$> <[i := y]> l) + f x = sum_list (f <$> l) + f y)%nat.
Proof.
  assert (forall a l, sum_list (f <$> a :: l) = f a + sum_list (f <$> l))%nat as Hc by done.
  revert i. induction l as [|z l IH]; intros [|i] H; [done..| |].
  - injection H as ->. change (<[0%nat := y]> (x :: l)) with (y :: l). rewrite !Hc. lia.
  - change (<[S i := y]> (z :: l)) with (z :: <[i := y]> l). rewrite !Hc.
    specialize (IH i H). lia.
Qed.

Lemma members_enter cid' room pid cid :
  pid ∉ dict_keys (r_conns room) ->
  members cid' (enter room pid cid) = (members cid' room + if decide (cid = cid') then 1 else 0)%nat.
Proof.
  intros H. unfold members. cbn. rewrite dict_keys_set_new, filter_app, length_app by done.
  f_equal. rewrite filter_cons. cbn [snd]. by destruct (decide (cid = cid')).
Qed.

Lemma filter_pop_count (d : dict Z nat) pid cid cid' :
  NoDup (dict_keys d) -> (pid, cid) ∈ d ->
  (length (filter (fun kv : Z * nat => kv.2 = cid') (dict_pop d pid)) +
     (if decide (cid = cid') then 1 else 0) =
   length (filter (fun kv : Z * nat => kv.2 = cid') d))%nat.
Proof.
  unfold dict_keys, dict_pop. induction d as [|[k v] d IH]; [by intros _ ?%not_elem_of_nil|].
  cbn [fmap list_fmap fst]. intros [Hk Hnd]%NoDup_cons Hin. rewrite !filter_cons. cbn [fst snd].
  apply elem_of_cons in Hin as [Hin|Hin].
  - injection Hin as <- <-. rewrite decide_False by tauto.
    assert (filter (fun kv : Z * nat => kv.1 <> pid) d = d) as ->.
    { clear -Hk. induction d as [|[k v] d IH]; [done|]. cbn in Hk.
      apply not_elem_of_cons in Hk as [? ?]. rewrite filter_cons, decide_True by (cbn; congruence).
      by rewrite IH. }
    case_decide; cbn; lia.
  - assert (k <> pid) by (intros ->; apply Hk; by apply (list_elem_of_fmap_2 fst _ (pid, cid))).
    rewrite decide_True by done. rewrite filter_cons. cbn [snd].
    specialize (IH Hnd Hin). destruct (decide (v = cid')); cbn; lia.
Qed.

Lemma members_leave cid' room pid cid :
  room_wf room -> (pid, cid) ∈ r_conns room ->
  (members cid' (leave room pid) + (if decide (cid = cid') then 1 else 0) = members cid' room)%nat.
Proof.
  intros [Hk Hnd _ _] Hin. apply filter_pop_count; [by rewrite <- Hk|done].
Qed.

Lemma entries_member w cid : ~ member w cid -> entries w cid = 0%nat.
Proof.
  intros H. unfold entries. assert (Forall (fun room => members cid room = 0%nat) (w_heap w)) as Hf.
  { apply Forall_lookup. intros r room Hr. unfold members.
    destruct (filter _ (r_conns room)) as [|[pid cid0] l] eqn:E; [done|]. exfalso. apply H.
    assert ((pid, cid0) ∈ filter (fun kv : Z * nat => kv.2 = cid) (r_conns room)) as Hin
      by (rewrite E; left).
    apply list_elem_of_filter in Hin as [Heq Hin]. cbn in Heq. subst. by exists r, room, pid. }
  induction Hf as [|room h Hr Hf IH]; [done|]. cbn. by rewrite Hr.
Qed.

(** ** The invariant *)

Definition expected (c : Conn) : nat := if is_open c then joined c else pred (joined c).

Record owner_ok (j : nat) (w : World) : Prop := {
  oo_bound r room pid cid :
    w_heap w !! r = Some room -> (pid, cid) ∈ r_conns room -> 1 <= pid <= Z.of_nat j;
  oo_uniq r1 r2 room1 room2 pid cid1 cid2 :
    w_heap w !! r1 = Some room1 -> w_heap w !! r2 = Some room2 ->
    (pid, cid1) ∈ r_conns room1 -> (pid, cid2) ∈ r_conns room2 -> r1 = r2;
  oo_live cid c r :
    w_conns w !! cid = Some c -> is_open c = true -> c_room c = Some r ->
    exists room, w_heap w !! r = Some room /\ (c_pid c, cid) ∈ r_conns room;
  oo_none cid c :
    w_conns w !! cid = Some c -> c_room c = None -> joined c = 0%nat;
  oo_count cid c :
    w_conns w !! cid = Some c -> tr_fault (c_writer c) = None -> entries w cid = expected c }.

Record owner_inv (j : nat) (w : World) : Prop := {
  oi_pid : w_next_pid w = Z.of_nat j mod 2 ^ 32;
  oi_ok : Z.of_nat j < 2 ^ 32 -> owner_ok j w }.

Lemma owner_init : owner_inv 0 World_init.
Proof. by split; [|split]. Qed.

(** An update of the connections alone. *)
Lemma owner_conns j w cid c c' :
  owner_inv j w -> w_conns w !! cid = Some c -> c_room c' = c_room c -> c_pid c' = c_pid c ->
  is_open c' = is_open c -> joined c' = joined c ->
  (tr_fault (c_writer c') = None -> tr_fault (c_writer c) = None) ->
  owner_inv j (set_conn cid (fun _ => c') w).
Proof.
  intros [Hpid Hok] Hc Hr Hp Ho Hj Hf. rewrite (set_conn_eq _ _ _ _ Hc). split; [done|].
  intros Hlt. destruct (Hok Hlt) as [Hb Hu Hl Hn Hct]. split; cbn; [done|done|..].
  - intros cid1 c1 r [[<- ->]|[_ Hc1]]%lookup_insert_conn; [|by apply Hl].
    rewrite Ho, Hr, Hp. by apply Hl.
  - intros cid1 c1 [[<- ->]|[_ Hc1]]%lookup_insert_conn; [|by eapply Hn].
    rewrite Hr, Hj. by eapply Hn.
  - intros cid1 c1 [[<- ->]|[_ Hc1]]%lookup_insert_conn; [|by apply Hct].
    intros Hf'%Hf. unfold expected. rewrite Ho, Hj. by apply (Hct cid).
Qed.

(** An update of a room that keeps its members. *)
Lemma owner_room j w r room room' :
  owner_inv j w -> w_heap w !! r = Some room -> r_conns room' = r_conns room ->
  owner_inv j (set_heap (<[r := room']> (w_heap w)) w).
Proof.
  intros [Hpid Hok] Hr Hc. split; [done|]. intros Hlt. destruct (Hok Hlt) as [Hb Hu Hl Hn Hct].
  assert (forall r1 room1, <[r := room']> (w_heap w) !! r1 = Some room1 ->
    exists room0, w_heap w !! r1 = Some room0 /\ r_conns room0 = r_conns room1) as Hback.
  { intros r1 room1 [[<- ->]|[_ H1]]%lookup_insert_conn; eauto. }
  assert (forall cid, entries (set_heap (<[r := room']> (w_heap w)) w) cid = entries w cid) as He.
  { intros cid. unfold entries. cbn. pose proof (sum_list_insert (members cid) _ _ _ room' Hr) as H.
    unfold members in H at 2 4. rewrite Hc in H. lia. }
  split; cbn.
  - intros r1 room1 pid cid (room0 & Hr0 & <-)%Hback. by eapply Hb.
  - intros r1 r2 room1 room2 pid cid1 cid2 (? & ? & <-)%Hback (? & ? & <-)%Hback. by eapply Hu.
  - intros cid c r1 Hc1 Ho Hr1. destruct (Hl _ _ _ Hc1 Ho Hr1) as (room0 & Hr0 & Hin).
    destruct (decide (r = r1)) as [<-|Hne].
    + exists room'. rewrite list_lookup_insert_eq by (by eapply lookup_lt_Some).
      split; [done|]. rewrite Hc. congruence.
    + exists room0. by rewrite list_lookup_insert_ne.
  - done.
  - intros cid c Hc1 Hf. transitivity (entries w cid); [apply He|by apply Hct].
Qed.

(** ** The interesting updates *)

Lemma next_id_fresh j w :
  owner_inv j w -> Z.of_nat (S j) < 2 ^ 32 -> next_id w = Z.of_nat (S j).
Proof.
  intros [Hpid _] Hlt. unfold next_id. rewrite mask32_mod, Hpid.
  rewrite (Z.mod_small (Z.of_nat j)) by lia. rewrite Z.mod_small; lia.
Qed.

Lemma owner_fresh j w r room :
  owner_ok j w -> w_heap w !! r = Some room -> Z.of_nat (S j) ∉ dict_keys (r_conns room).
Proof.
  intros Hok Hr Hin. unfold dict_keys in Hin.
  apply list_elem_of_fmap in Hin as ([pid cid] & Heq & Hin). cbn in Heq. subst pid.
  pose proof (oo_bound _ _ Hok _ _ _ _ Hr Hin). lia.
Qed.

Lemma enter_elem room pid cid pid' cid' :
  pid ∉ dict_keys (r_conns room) ->
  (pid', cid') ∈ r_conns (enter room pid cid) <->
  (pid' = pid /\ cid' = cid) \/ (pid', cid') ∈ r_conns room.
Proof.
  intros H. cbn. rewrite dict_keys_set_new, elem_of_app, list_elem_of_singleton by done.
  split; [intros [?|?]; [by right|left; by simplify_eq]|].
  intros [[-> ->]|?]; [by right|by left].
Qed.

Lemma entries_join j w cid cid' c r room :
  owner_ok j w -> w_heap w !! r = Some room ->
  entries (join_world cid c r room (Z.of_nat (S j)) w) cid' =
  (entries w cid' + if decide (cid = cid') then 1 else 0)%nat.
Proof.
  intros Hok Hr. unfold entries. cbn [w_heap join_world].
  pose proof (sum_list_insert (members cid') _ _ _ (enter room (Z.of_nat (S j)) cid) Hr) as H.
  rewrite members_enter in H by (by eapply owner_fresh). lia.
Qed.

Lemma joined_join c c' r pid room_id :
  fits CI pid = true -> fits CI room_id = true -> joined_conn c c' r pid room_id ->
  (tr_fault (c_writer c') = None -> tr_fault (c_writer c) = None /\ joined c' = S (joined c)) .
Proof.
  intros Hp Hr (_ & _ & _ & [[Hf Hw]|[Hf ->]]) H; [|done]. split; [done|].
  rewrite (joined_app c' (tr_out (c_writer c)) (frame (encode (Joined pid room_id)))) by by rewrite Hw.
  rewrite is_joined_frame_joined by done. unfold joined. lia.
Qed.

Lemma owner_join j w cid c c' r room :
  w_conns w !! cid = Some c -> is_open c = true -> w_heap w !! r = Some room ->
  fits CI (r_id room) = true -> joined_conn c c' r (next_id w) (r_id room) ->
  owner_inv j w -> owner_inv (S j) (join_world cid c' r room (next_id w) w).
Proof.
  intros Hc Ho Hr Hid Hj Hi. split.
  { cbn. unfold next_id. rewrite mask32_mod, (oi_pid _ _ Hi), Nat2Z.inj_succ.
    by rewrite Zplus_mod_idemp_l. }
  intros Hlt. pose proof (next_id_fresh _ _ Hi Hlt) as Hn.
  pose proof (oi_ok _ _ Hi ltac:(lia)) as Hok. pose proof Hok as [Hb Hu Hl Hno Hct].
  pose proof (owner_fresh _ _ _ _ Hok Hr) as Hfresh.
  pose proof (joined_join _ _ _ _ _ (mask32_fits _) Hid Hj) as Hjj.
  destruct Hj as (Ho' & Hroom & Hpid & _). rewrite Hn in *.
  assert (forall r1 room1 pid cid1,
    <[r := enter room (Z.of_nat (S j)) cid]> (w_heap w) !! r1 = Some room1 ->
    (pid, cid1) ∈ r_conns room1 ->
    (r1 = r /\ pid = Z.of_nat (S j)) \/
    exists room0, w_heap w !! r1 = Some room0 /\ (pid, cid1) ∈ r_conns room0) as Hback.
  { intros r1 room1 pid cid1 [[<- ->]|[_ H1]]%lookup_insert_conn; [|by eauto].
    intros [[-> ->]|Hin]%enter_elem; eauto. }
  split; cbn [w_heap w_conns join_world].
  - intros r1 room1 pid cid1 Hr1 Hin. destruct (Hback _ _ _ _ Hr1 Hin) as [[-> ->]|(room0 & H0 & Hin0)].
    + lia.
    + pose proof (Hb _ _ _ _ H0 Hin0). lia.
  - intros r1 r2 room1 room2 pid cid1 cid2 Hr1 Hr2 Hin1 Hin2.
    destruct (Hback _ _ _ _ Hr1 Hin1) as [[-> Hp1]|(room01 & H01 & Hin01)],
      (Hback _ _ _ _ Hr2 Hin2) as [[-> Hp2]|(room02 & H02 & Hin02)]; try done.
    + pose proof (Hb _ _ _ _ H02 Hin02). lia.
    + pose proof (Hb _ _ _ _ H01 Hin01). lia.
    + by eapply Hu.
  - intros cid1 c1 r1 [[<- ->]|[Hne Hc1]]%lookup_insert_conn Ho1 Hr1.
    + assert (r1 = r) as -> by congruence. exists (enter room (Z.of_nat (S j)) cid).
      rewrite list_lookup_insert_eq by (by eapply lookup_lt_Some). split; [done|].
      rewrite Hpid. apply enter_elem; auto.
    + destruct (Hl _ _ _ Hc1 Ho1 Hr1) as (room0 & Hr0 & Hin).
      destruct (decide (r = r1)) as [<-|Hner].
      * exists (enter room (Z.of_nat (S j)) cid). simplify_eq.
        rewrite list_lookup_insert_eq by (by eapply lookup_lt_Some). split; [done|].
        apply enter_elem; auto.
      * exists room0. by rewrite list_lookup_insert_ne.
  - intros cid1 c1 [[<- ->]|[Hne Hc1]]%lookup_insert_conn Hr1; [congruence|by eapply Hno].
  - intros cid1 c1 Hc1 Hf. erewrite entries_join by done.
    apply lookup_insert_conn in Hc1 as [[<- ->]|[Hne Hc1]].
    + destruct (Hjj Hf) as [Hf0 Hj1]. rewrite decide_True by done.
      rewrite (Hct _ _ Hc Hf0). unfold expected. rewrite Ho, Ho', Hj1. lia.
    + rewrite decide_False by done. rewrite (Hct _ _ Hc1 Hf). lia.
Qed.

Lemma joined_finish c c' : c_writer c' = writer_close (c_writer c) -> joined c' = joined c.
Proof. intros H. unfold joined. by rewrite H. Qed.

(** The heap afterwards: some rooms' entries, minus the one of [cid]. *)
Lemma finish_back cid c e w :
  w_conns w !! cid = Some c -> forall r1 room1, w_heap (finish cid e w) !! r1 = Some room1 ->
  exists room0, w_heap w !! r1 = Some room0 /\
    forall pid cid', (pid, cid') ∈ r_conns room1 -> (pid, cid') ∈ r_conns room0.
Proof.
  intros Hc. destruct (finish_heap cid c e w Hc) as [-> _]. intros r1 room1. destruct (c_room c) as [r|]; [|eauto].
  destruct (c_pid c =? 0); [eauto|]. rewrite list_lookup_alter. case_decide; [subst|eauto].
  intros (room0 & Hr0 & ->)%fmap_Some. exists room0. split; [done|].
  by intros pid cid' [_ ?]%dict_pop_elem.
Qed.

(** The end of a handler removes its entry, when it has one. *)
Lemma owner_finish j w cid c e :
  core w -> w_conns w !! cid = Some c -> is_open c = true ->
  owner_inv j w -> owner_inv j (finish cid e w).
Proof.
  intros Hcore Hc Ho Hi. destruct (finish_heap cid c e w Hc) as [Hheap Hnp].
  split; [by rewrite Hnp; apply oi_pid|]. intros Hlt.
  pose proof (oi_ok _ _ Hi Hlt) as [Hb Hu Hl Hno Hct].
  pose proof (finish_back cid c e w Hc) as Hback.
  split.
  - intros r1 room1 pid cid1 (room0 & H0 & Hin)%Hback Hin1. eapply Hb; [done|by apply Hin].
  - intros r1 r2 room1 room2 pid cid1 cid2 (? & ? & Hin1)%Hback (? & ? & Hin2)%Hback H1 H2.
    eapply Hu; [done|done|by apply Hin1|by apply Hin2].
  - intros cid1 c1 r1 [(<- & Hcl & _)|[Hne Hc1]]%(lookup_finish _ _ _ _ _ _ Hc) Ho1 Hr1; [congruence|].
    destruct (Hl _ _ _ Hc1 Ho1 Hr1) as (room0 & Hr0 & Hin). rewrite Hheap.
    destruct (c_room c) as [r|] eqn:Hr; [|eauto]. destruct (c_pid c =? 0); [eauto|].
    destruct (decide (r = r1)) as [<-|Hner].
    + exists (leave room0 (c_pid c)). rewrite list_lookup_alter_eq, Hr0. split; [done|].
      cbn. unfold dict_pop. apply list_elem_of_filter. split; [|done]. cbn. intros Heq.
      destruct (Hl _ _ _ Hc Ho Hr) as (room2 & Hr2 & Hin2). simplify_eq.
      pose proof (co_wf _ Hcore _ _ Hr0) as [Hk Hnd _ _]. rewrite Hk in Hnd.
      apply (dict_elem_get _ _ _ Hnd) in Hin, Hin2. rewrite Heq in Hin. congruence.
    + exists room0. by rewrite list_lookup_alter_ne.
  - intros cid1 c1 [(<- & _ & Hw & Hroom & _)|[Hne Hc1]]%(lookup_finish _ _ _ _ _ _ Hc) Hr1.
    + rewrite (joined_finish _ _ Hw). eapply Hno; [done|congruence].
    + by eapply Hno.
  - assert (forall cid', entries (finish cid e w) cid' =
      (entries w cid' - if decide (c_room c <> None /\ cid = cid') then 1 else 0)%nat) as He.
    { intros cid'. unfold entries. rewrite Hheap. destruct (c_room c) as [r|] eqn:Hr.
      - destruct (Hl _ _ _ Hc Ho Hr) as (room & Hroom & Hin).
        pose proof (Hb _ _ _ _ Hroom Hin). rewrite (proj2 (Z.eqb_neq _ _)) by lia.
        rewrite (alter_lookup_insert _ _ _ _ Hroom).
        pose proof (sum_list_insert (members cid') _ _ _ (leave room (c_pid c)) Hroom).
        pose proof (members_leave cid' room (c_pid c) cid (co_wf _ Hcore _ _ Hroom) Hin).
        destruct (decide (cid = cid')).
        + rewrite decide_True by done. lia.
        + rewrite decide_False by (by intros [_ ?]). lia.
      - rewrite decide_False by (by intros [? _]). lia. }
    intros cid1 c1 [(<- & Hcl & Hw & Hroom & _)|[Hne Hc1]]%(lookup_finish _ _ _ _ _ _ Hc) Hf; rewrite He.
    + rewrite Hw in Hf. rewrite (Hct _ _ Hc Hf). unfold expected.
      rewrite Hcl, Ho, (joined_finish _ _ Hw).
      destruct (decide (c_room c = None)) as [Hn|Hn].
      * rewrite (Hno _ _ Hc Hn). by case_decide.
      * rewrite decide_True by done. lia.
    + rewrite decide_False by (by intros [_ ?]). rewrite (Hct _ _ Hc1 Hf). lia.
Qed.

Lemma owner_asteps tick ls w : asteps tick World_init ls w -> owner_inv (joins_of ls) w.
Proof.
  intros Hs. pose proof (asteps_preserve tick owner_inv) as H.
  eapply H with (j := 0%nat) (w := World_init) (w' := w); clear H;
    [..|apply core_init|exact Hs|apply owner_init]; clear.
  - intros j w Hcore [Hpid Hok]. split; [done|]. intros Hlt. destruct (Hok Hlt) as [Hb Hu Hl Hn Hct].
    split; [done|done|..].
    + intros cid c r [Hc|[-> ->]]%lookup_add_conn; [by apply Hl|done].
    + intros cid c [Hc|[-> ->]]%lookup_add_conn; [by eapply Hn|done].
    + intros cid c [Hc|[-> ->]]%lookup_add_conn; [by apply Hct|]. intros _.
      apply entries_member. intros (r & room & pid & Hr & Hin).
      destruct (co_cids _ Hcore _ _ _ _ Hr Hin) as [? ?%lookup_lt_Some]. lia.
  - intros j w cid c c' Hcore Hc Hw Hr Hp Ho _ _ Hi. apply (owner_conns _ _ _ c); try done.
    + unfold joined. by destruct Hw as [->|[e ->]].
    + by destruct Hw as [->|[e ->]].
  - intros j w room_id Hcore Hnone [Hpid Hok]. split; [done|]. intros Hlt.
    destruct (Hok Hlt) as [Hb Hu Hl Hn Hct].
    assert (forall r room pid cid, w_heap (add_room tick room_id w) !! r = Some room ->
      (pid, cid) ∈ r_conns room -> w_heap w !! r = Some room) as Hback.
    { intros r room pid cid. cbn.
      intros [?|[_ [_ <-]%list_lookup_singleton_Some]]%lookup_app_Some; [done|].
      by intros ?%not_elem_of_nil. }
    split.
    + intros r room pid cid Hr Hin. eapply Hb; [by eapply Hback|done].
    + intros r1 r2 room1 room2 pid cid1 cid2 Hr1 Hr2 Hin1 Hin2.
      eapply (Hu r1 r2); [by eapply Hback|by eapply Hback|done..].
    + intros cid c r Hc Ho Hr. destruct (Hl _ _ _ Hc Ho Hr) as (room & Hroom & Hin).
      exists room. split; [|done]. cbn. by rewrite lookup_app_l by by eapply lookup_lt_Some.
    + done.
    + intros cid c Hc Hf. rewrite <- (Hct _ _ Hc Hf). unfold entries. cbn [w_heap add_room].
      rewrite fmap_app, sum_list_with_app. cbn. lia.
  - intros. by eapply owner_join.
  - intros j w cid c r seq dx dy Hcore Hc Hr Ha Hi.
    destruct (co_croom _ Hcore _ _ _ Hc Hr) as [room Hroom]. unfold room_move.
    rewrite (alter_lookup_insert _ _ _ _ Hroom). apply (owner_room _ _ _ room); [done|done|].
    unfold move. by case_match.
  - intros. by eapply owner_finish.
  - intros j w r room room' Hcore Hr (_ & Hc & _) _ Hi. by apply (owner_room _ _ _ room).
  - intros j w cid c fr Hcore Hc Hmem Hfr Hi.
    apply (owner_conns _ _ _ c); try done; unfold cwrite, writer_write.
    + destruct (tr_fault (c_writer c)) eqn:E; cbn; [by destruct c|].
      rewrite filter_app, length_app, filter_cons_False, filter_nil
        by (by rewrite is_joined_frame_snapshot). apply Nat.add_0_r.
    + destruct (tr_fault (c_writer c)) eqn:E; cbn; congruence.
Qed.

(** ** How many joins there can have been *)

Definition pot (w : World) : nat := sum_list (cpot <$> w_conns w).

Lemma pot_insert w cid c c' :
  w_conns w !! cid = Some c ->
  (sum_list (cpot <$> <[cid := c']> (w_conns w)) + cpot c = pot w + cpot c')%nat.
Proof. apply sum_list_insert. Qed.

Lemma pot_set_conn w cid f : (forall c, (cpot (f c) <= cpot c)%nat) -> (pot (set_conn cid f w) <= pot w)%nat.
Proof.
  intros Hf. destruct (w_conns w !! cid) as [c|] eqn:Hc.
  - rewrite (set_conn_eq _ _ _ _ Hc). unfold pot at 1. cbn [w_conns].
    pose proof (pot_insert _ _ _ (f c) Hc). specialize (Hf c). lia.
  - unfold set_conn. by rewrite alter_lookup_none by done.
Qed.

Lemma pot_finish cid e w : (pot (finish cid e w) <= pot w)%nat.
Proof.
  destruct (w_conns w !! cid) as [c|] eqn:Hc; [|unfold finish; by rewrite Hc].
  destruct (finish_eq cid c e w Hc) as (out & ->).
  etransitivity; [apply pot_set_conn; unfold cpot; cbn; lia|].
  destruct (c_room c); [destruct (c_pid c =? 0)|]; done.
Qed.

Lemma pot_astep tick w l w' : astep tick w l w' -> (pot w' + 9 * l.2 <= pot w + l.1)%nat.
Proof.
  intros Hs. destruct Hs as
    [w|w cid c c' fed Hc Hw Hr Hp Ho Hpot Hph He Hcl|w cid c e Hc
    |w cid c rd room_id r w1 room Hc Ho Hf Hl Hid Hg Hr Hri
    |w cid c rd room_id r w1 room e Hc Ho Hf Hl Hid Hg Hr Hri|w cid c r seq dx dy Hc Hr Ha
    |w cid c e Hc Ho Hend|w r room clock room' frs o t Hr Hw]; cbn [fst snd].
  - unfold pot. cbn. rewrite fmap_app, sum_list_with_app. cbn. lia.
  - rewrite (set_conn_eq _ _ _ _ Hc). unfold pot at 1. cbn [w_conns].
    pose proof (pot_insert _ _ _ c' Hc). lia.
  - pose proof (pot_set_conn w cid (fun c => set_writer (mkTransport (tr_out (c_writer c)) (Some e)
      (tr_closed (c_writer c))) c) ltac:(done)). lia.
  - unfold pot at 1. cbn [w_conns join_world]. rewrite (get_room_conns _ _ _ _ _ Hg).
    match goal with |- context [<[cid := ?c']> _] => pose proof (pot_insert _ _ _ c' Hc) as H1;
      change (cpot c') with (length (rd_buf rd) + 0)%nat in H1 end. lia.
  - match goal with |- context [finish ?a ?b ?c] => pose proof (pot_finish a b c) end.
    unfold pot at 2 in H. cbn [w_conns join_world] in H. rewrite (get_room_conns _ _ _ _ _ Hg) in H.
    match goal with _ : context [<[cid := ?c']> _] |- _ => pose proof (pot_insert _ _ _ c' Hc) as H1;
      change (cpot c') with (length (rd_buf rd) + 0)%nat in H1 end. lia.
  - unfold pot. cbn. lia.
  - pose proof (pot_finish cid e w). lia.
  - cut ((fun w' => (pot w' <= pot w)%nat)
      (foldl (fun w fr => broadcast (dict_values (r_conns room')) fr w)
        (set_heap (<[r := set_task t room']> (w_heap w)) w) frs)); [cbv beta; lia|].
    apply (broadcasts_inv _ (fun _ => True)); [|by apply Forall_true|done].
    intros w' cid fr _ _ Hle. rewrite conn_write_eq. etransitivity; [|done].
    apply pot_set_conn. intros c. done.
Qed.

Lemma joins_bound tick ls w w0 :
  asteps tick w0 ls w -> (pot w + 9 * joins_of ls <= pot w0 + fed_of ls)%nat.
Proof.
  induction 1 as [w|w l w1 ls w' Hstep Hs IH]; [cbn; lia|].
  pose proof (pot_astep _ _ _ _ Hstep). unfold joins_of, fed_of in *. cbn. lia.
Qed.

(** With fewer than [9 * 2^32] bytes received there are fewer than [2^32]
    joins, so the ownership invariant holds. *)
Lemma owner_runs tick evs w :
  runs tick evs w -> Z.of_nat (bytes_in evs) < 9 * 2 ^ 32 ->
  exists j, owner_ok j w /\ w_next_pid w = Z.of_nat j /\ Z.of_nat j < 2 ^ 32.
Proof.
  intros (ls & Hs & Hf)%runs_asteps Hlt. pose proof (joins_bound _ _ _ _ Hs) as Hb.
  change (pot World_init) with 0%nat in Hb.
  destruct (owner_asteps _ _ _ Hs) as [Hpid Hok]. exists (joins_of ls).
  rewrite Hpid, Z.mod_small by lia. split_and!; [apply Hok; lia|done|lia].
Qed.
