(* ===== verification/ServerHandler.v ===== *)
(** * The handler as a function of the byte stream

    One resumption of [handle] terminates, and what it does does not depend on
    how TCP cut the stream: feeding the bytes in two pieces, with a resumption
    after each, is feeding them at once.  [serve] is the specification of one
    message, on the decoded message of the protocol. *)

From Stdlib Require Import ZArith Lia.
From stdpp Require Import gmap.
From S2P Require Import Prelude PyDict PyFloat PyStruct Wire Room.
From S2P Require Import RoomFrames RoomSpec RoomProps RoomThms Server ServerSteps.
From S2P Require Import ServerInv.

Open Scope Z_scope.

(** ** Termination *)

Definition cmeasure (c : Conn) : nat :=
  match c_phase c with
  | Finished _ => 0
  | AwaitHeader => 2 * length (rd_buf (c_reader c)) + 1
  | AwaitPayload _ => 2 * length (rd_buf (c_reader c)) + 2
  end.

Definition hmeasure (cid : nat) (w : World) : nat :=
  match w_conns w !! cid with Some c => cmeasure c | None => 0 end.

Lemma hmeasure_finish cid c e w : w_conns w !! cid = Some c -> hmeasure cid (finish cid e w) = 0%nat.
Proof.
  intros Hc. unfold hmeasure. destruct (w_conns (finish cid e w) !! cid) as [c'|] eqn:Hc'; [|done].
  destruct (lookup_finish _ _ _ _ _ _ Hc Hc') as [(_ & Ho & _)|[? _]]; [|done].
  unfold is_open in Ho. unfold cmeasure. by destruct (c_phase c').
Qed.

Lemma hmeasure_set_conn cid f w c :
  w_conns w !! cid = Some c -> hmeasure cid (set_conn cid f w) = cmeasure (f c).
Proof. intros Hc. unfold hmeasure. by rewrite (set_conn_lookup _ _ _ _ Hc). Qed.

(** A processed message leaves the reader and the phase alone. *)
Lemma process_keeps tick cid n payload w c :
  core w -> w_conns w !! cid = Some c -> n <= Z.of_nat (length payload) ->
  exists c', w_conns (process tick cid n payload w).1 !! cid = Some c' /\
    c_reader c' = c_reader c /\ c_phase c' = c_phase c.
Proof.
  intros Hcore Hc Hn. pose proof (process_cases tick cid n payload w) as Hp.
  destruct (head payload) as [b|]; rewrite Hp; [|by exists c].
  case_match eqn:Hj; [|case_match eqn:Hm]; [..|by exists c]; zbool.
  - destruct (process_join_spec tick cid c payload w Hcore Hc ltac:(lia))
      as (room_id & r & w1 & room & _ & _ & Hg & _ & _ & ->).
    destruct (writer_write _ (c_writer c)) as [t o]. cbn. eexists. split.
    + apply list_lookup_insert_eq. rewrite (get_room_conns _ _ _ _ _ Hg). by eapply lookup_lt_Some.
    + done.
  - destruct (process_move_spec cid c payload w Hc ltac:(lia))
      as [->|(r & seq & dx & dy & _ & _ & ->)]; by exists c.
Qed.

Lemma handle_iter_measure tick cid w w' :
  core w -> handle_iter tick cid w = Some w' -> (hmeasure cid w' < hmeasure cid w)%nat.
Proof.
  intros Hcore. unfold handle_iter. destruct (w_conns w !! cid) as [c|] eqn:Hc; [|done].
  assert (hmeasure cid w = cmeasure c) as -> by (unfold hmeasure; by rewrite Hc).
  cbn [mbind option_bind]. destruct (c_phase c) as [|n|e] eqn:Hph; [..|done].
  - assert (0 < cmeasure c)%nat as Hpos by (unfold cmeasure; rewrite Hph; lia).
    destruct (readexactly 4 (c_reader c)) as [|e rd|header rd] eqn:Hrd; [done|..].
    + intros [= <-]. by rewrite (hmeasure_finish _ (set_reader rd c)) by by apply set_conn_lookup.
    + apply readexactly_data in Hrd as (Hbuf & Hlen & _).
      unfold unpack. rewrite decide_True by done. cbn [unpack_all code_size].
      case_match; intros [= <-].
      * by rewrite (hmeasure_finish _ (set_reader rd c)) by by apply set_conn_lookup.
      * rewrite set_conn_set_conn, (hmeasure_set_conn _ _ _ _ Hc). unfold cmeasure. cbn.
        rewrite Hph, Hbuf, length_app. lia.
  - assert (0 < cmeasure c)%nat as Hpos by (unfold cmeasure; rewrite Hph; lia).
    pose proof (co_phase _ Hcore _ _ Hc) as Hn. unfold phase_ok in Hn. rewrite Hph in Hn.
    destruct (readexactly (Z.to_nat n) (c_reader c)) as [|e rd|payload rd] eqn:Hrd; [done|..].
    + intros [= <-]. by rewrite (hmeasure_finish _ (set_reader rd c)) by by apply set_conn_lookup.
    + apply readexactly_data in Hrd as (Hbuf & Hlen & _).
      set (g := fun c => set_phase AwaitHeader (set_reader rd c)).
      assert (core (set_conn cid g w)) as Hcore'.
      { rewrite (set_conn_const _ _ _ c Hc). by apply (core_set_conn _ _ c). }
      destruct (process_keeps tick cid n payload _ (g c) Hcore' (set_conn_lookup _ _ _ _ Hc)
        ltac:(lia)) as (c' & Hc' & Hr' & Hp').
      destruct (process tick cid n payload (set_conn cid g w)) as [w1 [u|e]]; intros [= <-].
      * cbn in Hc'. unfold hmeasure. rewrite Hc'. unfold cmeasure. rewrite Hr', Hp', Hph. cbn.
        rewrite Hbuf, length_app. lia.
      * by rewrite (hmeasure_finish _ c').
Qed.

Lemma run_handler_blocks tick fuel cid w :
  core w -> (hmeasure cid w < fuel)%nat ->
  handle_iter tick cid (run_handler tick fuel cid w) = None.
Proof.
  revert w. induction fuel as [|fuel IH]; intros w Hcore Hf; [lia|]. cbn.
  destruct (handle_iter tick cid w) as [w1|] eqn:H1; [|done].
  apply IH.
  - destruct (handle_iter_asteps _ _ _ _ Hcore H1) as (ls & Hs & _). by eapply core_asteps.
  - pose proof (handle_iter_measure _ _ _ _ Hcore H1). lia.
Qed.

Lemma run_handler_stop tick fuel cid w :
  handle_iter tick cid w = None -> run_handler tick fuel cid w = w.
Proof. intros H. destruct fuel; cbn; [done|]. by rewrite H. Qed.

(** Enough fuel is enough: the result does not depend on it. *)
Lemma run_handler_fuel tick f1 f2 cid w :
  core w -> (hmeasure cid w < f1)%nat -> (hmeasure cid w < f2)%nat ->
  run_handler tick f1 cid w = run_handler tick f2 cid w.
Proof.
  revert f2 w. induction f1 as [|f1 IH]; intros f2 w Hcore H1 H2; [lia|].
  destruct f2 as [|f2]; [lia|]. cbn. destruct (handle_iter tick cid w) as [w1|] eqn:Hi; [|done].
  pose proof (handle_iter_measure _ _ _ _ Hcore Hi).
  destruct (handle_iter_asteps _ _ _ _ Hcore Hi) as (ls & Hs & _).
  apply IH; [by eapply core_asteps|lia..].
Qed.

Lemma handler_fuel_enough cid w : (hmeasure cid w < handler_fuel cid w \/ w_conns w !! cid = None)%nat.
Proof.
  unfold hmeasure, handler_fuel. destruct (w_conns w !! cid) as [c|]; [left|by right].
  unfold cmeasure. destruct (c_phase c); lia.
Qed.

(** ** Independence of the segmentation of the stream *)

Definition feedc (bs : bytes) (c : Conn) : Conn := set_reader (feed bs (c_reader c)) c.

Lemma alter_fun_comm {A} (f g : A -> A) (l : list A) i :
  (forall x, f (g x) = g (f x)) -> alter f i (alter g i l) = alter g i (alter f i l).
Proof.
  intros H. rewrite !list_alter_alter_eq. apply list_alter_ext; [|done]. intros x _. apply H.
Qed.

Lemma set_conn_comm cid f g w :
  (forall c, f (g c) = g (f c)) ->
  set_conn cid f (set_conn cid g w) = set_conn cid g (set_conn cid f w).
Proof. intros H. unfold set_conn. cbn. by rewrite alter_fun_comm. Qed.

(** [m] does not look at the bytes waiting at [cid]. *)
Definition feed_free {A} (cid : nat) (m : st World A) : Prop :=
  forall bs w, m (set_conn cid (feedc bs) w) =
    let '(w', o) := m w in (set_conn cid (feedc bs) w', o).

Lemma feed_free_ret {A} cid (a : A) : feed_free cid (mret a).
Proof. done. Qed.

Lemma feed_free_lift {A} cid (r : res A) : feed_free cid (st_lift r).
Proof. done. Qed.

Lemma feed_free_bind {A B} cid (m : st World A) (k : A -> st World B) :
  feed_free cid m -> (forall a, feed_free cid (k a)) -> feed_free cid (m ≫= k).
Proof.
  intros Hm Hk bs w. unfold mbind, st_bind. rewrite Hm. destruct (m w) as [w' [a|e]]; [|done].
  apply Hk.
Qed.

Lemma feed_free_modify cid (f : World -> World) :
  (forall bs w, f (set_conn cid (feedc bs) w) = set_conn cid (feedc bs) (f w)) ->
  feed_free cid (st_modify f).
Proof. intros H bs w. unfold st_modify. by rewrite H. Qed.

Lemma feed_free_get_room tick cid room_id : feed_free cid (get_room tick room_id).
Proof.
  intros bs w. destruct (get_room tick room_id w) as [w1 o] eqn:E.
  by apply get_room_set_conn.
Qed.

Lemma feed_free_room_join cid r cid' : feed_free cid (room_join r cid').
Proof. intros bs w. unfold room_join. cbn. destruct (w_heap w !! r); [|done]. done. Qed.

Lemma feed_free_conn_write cid fr : feed_free cid (conn_write cid fr).
Proof.
  intros bs w. unfold conn_write. rewrite lookup_set_conn, decide_True by done.
  destruct (w_conns w !! cid) as [c|] eqn:Hc; [|done]. cbn [fmap option_fmap option_map].
  change (c_writer (feedc bs c)) with (c_writer c).
  destruct (writer_write fr (c_writer c)) as [t o]. f_equal. by apply set_conn_comm.
Qed.

Lemma feed_free_process_join tick cid payload : feed_free cid (process_join tick cid payload).
Proof.
  unfold process_join. apply feed_free_bind; [apply feed_free_lift|intros room_id].
  apply feed_free_bind; [apply feed_free_get_room|intros r].
  apply feed_free_bind; [apply feed_free_modify; intros; by apply set_conn_comm|intros _].
  apply feed_free_bind; [apply feed_free_room_join|intros pid].
  apply feed_free_bind; [apply feed_free_modify; intros; by apply set_conn_comm|intros _].
  apply feed_free_bind; [apply feed_free_lift|intros body].
  apply feed_free_bind; [apply feed_free_lift|intros header].
  apply feed_free_conn_write.
Qed.

Lemma feed_free_process_move cid payload : feed_free cid (process_move cid payload).
Proof.
  intros bs w. unfold process_move, mbind, st_bind, st_get.
  rewrite lookup_set_conn, decide_True by done.
  destruct (w_conns w !! cid) as [c|] eqn:Hc; [|done]. cbn [fmap option_fmap option_map option_bind].
  change (c_room (feedc bs c)) with (c_room c). destruct (c_room c) as [r|]; [|done].
  cbn [option_bind]. change (c_pid (feedc bs c)) with (c_pid c).
  destruct (unpack_from [CI; Ch; Ch] payload 1) as [vs|e]; [|done]. unfold st_lift.
  destruct vs as [|seq [|dx [|dy [|? ?]]]]; done.
Qed.

Lemma feed_free_process tick cid n payload : feed_free cid (process tick cid n payload).
Proof.
  unfold process. apply feed_free_bind; [apply feed_free_lift|intros t].
  destruct (_ && _); [apply feed_free_process_join|].
  destruct (_ && _); [apply feed_free_process_move|apply feed_free_ret].
Qed.

Lemma finish_feed cid e bs w :
  finish cid e (set_conn cid (feedc bs) w) = set_conn cid (feedc bs) (finish cid e w).
Proof.
  unfold finish. rewrite lookup_set_conn, decide_True by done.
  destruct (w_conns w !! cid) as [c|] eqn:Hc; [|done]. cbn [fmap option_fmap option_map].
  change (c_room (feedc bs c)) with (c_room c). change (c_pid (feedc bs c)) with (c_pid c).
  destruct (c_room c) as [r|]; [destruct (c_pid c =? 0)|];
    (etransitivity; [|by apply set_conn_comm]); done.
Qed.

(** A read that succeeds, or raises, does the same with more bytes behind. *)
Lemma readexactly_feed n rd bs :
  rd_eof rd = false ->
  match readexactly n rd with
  | RBlocked => True
  | RRaised e rd' => readexactly n (feed bs rd) = RRaised e (feed bs rd')
  | RData d rd' => readexactly n (feed bs rd) = RData d (feed bs rd')
  end.
Proof.
  intros He. unfold readexactly. cbn [feed rd_exc rd_buf rd_eof]. rewrite He.
  destruct (rd_exc rd); [done|]. case_decide; [|done].
  rewrite decide_True by (rewrite length_app; lia).
  rewrite take_app_le, drop_app_le by done. done.
Qed.

Definition not_eof (cid : nat) (w : World) : Prop :=
  forall c, w_conns w !! cid = Some c -> rd_eof (c_reader c) = false.

Lemma handle_iter_feed tick cid bs w w' :
  not_eof cid w -> handle_iter tick cid w = Some w' ->
  handle_iter tick cid (set_conn cid (feedc bs) w) = Some (set_conn cid (feedc bs) w').
Proof.
  intros He. unfold handle_iter. rewrite lookup_set_conn, decide_True by done.
  destruct (w_conns w !! cid) as [c|] eqn:Hc; [|done]. cbn [fmap option_fmap option_map mbind option_bind].
  specialize (He c Hc). change (c_phase (feedc bs c)) with (c_phase c).
  change (c_reader (feedc bs c)) with (feed bs (c_reader c)).
  assert (forall f rd, (forall c, f (set_reader (feed bs rd) (feedc bs c)) = feedc bs (f (set_reader rd c))) ->
    set_conn cid (fun c => f (set_reader (feed bs rd) c)) (set_conn cid (feedc bs) w) =
    set_conn cid (feedc bs) (set_conn cid (fun c => f (set_reader rd c)) w)) as Hset.
  { intros f rd Hf. rewrite !set_conn_set_conn. unfold set_conn. f_equal.
    apply list_alter_ext; [|done]. intros x _. apply Hf. }
  destruct (c_phase c) as [|n|e]; [..|done].
  - pose proof (readexactly_feed 4 (c_reader c) bs He) as Hrd.
    destruct (readexactly 4 (c_reader c)) as [|e rd|header rd]; [done|..]; rewrite Hrd.
    + intros [= <-]. rewrite <- finish_feed. do 2 f_equal. by apply (Hset (fun c => c)).
    + rewrite (Hset (fun c => c)) by done.
      destruct (unpack [CI] header) as [[|n [|? ?]]|e].
      * intros [= <-]. by rewrite finish_feed.
      * case_match; intros [= <-]; [by rewrite finish_feed|]. f_equal. by apply set_conn_comm.
      * intros [= <-]. by rewrite finish_feed.
      * intros [= <-]. by rewrite finish_feed.
  - pose proof (readexactly_feed (Z.to_nat n) (c_reader c) bs He) as Hrd.
    destruct (readexactly (Z.to_nat n) (c_reader c)) as [|e rd|payload rd]; [done|..]; rewrite Hrd.
    + intros [= <-]. rewrite <- finish_feed. do 2 f_equal. by apply (Hset (fun c => c)).
    + rewrite (Hset (set_phase AwaitHeader)) by done. rewrite feed_free_process.
      destruct (process tick cid n payload _) as [w1 [u|e]]; intros [= <-]; [done|].
      by rewrite finish_feed.
Qed.

(** The handler never un-ends a stream. *)
Lemma handle_iter_not_eof tick cid w w' :
  core w -> not_eof cid w -> handle_iter tick cid w = Some w' -> not_eof cid w'.
Proof.
  intros Hcore He Hi c' Hc'. unfold handle_iter in Hi.
  destruct (w_conns w !! cid) as [c|] eqn:Hc; [|done]. cbn [mbind option_bind] in Hi.
  specialize (He c Hc).
  assert (forall w1 c1 e, w_conns w1 !! cid = Some c1 -> rd_eof (c_reader c1) = false ->
    finish cid e w1 = w' -> rd_eof (c_reader c') = false) as Hfin.
  { intros w1 c1 e Hc1 He1 <-. destruct (finish_eq cid c1 e w1 Hc1) as (out & Heq).
    rewrite Heq, lookup_set_conn, decide_True in Hc' by done.
    assert (w_conns match c_room c1 with
      | Some r => if c_pid c1 =? 0 then w1 else room_leave r (c_pid c1) w1
      | None => w1 end = w_conns w1) as Hcs
      by (destruct (c_room c1); [destruct (c_pid c1 =? 0)|]; done).
    rewrite Hcs, Hc1 in Hc'. by injection Hc' as <-. }
  assert (forall n e rd, readexactly n (c_reader c) = RRaised e rd -> rd_eof rd = false) as Hraise.
  { intros n e rd. unfold readexactly. destruct (rd_exc _); [by intros [= <- <-]|].
    case_decide; [done|]. by rewrite He. }
  destruct (c_phase c) as [|n|e] eqn:Hph; [..|done].
  - destruct (readexactly 4 (c_reader c)) as [|e rd|header rd] eqn:Hrd; [done|..].
    + injection Hi as Hi. eapply (Hfin _ (set_reader rd c)); [by apply set_conn_lookup|by eapply Hraise|done].
    + apply readexactly_data in Hrd as (_ & Hlen & He' & _). rewrite He in He'.
      unfold unpack in Hi. rewrite decide_True in Hi by done. cbn [unpack_all code_size] in Hi.
      case_match; injection Hi as Hi.
      * eapply (Hfin _ (set_reader rd c)); [by apply set_conn_lookup|done..].
      * rewrite <- Hi, set_conn_set_conn, (set_conn_lookup _ _ _ _ Hc) in Hc'. by injection Hc' as <-.
  - pose proof (co_phase _ Hcore _ _ Hc) as Hn. unfold phase_ok in Hn. rewrite Hph in Hn.
    destruct (readexactly (Z.to_nat n) (c_reader c)) as [|e rd|payload rd] eqn:Hrd; [done|..].
    + injection Hi as Hi. eapply (Hfin _ (set_reader rd c)); [by apply set_conn_lookup|by eapply Hraise|done].
    + apply readexactly_data in Hrd as (_ & Hlen & He' & _). rewrite He in He'.
      set (g := fun c => set_phase AwaitHeader (set_reader rd c)) in *.
      assert (core (set_conn cid g w)) as Hcore'.
      { rewrite (set_conn_const _ _ _ c Hc). by apply (core_set_conn _ _ c). }
      destruct (process_keeps tick cid n payload _ (g c) Hcore' (set_conn_lookup _ _ _ _ Hc)
        ltac:(lia)) as (c1 & Hc1 & Hr1 & _).
      destruct (process tick cid n payload (set_conn cid g w)) as [w1 [u|e]]; cbn in Hc1;
        injection Hi as Hi.
      * subst w1. rewrite Hc1 in Hc'. injection Hc' as <-. by rewrite Hr1.
      * eapply (Hfin _ c1); [done|by rewrite Hr1|done].
Qed.

Lemma core_feedc cid bs w : core w -> core (set_conn cid (feedc bs) w).
Proof.
  intros Hcore. destruct (w_conns w !! cid) as [c|] eqn:Hc.
  - rewrite (set_conn_const _ _ _ c Hc). by apply (core_set_conn _ _ c).
  - unfold set_conn. rewrite alter_lookup_none by done. by destruct w.
Qed.

(** A resumption, then more bytes: the same as the bytes first, up to the
    iterations already made. *)
Lemma run_handler_feed tick cid bs f w :
  core w -> not_eof cid w ->
  exists k, forall F,
    run_handler tick (k + F) cid (set_conn cid (feedc bs) w) =
    run_handler tick F cid (set_conn cid (feedc bs) (run_handler tick f cid w)).
Proof.
  revert w. induction f as [|f IH]; intros w Hcore He; [by exists 0%nat|]. cbn [run_handler].
  destruct (handle_iter tick cid w) as [w1|] eqn:Hi; [|by exists 0%nat].
  destruct (handle_iter_asteps _ _ _ _ Hcore Hi) as (ls & Hs & _).
  destruct (IH w1) as [k Hk]; [by eapply core_asteps|by eapply handle_iter_not_eof|].
  exists (S k). intros F. cbn [Nat.add run_handler]. rewrite (handle_iter_feed _ _ _ _ _ He Hi). apply Hk.
Qed.

Lemma run_handler_split tick cid c a b w :
  core w -> w_conns w !! cid = Some c -> rd_eof (c_reader c) = false ->
  let w2 := run_handler tick (handler_fuel cid (set_conn cid (feedc a) w)) cid (set_conn cid (feedc a) w) in
  let w3 := set_conn cid (feedc b) w2 in
  let w' := set_conn cid (feedc (a ++ b)) w in
  is_Some (w_conns w2 !! cid) ->
  run_handler tick (handler_fuel cid w3) cid w3 = run_handler tick (handler_fuel cid w') cid w'.
Proof.
  intros Hcore Hc He w2 w3 w' [c2 Hc2]. set (w1 := set_conn cid (feedc a) w) in *.
  assert (w' = set_conn cid (feedc b) w1) as Hw'.
  { unfold w', w1. rewrite set_conn_set_conn. unfold set_conn. f_equal.
    apply list_alter_ext; [|done]. intros x _. unfold feedc, feed. cbn. by rewrite <- app_assoc. }
  assert (core w1) as Hcore1 by by apply core_feedc.
  assert (not_eof cid w1) as He1.
  { intros c1. unfold w1. rewrite (set_conn_lookup _ _ _ _ Hc). by intros [= <-]. }
  assert (core w2) as Hcore2.
  { destruct (run_handler_asteps tick (handler_fuel cid w1) cid w1 Hcore1) as (ls & Hs & _).
    by eapply core_asteps. }
  destruct (run_handler_feed tick cid b (handler_fuel cid w1) w1 Hcore1 He1) as [k Hk].
  fold w2 in Hk. fold w3 in Hk. rewrite <- Hw' in Hk.
  assert (hmeasure cid w3 < handler_fuel cid w3)%nat as H3.
  { destruct (handler_fuel_enough cid w3) as [?|Hn]; [done|].
    unfold w3 in Hn. by rewrite (set_conn_lookup _ _ _ _ Hc2) in Hn. }
  assert (hmeasure cid w' < handler_fuel cid w')%nat as H4.
  { destruct (handler_fuel_enough cid w') as [?|Hn]; [done|].
    unfold w' in Hn. by rewrite (set_conn_lookup _ _ _ _ Hc) in Hn. }
  rewrite (run_handler_fuel tick _ (handler_fuel cid w3 + handler_fuel cid w') cid w3);
    [|by apply core_feedc|done|lia].
  rewrite <- Hk. apply run_handler_fuel; [by apply core_feedc|lia|done].
Qed.

(** ** One message, on the decoded protocol *)

Section Serve.
Variable tick : float.

(** What the protocol asks of a server for one client message. *)
Definition serve (cid : nat) (m : client_msg) : st World () :=
  match m with
  | Join room_id =>
      r ← get_room tick room_id;
      st_modify (set_conn cid (set_room r));;
      pid ← room_join r cid;
      st_modify (set_conn cid (set_pid pid));;
      conn_write cid (frame (encode (Joined pid room_id)))
  | Move seq dx dy =>
      w ← st_get;
      match c ← w_conns w !! cid; r ← c_room c; Some (r, c_pid c) with
      | None => mret ()
      | Some (r, my_pid) => st_modify (room_move r my_pid seq dx dy)
      end
  end.

(** A message that is none of the two is ignored. *)
Definition serve_payload (cid : nat) (payload : bytes) : st World () :=
  match decode payload with Some m => serve cid m | None => mret () end.

Lemma room_join_fits r cid w w' pid : room_join r cid w = (w', Ok pid) -> fits CI pid = true.
Proof.
  unfold room_join, join, new_pid. destruct (w_heap w !! r); [|done].
  intros [= <- <-]. apply mask32_fits.
Qed.

Lemma process_join_serve cid payload room_id w :
  unpack_from [CI] payload 1 = Ok [room_id] -> fits CI room_id = true ->
  process_join tick cid payload w = serve cid (Join room_id) w.
Proof.
  intros Hu Hfit. unfold process_join, serve, mbind, st_bind, st_lift, st_modify. rewrite Hu.
  cbn [mbind res_bind]. change (res_of_option IndexError (head [room_id])) with (Ok room_id).
  cbv beta iota. destruct (get_room tick room_id w) as [w1 [r|e]]; [|done].
  destruct (room_join r cid (set_conn cid (set_room r) w1)) as [w2 [pid|e]] eqn:Hj; [|done].
  apply room_join_fits in Hj.
  destruct (joined_frame pid room_id Hj Hfit) as (-> & Hh & Hfr).
  cbv beta iota zeta. by rewrite Hh, Hfr.
Qed.

Lemma process_serve cid payload w :
  payload <> [] ->
  process tick cid (Z.of_nat (length payload)) payload w = serve_payload cid payload w.
Proof.
  intros Hne. pose proof (process_cases tick cid (Z.of_nat (length payload)) payload w) as Hp.
  destruct payload as [|b body]; [done|]. cbn [head] in Hp. rewrite Hp. clear Hp.
  unfold serve_payload. cbn [decode client_codec decode_client].
  assert ((5 <=? Z.of_nat (length (b :: body))) = (4 <=? Z.of_nat (length body))) as ->.
  { apply eq_true_iff_eq. rewrite !Z.leb_le. cbn [length]. lia. }
  assert ((9 <=? Z.of_nat (length (b :: body))) = (8 <=? Z.of_nat (length body))) as ->.
  { apply eq_true_iff_eq. rewrite !Z.leb_le. cbn [length]. lia. }
  destruct ((Z_of_byte b =? MSG_JOIN) && (4 <=? Z.of_nat (length body))) eqn:Hj.
  - zbool. cbn [unpack_all code_size]. apply process_join_serve.
    + rewrite unpack_from_ok by (change (calcsize [CI]) with 4%nat; cbn [length]; lia). done.
    + apply unpack_code_fits. rewrite length_take. cbn [code_size]. lia.
  - destruct ((Z_of_byte b =? MSG_MOVE) && (8 <=? Z.of_nat (length body))) eqn:Hm; [|done].
    zbool. cbn [unpack_all code_size serve].
    unfold process_move, mbind, st_bind, st_get, st_lift.
    destruct (w_conns w !! cid) as [c|]; [|done]. cbn [option_bind].
    destruct (c_room c) as [r|]; [|done]. cbn [option_bind].
    rewrite unpack_from_ok by (change (calcsize [CI; Ch; Ch]) with 8%nat; cbn [length]; lia). done.
Qed.
End Serve.
