(* ===== verification/ServerDemo.v ===== *)
(** * Executable runs of the server

    [exec_all] executes a list of turns of the event loop; the runs below are
    the concrete inputs of the witnesses. *)

From Stdlib Require Import ZArith Lia.
From stdpp Require Import gmap.
From S2P Require Import Prelude PyDict PyFloat PyStruct Wire Room.
From S2P Require Import Server.

Open Scope Z_scope.

(** ** Executing a run *)

Fixpoint exec_all (tick : float) (w : World) (evs : list event) : option World :=
  match evs with
  | [] => Some w
  | ev :: evs => w ← exec tick w ev; exec_all tick w evs
  end.

(** The period of 30 Hz, and a run used as the concrete input of the
    witnesses: two clients join room 7, one moves, the room ticks twice, the
    first client joins again and disconnects. *)
Definition demo_tick : float := f_of_ratio false 1 30.

Definition demo_join : list event :=
  [EvAccept; EvAccept;
   EvData 0 (frame (encode (Join 7))); EvHandle 0;
   EvData 1 (frame (encode (Join 7)) ++ frame (encode (Move 5 2 (-3)))); EvHandle 1].

Definition demo_evs : list event :=
  demo_join ++
  [EvWake 0 [f_zero; f_of_ratio false 1 100];
   EvWake 0 [f_of_ratio false 1 20];
   EvData 0 (frame (encode (Join 7))); EvHandle 0; EvEof 0; EvHandle 0].

Definition demo_world (evs : list event) : World := default World_init (exec_all demo_tick World_init evs).

Lemma exec_all_star tick w evs w' : exec_all tick w evs = Some w' -> star (sys_step tick) w evs w'.
Proof.
  revert w. induction evs as [|ev evs IH]; intros w; cbn.
  - intros [= <-]. constructor.
  - destruct (exec tick w ev) as [w1|] eqn:E; [|done]. cbn. intros H. econstructor; [exact E|by apply IH].
Qed.

Lemma exec_all_runs evs :
  is_Some (exec_all demo_tick World_init evs) -> runs demo_tick evs (demo_world evs).
Proof. intros [w Hw]. apply exec_all_star. unfold demo_world. by rewrite Hw. Qed.

Lemma demo_runs : runs demo_tick demo_evs (demo_world demo_evs).
Proof. apply exec_all_runs. vm_compute. eauto. Qed.

Lemma demo_join_runs : runs demo_tick demo_join (demo_world demo_join).
Proof. apply exec_all_runs. vm_compute. eauto. Qed.
