(* ===== verification/ServerThms.v ===== *)
(** * The server process: theorems

    Stated for every state [w] that a run of the event loop reaches
    ([Server.runs]), whatever the order of connections, data, resumptions and
    failures: termination of the handler and independence of the segmentation
    of the stream; what is written to each connection, who owns which player,
    which exceptions end a handler, and the registry of rooms. *)

From Stdlib Require Import ZArith Lia.
From stdpp Require Import gmap.
From S2P Require Import Prelude PyDict PyFloat PyStruct Wire Room.
From S2P Require Import RoomFrames RoomSpec RoomProps RoomThms Server ServerSteps.
From S2P Require Import ServerInv ServerOwner ServerHandler ServerDemo.

Open Scope Z_scope.

(** ** Termination and segmentation *)

(** C15: a resumption of a handler always terminates: after the fuel computed
    from the bytes waiting it is suspended at an [await] or ended, and more
    fuel changes nothing. *)
Theorem handler_terminates tick evs w cid :
  runs tick evs w ->
  handle_iter tick cid (run_handler tick (handler_fuel cid w) cid w) = None /\
  forall fuel, (handler_fuel cid w <= fuel)%nat ->
    run_handler tick fuel cid w = run_handler tick (handler_fuel cid w) cid w.
Proof.
  intros Hcore%core_runs. destruct (handler_fuel_enough cid w) as [Hlt|Hn].
  - split; [by apply run_handler_blocks|]. intros fuel Hf. apply run_handler_fuel; [done|lia|done].
  - assert (handle_iter tick cid w = None) as Hi by (unfold handle_iter; by rewrite Hn).
    split; [by rewrite run_handler_stop|]. intros fuel _. by rewrite !run_handler_stop.
Qed.

Lemma handler_terminates_witness :
  handle_iter demo_tick 0 (run_handler demo_tick (handler_fuel 0 (demo_world demo_evs)) 0
    (demo_world demo_evs)) = None.
Proof. apply (handler_terminates demo_tick demo_evs (demo_world demo_evs) 0 demo_runs). Defined.

Lemma data_handle_star tick w cid bs w' evs :
  star (sys_step tick) w (EvData cid bs :: EvHandle cid :: evs) w' ->
  exists c,
    w_conns w !! cid = Some c /\ rd_eof (c_reader c) = false /\ tr_closed (c_writer c) = false /\
    let w1 := set_conn cid (feedc bs) w in
    star (sys_step tick) (run_handler tick (handler_fuel cid w1) cid w1) evs w'.
Proof.
  intros H. inversion H as [|? ? w1 ? ? H1 H2]; subst. clear H.
  inversion H2 as [|? ? w2 ? ? H3 H4]; subst. clear H2. revert H1 H3.
  unfold sys_step. cbn. destruct (w_conns w !! cid) as [c|] eqn:Hc; [|done]. cbn.
  destruct (rd_eof (c_reader c)) eqn:He; [done|]. destruct (tr_closed (c_writer c)) eqn:Hcl; [done|].
  intros [= <-]. cbn. rewrite list_lookup_alter_eq, Hc. cbn. intros [= <-]. by exists c.
Qed.

Lemma star_data_handle tick w cid bs w' evs c :
  w_conns w !! cid = Some c -> rd_eof (c_reader c) = false -> tr_closed (c_writer c) = false ->
  (let w1 := set_conn cid (feedc bs) w in
   star (sys_step tick) (run_handler tick (handler_fuel cid w1) cid w1) evs w') ->
  star (sys_step tick) w (EvData cid bs :: EvHandle cid :: evs) w'.
Proof.
  intros Hc He Hcl H. eapply star_cons; [|eapply star_cons; [|exact H]].
  - unfold sys_step. cbn. rewrite Hc. cbn. by rewrite He, Hcl.
  - unfold sys_step. cbn -[run_handler handler_fuel].
    rewrite list_lookup_alter_eq, Hc. done.
Qed.

Definition delivered (cid : nat) (chunks : list bytes) : list event :=
  concat ((fun bs => [EvData cid bs; EvHandle cid]) <$> chunks).

(** C14: TCP may cut the stream anywhere: delivering it in chunks, with the
    handler resumed after each, leads to the same state as delivering it whole. *)
Theorem stream_segmentation tick evs w cid chunks w' :
  runs tick evs w -> chunks <> [] ->
  star (sys_step tick) w (delivered cid chunks) w' ->
  star (sys_step tick) w (delivered cid [concat chunks]) w'.
Proof.
  intros Hcore%core_runs Hne. destruct chunks as [|a rest]; [done|]. clear Hne. revert a.
  induction rest as [|b rest IH]; intros a H; [by cbn; rewrite app_nil_r|].
  assert (concat (a :: b :: rest) = concat ((a ++ b) :: rest)) as -> by apply app_assoc.
  apply IH. destruct (data_handle_star _ _ _ _ _ _ H) as (c & Hc & He & Hcl & H2).
  apply (star_data_handle _ _ _ _ _ _ c Hc He Hcl).
  destruct (data_handle_star _ _ _ _ _ _ H2) as (c2 & Hc2 & _ & _ & H3). cbv zeta in H3 |- *.
  pose proof (run_handler_split tick cid c a b w Hcore Hc He ltac:(eauto)) as Heq.
  cbv zeta in Heq. rewrite Heq in H3. exact H3.
Qed.

Lemma stream_segmentation_witness :
  let w := demo_world demo_join in
  let bs := frame (encode (Move 6 1 1)) in
  exists w', star (sys_step demo_tick) w (delivered 1 [take 3 bs; drop 3 bs]) w' /\
    star (sys_step demo_tick) w (delivered 1 [concat [take 3 bs; drop 3 bs]]) w'.
Proof.
  intros w bs.
  exists (default w (exec_all demo_tick w (delivered 1 [take 3 bs; drop 3 bs]))).
  assert (star (sys_step demo_tick) w (delivered 1 [take 3 bs; drop 3 bs])
    (default w (exec_all demo_tick w (delivered 1 [take 3 bs; drop 3 bs])))) as H
    by (apply exec_all_star; vm_compute; reflexivity).
  split; [exact H|].
  refine (stream_segmentation demo_tick demo_join w 1 [take 3 bs; drop 3 bs] _ demo_join_runs _ H).
  discriminate.
Defined.

(** ** What is written to a connection *)

Lemma server_frames_msgs out :
  Forall is_server_frame out ->
  exists ms : list server_msg, Forall wf ms /\ out = (fun m => frame (encode m)) <$> ms.
Proof.
  induction 1 as [|fr out (m & Hwf & ->) _ (ms & Hms & ->)]; [by exists []|].
  exists (m :: ms). split; [by constructor|done].
Qed.

Lemma encode_server_length (m : server_msg) :
  wf m -> (0 < length (encode m) <= Z.to_nat MAX_FRAME)%nat.
Proof.
  destruct m as [pid room_id|t es]; cbn [wf server_codec server_wf encode encode_server length].
  - intros H. rewrite length_fields by done. change (calcsize [CI; CI]) with 8%nat.
    change MAX_FRAME with 1048576. lia.
  - intros [Hh Hes]. rewrite length_app, length_fields by done.
    inversion Hh as [|? ? ? ? _ Hn]; subst. inversion Hn as [|? ? ? ? Hn' _]; subst.
    apply fits_spec in Hn'. cbn in Hn'.
    assert (length (concat (encode_entry <$> es)) = 16 * length es)%nat as ->.
    { clear. induction es as [|e es IH]; [done|]. cbn [fmap list_fmap concat].
      rewrite length_app, length_encode_entry. fold (encode_entry <$> es). rewrite IH. cbn. lia. }
    change (calcsize [CI; CH]) with 6%nat. change MAX_FRAME with 1048576. lia.
Qed.

Lemma parse_frames_msgs (ms : list server_msg) rest :
  Forall wf ms ->
  parse_frames (length ms) (concat ((fun m => frame (encode m)) <$> ms) ++ rest) =
  (encode <$> ms, rest).
Proof.
  induction 1 as [|m ms Hm Hms IH]; [done|]. cbn [length fmap list_fmap concat].
  rewrite <- app_assoc, parse_frames_frame by (pose proof (encode_server_length m Hm); lia).
  fold ((fun m : server_msg => frame (encode m)) <$> ms). by rewrite IH.
Qed.

(** C13: what a client receives is, at any moment, a sequence of whole frames:
    cutting the written bytes by their length prefixes and decoding the payloads
    gives well-formed protocol messages, of which the first is a JOINED. *)
Theorem client_stream tick evs w cid c :
  runs tick evs w -> w_conns w !! cid = Some c ->
  exists ms : list server_msg,
    Forall wf ms /\
    parse_frames (length ms) (concat (tr_out (c_writer c))) = (encode <$> ms, []) /\
    decode <$> (encode <$> ms) = Some <$> ms /\
    match head ms with None | Some (Joined _ _) => True | _ => False end.
Proof.
  intros (ls & Hs & _)%runs_asteps Hc.
  destruct (fi_out _ (frames_asteps _ _ _ Hs) _ _ Hc) as [Hf Hh].
  destruct (server_frames_msgs _ Hf) as (ms & Hms & Heq). exists ms. rewrite Heq in *.
  split_and!; [done| | |].
  - rewrite <- (app_nil_r (concat _)). by apply parse_frames_msgs.
  - rewrite <- list_fmap_compose. apply list_fmap_ext. intros i m Hi. apply decode_encode.
    by eapply Forall_lookup_1.
  - destruct ms as [|m ms]; [done|]. cbn. destruct (Hh _ eq_refl) as (pid & rid & Hwf & Heq').
    assert (decode (encode m) = Some (Joined pid rid)) as Hd.
    { apply (f_equal (drop 4)) in Heq'. rewrite !drop_frame in Heq'. rewrite Heq'. by apply decode_encode. }
    rewrite decode_encode in Hd by by inversion Hms. by injection Hd as ->.
Qed.

Lemma client_stream_witness :
  exists c, w_conns (demo_world demo_evs) !! 1%nat = Some c /\
  exists ms : list server_msg,
    Forall wf ms /\
    parse_frames (length ms) (concat (tr_out (c_writer c))) = (encode <$> ms, []) /\
    decode <$> (encode <$> ms) = Some <$> ms /\
    match head ms with None | Some (Joined _ _) => True | _ => False end.
Proof.
  destruct (w_conns (demo_world demo_evs) !! 1%nat) as [c|] eqn:Hc.
  - exists c. split; [done|].
    exact (client_stream demo_tick demo_evs (demo_world demo_evs) 1 c demo_runs Hc).
  - exfalso. revert Hc. vm_compute. discriminate.
Defined.

(** ** Who owns which player *)

(** C11: as long as fewer than 9 * 2^32 bytes were received in all (so that the
    32-bit counter cannot have wrapped), a player id names one player in one
    room of the process, of one connection. *)
Theorem player_ids_unique tick evs w r1 r2 room1 room2 pid cid1 cid2 :
  runs tick evs w -> Z.of_nat (bytes_in evs) < 9 * 2 ^ 32 ->
  w_heap w !! r1 = Some room1 -> w_heap w !! r2 = Some room2 ->
  (pid, cid1) ∈ r_conns room1 -> (pid, cid2) ∈ r_conns room2 ->
  r1 = r2 /\ cid1 = cid2 /\ 1 <= pid <= w_next_pid w.
Proof.
  intros Hruns Hlt Hr1 Hr2 H1 H2. destruct (owner_runs _ _ _ Hruns Hlt) as (j & Hok & Hj & _).
  assert (r1 = r2) as -> by by eapply (oo_uniq _ _ Hok).
  assert (room1 = room2) as -> by congruence.
  destruct (co_wf _ (core_runs _ _ _ Hruns) _ _ Hr2) as [Hk Hnd _ _]. rewrite Hk in Hnd.
  apply (dict_elem_get _ _ _ Hnd) in H2 as Hg2. apply (dict_elem_get _ _ _ Hnd) in H1 as Hg1.
  split_and!; [done|congruence|..]; pose proof (oo_bound _ _ Hok _ _ _ _ Hr2 H2); lia.
Qed.

Lemma player_ids_unique_witness :
  exists room, w_heap (demo_world demo_join) !! 0%nat = Some room /\ (2, 1%nat) ∈ r_conns room /\
  1 <= 2 <= w_next_pid (demo_world demo_join).
Proof.
  destruct (w_heap (demo_world demo_join) !! 0%nat) as [room|] eqn:Hr.
  - assert ((2, 1%nat) ∈ r_conns room) as Hin.
    { assert (Some (r_conns room) = Some [(1, 0%nat); (2, 1%nat)]) as [= ->]
        by (change (Some (r_conns room)) with (r_conns <$> Some room); rewrite <- Hr; by vm_compute).
      right. left. }
    exists room. split; [done|]. split; [done|].
    apply (player_ids_unique demo_tick demo_join (demo_world demo_join) 0 0 room room 2 1 1);
      [apply demo_join_runs|vm_compute; reflexivity|done..].
  - exfalso. revert Hr. vm_compute. discriminate.
Defined.

(** C10: as long as fewer than [9 * 2^32] bytes were received (so that the 32-bit
    ids have not wrapped), a connection that is open and has joined finds its own
    player: its room maps its id to its writer and to a player of that id, so
    its MOVEs take effect. *)
Theorem own_player tick evs w cid c r :
  runs tick evs w -> Z.of_nat (bytes_in evs) < 9 * 2 ^ 32 ->
  w_conns w !! cid = Some c -> is_open c = true -> c_room c = Some r ->
  exists room p,
    w_heap w !! r = Some room /\ dict_get (r_conns room) (c_pid c) = Some cid /\
    dict_get (r_players room) (c_pid c) = Some p /\ p_id p = c_pid c.
Proof.
  intros Hruns Hlt Hc Ho Hr. destruct (owner_runs _ _ _ Hruns Hlt) as (j & Hok & _).
  destruct (oo_live _ _ Hok _ _ _ Hc Ho Hr) as (room & Hroom & Hin).
  destruct (co_wf _ (core_runs _ _ _ Hruns) _ _ Hroom) as [Hk Hnd Hp _].
  assert (is_Some (dict_get (r_players room) (c_pid c))) as [p Hp'].
  { apply dict_get_keys. rewrite Hk. unfold dict_keys.
    by apply (list_elem_of_fmap_2 fst _ (c_pid c, cid)). }
  exists room, p. split_and!; [done| |done|].
  - apply dict_elem_get; [by rewrite <- Hk|done].
  - by apply dict_get_Some_elem, Hp, po_id in Hp'.
Qed.

Lemma own_player_witness :
  exists c, w_conns (demo_world demo_join) !! 1%nat = Some c /\
  exists room p,
    w_heap (demo_world demo_join) !! 0%nat = Some room /\
    dict_get (r_conns room) (c_pid c) = Some 1%nat /\
    dict_get (r_players room) (c_pid c) = Some p /\ p_id p = c_pid c.
Proof.
  destruct (w_conns (demo_world demo_join) !! 1%nat) as [c|] eqn:Hc.
  - assert ((is_open c, c_room c) = (true, Some 0%nat)) as [= Ho Hr].
    { assert ((fun c => (is_open c, c_room c)) <$> Some c = Some (true, Some 0%nat)) as [= -> ->]
        by (rewrite <- Hc; by vm_compute). done. }
    exists c. split; [done|].
    apply (own_player demo_tick demo_join (demo_world demo_join) 1 c 0);
      [apply demo_join_runs|vm_compute; reflexivity|done..].
  - exfalso. revert Hc. vm_compute. discriminate.
Defined.

(** C9: as long as fewer than [9 * 2^32] bytes were received (so that the 32-bit
    ids have not wrapped), the number of players a connection without write
    faults has in the rooms is exactly the number of JOINs acknowledged to it,
    less the one its handler's [finally] block removes when it ends. *)
Theorem connection_entries tick evs w cid c :
  runs tick evs w -> Z.of_nat (bytes_in evs) < 9 * 2 ^ 32 ->
  w_conns w !! cid = Some c -> tr_fault (c_writer c) = None ->
  entries w cid = if is_open c then joined c else pred (joined c).
Proof.
  intros Hruns Hlt Hc Hf. destruct (owner_runs _ _ _ Hruns Hlt) as (j & Hok & _).
  by apply (oo_count _ _ Hok).
Qed.

Lemma connection_entries_witness :
  exists c, w_conns (demo_world demo_evs) !! 0%nat = Some c /\
  entries (demo_world demo_evs) 0 = if is_open c then joined c else pred (joined c).
Proof.
  destruct (w_conns (demo_world demo_evs) !! 0%nat) as [c|] eqn:Hc.
  - assert (tr_fault (c_writer c) = None) as Hf.
    { assert ((fun c => tr_fault (c_writer c)) <$> Some c = Some None) as [= ?]
        by (rewrite <- Hc; by vm_compute). done. }
    exists c. split; [done|].
    apply (connection_entries demo_tick demo_evs (demo_world demo_evs) 0 c);
      [apply demo_runs|vm_compute; reflexivity|done..].
  - exfalso. revert Hc. vm_compute. discriminate.
Defined.

Lemma entries_pos w cid : member w cid -> (0 < entries w cid)%nat.
Proof.
  intros (r & room & pid & Hr & Hin).
  assert (0 < members cid room)%nat as Hm.
  { unfold members. assert ((pid, cid) ∈ filter (fun kv : Z * nat => kv.2 = cid) (r_conns room)) as H
      by (by apply list_elem_of_filter).
    destruct (filter _ (r_conns room)); [by apply not_elem_of_nil in H|cbn; lia]. }
  pose proof (sum_list_insert (members cid) (w_heap w) r room (Room_init 0 f_zero) Hr) as H.
  unfold entries. change (members cid (Room_init 0 f_zero)) with 0%nat in H. lia.
Qed.

Lemma entries_nonzero w cid : entries w cid <> 0%nat -> member w cid.
Proof.
  unfold entries. intros H.
  destruct (decide (Forall (fun room => members cid room = 0%nat) (w_heap w))) as [Hall|Hex].
  { exfalso. apply H. clear H. induction Hall as [|room h Hr _ IH]; [done|]. cbn. by rewrite Hr. }
  apply not_Forall_Exists in Hex; [|intros room; apply _].
  apply Exists_exists in Hex as (room & (r & Hr)%list_elem_of_lookup & Hm).
  destruct (filter (fun kv : Z * nat => kv.2 = cid) (r_conns room)) as [|[pid cid0] l] eqn:E.
  { exfalso. apply Hm. unfold members. by rewrite E. }
  assert ((pid, cid0) ∈ filter (fun kv : Z * nat => kv.2 = cid) (r_conns room)) as [Heq Hin]%list_elem_of_filter
    by (rewrite E; left).
  cbn in Heq. subst. by exists r, room, pid.
Qed.

(** C26: as long as fewer than [9 * 2^32] bytes were received (so that the 32-bit
    ids have not wrapped; [pid_zero_leak] is a case in which they have), after
    the handler of a connection without write faults has ended, some room still has a player of it (which nothing removes any more) exactly when
    it had joined twice or more: the [finally] block leaves only the last room
    joined. *)
Theorem ghost_players tick evs w cid c :
  runs tick evs w -> Z.of_nat (bytes_in evs) < 9 * 2 ^ 32 ->
  w_conns w !! cid = Some c -> tr_fault (c_writer c) = None -> is_open c = false ->
  (exists r room pid, w_heap w !! r = Some room /\ (pid, cid) ∈ r_conns room) <->
  (2 <= joined c)%nat.
Proof.
  intros Hruns Hlt Hc Hf Ho. destruct (owner_runs _ _ _ Hruns Hlt) as (j & Hok & _).
  pose proof (oo_count _ _ Hok _ _ Hc Hf) as Hct. unfold expected in Hct. rewrite Ho in Hct.
  change (member w cid <-> (2 <= joined c)%nat). split.
  - intros ?%entries_pos. lia.
  - intros Hj. apply entries_nonzero. lia.
Qed.

Lemma ghost_players_witness :
  exists r room pid, w_heap (demo_world demo_evs) !! r = Some room /\ (pid, 0%nat) ∈ r_conns room.
Proof.
  destruct (w_conns (demo_world demo_evs) !! 0%nat) as [c|] eqn:Hc.
  - assert ((tr_fault (c_writer c), is_open c, joined c) = (None, false, 2%nat)) as [= Hf Ho Hj].
    { assert ((fun c => (tr_fault (c_writer c), is_open c, joined c)) <$> Some c =
        Some (None, false, 2%nat)) as [= -> -> ->] by (rewrite <- Hc; by vm_compute). done. }
    apply (ghost_players demo_tick demo_evs (demo_world demo_evs) 0 c);
      [apply demo_runs|vm_compute; reflexivity|done..|lia].
  - exfalso. revert Hc. vm_compute. discriminate.
Defined.
