(* ===== verification/ServerSafety.v ===== *)
(** * The server process: what cannot go wrong

    Which exceptions can end a handler, the registry of rooms, and what the
    process does after a room's task has died. *)

From Stdlib Require Import ZArith Lia SpecFloat.
From stdpp Require Import gmap.
From S2P Require Import Prelude PyDict PyFloat PyStruct Wire Room.
From S2P Require Import RoomFrames RoomSpec RoomProps RoomThms Server ServerSteps.
From S2P Require Import ServerInv ServerOwner ServerHandler ServerDemo.

Open Scope Z_scope.

(** ** Exceptions that leave a handler *)

(** The transport failed: an exception was set on the reader, or writes
    raise. *)
Definition broken (c : Conn) : Prop :=
  rd_exc (c_reader c) <> None \/ tr_fault (c_writer c) <> None.

Definition escapes_inv (w : World) : Prop :=
  forall cid c e, w_conns w !! cid = Some c -> c_phase c = Finished (Some e) -> broken c.

Lemma escapes_insert w w' cid c' :
  w_conns w' = <[cid := c']> (w_conns w) ->
  (forall e, c_phase c' = Finished (Some e) -> broken c') -> escapes_inv w -> escapes_inv w'.
Proof.
  intros Hcs H Hi cid1 c1 e. rewrite Hcs.
  intros [[<- ->]|[_ Hc1]]%lookup_insert_conn; [apply H|by apply (Hi cid1)].
Qed.

Lemma open_not_finished c e : is_open c = true -> c_phase c <> Finished e.
Proof. unfold is_open. by destruct (c_phase c). Qed.

Lemma escapes_finish w cid c e :
  w_conns w !! cid = Some c -> end_cause c e \/ tr_fault (c_writer c) <> None ->
  escapes_inv w -> escapes_inv (finish cid e w).
Proof.
  intros Hc Hend Hi cid1 c1 e1. unfold finish. rewrite Hc.
  set (w0 := match c_room c with Some r => _ | None => _ end).
  assert (w_conns w0 = w_conns w) as Hcs
    by (unfold w0; destruct (c_room c); [destruct (c_pid c =? 0)|]; done).
  rewrite lookup_set_conn, Hcs. case_decide as Hd; [|by apply Hi].
  subst cid1. rewrite Hc. cbn [fmap option_fmap option_map]. intros [= <-]. cbn [c_phase set_phase].
  intros [= Hout]. destruct e as [e|]; [|done]. destruct (caught e) eqn:He; [done|].
  injection Hout as ->. unfold broken. cbn.
  destruct Hend as [[->|Hx]|Hf]; [done|left; congruence|by right].
Qed.

Lemma escapes_asteps tick ls w : asteps tick World_init ls w -> escapes_inv w.
Proof.
  intros Hs. eapply (asteps_preserve tick (fun _ => escapes_inv)) with (j := 0%nat);
    [..|apply core_init|exact Hs|by intros ? ? ?]; clear.
  - intros _ w _ Hi cid c e [Hc|[-> ->]]%lookup_add_conn; [by apply (Hi cid)|done].
  - intros _ w cid c c' _ Hc Hw _ _ Ho He Hcl Hi.
    apply (escapes_insert w _ cid c'); [by rewrite (set_conn_eq _ _ _ _ Hc)| |done].
    intros e Hph. destruct (is_open c) eqn:Hoc.
    + exfalso. by eapply (open_not_finished c').
    + rewrite (Hcl eq_refl) in Hph. destruct (Hi _ _ _ Hc Hph) as [H|H]; [left; by apply He|right].
      destruct Hw as [->|[e' ->]]; done.
  - intros _ w room_id _ _ Hi. exact Hi.
  - intros _ w cid c c' r room _ Hc _ _ _ (Ho & _) Hi.
    apply (escapes_insert w _ cid c'); [done| |done].
    intros e Hph. exfalso. by eapply open_not_finished.
  - intros _ w cid c r seq dx dy _ _ _ _ Hi. exact Hi.
  - intros. by eapply escapes_finish.
  - intros _ w r room room' _ _ _ _ Hi. exact Hi.
  - intros _ w cid c fr _ Hc _ _ Hi.
    apply (escapes_insert w _ cid (cwrite fr c)); [by rewrite (set_conn_eq _ _ _ _ Hc)| |done].
    intros e Hph. destruct (Hi _ _ _ Hc Hph) as [H|H]; [by left|right].
    unfold cwrite, writer_write. destruct (tr_fault (c_writer c)) eqn:E; cbn; congruence.
Qed.

(** C17: whatever bytes clients send, in whatever order, no exception of the
    handler's own code (a short payload, a failed unpacking, an unknown room)
    leaves the coroutine: an uncaught exception can only be one of the
    transport, and the connections without a failed transport end normally. *)
Theorem handler_robust tick evs w cid c e :
  runs tick evs w -> w_conns w !! cid = Some c -> c_phase c = Finished (Some e) ->
  rd_exc (c_reader c) <> None \/ tr_fault (c_writer c) <> None.
Proof. intros (ls & Hs & _)%runs_asteps. by apply (escapes_asteps _ _ _ Hs). Qed.

(** A connection reset with an exception that [except] does not name. *)
Definition demo_lost : list event :=
  [EvAccept; EvData 0 (frame (encode (Join 7))); EvHandle 0; EvLost 0 OSError; EvHandle 0].

Lemma handler_robust_witness :
  exists c, w_conns (demo_world demo_lost) !! 0%nat = Some c /\
  (rd_exc (c_reader c) <> None \/ tr_fault (c_writer c) <> None).
Proof.
  destruct (w_conns (demo_world demo_lost) !! 0%nat) as [c|] eqn:Hc.
  - exists c. split; [done|]. apply (handler_robust demo_tick demo_lost (demo_world demo_lost) 0 c OSError).
    + apply exec_all_runs. vm_compute. eauto.
    + exact Hc.
    + assert (c_phase <$> Some c = Some (Finished (Some OSError))) as [= H]
        by (rewrite <- Hc; by vm_compute). exact H.
  - exfalso. revert Hc. vm_compute. discriminate.
Defined.

(** ** The registry of rooms *)

(** C25: [rooms] is a bijection between the ids used so far and the [Room]
    objects: every object is registered under its own id, two connections in
    rooms of the same id share the object, and a connection's [room] is always
    a registered object. *)
Theorem room_registry tick evs w :
  runs tick evs w ->
  (forall r room, w_heap w !! r = Some room -> w_rooms w !! (r_id room) = Some r) /\
  (forall id r, w_rooms w !! id = Some r ->
     exists room, w_heap w !! r = Some room /\ r_id room = id) /\
  (forall cid1 cid2 c1 c2 r1 r2 room1 room2,
     w_conns w !! cid1 = Some c1 -> w_conns w !! cid2 = Some c2 ->
     c_room c1 = Some r1 -> c_room c2 = Some r2 ->
     w_heap w !! r1 = Some room1 -> w_heap w !! r2 = Some room2 ->
     r_id room1 = r_id room2 -> r1 = r2) /\
  (forall cid c r, w_conns w !! cid = Some c -> c_room c = Some r ->
     exists id, w_rooms w !! id = Some r).
Proof.
  intros Hcore%core_runs.
  assert (forall r room, w_heap w !! r = Some room -> w_rooms w !! (r_id room) = Some r) as Hreg
    by (intros r room Hr; apply (co_rooms _ Hcore); eauto).
  split_and!.
  - exact Hreg.
  - intros id r Hid. by apply (co_rooms _ Hcore).
  - intros cid1 cid2 c1 c2 r1 r2 room1 room2 _ _ _ _ H1%Hreg H2%Hreg Heq. rewrite Heq in H1. congruence.
  - intros cid c r Hc Hr. destruct (co_croom _ Hcore _ _ _ Hc Hr) as [room Hroom].
    exists (r_id room). by apply Hreg.
Qed.

Lemma room_registry_witness :
  exists r, w_rooms (demo_world demo_join) !! 7 = Some r /\
  exists room, w_heap (demo_world demo_join) !! r = Some room /\ r_id room = 7.
Proof.
  exists 0%nat. assert (w_rooms (demo_world demo_join) !! 7 = Some 0%nat) as H by (by vm_compute).
  split; [exact H|].
  exact (proj1 (proj2 (room_registry demo_tick demo_join (demo_world demo_join) demo_join_runs)) 7 0%nat H).
Defined.

(** ** After the death of a room's task *)

(** The room [r] is dead with tick number [t]. *)
Definition dead_room (r : nat) (id t : Z) (e : exn) (w : World) : Prop :=
  exists room, w_heap w !! r = Some room /\ r_id room = id /\ r_task room = Dead e /\ r_tick_no room = t.

Lemma dead_alter r id t e f w r' :
  (forall room, r_id (f room) = r_id room /\ r_task (f room) = r_task room /\
     r_tick_no (f room) = r_tick_no room) ->
  dead_room r id t e w -> dead_room r id t e (set_heap (alter f r' (w_heap w)) w).
Proof.
  intros Hf (room & Hr & Hid & Ht & Hn). destruct (Hf room) as (Hfid & Hft & Hfn).
  unfold dead_room. cbn. rewrite list_lookup_alter. case_decide; [subst r'|by exists room].
  exists (f room). rewrite Hr. by rewrite Hfid, Hft, Hfn.
Qed.

Lemma dead_heap r id t e w w' :
  w_heap w' = w_heap w -> dead_room r id t e w -> dead_room r id t e w'.
Proof. intros Heq. unfold dead_room. by rewrite Heq. Qed.

Lemma dead_finish r id t e cid e' w : dead_room r id t e w -> dead_room r id t e (finish cid e' w).
Proof.
  intros H. unfold finish. destruct (w_conns w !! cid) as [c|]; [|done].
  destruct (c_room c) as [r'|]; [destruct (c_pid c =? 0)|]; try done.
  by apply (dead_alter r id t e (fun room => leave room (c_pid c))).
Qed.

Lemma dead_join r id t e tick cid c room_id w w1 r' room pid :
  get_room tick room_id w = (w1, Ok r') -> w_heap w1 !! r' = Some room ->
  dead_room r id t e w -> dead_room r id t e (join_world cid c r' room pid w1).
Proof.
  intros Hg Hr' (room0 & Hr & Hid & Ht & Hn). assert (w_heap w1 !! r = Some room0) as Hr1.
  { revert Hg. unfold get_room. case_match; intros [= <- _]; [done|]. cbn.
    by rewrite lookup_app_l by by eapply lookup_lt_Some. }
  unfold dead_room. cbn. destruct (decide (r' = r)) as [->|Hne].
  - rewrite list_lookup_insert_eq by by eapply lookup_lt_Some.
    assert (room0 = room) as -> by congruence. by exists (enter room pid cid).
  - rewrite list_lookup_insert_ne by done. by exists room0.
Qed.

Lemma dead_astep r id t e tick w l w' :
  dead_room r id t e w -> astep tick w l w' -> dead_room r id t e w'.
Proof.
  intros H Hs. destruct Hs as
    [w|w cid c c' fed Hc Hw Hr Hp Ho Hpot Hph He Hcl|w cid c e' Hc
    |w cid c rd room_id r' w1 room Hc Ho Hf Hl Hid Hg Hr Hri
    |w cid c rd room_id r' w1 room e' Hc Ho Hf Hl Hid Hg Hr Hri|w cid c r' seq dx dy Hc Hr Ha
    |w cid c e' Hc Ho Hend|w r' room clock room' frs o t' Hr Hw]; try done.
  - by eapply dead_join.
  - apply dead_finish. by eapply dead_join.
  - apply (dead_alter r id t e (fun room => move room (c_pid c) seq dx dy)); [|done].
    intros room. unfold move. by case_match.
  - by apply dead_finish.
  - apply (broadcasts_inv (dead_room r id t e) (fun _ => True)); [|by apply Forall_true|].
    + intros w' cid fr _ _. apply dead_heap. by destruct (conn_write_conns cid fr w') as (-> & _).
    + destruct H as (room0 & Hr0 & Hid & Ht & Hn). unfold dead_room. cbn.
      destruct (decide (r' = r)) as [->|Hne].
      * exfalso. simplify_eq. unfold run_wake in Hw. by rewrite Ht in Hw.
      * rewrite list_lookup_insert_ne by done. by exists room0.
Qed.

(** C19: the death of a room is final and silent: once a tick has raised, in
    every later state the room is still registered under its id, its tick
    number has not moved, and its task cannot be resumed, so that no snapshot
    of it is ever sent again, whoever joins it. *)
Theorem dead_room_final tick evs evs' w w' r room e :
  runs tick evs w -> w_heap w !! r = Some room -> r_task room = Dead e ->
  star (sys_step tick) w evs' w' ->
  exists room',
    w_heap w' !! r = Some room' /\ w_rooms w' !! (r_id room) = Some r /\
    r_task room' = Dead e /\ r_tick_no room' = r_tick_no room /\
    forall clock, exec tick w' (EvWake r clock) = None.
Proof.
  intros Hcore%core_runs Hr He Hs.
  assert (core w' /\ dead_room r (r_id room) (r_tick_no room) e w') as [Hcore' Hd].
  { revert Hcore. assert (dead_room r (r_id room) (r_tick_no room) e w) as Hd by (by exists room).
    clear Hr. revert Hd. induction Hs as [|w ev w1 evs1 w' Hstep Hs IH]; [done|]. intros Hd Hcore.
    destruct (exec_asteps _ _ _ _ Hcore Hstep) as (ls & Has & _).
    apply IH; [|by eapply core_asteps].
    eapply star_invariant; [|exact Has|exact Hd]. intros. by eapply dead_astep. }
  destruct Hd as (room' & Hr' & Hid & Ht & Hn). exists room'. split_and!; try done.
  - apply (co_rooms _ Hcore'). eauto.
  - intros clock. cbn. unfold wake_room. rewrite Hr'. cbn. unfold run_wake. by rewrite Ht.
Qed.

(** A clock reading later than every deadline. *)
Definition f_late : float := S754_infinity false.

Lemma f_late_late x : flt f_zero (fsub x f_late) = false.
Proof. by destruct x as [[]|[]| |[] ? ?]. Qed.

(** Behind schedule, [run] ticks until a tick raises. *)
Lemma run_loop_late k r nxt e :
  (step (ticks k r)).2 = Raise e ->
  exists n r' frs e', run_loop r nxt (replicate n f_late) = (r', frs, RDied e', []).
Proof.
  revert r nxt. induction k as [|k IH]; intros r nxt Hk.
  - exists 1%nat. cbn. rewrite f_late_late. cbn in Hk. destruct (step r) as [r1 o]. cbn in Hk. subst o.
    eauto.
  - destruct (step r) as [r1 [fr|e1]] eqn:Hs.
    + assert (ticks (S k) r = ticks k r1) as Heq.
      { unfold ticks. rewrite Nat.iter_succ_r. by rewrite Hs. }
      rewrite Heq in Hk. destruct (IH r1 (fadd nxt (r_tick r)) Hk) as (n & r' & frs & e' & Hl).
      exists (S n). cbn. rewrite f_late_late, Hs, Hl. eauto.
    + exists 1%nat. cbn. rewrite f_late_late, Hs. eauto.
Qed.

Lemma wake_dies tick w r room clock room' frs e :
  w_heap w !! r = Some room -> run_wake room clock = Some (room', frs, RDied e, []) ->
  exists w', exec tick w (EvWake r clock) = Some w' /\
    w_heap w' !! r = Some (set_task (Dead e) room').
Proof.
  intros Hr Hw. cbn. unfold wake_room. rewrite Hr. cbn. rewrite Hw. cbn. eexists. split; [done|].
  apply (broadcasts_inv (fun w => w_heap w !! r = Some (set_task (Dead e) room')) (fun _ => True)).
  - intros w1 cid fr _ _. by destruct (conn_write_conns cid fr w1) as (-> & _).
  - by apply Forall_true.
  - cbn. apply list_lookup_insert_eq. by eapply lookup_lt_Some.
Qed.

Lemma demo_join_room :
  exists room p, w_heap (demo_world demo_join) !! 0%nat = Some room /\ r_task room = Pending /\
    dict_get (r_players room) 2 = Some p /\ p_vx p = 2 /\ p_x p = 0.
Proof.
  destruct (w_heap (demo_world demo_join) !! 0%nat) as [room|] eqn:Hr.
  - assert ((fun room => (r_task room, dict_get (r_players room) 2)) <$> Some room =
      Some (Pending, Some (mkPlayer 2 0 0 2 (-3) 5))) as [= Ht Hp] by (rewrite <- Hr; by vm_compute).
    eauto 10.
  - exfalso. revert Hr. vm_compute. discriminate.
Qed.

(** One MOVE is enough to stop a room for good: in a run whose only messages
    are two JOINs of room 7 and the MOVE of the second client, the task of the
    room ends with an exception. *)
Lemma demo_room_dies :
  exists clock w room e,
    runs demo_tick (demo_join ++ [EvWake 0 clock]) w /\
    w_heap w !! 0%nat = Some room /\ r_task room = Dead e.
Proof.
  destruct demo_join_room as (room & p & Hr & Ht & Hp & Hvx & Hx).
  pose proof (core_runs _ _ _ demo_join_runs) as Hcore.
  assert (exists k, (step (ticks k room)).2 = Raise StructError) as [k Hk].
  { destruct (Z_of_nat_complete (2 ^ 32)) as [k Hk]; [done|]. exists k.
    apply (tick_out_of_range room 2 p 2); [by apply (co_wf _ Hcore _ _ Hr)|exact Hp| |].
    - left. by rewrite Hvx, Hx.
    - rewrite Nat2Z.inj_succ, <- Hk. lia. }
  destruct (run_loop_late _ room f_zero StructError Hk) as (n & room' & frs & e & Hl).
  destruct (wake_dies demo_tick _ 0 room (f_zero :: replicate n f_late) room' frs e Hr) as (w' & Hw & Hr').
  { unfold run_wake. rewrite Ht. by rewrite Hl. }
  exists (f_zero :: replicate n f_late), w', (set_task (Dead e) room'), e.
  split; [|by split]. unfold runs. eapply star_app; [exact demo_join_runs|].
  eapply star_one. exact Hw.
Qed.

Lemma dead_room_final_witness :
  exists evs w w' room e,
    runs demo_tick evs w /\ w_heap w !! 0%nat = Some room /\ r_task room = Dead e /\
    star (sys_step demo_tick) w [EvAccept] w' /\
    exists room', w_heap w' !! 0%nat = Some room' /\ r_tick_no room' = r_tick_no room /\
      forall clock, exec demo_tick w' (EvWake 0 clock) = None.
Proof.
  destruct demo_room_dies as (clock & w & room & e & Hruns & Hr & Ht).
  assert (star (sys_step demo_tick) w [EvAccept] (add_conn w)) as Hs by (eapply star_one; reflexivity).
  eexists _, w, (add_conn w), room, e. split; [exact Hruns|]. split; [exact Hr|]. split; [exact Ht|].
  split; [exact Hs|].
  destruct (dead_room_final demo_tick _ [EvAccept] w (add_conn w) 0 room e Hruns Hr Ht Hs)
    as (room' & Hr' & _ & _ & Hn & Hno).
  exists room'. split; [exact Hr'|]. split; [exact Hn|exact Hno].
Defined.
