(* ===== verification/ServerEffects.v ===== *)
(** * The server process: the effect of a message and of a tick

    A client message does what PROTOCOL.md says and touches nothing else; a
    resumption of a room's task delivers its frames to the members of the room,
    in order; the sequence number of a MOVE comes back in the next snapshot. *)

From Stdlib Require Import ZArith Lia.
From stdpp Require Import gmap.
From S2P Require Import Prelude PyDict PyFloat PyStruct Wire Room.
From S2P Require Import RoomFrames RoomSpec RoomProps RoomThms Server ServerSteps.
From S2P Require Import ServerInv ServerOwner ServerHandler ServerDemo.

Open Scope Z_scope.

(** ** One message *)

(** C12: the body of the handler's loop refines the protocol: for a payload of
    the announced length it does what the message it decodes to asks for, and
    nothing at all (not even an exception) when it decodes to no message. *)
Theorem message_refines_protocol tick cid payload w :
  payload <> [] ->
  process tick cid (Z.of_nat (length payload)) payload w =
  match decode payload with
  | Some m => serve tick cid m w
  | None => (w, Ok tt)
  end.
Proof.
  intros Hne. rewrite process_serve by done. unfold serve_payload.
  by destruct (decode payload).
Qed.

Lemma message_refines_protocol_witness :
  process demo_tick 1 9 (encode (Move 6 1 1)) (demo_world demo_join) =
    serve demo_tick 1 (Move 6 1 1) (demo_world demo_join).
Proof.
  refine (message_refines_protocol demo_tick 1 (encode (Move 6 1 1)) (demo_world demo_join) _).
  intros Heq. vm_compute in Heq. discriminate Heq.
Defined.

Lemma get_room_other tick room_id w w1 r r' room :
  get_room tick room_id w = (w1, Ok r) -> w_heap w !! r' = Some room -> w_heap w1 !! r' = Some room.
Proof.
  unfold get_room. case_match; intros [= <- <-]; [done|]. cbn. intros Hr0.
  by rewrite lookup_app_l by by eapply lookup_lt_Some.
Qed.

Lemma get_room_rooms tick room_id w w1 r :
  get_room tick room_id w = (w1, Ok r) -> w_rooms w1 !! room_id = Some r.
Proof.
  unfold get_room. case_match eqn:E; intros [= <- <-]; [done|]. cbn. apply lookup_insert_eq.
Qed.

Lemma process_join_core tick cid c room_id w :
  core w -> w_conns w !! cid = Some c -> tr_fault (c_writer c) = None ->
  fits CI room_id = true ->
  let pid := (w_next_pid w + 1) mod 2 ^ 32 in
  exists w' r room c',
    process tick cid 5 (encode (Join room_id)) w = (w', Ok tt) /\
    w_next_pid w' = pid /\
    w_rooms w' !! room_id = Some r /\ w_heap w' !! r = Some room /\ r_id room = room_id /\
    dict_get (r_players room) pid = Some (mkPlayer pid 0 0 0 0 0) /\
    dict_get (r_conns room) pid = Some cid /\
    w_conns w' !! cid = Some c' /\ c_room c' = Some r /\ c_pid c' = pid /\
    tr_out (c_writer c') = tr_out (c_writer c) ++ [frame (encode (Joined pid room_id))] /\
    forall r0 room0, w_heap w !! r0 = Some room0 -> r_id room0 <> room_id ->
      w_heap w' !! r0 = Some room0.
Proof.
  intros Hcore Hc Hf Hfit pid.
  set (payload := encode (Join room_id)).
  assert (length payload = 5%nat) as Hlen
    by (unfold payload; cbn [encode client_codec encode_client length]; by rewrite length_fields).
  assert (unpack_from [CI] payload 1 = Ok [room_id]) as Hu.
  { rewrite unpack_from_ok by (rewrite Hlen; cbn; lia).     change (drop 1 payload) with (fields [CI] [room_id]).
    pose proof (unpack_all_fields [CI] [room_id] [] ltac:(by repeat constructor)) as Hu.
    rewrite app_nil_r in Hu. by rewrite Hu. }
  destruct (process_join_spec tick cid c payload w Hcore Hc ltac:(lia))
    as (id' & r & w1 & room & Hu' & _ & Hg & Hr & Hid & Hpj).
  assert (id' = room_id) as -> by congruence.
  assert (process tick cid 5 payload w = process_join tick cid payload w) as Hp
    by exact (process_cases tick cid 5 payload w).
  rewrite Hp, Hpj. unfold writer_write. rewrite Hf.
  pose proof (get_room_conns _ _ _ _ _ Hg) as Hcs.
  assert (next_id w = pid) as -> by apply mask32_mod.
  eexists _, r, (enter room pid cid), _. split; [done|]. cbn.
  rewrite !list_lookup_insert_eq by (rewrite ?Hcs; by eapply lookup_lt_Some).
  split_and!; try done.
  - by eapply get_room_rooms.
  - by rewrite dict_get_set_eq.
  - by rewrite dict_get_set_eq.
  - intros r0 room0 Hr0 Hne. rewrite list_lookup_insert_ne; [by eapply get_room_other|].
    intros <-. pose proof (get_room_other _ _ _ _ _ _ _ Hg Hr0). congruence.
Qed.

(** A JOIN on a healthy connection: the room of that id exists afterwards
    and has a player with a new id, at the origin and at rest, whose snapshots
    go to this connection; the connection is acknowledged with JOINED and the
    same id; every other room is untouched. *)
Theorem join_effect tick evs w cid c room_id :
  runs tick evs w -> w_conns w !! cid = Some c -> tr_fault (c_writer c) = None ->
  fits CI room_id = true ->
  let pid := (w_next_pid w + 1) mod 2 ^ 32 in
  exists w' r room c',
    process tick cid 5 (encode (Join room_id)) w = (w', Ok tt) /\
    w_next_pid w' = pid /\
    w_rooms w' !! room_id = Some r /\ w_heap w' !! r = Some room /\ r_id room = room_id /\
    dict_get (r_players room) pid = Some (mkPlayer pid 0 0 0 0 0) /\
    dict_get (r_conns room) pid = Some cid /\
    w_conns w' !! cid = Some c' /\ c_room c' = Some r /\ c_pid c' = pid /\
    tr_out (c_writer c') = tr_out (c_writer c) ++ [frame (encode (Joined pid room_id))] /\
    forall r0 room0, w_heap w !! r0 = Some room0 -> r_id room0 <> room_id ->
      w_heap w' !! r0 = Some room0.
Proof. intros Hcore%core_runs. by apply process_join_core. Qed.

Lemma join_effect_witness :
  exists w' r room,
    process demo_tick 0 5 (encode (Join 9)) (demo_world demo_join) = (w', Ok tt) /\
    w_rooms w' !! 9 = Some r /\ w_heap w' !! r = Some room /\
    dict_get (r_players room) 3 = Some (mkPlayer 3 0 0 0 0 0).
Proof.
  destruct (w_conns (demo_world demo_join) !! 0%nat) as [c|] eqn:Hc.
  - assert ((fun c => tr_fault (c_writer c)) <$> Some c = Some None) as [= Hf]
      by (rewrite <- Hc; by vm_compute).
    destruct (join_effect demo_tick demo_join (demo_world demo_join) 0 c 9 demo_join_runs Hc Hf eq_refl)
      as (w' & r & room & c' & H1 & _ & H2 & H3 & _ & H4 & _).
    exists w', r, room. split; [exact H1|]. split; [exact H2|]. split; [exact H3|]. exact H4.
  - exfalso. revert Hc. vm_compute. discriminate.
Defined.

(** ** Isolation *)

(** The players and members of the rooms of [w], other than player [pid], are
    those of [w']. *)
Definition others_kept (mine : Z -> Prop) (w w' : World) : Prop :=
  forall r room pid, w_heap w !! r = Some room -> ~ mine pid ->
    exists room', w_heap w' !! r = Some room' /\
      dict_get (r_players room') pid = dict_get (r_players room) pid /\
      dict_get (r_conns room') pid = dict_get (r_conns room) pid /\
      r_tick_no room' = r_tick_no room /\ r_task room' = r_task room.

Lemma others_kept_refl mine w : others_kept mine w w.
Proof. intros r room pid Hr _. by exists room. Qed.

Lemma others_kept_trans mine w1 w2 w3 :
  others_kept mine w1 w2 -> others_kept mine w2 w3 -> others_kept mine w1 w3.
Proof.
  intros H1 H2 r room pid Hr Hm. destruct (H1 r room pid Hr Hm) as (room2 & Hr2 & ? & ? & ? & ?).
  destruct (H2 r room2 pid Hr2 Hm) as (room3 & Hr3 & ? & ? & ? & ?).
  exists room3. split; [done|]. split_and!; congruence.
Qed.

Lemma others_kept_alter (mine : Z -> Prop) r pid (f : Room -> Room) w :
  mine pid ->
  (forall room pid', pid' <> pid ->
     dict_get (r_players (f room)) pid' = dict_get (r_players room) pid' /\
     dict_get (r_conns (f room)) pid' = dict_get (r_conns room) pid' /\
     r_tick_no (f room) = r_tick_no room /\ r_task (f room) = r_task room) ->
  others_kept mine w (set_heap (alter f r (w_heap w)) w).
Proof.
  intros Hm Hf r' room pid' Hr' Hm'. cbn. rewrite list_lookup_alter. case_decide; [subst r'|by exists room].
  exists (f room). rewrite Hr'. split; [done|]. apply Hf. congruence.
Qed.

Lemma move_other room pid seq dx dy pid' :
  pid' <> pid ->
  dict_get (r_players (move room pid seq dx dy)) pid' = dict_get (r_players room) pid' /\
  r_conns (move room pid seq dx dy) = r_conns room /\
  r_tick_no (move room pid seq dx dy) = r_tick_no room /\
  r_task (move room pid seq dx dy) = r_task room.
Proof.
  intros Hne. unfold move. destruct (dict_get (r_players room) pid); [|done]. cbn.
  by rewrite dict_get_set_ne.
Qed.

Lemma others_kept_move (mine : Z -> Prop) r pid seq dx dy w :
  mine pid -> others_kept mine w (room_move r pid seq dx dy w).
Proof.
  intros Hm. apply (others_kept_alter mine r pid); [done|]. intros room pid' Hne.
  destruct (move_other room pid seq dx dy pid' Hne) as (? & -> & ? & ?). done.
Qed.

Lemma others_kept_leave (mine : Z -> Prop) r pid w :
  mine pid -> others_kept mine w (room_leave r pid w).
Proof.
  intros Hm. apply (others_kept_alter mine r pid); [done|]. intros room pid' Hne. cbn.
  by rewrite !dict_get_pop_ne by done.
Qed.

Lemma others_kept_join (mine : Z -> Prop) tick cid c r room room_id pid w w1 :
  mine pid -> get_room tick room_id w = (w1, Ok r) -> w_heap w1 !! r = Some room ->
  others_kept mine w (join_world cid c r room pid w1).
Proof.
  intros Hm Hg Hr r' room' pid' Hr' Hm'. cbn.
  pose proof (get_room_other _ _ _ _ _ _ _ Hg Hr') as Hr1.
  destruct (decide (r = r')) as [<-|Hne].
  - assert (room' = room) as -> by congruence. exists (enter room pid cid).
    rewrite list_lookup_insert_eq by by eapply lookup_lt_Some. cbn.
    rewrite !dict_get_set_ne by congruence. done.
  - rewrite list_lookup_insert_ne by done. by exists room'.
Qed.

(** The code of connection [cid] changed its own record and the players of
    [mine] only. *)
Definition isolated (cid : nat) (mine : Z -> Prop) (w w' : World) : Prop :=
  (forall cid', cid' <> cid -> w_conns w' !! cid' = w_conns w !! cid') /\ others_kept mine w w'.

Lemma isolated_trans cid mine w1 w2 w3 :
  isolated cid mine w1 w2 -> isolated cid mine w2 w3 -> isolated cid mine w1 w3.
Proof.
  intros [H1 H2] [H3 H4]. split; [|by eapply others_kept_trans].
  intros cid' Hne. by rewrite H3, H1.
Qed.

Lemma isolated_set_conn cid mine f w : isolated cid mine w (set_conn cid f w).
Proof.
  split; [|by intros r room pid Hr _; exists room].
  intros cid' Hne. rewrite lookup_set_conn. by rewrite decide_False by done.
Qed.

Lemma isolated_finish cid (mine : Z -> Prop) c e w :
  w_conns w !! cid = Some c -> mine (c_pid c) -> isolated cid mine w (finish cid e w).
Proof.
  intros Hc Hm. destruct (finish_eq cid c e w Hc) as (out & ->).
  eapply isolated_trans; [|apply isolated_set_conn].
  destruct (c_room c); [destruct (c_pid c =? 0)|].
  - by split; [|apply others_kept_refl].
  - by split; [|apply others_kept_leave].
  - by split; [|apply others_kept_refl].
Qed.

(** The ids that belong to the handler of [c]: the one it has and the next one
    it can be given. *)
Definition mine_of (c : Conn) (w : World) (pid : Z) : Prop := pid = c_pid c \/ pid = next_id w.

Lemma process_isolated tick cid c n payload w :
  core w -> w_conns w !! cid = Some c -> n <= Z.of_nat (length payload) ->
  isolated cid (mine_of c w) w (process tick cid n payload w).1 /\
  exists c', w_conns (process tick cid n payload w).1 !! cid = Some c' /\ mine_of c w (c_pid c').
Proof.
  intros Hcore Hc Hn. pose proof (process_cases tick cid n payload w) as Hp.
  assert (isolated cid (mine_of c w) w w /\ exists c', w_conns w !! cid = Some c' /\ mine_of c w (c_pid c'))
    as Hsame.
  { split; [split; [done|apply others_kept_refl]|]. exists c. split; [done|by left]. }
  destruct (head payload) as [b|]; rewrite Hp; [|done].
  case_match eqn:Hj; [|case_match eqn:Hm; [|done]]; zbool.
  - destruct (process_join_spec tick cid c payload w Hcore Hc ltac:(lia))
      as (room_id & r & w1 & room & _ & _ & Hg & Hr & _ & ->).
    destruct (writer_write _ (c_writer c)) as [t o]. cbn [fst].
    pose proof (get_room_conns _ _ _ _ _ Hg) as Hcs. split; [split|].
    + intros cid' Hne. cbn. by rewrite list_lookup_insert_ne, Hcs by done.
    + eapply others_kept_join; [by right|done..].
    + eexists. cbn. rewrite list_lookup_insert_eq by (rewrite Hcs; by eapply lookup_lt_Some).
      split; [done|by right].
  - destruct (process_move_spec cid c payload w Hc ltac:(lia))
      as [->|(r & seq & dx & dy & _ & _ & ->)]; [done|]. cbn [fst].
    split; [split; [done|by apply others_kept_move; left]|]. exists c. split; [done|by left].
Qed.

Lemma handle_iter_isolated tick cid c w w' :
  core w -> w_conns w !! cid = Some c -> handle_iter tick cid w = Some w' ->
  isolated cid (mine_of c w) w w'.
Proof.
  intros Hcore Hc. unfold handle_iter. rewrite Hc. cbn [mbind option_bind].
  assert (forall f e, c_pid (f c) = c_pid c ->
    isolated cid (mine_of c w) w (finish cid e (set_conn cid f w))) as Hfin.
  { intros f e Hf. eapply isolated_trans; [apply isolated_set_conn|].
    apply (isolated_finish _ _ (f c)); [by apply set_conn_lookup|]. left. by rewrite Hf. }
  destruct (c_phase c) as [|n|e] eqn:Hph; [..|done].
  - destruct (readexactly 4 (c_reader c)) as [|e rd|header rd]; [done|..].
    + intros [= <-]. by apply Hfin.
    + destruct (unpack [CI] header) as [[|n [|? ?]]|e]; [..|by intros [= <-]; apply Hfin].
      * intros [= <-]. by apply Hfin.
      * case_match; intros [= <-]; [by apply Hfin|].
        eapply isolated_trans; apply isolated_set_conn.
      * intros [= <-]. by apply Hfin.
  - destruct (readexactly (Z.to_nat n) (c_reader c)) as [|e rd|payload rd] eqn:Hrd; [done|..].
    + intros [= <-]. by apply Hfin.
    + pose proof (co_phase _ Hcore _ _ Hc) as Hn. unfold phase_ok in Hn. rewrite Hph in Hn.
      apply readexactly_data in Hrd as (_ & Hlen & _).
      set (g := fun c => set_phase AwaitHeader (set_reader rd c)).
      assert (core (set_conn cid g w)) as Hcore'.
      { rewrite (set_conn_const _ _ _ c Hc). by apply (core_set_conn _ _ c). }
      destruct (process_isolated tick cid (g c) n payload (set_conn cid g w) Hcore'
        (set_conn_lookup _ _ _ _ Hc) ltac:(lia)) as [Hiso (c' & Hc' & Hmine)].
      change (mine_of (g c) (set_conn cid g w)) with (mine_of c w) in *.
      destruct (process tick cid n payload (set_conn cid g w)) as [w1 [u|e]]; cbn [fst] in *;
        intros [= <-]; (eapply isolated_trans; [apply isolated_set_conn|]).
      * done.
      * eapply isolated_trans; [exact Hiso|]. by apply (isolated_finish _ _ c').
Qed.

(** C16: isolation: whatever a client sends, one turn of its handler's loop
    leaves every other connection's record alone, and in every room every
    player and member except its own (the one it has and the one it is being
    given), the tick number and the task. *)
Theorem handler_isolation tick evs w cid c w' :
  runs tick evs w -> w_conns w !! cid = Some c -> handle_iter tick cid w = Some w' ->
  (forall cid', cid' <> cid -> w_conns w' !! cid' = w_conns w !! cid') /\
  forall r room pid,
    w_heap w !! r = Some room -> pid <> c_pid c -> pid <> (w_next_pid w + 1) mod 2 ^ 32 ->
    exists room', w_heap w' !! r = Some room' /\
      dict_get (r_players room') pid = dict_get (r_players room) pid /\
      dict_get (r_conns room') pid = dict_get (r_conns room) pid /\
      r_tick_no room' = r_tick_no room /\ r_task room' = r_task room.
Proof.
  intros Hcore%core_runs Hc Hi. destruct (handle_iter_isolated _ _ _ _ _ Hcore Hc Hi) as [H1 H2].
  split; [done|]. intros r room pid Hr Hne1 Hne2. apply (H2 r room pid Hr).
  unfold mine_of, next_id. rewrite mask32_mod. tauto.
Qed.

Lemma handler_isolation_witness :
  let w := set_conn 1 (feedc (frame (encode (Move 6 1 1)))) (demo_world demo_join) in
  exists w', handle_iter demo_tick 1 w = Some w' /\ w_conns w' !! 0%nat = w_conns w !! 0%nat.
Proof.
  intros w. assert (runs demo_tick (demo_join ++ [EvData 1 (frame (encode (Move 6 1 1)))]) w) as Hruns.
  { unfold runs. eapply star_app; [exact demo_join_runs|]. apply star_one. vm_compute. reflexivity. }
  destruct (w_conns w !! 1%nat) as [c|] eqn:Hc.
  - destruct (handle_iter demo_tick 1 w) as [w'|] eqn:Hi.
    + exists w'. split; [reflexivity|].
      apply (proj1 (handler_isolation demo_tick _ w 1 c w' Hruns Hc Hi)). discriminate.
    + exfalso. revert Hi. vm_compute. discriminate.
  - exfalso. revert Hc. vm_compute. discriminate.
Defined.

(** ** Delivery *)

Definition cadd (frs : list bytes) (c : Conn) : Conn :=
  match tr_fault (c_writer c) with
  | None => set_writer (mkTransport (tr_out (c_writer c) ++ frs) None (tr_closed (c_writer c))) c
  | Some _ => c
  end.

Lemma cadd_nil c : cadd [] c = c.
Proof. destruct c as [rd [out [e|] cl] ph r pid]; unfold cadd, set_writer; cbn; by rewrite ?app_nil_r. Qed.

Lemma cadd_app frs1 frs2 c : cadd frs2 (cadd frs1 c) = cadd (frs1 ++ frs2) c.
Proof. destruct c as [rd [out [e|] cl] ph r pid]; unfold cadd, set_writer; cbn; by rewrite ?app_assoc. Qed.

Lemma cwrite_cadd fr c : cwrite fr c = cadd [fr] c.
Proof. destruct c as [rd [out [e|] cl] ph r pid]; done. Qed.

Lemma broadcast_conns cids fr w cid c :
  w_conns w !! cid = Some c ->
  w_conns (broadcast cids fr w) !! cid =
    Some (cadd (replicate (length (filter (fun x => x = cid) cids)) fr) c).
Proof.
  revert w c. induction cids as [|x cids IH]; intros w c Hc; cbn [broadcast foldl].
  - cbn. by rewrite cadd_nil.
  - change (foldl (fun w cid => (conn_write cid fr w).1) ?w cids) with (broadcast cids fr w).
    rewrite conn_write_eq. rewrite filter_cons. destruct (decide (x = cid)) as [->|Hne].
    + rewrite (IH _ (cwrite fr c)) by by apply set_conn_lookup. cbn [length replicate].
      by rewrite cwrite_cadd, cadd_app.
    + apply IH. rewrite lookup_set_conn. by rewrite decide_False by done.
Qed.

Lemma broadcasts_conns cids frs w cid c :
  w_conns w !! cid = Some c ->
  w_conns (foldl (fun w fr => broadcast cids fr w) w frs) !! cid =
    Some (cadd (concat (replicate (length (filter (fun x => x = cid) cids)) <$> frs)) c).
Proof.
  revert w c. induction frs as [|fr frs IH]; intros w c Hc; cbn [foldl].
  - cbn. by rewrite cadd_nil.
  - rewrite (IH _ _ (broadcast_conns cids fr w cid c Hc)), cadd_app. done.
Qed.

Lemma members_values cid room :
  length (filter (fun x => x = cid) (dict_values (r_conns room))) = members cid room.
Proof.
  unfold members, dict_values. induction (r_conns room) as [|[k v] d IH]; [done|].
  cbn [fmap list_fmap snd]. rewrite !filter_cons. cbn [snd]. case_decide; cbn; by rewrite IH.
Qed.

(** C18: a resumption of a room's task sends every frame it builds, in order, to
    each connection as often as the room has players of that connection, and to
    nobody else; connections whose writes fail receive nothing and disturb no
    one; nothing else of the connections and no other room changes. *)
Theorem wake_delivers tick evs w r clock w' :
  runs tick evs w -> exec tick w (EvWake r clock) = Some w' ->
  exists room room' frs o,
    w_heap w !! r = Some room /\ run_wake room clock = Some (room', frs, o, []) /\
    (forall cid c, w_conns w !! cid = Some c ->
       let sent := concat (replicate (members cid room) <$> frs) in
       w_conns w' !! cid = Some
         match tr_fault (c_writer c) with
         | None => set_writer (mkTransport (tr_out (c_writer c) ++ sent) None (tr_closed (c_writer c))) c
         | Some _ => c
         end) /\
    (forall r0, r0 <> r -> w_heap w' !! r0 = w_heap w !! r0).
Proof.
  intros Hcore%core_runs. cbn. unfold wake_room.
  destruct (w_heap w !! r) as [room|] eqn:Hr; [|done]. cbn [mbind option_bind].
  destruct (run_wake room clock) as [[[[room' frs] o] [|? ?]]|] eqn:Hw; [|done..].
  pose proof (run_wake_members _ _ _ _ _ _ Hw) as (_ & Hm & _).
  intros H. exists room, room', frs, o. split_and!; [done..| |].
  - intros cid c Hc. apply bind_Some in H as (t & _ & [= <-]).
    rewrite (broadcasts_conns _ _ _ cid c) by done. rewrite members_values.
    unfold members. rewrite Hm. done.
  - intros r0 Hne. apply bind_Some in H as (t & _ & [= <-]).
    apply (broadcasts_inv (fun w' => w_heap w' !! r0 = w_heap w !! r0) (fun _ => True)).
    + intros w1 cid fr _ _. by destruct (conn_write_conns cid fr w1) as (-> & _).
    + by apply Forall_true.
    + cbn. by rewrite list_lookup_insert_ne.
Qed.

Lemma wake_delivers_witness :
  exists w', exec demo_tick (demo_world demo_join) (EvWake 0 [f_zero; f_of_ratio false 1 100]) = Some w' /\
  exists room room' frs o, w_heap (demo_world demo_join) !! 0%nat = Some room /\
    run_wake room [f_zero; f_of_ratio false 1 100] = Some (room', frs, o, []).
Proof.
  destruct (exec demo_tick (demo_world demo_join) (EvWake 0 [f_zero; f_of_ratio false 1 100])) as [w'|] eqn:Hx.
  - exists w'. split; [reflexivity|].
    destruct (wake_delivers demo_tick demo_join (demo_world demo_join) 0 _ w' demo_join_runs Hx)
      as (room & room' & frs & o & H1 & H2 & _).
    exists room, room', frs, o. split; [exact H1|exact H2].
  - exfalso. revert Hx. vm_compute. discriminate.
Defined.

(** ** What comes back *)

(** The echo that the load generator measures latency with: the tick after
    a MOVE broadcasts a snapshot in which that player has moved by the MOVE's
    velocity and carries the MOVE's sequence number. *)
Theorem move_echo r pid p seq dx dy fr :
  room_wf r -> dict_get (r_players r) pid = Some p -> move_args_ok seq dx dy ->
  (step (move r pid seq dx dy)).2 = Ok fr ->
  exists t es,
    fr = frame (encode (Snapshot t es)) /\ decode (encode (Snapshot t es)) = Some (Snapshot t es) /\
    mkEntry pid (p_x p + dx) (p_y p + dy) seq ∈ es.
Proof.
  intros Hwf Hp Ha Hs. pose proof (room_wf_move r pid seq dx dy Hwf Ha) as Hwf'.
  rewrite step_eq in Hs. cbn [snd] in Hs. rewrite snapshot_frame_dec in Hs.
  case_decide as Hok; [|done]. injection Hs as <-.
  eexists _, (entry_of <$> dict_values (dict_map advance (r_players (move r pid seq dx dy)))).
  split_and!; [done|by apply (decode_encode (A := server_msg))|].
  apply list_elem_of_fmap. exists (advance (set_velocity seq dx dy p)). split.
  - unfold entry_of. cbn. by rewrite (po_id _ _ (rw_players _ Hwf _ _ (dict_get_Some_elem _ _ _ Hp))).
  - rewrite dict_values_map. apply list_elem_of_fmap_2. unfold dict_values.
    apply (list_elem_of_fmap_2 snd _ (pid, set_velocity seq dx dy p)), dict_get_Some_elem.
    unfold move. rewrite Hp. cbn. by rewrite dict_get_set_eq.
Qed.

Lemma move_echo_witness :
  exists fr t es, (step (move demo_room 2 9 1 1)).2 = Ok fr /\
    fr = frame (encode (Snapshot t es)) /\ mkEntry 2 1 1 9 ∈ es.
Proof.
  destruct (step (move demo_room 2 9 1 1)).2 as [fr|e] eqn:Hs.
  - destruct (move_echo demo_room 2 (mkPlayer 2 0 0 2 (-3) 5) 9 1 1 fr demo_room_wf eq_refl
      ltac:(by repeat constructor) Hs) as (t & es & H1 & _ & H2).
    exists fr, t, es. split; [reflexivity|]. split; [exact H1|exact H2].
  - exfalso. revert Hs. vm_compute. discriminate.
Defined.

(** The [last_seq] of a snapshot is the sequence number of the last MOVE
    the room received, also when an earlier one had a higher number. *)
Theorem last_seq_is_last r pid p seq1 dx1 dy1 seq2 dx2 dy2 :
  dict_get (r_players r) pid = Some p ->
  dict_get (r_players (move (move r pid seq1 dx1 dy1) pid seq2 dx2 dy2)) pid =
    Some (set_velocity seq2 dx2 dy2 p).
Proof.
  intros Hp. unfold move at 2. rewrite Hp. unfold move. cbn. rewrite dict_get_set_eq. cbn.
  by rewrite dict_get_set_eq.
Qed.

Lemma last_seq_is_last_witness :
  dict_get (r_players (move (move demo_room 2 9 1 1) 2 6 4 4)) 2 =
    Some (set_velocity 6 4 4 (mkPlayer 2 0 0 2 (-3) 5)).
Proof. exact (last_seq_is_last demo_room 2 (mkPlayer 2 0 0 2 (-3) 5) 9 1 1 6 4 4 eq_refl). Defined.

(** ** When the counter of ids wraps *)

(** C27: the id handed out when the 32-bit counter wraps is 0, which [finally]
    takes for "never joined": the player of that connection stays in the room
    when its handler ends. *)
Theorem pid_zero_leak tick cid c room_id w :
  core w -> w_next_pid w = 2 ^ 32 - 1 -> w_conns w !! cid = Some c ->
  tr_fault (c_writer c) = None -> fits CI room_id = true ->
  exists w' r,
    process tick cid 5 (encode (Join room_id)) w = (w', Ok tt) /\
    forall e, exists room, w_heap (finish cid e w') !! r = Some room /\
      dict_get (r_players room) 0 = Some (mkPlayer 0 0 0 0 0 0) /\
      dict_get (r_conns room) 0 = Some cid.
Proof.
  intros Hcore Hpid Hc Hf Hfit.
  destruct (process_join_core tick cid c room_id w Hcore Hc Hf Hfit)
    as (w' & r & room & c' & Hp & _ & _ & Hr & _ & H1 & H2 & Hc' & Hroom & Hpid' & _).
  rewrite Hpid in *. change ((2 ^ 32 - 1 + 1) mod 2 ^ 32) with 0 in *.
  exists w', r. split; [done|]. intros e. exists room.
  destruct (finish_heap cid c' e w' Hc') as [-> _]. rewrite Hroom, Hpid'. done.
Qed.

(** A process that has handed out every other id. *)
Definition wrap_world : World := mkWorld (2 ^ 32 - 1) [] ∅ [Conn_init].

Lemma wrap_core : core wrap_world.
Proof.
  split; cbn; try done.
  - intros id r. rewrite lookup_empty. by split; [|intros (? & ? & _)].
  - intros cid c r [_ <-]%list_lookup_singleton_Some. done.
  - intros cid c [_ <-]%list_lookup_singleton_Some. done.
Qed.

Lemma pid_zero_leak_witness :
  exists w' r, process demo_tick 0 5 (encode (Join 7)) wrap_world = (w', Ok tt) /\
    exists room, w_heap (finish 0 (Some IncompleteReadError) w') !! r = Some room /\
      dict_get (r_conns room) 0 = Some 0%nat.
Proof.
  destruct (pid_zero_leak demo_tick 0 Conn_init 7 wrap_world wrap_core eq_refl eq_refl eq_refl eq_refl)
    as (w' & r & H1 & H2).
  exists w', r. split; [exact H1|]. destruct (H2 (Some IncompleteReadError)) as (room & H3 & _ & H4).
  exists room. split; [exact H3|exact H4].
Defined.
