(* ===== verification/RoomPace.v ===== *)
(** * Pacing of a room (servers/python/server.py, lines 75-83)

    The deadlines of [run] form a fixed grid: they depend on the first reading
    of the clock and the number of ticks only, so late wake-ups do not
    accumulate; a room that is behind catches up without sleeping, and during
    that time the event loop serves nobody else. *)

From Stdlib Require Import ZArith Lia.
From S2P Require Import Prelude PyDict PyFloat PyStruct Wire Room.
From S2P Require Import RoomFrames RoomSpec RoomProps RoomThms.

Open Scope Z_scope.

(** The [k]-th deadline after [nxt]. *)
Definition deadline (tick nxt : float) (k : nat) : float := Nat.iter k (fun x => fadd x tick) nxt.

Lemma deadline_succ_r tick nxt k : deadline tick (fadd nxt tick) k = deadline tick nxt (S k).
Proof. unfold deadline. by rewrite Nat.iter_succ_r. Qed.

(** At the [k]-th reading [now] of the clock the room is behind. *)
Definition behind (tick nxt : float) (k : nat) (now : float) : Prop :=
  flt f_zero (fsub (deadline tick nxt (S k)) now) = false.

Definition all_behind (tick nxt : float) (clock : list float) : Prop :=
  forall k now, clock !! k = Some now -> behind tick nxt k now.

Lemma all_behind_nil tick nxt : all_behind tick nxt [].
Proof. by intros k now ?. Qed.

Lemma all_behind_cons tick nxt now clock :
  behind tick nxt 0 now -> all_behind tick (fadd nxt tick) clock -> all_behind tick nxt (now :: clock).
Proof.
  intros H0 H [|k] now' Hk; cbn in Hk; [by injection Hk as <-|].
  unfold behind. rewrite <- deadline_succ_r. by apply H.
Qed.

Lemma step_keeps r : r_tick (step r).1 = r_tick r /\ r_tick_no (step r).1 = (r_tick_no r + 1) mod 2 ^ 32.
Proof. by rewrite step_eq. Qed.

(** How the loop of [run] ends, from deadline [nxt]: [used] are the readings at
    which it was behind (one tick each). *)
Definition loop_end (r : Room) (nxt : float) (clock : list float)
    (frs : list bytes) (o : run_result) (rest : list float) : Prop :=
  match o with
  | RSleep nxt' delay =>
      nxt' = deadline (r_tick r) nxt (S (length frs)) /\
      exists used now, clock = used ++ now :: rest /\ length used = length frs /\
        all_behind (r_tick r) nxt used /\ delay = fsub nxt' now /\ flt f_zero delay = true
  | RSpin nxt' =>
      nxt' = deadline (r_tick r) nxt (length frs) /\ rest = [] /\
      length clock = length frs /\ all_behind (r_tick r) nxt clock
  | RDied e =>
      e = StructError /\
      exists used, clock = used ++ rest /\ length used = S (length frs) /\
        all_behind (r_tick r) nxt used
  end.

(** Ticks done, counting the one that raised. *)
Definition ticks_done (frs : list bytes) (o : run_result) : nat :=
  length frs + match o with RDied _ => 1 | _ => 0 end.

Lemma run_loop_end r nxt clock r' frs o rest :
  run_loop r nxt clock = (r', frs, o, rest) ->
  loop_end r nxt clock frs o rest /\ r' = ticks (ticks_done frs o) r.
Proof.
  revert r nxt r' frs o rest. induction clock as [|now clock IH]; intros r nxt r' frs o rest; cbn.
  - intros [= <- <- <- <-]. split; [|done]. cbn. split_and!; [done..|apply all_behind_nil].
  - destruct (flt f_zero _) eqn:Hd.
    + intros [= <- <- <- <-]. split; [|done]. cbn. split; [done|]. exists [], now.
      split_and!; [done..|apply all_behind_nil|done|done].
    + destruct (step r) as [r1 [fr|e]] eqn:Hs.
      * destruct (run_loop r1 _ clock) as [[[r2 frs2] o2] rest2] eqn:Hl. intros [= <- <- <- <-].
        destruct (IH _ _ _ _ _ _ Hl) as [Hend ->]. destruct (step_keeps r) as [Ht _].
        rewrite Hs in Ht. cbn in Ht. split.
        -- unfold loop_end in *. rewrite Ht in Hend. cbn [length].
           destruct o2 as [nxt' d|nxt'|e]; rewrite ?deadline_succ_r in Hend.
           ++ destruct Hend as (-> & used & now' & -> & Hlen & Hb & Hrest). split; [done|].
              exists (now :: used), now'. cbn. split_and!; [done|by rewrite Hlen| |apply Hrest..].
              by apply all_behind_cons.
           ++ destruct Hend as (-> & -> & Hlen & Hb). split_and!; [done|done|cbn; by rewrite Hlen|].
              by apply all_behind_cons.
           ++ destruct Hend as (-> & used & -> & Hlen & Hb). split; [done|]. exists (now :: used).
              cbn. split_and!; [done|by rewrite Hlen|]. by apply all_behind_cons.
        -- unfold ticks_done, ticks. cbn [length Nat.add]. rewrite Nat.iter_succ_r. by rewrite Hs.
      * intros [= <- <- <- <-]. pose proof (step_not_ok r) as Hno. rewrite Hs in Hno.
        split.
        -- cbn. split; [by specialize (Hno eq_refl); injection Hno|]. exists [now]. split_and!; [done..|].
           apply all_behind_cons; [done|apply all_behind_nil].
        -- unfold ticks_done, ticks. cbn. by rewrite Hs.
Qed.

(** C23: the pacing of [run]: from deadline [nxt] a room ticks once for every
    reading of the clock at which it is behind and then sleeps for the positive
    difference to the next deadline; the deadlines are [nxt + k * tick] (the
    k-fold float sum) whatever the readings were; it stops only by
    [struct.error]; it counts exactly the ticks it made. *)
Theorem run_pacing r nxt clock r' frs o rest :
  run_loop r nxt clock = (r', frs, o, rest) ->
  loop_end r nxt clock frs o rest /\
  r' = ticks (ticks_done frs o) r /\
  r_tick_no r' mod 2 ^ 32 = (r_tick_no r + Z.of_nat (ticks_done frs o)) mod 2 ^ 32.
Proof.
  intros [Hend ->]%run_loop_end. split_and!; [done..|].
  induction (ticks_done frs o) as [|k IH]; [by rewrite Z.add_0_r|].
  rewrite ticks_succ. destruct (step_keeps (ticks k r)) as [_ ->].
  rewrite Zmod_mod, <- Zplus_mod_idemp_l, IH, Zplus_mod_idemp_l. f_equal. lia.
Qed.

(** A room with one moving player, 30 Hz. *)
Definition pace_room : Room :=
  foldl rm_op (Room_init 7 (f_of_ratio false 1 30)) [OpJoin 1 0; OpMove 1 5 2 (-3)].

(** Woken 70 ms after its start. *)
Definition pace_run : Room * list bytes * run_result * list float :=
  run_loop pace_room f_zero (f_of_ratio false 7 100 :: f_of_ratio false 7 100 :: [f_of_ratio false 7 100]).

Lemma run_pacing_witness :
  loop_end pace_room f_zero [f_of_ratio false 7 100; f_of_ratio false 7 100; f_of_ratio false 7 100]
    pace_run.1.1.2 pace_run.1.2 pace_run.2 /\ length pace_run.1.1.2 = 2%nat.
Proof.
  split; [|vm_compute; reflexivity].
  assert (pace_run = (pace_run.1.1.1, pace_run.1.1.2, pace_run.1.2, pace_run.2)) as Heq
    by (rewrite <- !surjective_pairing; reflexivity).
  apply (run_pacing _ _ _ _ _ _ _ Heq).
Defined.

(** C24: overload: as long as the clock is past every deadline and no tick
    raises, [run] consumes every reading without ever suspending, so the event
    loop resumes no handler and no other room in the meantime. *)
Theorem run_starves r nxt clock :
  all_behind (r_tick r) nxt clock ->
  (forall k, (k < length clock)%nat -> is_ok (step (ticks k r)).2 = true) ->
  exists frs,
    run_loop r nxt clock =
      (ticks (length clock) r, frs, RSpin (deadline (r_tick r) nxt (length clock)), []) /\
    length frs = length clock.
Proof.
  revert r nxt. induction clock as [|now clock IH]; intros r nxt Hb Hok; [by exists []|].
  pose proof (Hb 0%nat now eq_refl) as H0. unfold behind in H0. cbn in H0.
  pose proof (Hok 0%nat ltac:(cbn; lia)) as Hs. cbn in Hs.
  cbn [run_loop length]. rewrite H0.
  destruct (step_keeps r) as [Ht _].
  destruct (step r) as [r1 [fr|e]] eqn:Hst; [|done]. cbn in Ht.
  destruct (IH r1 (fadd nxt (r_tick r))) as (frs & Hl & Hlen).
  - intros k now' Hk. rewrite Ht. unfold behind. rewrite deadline_succ_r. by apply (Hb (S k)).
  - intros k Hk. specialize (Hok (S k) ltac:(cbn; lia)). unfold ticks in Hok |- *.
    rewrite Nat.iter_succ_r, Hst in Hok. done.
  - exists (fr :: frs). rewrite Hl, Ht, deadline_succ_r. cbn [length]. rewrite Hlen.
    split; [|done]. assert (ticks (S (length clock)) r = ticks (length clock) r1) as ->; [|done].
    unfold ticks. rewrite Nat.iter_succ_r. by rewrite Hst.
Qed.

Lemma run_starves_witness :
  exists frs, length frs = 2%nat /\
    run_loop pace_room f_zero [f_of_ratio false 7 100; f_of_ratio false 7 100] =
      (ticks 2 pace_room, frs, RSpin (deadline (r_tick pace_room) f_zero 2), []).
Proof.
  destruct (run_starves pace_room f_zero [f_of_ratio false 7 100; f_of_ratio false 7 100])
    as (frs & H1 & H2).
  - intros [|[|[|k]]] now [= <-]; vm_compute; reflexivity.
  - intros [|[|k]] Hk; [vm_compute; reflexivity..|cbn in Hk; lia].
  - exists frs. split; [exact H2|exact H1].
Defined.
