(* ===== verification/ServerMain.v ===== *)
(** * The server's command line (servers/python/server.py, lines 153-183)

    [parse_args] is the function of that name on [sys.argv[1:]]; [main_tick] is
    the period that [main] hands to every connection's [handle]; [main] leaves
    the process serving, without connections, and [serves] is what it does from
    then on.  Binding the socket is asyncio's: [listen] says whether
    [start_server] can. *)

From Stdlib Require Import Ascii String ZArith Lia SpecFloat.
From S2P Require Import Prelude PyText PyFloat PyFloatThms PyNum Server.

Open Scope string_scope.
Open Scope list_scope.
Open Scope Z_scope.

Definition is_addr_flag (s : string) : bool := bool_decide (s = "-addr" \/ s = "--addr").
Definition is_tick_flag (s : string) : bool := bool_decide (s = "-tick" \/ s = "--tick").

(** [int(s.split(":")[-1])] *)
Definition port_of (s : string) : res Z :=
  last_part ← res_of_option IndexError (list.last (split_char ":"%char s));
  int_of_str last_part.

(** The [while] loop, on the arguments from index [i] on: a flag with a value
    takes two, anything else one. *)
Fixpoint parse_loop (a : list string) (port tick : Z) : res (Z * Z) :=
  match a with
  | [] => Ok (port, tick)
  | f :: rest =>
      match rest with
      | v :: rest' =>
          if is_addr_flag f then port ← port_of v; parse_loop rest' port tick
          else if is_tick_flag f then tick ← int_of_str v; parse_loop rest' port tick
          else parse_loop rest port tick
      | [] => parse_loop rest port tick
      end
  end.

Definition parse_args (a : list string) : res (Z * Z) := parse_loop a 9000 30.

(** [1.0 / tick_hz] *)
Definition tick_period (tick_hz : Z) : res float :=
  one ← f_of_Z 1; hz ← f_of_Z tick_hz; fdiv one hz.

(** [main] up to [start_server]: the port and the period. *)
Definition main_tick (a : list string) : res (Z * float) :=
  '(port, tick_hz) ← parse_args a; tick ← tick_period tick_hz; Ok (port, tick).

(** A process that serves: where it listens, the argument [tick] of every
    [handle], and its state. *)
Record Serving := mkServing { sv_host : string; sv_port : Z; sv_tick : float; sv_world : World }.

Section Main.
Variable listen : string -> Z -> res ().

(** [main] up to [serve_forever]. *)
Definition main (a : list string) : res Serving :=
  '(port, tick) ← main_tick a; listen "0.0.0.0" port;; Ok (mkServing "0.0.0.0" port tick World_init).

(** The process started with [a] can be in the state [w]. *)
Definition serves (a : list string) (w : World) : Prop :=
  exists s evs, main a = Ok s /\ star (sys_step (sv_tick s)) (sv_world s) evs w.
End Main.

Example parse_args_demo :
  parse_args ["-addr"; ":9100"; "x"; "--tick"; "60"; "-addr"; "0.0.0.0:9200"; "-tick"] = Ok (9200, 60).
Proof. reflexivity. Qed.

(** Words that are not flags leave the result alone. *)
Definition plain_word (s : string) : Prop := is_addr_flag s = false /\ is_tick_flag s = false.

Lemma parse_loop_plain pre rest port tick :
  Forall plain_word pre -> parse_loop (pre ++ rest) port tick = parse_loop rest port tick.
Proof.
  induction 1 as [|f pre [Ha Ht] _ IH]; [done|]. cbn [app parse_loop].
  destruct (pre ++ rest) as [|v l]; [by rewrite <- IH|]. by rewrite Ha, Ht.
Qed.

Lemma port_of_str host port : port_of (host +:+ String ":" (str_of_Z port)) = Ok port.
Proof.
  unfold port_of. rewrite last_split_char by by apply str_of_Z_lacks.
  apply int_of_str_of_Z.
Qed.

Lemma parse_loop_addr host port p t rest :
  parse_loop ("-addr" :: (host +:+ String ":" (str_of_Z port)) :: rest) p t = parse_loop rest port t.
Proof. cbn [parse_loop]. change (is_addr_flag "-addr") with true. cbv iota. by rewrite port_of_str. Qed.

Lemma parse_loop_tick tick p t rest :
  parse_loop ("-tick" :: str_of_Z tick :: rest) p t = parse_loop rest p tick.
Proof.
  cbn [parse_loop]. change (is_addr_flag "-tick") with false. change (is_tick_flag "-tick") with true.
  cbv iota. by rewrite int_of_str_of_Z.
Qed.

(** A rate of at most 53 bits, not 0, has a period. *)
Lemma tick_period_ok tick_hz :
  tick_hz <> 0 -> Z.abs tick_hz < 2 ^ 53 -> exists period, tick_period tick_hz = Ok period /\ f_valid period.
Proof.
  intros Hz Hlt. unfold tick_period. destruct (f_of_Z_small tick_hz Hz Hlt) as (s & m & e & Hhz).
  destruct (f_of_Z_small 1 ltac:(done) ltac:(done)) as (s' & m' & e' & Hone). rewrite Hone, Hhz. cbn [mbind res_bind fdiv].
  eexists. split; [reflexivity|]. apply (fdiv_valid (S754_finite s' m' e') (S754_finite s m e)); [| |reflexivity].
  - by eapply f_of_Z_valid.
  - by eapply f_of_Z_valid.
Qed.

(** Without a rate nothing is served. *)
Lemma main_zero listen a port : parse_args a = Ok (port, 0) -> main listen a = Raise ZeroDivisionError.
Proof. intros Ha. unfold main, main_tick. rewrite Ha. reflexivity. Qed.

(** The states of a process that serves are those of the event loop's runs. *)
Lemma serves_runs listen a w : serves listen a w -> exists tick evs, runs tick evs w.
Proof.
  intros (s & evs & Hmain & Hsteps). exists (sv_tick s), evs. unfold main in Hmain.
  apply res_bind_Ok in Hmain as ([port tick] & _ & Hmain). apply res_bind_Ok in Hmain as (_ & _ & [= <-]). exact Hsteps.
Qed.

(** The command line round trip: for any host part and any words around it,
    the flags [-addr host:port -tick tick] printed with [str] are read back as
    the same numbers; the defaults, 9000 and 30, are used without flags. *)
Theorem parse_args_roundtrip pre post host port tick :
  Forall plain_word pre -> Forall plain_word post ->
  parse_args (pre ++ ["-addr"; host +:+ String ":" (str_of_Z port); "-tick"; str_of_Z tick] ++ post) =
    Ok (port, tick) /\
  parse_args (pre ++ post) = Ok (9000, 30).
Proof.
  intros Hpre Hpost. unfold parse_args. rewrite !parse_loop_plain by done.
  assert (forall p t, parse_loop post p t = Ok (p, t)) as H.
  { intros p t. rewrite <- (app_nil_r post). by rewrite parse_loop_plain. }
  cbn [app]. rewrite parse_loop_addr, parse_loop_tick, H. split; [done|]. by rewrite parse_loop_plain, H.
Qed.

Lemma parse_args_roundtrip_witness :
  parse_args ["server.py"; "-addr"; ":9100"; "-tick"; "30"] = Ok (9100, 30) /\
  parse_args ["server.py"] = Ok (9000, 30).
Proof.
  apply (parse_args_roundtrip ["server.py"] [] "" 9100 30); repeat constructor.
Defined.
