(* ===== verification/RunnerSpecs.v ===== *)
(** * The runner's server table (runner/run.py, lines 50-192 and 369-379)

    - [cpuspec] and [parse_cores] write and read sets of cores;
    - [spec_go] ... [spec_lua] are the launch plans: one [proc] (argv, extra
      environment, cores) per OS process;
    - [SERVERS] is the table of that name, in its order.

    [ROOT] (the repository's directory) and [sys_executable] are read from the
    environment and are variables of the section. *)

From Stdlib Require Import Ascii String ZArith Lia.
From S2P Require Import Prelude PyText PyDict PyPath.

Open Scope string_scope.
Open Scope list_scope.
Open Scope Z_scope.

(** [",".join(str(c) for c in cores)] *)
Definition cpuspec (cores : list Z) : string := join "," (str_of_Z <$> cores).

(** [range(a, b)] *)
Definition py_range (a b : Z) : list Z := (fun i => a + Z.of_nat i) <$> seq 0 (Z.to_nat (b - a)).

(** The loop of [parse_cores]: a part with a dash is a range; more than one
    dash cannot be unpacked to [a, b]. *)
Definition parse_part (part : string) : res (list Z) :=
  match split_char "-"%char part with
  | [_] => n ← int_of_str part; Ok [n]
  | [a; b] => a ← int_of_str a; b ← int_of_str b; Ok (py_range a (b + 1))
  | _ => Raise ValueError
  end.

Definition parse_cores (s : string) (default : list Z) : res (list Z) :=
  if bool_decide (s = "") then Ok default
  else @concat Z <$> res_map parse_part (split_char ","%char s).

(** One OS process of a launch plan. *)
Record proc := mkProc {
  pr_argv : list string; pr_env : dict string string; pr_cpu : string }.

Definition spec : Type := Z -> Z -> list Z -> list proc.

(** [str(len(cores))] *)
Definition str_len (cores : list Z) : string := str_of_Z (Z.of_nat (length cores)).

Section Specs.
Variable ROOT : string.
Variable sys_executable : string.

(** The arguments every server gets. *)
Definition addr_tick (port tick : Z) : list string :=
  ["-addr"; ":" +:+ str_of_Z port; "-tick"; str_of_Z tick].

Definition spec_go : spec := fun port tick cores =>
  let exe := path_join ROOT "servers/go/gosrv" in
  let env := [("GOMAXPROCS", str_len cores)] in
  [mkProc (exe :: addr_tick port tick) env (cpuspec cores)].

Definition spec_go_pool : spec := fun port tick cores =>
  let exe := path_join ROOT "servers/go-pool/gosrv-pool" in
  let env := [("GOMAXPROCS", str_len cores)] in
  [mkProc (exe :: addr_tick port tick) env (cpuspec cores)].

Definition spec_go_epoll : spec := fun port tick cores =>
  let exe := path_join ROOT "servers/go-epoll/gosrv-epoll" in
  let env := [("GOMAXPROCS", str_len cores)] in
  let argv := exe :: addr_tick port tick ++ ["-workers"; str_len cores] in
  [mkProc argv env (cpuspec cores)].

Definition spec_rust : spec := fun port tick cores =>
  let exe := path_join ROOT "servers/rust/target/release/server-rust" in
  let env := [("TOKIO_WORKER_THREADS", str_len cores)] in
  [mkProc (exe :: addr_tick port tick) env (cpuspec cores)].

Definition spec_ocaml : spec := fun port tick cores =>
  let exe := path_join ROOT "servers/ocaml/_build/default/main.exe" in
  let argv := exe :: addr_tick port tick ++ ["-domains"; str_len cores] in
  [mkProc argv [] (cpuspec cores)].

Definition spec_odin : spec := fun port tick cores =>
  let exe := path_join ROOT "servers/odin/server-odin" in
  let argv := exe :: addr_tick port tick ++ ["-workers"; str_len cores] in
  [mkProc argv [] (cpuspec cores)].

Definition spec_zig : spec := fun port tick cores =>
  let exe := path_join ROOT "servers/zig/server-zig" in
  let argv := exe :: addr_tick port tick ++ ["-workers"; str_len cores] in
  [mkProc argv [] (cpuspec cores)].

Definition spec_dart : spec := fun port tick cores =>
  let exe := path_join ROOT "servers/dart/server-dart" in
  let argv := exe :: addr_tick port tick ++ ["-workers"; str_len cores] in
  [mkProc argv [] (cpuspec cores)].

Definition spec_dart_pool : spec := fun port tick cores =>
  let exe := path_join ROOT "servers/dart-pool/server-dart-pool" in
  let argv := exe :: addr_tick port tick ++ ["-workers"; str_len cores] in
  [mkProc argv [] (cpuspec cores)].

Definition spec_swift : spec := fun port tick cores =>
  let exe := path_join ROOT "servers/swift/.build/release/server-swift" in
  let argv := exe :: addr_tick port tick ++ ["-workers"; str_len cores] in
  [mkProc argv [] (cpuspec cores)].

Definition spec_clojure : spec := fun port tick cores =>
  let script := path_join ROOT "servers/clojure/server.clj" in
  let n := str_len cores in
  let env := [("JAVA_CMD", "/usr/lib/jvm/java-26-openjdk/bin/java")] in
  let argv := ["clojure"; "-J-Djdk.virtualThreadScheduler.parallelism=" +:+ n; "-M"; script] ++
              addr_tick port tick ++ ["-workers"; n] in
  [mkProc argv env (cpuspec cores)].

Definition spec_elixir : spec := fun port tick cores =>
  let script := path_join ROOT "servers/elixir/server.exs" in
  let n := str_len cores in
  let argv := ["elixir"; "--erl"; "+S " +:+ n +:+ ":" +:+ n; script] ++ addr_tick port tick in
  [mkProc argv [] (cpuspec cores)].

(** One process per core, each pinned to its core. *)
Definition spec_python : spec := fun port tick cores =>
  let script := path_join ROOT "servers/python/server.py" in
  (fun c => mkProc (sys_executable :: script :: addr_tick port tick) [] (str_of_Z c)) <$> cores.

Definition spec_lua : spec := fun port tick cores =>
  let script := path_join ROOT "servers/lua/server.lua" in
  (fun c => mkProc ("luajit" :: script :: addr_tick port tick) [] (str_of_Z c)) <$> cores.

(** An entry of [SERVERS]: the build command and its directory, or [None],
    and the launch plan. *)
Record server := mkServer { sv_build : option (list string * string); sv_spec : spec }.

Definition SERVERS : dict string server :=
  [("go", mkServer (Some (["go"; "build"; "-o"; "gosrv"; "."], "servers/go")) spec_go);
   ("go-pool", mkServer (Some (["go"; "build"; "-o"; "gosrv-pool"; "."], "servers/go-pool")) spec_go_pool);
   ("go-epoll", mkServer (Some (["go"; "build"; "-o"; "gosrv-epoll"; "."], "servers/go-epoll")) spec_go_epoll);
   ("rust", mkServer (Some (["cargo"; "build"; "--release"], "servers/rust")) spec_rust);
   ("ocaml", mkServer (Some (["opam"; "exec"; "--"; "dune"; "build"; "--profile"; "release"], "servers/ocaml")) spec_ocaml);
   ("odin", mkServer (Some (["odin"; "build"; "."; "-out:server-odin"; "-o:speed"], "servers/odin")) spec_odin);
   ("zig", mkServer (Some (["zig"; "build-exe"; "server.zig"; "-O"; "ReleaseFast"; "-femit-bin=server-zig"], "servers/zig")) spec_zig);
   ("dart", mkServer (Some (["dart"; "compile"; "exe"; "server.dart"; "-o"; "server-dart"], "servers/dart")) spec_dart);
   ("dart-pool", mkServer (Some (["dart"; "compile"; "exe"; "server.dart"; "-o"; "server-dart-pool"], "servers/dart-pool")) spec_dart_pool);
   ("swift", mkServer (Some (["swift"; "build"; "-c"; "release"], "servers/swift")) spec_swift);
   ("clojure", mkServer None spec_clojure);
   ("elixir", mkServer None spec_elixir);
   ("python", mkServer None spec_python);
   ("lua", mkServer None spec_lua)].
End Specs.
