(* ===== verification/RunnerThms.v ===== *)
(** * The runner's plans: theorems

    Core sets survive printing and parsing; every plan gives each server core
    to exactly one process and tells the runtime how many there are; what the
    runner prints on the Python server's command line is what that server
    reads. *)

From Stdlib Require Import Ascii String ZArith Lia.
From S2P Require Import Prelude PyText PyDict PyFloat PyFloatThms Server ServerMain RunnerSpecs.

Open Scope string_scope.
Open Scope list_scope.
Open Scope Z_scope.

(** ** Core sets *)

(** What a user can write between two commas. *)
Inductive core_item := One (n : Z) | Span (a b : Z).

Definition item_str (i : core_item) : string :=
  match i with One n => str_of_Z n | Span a b => str_of_Z a +:+ String "-" (str_of_Z b) end.

Definition item_cores (i : core_item) : list Z :=
  match i with One n => [n] | Span a b => py_range a (b + 1) end.

Definition item_ok (i : core_item) : Prop :=
  match i with One n => 0 <= n | Span a b => 0 <= a /\ 0 <= b end.

Lemma nat_str_lacks c n : is_digit c = false -> 0 <= n -> lacks c (str_of_Z n) = true.
Proof. intros Hc Hn. by apply digits_lack, str_of_Z_nonneg. Qed.

Lemma parse_item i : item_ok i -> parse_part (item_str i) = Ok (item_cores i).
Proof.
  destruct i as [n|a b]; cbn [item_ok item_str item_cores].
  - intros Hn. unfold parse_part. rewrite split_char_lacks by by apply nat_str_lacks.
    by rewrite int_of_str_of_Z.
  - intros [Ha Hb]. unfold parse_part. rewrite split_char_app by by apply nat_str_lacks.
    rewrite split_char_lacks by by apply nat_str_lacks. by rewrite !int_of_str_of_Z.
Qed.

Lemma item_lacks_comma i : item_ok i -> lacks "," (item_str i) = true.
Proof.
  destruct i as [n|a b]; cbn [item_ok item_str]; [intros Hn|intros [Ha Hb]].
  - by apply nat_str_lacks.
  - rewrite lacks_app, nat_str_lacks by done. cbn. by apply nat_str_lacks.
Qed.

Lemma item_str_ne i : item_str i <> "".
Proof.
  destruct i as [n|a b]; cbn; [apply str_of_Z_ne|]. pose proof (str_of_Z_ne a).
  by destruct (str_of_Z a).
Qed.

Lemma join_ne l : l <> [] -> Forall (fun s => s <> "") l -> join "," l <> "".
Proof.
  intros Hne Hl. destruct Hl as [|s l Hs Hl]; [done|]. cbn. destruct l; [done|]. by destruct s.
Qed.

Lemma parse_items items default :
  items <> [] -> Forall item_ok items ->
  parse_cores (join "," (item_str <$> items)) default = Ok (concat (item_cores <$> items)).
Proof.
  intros Hne Hok. unfold parse_cores. rewrite bool_decide_eq_false_2.
  2:{ apply join_ne; [by destruct items|]. apply Forall_fmap, Forall_true, item_str_ne. }
  change "," with (String "," "") at 1.
  rewrite split_join.
  - assert (res_map parse_part (item_str <$> items) = Ok (item_cores <$> items)) as ->; [|done].
    apply res_map_Ok. rewrite Forall2_fmap_l, Forall2_fmap_r. apply Forall_Forall2_diag.
    eapply Forall_impl; [exact Hok|]. apply parse_item.
  - by destruct items.
  - apply Forall_fmap. eapply Forall_impl; [exact Hok|]. apply item_lacks_comma.
Qed.

Lemma concat_ones l : concat ((item_cores ∘ One) <$> l) = l.
Proof. induction l as [|x l IH]; [done|]. cbn. f_equal. exact IH. Qed.

(** C33: a core set written as any list of numbers and ranges of natural
    numbers is read as exactly those cores, in order; in particular what
    [cpuspec] prints is read back unchanged, and only the empty string means
    the default. *)
Theorem parse_cores_spec items cores default :
  Forall item_ok items -> Forall (fun c => 0 <= c) cores ->
  parse_cores (join "," (item_str <$> items)) default =
    match items with [] => Ok default | _ => Ok (concat (item_cores <$> items)) end /\
  parse_cores (cpuspec cores) default = match cores with [] => Ok default | _ => Ok cores end.
Proof.
  intros Hi Hc. split; [destruct items; [done|]; by apply parse_items|].
  destruct cores as [|c cores]; [done|]. unfold cpuspec.
  assert (str_of_Z <$> c :: cores = item_str <$> (One <$> c :: cores)) as ->
    by by rewrite <- list_fmap_compose.
  rewrite parse_items; [|done|by apply Forall_fmap].
  by rewrite <- list_fmap_compose, concat_ones.
Qed.

Lemma parse_cores_spec_witness :
  parse_cores "0-2,5" [] = Ok [0; 1; 2; 5] /\ parse_cores (cpuspec [4; 7]) [] = Ok [4; 7].
Proof.
  apply (parse_cores_spec [Span 0 2; One 5] [4; 7] []); repeat constructor; discriminate.
Defined.

(** ** Plans *)

Section Plans.
Variable ROOT sys_executable : string.
Notation SERVERS := (SERVERS ROOT sys_executable).

(** How a server is told the number of its cores: an environment variable of its
    runtime, a flag of its own, a word for the runtime that ends in the number,
    the schedulers of the Erlang machine. *)
Inductive knob := EnvVar (name : string) | ServerFlag (name : string) | RuntimeWord (pre : string) | ErlFlags.

(** How a server is launched: the words before its own arguments, whether there
    is a process per core, and what it is told. *)
Record launch := mkLaunch { ln_words : nat; ln_per_core : bool; ln_knobs : list knob }.

Definition launches : dict string launch :=
  [("go", mkLaunch 1 false [EnvVar "GOMAXPROCS"]);
   ("go-pool", mkLaunch 1 false [EnvVar "GOMAXPROCS"]);
   ("go-epoll", mkLaunch 1 false [EnvVar "GOMAXPROCS"; ServerFlag "-workers"]);
   ("rust", mkLaunch 1 false [EnvVar "TOKIO_WORKER_THREADS"]);
   ("ocaml", mkLaunch 1 false [ServerFlag "-domains"]);
   ("odin", mkLaunch 1 false [ServerFlag "-workers"]);
   ("zig", mkLaunch 1 false [ServerFlag "-workers"]);
   ("dart", mkLaunch 1 false [ServerFlag "-workers"]);
   ("dart-pool", mkLaunch 1 false [ServerFlag "-workers"]);
   ("swift", mkLaunch 1 false [ServerFlag "-workers"]);
   ("clojure", mkLaunch 4 false [RuntimeWord "-J-Djdk.virtualThreadScheduler.parallelism="; ServerFlag "-workers"]);
   ("elixir", mkLaunch 4 false [ErlFlags]);
   ("python", mkLaunch 2 true []);
   ("lua", mkLaunch 2 true [])].

(** The value of a flag, in arguments that are pairs of a flag and its value. *)
Fixpoint flag_value (f : string) (args : list string) : option string :=
  match args with
  | g :: v :: args => if bool_decide (g = f) then Some v else flag_value f args
  | _ => None
  end.

Definition told (words : nat) (n : Z) (p : proc) (k : knob) : Prop :=
  match k with
  | EnvVar v => dict_get (pr_env p) v = Some (str_of_Z n)
  | ServerFlag f => flag_value f (drop words (pr_argv p)) = Some (str_of_Z n)
  | RuntimeWord pre => (pre +:+ str_of_Z n) ∈ take words (pr_argv p)
  | ErlFlags => flag_value "--erl" (drop 1 (take words (pr_argv p))) = Some ("+S " +:+ str_of_Z n +:+ ":" +:+ str_of_Z n)
  end.

(** A process has the port, the rate and the number of cores, each where it
    looks for it. *)
Definition instructed (ln : launch) (port tick n : Z) (p : proc) : Prop :=
  flag_value "-addr" (drop (ln_words ln) (pr_argv p)) = Some (":" +:+ str_of_Z port) /\
  flag_value "-tick" (drop (ln_words ln) (pr_argv p)) = Some (str_of_Z tick) /\
  Forall (told (ln_words ln) n p) (ln_knobs ln).

(** One process on all cores that is told their number, or one process per
    core. *)
Definition plan_shape (ln : launch) (f : spec) (port tick : Z) (cores : list Z) : Prop :=
  Forall (instructed ln port tick (Z.of_nat (length cores))) (f port tick cores) /\
  if ln_per_core ln then pr_cpu <$> f port tick cores = str_of_Z <$> cores
  else ln_knobs ln <> [] /\ pr_cpu <$> f port tick cores = [cpuspec cores].

Lemma servers_shape name sv port tick cores :
  (name, sv) ∈ SERVERS ->
  exists ln, dict_get launches name = Some ln /\ plan_shape ln (sv_spec sv) port tick cores.
Proof.
  unfold RunnerSpecs.SERVERS. intros H.
  repeat (apply elem_of_cons in H as [[= -> ->]|H]); [..|by apply not_elem_of_nil in H];
    (eexists; split; [reflexivity|]); cbn [sv_spec]; split.
  all: try (split; [discriminate|reflexivity]).
  all: try (cbn [ln_per_core]; unfold spec_python, spec_lua; by rewrite <- list_fmap_compose).
  all: try (apply Forall_fmap, Forall_true; intros c; split_and!; [reflexivity..|constructor]).
  all: constructor; [split_and!; [reflexivity..|]|constructor].
  all: cbn [ln_knobs]; repeat constructor.
Qed.

Lemma parse_one c default : 0 <= c -> parse_cores (str_of_Z c) default = Ok [c].
Proof.
  intros Hc. pose proof (parse_items [One c] default ltac:(done) ltac:(by repeat constructor)) as H.
  exact H.
Qed.

(** C30: every launch plan divides the server cores among its processes: the
    core sets the processes are pinned to, read back by [parse_cores], put
    together, are the given cores, each once, in order, and none is empty. The
    server is either one with a process per core, or it has one process, on all
    of them, that is told their number, also if it is one, in each way its
    runtime is ([launches]). Every process finds the port after [-addr] and the
    rate after [-tick] among its own arguments. *)
Theorem plans_cover_cores name sv port tick cores :
  (name, sv) ∈ SERVERS -> cores <> [] -> Forall (fun c => 0 <= c) cores ->
  exists ln css,
    dict_get launches name = Some ln /\
    Forall2 (fun p cs => parse_cores (pr_cpu p) [] = Ok cs /\ cs <> []) (sv_spec sv port tick cores) css /\
    concat css = cores /\
    (if ln_per_core ln then Forall (fun cs => length cs = 1%nat) css else css = [cores] /\ ln_knobs ln <> []) /\
    Forall (instructed ln port tick (Z.of_nat (length cores))) (sv_spec sv port tick cores).
Proof.
  intros Hin Hne Hpos. destruct (servers_shape name sv port tick cores Hin) as (ln & Hln & Hall & Hcpu).
  exists ln. destruct (ln_per_core ln).
  - exists ((fun c => [c]) <$> cores). split_and!; [done| | | |done].
    + revert Hcpu. generalize (sv_spec sv port tick cores) as plan. clear Hne Hin Hall.
      induction Hpos as [|c cores Hc Hpos IH]; intros [|p plan] Hcpu; [constructor|done|done|].
      injection Hcpu as H1 H2. constructor; [|by apply IH]. rewrite H1. split; [by apply parse_one|done].
    + clear. induction cores as [|c l IH]; [done|]. cbn. f_equal. exact IH.
    + by apply Forall_fmap, Forall_true.
  - destruct Hcpu as [Hknobs Hcpu]. exists [cores]. split_and!; [done| |apply app_nil_r|done..].
    destruct (sv_spec sv port tick cores) as [|p [|]]; [done| |done]. injection Hcpu as Hcpu.
    constructor; [|constructor]. rewrite Hcpu. split; [|done].
    pose proof (parse_items (One <$> cores) [] ltac:(by destruct cores) ltac:(by apply Forall_fmap)) as H.
    rewrite <- !list_fmap_compose, concat_ones in H. exact H.
Qed.

(** C34: from the runner's plan to the server: every process of [spec_python]'s
    plan is given a command line (the server sees what follows the script) from
    which its [main] serves the runner's port on all interfaces, with the period
    [1.0 / tick], in the state without players, if the port can be bound and the
    rate is an integer of at most 53 bits, not 0; there is one per core. *)
Theorem python_plan_args listen port tick cores :
  tick <> 0 -> Z.abs tick < 2 ^ 53 -> listen "0.0.0.0" port = Ok tt ->
  length (spec_python ROOT sys_executable port tick cores) = length cores /\
  exists period, tick_period tick = Ok period /\ f_valid period /\
    Forall (fun p => parse_args (drop 2 (pr_argv p)) = Ok (port, tick) /\
                     ServerMain.main listen (drop 2 (pr_argv p)) = Ok (mkServing "0.0.0.0" port period World_init))
      (spec_python ROOT sys_executable port tick cores).
Proof.
  intros Hz Hlt Hlisten. unfold spec_python. rewrite length_fmap. split; [done|].
  destruct (tick_period_ok tick Hz Hlt) as (period & Hperiod & Hv). exists period. split_and!; [done..|].
  apply Forall_fmap, Forall_true. intros c. unfold compose.
  match goal with |- parse_args ?a = _ /\ _ => assert (parse_args a = Ok (port, tick)) as Ha end.
  { unfold addr_tick, parse_args. pose proof (parse_loop_addr "" port 9000 30 ["-tick"; str_of_Z tick]) as H.
    rewrite parse_loop_tick in H. exact H. }
  split; [exact Ha|]. unfold ServerMain.main, main_tick. rewrite Ha. cbn [mbind res_bind]. rewrite Hperiod.
  cbn [mbind res_bind]. by rewrite Hlisten.
Qed.
End Plans.

Lemma python_plan_args_witness :
  exists period, tick_period 30 = Ok period /\
    ServerMain.main (fun _ port => if bool_decide (0 <= port < 65536) then Ok tt else Raise OverflowError)
      ["-addr"; ":9100"; "-tick"; "30"] = Ok (mkServing "0.0.0.0" 9100 period World_init).
Proof.
  destruct (python_plan_args "/bench" "/usr/bin/python3"
    (fun _ port => if bool_decide (0 <= port < 65536) then Ok tt else Raise OverflowError) 9100 30 [4; 5])
    as (_ & period & H1 & _ & H2).
  - done.
  - done.
  - reflexivity.
  - exists period. split; [exact H1|]. apply Forall_cons in H2 as [[_ H2] _]. exact H2.
Defined.

(** Lua on two cores, Go on one. *)
Lemma plans_cover_cores_witness :
  (exists ln css,
    dict_get launches "lua" = Some ln /\
    Forall2 (fun p cs => parse_cores (pr_cpu p) [] = Ok cs /\ cs <> []) (spec_lua "/bench" 9100 30 [4; 5]) css /\
    concat css = [4; 5]) /\
  Forall (fun p => dict_get (pr_env p) "GOMAXPROCS" = Some "1") (spec_go "/bench" 9100 30 [4]).
Proof.
  split.
  - destruct (plans_cover_cores "/bench" "/usr/bin/python3" "lua"
      (mkServer None (spec_lua "/bench")) 9100 30 [4; 5]) as (ln & css & H0 & H1 & H2 & _).
    + do 13 right. left.
    + discriminate.
    + repeat constructor; discriminate.
    + exists ln, css. split; [exact H0|]. split; [exact H1|exact H2].
  - destruct (plans_cover_cores "/bench" "/usr/bin/python3" "go"
      (mkServer (Some (["go"; "build"; "-o"; "gosrv"; "."], "servers/go")) (spec_go "/bench")) 9100 30 [4])
      as (ln & css & [= <-] & _ & _ & _ & H).
    + left.
    + discriminate.
    + repeat constructor; discriminate.
    + eapply Forall_impl; [exact H|]. intros p (_ & _ & Hp). inversion Hp as [|k ks Hk _]. exact Hk.
Defined.
