(* ===== verification/Procfs.v ===== *)
(** * Sampling /proc (runner/run.py, lines 200-272)

    - [pids_in_groups], [sample_cpu_ticks], [sample_rss_kb] are the functions of
      those names; the file system is the argument [read] (path to content, or
      the exception of [open] or [read]) and the list of [os.listdir("/proc")];
    - [Sampler] is the class: [sampler_run] is its [run] on the successive
      states of the system that the samples see. *)

From Stdlib Require Import Ascii String ZArith Lia.
From S2P Require Import Prelude PyText.

Open Scope string_scope.
Open Scope list_scope.
Open Scope Z_scope.

(** ** The samplers *)

(** [open(path).read()] *)
Definition reader : Type := string -> res string.

Definition stat_path (entry : string) : string := "/proc/" +:+ entry +:+ "/stat".
Definition status_path (entry : string) : string := "/proc/" +:+ entry +:+ "/status".

(** [data[data.rfind(")") + 2:].split()] *)
Definition stat_fields (data : string) : list string :=
  split_ws (slice_from (Z.to_nat (rfind_char ")"%char data + 2)) data).

(** [int(fields[i])] *)
Definition int_field (fields : list string) (i : nat) : res Z :=
  f ← res_of_option IndexError (fields !! i); int_of_str f.

(** The exceptions that mean "the process is gone, or its line is odd". *)
Definition skipped (e : exn) : bool :=
  match e with
  | FileNotFoundError | ProcessLookupError | IndexError | ValueError => true
  | _ => false
  end.

Fixpoint pids_in_groups (read : reader) (entries : list string) (pgids : list Z) : res (list Z) :=
  match entries with
  | [] => Ok []
  | entry :: entries =>
      if negb (isdigit entry) then pids_in_groups read entries pgids
      else
        let body :=
          data ← read (stat_path entry);
          pgrp ← int_field (stat_fields data) 2;
          if bool_decide (pgrp ∈ pgids) then pid ← int_of_str entry; Ok [pid] else Ok [] in
        match body with
        | Ok found => app found <$> pids_in_groups read entries pgids
        | Raise e => if skipped e then pids_in_groups read entries pgids else Raise e
        end
  end.

(** [total] is the accumulator of the loop. *)
Fixpoint cpu_loop (read : reader) (pids : list Z) (total : Z) : res Z :=
  match pids with
  | [] => Ok total
  | pid :: pids =>
      let body :=
        data ← read (stat_path (str_of_Z pid));
        let fields := stat_fields data in
        utime ← int_field fields 11;
        stime ← int_field fields 12;
        Ok (utime + stime) in
      match body with
      | Ok t => cpu_loop read pids (total + t)
      | Raise e => if skipped e then cpu_loop read pids total else Raise e
      end
  end.

Definition sample_cpu_ticks (read : reader) (pids : list Z) : res Z := cpu_loop read pids 0.

(** The first line that starts with [VmRSS:] ends the search. *)
Fixpoint rss_of_lines (lines : list string) : res Z :=
  match lines with
  | [] => Ok 0
  | line :: lines =>
      if startswith line "VmRSS:" then int_field (split_ws line) 1 else rss_of_lines lines
  end.

Definition newline : ascii := "010"%char.

Fixpoint rss_loop (read : reader) (pids : list Z) (total : Z) : res Z :=
  match pids with
  | [] => Ok total
  | pid :: pids =>
      match data ← read (status_path (str_of_Z pid)); rss_of_lines (split_char newline data) with
      | Ok kb => rss_loop read pids (total + kb)
      | Raise FileNotFoundError | Raise ProcessLookupError => rss_loop read pids total
      | Raise e => Raise e
      end
  end.

Definition sample_rss_kb (read : reader) (pids : list Z) : res Z := rss_loop read pids 0.

(** ** The sampling thread *)

Record Sampler := mkSampler {
  sm_pgids : list Z;
  sm_rss_peak_kb : Z; sm_rss_first_kb : Z;
  sm_cpu_start : option Z; sm_cpu_end : option Z }.

(** [Sampler.__init__] *)
Definition Sampler_init (pgids : list Z) : Sampler := mkSampler pgids 0 0 None None.

(** What [/proc] shows during one sample: the listing, and the files as the
    three successive calls see them. *)
Record procfs := mkProcfs {
  pf_entries : list string; pf_scan : reader; pf_cpu : reader; pf_rss : reader }.

Definition set_cpu_start (t : Z) (s : Sampler) : Sampler :=
  mkSampler (sm_pgids s) (sm_rss_peak_kb s) (sm_rss_first_kb s) (Some t) (sm_cpu_end s).
Definition set_rss_first (kb : Z) (s : Sampler) : Sampler :=
  mkSampler (sm_pgids s) (sm_rss_peak_kb s) kb (sm_cpu_start s) (sm_cpu_end s).
Definition set_cpu_end (t : Z) (s : Sampler) : Sampler :=
  mkSampler (sm_pgids s) (sm_rss_peak_kb s) (sm_rss_first_kb s) (sm_cpu_start s) (Some t).
Definition set_rss_peak (kb : Z) (s : Sampler) : Sampler :=
  mkSampler (sm_pgids s) kb (sm_rss_first_kb s) (sm_cpu_start s) (sm_cpu_end s).

(** The part of [run] before the loop. *)
Definition sampler_start (fs : procfs) : st Sampler () :=
  s ← st_get;
  pids ← st_lift (pids_in_groups (pf_scan fs) (pf_entries fs) (sm_pgids s));
  cpu ← st_lift (sample_cpu_ticks (pf_cpu fs) pids);
  st_modify (set_cpu_start cpu);;
  rss ← st_lift (sample_rss_kb (pf_rss fs) pids);
  st_modify (set_rss_first rss).

(** One iteration of its loop. *)
Definition sampler_iter (fs : procfs) : st Sampler () :=
  s ← st_get;
  pids ← st_lift (pids_in_groups (pf_scan fs) (pf_entries fs) (sm_pgids s));
  rss ← st_lift (sample_rss_kb (pf_rss fs) pids);
  (if sm_rss_peak_kb s <? rss then st_modify (set_rss_peak rss) else mret ());;
  cpu ← st_lift (sample_cpu_ticks (pf_cpu fs) pids);
  st_modify (set_cpu_end cpu).

(** The loop: one state of [/proc] per iteration until the stop flag is seen;
    an exception ends the thread. *)
Fixpoint sampler_loop (fss : list procfs) : st Sampler () :=
  match fss with
  | [] => mret ()
  | fs :: fss => sampler_iter fs;; sampler_loop fss
  end.

Definition sampler_run (fs0 : procfs) (fss : list procfs) : st Sampler () :=
  sampler_start fs0;; sampler_loop fss.
