(* ===== verification/ProcfsThms.v ===== *)
(** * Sampling /proc: theorems

    The files of [/proc/<pid>] in the format proc(5) documents, for a command
    name [comm] that may contain anything, spaces and parentheses included; and
    a process table in which processes may vanish between the listing and the
    reads, or have a file that does not decode.  On these the samplers compute what they are named after. *)

From Stdlib Require Import Ascii String ZArith Lia.
From S2P Require Import Prelude PyText Procfs.

Open Scope string_scope.
Open Scope list_scope.
Open Scope Z_scope.

(** ** The format of the files *)

Record pstat := mkPstat {
  ps_pid : Z; ps_comm : string; ps_state : ascii;
  ps_ppid : Z; ps_pgrp : Z;
  ps_nums : list Z; (* session, tty_nr, tpgid, flags, minflt, cminflt, majflt, cmajflt *)
  ps_utime : Z; ps_stime : Z;
  ps_rest : list Z }.

(** The numbers that follow the state. *)
Definition ps_fields (p : pstat) : list Z :=
  ps_ppid p :: ps_pgrp p :: ps_nums p ++ ps_utime p :: ps_stime p :: ps_rest p.

Definition spaced (ns : list Z) : string :=
  foldr (fun n s => String " " (str_of_Z n) +:+ s) (String newline "") ns.

(** [pid (comm) state ppid pgrp ...] *)
Definition stat_line (p : pstat) : string :=
  str_of_Z (ps_pid p) +:+ " (" +:+ ps_comm p +:+
    String ")" (String " " (String (ps_state p) (spaced (ps_fields p)))).

Definition pstat_ok (p : pstat) : Prop :=
  0 <= ps_pid p /\ length (ps_nums p) = 8%nat /\
  is_space (ps_state p) = false /\ ps_state p <> ")"%char.

Lemma spaced_lacks ns : lacks ")" (spaced ns) = true.
Proof.
  induction ns as [|n ns IH]; [done|]. cbn [spaced foldr]. fold (spaced ns).
  change (lacks ")" (String " " (str_of_Z n +:+ spaced ns)) = true). cbn.
  unfold lacks. rewrite all_chars_app. apply andb_true_iff. split; [|done].
  by apply str_of_Z_lacks.
Qed.

Lemma split_spaced w ns :
  w <> "" -> all_chars (fun c => negb (is_space c)) w = true ->
  split_ws (w +:+ spaced ns) = w :: (str_of_Z <$> ns).
Proof.
  revert w. induction ns as [|n ns IH]; intros w Hne Hw.
  - cbn [spaced foldr]. by rewrite split_ws_cons.
  - cbn [spaced foldr]. fold (spaced ns).
    change (String " " (str_of_Z n) +:+ spaced ns) with (String " " (str_of_Z n +:+ spaced ns)).
    rewrite split_ws_cons by done. by rewrite IH by auto with bench.
Qed.

Lemma slice_from_plus n m s : slice_from (n + m) s = slice_from m (slice_from n s).
Proof.
  revert s. induction n as [|n IH]; intros s; [done|]. destruct s as [|c s]; cbn; [|done].
  by destruct m.
Qed.

(** The fields after the command name, whatever the name is. *)
Lemma stat_fields_line p :
  pstat_ok p -> stat_fields (stat_line p) = String (ps_state p) "" :: (str_of_Z <$> ps_fields p).
Proof.
  intros (Hpid & Hlen & Hsp & Hpar). unfold stat_fields, stat_line.
  rewrite append_assoc, append_assoc.
  set (pre := (str_of_Z (ps_pid p) +:+ " (") +:+ ps_comm p).
  rewrite rfind_char_app.
  2:{ cbn -[spaced ps_fields]. apply andb_true_iff. split; [|apply spaced_lacks].
      apply negb_true_iff, Ascii.eqb_neq. done. }
  rewrite <- Nat2Z.inj_add with (m := 2%nat), Nat2Z.id, slice_from_plus, slice_from_app.
  cbn [slice_from]. apply (split_spaced (String (ps_state p) "")); [done|].
  cbn. by rewrite Hsp.
Qed.

Lemma int_field_line p i z :
  pstat_ok p -> ps_fields p !! i = Some z -> int_field (stat_fields (stat_line p)) (S i) = Ok z.
Proof.
  intros Hok Hi. rewrite stat_fields_line by done. unfold int_field.
  rewrite lookup_cons_ne_0 by done. cbn [pred]. rewrite list_lookup_fmap, Hi. cbn.
  apply int_of_str_of_Z.
Qed.

Lemma stat_pgrp p : pstat_ok p -> int_field (stat_fields (stat_line p)) 2 = Ok (ps_pgrp p).
Proof. intros Hok. by apply (int_field_line p 1). Qed.

Lemma stat_times p :
  pstat_ok p ->
  int_field (stat_fields (stat_line p)) 11 = Ok (ps_utime p) /\
  int_field (stat_fields (stat_line p)) 12 = Ok (ps_stime p).
Proof.
  intros Hok. pose proof Hok as (_ & Hlen & _).
  assert (forall i, ps_fields p !! (10 + i)%nat = (ps_utime p :: ps_stime p :: ps_rest p) !! i) as H.
  { intros i. unfold ps_fields.
    change ((ps_ppid p :: ps_pgrp p :: ?l) !! (10 + i)%nat) with (l !! (8 + i)%nat).
    rewrite lookup_app_r by lia. f_equal. lia. }
  split; apply int_field_line; try done; [exact (H 0%nat)|exact (H 1%nat)].
Qed.

(** ** A process table *)

(** An entry of [/proc]: not a process; a process whose file is not read, with
    the exception (it is gone, or its name is not text in the encoding: a
    [UnicodeDecodeError], which is a [ValueError]); or one whose file is. *)
Inductive dirent :=
  | Other (name : string)
  | Unread (pid : Z) (e : exn)
  | Live (p : pstat).

Definition dirent_name (d : dirent) : string :=
  match d with Other n => n | Unread pid _ => str_of_Z pid | Live p => str_of_Z (ps_pid p) end.

(** What [read] returns for the entry. *)
Definition shown (read : reader) (d : dirent) : Prop :=
  match d with
  | Other n => isdigit n = false
  | Unread pid e => 0 <= pid /\ (e = FileNotFoundError \/ e = ProcessLookupError \/ e = ValueError) /\
      read (stat_path (str_of_Z pid)) = Raise e
  | Live p => pstat_ok p /\ read (stat_path (str_of_Z (ps_pid p))) = Ok (stat_line p)
  end.

Definition live (d : dirent) : option pstat := match d with Live p => Some p | _ => None end.

(** C31: the process groups are found whatever the processes are called: for any
    table, command names with spaces and parentheses included, the result is
    the ids of the live processes whose group is asked for, in listing order;
    processes that vanish meanwhile, or whose name does not decode, are
    skipped. *)
Theorem pids_in_groups_spec read ds pgids :
  Forall (shown read) ds ->
  pids_in_groups read (dirent_name <$> ds) pgids =
    Ok (ps_pid <$> filter (fun p => ps_pgrp p ∈ pgids) (omap live ds)).
Proof.
  induction 1 as [|d ds Hd Hds IH]; [done|]. cbn [fmap list_fmap pids_in_groups].
  fold (dirent_name <$> ds). destruct d as [n|pid e|p]; cbn [dirent_name shown] in *.
  - by rewrite Hd.
  - destruct Hd as (Hpid & He & Hr). rewrite isdigit_str_of_Z by done. cbn [negb]. rewrite Hr. cbn.
    by destruct He as [-> | [-> | ->]].
  - destruct Hd as [Hok Hr]. pose proof Hok as (Hpid & _). rewrite isdigit_str_of_Z by done.
    cbn [negb]. rewrite Hr. cbn [mbind res_bind]. rewrite stat_pgrp by done. cbn [mbind res_bind].
    change (omap live (Live p :: ds)) with (p :: omap live ds). rewrite filter_cons.
    destruct (decide (ps_pgrp p ∈ pgids)) as [Hin|Hin].
    + rewrite bool_decide_eq_true_2 by done. rewrite int_of_str_of_Z. cbn [mbind res_bind].
      by rewrite IH.
    + rewrite bool_decide_eq_false_2 by done. by rewrite IH.
Qed.

Definition is_proc (d : dirent) : Prop := match d with Other _ => False | _ => True end.

Definition dirent_pid (d : dirent) : Z :=
  match d with Other _ => 0 | Unread pid _ => pid | Live p => ps_pid p end.

(** A table with a process called [a) b (c]. *)
Definition demo_pstat : pstat :=
  mkPstat 41 "a) b (c" "S" 1 40 [40; 0; -1; 4194304; 10; 0; 0; 0] 7 5 [0; 0; 20; 0].

Definition demo_read : reader := fun path =>
  if bool_decide (path = "/proc/41/stat") then Ok (stat_line demo_pstat) else Raise FileNotFoundError.

Definition demo_table : list dirent := [Unread 39 FileNotFoundError; Live demo_pstat].

(** And one whose name is not UTF-8. *)
Definition demo_read' : reader := fun path =>
  if bool_decide (path = "/proc/40/stat") then Raise ValueError else demo_read path.

Lemma demo_pstat_ok : pstat_ok demo_pstat.
Proof. unfold pstat_ok. split_and!; done. Qed.

Lemma demo_shown : Forall (shown demo_read) demo_table.
Proof.
  repeat constructor; try done; try (by left); apply demo_pstat_ok.
Qed.

Lemma pids_in_groups_spec_witness :
  pids_in_groups demo_read' ["self"; "39"; "40"; "41"] [40] = Ok [41].
Proof.
  apply (pids_in_groups_spec demo_read'
    [Other "self"; Unread 39 FileNotFoundError; Unread 40 ValueError; Live demo_pstat] [40]).
  repeat constructor; try done; try (by left); try (by right; right); apply demo_pstat_ok.
Defined.

(** The CPU ticks of a set of processes are the sum of [utime] and [stime]
    over those of them that are still alive. *)
Theorem sample_cpu_ticks_spec read ds :
  Forall (shown read) ds ->
  Forall is_proc ds ->
  sample_cpu_ticks read (dirent_pid <$> ds) =
    Ok (zsum ((fun p => ps_utime p + ps_stime p) <$> omap live ds)).
Proof.
  intros Hs Ho. unfold sample_cpu_ticks.
  assert (forall t, cpu_loop read (dirent_pid <$> ds) t =
    Ok (t + zsum ((fun p => ps_utime p + ps_stime p) <$> omap live ds))) as H; [|by rewrite H].
  induction Hs as [|d ds Hd Hds IH]; intros t; [cbn; by rewrite Z.add_0_r|].
  inversion Ho as [|? ? Hd' Hds']; subst. cbn [fmap list_fmap cpu_loop].
  fold (dirent_pid <$> ds).
  destruct d as [n|pid e|p]; [done|..]; cbn [shown] in Hd; cbn [dirent_pid].
  - destruct Hd as (_ & He & Hr). rewrite Hr. cbn. destruct He as [-> | [-> | ->]]; by apply IH.
  - destruct Hd as [Hok Hr]. rewrite Hr. cbn [mbind res_bind].
    destruct (stat_times p Hok) as [-> ->]. cbn [mbind res_bind].
    etransitivity; [by apply IH|]. change (omap live (Live p :: ds)) with (p :: omap live ds).
    cbn [fmap list_fmap zsum foldr]. f_equal. fold (zsum ((fun p => ps_utime p + ps_stime p) <$> omap live ds)). 
    unfold zsum. lia.
Qed.

Lemma sample_cpu_ticks_spec_witness : sample_cpu_ticks demo_read [39; 41] = Ok 12.
Proof.
  apply (sample_cpu_ticks_spec demo_read demo_table demo_shown). repeat constructor.
Defined.

(** ** Memory *)

(** The lines of [/proc/<pid>/status] around [VmRSS], which kernel threads do
    not have. *)
Record pstatus := mkPstatus {
  pu_pid : Z; pu_before : list string; pu_rss : option Z; pu_after : list string }.

Definition rss_line (kb : Z) : string :=
  "VmRSS:" +:+ String "009" (str_of_Z kb +:+ String " " "kB").

Definition status_file (u : pstatus) : string :=
  join (String newline "")
    (pu_before u ++ match pu_rss u with
                    | Some kb => rss_line kb :: pu_after u
                    | None => [] end ++ [""]).

Definition pstatus_ok (u : pstatus) : Prop :=
  Forall (fun l => lacks newline l = true /\ startswith l "VmRSS:" = false) (pu_before u) /\
  Forall (fun l => lacks newline l = true) (pu_after u).

Lemma rss_of_rss_line kb rest : rss_of_lines (rss_line kb :: rest) = Ok kb.
Proof.
  cbn [rss_of_lines]. change (startswith (rss_line kb) "VmRSS:") with true. cbv iota.
  unfold rss_line.
  rewrite split_ws_cons by done. rewrite split_ws_cons by auto with bench.
  unfold int_field. cbn. apply int_of_str_of_Z.
Qed.

Lemma rss_of_before pre rest :
  Forall (fun l => lacks newline l = true /\ startswith l "VmRSS:" = false) pre ->
  rss_of_lines (pre ++ rest) = rss_of_lines rest.
Proof. induction 1 as [|l pre [_ Hl] _ IH]; [done|]. cbn. by rewrite Hl. Qed.

Lemma rss_line_lacks kb : lacks newline (rss_line kb) = true.
Proof.
  unfold rss_line. cbn. unfold lacks. rewrite all_chars_app. apply andb_true_iff.
  split; [by apply str_of_Z_lacks|done].
Qed.

Lemma rss_of_status u :
  pstatus_ok u -> rss_of_lines (split_char newline (status_file u)) = Ok (default 0 (pu_rss u)).
Proof.
  intros [Hb Ha]. unfold status_file. rewrite split_join.
  - rewrite rss_of_before by done. destruct (pu_rss u) as [kb|]; [|done]. apply rss_of_rss_line.
  - intros H. apply (f_equal length) in H. rewrite !length_app in H. cbn in H. lia.
  - apply Forall_app. split; [eapply Forall_impl; [exact Hb|]; by intros ? [? _]|].
    apply Forall_app. split; [|by repeat constructor].
    destruct (pu_rss u); [|constructor]. constructor; [apply rss_line_lacks|done].
Qed.

(** What [read] returns for the status file of a process: gone or there. *)
Definition status_shown (read : reader) (d : Z * option pstatus) : Prop :=
  match d with
  | (pid, None) => exists e, read (status_path (str_of_Z pid)) = Raise e /\
      (e = FileNotFoundError \/ e = ProcessLookupError)
  | (pid, Some u) => pstatus_ok u /\ read (status_path (str_of_Z pid)) = Ok (status_file u)
  end.

(** The resident memory of a set of processes is the sum of the [VmRSS]
    lines of those that are still there; processes without the line and
    vanished processes count 0. *)
Theorem sample_rss_kb_spec read ds :
  Forall (status_shown read) ds ->
  sample_rss_kb read ds.*1 =
    Ok (zsum ((fun d => match d.2 with Some u => default 0 (pu_rss u) | None => 0 end) <$> ds)).
Proof.
  intros Hs. unfold sample_rss_kb.
  assert (forall t, rss_loop read ds.*1 t = Ok (t + zsum ((fun d => match d.2 with
    Some u => default 0 (pu_rss u) | None => 0 end) <$> ds))) as H; [|by rewrite H].
  induction Hs as [|[pid [u|]] ds Hd Hds IH]; intros t; [cbn; by rewrite Z.add_0_r|..];
    cbn [fmap list_fmap rss_loop fst zsum foldr snd].
  - destruct Hd as [Hu Hr]. rewrite Hr. cbn [mbind res_bind]. rewrite rss_of_status by done.
    etransitivity; [apply IH|]. unfold zsum. f_equal. lia.
  - destruct Hd as (e & Hr & He). rewrite Hr. cbn [mbind res_bind].
    destruct He as [-> | ->]; (etransitivity; [apply IH|]); done.
Qed.

Definition demo_pstatus : pstatus :=
  mkPstatus 41 ["Name:" +:+ String "009" "a) b"; "State:" +:+ String "009" "S (sleeping)"] (Some 5120) ["Threads: 4"].

Lemma sample_rss_kb_spec_witness :
  sample_rss_kb (fun path => if bool_decide (path = "/proc/41/status") then Ok (status_file demo_pstatus)
                             else Raise FileNotFoundError) [39; 41] = Ok 5120.
Proof.
  apply (sample_rss_kb_spec _ [(39, None); (41, Some demo_pstatus)]).
  repeat constructor. exists FileNotFoundError. split; [reflexivity|]. left. reflexivity.
Defined.

(** ** The thread *)

(** The values one sample reads. *)
Definition sampled (pgids : list Z) (fs : procfs) (v : Z * Z) : Prop :=
  exists pids, pids_in_groups (pf_scan fs) (pf_entries fs) pgids = Ok pids /\
    sample_rss_kb (pf_rss fs) pids = Ok v.1 /\ sample_cpu_ticks (pf_cpu fs) pids = Ok v.2.

Lemma sampler_iter_spec fs v s :
  sampled (sm_pgids s) fs v ->
  sampler_iter fs s =
    (mkSampler (sm_pgids s) (Z.max (sm_rss_peak_kb s) v.1) (sm_rss_first_kb s) (sm_cpu_start s)
       (Some v.2), Ok tt).
Proof.
  intros (pids & H1 & H2 & H3). unfold sampler_iter, mbind, st_bind, st_get, st_lift, st_modify.
  rewrite H1, H2. destruct s as [pg peak first cs ce]; cbn [sm_pgids sm_rss_peak_kb] in *.
  destruct (peak <? v.1) eqn:Hlt; zbool;
    [rewrite Z.max_r by lia|rewrite Z.max_l by lia]; cbn; by rewrite H3.
Qed.

(** C32: what the sampling thread has when it is stopped: the first sample's
    memory and CPU ticks, the highest memory of the loop's samples, and the CPU
    ticks of the last one (nothing, and a peak of 0, if it was stopped before
    the first). *)
Theorem sampler_run_spec pgids fs0 v0 fss vs :
  sampled pgids fs0 v0 -> Forall2 (sampled pgids) fss vs ->
  sampler_run fs0 fss (Sampler_init pgids) =
    (mkSampler pgids (foldl Z.max 0 vs.*1) v0.1 (Some v0.2) (list.last vs.*2), Ok tt).
Proof.
  intros (pids & H1 & H2 & H3) Hs. unfold sampler_run, mbind, st_bind.
  assert (sampler_start fs0 (Sampler_init pgids) =
    (mkSampler pgids 0 v0.1 (Some v0.2) None, Ok tt)) as ->.
  { unfold sampler_start, mbind, st_bind, st_get, st_lift, st_modify. cbn. by rewrite H1, H3, H2. }
  cbv beta iota.
  assert (forall peak ce, sampler_loop fss (mkSampler pgids peak v0.1 (Some v0.2) ce) =
    (mkSampler pgids (foldl Z.max peak vs.*1) v0.1 (Some v0.2)
       (match list.last vs.*2 with Some t => Some t | None => ce end), Ok tt)) as H.
  { clear H1 H2 H3. induction Hs as [|fs v fss vs Hv Hs IH]; intros peak ce; [done|].
    cbn [sampler_loop]. unfold mbind, st_bind. rewrite (sampler_iter_spec fs v) by done.
    cbv beta iota. etransitivity; [apply IH|]. cbn [fmap list_fmap foldl].
    rewrite last_cons. by destruct (list.last vs.*2). }
  rewrite H. by destruct (list.last vs.*2).
Qed.

Lemma sampler_run_spec_witness :
  exists s, sampler_run (mkProcfs ["41"] demo_read demo_read (fun _ => Ok (status_file demo_pstatus)))
    [mkProcfs ["39"; "41"] demo_read demo_read (fun _ => Ok (status_file demo_pstatus));
     mkProcfs [] demo_read demo_read demo_read] (Sampler_init [40]) = (s, Ok tt) /\
    sm_rss_peak_kb s = 5120 /\ sm_cpu_end s = Some 0.
Proof.
  eexists. split.
  - apply (sampler_run_spec [40] _ (5120, 12) _ [(5120, 12); (0, 0)]).
    + exists [41]. repeat split; vm_compute; reflexivity.
    + repeat constructor; [exists [41]|exists []]; repeat split; vm_compute; reflexivity.
  - split; reflexivity.
Defined.
