(* ===== verification/Lifecycle.v ===== *)
(** * Processes of the runner (runner/run.py, lines 279-362)

    - [Kernel] is the interface to the operating system: the calls of
      [subprocess], [os], [socket] and [time] the runner makes, with the
      documented behaviour it relies on as laws ([evolves]: what can happen to
      processes meanwhile); [OneGroup] is what it relies on of the servers;
    - [taskset_wrap], [start_server], [wait_ready], [stop_server],
      [run_loadgen], [build] are the functions of those names. *)

From Stdlib Require Import Ascii String ZArith Lia.
From S2P Require Import Prelude PyText PyDict PyFloat PyPath RunnerSpecs Procfs.

Open Scope string_scope.
Open Scope list_scope.
Open Scope Z_scope.

Inductive signal := SIGTERM | SIGKILL.

(** [except OSError]: the class and its subclasses. *)
Definition is_OSError (e : exn) : bool :=
  match e with
  | OSError | ConnectionError | FileNotFoundError | ProcessLookupError | PermissionError => true
  | _ => false
  end.

(** ** The operating system *)

(** The processes of sessions, from [o] to [o'] ([in_session o l t]: [t] runs in
    the session of [l]). A SIGKILL is not taken back, and cannot be caught,
    blocked or ignored (signal(7)): what it was sent to starts nothing. A session
    cannot be joined, only inherited (setsid(2), fork(2)): so it gets processes
    from a process of its own that has not been sent SIGKILL, or it is [new]. *)
Definition evolves {OS task : Type} (in_session : OS -> task -> task -> Prop) (killed : OS -> task -> Prop)
    (new : task -> Prop) (o o' : OS) : Prop :=
  (forall t, killed o t -> killed o' t) /\
  (forall l t, in_session o' l t ->
     in_session o l t \/ (exists t0, in_session o l t0 /\ ~ killed o t0) \/ new l).

(** A [task] is a process; unlike its pid it is never used again.
    - [in_session o l t]: [t] runs, in the session that [l] leads or led, [l]
      being one of the processes [popen] started;
    - [in_group o l t]: [t] runs, in the process group of [l], and the runner may
      send it signals;
    - [killed o t]: SIGKILL has been sent to [t], which may still run;
    - [child o p l]: [l], with the pid [p], was started by [popen] and has not
      been waited for. *)
Class Kernel (OS : Type) := {
  task : Type;
  task_eq_dec : EqDecision task;
  in_session : OS -> task -> task -> Prop;
  in_group : OS -> task -> task -> Prop;
  killed : OS -> task -> Prop;
  child : OS -> Z -> task -> Prop;

  (** [subprocess.Popen(argv, env=env, start_new_session=True).pid] *)
  popen : list string -> dict string string -> st OS Z;
  (** [os.getpgid(pid)] *)
  getpgid : Z -> OS -> res Z;
  (** [os.killpg(pgid, sig)] *)
  killpg : Z -> signal -> st OS ();
  (** [p.wait(timeout=2)] *)
  wait : Z -> st OS ();
  (** [time.sleep(s)] *)
  sleep : float -> OS -> OS;
  (** [subprocess.run(argv, cwd=...)]: return code and standard output. *)
  run_cmd : list string -> option string -> st OS (Z * string);
  (** [time.time()] when [wait_ready] starts, and then, for each evaluation of
      its loop condition before the clock passes the deadline, the reading and
      the outcome of the connection attempt. *)
  polls : Z -> OS -> float * list (float * res ());
  polled : Z -> OS -> OS;
  (** What a sampling thread sees from its start until it is stopped. *)
  observe : OS -> procfs * list procfs;

  (** A pid is not given out again before the child has been waited for; a
      session leader cannot leave its group (setpgid(2)). *)
  popen_child o argv env o' p :
    popen argv env o = (o', Ok p) -> (exists l, child o' p l) /\ forall l, ~ child o p l;
  child_task o p l l' : child o p l -> child o p l' -> l = l';
  getpgid_child o p l : child o p l -> getpgid p o = Ok p;
  (** kill(2): the signal is sent to every process of the group; ESRCH and EPERM
      mean that there was none, or none the runner may send it to. *)
  killpg_sends o p l o' t :
    child o p l -> killpg p SIGKILL o = (o', Ok tt) -> in_group o' l t -> killed o' t;
  killpg_error o p l s o' e :
    child o p l -> killpg p s o = (o', Raise e) ->
    (e = ProcessLookupError \/ e = PermissionError) /\ forall t, ~ in_group o' l t;
  (** [Popen.wait] returns when the child has ended, or raises when the time is
      up; then it is still to be waited for. *)
  wait_ended o p l o' : child o p l -> wait p o = (o', Ok tt) -> ~ in_session o' l l;
  wait_error o p l o' e : child o p l -> wait p o = (o', Raise e) -> e = TimeoutExpired /\ child o' p l;

  (** Whatever else runs meanwhile. *)
  popen_evolves o argv env o' r :
    popen argv env o = (o', r) -> evolves in_session killed (fun l => exists p, r = Ok p /\ child o' p l) o o';
  killpg_evolves o p s o' r : killpg p s o = (o', r) -> evolves in_session killed (fun _ => False) o o';
  wait_evolves o p o' r : wait p o = (o', r) -> evolves in_session killed (fun _ => False) o o';
  sleep_evolves o d : evolves in_session killed (fun _ => False) o (sleep d o);
  run_cmd_evolves o argv cwd o' r :
    run_cmd argv cwd o = (o', r) -> evolves in_session killed (fun _ => False) o o';
  polled_evolves o port : evolves in_session killed (fun _ => False) o (polled port o);

  (** Only [wait] reaps, and only the process waited for. *)
  popen_keeps o argv env o' r p l : popen argv env o = (o', r) -> child o p l -> child o' p l;
  killpg_keeps o g s o' r p l : killpg g s o = (o', r) -> child o p l -> child o' p l;
  wait_keeps o p' o' r p l : wait p' o = (o', r) -> p <> p' -> child o p l -> child o' p l;
  sleep_keeps o d p l : child o p l -> child (sleep d o) p l;
  run_cmd_keeps o argv cwd o' r p l : run_cmd argv cwd o = (o', r) -> child o p l -> child o' p l;
  polled_keeps o port p l : child o p l -> child (polled port o) p l }.
#[export] Existing Instance task_eq_dec.

(** What the runner relies on of the servers ("own process group => clean group
    kill"): they make no groups of their own, and run as the runner's user. *)
Class OneGroup (OS : Type) `{Kernel OS} : Prop :=
  one_group : forall (o : OS) p l t, child o p l -> in_session o l t -> in_group o l t.

Section Lifecycle.
Context {OS : Type} `{Kernel OS}.

Variable ROOT : string.
Variable HAVE_TASKSET : bool.
(** [os.environ] *)
Variable environ : dict string string.

Definition taskset_wrap (argv : list string) (cpu : string) : list string :=
  if HAVE_TASKSET then ["taskset"; "-c"; cpu] ++ argv else argv.

(** [dict(os.environ)], updated. *)
Definition proc_env (env_over : dict string string) : dict string string :=
  dict_set (dict_update environ env_over) "ULIMIT_HINT" "raise nofile via the parent shell".

(** The loop of [start_server]; [procs] and [pgids] are its accumulators, a
    [Popen] object is its pid. *)
Fixpoint start_loop (plan : list proc) (procs pgids : list Z) : st OS (list Z * list Z) :=
  match plan with
  | [] => mret (procs, pgids)
  | pr :: plan =>
      p ← popen (taskset_wrap (pr_argv pr) (pr_cpu pr)) (proc_env (pr_env pr));
      o ← st_get;
      g ← st_lift (getpgid p o);
      start_loop plan (procs ++ [p]) (pgids ++ [g])
  end.

Definition start_server (plan : list proc) : st OS (list Z * list Z) := start_loop plan [] [].

(** The loop of [wait_ready]. *)
Fixpoint wait_loop (deadline : float) (ps : list (float * res ())) : res bool :=
  match ps with
  | [] => Ok false
  | (now, r) :: ps =>
      if flt now deadline then
        match r with
        | Ok _ => Ok true
        | Raise e => if is_OSError e then wait_loop deadline ps else Raise e
        end
      else Ok false
  end.

Definition wait_ready (port : Z) : st OS bool := fun o =>
  let '(now, ps) := polls port o in
  (polled port o, t ← f_of_Z 15; wait_loop (fadd now t) ps).

(** [try: os.killpg(os.getpgid(p.pid), sig) except (ProcessLookupError, OSError): pass] *)
Definition kill_group (sig : signal) (p : Z) : st OS () := fun o =>
  match getpgid p o with
  | Raise e => (o, if is_OSError e then Ok tt else Raise e)
  | Ok g =>
      match killpg g sig o with
      | (o, Ok _) => (o, Ok tt)
      | (o, Raise e) => (o, if is_OSError e then Ok tt else Raise e)
      end
  end.

(** [try: p.wait(timeout=2) except subprocess.TimeoutExpired: pass] *)
Definition reap (p : Z) : st OS () := fun o =>
  match wait p o with
  | (o, Raise TimeoutExpired) => (o, Ok tt)
  | r => r
  end.

Fixpoint for_each {A} (f : A -> st OS ()) (l : list A) : st OS () :=
  match l with
  | [] => mret ()
  | x :: l => f x;; for_each f l
  end.

Definition stop_server (procs : list Z) : st OS () :=
  for_each (kill_group SIGTERM) procs;;
  st_modify (sleep (f_of_ratio false 4 10));;
  for_each (fun p => kill_group SIGKILL p;; reap p) procs.

(** The command line of [run_loadgen]. *)
Definition loadgen_argv (loadgen : string) (port conns room_size rate warmup dur : Z)
    (extra : list string) : list string :=
  [loadgen; "-addr"; "127.0.0.1:" +:+ str_of_Z port; "-conns"; str_of_Z conns;
   "-room-size"; str_of_Z room_size; "-rate"; str_of_Z rate;
   "-warmup"; str_of_Z warmup +:+ "s"; "-dur"; str_of_Z dur +:+ "s"; "-json"] ++ extra.

(** [r.stdout.strip().splitlines()[-1] if r.stdout.strip() else ""], on text
    whose line ends are newlines. *)
Definition last_line (stdout : string) : string :=
  default "" (list.last (split_char newline (strip stdout))).

Section Loadgen.
(** [json.loads]. *)
Context {J : Type}.
Variable json_loads : string -> res J.

Definition run_loadgen (loadgen : string) (port conns room_size rate warmup dur : Z)
    (client_cores : list Z) (extra : list string) : st OS (option J) :=
  '(_, stdout) ← run_cmd (taskset_wrap
    (loadgen_argv loadgen port conns room_size rate warmup dur extra) (cpuspec client_cores)) None;
  match json_loads (last_line stdout) with
  | Ok v => mret (Some v)
  | Raise JSONDecodeError => mret None
  | Raise e => st_raise e
  end.
End Loadgen.

(** [build(cmd_cwd, label)], without its messages. *)
Definition build (cmd_cwd : option (list string * string)) : st OS bool :=
  match cmd_cwd with
  | None => mret true
  | Some (cmd, rel) =>
      '(returncode, _) ← run_cmd cmd (Some (path_join ROOT rel));
      mret (bool_decide (returncode = 0))
  end.
End Lifecycle.
