(* ===== verification/LifecycleThms.v ===== *)
(** * Processes of the runner: theorems

    [start_server] starts one session per process of the plan; [stop_server]
    never raises, and whatever it leaves running of them has been sent SIGKILL;
    [wait_ready] answers yes exactly when a connection succeeded in time. *)

From Stdlib Require Import Ascii String ZArith Lia.
From S2P Require Import Prelude PyText PyDict PyFloat PyJsonText RunnerSpecs Procfs.
From S2P Require Import Lifecycle.

Open Scope string_scope.
Open Scope list_scope.
Open Scope Z_scope.

(** ** What stays over *)

Section Lifecycle.
Context {OS : Type} `{OneGroup OS}.

(** Whatever still runs in the session of [l] has been sent SIGKILL. *)
Definition doomed (o : OS) (l : task) : Prop := forall t, in_session o l t -> killed o t.

(** [o'] comes from [o] without starting a session. *)
Definition quiet : OS -> OS -> Prop := evolves in_session killed (fun _ => False).

(** No session that was over comes back. *)
Definition calm (o o' : OS) : Prop := forall l, doomed o l -> doomed o' l.

#[global] Instance quiet_preorder : PreOrder quiet.
Proof.
  split; [by intros o; split; [|left]|]. intros o1 o2 o3 [K1 S1] [K2 S2]. split; [by intros t Ht; apply K2, K1|].
  intros l t [Ht|[(t0 & Ht0 & Hk)|[]]]%S2.
  - exact (S1 l t Ht).
  - destruct (S1 l t0 Ht0) as [Ht1|[Hex|[]]]; right; left; [|exact Hex]. exists t0. split; [done|]. by intros ?%K1.
Qed.

#[global] Instance calm_preorder : PreOrder calm.
Proof. split; [by intros o l ?|]. intros o1 o2 o3 H1 H2 l Hl. by apply H2, H1. Qed.

(** In a session that is over processes can only end. *)
Lemma quiet_doomed o o' l : quiet o o' -> doomed o l -> doomed o' l /\ forall t, in_session o' l t -> in_session o l t.
Proof.
  intros [HK HS] Hl. assert (forall t, in_session o' l t -> in_session o l t) as Hin.
  { intros t [Ht|[(t0 & Ht0 & Hk)|[]]]%HS; [done|]. by destruct Hk; apply Hl. }
  split; [|done]. intros t Ht. by apply HK, Hl, Hin.
Qed.

Lemma quiet_calm o o' : quiet o o' -> calm o o'.
Proof. intros Hq l Hl. by apply (quiet_doomed o o' l). Qed.

(** What has ended in such a session has ended for good. *)
Lemma quiet_ended o o' l t : quiet o o' -> doomed o l -> ~ in_session o l t -> ~ in_session o' l t.
Proof. intros Hq Hl Ht Hin. by apply Ht, (quiet_doomed o o' l). Qed.

(** Only the session of the process started can be new. *)
Lemma popen_calm argv env o o' p l0 l :
  popen argv env o = (o', Ok p) -> child o' p l0 -> l <> l0 -> doomed o l -> doomed o' l.
Proof.
  intros Hp Hc Hne Hl t Ht. destruct (popen_evolves _ _ _ _ _ Hp) as [HK HS].
  destruct (HS l t Ht) as [Ht0|[(t0 & Ht0 & Hk)|(p' & [= <-] & Hc')]].
  - by apply HK, Hl.
  - by destruct Hk; apply Hl.
  - by destruct Hne; apply (child_task o' p).
Qed.

(** What happens between start and stop: no session is started, nothing reaped. *)
Definition undisturbed (o o' : OS) : Prop := quiet o o' /\ forall p l, child o p l -> child o' p l.

#[global] Instance undisturbed_preorder : PreOrder undisturbed.
Proof.
  split; [by intros o; split|]. intros o1 o2 o3 [H1 H2] [H3 H4]. split; [by etransitivity|auto].
Qed.

Lemma undisturbed_children o o' procs ls :
  undisturbed o o' -> Forall2 (child o) procs ls -> Forall2 (child o') procs ls.
Proof. intros [_ Hk] Hc. eapply Forall2_impl; [exact Hc|exact Hk]. Qed.

(** ** Stopping *)

Lemma kill_group_spec sig p l o :
  child o p l ->
  exists o', kill_group sig p o = (o', Ok tt) /\ undisturbed o o' /\ (sig = SIGKILL -> doomed o' l).
Proof.
  intros Hc. unfold kill_group. rewrite (getpgid_child o p l Hc).
  destruct (killpg p sig o) as [o' r] eqn:Hk. exists o'.
  assert (undisturbed o o') as Hu.
  { split; [by eapply killpg_evolves|]. intros q k. by eapply killpg_keeps. }
  assert (child o' p l) as Hc' by by apply Hu. split_and!.
  - destruct r as [u|e]; [done|]. by destruct (killpg_error _ _ _ _ _ _ Hc Hk) as [[-> | ->] _].
  - done.
  - intros -> t Ht%(one_group o' p l t Hc'). destruct r as [[]|e]; [exact (killpg_sends o p l o' t Hc Hk Ht)|].
    destruct (killpg_error _ _ _ _ _ _ Hc Hk) as [_ Hno]. by destruct (Hno t).
Qed.

(** After [reap] the process has ended, or it is still to be waited for. *)
Lemma reap_spec p l o :
  child o p l ->
  exists o', reap p o = (o', Ok tt) /\ quiet o o' /\ (forall q k, q <> p -> child o q k -> child o' q k) /\
    (~ in_session o' l l \/ child o' p l).
Proof.
  intros Hc. unfold reap. destruct (wait p o) as [o' r] eqn:Hw. exists o'. split_and!.
  - destruct r as [[]|e]; [done|]. by destruct (wait_error _ _ _ _ _ Hc Hw) as [-> _].
  - by eapply wait_evolves.
  - intros q k Hne Hq. by eapply wait_keeps.
  - destruct r as [[]|e]; [left; by eapply wait_ended|right; by destruct (wait_error _ _ _ _ _ Hc Hw)].
Qed.

Lemma term_all procs ls o :
  Forall2 (child o) procs ls ->
  exists o', for_each (kill_group SIGTERM) procs o = (o', Ok tt) /\ undisturbed o o'.
Proof.
  intros Hc. revert o Hc. induction procs as [|p procs IH] in ls |- *; intros o Hc; [by exists o|].
  destruct ls as [|l ls]; [by inversion Hc|]. apply Forall2_cons in Hc as [Hp Hc].
  destruct (kill_group_spec SIGTERM p l o Hp) as (o1 & H1 & Hu1 & _).
  destruct (IH ls o1) as (o2 & H2 & Hu2); [by eapply undisturbed_children|].
  exists o2. cbn [for_each]. rewrite (st_bind_Ok _ _ _ _ _ H1), H2. split; [done|by etransitivity].
Qed.

(** A process of a server that has been stopped. *)
Definition stopped (o : OS) (p : Z) (l : task) : Prop := doomed o l /\ (~ in_session o l l \/ child o p l).

Lemma kill_all procs ls o :
  NoDup procs -> Forall2 (child o) procs ls ->
  exists o', for_each (fun p => kill_group SIGKILL p;; reap p) procs o = (o', Ok tt) /\
    quiet o o' /\ (forall q k, q ∉ procs -> child o q k -> child o' q k) /\ Forall2 (stopped o') procs ls.
Proof.
  intros Hnd Hc. revert o Hc. induction Hnd as [|p procs Hp Hnd IH] in ls |- *; intros o Hc.
  { exists o. inversion Hc; subst. by repeat split; try constructor. }
  destruct ls as [|l ls]; [by inversion Hc|]. apply Forall2_cons in Hc as [Hcp Hcs].
  destruct (kill_group_spec SIGKILL p l o Hcp) as (o1 & H1 & Hu1 & Hk). specialize (Hk eq_refl).
  destruct (reap_spec p l o1) as (o2 & H2 & Hq2 & Hc2 & Hend); [by apply Hu1|].
  destruct (quiet_doomed _ _ l Hq2 Hk) as [Hk2 _].
  destruct (IH ls o2) as (o3 & H3 & Hq3 & Hc3 & Hr3).
  { apply (undisturbed_children o o1) in Hcs; [|done]. apply Forall2_same_length_lookup in Hcs as [Hlen Hcs].
    apply Forall2_same_length_lookup. split; [done|]. intros i q k Hq Hl. apply Hc2; [|by eapply Hcs].
    intros ->. by apply list_elem_of_lookup_2, Hp in Hq. }
  exists o3. cbn [for_each].
  rewrite (st_bind_Ok _ _ o o2 tt) by (by rewrite (st_bind_Ok _ _ _ _ _ H1)). rewrite H3. split_and!; [done| | |].
  - etransitivity; [apply Hu1|by etransitivity].
  - intros q k [Hne Hq]%not_elem_of_cons Hqk. apply Hc3, Hc2, Hu1; done.
  - constructor; [|done]. split; [by apply (quiet_doomed o2)|].
    destruct Hend as [Hend|Hend]; [left; by apply (quiet_ended o2)|right; by apply Hc3].
Qed.

Lemma stop_server_spec procs ls o :
  NoDup procs -> Forall2 (child o) procs ls ->
  exists o', stop_server procs o = (o', Ok tt) /\ quiet o o' /\ Forall2 (stopped o') procs ls.
Proof.
  intros Hnd Hc. unfold stop_server. destruct (term_all procs ls o Hc) as (o1 & H1 & Hu1).
  set (o2 := sleep (f_of_ratio false 4 10) o1).
  assert (undisturbed o1 o2) as Hu2 by (split; [apply sleep_evolves|intros p l; apply sleep_keeps]).
  destruct (kill_all procs ls o2 Hnd) as (o3 & H3 & Hq3 & _ & Hr3).
  { eapply undisturbed_children; [exact Hu2|]. by eapply undisturbed_children. }
  exists o3. rewrite (st_bind_Ok _ _ _ _ _ H1), (st_bind_Ok _ _ o1 o2 tt) by done. rewrite H3.
  split_and!; [done| |done]. etransitivity; [apply Hu1|]. etransitivity; [apply Hu2|done].
Qed.
End Lifecycle.

(** ** Starting *)

Section Start.
Context {OS : Type} `{OneGroup OS}.
Variable HAVE_TASKSET : bool.
Variable environ : dict string string.

Lemma start_loop_spec plan procs pgids ls o o' r :
  start_loop HAVE_TASKSET environ plan procs pgids o = (o', r) ->
  NoDup procs -> Forall2 (child o) procs ls ->
  match r with
  | Ok (procs', pgids') =>
      exists new ls', procs' = procs ++ new /\ pgids' = pgids ++ new /\ length new = length plan /\
        NoDup procs' /\ Forall2 (child o') procs' (ls ++ ls') /\
        forall l, l ∉ ls' -> doomed o l -> doomed o' l
  | Raise _ => True
  end.
Proof.
  revert procs pgids ls o. induction plan as [|pr plan IH]; intros procs pgids ls o; cbn [start_loop].
  - intros [= <- <-] Hnd Hc. exists [], []. rewrite !app_nil_r. split_and!; auto.
  - match goal with |- context [popen ?a ?b] => destruct (popen a b o) as [o1 [p|e]] eqn:Hp end;
      [|by rewrite (st_bind_Raise _ _ _ _ _ Hp); intros [= <- <-]].
    rewrite (st_bind_Ok _ _ _ _ _ Hp). destruct (popen_child _ _ _ _ _ Hp) as [[l0 Hch] Hfresh].
    rewrite (st_bind_Ok _ _ o1 o1 o1) by done.
    rewrite (st_bind_Ok _ _ o1 o1 p) by (unfold st_lift; by rewrite (getpgid_child o1 p l0 Hch)).
    intros Hs Hnd Hc. eapply (IH _ _ (ls ++ [l0])) in Hs.
    + destruct r as [[procs' pgids']|e]; [|done].
      destruct Hs as (new & ls' & -> & -> & Hlen & Hnd' & Hc' & Hrun). exists (p :: new), (l0 :: ls').
      rewrite <- !app_assoc in *. cbn in *. split_and!; [done|done|by rewrite Hlen|done|done|].
      intros l [Hne Hl]%not_elem_of_cons Hd. apply Hrun; [done|]. by eapply popen_calm.
    + apply NoDup_app. split_and!; [done| |apply NoDup_singleton].
      intros q Hq ->%list_elem_of_singleton. apply list_elem_of_lookup in Hq as [i Hi].
      destruct (Forall2_lookup_l _ _ _ _ _ Hc Hi) as (l & _ & Hl). by apply (Hfresh l).
    + apply Forall2_app; [|by repeat constructor].
      eapply Forall2_impl; [exact Hc|]. intros q l. by apply (popen_keeps _ _ _ _ _ q l Hp).
Qed.

Lemma start_server_spec plan o o' procs pgids :
  start_server HAVE_TASKSET environ plan o = (o', Ok (procs, pgids)) ->
  pgids = procs /\ length procs = length plan /\ NoDup procs /\
  exists ls, Forall2 (child o') procs ls /\ forall l, l ∉ ls -> doomed o l -> doomed o' l.
Proof.
  intros Hs. apply (start_loop_spec _ _ _ []) in Hs; [|constructor..].
  destruct Hs as (new & ls & -> & -> & Hlen & Hnd & Hc & Hl). split_and!; [done..|]. by exists ls.
Qed.

(** The life of a server. *)
Lemma server_life plan o o1 procs pgids o2 :
  start_server HAVE_TASKSET environ plan o = (o1, Ok (procs, pgids)) -> undisturbed o1 o2 ->
  exists ls o3, Forall2 (child o1) procs ls /\ stop_server procs o2 = (o3, Ok tt) /\
    Forall2 (stopped o3) procs ls /\ calm o o3.
Proof.
  intros (_ & _ & Hnd & ls & Hc & Hl)%start_server_spec Hu.
  destruct (stop_server_spec procs ls o2 Hnd) as (o3 & H3 & Hq3 & Hr3); [by eapply undisturbed_children|].
  exists ls, o3. split_and!; [done..|]. intros l Hd. destruct (decide (l ∈ ls)) as [Hin|Hin].
  - apply list_elem_of_lookup in Hin as [i Hi].
    destruct (Forall2_lookup_r _ _ _ _ _ Hr3 Hi) as (p & _ & Hs). apply Hs.
  - apply (quiet_calm o2 o3 Hq3), (quiet_calm o1 o2); [apply Hu|]. by apply Hl.
Qed.

(** C29: the life of a server: [start_server] starts one process per entry of
    the plan, each leading a session and group of its own; whatever happens
    then, short of reaping them, [stop_server] raises nothing; afterwards each of
    these processes has ended, or the wait of two seconds for it was in vain; and
    whatever still runs in their sessions, at any depth, has been sent SIGKILL,
    as has whatever runs of the sessions that were over before the start. *)
Theorem server_stopped plan o o1 procs pgids o2 :
  start_server HAVE_TASKSET environ plan o = (o1, Ok (procs, pgids)) -> undisturbed o1 o2 ->
  pgids = procs /\ NoDup procs /\ length procs = length plan /\
  exists ls o3, Forall2 (child o1) procs ls /\ stop_server procs o2 = (o3, Ok tt) /\
    Forall2 (fun p l => ~ in_session o3 l l \/ child o3 p l) procs ls /\
    (forall l t, l ∈ ls -> in_session o3 l t -> killed o3 t) /\
    forall l, doomed o l -> doomed o3 l.
Proof.
  intros Hs Hu. pose proof (start_server_spec _ _ _ _ _ Hs) as (H1 & H2 & H3 & _).
  destruct (server_life _ _ _ _ _ _ Hs Hu) as (ls & o3 & Hc & Hstop & Hr & Hcalm). split_and!; [done..|].
  exists ls, o3. split_and!; [done|done| | |exact Hcalm].
  - eapply Forall2_impl; [exact Hr|]. by intros p l [_ ?].
  - intros l t [i Hi]%list_elem_of_lookup Ht. destruct (Forall2_lookup_r _ _ _ _ _ Hr Hi) as (p & _ & Hd & _). by apply Hd.
Qed.
End Start.

(** [wait_ready]'s loop says yes exactly when some connection attempt made
    before the deadline succeeded and all earlier ones were refused, no when the
    deadline passes with refusals only; an exception that is not an [OSError]
    ends the runner. *)
Theorem wait_loop_spec deadline ps :
  match wait_loop deadline ps with
  | Ok true => exists before now after, ps = before ++ (now, Ok tt) :: after /\
      flt now deadline = true /\
      Forall (fun p => flt p.1 deadline = true /\ exists e, p.2 = Raise e /\ is_OSError e = true) before
  | Ok false => exists before after, ps = before ++ after /\
      Forall (fun p => flt p.1 deadline = true /\ exists e, p.2 = Raise e /\ is_OSError e = true) before /\
      match after with [] => True | (now, _) :: _ => flt now deadline = false end
  | Raise e => is_OSError e = false /\ exists now, (now, Raise e) ∈ ps
  end.
Proof.
  induction ps as [|[now r] ps IH]; cbn [wait_loop]; [by exists [], []|].
  destruct (flt now deadline) eqn:Hlt; [|by exists [], ((now, r) :: ps)].
  destruct r as [[]|e]; [by exists [], now, ps|].
  destruct (is_OSError e) eqn:He.
  - assert (flt now deadline = true /\ exists e0, Raise (A := ()) e = Raise e0 /\ is_OSError e0 = true) as Hp by eauto.
    destruct (wait_loop deadline ps) as [[]|e'].
    + destruct IH as (before & now' & after & -> & H1 & H2). exists ((now, Raise e) :: before), now', after.
      split_and!; [done|done|]. by constructor.
    + destruct IH as (before & after & -> & H1 & H2). exists ((now, Raise e) :: before), after.
      split_and!; [done|by constructor|done].
    + destruct IH as (H1 & now' & H2). split; [done|]. exists now'. by right.
  - split; [done|]. exists now. left.
Qed.

(** ** A concrete kernel

    Its processes ignore SIGTERM and run on after a SIGKILL until they are waited
    for; the first one (stuck in a system call) does not end even then. *)

Record toy := mkToy { ty_next : Z; ty_run : list Z; ty_killed : list Z; ty_child : list Z }.
Definition toy_start : toy := mkToy 1 [] [] [].

Definition toy_popen (argv : list string) (env : dict string string) : st toy Z := fun o =>
  let p := foldr Z.max (ty_next o) (Z.succ <$> ty_child o) in
  (mkToy (p + 1) (p :: ty_run o) (ty_killed o) (p :: ty_child o), Ok p).

Lemma toy_popen_new o p : p ∈ ty_child o -> p < foldr Z.max (ty_next o) (Z.succ <$> ty_child o).
Proof.
  induction (ty_child o) as [|q l IH]; intros Hp; [by apply not_elem_of_nil in Hp|].
  cbn. apply elem_of_cons in Hp as [-> |Hp]; [lia|]. specialize (IH Hp). lia.
Qed.

Definition toy_getpgid (p : Z) (o : toy) : res Z :=
  if decide (p ∈ ty_child o) then Ok p else Raise ProcessLookupError.

Definition toy_killpg (g : Z) (s : signal) : st toy () := fun o =>
  if decide (g ∈ ty_run o) then
    (mkToy (ty_next o) (ty_run o) (match s with SIGTERM => ty_killed o | SIGKILL => g :: ty_killed o end) (ty_child o),
     Ok tt)
  else (o, Raise ProcessLookupError).

Definition toy_wait (p : Z) : st toy () := fun o =>
  if decide (p ∈ ty_run o /\ ~ (p ∈ ty_killed o /\ p <> 1)) then (o, Raise TimeoutExpired)
  else (mkToy (ty_next o) (filter (fun x => x <> p) (ty_run o)) (ty_killed o) (filter (fun x => x <> p) (ty_child o)),
        Ok tt).

(** What its commands print. *)
Definition toy_output : string :=
  "ramping up" +:+ String "010" (qt "{`moves_sent`: 100, `snaps_recv`: 150, `measured`: 90, `moves_per_s`: 19.99, `snaps_per_s`: 30, `p50_ms`: 0.333, `p90_ms`: 1, `p99_ms`: 2, `p999_ms`: 3, `max_ms`: 4, `p99_worst_1s_ms`: 4, `p99_cv`: 0, `timeline`: [[1, 0.1, 1, 2, 3, 4], [0, 0.5, 1.25, 2, 3, 4]]}"
    +:+ String "010" "").

#[export] Program Instance toy_kernel : Kernel toy := {
  task := Z;
  in_session o l t := t = l /\ l ∈ ty_run o;
  in_group o l t := t = l /\ l ∈ ty_run o;
  killed o t := t ∈ ty_killed o;
  child o p l := p = l /\ p ∈ ty_child o;
  popen := toy_popen; getpgid := toy_getpgid; killpg := toy_killpg; wait := toy_wait;
  sleep := fun _ o => o;
  run_cmd := fun _ _ o => (o, Ok (0, toy_output));
  polls := fun _ _ => (f_zero, [(f_zero, Ok tt)]);
  polled := fun _ o => o;
  observe := fun _ => (mkProcfs [] (fun _ => Raise FileNotFoundError) (fun _ => Raise FileNotFoundError)
                         (fun _ => Raise FileNotFoundError), []) }.
Next Obligation.
  intros o argv env o' p [= <- <-]. split; [eexists; split; [done|left]|].
  intros l [_ Hin%toy_popen_new]. lia.
Qed.
Next Obligation. by intros o p l l' [-> _] [-> _]. Qed.
Next Obligation. intros o p l [_ Hp]. unfold toy_getpgid. by rewrite decide_True. Qed.
Next Obligation.
  intros o p l o' t [-> _]. unfold toy_killpg. case_decide as Hd; intros [= <-]. intros [-> _]. left.
Qed.
Next Obligation.
  intros o p l s o' e [-> _]. unfold toy_killpg. case_decide as Hd; intros [= <- <-]. split; [by left|].
  by intros t [-> ?].
Qed.
Next Obligation.
  intros o p l o' [-> _]. unfold toy_wait. case_decide as Hd; intros [= <-].
  intros [_ [? _]%list_elem_of_filter]. done.
Qed.
Next Obligation. intros o p l o' e Hc. unfold toy_wait. case_decide as Hd; intros [= <- <-]. by split. Qed.
Next Obligation.
  intros o argv env o' r [= <- <-]. split; [done|]. intros l t [-> [-> |Hl]%elem_of_cons].
  - right; right. eexists. split; [done|]. split; [done|left].
  - by left.
Qed.
Next Obligation.
  intros o p s o' r. unfold toy_killpg. case_decide as Hd; intros [= <- <-]; (split; [|by left]); [|done].
  intros t Ht. destruct s; [done|by right].
Qed.
Next Obligation.
  intros o p o' r. unfold toy_wait. case_decide as Hd; intros [= <- <-]; (split; [done|]); [by left|].
  intros l t [-> [_ Hl]%list_elem_of_filter]. by left.
Qed.
Next Obligation. intros o d. split; [done|by left]. Qed.
Next Obligation. intros o argv cwd o' r [= <- <-]. split; [done|by left]. Qed.
Next Obligation. intros o port. split; [done|by left]. Qed.
Next Obligation. intros o argv env o' r p l [= <- <-] [-> Hp]. split; [done|by right]. Qed.
Next Obligation. intros o g s o' r p l. unfold toy_killpg. by case_decide; intros [= <- <-]. Qed.
Next Obligation.
  intros o p' o' r p l. unfold toy_wait. case_decide; intros [= <- <-]; [done|].
  intros Hne [-> Hp]. split; [done|]. by apply list_elem_of_filter.
Qed.
Next Obligation. done. Qed.
Next Obligation. by intros o argv cwd o' r p l [= <- <-]. Qed.
Next Obligation. done. Qed.

#[export] Instance toy_one_group : OneGroup toy.
Proof. by intros o p l t. Qed.

Definition toy_plan : list proc := spec_python "/bench" "/usr/bin/python3" 9100 30 [4; 5].

(** Two processes; both have been sent SIGKILL, the second has ended, the first
    has not. *)
Lemma server_stopped_witness :
  exists o1 o3,
    start_server true [] toy_plan toy_start = (o1, Ok ([1; 2], [1; 2])) /\ ty_run o1 = [2; 1] /\
    stop_server [1; 2] o1 = (o3, Ok tt) /\ ty_run o3 = [1] /\ 1 ∈ ty_killed o3 /\
    exists ls : list (task (OS := toy)), length ls = 2%nat /\
      forall l t : task (OS := toy), l ∈ ls -> in_session o3 l t -> killed o3 t.
Proof.
  set (o1 := mkToy 3 [2; 1] [] [2; 1]). exists o1, (mkToy 3 [1] [2; 1] [1]).
  assert (start_server true [] toy_plan toy_start = (o1, Ok ([1; 2], [1; 2]))) as H by (vm_compute; reflexivity).
  split; [exact H|]. split; [reflexivity|]. split; [vm_compute; reflexivity|]. split; [reflexivity|].
  split; [right; left|].
  destruct (server_stopped true [] toy_plan toy_start _ _ _ o1 H) as (_ & _ & _ & ls & o3 & Hc & H3 & _ & H4 & _);
    [reflexivity|].
  assert (stop_server [1; 2] o1 = (mkToy 3 [1] [2; 1] [1], Ok tt)) as H3' by (vm_compute; reflexivity).
  assert (o3 = mkToy 3 [1] [2; 1] [1]) as -> by congruence. exists ls.
  split; [symmetry; exact (Forall2_length _ _ _ Hc)|exact H4].
Defined.
