(* ===== verification/Matrix.v ===== *)
(** * The benchmark matrix (runner/run.py, [main], lines 382-535)

    - [Namespace] is what [ap.parse_args()] returns, [setup] the derivation of
      the core sets, the lists and the load generator from it;
    - [run_trial] is the body of the innermost loop, [run_server] the two loops
      of one server, [run_matrix] the outermost loop;
    - [make_row] and [timeline_row] are the dictionaries written to the two CSV
      files.

    The state is the operating system ([Lifecycle.Kernel]), what was done to the
    two files so far and [main]'s messages on standard error ([message], [check_row]);
    messages on standard output, and those that quote the output of a command,
    are left out.  [json_loads] is the parser of the standard library. *)

From Stdlib Require Import Ascii String ZArith Lia SpecFloat.
From S2P Require Import Prelude PyText PyDict PyFloat PyNum PyJson PyPath RunnerSpecs.
From S2P Require Import Procfs Lifecycle.

Open Scope string_scope.
Open Scope list_scope.
Open Scope Z_scope.

Definition PORT : Z := 9100.

Notation row := (dict string json).

(** ** The arguments *)

Record Namespace := mkNamespace {
  a_servers : string; a_conns : string; a_trials : Z; a_room_size : Z; a_rate : Z; a_tick : Z;
  a_warmup : Z; a_dur : Z; a_server_cores : string; a_client_cores : string;
  a_out : string; a_cooldown : float; a_loadgen : string }.

Record config := mkConfig {
  g_servers : list string; g_conns : list Z; g_trials : Z; g_room_size : Z; g_rate : Z; g_tick : Z;
  g_warmup : Z; g_dur : Z; g_server_cores : list Z; g_client_cores : list Z; g_cooldown : float;
  g_loadgen : string; g_loadgen_build : list string * string; g_loadgen_extra : list string;
  g_out : string }.

(** ** Messages *)

(** What [main] itself writes to standard error; the formatted numbers are
    text. *)
Inductive message :=
  | Overlap
  | UnknownServer (name : string)
  | NotReady (name : string) (conns : Z)
  | Saturated (cpu : string) (n_client conns : Z)
  | Behind (rate : string) (conns : Z).

Definition message_text (m : message) : string :=
  match m with
  | Overlap => "! server and client core sets overlap — results will be unfair."
  | UnknownServer name => "! unknown server '" +:+ name +:+ "', skipping"
  | NotReady name conns => "  ! " +:+ name +:+ " @ " +:+ str_of_Z conns +:+ " conns did not become ready"
  | Saturated cpu n_client conns =>
      "  ! client CPU " +:+ cpu +:+ "/" +:+ str_of_Z n_client +:+ " cores (>85%) at " +:+ str_of_Z conns +:+
      " conns — loadgen may be saturating; latency suspect"
  | Behind rate conns =>
      "  ! send rate " +:+ rate +:+ "% of target at " +:+ str_of_Z conns +:+
      " conns — sender falling behind (coordinated omission)"
  end.

(** [v < x], [v == x], [v > x] for a float [x]; integers and floats are compared
    exactly. *)
Definition int_cmp (z : Z) (x : float) : option comparison :=
  match x with
  | S754_nan => None
  | S754_infinity s => Some (if s then Gt else Lt)
  | S754_zero _ => Some (z ?= 0)
  | S754_finite s m e =>
      let c := if s then Z.neg m else Z.pos m in
      Some (if 0 <=? e then z ?= c * 2 ^ e else z * 2 ^ (- e) ?= c)
  end.

Definition json_cmp (v : json) (x : float) : res (option comparison) :=
  match v with
  | JInt z => Ok (int_cmp z x)
  | JBool b => Ok (int_cmp (if b then 1 else 0) x)
  | JFloat f => Ok (SFcompare f x)
  | _ => Raise TypeError
  end.

(** [f"{v:.nf}"] *)
Definition json_fixed (n : nat) (v : json) : res string :=
  match v with
  | JInt z => fmt_fixed n <$> f_of_Z z
  | JBool b => fmt_fixed n <$> f_of_Z (if b then 1 else 0)
  | JFloat f => Ok (fmt_fixed n f)
  | JStr _ => Raise ValueError
  | _ => Raise TypeError
  end.

(** [0.85 * n_client] *)
Definition cpu_limit (n_client : Z) : res float := n ← f_of_Z n_client; Ok (fmul (f_of_ratio false 85 100) n).

(** The checks of a row: is the client's CPU nearly used up, does its sender
    keep the rate? *)
Definition check_row (n_client conns : Z) (x : row) : st (list message) () :=
  cpu ← st_lift (dict_index x "client_cpu_cores");
  limit ← st_lift (cpu_limit n_client);
  hot ← st_lift (json_cmp cpu limit);
  (if bool_decide (hot = Some Gt) then
     t ← st_lift (json_fixed 2 cpu); st_modify (fun l => l ++ [Saturated t n_client conns])
   else mret ());;
  rate ← st_lift (dict_index x "send_rate_pct");
  slow ← st_lift (json_cmp rate (f_of_ratio false 97 1));
  if bool_decide (slow = Some Lt) then
    t ← st_lift (json_fixed 1 rate); st_modify (fun l => l ++ [Behind t conns])
  else mret ().

Section Main.
Context {OS : Type} `{Kernel OS}.
Variable ROOT sys_executable : string.
Variable HAVE_TASKSET : bool.
Variable environ : dict string string.
(** [os.sysconf("SC_CLK_TCK")] and [os.cpu_count()] *)
Variable CLK ncpu : Z.
Variable json_loads : string -> res json.

(** [[s.strip() for s in args.servers.split(",") if s.strip()]] *)
Definition server_names (s : string) : list string :=
  filter (fun s => s <> "") (strip <$> split_char "," s).

Definition core_sets (args : Namespace) : res (list Z * list Z) :=
  let half := ncpu / 2 in
  server_cores ← parse_cores (a_server_cores args) (py_range 0 half);
  client_cores ← parse_cores (a_client_cores args) (py_range half ncpu);
  Ok (server_cores, client_cores).

(** [set(server_cores) & set(client_cores)] *)
Definition cores_overlap (cores : list Z * list Z) : bool := bool_decide (Exists (fun c => c ∈ cores.2) cores.1).

Definition setup (args : Namespace) : res config :=
  '(server_cores, client_cores) ← core_sets args;
  let servers := server_names (a_servers args) in
  conns_list ← res_map int_of_str (split_char "," (a_conns args));
  let '(loadgen, loadgen_build, loadgen_extra) :=
    if bool_decide (a_loadgen args = "odin") then
      (path_join (path_join ROOT "loadgen-odin") "loadgen-odin",
       (["odin"; "build"; "."; "-out:loadgen-odin"; "-o:speed"], "loadgen-odin"),
       ["-workers"; str_len client_cores])
    else
      (path_join (path_join ROOT "loadgen") "loadgen",
       (["go"; "build"; "-o"; "loadgen"; "."], "loadgen"), []) in
  Ok (mkConfig servers conns_list (a_trials args) (a_room_size args) (a_rate args) (a_tick args)
        (a_warmup args) (a_dur args) server_cores client_cores (a_cooldown args)
        loadgen loadgen_build loadgen_extra (a_out args)).

(** ** Rows *)

(** The columns of the summary. *)
Definition fields : list string :=
  ["server"; "conns"; "trial"; "moves_sent"; "snaps_recv"; "measured";
   "moves_per_s"; "snaps_per_s"; "p50_ms"; "p90_ms"; "p99_ms"; "p999_ms";
   "max_ms"; "p99_worst_1s_ms"; "p99_cv"; "rss_idle_mb"; "rss_peak_mb";
   "cpu_cores"; "client_cpu_cores"; "send_rate_pct"].

Definition tl_fields : list string :=
  ["server"; "conns"; "trial"; "t_s"; "p50_ms"; "p90_ms"; "p99_ms"; "p999_ms"; "max_ms"].

(** [(cpu_end - cpu_start) / (CLK * wall) if cpu_end is not None else 0.0] *)
Definition cpu_cores_of (s : Sampler) (wall : Z) : res float :=
  match sm_cpu_end s with
  | None => Ok f_zero
  | Some e =>
      match sm_cpu_start s with
      | None => Raise TypeError
      | Some b => int_div (e - b) (CLK * wall)
      end
  end.

Definition round_field (r : json) (k : string) (n : nat) : res json :=
  v ← json_index r k; json_round v n.

(** [round(kb / 1024, 1)] *)
Definition mb_of_kb (kb : Z) : res json := q ← int_div kb 1024; Ok (JFloat (f_round q 1)).

Definition make_row (name : string) (conns trial : Z) (wall : Z) (s : Sampler) (r : json) : res row :=
  cpu_cores ← cpu_cores_of s wall;
  moves_sent ← json_index r "moves_sent";
  snaps_recv ← json_index r "snaps_recv";
  measured ← json_index r "measured";
  moves_per_s ← round_field r "moves_per_s" 1;
  snaps_per_s ← round_field r "snaps_per_s" 1;
  p50 ← round_field r "p50_ms" 2;
  p90 ← round_field r "p90_ms" 2;
  p99 ← round_field r "p99_ms" 2;
  p999 ← round_field r "p999_ms" 2;
  max ← round_field r "max_ms" 2;
  worst ← round_field r "p99_worst_1s_ms" 2;
  cv ← round_field r "p99_cv" 3;
  rss_idle ← mb_of_kb (sm_rss_first_kb s);
  rss_peak ← mb_of_kb (sm_rss_peak_kb s);
  client_cpu ← (v ← json_get r "client_cpu_cores" (JFloat f_zero); json_round v 2);
  send_rate ← (v ← json_get r "send_rate_pct" (JFloat f_zero); json_round v 1);
  Ok [("server", JStr name); ("conns", JInt conns); ("trial", JInt trial);
      ("moves_sent", moves_sent); ("snaps_recv", snaps_recv); ("measured", measured);
      ("moves_per_s", moves_per_s); ("snaps_per_s", snaps_per_s);
      ("p50_ms", p50); ("p90_ms", p90); ("p99_ms", p99); ("p999_ms", p999); ("max_ms", max);
      ("p99_worst_1s_ms", worst); ("p99_cv", cv);
      ("rss_idle_mb", rss_idle); ("rss_peak_mb", rss_peak);
      ("cpu_cores", JFloat (f_round cpu_cores 2));
      ("client_cpu_cores", client_cpu); ("send_rate_pct", send_rate)].

(** One window of the timeline: [t_s, p50, p90, p99, p999, mx = w]. *)
Definition timeline_row (name : string) (conns trial : Z) (w : json) : res row :=
  l ← json_iter w;
  match l with
  | [t_s; p50; p90; p99; p999; mx] =>
      t ← json_int t_s;
      p50 ← json_round p50 2;
      p90 ← json_round p90 2;
      p99 ← json_round p99 2;
      p999 ← json_round p999 2;
      mx ← json_round mx 2;
      Ok [("server", JStr name); ("conns", JInt conns); ("trial", JInt trial); ("t_s", JInt t);
          ("p50_ms", p50); ("p90_ms", p90); ("p99_ms", p99); ("p999_ms", p999); ("max_ms", mx)]
  | _ => Raise ValueError
  end.

(** ** The loops *)

(** What is done to the two files, in order: rows are written, buffers flushed;
    a file is flushed when it is closed. *)
Inductive file_op := WriteRow (x : row) | FlushRows | WriteWindow (x : row) | FlushWindows.

(** The rows of the summary, and those of the timeline. *)
Definition written_rows (log : list file_op) : list row :=
  omap (fun op => match op with WriteRow x => Some x | _ => None end) log.
Definition written_windows (log : list file_op) : list row :=
  omap (fun op => match op with WriteWindow x => Some x | _ => None end) log.

Record Bench := mkBench { b_os : OS; b_log : list file_op; b_stderr : list message }.

Definition b_rows (b : Bench) : list row := written_rows (b_log b).
Definition b_timeline (b : Bench) : list row := written_windows (b_log b).

Definition on_os {A} (m : st OS A) : st Bench A := fun b =>
  let '(o, r) := m (b_os b) in (mkBench o (b_log b) (b_stderr b), r).

Definition on_stderr {A} (m : st (list message) A) : st Bench A := fun b =>
  let '(l, r) := m (b_stderr b) in (mkBench (b_os b) (b_log b) l, r).

Definition warn (m : message) : st Bench () := on_stderr (st_modify (fun l => l ++ [m])).

Definition on_files (op : file_op) : st Bench () :=
  st_modify (fun b => mkBench (b_os b) (b_log b ++ [op]) (b_stderr b)).

Variable g : config.

Definition cooldown : st Bench () := on_os (st_modify (sleep (g_cooldown g))).

(** The rows of a trial, once the load generator's result is there. *)
Definition record_trial (name : string) (conns trial : Z) (s : Sampler) (r : json) : st Bench () :=
  row ← st_lift (make_row name conns trial (g_warmup g + g_dur g) s r);
  on_files (WriteRow row);; on_files FlushRows;;
  on_stderr (check_row (Z.of_nat (length (g_client_cores g))) conns row);;
  tl ← st_lift (v ← json_get r "timeline" (JArr []); json_iter v);
  for_each (fun w => x ← st_lift (timeline_row name conns trial w); on_files (WriteWindow x)) tl;;
  on_files FlushWindows;;
  cooldown.

(** What the sampling thread has when it is stopped; an exception in it is
    not seen by the main thread. *)
Definition sampler_of (pgids : list Z) (o : OS) : Sampler :=
  let '(fs0, fss) := observe o in (sampler_run fs0 fss (Sampler_init pgids)).1.

Definition run_trial (f : spec) (name : string) (conns trial : Z) : st Bench () :=
  let plan := f PORT (g_tick g) (g_server_cores g) in
  '(procs, pgids) ← on_os (start_server HAVE_TASKSET environ plan);
  ready ← on_os (wait_ready PORT);
  if negb ready then warn (NotReady name conns);; on_os (stop_server procs);; cooldown
  else
    b ← st_get;
    let sampler := sampler_of pgids (b_os b) in
    r ← on_os (run_loadgen HAVE_TASKSET json_loads (g_loadgen g) PORT conns (g_room_size g) (g_rate g)
           (g_warmup g) (g_dur g) (g_client_cores g) (g_loadgen_extra g));
    on_os (stop_server procs);;
    match r with
    | None | Some JNull => cooldown
    | Some r => record_trial name conns trial sampler r
    end.

(** [range(1, trials + 1)] *)
Definition trial_numbers : list Z := py_range 1 (g_trials g + 1).

Definition run_server (name : string) (f : spec) : st Bench () :=
  for_each (fun conns => for_each (fun trial => run_trial f name conns trial) trial_numbers) (g_conns g).

Definition run_matrix : st Bench () :=
  for_each (fun name =>
    match dict_get (SERVERS ROOT sys_executable) name with
    | None => warn (UnknownServer name)
    | Some sv =>
        ok ← on_os (build ROOT (sv_build sv));
        if negb ok then mret () else run_server name (sv_spec sv)
    end) (g_servers g).

(** [main]: the load generator is built first; without it nothing runs.  An
    output named without a directory ends the program here. *)
Definition main : st Bench () :=
  ok ← on_os (build ROOT (Some (g_loadgen_build g)));
  if negb ok then st_raise SystemExit
  else
    st_lift (makedirs (dirname (g_out g)));; run_matrix;;
    on_files FlushRows;; on_files FlushWindows.
End Main.

Arguments mkBench {OS}.
Arguments b_os {OS}.
Arguments b_log {OS}.
Arguments b_rows {OS}.
Arguments b_timeline {OS}.
Arguments b_stderr {OS}.
