(* ===== verification/MatrixThms.v ===== *)
(** * The benchmark matrix: theorems

    Whatever a completed trial leaves running has been sent SIGKILL; the matrix
    is a sequence of such trials in the order of the loops; every row has exactly
    the columns of its file, and there is at most one summary row per trial, in
    that order. *)

From Stdlib Require Import Ascii String ZArith Lia.
From S2P Require Import Prelude PyText PyDict PyFloat PyJson RunnerSpecs.
From S2P Require Import RunnerThms Procfs Lifecycle LifecycleThms Matrix.

Open Scope string_scope.
Open Scope list_scope.
Open Scope Z_scope.

(** ** Rows *)

(** The dictionaries written have exactly the columns of the two files, in
    their order, so [csv.DictWriter] never refuses one; the first three are the
    key of the trial. *)
Theorem row_columns CLK name conns trial wall s r w x y :
  make_row CLK name conns trial wall s r = Ok x -> timeline_row name conns trial w = Ok y ->
  dict_keys x = fields /\ dict_keys y = tl_fields /\
  take 3 x = [("server", JStr name); ("conns", JInt conns); ("trial", JInt trial)] /\
  take 3 y = [("server", JStr name); ("conns", JInt conns); ("trial", JInt trial)].
Proof.
  intros Hx Hy.
  assert (dict_keys x = fields /\ take 3 x = [("server", JStr name); ("conns", JInt conns); ("trial", JInt trial)])
    as [-> ->].
  { unfold make_row in Hx. repeat (apply res_bind_Ok in Hx as (? & _ & Hx)). by injection Hx as <-. }
  unfold timeline_row in Hy. apply res_bind_Ok in Hy as (l & _ & Hy).
  repeat (destruct l as [|? l]; try discriminate Hy).
  repeat (apply res_bind_Ok in Hy as (? & _ & Hy)). by injection Hy as <-.
Qed.

(** A result of the load generator. *)
Definition demo_result : json :=
  JObj [("moves_sent", JInt 100); ("snaps_recv", JInt 150); ("measured", JInt 90);
        ("moves_per_s", JFloat (f_of_ratio false 1999 100)); ("snaps_per_s", JInt 30);
        ("p50_ms", JFloat (f_of_ratio false 1 3)); ("p90_ms", JInt 1); ("p99_ms", JInt 2);
        ("p999_ms", JInt 3); ("max_ms", JInt 4); ("p99_worst_1s_ms", JInt 4); ("p99_cv", JInt 0);
        ("timeline", JArr [JArr [JInt 0; JInt 1; JInt 1; JInt 2; JInt 3; JInt 4]])].

Definition demo_sampler : Sampler := mkSampler [1] 2048 1024 (Some 100) (Some 350).

Lemma row_columns_witness :
  exists x y, make_row 100 "go" 500 1 25 demo_sampler demo_result = Ok x /\
    timeline_row "go" 500 1 (JArr [JInt 0; JInt 1; JInt 1; JInt 2; JInt 3; JInt 4]) = Ok y /\
    dict_keys x = fields /\ dict_keys y = tl_fields.
Proof.
  destruct (make_row 100 "go" 500 1 25 demo_sampler demo_result) as [x|e] eqn:Hx;
    [|exfalso; revert Hx; vm_compute; discriminate].
  destruct (timeline_row "go" 500 1 (JArr [JInt 0; JInt 1; JInt 1; JInt 2; JInt 3; JInt 4])) as [y|e] eqn:Hy;
    [|exfalso; revert Hy; vm_compute; discriminate].
  destruct (row_columns 100 "go" 500 1 25 demo_sampler demo_result _ x y Hx Hy) as (H1 & H2 & _).
  exists x, y. split; [reflexivity|]. split; [reflexivity|]. split; [exact H1|exact H2].
Defined.

(** ** Loops *)

Lemma for_each_star {S A} (f : A -> st S ()) l s s' :
  for_each f l s = (s', Ok tt) -> star (fun s x s' => f x s = (s', Ok tt)) s l s'.
Proof.
  revert s. induction l as [|x l IH]; intros s; cbn [for_each].
  - intros [= ->]. constructor.
  - destruct (f x s) as [s1 [[]|e]] eqn:Hf.
    + rewrite (st_bind_Ok _ _ _ _ _ Hf). intros H. econstructor; [exact Hf|by apply IH].
    + by rewrite (st_bind_Raise _ _ _ _ _ Hf).
Qed.

Lemma st_bind_inv {S A B} (m : st S A) (k : A -> st S B) s s' b :
  (m ≫= k) s = (s', Ok b) -> exists s1 a, m s = (s1, Ok a) /\ k a s1 = (s', Ok b).
Proof. unfold mbind, st_bind. destruct (m s) as [s1 [a|e]]; [eauto|done]. Qed.

Section Main.
Context {OS : Type} `{OneGroup OS}.
Variable ROOT sys_executable : string.
Variable HAVE_TASKSET : bool.
Variable environ : dict string string.
Variable CLK : Z.
Variable json_loads : string -> res json.
Variable g : config.

Notation Bench := (@Bench OS).
Notation run_trial := (run_trial HAVE_TASKSET environ CLK json_loads g).
Notation run_server := (run_server HAVE_TASKSET environ CLK json_loads g).
Notation run_matrix := (run_matrix ROOT sys_executable HAVE_TASKSET environ CLK json_loads g).

(** No session that was over comes back. *)
Definition bcalm (b b' : Bench) : Prop := calm (b_os b) (b_os b').

(** The key of a row. *)
Definition key_of (x : row) : list (string * json) := take 3 x.
Definition job : Type := string * Z * Z.
Definition job_key (j : job) : list (string * json) :=
  let '(name, conns, trial) := j in [("server", JStr name); ("conns", JInt conns); ("trial", JInt trial)].

Lemma on_os_inv {A} (m : st OS A) b b' a :
  on_os m b = (b', Ok a) ->
  exists o, m (b_os b) = (o, Ok a) /\ b' = mkBench o (b_log b) (b_stderr b).
Proof. unfold on_os. destruct (m (b_os b)) as [o r]. intros [= <- ->]. eauto. Qed.

Lemma on_stderr_inv {A} (m : st (list message) A) (b b' : Bench) a :
  on_stderr m b = (b', Ok a) -> exists l, b' = mkBench (b_os b) (b_log b) l.
Proof. unfold on_stderr. destruct (m (b_stderr b)) as [l r]. intros [= <- ->]. eauto. Qed.

Lemma written_rows_app l1 l2 : written_rows (l1 ++ l2) = written_rows l1 ++ written_rows l2.
Proof. apply omap_app. Qed.

Lemma written_windows_app l1 l2 : written_windows (l1 ++ l2) = written_windows l1 ++ written_windows l2.
Proof. apply omap_app. Qed.

Lemma on_files_inv op (b b' : Bench) :
  on_files op b = (b', Ok tt) -> b_os b' = b_os b /\ b_rows b' = b_rows b ++ written_rows [op].
Proof. intros [= <-]. split; [done|]. apply written_rows_app. Qed.

Lemma cooldown_inv (b b' : Bench) :
  cooldown g b = (b', Ok tt) -> undisturbed (b_os b) (b_os b') /\ b_rows b' = b_rows b.
Proof.
  intros (o & [= <-] & ->)%on_os_inv. split; [|done]. split.
  - apply sleep_evolves.
  - intros p l. apply sleep_keeps.
Qed.

Lemma timeline_inv name conns trial l (b b' : Bench) :
  for_each (fun w => x ← st_lift (timeline_row name conns trial w); on_files (WriteWindow x)) l b = (b', Ok tt) ->
  b_os b' = b_os b /\ b_rows b' = b_rows b.
Proof.
  intros Hs%for_each_star. induction Hs as [b|b w b1 l b' Hstep Hs IH]; [done|].
  destruct IH as [-> ->]. apply st_bind_inv in Hstep as (b2 & x & Hx & Hw).
  injection Hx as <- _. apply on_files_inv in Hw as [-> ->]. by rewrite app_nil_r.
Qed.

Lemma record_trial_inv name conns trial s r (b b' : Bench) :
  record_trial CLK g name conns trial s r b = (b', Ok tt) ->
  bcalm b b' /\ exists x, b_rows b' = b_rows b ++ [x] /\ key_of x = job_key (name, conns, trial).
Proof.
  unfold record_trial. intros (b1 & x & Hx & Hr)%st_bind_inv. injection Hx as <- Hx.
  apply st_bind_inv in Hr as (b2 & [] & [Hw1 Hw2]%on_files_inv & Hr).
  apply st_bind_inv in Hr as (b2f & [] & [Hf1 Hf2]%on_files_inv & Hr).
  apply st_bind_inv in Hr as (b2' & [] & Hck & Hr). apply on_stderr_inv in Hck as [l ->].
  apply st_bind_inv in Hr as (b3 & tl & Htl & Hr). injection Htl as <- Htl.
  apply st_bind_inv in Hr as (b4 & [] & Ht & Hr).
  apply st_bind_inv in Hr as (b5 & [] & [Hg1 Hg2]%on_files_inv & Hr).
  apply timeline_inv in Ht as [Ho Hrows]. apply cooldown_inv in Hr as [[Hq _] Hrows'].
  cbn [b_os] in Ho. change (b_rows (mkBench (b_os b2f) (b_log b2f) l)) with (b_rows b2f) in Hrows.
  cbn in Hw2, Hf2, Hg2. rewrite app_nil_r in Hf2, Hg2.
  split.
  - apply quiet_calm. by rewrite Hg1, Ho, Hf1, Hw1 in Hq.
  - exists x. rewrite Hrows', Hg2, Hrows, Hf2, Hw2. split; [done|].
    unfold make_row in Hx. repeat (apply res_bind_Ok in Hx as (? & _ & Hx)). by injection Hx as <-.
Qed.

Lemma wait_ready_undisturbed port o o' r : wait_ready port o = (o', r) -> undisturbed o o'.
Proof.
  unfold wait_ready. destruct (polls port o). intros [= <- _]. split.
  - apply polled_evolves.
  - intros p k. apply polled_keeps.
Qed.

Lemma run_loadgen_undisturbed lg port c rs ra wu du cc ex o o' r :
  run_loadgen HAVE_TASKSET json_loads lg port c rs ra wu du cc ex o = (o', Ok r) -> undisturbed o o'.
Proof.
  unfold run_loadgen. intros (o1 & [rc out] & Hr & Hj)%st_bind_inv.
  assert (o' = o1) as ->.
  { destruct (json_loads (last_line out)) as [v|e]; [by injection Hj|]. by destruct e; injection Hj. }
  split.
  - by eapply run_cmd_evolves.
  - intros p k. by eapply run_cmd_keeps.
Qed.

(** One trial, from before [start_server] to after the cool-down. *)
Lemma run_trial_inv f name conns trial (b b' : Bench) :
  run_trial f name conns trial b = (b', Ok tt) ->
  bcalm b b' /\
  (b_rows b' = b_rows b \/
   exists x, b_rows b' = b_rows b ++ [x] /\ key_of x = job_key (name, conns, trial)).
Proof.
  unfold Matrix.run_trial. intros (b1 & [procs pgids] & Hst & Hr)%st_bind_inv.
  apply on_os_inv in Hst as (o1 & Hst & ->).
  apply st_bind_inv in Hr as (b2 & ready & Hw & Hr). apply on_os_inv in Hw as (o2 & Hw & ->).
  apply wait_ready_undisturbed in Hw. cbn [b_os b_log] in *.
  assert (forall o3, undisturbed o1 o3 -> forall o4, stop_server procs o3 = (o4, Ok tt) ->
    calm (b_os b) o4) as Hstop.
  { intros o3 Hu o4 H4. destruct (server_life _ _ _ _ _ _ _ _ Hst Hu) as (ls & o5 & _ & H5 & _ & Hcalm).
    by assert (o5 = o4) as -> by congruence. }
  destruct ready; cbn [negb] in Hr.
  - apply st_bind_inv in Hr as (b3 & b3' & Hg & Hr). injection Hg as <- <-.
    apply st_bind_inv in Hr as (b4 & r & Hl & Hr). apply on_os_inv in Hl as (o4 & Hl & ->).
    apply run_loadgen_undisturbed in Hl. cbn [b_os b_log] in *.
    apply st_bind_inv in Hr as (b5 & [] & Hs & Hr). apply on_os_inv in Hs as (o5 & Hs & ->).
    cbn [b_os b_log] in *.
    assert (calm (b_os b) o5) as Hq5 by (eapply Hstop; [by etransitivity|done]).
    destruct r as [[]|];
      (apply cooldown_inv in Hr as [[Hq%quiet_calm _] Hrows] || apply record_trial_inv in Hr as [Hq Hrows]);
      (split; [unfold bcalm; by etransitivity|]); auto.
  - apply st_bind_inv in Hr as (b4 & [] & Hwarn & Hr). apply on_stderr_inv in Hwarn as [l ->].
    apply st_bind_inv in Hr as (b5 & [] & Hs & Hr). apply on_os_inv in Hs as (o5 & Hs & ->).
    cbn [b_os b_log] in *. apply cooldown_inv in Hr as [[Hq%quiet_calm _] Hrows].
    split; [unfold bcalm; etransitivity; [by eapply Hstop|done]|]. by left.
Qed.

(** ** The matrix as a sequence of steps *)

Inductive label := LNote (name : string) | LBuild (name : string) | LTrial (j : job).

Definition trial_of (l : label) : option job := match l with LTrial j => Some j | _ => None end.

Inductive bench_step : Bench -> label -> Bench -> Prop :=
  | S_note b name b' :
      dict_get (SERVERS ROOT sys_executable) name = None ->
      warn (UnknownServer name) b = (b', Ok tt) -> bench_step b (LNote name) b'
  | S_build b name sv ok b' :
      dict_get (SERVERS ROOT sys_executable) name = Some sv ->
      on_os (build ROOT (sv_build sv)) b = (b', Ok ok) ->
      bench_step b (LBuild name) b'
  | S_trial b name sv conns trial b' :
      dict_get (SERVERS ROOT sys_executable) name = Some sv ->
      run_trial (sv_spec sv) name conns trial b = (b', Ok tt) ->
      bench_step b (LTrial (name, conns, trial)) b'.

Definition jobs_of (name : string) : list job :=
  concat ((fun conns => (fun trial => (name, conns, trial)) <$> trial_numbers g) <$> g_conns g).

(** The cells of the matrix, in the order of the loops. *)
Definition all_jobs : list job := concat (jobs_of <$> g_servers g).

Lemma build_inv cmd b b' (ok : bool) :
  on_os (build (OS := OS) ROOT cmd) b = (b', Ok ok) -> bcalm b b' /\ b_rows b' = b_rows b.
Proof.
  intros (o & Hb & ->)%on_os_inv. split; [|done]. unfold bcalm. cbn. revert Hb. unfold build.
  destruct cmd as [[cmd rel]|]; [|by intros [= <- _]].
  intros (o1 & [rc out] & Hr & [= <- _])%st_bind_inv. by eapply quiet_calm, run_cmd_evolves.
Qed.

Lemma bench_step_inv b l b' :
  bench_step b l b' ->
  bcalm b b' /\
  exists ks, key_of <$> b_rows b' = (key_of <$> b_rows b) ++ ks /\
    ks `sublist_of` (job_key <$> omap trial_of [l]).
Proof.
  intros [b0 name b1 _ Hn|b0 name sv ok b1 _ Hb|b0 name sv conns trial b1 _ Ht].
  - apply on_stderr_inv in Hn as [l0 ->]. split; [by intros k|]. exists []. by rewrite app_nil_r.
  - apply build_inv in Hb as [Hq ->]. split; [done|]. exists []. by rewrite app_nil_r.
  - apply run_trial_inv in Ht as [Hq [->|(x & -> & Hx)]]; (split; [done|]).
    + exists []. rewrite app_nil_r. split; [done|apply sublist_nil_l].
    + exists [key_of x]. rewrite fmap_app. split; [done|]. rewrite Hx. done.
Qed.

Lemma bench_steps_rows b ls b' :
  star bench_step b ls b' ->
  exists ks, key_of <$> b_rows b' = (key_of <$> b_rows b) ++ ks /\
    ks `sublist_of` (job_key <$> omap trial_of ls).
Proof.
  induction 1 as [b|b l b1 ls b' Hstep Hs IH]; [exists []; by rewrite app_nil_r|].
  apply bench_step_inv in Hstep as [_ (ks1 & H1 & Hk1)]. destruct IH as (ks2 & H2 & Hk2).
  exists (ks1 ++ ks2). rewrite H2, H1, app_assoc. split; [done|].
  change (l :: ls) with ([l] ++ ls). rewrite omap_app, fmap_app. by apply sublist_app.
Qed.

Lemma trials_steps name sv conns ts b b' :
  dict_get (SERVERS ROOT sys_executable) name = Some sv ->
  for_each (fun trial => run_trial (sv_spec sv) name conns trial) ts b = (b', Ok tt) ->
  star bench_step b (LTrial <$> ((fun trial => (name, conns, trial)) <$> ts)) b'.
Proof.
  intros Hsv Hs%for_each_star. induction Hs as [b|b t b1 ts b' Hstep Hs IH]; [constructor|].
  cbn. econstructor; [by eapply S_trial|exact IH].
Qed.

Lemma server_steps name sv b b' :
  dict_get (SERVERS ROOT sys_executable) name = Some sv ->
  run_server name (sv_spec sv) b = (b', Ok tt) ->
  star bench_step b (LTrial <$> jobs_of name) b'.
Proof.
  intros Hsv. unfold Matrix.run_server, jobs_of. intros Hs%for_each_star.
  induction Hs as [b|b c b1 cs b' Hstep Hs IH]; [constructor|].
  cbn [fmap list_fmap concat]. rewrite fmap_app. eapply star_app; [by eapply trials_steps|exact IH].
Qed.

Lemma omap_trials (js : list job) : omap trial_of (LTrial <$> js) = js.
Proof. induction js as [|j js IH]; [done|]. cbn. f_equal. exact IH. Qed.

Lemma matrix_steps names b b' :
  for_each (fun name =>
    match dict_get (SERVERS ROOT sys_executable) name with
    | None => warn (UnknownServer name)
    | Some sv =>
        ok ← on_os (build ROOT (sv_build sv));
        if negb ok then mret () else run_server name (sv_spec sv)
    end) names b = (b', Ok tt) ->
  exists ls, star bench_step b ls b' /\ omap trial_of ls `sublist_of` concat (jobs_of <$> names).
Proof.
  intros Hs%for_each_star. induction Hs as [b|b name b1 names b' Hstep Hs IH].
  { exists []. split; [constructor|done]. }
  destruct IH as (ls2 & H2 & Hsub2). cbn [fmap list_fmap concat].
  destruct (dict_get (SERVERS ROOT sys_executable) name) as [sv|] eqn:Hsv.
  - apply st_bind_inv in Hstep as (b0 & ok & Hb & Hr). destruct ok; cbn [negb] in Hr.
    + exists (LBuild name :: (LTrial <$> jobs_of name) ++ ls2). split.
      * econstructor; [by eapply S_build|]. eapply star_app; [by eapply server_steps|done].
      * change (omap trial_of (LBuild name :: ?l)) with (omap trial_of l). rewrite omap_app, omap_trials.
        by apply sublist_app.
    + exists (LBuild name :: ls2). injection Hr as ->. split.
      * econstructor; [by eapply S_build|done].
      * by apply sublist_inserts_l.
  - exists (LNote name :: ls2). split; [by econstructor; [apply S_note|]|]. by apply sublist_inserts_l.
Qed.

(** C28: a matrix that completes is a sequence of builds, trials and notes of
    unknown servers, the trials being cells of the matrix in the order of the
    loops, each at most once; at the start of each of them, and at the end,
    whatever still runs of the servers started before has been sent SIGKILL: only
    in a session where at the beginning a process ran that had not been sent one
    can a process run that has not; the summary has at most one row per trial, in
    order. *)
Theorem matrix_sequential (b b' : Bench) :
  run_matrix b = (b', Ok tt) ->
  exists ls,
    star bench_step b ls b' /\
    omap trial_of ls `sublist_of` all_jobs /\
    (forall l1 l2 bm, ls = l1 ++ l2 -> star bench_step b l1 bm ->
       forall l, (forall t, in_session (b_os b) l t -> killed (b_os b) t) ->
       forall t, in_session (b_os bm) l t -> killed (b_os bm) t) /\
    exists ks, key_of <$> b_rows b' = (key_of <$> b_rows b) ++ ks /\
    ks `sublist_of` (job_key <$> omap trial_of ls).
Proof.
  intros (ls & Hs & Hsub)%matrix_steps. exists ls. split_and!; [done|done| |by apply bench_steps_rows].
  intros l1 l2 bm _ Hm. apply (star_invariant bench_step (bcalm b) b l1 bm); [|exact Hm|by intros l].
  intros b1 l b2 Hq [Hq' _]%bench_step_inv. unfold bcalm in *. by etransitivity.
Qed.
End Main.

Definition demo_config : config :=
  mkConfig ["nope"; "python"] [500; 1000] 2 50 20 30 5 20 [4; 5] [6; 7] f_zero "/bench/loadgen" ([], "")
    [] "results/results.csv".

(** The first process of all does not end; it has been sent SIGKILL. *)
Lemma matrix_sequential_witness :
  exists b',
    run_matrix "/bench" "/usr/bin/python3" true [] 100 (fun _ => Ok demo_result) demo_config
      (mkBench toy_start [] []) = (b', Ok tt) /\
    length (b_rows b') = 4%nat /\ ty_run (b_os b') = [1] /\
    (forall t : task (OS := toy), in_session (b_os b') 1 t -> killed (b_os b') t) /\
    exists ls : list label,
      omap trial_of ls `sublist_of` all_jobs demo_config.
Proof.
  set (m := run_matrix "/bench" "/usr/bin/python3" true [] 100 (fun _ => Ok demo_result) demo_config
    (mkBench toy_start [] [])).
  exists m.1. assert (m = (m.1, Ok tt)) as Hm by (vm_compute; reflexivity).
  split; [exact Hm|]. split; [vm_compute; reflexivity|]. split; [vm_compute; reflexivity|].
  destruct (matrix_sequential "/bench" "/usr/bin/python3" true [] 100 (fun _ => Ok demo_result) demo_config
    (mkBench toy_start [] []) m.1 Hm) as (ls & Hs & Hsub & Hover & _).
  split; [|exists ls; exact Hsub].
  apply (Hover ls [] m.1); [by rewrite app_nil_r|exact Hs|]. intros t [_ Hin]. destruct (not_elem_of_nil _ Hin).
Defined.

(** ** The defaults *)

Lemma py_range_app a b c : a <= b <= c -> py_range a b ++ py_range b c = py_range a c.
Proof.
  intros Hab. unfold py_range.
  replace (Z.to_nat (c - a)) with (Z.to_nat (b - a) + Z.to_nat (c - b))%nat by lia.
  rewrite seq_app, fmap_app. f_equal. cbn [Nat.add]. rewrite <- (Nat.add_0_r (Z.to_nat (b - a))) at 1.
  rewrite <- fmap_add_seq, <- list_fmap_compose. apply list_fmap_ext. intros i x _. cbn. lia.
Qed.

Lemma NoDup_py_range a b : NoDup (py_range a b).
Proof. apply NoDup_fmap; [intros x y Hxy; lia|apply NoDup_seq]. Qed.

(** Without [--server-cores] and [--client-cores] every core of the machine
    is either a server core or a client core, and none is both; the load
    generator is told the number of the client's. *)
Theorem default_cores ROOT ncpu args c :
  0 <= ncpu -> a_server_cores args = "" -> a_client_cores args = "" ->
  setup ROOT ncpu args = Ok c ->
  g_server_cores c ++ g_client_cores c = py_range 0 ncpu /\
  (forall x, x ∈ g_server_cores c -> x ∈ g_client_cores c -> False) /\
  (a_loadgen args = "odin" -> g_loadgen_extra c = ["-workers"; str_len (g_client_cores c)]) /\
  g_conns c <> [] /\ Forall (fun s => s <> "") (g_servers c).
Proof.
  intros Hn Hs Hc Hset. unfold setup, core_sets in Hset. rewrite Hs, Hc in Hset. cbn [mbind res_bind parse_cores] in Hset.
  change (parse_cores "" ?d) with (Ok d) in Hset. cbn [mbind res_bind] in Hset.
  apply res_bind_Ok in Hset as (conns & Hconns & Hset).
  assert (py_range 0 (ncpu / 2) ++ py_range (ncpu / 2) ncpu = py_range 0 ncpu) as Happ.
  { apply py_range_app. pose proof (Z.div_pos ncpu 2). pose proof (Z.div_le_upper_bound ncpu 2 ncpu). lia. }
  pose proof (NoDup_py_range 0 ncpu) as Hnd. rewrite <- Happ in Hnd.
  apply NoDup_app in Hnd as (_ & Hdisj & _).
  assert (conns <> []) as Hne.
  { intros ->. apply res_map_Ok in Hconns. inversion Hconns as [Heq|]. 
    by eapply split_char_ne. }
  assert (Forall (fun s => s <> "") (server_names (a_servers args))) as Hnames.
  { apply Forall_forall. intros s Hin. by apply list_elem_of_filter in Hin as [? _]. }
  destruct (bool_decide (a_loadgen args = "odin")) eqn:Hlg; injection Hset as <-;
    cbn [g_server_cores g_client_cores g_loadgen_extra g_conns g_servers]; split_and!;
    [done|exact Hdisj|done|done|done|done|exact Hdisj| |done|done].
  intros Hodin. by rewrite bool_decide_eq_true_2 in Hlg.
Qed.

Definition demo_args : Namespace :=
  mkNamespace "go, rust,,python" "500,1000" 3 50 20 30 5 20 "" "" "/bench/results.csv" f_zero "odin".

Lemma default_cores_witness :
  exists c, setup "/bench" 5 demo_args = Ok c /\
    g_server_cores c ++ g_client_cores c = [0; 1; 2; 3; 4] /\ g_servers c = ["go"; "rust"; "python"].
Proof.
  destruct (setup "/bench" 5 demo_args) as [c|e] eqn:Hset.
  - exists c. split; [reflexivity|].
    destruct (default_cores "/bench" 5 demo_args c ltac:(lia) eq_refl eq_refl Hset) as (H1 & _).
    split; [exact H1|]. assert (Ok (g_servers c) = Ok ["go"; "rust"; "python"]) as [= Heq]; [|exact Heq].
    change (Ok (g_servers c)) with (g_servers <$> Ok c). rewrite <- Hset. vm_compute. reflexivity.
  - exfalso. revert Hset. vm_compute. discriminate.
Defined.
