(* ===== verification/RunnerCli.v ===== *)
(** * The runner's command line (runner/run.py, lines 382-425)

    [parse_argv] is [ap.parse_args()] for the options [main] declares, on the
    words of [PyArgparse]: conversion by type, the choices of [--loadgen], the
    defaults.

    [program] is [main] from its arguments on. *)

From Stdlib Require Import Ascii String ZArith Lia.
From S2P Require Import Prelude PyText PyDict PyFloat PyFloatThms PyNum PyRepr PyJson PyPath PyArgparse RunnerSpecs Procfs Lifecycle Matrix.

Open Scope string_scope.
Open Scope list_scope.
Open Scope Z_scope.

(** ** Options *)

Definition option_names : list string :=
  ["-h"; "--help"; "--servers"; "--conns"; "--trials"; "--room-size"; "--rate"; "--tick"; "--warmup"; "--dur";
   "--server-cores"; "--client-cores"; "--out"; "--cooldown"; "--loadgen"].

(** One option with its value; an unknown name stands for [--help]. *)
Definition set_option (ns : Namespace) (name v : string) : res Namespace :=
  let '(mkNamespace servers conns trials room rate tick warmup dur sc cc out cool lg) := ns in
  if bool_decide (name = "--servers") then Ok (mkNamespace v conns trials room rate tick warmup dur sc cc out cool lg)
  else if bool_decide (name = "--conns") then Ok (mkNamespace servers v trials room rate tick warmup dur sc cc out cool lg)
  else if bool_decide (name = "--trials") then
    n ← or_exit (int_of_str v); Ok (mkNamespace servers conns n room rate tick warmup dur sc cc out cool lg)
  else if bool_decide (name = "--room-size") then
    n ← or_exit (int_of_str v); Ok (mkNamespace servers conns trials n rate tick warmup dur sc cc out cool lg)
  else if bool_decide (name = "--rate") then
    n ← or_exit (int_of_str v); Ok (mkNamespace servers conns trials room n tick warmup dur sc cc out cool lg)
  else if bool_decide (name = "--tick") then
    n ← or_exit (int_of_str v); Ok (mkNamespace servers conns trials room rate n warmup dur sc cc out cool lg)
  else if bool_decide (name = "--warmup") then
    n ← or_exit (int_of_str v); Ok (mkNamespace servers conns trials room rate tick n dur sc cc out cool lg)
  else if bool_decide (name = "--dur") then
    n ← or_exit (int_of_str v); Ok (mkNamespace servers conns trials room rate tick warmup n sc cc out cool lg)
  else if bool_decide (name = "--server-cores") then
    Ok (mkNamespace servers conns trials room rate tick warmup dur v cc out cool lg)
  else if bool_decide (name = "--client-cores") then
    Ok (mkNamespace servers conns trials room rate tick warmup dur sc v out cool lg)
  else if bool_decide (name = "--out") then Ok (mkNamespace servers conns trials room rate tick warmup dur sc cc v cool lg)
  else if bool_decide (name = "--cooldown") then
    x ← or_exit (float_of_str v); Ok (mkNamespace servers conns trials room rate tick warmup dur sc cc out x lg)
  else if bool_decide (name = "--loadgen") then
    if bool_decide (v = "odin" \/ v = "go")
    then Ok (mkNamespace servers conns trials room rate tick warmup dur sc cc out cool v) else Raise SystemExit
  else Raise SystemExit.

(** The values [add_argument] gives. *)
Definition default_args (ROOT : string) : Namespace :=
  mkNamespace "go,rust,ocaml,odin,elixir,python" "500,1000,2000,5000,10000" 3 50 20 30 5 20 "" ""
    (path_join (path_join ROOT "results") "results.csv") (f_of_ratio false 1 1) "odin".

(** [ap], after the calls of [add_argument]: no positional arguments. *)
Definition runner_parser : ArgumentParser Namespace := mkParser option_names set_option None.

#[export] Instance option_names_Names : Names option_names.
Proof. reflexivity. Qed.

Definition parse_argv (ROOT : string) (argv : list string) : res Namespace :=
  parse runner_parser (default_args ROOT) argv.

Section Program.
Context {OS : Type} `{Kernel OS}.
Variable ROOT sys_executable : string.
Variable HAVE_TASKSET : bool.
Variable environ : dict string string.
Variable CLK ncpu : Z.
Variable json_loads : string -> res json.

(** [main()]: before the load generator is built nothing is done but the
    message about overlapping cores. *)
Definition program (argv : list string) : st (@Bench OS) () :=
  args ← st_lift (parse_argv ROOT argv);
  cores ← st_lift (core_sets ncpu args);
  (if cores_overlap cores then warn Overlap else mret ());;
  g ← st_lift (setup ROOT ncpu args);
  main ROOT sys_executable HAVE_TASKSET environ CLK json_loads g.
End Program.

Example cli_ex :
  parse_argv "/b" [] = Ok (default_args "/b") /\
  a_rate <$> parse_argv "/b" ["--rate"; "-5"; "--rat=7"] = Ok 7 /\
  parse_argv "/b" ["--server"; "4"] = Raise SystemExit /\
  a_server_cores <$> parse_argv "/b" ["--server-c"; "4-7"] = Ok "4-7" /\
  parse_argv "/b" ["--rate"; "x"] = Raise SystemExit /\ parse_argv "/b" ["--loadgen=zig"] = Raise SystemExit /\
  a_servers <$> parse_argv "/b" ["--servers="; "--conns"; "-a b"] = Ok "" /\
  parse_argv "/b" ["go"] = Raise SystemExit /\ parse_argv "/b" ["--trials"; "--dur"; "3"] = Raise SystemExit.
Proof. vm_compute. repeat split; reflexivity. Qed.

(** ** Theorems *)

Lemma set_option_exits ns name v e : set_option ns name v = Raise e -> e = SystemExit.
Proof.
  destruct ns. unfold set_option.
  repeat case_bool_decide;
    first [congruence|intros Hr; destruct (or_exit _) eqn:Hx; [discriminate|injection Hr as <-; by eapply or_exit_exits]].
Qed.

(** What argparse refuses ends the program before it has done anything. *)
Lemma refused_args {OS} `{Kernel OS} ROOT exe HAVE_TASKSET environ CLK ncpu json_loads argv e (b : Bench) :
  parse_argv ROOT argv = Raise e ->
  program ROOT exe HAVE_TASKSET environ CLK ncpu json_loads argv b = (b, Raise SystemExit).
Proof.
  intros Hp. unfold program, mbind, st_bind, st_lift. rewrite Hp. do 2 f_equal.
  by apply (parse_exits runner_parser) in Hp; [|apply set_option_exits].
Qed.

(** The command line that says everything. *)
Definition print_args (ns : Namespace) : list string :=
  ["--servers"; a_servers ns; "--conns"; a_conns ns; "--trials"; str_of_Z (a_trials ns);
   "--room-size"; str_of_Z (a_room_size ns); "--rate"; str_of_Z (a_rate ns); "--tick"; str_of_Z (a_tick ns);
   "--warmup"; str_of_Z (a_warmup ns); "--dur"; str_of_Z (a_dur ns); "--server-cores"; a_server_cores ns;
   "--client-cores"; a_client_cores ns; "--out"; a_out ns; "--cooldown"; float_repr (a_cooldown ns);
   "--loadgen"; a_loadgen ns].

(** What can be said on a command line: words that are values, a load generator
    there is. *)
Record sayable (ns : Namespace) : Prop := {
  sy_words : Forall (fun w => classify option_names w = Value)
    [a_servers ns; a_conns ns; a_server_cores ns; a_client_cores ns; a_out ns; float_repr (a_cooldown ns); a_loadgen ns];
  sy_cooldown : f_valid (a_cooldown ns);
  sy_loadgen : a_loadgen ns = "odin" \/ a_loadgen ns = "go" }.

(** One option and its value read. *)
Ltac which_option :=
  change (ap_set runner_parser) with set_option; unfold set_option;
  repeat match goal with
  | |- context [bool_decide (?a = ?b)] =>
      let r := eval vm_compute in (bool_decide (a = b)) in change (bool_decide (a = b)) with r
  end;
  cbv iota.

Ltac read_option convert :=
  eapply eq_trans;
  [apply (parse_option runner_parser);
   [vm_compute; reflexivity|solve [assumption|apply (classify_int option_names)]|which_option; convert; reflexivity]|].

(** The arguments printed are the arguments read, whatever was set before. *)
Theorem args_roundtrip pos ns0 ns : sayable ns -> parse_words runner_parser pos ns0 (print_args ns) = Ok ns.
Proof.
  intros [Hw Hc Hl]. rewrite !Forall_cons in Hw. destruct Hw as (H1 & H2 & H3 & H4 & H5 & H6 & H7 & _).
  destruct ns0 as [sv0 cs0 tr0 rs0 rt0 tk0 wu0 du0 sc0 cc0 ot0 co0 lg0], ns as [sv cs tr rs rt tk wu du sc cc ot co lg].
  cbn [a_servers a_conns a_trials a_room_size a_rate a_tick a_warmup
    a_dur a_server_cores a_client_cores a_out a_cooldown a_loadgen] in *.
  unfold print_args. cbn [a_servers a_conns a_trials a_room_size a_rate a_tick a_warmup
    a_dur a_server_cores a_client_cores a_out a_cooldown a_loadgen].
  pose proof (or_exit_Ok _ _ (float_repr_roundtrip _ Hc)) as Hf.
  do 2 read_option idtac. do 6 read_option ltac:(rewrite (or_exit_Ok _ _ (int_of_str_of_Z _))).
  do 3 read_option idtac. read_option ltac:(rewrite Hf).
  read_option ltac:(rewrite bool_decide_eq_true_2 by done). done.
Qed.

Definition demo_cli : Namespace :=
  mkNamespace "go,rust" "500" (-3) 50 20 30 5 20 "0-3" "" "out dir/r.csv" (f_of_ratio false 1 10) "go".

Lemma args_roundtrip_witness :
  parse_argv "/bench" (print_args demo_cli) = Ok demo_cli /\
  print_args demo_cli !! 5%nat = Some "-3".
Proof.
  split; [|vm_compute; reflexivity]. apply args_roundtrip. split.
  - repeat (constructor; [vm_compute; reflexivity|]). constructor.
  - apply f_of_ratio_valid.
  - by right.
Defined.
