(* ===== verification/PlotData.v ===== *)
(** * The report's data (runner/plot.py, lines 31-91 and 341-350)

    - [ORDER], [SLOT], [CHARTS] are the tables of those names;
    - [load] and [load_timeline] group the rows of the two CSV files;
    - [series_json] computes the medians the charts draw.

    A CSV row is what [csv.DictReader] yields: a dictionary from column names to
    text, or [None] for the columns a short line does not reach.  The text
    columns ([server]) are taken to be there: Python would go on with [None] as
    the name of a server.  Numbers are assumed not to be NaN where they are
    sorted. *)

From Stdlib Require Import Ascii String ZArith Lia SpecFloat.
From S2P Require Import Prelude PyText PyDict PyFloat PyNum PySort.

Open Scope string_scope.
Open Scope list_scope.
Open Scope Z_scope.

(** ** Tables *)

Definition SLOT : dict string Z :=
  [("go", 1); ("rust", 2); ("ocaml", 3); ("elixir", 4); ("python", 5); ("go-pool", 5); ("go-epoll", 3)].

Definition ORDER : list string := ["go"; "go-pool"; "go-epoll"; "rust"; "ocaml"; "elixir"; "python"].

(** [SLOT.get(s, 1)] *)
Definition slot (s : string) : Z := match dict_get SLOT s with Some n => n | None => 1 end.

(** An entry of [CHARTS]: field, title, label of the y axis, Python formatter,
    and the format of the script (decimals, thousands comma). *)
Record chart := mkChart {
  ch_field : string; ch_title : string; ch_ylabel : string; ch_fmt : float -> string;
  ch_spec : Z * bool }.

Definition CHARTS : list chart :=
  [mkChart "moves_per_s" "Throughput (processed)" "moves / s" fmt_comma (0, true);
   mkChart "p99_ms" "Latency p99" "ms" (fmt_fixed 1) (1, false);
   mkChart "p50_ms" "Latency p50" "ms" (fmt_fixed 1) (1, false);
   mkChart "p99_worst_1s_ms" "Worst 1 s p99" "ms" (fmt_fixed 1) (1, false);
   mkChart "p99_cv" "Latency stability (p99 CV)" "coeff. of variation" (fmt_fixed 2) (2, false);
   mkChart "rss_peak_mb" "Peak memory under load" "MB (RSS)" (fmt_fixed 1) (1, false);
   mkChart "cpu_cores" "CPU cores used" "cores" (fmt_fixed 2) (2, false);
   mkChart "client_cpu_cores" "Client CPU (loadgen validity)" "cores" (fmt_fixed 2) (2, false);
   mkChart "send_rate_pct" "Send-rate fidelity (loadgen validity)" "% of target" (fmt_fixed 1) (1, false)].

Definition chart_fields : list string := ch_field <$> CHARTS.

(** ** Rows *)

Notation csv_row := (dict string (option string)).

(** [int(row[k])], [float(row[k])], [row[k]]: a missing column is a [KeyError],
    [None] a [TypeError]. *)
Definition row_text (row : csv_row) (k : string) : res string :=
  v ← dict_index row k; res_of_option TypeError v.
Definition row_int (row : csv_row) (k : string) : res Z := s ← row_text row k; int_of_str s.
Definition row_float (row : csv_row) (k : string) : res float := s ← row_text row k; float_of_str s.

(** ** [load] *)

(** field -> server -> conns -> values across trials *)
Notation table := (dict string (dict string (dict Z (list float)))).

(** [d[k]] on a [defaultdict]: the value, created as [z] if absent. *)
Definition dict_default {K V} `{EqDecision K} (d : dict K V) (k : K) (z : V) : V :=
  match dict_get d k with Some v => v | None => z end.

(** [f(data[field][s][c])]: the levels on the way are created. *)
Definition table_update (data : table) (field s : string) (c : Z) (f : list float -> list float) : table :=
  let by_server := dict_default data field [] in
  let by_conns := dict_default by_server s [] in
  dict_set data field (dict_set by_server s (dict_set by_conns c (f (dict_default by_conns c [])))).

(** [data[field][s][c].append(float(row[field]))]: the list is looked up, and
    created, before the number is parsed; [KeyError] and [ValueError] are
    passed over, the [TypeError] of a missing value is not. *)
Definition add_value (row : csv_row) (s : string) (c : Z) (data : table) (field : string) : res table :=
  match row_float row field with
  | Ok v => Ok (table_update data field s c (fun l => l ++ [v]))
  | Raise KeyError | Raise ValueError => Ok (table_update data field s c (fun l => l))
  | Raise e => Raise e
  end.

Fixpoint res_foldl {A B} (f : A -> B -> res A) (a : A) (l : list B) : res A :=
  match l with
  | [] => Ok a
  | x :: l => a ← f a x; res_foldl f a l
  end.

Record loaded := mkLoaded { l_data : table; l_servers : list string; l_conns : list Z }.

Definition load_row (acc : loaded) (row : csv_row) : res loaded :=
  s ← row_text row "server";
  c ← row_int row "conns";
  data ← res_foldl (add_value row s c) (l_data acc) chart_fields;
  Ok (mkLoaded data (l_servers acc ++ [s]) (l_conns acc ++ [c])).

Definition str_le (s t : string) : Prop := String.leb s t = true.
#[export] Instance str_le_dec : RelDecision str_le.
Proof. intros s t. unfold str_le. apply _. Defined.

(** [[s for s in ORDER if s in servers] + sorted(servers - set(ORDER))] *)
Definition present (servers : list string) : list string :=
  filter (fun s => s ∈ servers) ORDER ++
  sorted_set str_le (filter (fun s => s ∉ ORDER) servers).

Definition load (rows : list csv_row) : res (table * list string * list Z) :=
  acc ← res_foldl load_row (mkLoaded [] [] []) rows;
  Ok (l_data acc, present (l_servers acc), sorted_set Z.le (l_conns acc)).

(** ** [series_json] *)

Definition f_le (x y : float) : Prop := fle x y = true.
#[export] Instance f_le_dec : RelDecision f_le.
Proof. intros x y. unfold f_le. apply _. Defined.

(** [statistics.median] *)
Definition median (vals : list float) : res float :=
  let l := sort_by f_le vals in
  let n := length l in
  match n with
  | O => Raise StatisticsError
  | _ =>
      if Nat.odd n then res_of_option IndexError (l !! (n / 2)%nat)
      else
        a ← res_of_option IndexError (l !! (n / 2 - 1)%nat);
        b ← res_of_option IndexError (l !! (n / 2)%nat);
        two ← f_of_Z 2;
        fdiv (fadd a b) two
  end.

(** [data[field].get(s, {}).get(c)], [None] and [[]] alike. *)
Definition values (data : table) (field s : string) (c : Z) : list float :=
  dict_default (dict_default (dict_default data field []) s []) c [].

(** The points of one line. *)
Fixpoint series_points (data : table) (field s : string) (all_conns : list Z) : res (list (Z * float)) :=
  match all_conns with
  | [] => Ok []
  | c :: all_conns =>
      match values data field s c with
      | [] => series_points data field s all_conns
      | vals => m ← median vals; pts ← series_points data field s all_conns; Ok ((c, m) :: pts)
      end
  end.

(** The lines of one chart: servers without points are left out. *)
Fixpoint series_lines (data : table) (field : string) (servers : list string) (all_conns : list Z)
    (by_server : dict string (list (Z * float))) : res (dict string (list (Z * float))) :=
  match servers with
  | [] => Ok by_server
  | s :: servers =>
      pts ← series_points data field s all_conns;
      series_lines data field servers all_conns
        (match pts with [] => by_server | _ => dict_set by_server s pts end)
  end.

Definition series_json (data : table) (servers : list string) (all_conns : list Z)
    : res (dict string (dict string (list (Z * float)))) :=
  res_foldl (fun out field =>
    by_server ← series_lines data field servers all_conns [];
    Ok (dict_set out field by_server)) [] chart_fields.

(** ** [load_timeline] *)

(** (server, conns) -> trial -> rows *)
Notation timeline := (dict (string * Z) (dict Z (list csv_row))).

Definition timeline_add (data : timeline) (row : csv_row) : res timeline :=
  s ← row_text row "server";
  c ← row_int row "conns";
  t ← row_int row "trial";
  let trials := dict_default data (s, c) [] in
  Ok (dict_set data (s, c) (dict_set trials t (dict_default trials t [] ++ [row]))).

Definition key_le (a b : Z * csv_row) : Prop := a.1 <= b.1.
#[export] Instance key_le_dec : RelDecision key_le.
Proof. intros a b. unfold key_le. apply _. Defined.

(** [rows.sort(key=lambda r: int(r["t_s"]))]: the keys are computed first. *)
Definition sort_rows (rows : list csv_row) : res (list csv_row) :=
  keys ← res_map (fun r => row_int r "t_s") rows;
  Ok ((sort_by key_le (zip keys rows)).*2).

(** [for key in d: d[key] = f(d[key])] *)
Definition dict_update_all {K V W} (f : V -> res W) (d : dict K V) : res (dict K W) :=
  res_map (fun kv : K * V => v ← f kv.2; Ok (kv.1, v)) d.

Definition sort_all (data : timeline) : res timeline := dict_update_all (dict_update_all sort_rows) data.

Definition load_timeline (rows : list csv_row) : res timeline :=
  data ← res_foldl timeline_add [] rows;
  sort_all data.
