(* ===== verification/PlotThms.v ===== *)
(** * The report's data: theorems

    [load] groups exactly the values of the file, and lists servers and loads
    without repetition in their order; the charts get the median of exactly
    those values; [load_timeline] sorts stably. *)

From Stdlib Require Import Ascii String ZArith Lia SpecFloat.
From S2P Require Import Prelude PyText PyDict PyFloat PyNum PySort PlotData.

Open Scope string_scope.
Open Scope list_scope.
Open Scope Z_scope.

(** ** Strings are ordered *)

Lemma ascii_compare_N c d : Ascii.compare c d = N.compare (N_of_ascii c) (N_of_ascii d).
Proof. done. Qed.

Lemma str_le_cons c s d t :
  str_le (String c s) (String d t) <->
  (N_of_ascii c < N_of_ascii d)%N \/ (c = d /\ str_le s t).
Proof.
  unfold str_le, String.leb. cbn [String.compare]. rewrite ascii_compare_N.
  destruct (N.compare_spec (N_of_ascii c) (N_of_ascii d)) as [Heq|Hlt|Hgt].
  - assert (c = d) as -> by (by rewrite <- (ascii_N_embedding c), Heq, ascii_N_embedding).
    split; [by right|]. intros [?|[_ ?]]; [lia|done].
  - split; [by left|done].
  - split; [done|]. intros [?|[-> _]]; lia.
Qed.

#[export] Instance str_le_trans : Transitive str_le.
Proof.
  intros s. induction s as [|c s IH]; intros [|d t] [|e u]; try done.
  rewrite !str_le_cons. intros [H1|[-> H1]] [H2|[-> H2]]; [left; lia|by left|by left|].
  right. split; [done|]. by eapply IH.
Qed.

#[export] Instance str_le_total : Total str_le.
Proof. intros s t. unfold str_le. apply leb_total. Qed.

#[export] Instance key_le_trans : Transitive key_le.
Proof. intros a b c. unfold key_le. lia. Qed.

#[export] Instance key_le_total : Total key_le.
Proof. intros a b. unfold key_le. lia. Qed.

(** ** Grouping *)

Lemma dict_default_set {K V} `{EqDecision K} (d : dict K V) k k' v z :
  dict_default (dict_set d k v) k' z = if decide (k = k') then v else dict_default d k' z.
Proof.
  unfold dict_default. rewrite dict_get_set. by case_decide.
Qed.

Lemma dict_default_Forall {K V} `{EqDecision K} (P : V -> Prop) (d : dict K V) k z :
  Forall (fun kv => P kv.2) d -> P z -> P (dict_default d k z).
Proof.
  intros Hd Hz. unfold dict_default. destruct (dict_get d k) as [v|] eqn:Hk; [|done].
  rewrite Forall_forall in Hd. by apply (Hd (k, v)), dict_get_Some_elem.
Qed.

Lemma values_update data f s c g f' s' c' :
  values (table_update data f s c g) f' s' c' =
  if decide ((f, s, c) = (f', s', c')) then g (values data f s c) else values data f' s' c'.
Proof.
  unfold values, table_update. rewrite dict_default_set.
  destruct (decide (f = f')) as [<-|]; [|by rewrite decide_False by congruence].
  rewrite dict_default_set.
  destruct (decide (s = s')) as [<-|]; [|by rewrite decide_False by congruence].
  rewrite dict_default_set.
  destruct (decide (c = c')) as [<-|]; [by rewrite decide_True|by rewrite decide_False by congruence].
Qed.

(** The value of a column, if it is a number. *)
Definition cell (row : csv_row) (field : string) : list float :=
  match row_float row field with Ok v => [v] | Raise _ => [] end.

Lemma add_value_spec row s c data field data' f' s' c' :
  add_value row s c data field = Ok data' ->
  values data' f' s' c' =
  values data f' s' c' ++ if decide ((field, s, c) = (f', s', c')) then cell row field else [].
Proof.
  unfold add_value, cell. destruct (row_float row field) as [v|e].
  - intros [= <-]. rewrite values_update. case_decide as H; [by simplify_eq|by rewrite app_nil_r].
  - intros H. assert (data' = table_update data field s c (fun l => l)) as ->
      by (destruct e; by simplify_eq).
    rewrite values_update. case_decide as Hd; rewrite app_nil_r; by simplify_eq.
Qed.

Lemma add_values_spec row s c fields data data' f' s' c' :
  NoDup fields -> res_foldl (add_value row s c) data fields = Ok data' ->
  values data' f' s' c' =
  values data f' s' c' ++ if decide (f' ∈ fields /\ s = s' /\ c = c') then cell row f' else [].
Proof.
  intros Hnd. revert data. induction Hnd as [|f fields Hf Hnd IH]; intros data; cbn [res_foldl].
  - intros [= ->]. rewrite decide_False by (intros [H _]; by apply not_elem_of_nil in H).
    by rewrite app_nil_r.
  - intros (data1 & H1 & H2)%res_bind_Ok. rewrite (IH data1 H2), (add_value_spec _ _ _ _ _ _ f' s' c' H1).
    rewrite <- app_assoc. f_equal.
    destruct (decide (f = f')) as [->|Hne].
    + rewrite (decide_False (P := f' ∈ fields /\ _)) by tauto. rewrite app_nil_r.
      destruct (decide (s = s' /\ c = c')) as [[-> ->]|Hsc].
      * rewrite decide_True by done. rewrite decide_True; [done|]. split; [left|done].
      * rewrite decide_False by naive_solver. by rewrite decide_False by tauto.
    + rewrite decide_False by congruence. cbn [app].
      destruct (decide (f' ∈ fields /\ s = s' /\ c = c')) as [[? ?]|Hn].
      * rewrite decide_True; [done|]. split; [by right|done].
      * rewrite decide_False; [done|]. intros [[?|?]%elem_of_cons ?]; [congruence|tauto].
Qed.

(** What one row contributes to the values of a chart, a server and a load. *)
Definition contribution (field s : string) (c : Z) (row : csv_row) : list float :=
  if decide (row_text row "server" = Ok s /\ row_int row "conns" = Ok c) then cell row field else [].

Lemma chart_fields_NoDup : NoDup chart_fields.
Proof. apply (bool_decide_eq_true_1 _). by vm_compute. Qed.

Lemma load_rows_spec rows acc acc' :
  res_foldl load_row acc rows = Ok acc' ->
  (forall f s c, f ∈ chart_fields ->
     values (l_data acc') f s c = values (l_data acc) f s c ++ concat (contribution f s c <$> rows)) /\
  (forall x, x ∈ l_servers acc' <-> x ∈ l_servers acc \/ exists row, row ∈ rows /\ row_text row "server" = Ok x) /\
  (forall x, x ∈ l_conns acc' <-> x ∈ l_conns acc \/ exists row, row ∈ rows /\ row_int row "conns" = Ok x).
Proof.
  revert acc. induction rows as [|row rows IH]; intros acc; cbn [res_foldl].
  - intros [= ->]. split_and!.
    + intros f s c _. by rewrite app_nil_r.
    + intros x. split; [by left|]. intros [?|(? & []%not_elem_of_nil & _)]; done.
    + intros x. split; [by left|]. intros [?|(? & []%not_elem_of_nil & _)]; done.
  - intros (acc1 & H1 & H2)%res_bind_Ok. destruct (IH acc1 H2) as (Hv & Hs & Hc).
    unfold load_row in H1. apply res_bind_Ok in H1 as (s0 & Hs0 & H1).
    apply res_bind_Ok in H1 as (c0 & Hc0 & H1). apply res_bind_Ok in H1 as (data & Hdata & [= <-]).
    cbn [l_data l_servers l_conns] in *. split_and!.
    + intros f s c Hf. rewrite (Hv f s c Hf), (add_values_spec _ _ _ _ _ _ f s c chart_fields_NoDup Hdata).
      cbn [fmap list_fmap concat]. rewrite <- app_assoc. do 2 f_equal.
      unfold contribution. rewrite Hs0, Hc0.
      destruct (decide (s0 = s /\ c0 = c)) as [[-> ->]|Hn].
      * rewrite decide_True by done. by rewrite decide_True.
      * rewrite decide_False by tauto. rewrite decide_False; [done|]. intros [[= ?] [= ?]]. tauto.
    + intros x. rewrite Hs, elem_of_app, list_elem_of_singleton. split.
      * intros [[?| ->]|(r & ? & ?)]; [by left|right; exists row; split; [left|done]|].
        right. exists r. split; [by right|done].
      * intros [?|(r & [->|?]%elem_of_cons & Hr)]; [tauto|left; right; congruence|eauto].
    + intros x. rewrite Hc, elem_of_app, list_elem_of_singleton. split.
      * intros [[?| ->]|(r & ? & ?)]; [by left|right; exists row; split; [left|done]|].
        right. exists r. split; [by right|done].
      * intros [?|(r & [->|?]%elem_of_cons & Hr)]; [tauto|left; right; congruence|eauto].
Qed.

Lemma load_contents rows data servers conns :
  load rows = Ok (data, servers, conns) ->
  (forall f s c, f ∈ chart_fields -> values data f s c = concat (contribution f s c <$> rows)) /\
  (forall x, x ∈ servers <-> exists row, row ∈ rows /\ row_text row "server" = Ok x) /\
  (forall c, c ∈ conns <-> exists row, row ∈ rows /\ row_int row "conns" = Ok c).
Proof.
  unfold load. intros (acc & Hacc & [= <- <- <-])%res_bind_Ok.
  destruct (load_rows_spec _ _ _ Hacc) as (Hv & Hs & Hc). split_and!.
  - intros f s c Hf. by rewrite (Hv f s c Hf).
  - intros x. unfold present. rewrite elem_of_app, elem_of_sorted_set, !list_elem_of_filter, Hs.
    pose proof (not_elem_of_nil x). destruct (decide (x ∈ ORDER)); tauto.
  - intros c. rewrite elem_of_sorted_set, Hc. split; [intros [?%not_elem_of_nil|?]; done|by right].
Qed.

Lemma load_lists rows data servers conns :
  load rows = Ok (data, servers, conns) ->
  NoDup servers /\
  (exists known others, servers = known ++ others /\ known `sublist_of` ORDER /\
     (forall x, x ∈ others -> x ∉ ORDER) /\ StronglySorted str_le others) /\
  StronglySorted Z.lt conns.
Proof.
  intros Hload. unfold load in Hload. apply res_bind_Ok in Hload as (acc & _ & [= <- <- <-]).
  split_and!.
  - unfold present. apply NoDup_app. split_and!.
    + apply NoDup_filter. apply (bool_decide_eq_true_1 _). by vm_compute.
    + intros x [_ Hx]%list_elem_of_filter [Hn _]%elem_of_sorted_set%list_elem_of_filter. done.
    + apply NoDup_sorted_set.
  - unfold present. eexists _, _. split_and!; [done|apply sublist_filter| |].
    + by intros x [? _]%elem_of_sorted_set%list_elem_of_filter.
    + apply sort_by_sorted; apply _.
  - assert (StronglySorted Z.le (sorted_set Z.le (l_conns acc))) as Hss.
    { apply sort_by_sorted; [intros x y; lia|intros x y z; lia]. }
    pose proof (NoDup_sorted_set Z.le (l_conns acc)) as Hnd. revert Hss Hnd.
    generalize (sorted_set Z.le (l_conns acc)). clear.
    induction 1 as [|x l Hs IH Hx]; [constructor|]. intros [Hin Hnd]%NoDup_cons.
    constructor; [by apply IH|]. rewrite Forall_forall in Hx |- *. intros y Hy.
    specialize (Hx y Hy). assert (x <> y) by congruence. lia.
Qed.

(** C39: [load] loses, invents and mixes up nothing: the values kept for a chart,
    a server and a load are exactly the numbers of that column in the rows of
    that server and load, in file order (cells that are not numbers are
    skipped); the servers listed are those of the file, each once, the known
    ones in the order of [ORDER] before the others, which are sorted; the loads
    are those of the file, strictly increasing. *)
Theorem load_spec rows data servers conns :
  load rows = Ok (data, servers, conns) ->
  (forall f s c, f ∈ chart_fields -> values data f s c = concat (contribution f s c <$> rows)) /\
  (forall x, x ∈ servers <-> exists row, row ∈ rows /\ row_text row "server" = Ok x) /\
  NoDup servers /\
  (exists known others, servers = known ++ others /\ known `sublist_of` ORDER /\
     (forall x, x ∈ others -> x ∉ ORDER) /\ StronglySorted str_le others) /\
  (forall c, c ∈ conns <-> exists row, row ∈ rows /\ row_int row "conns" = Ok c) /\
  StronglySorted Z.lt conns.
Proof.
  intros Hload. destruct (load_contents _ _ _ _ Hload) as (Hv & Hs & Hc).
  destruct (load_lists _ _ _ _ Hload) as (Hnd & Hord & Hss). by split_and!.
Qed.

(** Two servers, the known one second, and a cell that is not a number. *)
Definition demo_row (server conns p50 : string) : csv_row :=
  [("server", Some server); ("conns", Some conns); ("p50_ms", Some p50)].
Definition demo_rows : list csv_row :=
  [demo_row "zig" "200" "1.5"; demo_row "go" "100" "2"; demo_row "zig" "200" "n/a"; demo_row "zig" "200" "4"].
Definition demo_loaded : table * list string * list Z :=
  match load demo_rows with Ok l => l | Raise _ => ([], [], []) end.

Lemma load_spec_witness :
  demo_loaded.1.2 = ["go"; "zig"] /\ demo_loaded.2 = [100; 200] /\
  values demo_loaded.1.1 "p50_ms" "zig" 200 = concat (contribution "p50_ms" "zig" 200 <$> demo_rows) /\
  length (values demo_loaded.1.1 "p50_ms" "zig" 200) = 2%nat.
Proof.
  split_and!; [vm_compute; reflexivity..| |vm_compute; reflexivity].
  apply (load_spec demo_rows demo_loaded.1.1 demo_loaded.1.2 demo_loaded.2); [vm_compute; reflexivity|].
  apply (bool_decide_eq_true_1 _). vm_compute. reflexivity.
Defined.

(** A short line, which leaves the column of a chart at [None], is not passed
    over like a cell that is not a number: [float(None)] is a [TypeError], and
    the whole report fails. *)
Lemma add_values_short row s c fields data f :
  f ∈ fields -> dict_get row f = Some None ->
  exists e, res_foldl (add_value row s c) data fields = Raise e.
Proof.
  intros Hin Hget. revert data. induction fields as [|f' fields IH]; intros data; [by apply not_elem_of_nil in Hin|].
  cbn [res_foldl]. apply elem_of_cons in Hin as [<-|Hin]; [|specialize (IH Hin)].
  - exists TypeError. unfold add_value, row_float, row_text, dict_index. by rewrite Hget.
  - destruct (add_value row s c data f') as [data'|e]; [apply IH|by exists e].
Qed.

Lemma load_row_short acc row f :
  f ∈ chart_fields -> dict_get row f = Some None -> exists e, load_row acc row = Raise e.
Proof.
  intros Hf Hget. unfold load_row.
  destruct (row_text row "server") as [s|e]; cbn [mbind res_bind]; [|by exists e].
  destruct (row_int row "conns") as [c|e]; cbn [mbind res_bind]; [|by exists e].
  destruct (add_values_short row s c chart_fields (l_data acc) f Hf Hget) as [e ->]. by exists e.
Qed.

(** A report is never made from a file with a line cut short: if some row
    leaves a chart's column at [None], [load] raises. *)
Theorem load_short_row rows row f :
  row ∈ rows -> f ∈ chart_fields -> dict_get row f = Some None -> exists e, load rows = Raise e.
Proof.
  intros Hrow Hf Hget. unfold load.
  assert (forall acc, exists e, res_foldl load_row acc rows = Raise e) as Hall.
  { induction rows as [|row' rows IH]; intros acc; [by apply not_elem_of_nil in Hrow|].
    cbn [res_foldl]. apply elem_of_cons in Hrow as [<-|Hrow].
    - destruct (load_row_short acc row f Hf Hget) as [e ->]. by exists e.
    - destruct (load_row acc row') as [acc'|e]; [by apply IH|by exists e]. }
  destruct (Hall (mkLoaded [] [] [])) as [e ->]. by exists e.
Qed.

Lemma load_short_row_witness :
  exists e, load [demo_row "go" "100" "2"; ("p99_ms", None) :: demo_row "go" "200" "3"] = Raise e.
Proof.
  apply (load_short_row _ (("p99_ms", None) :: demo_row "go" "200" "3") "p99_ms").
  - right. left.
  - apply (bool_decide_eq_true_1 _). vm_compute. reflexivity.
  - reflexivity.
Defined.

(** ** The order of floats *)

Definition is_number (x : float) : Prop := x <> S754_nan.

(** Canonical position of a number: sign class, then exponent and mantissa,
    reversed for negative numbers. *)
Definition rank (x : float) : Z * Z * Z :=
  match x with
  | S754_infinity true => (-2, 0, 0)
  | S754_finite true m e => (-1, - e, - Z.pos m)
  | S754_zero _ | S754_nan => (0, 0, 0)
  | S754_finite false m e => (1, e, Z.pos m)
  | S754_infinity false => (2, 0, 0)
  end.

Definition lex (a b : Z * Z * Z) : Prop :=
  let '(a1, a2, a3) := a in let '(b1, b2, b3) := b in
  a1 < b1 \/ (a1 = b1 /\ (a2 < b2 \/ (a2 = b2 /\ a3 <= b3))).

Lemma f_le_rank x y : is_number x -> is_number y -> f_le x y <-> lex (rank x) (rank y).
Proof.
  unfold is_number, f_le, fle, SFleb, lex.
  destruct x as [s1|[]| |[] m1 e1], y as [s2|[]| |[] m2 e2]; intros Hx Hy; try done; cbn.
  all: try (split; [intros; lia|done]).
  all: try (split; [done|intros; lia]).
  - destruct (Z.compare_spec e1 e2) as [->|?|?]; cbn; [|split; intros; try done; lia..].
    change (Pos.compare_cont Eq m1 m2) with (m1 ?= m2)%positive.
    destruct (Pos.compare_spec m1 m2) as [->|?|?]; cbn; split; intros; try done; lia.
  - destruct (Z.compare_spec e1 e2) as [->|?|?]; cbn; [|split; intros; try done; lia..].
    change (Pos.compare_cont Eq m1 m2) with (m1 ?= m2)%positive.
    destruct (Pos.compare_spec m1 m2) as [->|?|?]; cbn; split; intros; try done; lia.
Qed.

Lemma f_le_total x y : is_number x -> is_number y -> f_le x y \/ f_le y x.
Proof.
  intros Hx Hy. rewrite !f_le_rank by done. unfold lex.
  destruct (rank x) as [[a1 a2] a3], (rank y) as [[b1 b2] b3]. lia.
Qed.

Lemma SFcompare_swap x y : SFcompare y x = CompOpp <$> SFcompare x y.
Proof.
  destruct x as [s1|[]| |[] m1 e1], y as [s2|[]| |[] m2 e2]; try done; cbn;
    rewrite (Z.compare_antisym e1 e2); destruct (Z.compare_spec e1 e2) as [->|?|?]; try done; cbn;
    change (Pos.compare_cont Eq ?a ?b) with (a ?= b)%positive; rewrite (Pos.compare_antisym m1 m2);
    by destruct (m1 ?= m2)%positive.
Qed.

Lemma flt_le x y : flt x y = true -> f_le x y.
Proof. unfold flt, f_le, fle, SFltb, SFleb. by destruct (SFcompare x y) as [[]|]. Qed.

Lemma flt_false x y : is_number x -> is_number y -> flt x y = false -> f_le y x.
Proof.
  intros Hx Hy. destruct (f_le_total x y Hx Hy) as [H|H]; [|done]. revert H.
  unfold f_le, fle, flt, SFleb, SFltb. rewrite (SFcompare_swap x y). by destruct (SFcompare x y) as [[]|].
Qed.

Lemma f_le_trans x y z :
  is_number x -> is_number y -> is_number z -> f_le x y -> f_le y z -> f_le x z.
Proof.
  intros Hx Hy Hz. rewrite !f_le_rank by done. unfold lex.
  destruct (rank x) as [[a1 a2] a3], (rank y) as [[b1 b2] b3], (rank z) as [[c1 c2] c3]. lia.
Qed.

(** ** Medians *)

Lemma sorted_floats vals : Forall is_number vals -> StronglySorted f_le (sort_by f_le vals).
Proof. apply (sort_by_sorted_on f_le is_number); [apply f_le_total|apply f_le_trans]. Qed.

Lemma f_le_refl x : is_number x -> f_le x x.
Proof. intros Hx. by destruct (f_le_total x x Hx Hx). Qed.

Lemma sorted_floats_lookup vals i j x y :
  Forall is_number vals -> (i <= j)%nat ->
  sort_by f_le vals !! i = Some x -> sort_by f_le vals !! j = Some y -> f_le x y.
Proof.
  intros Hv Hij Hi Hj. destruct (decide (i = j)) as [->|Hne].
  - assert (x = y) as -> by congruence. apply f_le_refl. rewrite Forall_forall in Hv. apply Hv.
    apply (elem_of_sort_by f_le). by eapply list_elem_of_lookup_2.
  - pose proof (sorted_floats vals Hv) as Hs. revert i j Hij Hne Hi Hj.
    induction Hs as [|z l Hs IH Hz]; intros i j Hij Hne Hi Hj; [done|].
    destruct i as [|i], j as [|j]; cbn in *; [done| |lia|by apply (IH i j); [lia|congruence|..]].
    simplify_eq. rewrite Forall_forall in Hz. by eapply Hz, list_elem_of_lookup_2.
Qed.

Definition at_most (a : float) (vals : list float) : nat := length (filter (fun v => f_le v a) vals).
Definition at_least (a : float) (vals : list float) : nat := length (filter (fun v => f_le a v) vals).

Lemma filter_length_app {A} (P : A -> Prop) `{!forall x, Decision (P x)} l1 l2 :
  (Forall P l1 -> length l1 <= length (filter P (l1 ++ l2)))%nat /\
  (Forall P l2 -> length l2 <= length (filter P (l1 ++ l2)))%nat.
Proof.
  rewrite filter_app, length_app.
  assert (forall k, Forall P k -> filter P k = k) as Hall.
  { induction 1 as [|x k Hx Hk IH]; [done|]. by rewrite filter_cons_True, IH by done. }
  split; intros Hk%Hall; rewrite Hk; lia.
Qed.

Lemma at_most_sorted vals i a :
  Forall is_number vals -> sort_by f_le vals !! i = Some a -> (S i <= at_most a vals)%nat.
Proof.
  intros Hv Hi. unfold at_most. rewrite <- (sort_by_Permutation f_le vals).
  assert (length (take (S i) (sort_by f_le vals)) = S i) as Hl.
  { rewrite length_take. apply lookup_lt_Some in Hi. lia. }
  rewrite <- Hl at 1. rewrite <- (take_drop (S i) (sort_by f_le vals)) at 2.
  apply filter_length_app.
  apply Forall_lookup. intros j x [Hj Hlt]%lookup_take_Some.
  by apply (sorted_floats_lookup vals j i); [|lia|..].
Qed.

Lemma at_least_sorted vals i a :
  Forall is_number vals -> sort_by f_le vals !! i = Some a -> (length vals - i <= at_least a vals)%nat.
Proof.
  intros Hv Hi. unfold at_least. rewrite <- (sort_by_Permutation f_le vals) at 2.
  rewrite <- (length_sort_by f_le vals), <- (length_drop (sort_by f_le vals) i).
  rewrite <- (take_drop i (sort_by f_le vals)) at 2. apply filter_length_app.
  apply Forall_lookup. intros j x Hj. rewrite lookup_drop in Hj.
  by apply (sorted_floats_lookup vals i (i + j)); [|lia|..].
Qed.

(** The median of a non-empty list of numbers is the middle one or, of an
    even number, the mean of the two middle ones: elements [a <= b] of the list
    such that at least half of the values are at most [a] and at least half at
    least [b]; it never raises. *)
Lemma median_spec vals :
  vals <> [] -> Forall is_number vals ->
  exists a b m,
    a ∈ vals /\ b ∈ vals /\ f_le a b /\
    median vals = Ok m /\
    (if Nat.odd (length vals) then a = b /\ m = a
     else (two ← f_of_Z 2; fdiv (fadd a b) two) = Ok m) /\
    (length vals <= 2 * at_most a vals)%nat /\ (length vals <= 2 * at_least b vals)%nat.
Proof.
  intros Hne Hv. unfold median. rewrite length_sort_by.
  assert (0 < length vals)%nat as Hpos by (destruct vals; cbn; [done|lia]).
  assert (forall i, (i < length vals)%nat -> exists a, sort_by f_le vals !! i = Some a /\ a ∈ vals) as Hget.
  { intros i Hi. destruct (lookup_lt_is_Some_2 (sort_by f_le vals) i) as [a Ha]; [by rewrite length_sort_by|].
    exists a. split; [done|]. apply (elem_of_sort_by f_le). by eapply list_elem_of_lookup_2. }
  destruct (length vals) as [|n] eqn:Hn; [lia|]. rewrite <- Hn in *. clear Hpos.
  pose proof (Nat.div_mod (length vals) 2 ltac:(done)) as Hdm.
  pose proof (Nat.mod_upper_bound (length vals) 2 ltac:(done)) as Hmod.
  destruct (Nat.odd (length vals)) eqn:Hodd.
  - apply Nat.odd_spec in Hodd as [k Hk].
    destruct (Hget (length vals / 2)%nat) as (a & Ha & Hin); [lia|]. exists a, a, a. rewrite Ha.
    pose proof (at_most_sorted vals _ a Hv Ha). pose proof (at_least_sorted vals _ a Hv Ha).
    split_and!; [done|done| |done|done|done|lia|lia].
    apply f_le_refl. rewrite Forall_forall in Hv. by apply Hv.
  - assert (Nat.Even (length vals)) as [k Hk].
    { apply Nat.even_spec. rewrite <- Nat.negb_odd, Hodd. done. }
    destruct (Hget (length vals / 2 - 1)%nat) as (a & Ha & Hina); [lia|].
    destruct (Hget (length vals / 2)%nat) as (b & Hb & Hinb); [lia|].
    pose proof (at_most_sorted vals _ a Hv Ha). pose proof (at_least_sorted vals _ b Hv Hb).
    rewrite Ha, Hb. cbn [res_of_option mbind res_bind].
    exists a, b. eexists. split_and!; [done|done| |done|done|lia|lia].
    by apply (sorted_floats_lookup vals (length vals / 2 - 1) (length vals / 2)); [|lia|..].
Qed.

Definition demo_float (z : Z) : float := match f_of_Z z with Ok f => f | Raise _ => f_zero end.

Lemma median_spec_witness :
  exists a b m,
    a ∈ demo_float <$> [3; 1; 4; 2] /\ b ∈ demo_float <$> [3; 1; 4; 2] /\
    median (demo_float <$> [3; 1; 4; 2]) = Ok m /\ (two ← f_of_Z 2; fdiv (fadd a b) two) = Ok m.
Proof.
  destruct (median_spec (demo_float <$> [3; 1; 4; 2])) as (a & b & m & Ha & Hb & _ & Hm & Hmean & _).
  - vm_compute. discriminate.
  - repeat constructor; vm_compute; discriminate.
  - by exists a, b, m.
Defined.

(** ** The charts' lines *)

Lemma median_ok vals : vals <> [] -> exists m, median vals = Ok m.
Proof.
  intros Hne. unfold median. rewrite length_sort_by.
  assert (forall i, (i < length vals)%nat -> exists a, sort_by f_le vals !! i = Some a) as Hget.
  { intros i Hi. apply lookup_lt_is_Some_2. by rewrite length_sort_by. }
  destruct (length vals) as [|n] eqn:Hn; [by destruct vals|].
  pose proof (Nat.div_lt (S n) 2 ltac:(lia) ltac:(lia)).
  destruct (Hget (S n / 2)%nat) as [a Ha]; [lia|]. destruct (Hget (S n / 2 - 1)%nat) as [b Hb]; [lia|].
  rewrite Ha, Hb. destruct (Nat.odd (S n)); [by exists a|]. eexists. reflexivity.
Qed.

(** The point of a line at load [c], if there are values. *)
Definition point (data : table) (field s : string) (c : Z) : option (Z * float) :=
  match values data field s c with
  | [] => None
  | vals => match median vals with Ok m => Some (c, m) | Raise _ => None end
  end.

Lemma series_points_eq data field s conns :
  series_points data field s conns = Ok (omap (point data field s) conns).
Proof.
  induction conns as [|c conns IH]; [done|]. cbn [series_points].
  change (omap (point data field s) (c :: conns)) with
    (match point data field s c with Some p => p :: omap (point data field s) conns
     | None => omap (point data field s) conns end).
  unfold point at 1. destruct (values data field s c) as [|v vals] eqn:Hv; [done|].
  destruct (median_ok (v :: vals)) as [m Hm]; [done|]. rewrite Hm. cbn [mbind res_bind]. by rewrite IH.
Qed.

Lemma series_lines_spec data field servers conns by_server :
  exists lines, series_lines data field servers conns by_server = Ok lines /\
    (NoDup (dict_keys by_server) -> NoDup (dict_keys lines)) /\
    forall s, dict_get lines s =
      if decide (s ∈ servers /\ omap (point data field s) conns <> [])
      then Some (omap (point data field s) conns) else dict_get by_server s.
Proof.
  revert by_server. induction servers as [|s0 servers IH]; intros by_server; cbn [series_lines].
  - exists by_server. split_and!; [done..|]. intros s. rewrite decide_False; [done|].
    by intros [[]%not_elem_of_nil _].
  - rewrite series_points_eq. cbn [mbind res_bind].
    destruct (IH (match omap (point data field s0) conns with [] => by_server
      | _ => dict_set by_server s0 (omap (point data field s0) conns) end)) as (lines & Hl & Hnd & Hget).
    exists lines. split_and!; [exact Hl| |].
    { intros Hb. apply Hnd. destruct (omap _ _); [done|by apply dict_set_NoDup]. }
    intros s. rewrite Hget.
    destruct (decide (s ∈ servers /\ omap (point data field s) conns <> [])) as [[Hin Hne]|Hn].
    + rewrite decide_True; [done|]. split; [by right|done].
    + destruct (decide (s = s0)) as [->|Hne].
      * destruct (omap (point data field s0) conns) as [|p pts] eqn:Hp.
        -- by rewrite decide_False by tauto.
        -- rewrite dict_get_set_eq. rewrite decide_True; [done|]. split; [left|done].
      * rewrite decide_False by (rewrite elem_of_cons; tauto).
        destruct (omap (point data field s0) conns); [done|]. by rewrite dict_get_set_ne by congruence.
Qed.

(** The charts with their lines, each a dictionary with its keys once. *)
Lemma series_contents data servers conns :
  exists out, series_json data servers conns = Ok out /\
    dict_keys out = chart_fields /\
    forall f, f ∈ chart_fields ->
      exists lines, dict_get out f = Some lines /\ NoDup (dict_keys lines) /\
        forall s, dict_get lines s =
          let pts := omap (point data f s) conns in
          if decide (s ∈ servers /\ pts <> []) then Some pts else None.
Proof.
  unfold series_json.
  assert (forall fields out, NoDup (dict_keys out ++ fields) ->
    exists out', res_foldl (fun out field => by_server ← series_lines data field servers conns [];
                             Ok (dict_set out field by_server)) out fields = Ok out' /\
      dict_keys out' = dict_keys out ++ fields /\
      (forall f, f ∉ fields -> dict_get out' f = dict_get out f) /\
      forall f, f ∈ fields -> exists lines, dict_get out' f = Some lines /\ NoDup (dict_keys lines) /\
        forall s, dict_get lines s =
          let pts := omap (point data f s) conns in
          if decide (s ∈ servers /\ pts <> []) then Some pts else None) as Hall.
  { induction fields as [|f0 fields IH]; intros out Hnd.
    - exists out. rewrite app_nil_r. split_and!; [done..|]. by intros f []%not_elem_of_nil.
    - cbn [res_foldl]. destruct (series_lines_spec data f0 servers conns []) as (lines & Hl & Hndl & Hget).
      rewrite Hl. cbn [mbind res_bind].
      assert (f0 ∉ dict_keys out) as Hf0.
      { intros Hin. apply NoDup_app in Hnd as (_ & Hd & _). by apply (Hd f0 Hin); left. }
      assert (dict_keys (dict_set out f0 lines) = dict_keys out ++ [f0]) as Hkeys.
      { rewrite dict_keys_set_new by done. unfold dict_keys. by rewrite fmap_app. }
      destruct (IH (dict_set out f0 lines)) as (out' & Hr & Hk & Hother & Hin').
      { rewrite Hkeys, <- app_assoc. exact Hnd. }
      exists out'. split_and!; [done| | |].
      + by rewrite Hk, Hkeys, <- app_assoc.
      + intros f [Hne Hnf]%not_elem_of_cons. rewrite Hother by done. by apply dict_get_set_ne.
      + intros f [->|Hf]%elem_of_cons; [|by apply Hin'].
        destruct (decide (f0 ∈ fields)); [by apply Hin'|].
        exists lines. rewrite Hother, dict_get_set_eq by done. split_and!; [done|apply Hndl; constructor|exact Hget]. }
  destruct (Hall chart_fields [] chart_fields_NoDup) as (out & H1 & H2 & _ & H3).
  by exists out.
Qed.

(** The data of the charts: [series_json] never raises; for every chart and
    every listed server, its line has one point for each listed load with
    values, in order, at the median of these values; servers without a value
    have no line, and there are no others. *)
Theorem series_spec data servers conns :
  exists out, series_json data servers conns = Ok out /\
    dict_keys out = chart_fields /\
    forall f, f ∈ chart_fields ->
      exists lines, dict_get out f = Some lines /\
        forall s, dict_get lines s =
          let pts := omap (point data f s) conns in
          if decide (s ∈ servers /\ pts <> []) then Some pts else None.
Proof.
  destruct (series_contents data servers conns) as (out & H1 & H2 & H3). exists out. split_and!; [done..|].
  intros f Hf. destruct (H3 f Hf) as (lines & Hl & _ & Hget). by exists lines.
Qed.

(** ** The timeline *)

(** [data[key][trial]] *)
Definition run_rows (data : timeline) (key : string * Z) (t : Z) : list csv_row :=
  dict_default (dict_default data key []) t [].

(** The rows of the file that belong to a run. *)
Definition belongs (s : string) (c t : Z) (row : csv_row) : Prop :=
  row_text row "server" = Ok s /\ row_int row "conns" = Ok c /\ row_int row "trial" = Ok t.

#[export] Instance belongs_dec s c t row : Decision (belongs s c t row).
Proof. unfold belongs. apply _. Defined.

Lemma timeline_fold rows data data' :
  res_foldl timeline_add data rows = Ok data' ->
  forall s c t, run_rows data' (s, c) t = run_rows data (s, c) t ++ filter (belongs s c t) rows.
Proof.
  revert data. induction rows as [|row rows IH]; intros data; cbn [res_foldl].
  - intros [= ->] s c t. by rewrite app_nil_r.
  - intros (data1 & H1 & H2)%res_bind_Ok s c t. rewrite (IH data1 H2).
    unfold timeline_add in H1. apply res_bind_Ok in H1 as (s0 & Hs & H1).
    apply res_bind_Ok in H1 as (c0 & Hc & H1). apply res_bind_Ok in H1 as (t0 & Ht & [= <-]).
    unfold run_rows. rewrite filter_cons, dict_default_set.
    destruct (decide ((s0, c0) = (s, c))) as [[= -> ->]|Hne].
    + rewrite dict_default_set. destruct (decide (t0 = t)) as [->|Hnt].
      * rewrite decide_True by done. by rewrite <- app_assoc.
      * rewrite decide_False; [done|]. intros (_ & _ & Ht'). congruence.
    + rewrite decide_False; [done|]. intros (Hs' & Hc' & _). congruence.
Qed.

Lemma dict_update_all_get {K V W} `{EqDecision K} (f : V -> res W) (d : dict K V) d' k :
  dict_update_all f d = Ok d' ->
  match dict_get d k with
  | Some v => exists w, f v = Ok w /\ dict_get d' k = Some w
  | None => dict_get d' k = None
  end.
Proof.
  unfold dict_update_all. rewrite res_map_Ok.
  induction 1 as [|[k0 v0] [k1 v1] d d' H _ IH]; [done|].
  apply res_bind_Ok in H as (w & Hw & [= <- <-]). cbn [fst snd] in *.
  cbn. case_decide as Hk; [|exact IH]. by exists w.
Qed.

Lemma sort_all_rows data data' key t :
  sort_all data = Ok data' -> sort_rows (run_rows data key t) = Ok (run_rows data' key t).
Proof.
  intros Hs. apply (dict_update_all_get _ _ _ key) in Hs. unfold run_rows, dict_default at 2 4.
  destruct (dict_get data key) as [tr|]; [|by rewrite Hs].
  destruct Hs as (tr' & Htr & ->). apply (dict_update_all_get _ _ _ t) in Htr.
  unfold dict_default. destruct (dict_get tr t) as [rows|]; [|by rewrite Htr].
  by destruct Htr as (rows' & Hr & ->).
Qed.

Lemma zip_keys keys (rows : list csv_row) :
  Forall2 (fun r k => row_int r "t_s" = Ok k) rows keys ->
  Forall (fun kr : Z * csv_row => row_int kr.2 "t_s" = Ok kr.1) (zip keys rows) /\
  (zip keys rows).*2 = rows.
Proof.
  induction 1 as [|r k rows keys Hk _ [IH1 IH2]]; [by split|].
  cbn. split; [by constructor|]. f_equal. exact IH2.
Qed.

Lemma filter_snd (P : csv_row -> Prop) `{!forall r, Decision (P r)} (l : list (Z * csv_row)) :
  filter P (l.*2) = (filter (fun kr => P kr.2) l).*2.
Proof.
  induction l as [|[k r] l IH]; [done|]. cbn [fmap list_fmap snd]. rewrite !filter_cons. cbn [snd].
  case_decide; cbn; [f_equal|]; exact IH.
Qed.

Lemma sort_rows_spec rows sorted :
  sort_rows rows = Ok sorted ->
  sorted ≡ₚ rows /\
  StronglySorted (fun r1 r2 => exists k1 k2, row_int r1 "t_s" = Ok k1 /\ row_int r2 "t_s" = Ok k2 /\ k1 <= k2)
    sorted /\
  forall k, filter (fun r => row_int r "t_s" = Ok k) sorted = filter (fun r => row_int r "t_s" = Ok k) rows.
Proof.
  unfold sort_rows. intros (keys & Hk & [= <-])%res_bind_Ok. apply res_map_Ok in Hk.
  destruct (zip_keys _ _ Hk) as [Hall Hsnd]. set (l := zip keys rows) in *.
  assert (Forall (fun kr : Z * csv_row => row_int kr.2 "t_s" = Ok kr.1) (sort_by key_le l)) as Hall'
    by by rewrite (sort_by_Permutation key_le).
  split_and!.
  - by rewrite (sort_by_Permutation key_le l), Hsnd.
  - pose proof (sort_by_sorted key_le l) as Hs. revert Hall'.
    induction Hs as [|[k r] l' Hs IH Hle]; [constructor|]. intros [Hr Hall']%Forall_cons.
    cbn in *. constructor; [by apply IH|]. apply Forall_fmap.
    rewrite Forall_forall in Hle, Hall' |- *. intros [k2 r2] Hin. exists k, k2.
    split_and!; [done|by apply (Hall' _ Hin)|by apply (Hle _ Hin)].
  - intros k. rewrite <- Hsnd. rewrite !filter_snd.
    assert (forall l', Forall (fun kr : Z * csv_row => row_int kr.2 "t_s" = Ok kr.1) l' ->
      filter (fun kr : Z * csv_row => row_int kr.2 "t_s" = Ok k) l' = filter (fun kr => kr.1 = k) l') as Heq.
    { induction 1 as [|[k0 r] l' Hr _ IH]; [done|]. rewrite !filter_cons. cbn [fst snd] in *. rewrite IH.
      destruct (decide (k0 = k)) as [->|Hne]; [by rewrite decide_True|].
      rewrite decide_False; [done|]. congruence. }
    rewrite !Heq by done. f_equal. apply filter_sort_by.
    intros y z Hy Hz. unfold key_le. lia.
Qed.

(** The rows kept for a run (server, load, trial) are exactly the file's rows
    of that run, sorted by time; rows of the same second stay in file order. *)
Theorem load_timeline_spec rows data s c t :
  load_timeline rows = Ok data ->
  let kept := run_rows data (s, c) t in
  let mine := filter (belongs s c t) rows in
  kept ≡ₚ mine /\
  StronglySorted (fun r1 r2 => exists k1 k2, row_int r1 "t_s" = Ok k1 /\ row_int r2 "t_s" = Ok k2 /\ k1 <= k2)
    kept /\
  forall k, filter (fun r => row_int r "t_s" = Ok k) kept = filter (fun r => row_int r "t_s" = Ok k) mine.
Proof.
  unfold load_timeline. intros (data0 & Hf & Hs)%res_bind_Ok.
  apply (sort_all_rows _ _ (s, c) t) in Hs. rewrite (timeline_fold _ _ _ Hf s c t) in Hs.
  apply (sort_rows_spec _ _ Hs).
Qed.

Definition demo_tl_row (t p50 : string) : csv_row :=
  [("server", Some "go"); ("conns", Some "100"); ("trial", Some "1"); ("t_s", Some t); ("p50_ms", Some p50)].
Definition demo_tl_rows : list csv_row :=
  [demo_tl_row "2" "1.0"; demo_tl_row "1" "2.0"; demo_tl_row "2" "3.0"].
Definition demo_timeline : timeline :=
  match load_timeline demo_tl_rows with Ok d => d | Raise _ => [] end.

Lemma load_timeline_spec_witness :
  run_rows demo_timeline ("go", 100) 1 =
    [demo_tl_row "1" "2.0"; demo_tl_row "2" "1.0"; demo_tl_row "2" "3.0"] /\
  run_rows demo_timeline ("go", 100) 1 ≡ₚ filter (belongs "go" 100 1) demo_tl_rows.
Proof.
  split; [vm_compute; reflexivity|].
  apply (load_timeline_spec demo_tl_rows demo_timeline "go" 100 1). vm_compute. reflexivity.
Defined.
