(* ===== verification/Html.v ===== *)
(** * HTML: how a page is read

    [run] is the tokenizer of the HTML standard, one state and one character at a
    time, as far as the pages of the report need it: tags with attributes in
    double quotes or without a value, the doctype, and the elements whose
    content is text.  A text that needs more ends in [SLost].  [tokenize] reads
    a whole page.

    [reads] composes along texts; [plain] texts are inert. *)

From Stdlib Require Import Ascii String ZArith Lia.
From S2P Require Import Prelude PyText PyNum.

Open Scope string_scope.
Open Scope list_scope.

Notation attrs := (list (string * string)).

(** A tag, with its attributes as they are written; the text of an element
    that has only text. *)
Inductive token :=
  | Tag (close : bool) (name : string) (al : attrs)
  | RawText (name text : string).

(** The states, in the order of the standard: data; after [<]; in [<!...>]; in
    the name of a tag; before, in and after an attribute's name; in its value;
    in the text of an element without tags, with what may be its end tag. *)
Inductive tstate :=
  | SData
  | STagOpen
  | SMarkup (first : bool)
  | STagName (close : bool) (name : string)
  | SBefore (close : bool) (name : string) (al : attrs)
  | SAttr (close : bool) (name : string) (al : attrs) (k : string)
  | SEq (close : bool) (name : string) (al : attrs) (k : string)
  | SValue (close : bool) (name : string) (al : attrs) (k v : string)
  | SRaw (name : string) (acc : list ascii) (seen : string)
  | SLost.

Definition push (s : string) (c : ascii) : string := s +:+ String c "".

Definition html_space (c : ascii) : bool :=
  Ascii.eqb c " " || Ascii.eqb c "009" || Ascii.eqb c "010" || Ascii.eqb c "012" || Ascii.eqb c "013".

Definition letter (c : ascii) : bool :=
  let n := ascii_code (lower c) in (97 <=? n)%Z && (n <=? 122)%Z.

Definition dq : ascii := "034".

(** Elements whose content is not tags: script and style, and what is read as
    text where scripts run. *)
Definition raw_names : list string :=
  ["script"; "style"; "title"; "textarea"; "xmp"; "iframe"; "noembed"; "noframes"; "noscript"].

Definition emit (close : bool) (name : string) (al : attrs) : tstate * list token :=
  (if negb close && bool_decide (name ∈ raw_names) then SRaw name [] ""
   else if negb close && bool_decide (name = "plaintext") then SLost
   else SData, [Tag close name al]).

(** The content of an element, collected in reverse. *)
Definition raw_text (acc : list ascii) : string := string_of_list_ascii (rev acc).

(** [<!--] changes how a script is read. *)
Definition comment_opened (acc : list ascii) : bool :=
  match acc with
  | d1 :: d2 :: b :: l :: _ => Ascii.eqb d1 "-" && Ascii.eqb d2 "-" && Ascii.eqb b "!" && Ascii.eqb l "<"
  | _ => false
  end.

Definition raw_step (name : string) (acc : list ascii) (seen : string) (c : ascii) : tstate * list token :=
  let target := "</" +:+ name in
  if bool_decide (str_lower seen = target) && (Ascii.eqb c ">" || html_space c || Ascii.eqb c "/") then
    (if Ascii.eqb c ">" then (SData, [RawText name (raw_text acc); Tag true name []])
     else (SBefore true name [], [RawText name (raw_text acc)]))
  else if startswith target (push (str_lower seen) (lower c)) then (SRaw name acc (push seen c), [])
  else
    let acc := rev (list_ascii_of_string seen) ++ acc in
    if Ascii.eqb c "<" then (SRaw name acc "<", [])
    else if comment_opened (c :: acc) then (SLost, [])
    else (SRaw name (c :: acc) "", []).

Definition step (st : tstate) (c : ascii) : tstate * list token :=
  match st with
  | SData => (if Ascii.eqb c "<" then STagOpen else SData, [])
  | STagOpen =>
      (if Ascii.eqb c "!" then SMarkup true
       else if Ascii.eqb c "/" then STagName true ""
       else if Ascii.eqb c "<" then STagOpen
       else if Ascii.eqb c "?" then SLost
       else if letter c then STagName false (String (lower c) "")
       else SData, [])
  | SMarkup first =>
      (if Ascii.eqb c ">" then SData
       else if first && (Ascii.eqb c "-" || Ascii.eqb c "[") then SLost else SMarkup false, [])
  | STagName close name =>
      if bool_decide (name = "") && negb (letter c) then (SLost, [])
      else if html_space c || Ascii.eqb c "/" then (SBefore close name [], [])
      else if Ascii.eqb c ">" then emit close name []
      else (STagName close (push name (lower c)), [])
  | SBefore close name al =>
      if html_space c || Ascii.eqb c "/" then (SBefore close name al, [])
      else if Ascii.eqb c ">" then emit close name al
      else if Ascii.eqb c "=" then (SLost, [])
      else (SAttr close name al (String (lower c) ""), [])
  | SAttr close name al k =>
      if html_space c || Ascii.eqb c "/" then (SBefore close name (al ++ [(k, "")]), [])
      else if Ascii.eqb c ">" then emit close name (al ++ [(k, "")])
      else if Ascii.eqb c "=" then (SEq close name al k, [])
      else (SAttr close name al (push k (lower c)), [])
  | SEq close name al k => (if Ascii.eqb c dq then SValue close name al k "" else SLost, [])
  | SValue close name al k v =>
      (if Ascii.eqb c dq then SBefore close name (al ++ [(k, v)]) else SValue close name al k (push v c), [])
  | SRaw name acc seen => raw_step name acc seen c
  | SLost => (SLost, [])
  end.

Fixpoint run (st : tstate) (s : string) : tstate * list token :=
  match s with
  | "" => (st, [])
  | String c s => let '(st1, ts1) := step st c in let '(st2, ts2) := run st1 s in (st2, ts1 ++ ts2)
  end.

(** The tags and texts of a page. *)
Definition tokenize (html : string) : option (list token) :=
  match run SData html with (SData, ts) => Some ts | _ => None end.

Example tokenize_ex :
  tokenize "<!doctype html><p A='x'>" = None /\ tokenize "a < b<br/>" = Some [Tag false "br" []] /\
  tokenize "<TITLE>a<b></TITLE><i hidden>" =
    Some [Tag false "title" []; RawText "title" "a<b>"; Tag true "title" []; Tag false "i" [("hidden", "")]] /\
  tokenize "<script>a</scr</script >" = Some [Tag false "script" []; RawText "script" "a</scr"; Tag true "script" []] /\
  tokenize "<script><!--</script>" = None /\ tokenize "<p" = None.
Proof. vm_compute. repeat split; reflexivity. Qed.

(** ** Reading text by text *)

(** [reads st s st' ts]: read in state [st], [s] leads to [st'] and yields
    [ts]. *)
Definition reads (st : tstate) (s : string) (st' : tstate) (ts : list token) : Prop := run st s = (st', ts).

Lemma reads_app st a st1 ts1 b st2 ts2 :
  reads st a st1 ts1 -> reads st1 b st2 ts2 -> reads st (a +:+ b) st2 (ts1 ++ ts2).
Proof.
  unfold reads. revert st ts1. induction a as [|c a IH]; intros st ts1.
  - cbn [run]. intros [= <- <-] Hb. exact Hb.
  - change (String c a +:+ b) with (String c (a +:+ b)). cbn [run]. destruct (step st c) as [st' ts'].
    destruct (run st' a) as [st'' ts''] eqn:Ha. intros [= -> <-] Hb.
    rewrite (IH _ ts'' Ha Hb). by rewrite (assoc_L (++)).
Qed.

Lemma reads_nil st : reads st "" st [].
Proof. done. Qed.

Lemma reads_text s : lacks "<" s = true -> reads SData s SData [].
Proof.
  unfold reads. induction s as [|c s IH]; [done|]. intros [Hc%negb_true_iff Hs]%andb_true_iff. cbn [run step].
  rewrite Hc. by rewrite IH.
Qed.

(** A character of an attribute's name. *)
Definition name_char (c : ascii) : bool :=
  negb (html_space c || Ascii.eqb c "/" || Ascii.eqb c ">" || Ascii.eqb c "=").

Lemma push_app s c t : push s c +:+ t = s +:+ String c t.
Proof. unfold push. by rewrite <- append_assoc. Qed.

Lemma reads_name close name al k s :
  all_chars name_char s = true -> reads (SAttr close name al k) s (SAttr close name al (k +:+ str_lower s)) [].
Proof.
  unfold reads. revert k. induction s as [|c s IH]; intros k; [by rewrite append_nil_r|].
  intros [Hc Hs]%andb_true_iff. cbn [run step str_lower]. unfold name_char in Hc. apply negb_true_iff in Hc.
  apply orb_false_iff in Hc as [Hc H4]. apply orb_false_iff in Hc as [Hc H3]. rewrite Hc, H3, H4.
  rewrite IH by done. by rewrite push_app.
Qed.

Lemma reads_value close name al k v s :
  lacks dq s = true -> reads (SValue close name al k v) s (SValue close name al k (v +:+ s)) [].
Proof.
  unfold reads. revert v. induction s as [|c s IH]; intros v; [by rewrite append_nil_r|].
  intros [Hc%negb_true_iff Hs]%andb_true_iff. cbn [run step]. rewrite Hc, IH by done. by rewrite push_app.
Qed.

(** [ k="v"] *)
Definition attr_text (k v : string) : string :=
  " " +:+ k +:+ "=" +:+ String dq "" +:+ v +:+ String dq "".

Definition name_ok (k : string) : bool := negb (bool_decide (k = "")) && all_chars name_char k.

Lemma reads_attr close name al k v :
  name_ok k = true -> lacks dq v = true ->
  reads (SBefore close name al) (attr_text k v) (SBefore close name (al ++ [(str_lower k, v)])) [].
Proof.
  intros [Hne Hk]%andb_true_iff Hv. unfold attr_text.
  apply (reads_app _ _ (SBefore close name al) [] _ _ []); [done|].
  apply (reads_app _ _ (SAttr close name al (str_lower k)) [] _ _ []).
  { destruct k as [|c k]; [done|]. pose proof Hk as [Hc Hk']%andb_true_iff. unfold reads. cbn [run step str_lower].
    unfold name_char in Hc. apply negb_true_iff in Hc.
    apply orb_false_iff in Hc as [Hc H4]. apply orb_false_iff in Hc as [Hc H3]. rewrite Hc, H3, H4.
    by rewrite (reads_name _ _ _ _ _ Hk'). }
  apply (reads_app _ _ (SEq close name al (str_lower k)) [] _ _ []); [done|].
  apply (reads_app _ _ (SValue close name al (str_lower k) "") [] _ _ []); [done|].
  apply (reads_app _ _ (SValue close name al (str_lower k) v) [] _ _ []); [by apply reads_value|done].
Qed.

Lemma reads_attr_first close name k v :
  name <> "" -> name_ok k = true -> lacks dq v = true ->
  reads (STagName close name) (attr_text k v) (SBefore close name [(str_lower k, v)]) [].
Proof.
  intros Hn Hk Hv. pose proof (reads_attr close name [] k v Hk Hv) as Hr. unfold reads, attr_text in *.
  change (" " +:+ ?t) with (String " " t) in *. cbn [run step] in *.
  rewrite bool_decide_eq_false_2 by done. exact Hr.
Qed.

Lemma reads_eq st s st' ts ts' : reads st s st' ts -> ts = ts' -> reads st s st' ts'.
Proof. by intros H <-. Qed.

(** ** Text without tags *)

(** No [<] among the last three characters. *)
Definition calm (acc : list ascii) : bool := forallb (fun c => negb (Ascii.eqb c "<")) (take 3 acc).

Lemma reads_raw name acc s :
  calm acc = true -> lacks "<" s = true ->
  reads (SRaw name acc "") s (SRaw name (rev (list_ascii_of_string s) ++ acc) "") [].
Proof.
  unfold reads. revert acc. induction s as [|c s IH]; intros acc Ha; [done|].
  intros [Hc%negb_true_iff Hs]%andb_true_iff. cbn [run step list_ascii_of_string rev]. unfold raw_step. cbn [str_lower].
  rewrite bool_decide_eq_false_2 by done. cbn [andb].
  assert (startswith ("</" +:+ name) (push "" (lower c)) = false) as ->.
  { change (push "" (lower c)) with (String (lower c) ""). change ("</" +:+ name) with (String "<" ("/" +:+ name)).
    apply startswith_ne. intros Heq. apply Ascii.eqb_neq in Hc. apply Hc.
    clear -Heq. destruct c as [[] [] [] [] [] [] [] []]; vm_compute in Heq; try discriminate Heq; reflexivity. }
  rewrite Hc. cbn [list_ascii_of_string rev app].
  assert (comment_opened (c :: acc) = false) as ->.
  { unfold calm in Ha. destruct acc as [|d1 [|d2 [|d3 acc]]]; cbn in Ha |- *; try done.
    rewrite !andb_true_iff in Ha. destruct Ha as (_ & _ & H3 & _). apply negb_true_iff in H3. by rewrite H3, !andb_false_r. }
  rewrite IH; [by rewrite <- app_assoc|..|done].
  unfold calm in *. destruct acc as [|d1 [|d2 acc]]; cbn in Ha |- *; rewrite Hc; cbn; try done.
  rewrite !andb_true_iff in Ha. destruct Ha as (-> & -> & _). done.
Qed.
