(* ===== verification/PlotHtml.v ===== *)
(** * The report's markup (runner/plot.py, lines 73-125 and 313-459)

    - [esc], [table_html], [legend_html], [nice_max], [timeline_svg],
      [timeline_body], [saturation_body] are the functions of those names.

    Text is UTF-8.  [quote] puts a double quote on each side, [attr] is an
    attribute of a tag. *)

From Stdlib Require Import Ascii String ZArith Lia SpecFloat.
From S2P Require Import Prelude PyText PyDict PyFloat PyNum PySort PlotData.

Open Scope string_scope.
Open Scope list_scope.
Open Scope Z_scope.

Definition dquote : string := String "034" "".
Definition quote (s : string) : string := dquote +:+ s +:+ dquote.

(** [ k="v"], with the space in front. *)
Definition attr (k v : string) : string := " " +:+ k +:+ "=" +:+ quote v.

Definition concat_str (l : list string) : string := join "" l.

(** ** Escaping, legend and table *)

Definition esc (s : string) : string :=
  replace_char ">"%char "&gt;" (replace_char "<"%char "&lt;" (replace_char "&"%char "&amp;" s)).

Definition swatch (style : string) : string := "<span" +:+ attr "class" "sw" +:+ attr "style" style +:+ "></span>".

Definition series_swatch (s : string) : string :=
  swatch ("background:var(--series-" +:+ str_of_Z (slot s) +:+ ")").

(** The cells of a line of the table, and whether one has a value. *)
Fixpoint table_cells (data : table) (s : string) (c : Z) (charts : list chart) : res (list string * bool) :=
  match charts with
  | [] => Ok ([], false)
  | ch :: charts =>
      match values data (ch_field ch) s c with
      | [] =>
          rest ← table_cells data s c charts;
          Ok ("<td>–</td>" :: rest.1, rest.2)
      | vals =>
          m ← median vals;
          rest ← table_cells data s c charts;
          Ok (("<td>" +:+ ch_fmt ch m +:+ "</td>") :: rest.1, true)
      end
  end.

Definition table_row (s : string) (c : Z) (cells : list string) : string :=
  "<tr" +:+ attr "data-server" (esc s) +:+ "><td>" +:+ series_swatch s +:+ esc s +:+ "</td><td>" +:+
  int_comma c +:+ "</td>" +:+ concat_str cells +:+ "</tr>".

(** The two loops of [table_html], as one over the pairs. *)
Fixpoint table_rows (data : table) (cells : list (string * Z)) : res (list string) :=
  match cells with
  | [] => Ok []
  | (s, c) :: rest =>
      tds ← table_cells data s c CHARTS;
      rows ← table_rows data rest;
      Ok (if tds.2 : bool then table_row s c tds.1 :: rows else rows)
  end.

Definition table_pairs (servers : list string) (all_conns : list Z) : list (string * Z) :=
  concat ((fun s => (fun c => (s, c)) <$> all_conns) <$> servers).

(** The title line of the table. *)
Definition table_head : string :=
  "<thead><tr><th>server</th><th>conns</th>" +:+
  concat_str ((fun ch => "<th>" +:+ esc (ch_title ch) +:+ "</th>") <$> CHARTS) +:+ "</tr></thead>".

Definition table_html (data : table) (servers : list string) (all_conns : list Z) : res string :=
  rows ← table_rows data (table_pairs servers all_conns);
  Ok ("<table>" +:+ table_head +:+ "<tbody>" +:+ concat_str rows +:+ "</tbody></table>").

Definition legend_item (s : string) : string :=
  "<button" +:+ attr "type" "button" +:+ attr "class" "leg" +:+ attr "data-server" (esc s) +:+
  attr "aria-pressed" "true" +:+ ">" +:+ series_swatch s +:+
  "<span" +:+ attr "class" "leg-name" +:+ ">" +:+ esc s +:+ "</span></button>".

Definition legend_html (servers : list string) : string :=
  "<div" +:+ attr "class" "legend" +:+ attr "id" "legend" +:+ ">" +:+ concat_str (legend_item <$> servers) +:+
  "<button" +:+ attr "type" "button" +:+ attr "class" "leg leg-all" +:+ attr "id" "show-all" +:+
  " hidden>show all</button></div>".

(** [os.path.basename] *)
Definition basename (p : string) : string := slice_from (Z.to_nat (rfind_char "/"%char p + 1)) p.

(** [saturation_body] *)
Definition chart_card (i : nat) : string :=
  "<div" +:+ attr "class" "card" +:+ "><div" +:+ attr "id" ("chart-" +:+ str_of_Z (Z.of_nat i)) +:+ "></div></div>".

Definition saturation_body (data : table) (servers : list string) (all_conns : list Z) (src : string)
    : res string :=
  let cards := concat_str (chart_card <$> seq 0 (length CHARTS)) in
  table ← table_html data servers all_conns;
  Ok ("<p" +:+ attr "class" "sub" +:+ ">median over trials · x = offered load (connections) · " +:+
      "source: " +:+ esc (basename src) +:+ "</p>" +:+
      "<p" +:+ attr "class" "sub" +:+ attr "style" "margin-top:-16px" +:+ ">Click a server to hide it — " +:+
      "the axes rescale to what's left.</p>" +:+
      "<noscript><p" +:+ attr "class" "noscript" +:+ ">This tab needs JavaScript to draw the charts. " +:+
      "The data table below is complete.</p></noscript>" +:+
      legend_html servers +:+ cards +:+
      "<details open><summary>Data table</summary>" +:+
      "<div" +:+ attr "class" "card" +:+ ">" +:+ table +:+ "</div></details>").

(** ** The timeline *)

(** Line: column, label, colour. *)
Definition TL_SERIES : list (string * string * string) :=
  [("p50_ms", "p50", "#2a9d5c"); ("p90_ms", "p90", "#8aa32e"); ("p99_ms", "p99", "#eda100");
   ("p999_ms", "p99.9", "#e8663d"); ("max_ms", "max", "#d6453f")].

Definition W : Z := 900.
Definition H : Z := 360.
Definition ML : Z := 72.
Definition MR : Z := 128.
Definition MT : Z := 40.
Definition MB : Z := 52.

(** A Python number that is an [int] or a [float]. *)
Inductive num := NInt (z : Z) | NFloat (f : float).

Definition num_float (n : num) : res float := match n with NInt z => f_of_Z z | NFloat f => Ok f end.

(** [math.floor] of a float. *)
Definition f_floor (x : float) : res Z :=
  t ← f_trunc x;
  match x with
  | S754_finite true m e =>
      Ok (if (0 <=? e) || (Z.pos m mod 2 ^ (- e) =? 0) then t else t - 1)
  | _ => Ok t
  end.

(** ** The order of the cards *)

(** [ORDER + sorted({k[0] for k in tl_data} - set(ORDER))] *)
Definition tl_order (data : timeline) : list string :=
  ORDER ++ sorted_set str_le (filter (fun s => s ∉ ORDER) ((dict_keys data).*1)).

(** [order.index(s) if s in order else 999] *)
Definition order_index (order : list string) (s : string) : Z :=
  match list_find (s =.) order with Some (i, _) => Z.of_nat i | None => 999 end.

(** Keys by position of the server, then by load. *)
Definition tl_key_le (order : list string) (a b : string * Z) : Prop :=
  order_index order a.1 < order_index order b.1 \/
  (order_index order a.1 = order_index order b.1 /\ a.2 <= b.2).
#[export] Instance tl_key_le_dec order : RelDecision (tl_key_le order).
Proof. intros a b. unfold tl_key_le. apply _. Defined.

Definition timeline_keys (data : timeline) : list (string * Z) :=
  sort_by (tl_key_le (tl_order data)) (dict_keys data).

Definition percentile_legend (series : string * string * string) : string :=
  let '(_, label, color) := series in
  "<span" +:+ attr "class" "pleg" +:+ ">" +:+ swatch ("background:" +:+ color) +:+ esc label +:+ "</span>".

Section Timeline.
(** [math.log10] and, for a negative exponent, [10 ** exp]: floats of the C
    library. *)
Variable log10 : float -> float.
Variable pow10 : Z -> float.

(** [10 ** exp] *)
Definition ten_to (exp : Z) : num := if 0 <=? exp then NInt (10 ^ exp) else NFloat (pow10 exp).

Definition nice_max (v : float) : res num :=
  if fle v f_zero then Ok (NInt 1)
  else
    exp ← f_floor (log10 v);
    scale ← num_float (ten_to exp);
    f ← fdiv v scale;
    one ← f_of_Z 1; two ← f_of_Z 2; five ← f_of_Z 5;
    let nf := if fle f one then 1 else if fle f two then 2 else if fle f five then 5 else 10 in
    match ten_to exp with
    | NInt p => Ok (NInt (nf * p))
    | NFloat p => n ← f_of_Z nf; Ok (NFloat (fmul n p))
    end.

(** [int(row["t_s"])] of every row. *)
Definition times (rows : list csv_row) : res (list Z) := res_map (fun r => row_int r "t_s") rows.

(** [float(r[field])] with [except (KeyError, ValueError): pass]. *)
Definition try_float (row : csv_row) (field : string) : res (option float) :=
  match row_float row field with
  | Ok v => Ok (Some v)
  | Raise KeyError | Raise ValueError => Ok None
  | Raise e => Raise e
  end.

(** The highest value of all lines. *)
Fixpoint row_max (row : csv_row) (series : list (string * string * string)) (vmax : float) : res float :=
  match series with
  | [] => Ok vmax
  | (field, _, _) :: series =>
      v ← try_float row field;
      row_max row series (match v with Some v => if flt vmax v then v else vmax | None => vmax end)
  end.

Definition rows_max (rows : list csv_row) : res float :=
  res_foldl (fun vmax row => row_max row TL_SERIES vmax) f_zero rows.

(** [X(t)] and [Y(v)], formatted with one decimal; [dy] is added to [Y]. *)
Definition x_of (maxT t : Z) : res string :=
  if maxT <=? 0 then x ← f_of_Z ML; Ok (fmt_fixed 1 x)
  else
    x0 ← f_of_Z ML;
    d ← int_div ((W - MR - ML) * t) maxT;
    Ok (fmt_fixed 1 (fadd x0 d)).

Definition y_of (ymax v : float) : res float :=
  y0 ← f_of_Z (H - MB);
  span ← f_of_Z (H - MB - MT);
  q ← fdiv v ymax;
  Ok (fsub y0 (fmul span q)).

Definition y_plus (y : float) (dy : Z) : res string := d ← f_of_Z dy; Ok (fmt_fixed 1 (fadd y d)).

(** [ymax * k / 5] *)
Definition grid_value (ymax : num) (k : Z) : res float :=
  match ymax with
  | NInt n => int_div (n * k) 5
  | NFloat f => kf ← f_of_Z k; five ← f_of_Z 5; fdiv (fmul f kf) five
  end.

Definition grid_line (ymax : num) (k : Z) : res string :=
  v ← grid_value ymax k;
  yf ← num_float ymax;
  y ← y_of yf v;
  ly ← y_plus y 4;
  let ys := fmt_fixed 1 y in
  Ok ("<line" +:+ attr "x1" (str_of_Z ML) +:+ attr "y1" ys +:+ attr "x2" (str_of_Z (W - MR)) +:+
      attr "y2" ys +:+ attr "class" "grid" +:+ "/>" +:+
      "<text" +:+ attr "x" (str_of_Z (ML - 10)) +:+ attr "y" ly +:+ attr "class" "tick tick-y" +:+ ">" +:+
      fmt_fixed 1 v +:+ "</text>").

(** [t = 0; while t <= maxT: ...; t += step] *)
Fixpoint time_ticks (fuel : nat) (t step maxT : Z) : list Z :=
  match fuel with
  | O => []
  | S fuel => if t <=? maxT then t :: time_ticks fuel (t + step) step maxT else []
  end.

Definition tick_step (maxT : Z) : Z := Z.max 1 (- (- maxT / 6)).

(** At most seven ticks fit. *)
Definition ticks_of (maxT : Z) : list Z := time_ticks 8 0 (tick_step maxT) maxT.

Definition time_tick (maxT t : Z) : res string :=
  x ← x_of maxT t;
  Ok ("<text" +:+ attr "x" x +:+ attr "y" (str_of_Z (H - MB + 22)) +:+ attr "class" "tick tick-x" +:+ ">" +:+
      str_of_Z t +:+ "</text>").

(** The points of one line: [(int(r["t_s"]), float(r[field]))]. *)
Fixpoint line_points (rows : list csv_row) (field : string) : res (list (Z * float)) :=
  match rows with
  | [] => Ok []
  | r :: rows =>
      match t ← row_int r "t_s"; v ← row_float r field; Ok (t, v) with
      | Ok p => pts ← line_points rows field; Ok (p :: pts)
      | Raise KeyError | Raise ValueError => line_points rows field
      | Raise e => Raise e
      end
  end.

Definition path_step (maxT : Z) (ymax : float) (first : bool) (p : Z * float) : res string :=
  x ← x_of maxT p.1;
  y ← y_of ymax p.2;
  Ok ((if first then "M" else "L") +:+ x +:+ "," +:+ fmt_fixed 1 y).

Definition path_data (maxT : Z) (ymax : float) (pts : list (Z * float)) : res string :=
  match pts with
  | [] => Ok ""
  | p :: rest =>
      d ← path_step maxT ymax true p;
      ds ← res_map (path_step maxT ymax false) rest;
      Ok (join " " (d :: ds))
  end.

Definition line_svg (maxT : Z) (ymax : float) (rows : list csv_row) (series : string * string * string)
    : res string :=
  let '(field, label, color) := series in
  pts ← line_points rows field;
  match list.last pts with
  | None => Ok ""
  | Some p =>
      d ← path_data maxT ymax pts;
      y ← y_of ymax p.2;
      ly ← y_plus y 4;
      Ok ("<path" +:+ attr "d" d +:+ attr "fill" "none" +:+ attr "stroke" color +:+ attr "stroke-width" "2" +:+
          attr "stroke-linejoin" "round" +:+ attr "stroke-linecap" "round" +:+ "/>" +:+
          "<text" +:+ attr "x" (str_of_Z (W - MR + 8)) +:+ attr "y" ly +:+ attr "class" "direct-label" +:+
          attr "fill" color +:+ ">" +:+ esc label +:+ "</text>")
  end.

Definition timeline_svg (server : string) (conns : Z) (rows : list csv_row) : res string :=
  ts ← times rows;
  let maxT := match ts with [] => 0 | t :: ts => foldl Z.max t ts end in
  vmax ← rows_max rows;
  ymax ← if flt f_zero vmax then nice_max vmax else Ok (NInt 1);
  yf ← num_float ymax;
  grid ← res_map (grid_line ymax) [0; 1; 2; 3; 4; 5];
  ticks ← res_map (time_tick maxT) (ticks_of maxT);
  lines ← res_map (line_svg maxT yf rows) TL_SERIES;
  Ok ("<svg" +:+ attr "viewBox" ("0 0 " +:+ str_of_Z W +:+ " " +:+ str_of_Z H) +:+ attr "class" "chart" +:+
      attr "role" "img" +:+ attr "aria-label" (esc server +:+ " latency over time") +:+
      attr "preserveAspectRatio" "xMidYMid meet" +:+ ">" +:+
      "<text" +:+ attr "x" (str_of_Z ML) +:+ attr "y" "24" +:+ attr "class" "c-title" +:+ ">" +:+
      esc server +:+ " @ " +:+ int_comma conns +:+ " conns</text>" +:+
      concat_str grid +:+
      "<text" +:+ attr "class" "axis-label" +:+ attr "transform" "translate(18,174.0) rotate(-90)" +:+ ">ms</text>" +:+
      concat_str ticks +:+
      "<text" +:+ attr "x" "422.0" +:+ attr "y" (str_of_Z (H - 8)) +:+ attr "class" "axis-label" +:+
      ">time (s, measured phase)</text>" +:+
      "<line" +:+ attr "x1" (str_of_Z ML) +:+ attr "y1" (str_of_Z (H - MB)) +:+ attr "x2" (str_of_Z (W - MR)) +:+
      attr "y2" (str_of_Z (H - MB)) +:+ attr "class" "baseline" +:+ "/>" +:+
      concat_str lines +:+ "</svg>").

(** The lowest trial of a run, [min(trials)], with its rows. *)
Definition first_trial (trials : dict Z (list csv_row)) : res (Z * list csv_row) :=
  match dict_keys trials with
  | [] => Raise ValueError
  | t :: ts =>
      let tr := foldl Z.min t ts in
      rows ← dict_index trials tr; Ok (tr, rows)
  end.

(** The card of a run: none if it has no rows. *)
Definition timeline_card (data : timeline) (key : string * Z) : res string :=
  trials ← dict_index data key;
  first ← first_trial trials;
  match first.2 : list csv_row with
  | [] => Ok ""
  | rows =>
      svg ← timeline_svg key.1 key.2 rows;
      Ok ("<div" +:+ attr "class" "card" +:+ "><div" +:+ attr "class" "card-meta" +:+ ">trial " +:+
          str_of_Z first.1 +:+ "</div>" +:+ svg +:+ "</div>")
  end.

(** [timeline_body]; [tl_data] is [None] when the file is missing. *)
Definition timeline_body (tl_data : option timeline) (src : string) : res string :=
  match tl_data with
  | None | Some [] =>
      Ok ("<p" +:+ attr "class" "sub" +:+ ">No timeline data yet. Run <code>runner/run.py</code> " +:+
          "to generate <code>timeline.csv</code> next to the results CSV.</p>")
  | Some data =>
      cards ← res_map (timeline_card data) (timeline_keys data);
      Ok ("<p" +:+ attr "class" "sub" +:+ ">one card per server × load level · x = seconds into the " +:+
          "measured phase · 1 s windows · source: " +:+ esc (basename src) +:+ "</p>" +:+
          "<div" +:+ attr "class" "plegend" +:+ ">" +:+ concat_str (percentile_legend <$> TL_SERIES) +:+
          "</div>" +:+ concat_str cards)
  end.
End Timeline.
