(* ===== verification/PlotHtmlThms.v ===== *)
(** * The report's markup: theorems

    [esc] lets no markup through and loses nothing; the ticks of the time axis
    are the multiples of the step up to the end, and fit the fuel; the table has
    exactly one line for each server and load with data; the cards of the
    timeline come in the order of the servers. *)

From Stdlib Require Import Ascii String ZArith Lia SpecFloat.
From S2P Require Import Prelude PyText PyDict PyFloat PyNum PySort PlotData PlotThms PlotHtml.

Open Scope string_scope.
Open Scope list_scope.
Open Scope Z_scope.

(** ** [esc] *)

(** What a character of the text becomes. *)
Definition entity (c : ascii) : string :=
  if Ascii.eqb c "&" then "&amp;" else if Ascii.eqb c "<" then "&lt;"
  else if Ascii.eqb c ">" then "&gt;" else String c "".

Lemma replace_char_app c t s1 s2 :
  replace_char c t (s1 +:+ s2) = replace_char c t s1 +:+ replace_char c t s2.
Proof.
  induction s1 as [|d s1 IH]; [done|].
  change (String d s1 +:+ s2) with (String d (s1 +:+ s2)). cbn [replace_char].
  by rewrite IH, append_assoc.
Qed.

Lemma esc_app s t : esc (s +:+ t) = esc s +:+ esc t.
Proof. unfold esc. by rewrite !replace_char_app. Qed.

Lemma esc_char c : esc (String c "") = entity c.
Proof. destruct c as [[] [] [] [] [] [] [] []]; reflexivity. Qed.

Lemma esc_cons c s : esc (String c s) = entity c +:+ esc s.
Proof. change (String c s) with (String c "" +:+ s). by rewrite esc_app, esc_char. Qed.

(** The text of a page with its entities decoded. *)
Fixpoint unesc (fuel : nat) (s : string) : string :=
  match fuel, s with
  | S fuel, String "&" (String "a" (String "m" (String "p" (String ";" s)))) => String "&" (unesc fuel s)
  | S fuel, String "&" (String "l" (String "t" (String ";" s))) => String "<" (unesc fuel s)
  | S fuel, String "&" (String "g" (String "t" (String ";" s))) => String ">" (unesc fuel s)
  | S fuel, String c s => String c (unesc fuel s)
  | _, _ => ""
  end.

Lemma unesc_entity fuel c s : unesc (S fuel) (entity c +:+ s) = String c (unesc fuel s).
Proof. destruct c as [[] [] [] [] [] [] [] []]; reflexivity. Qed.

(** Text put on the page stays text: what [esc] returns has no [<] and no [>],
    and a browser that decodes the three entities reads the original back. *)
Lemma esc_roundtrip s :
  lacks "<" (esc s) = true /\ lacks ">" (esc s) = true /\
  unesc (String.length s) (esc s) = s.
Proof.
  induction s as [|c s (IH1 & IH2 & IH3)]; [done|]. rewrite esc_cons, !lacks_app, IH1, IH2, !andb_true_r.
  split_and!; [by destruct c as [[] [] [] [] [] [] [] []]..|].
  cbn [String.length]. by rewrite unesc_entity, IH3.
Qed.

(** ** The time axis *)

Lemma time_ticks_spec fuel t step maxT :
  0 < step -> maxT < t + Z.of_nat fuel * step ->
  forall x, x ∈ time_ticks fuel t step maxT <-> exists k, 0 <= k /\ x = t + k * step /\ x <= maxT.
Proof.
  intros Hstep. revert t. induction fuel as [|fuel IH]; intros t Hm x; cbn [time_ticks].
  - split; [by intros []%not_elem_of_nil|]. intros (k & Hk & -> & Hx). nia.
  - destruct (Z.leb_spec t maxT) as [Ht|Ht].
    + rewrite elem_of_cons, (IH (t + step)) by lia. split.
      * intros [->|(k & Hk & -> & Hx)]; [exists 0; lia|exists (k + 1); lia].
      * intros (k & Hk & Hx & Hle). destruct (decide (k = 0)) as [->|]; [left; lia|].
        right. exists (k - 1). lia.
    + split; [by intros []%not_elem_of_nil|]. intros (k & Hk & -> & Hx). nia.
Qed.

Lemma tick_step_bounds maxT : 0 < tick_step maxT /\ maxT <= 6 * tick_step maxT.
Proof.
  unfold tick_step. pose proof (Z.div_mod (- maxT) 6 ltac:(done)).
  pose proof (Z.mod_pos_bound (- maxT) 6 ltac:(done)). lia.
Qed.

(** The loop that draws the ticks ends by itself: they are all multiples of the
    step up to the last second, at most seven. *)
Lemma ticks_of_spec maxT x :
  x ∈ ticks_of maxT <-> exists k, 0 <= k <= 6 /\ x = k * tick_step maxT /\ x <= maxT.
Proof.
  destruct (tick_step_bounds maxT) as [Hs Hm]. unfold ticks_of. rewrite time_ticks_spec by lia.
  split; intros (k & Hk & -> & Hx); exists k; split_and!; try lia. nia.
Qed.

(** ** The table *)

(** The cell of a chart: the median, or a dash. *)
Definition cell_text (data : table) (s : string) (c : Z) (ch : chart) : string :=
  match values data (ch_field ch) s c with
  | [] => "<td>–</td>"
  | vals => match median vals with Ok m => "<td>" +:+ ch_fmt ch m +:+ "</td>" | Raise _ => "" end
  end.

(** Some chart has a value of the server at the load. *)
Definition has_value (data : table) (sc : string * Z) (charts : list chart) : bool :=
  existsb (fun ch => match values data (ch_field ch) sc.1 sc.2 with [] => false | _ => true end) charts.

Lemma table_cells_eq data s c charts :
  table_cells data s c charts = Ok (cell_text data s c <$> charts, has_value data (s, c) charts).
Proof.
  induction charts as [|ch charts IH]; [done|]. cbn [table_cells fmap list_fmap].
  unfold has_value. cbn [existsb fst snd]. fold (has_value data (s, c) charts).
  unfold cell_text at 1. destruct (values data (ch_field ch) s c) as [|v vals].
  - by rewrite IH.
  - destruct (median_ok (v :: vals)) as [m ->]; [done|]. cbn [mbind res_bind]. by rewrite IH.
Qed.

Lemma table_rows_eq data pairs :
  table_rows data pairs =
  Ok ((fun sc => table_row sc.1 sc.2 (cell_text data sc.1 sc.2 <$> CHARTS)) <$>
      filter (fun sc => has_value data sc CHARTS = true) pairs).
Proof.
  induction pairs as [|[s c] pairs IH]; [done|]. cbn [table_rows]. rewrite table_cells_eq.
  cbn [mbind res_bind fst snd]. rewrite IH. cbn [mbind res_bind]. rewrite filter_cons.
  destruct (has_value data (s, c) CHARTS); [by rewrite decide_True|by rewrite decide_False].
Qed.

Lemma table_pairs_spec servers conns s c :
  (s, c) ∈ table_pairs servers conns <-> s ∈ servers /\ c ∈ conns.
Proof.
  unfold table_pairs. rewrite list_elem_of_In, in_concat. setoid_rewrite <- list_elem_of_In. split.
  - intros (l & Hl & Hin).
    apply list_elem_of_fmap in Hl as (s' & -> & Hs). by apply list_elem_of_fmap in Hin as (c' & [= -> ->] & Hc).
  - intros [Hs Hc]. exists ((fun c => (s, c)) <$> conns). split.
    + apply list_elem_of_fmap. by exists s.
    + apply list_elem_of_fmap. by exists c.
Qed.

Lemma table_pairs_NoDup servers conns : NoDup servers -> NoDup conns -> NoDup (table_pairs servers conns).
Proof.
  intros Hs Hc. unfold table_pairs. induction Hs as [|s servers Hin Hs IH]; [constructor|].
  cbn. apply NoDup_app. split_and!; [|..|exact IH].
  - apply NoDup_fmap_2; [|done]. by intros ? ? [= ->].
  - intros [s' c] (c' & [= -> ->] & Hc')%list_elem_of_fmap Hin'.
    change ((s, c') ∈ table_pairs servers conns) in Hin'. by apply table_pairs_spec in Hin' as [? _].
Qed.

(** The line of a server and a load in the data table. *)
Definition row_of (data : table) (sc : string * Z) : string :=
  table_row sc.1 sc.2 (cell_text data sc.1 sc.2 <$> CHARTS).

(** C40: the data table is complete: [table_html] never raises, and its body is
    one line for each listed server and load with a value in some chart, each
    once, by server and then load in the listed order; the line has a cell per
    chart, the median of its values or a dash. *)
Theorem table_spec data servers conns :
  NoDup servers -> NoDup conns ->
  exists pairs,
    table_html data servers conns =
      Ok ("<table>" +:+ table_head +:+ "<tbody>" +:+ concat_str (row_of data <$> pairs) +:+ "</tbody></table>") /\
    NoDup pairs /\ pairs `sublist_of` table_pairs servers conns /\
    forall s c, (s, c) ∈ pairs <->
      s ∈ servers /\ c ∈ conns /\ exists f, f ∈ chart_fields /\ values data f s c <> [].
Proof.
  intros Hs Hc. unfold table_html. rewrite table_rows_eq. cbn [mbind res_bind].
  exists (filter (fun sc => has_value data sc CHARTS = true) (table_pairs servers conns)).
  split_and!; [reflexivity|apply NoDup_filter; by apply table_pairs_NoDup|apply sublist_filter|].
  intros s c. rewrite list_elem_of_filter, table_pairs_spec.
  assert (has_value data (s, c) CHARTS = true <-> exists f, f ∈ chart_fields /\ values data f s c <> []) as ->.
  { unfold has_value. rewrite existsb_exists. cbn [fst snd]. split.
    - intros (ch & Hch & Hv). exists (ch_field ch). split.
      + apply list_elem_of_fmap. exists ch. by rewrite list_elem_of_In.
      + by destruct (values data (ch_field ch) s c).
    - intros (f & (ch & -> & Hch)%list_elem_of_fmap & Hv). exists ch. rewrite <- list_elem_of_In.
      split; [done|]. by destruct (values data (ch_field ch) s c). }
  tauto.
Qed.

Lemma table_spec_witness :
  exists pairs,
    table_html demo_loaded.1.1 ["go"; "zig"] [100; 200] =
      Ok ("<table>" +:+ table_head +:+ "<tbody>" +:+ concat_str (row_of demo_loaded.1.1 <$> pairs) +:+
          "</tbody></table>") /\
    ("zig", 200) ∈ pairs /\ ("zig", 100) ∉ pairs.
Proof.
  destruct (table_spec demo_loaded.1.1 ["go"; "zig"] [100; 200]) as (pairs & Ht & _ & _ & Hin).
  - apply (bool_decide_eq_true_1 _). vm_compute. reflexivity.
  - apply (bool_decide_eq_true_1 _). vm_compute. reflexivity.
  - exists pairs. split_and!; [exact Ht|apply Hin; split_and!|].
    + right. left.
    + right. left.
    + exists "p50_ms". split; [apply (bool_decide_eq_true_1 _); vm_compute; reflexivity|].
      vm_compute. discriminate.
    + intros (_ & _ & f & Hf & Hv)%Hin. apply Hv. clear Hv. revert f Hf.
      apply (proj1 (Forall_forall _ chart_fields)).
      repeat constructor; vm_compute; reflexivity.
Defined.

(** ** The order of the cards *)

Lemma order_index_nonneg order s : 0 <= order_index order s.
Proof. unfold order_index. destruct (list_find (s =.) order) as [[i x]|]; lia. Qed.

#[export] Instance tl_key_le_total order : Total (tl_key_le order).
Proof. intros a b. unfold tl_key_le. lia. Qed.

#[export] Instance tl_key_le_trans order : Transitive (tl_key_le order).
Proof. intros a b c. unfold tl_key_le. lia. Qed.

(** Every run of the timeline has its place in the order of the cards: the
    default 999 is never used. *)
Lemma tl_order_complete data k : k ∈ dict_keys data -> k.1 ∈ tl_order data.
Proof.
  intros Hk. unfold tl_order. rewrite elem_of_app, elem_of_sorted_set, list_elem_of_filter.
  destruct (decide (k.1 ∈ ORDER)); [by left|]. right. split; [done|]. by apply list_elem_of_fmap_2.
Qed.

(** All runs get a card, in the order of servers and loads. *)
Lemma timeline_keys_spec data :
  timeline_keys data ≡ₚ dict_keys data /\
  StronglySorted (tl_key_le (tl_order data)) (timeline_keys data).
Proof. split; [apply sort_by_Permutation|apply sort_by_sorted; apply _]. Qed.
