(* ===== verification/PlotDoc.v ===== *)
(** * The document of the report

    What a browser finds in the page: the ids, the buttons of the legend, the
    lines of the table, the scripts ([document]); and what it finds in the parts
    of the page that [PlotHtml] makes ([sees]). *)

From Stdlib Require Import Ascii String ZArith Lia SpecFloat.
From S2P Require Import Prelude PyText PyDict PyFloat PyJson PyNum PySort Html.
From S2P Require Import PlotData PlotThms PlotHtml PlotHtmlThms.

Open Scope string_scope.
Open Scope list_scope.
Open Scope Z_scope.

(** ** The document *)

(** A value with its character references decoded. *)
Definition decode (v : string) : string := unesc (String.length v) v.

Record content := mkContent {
  ct_ids : list string; ct_buttons : list string; ct_rows : list string; ct_scripts : list string }.

Definition ct_nil : content := mkContent [] [] [] [].
Definition ct_app (c d : content) : content :=
  mkContent (ct_ids c ++ ct_ids d) (ct_buttons c ++ ct_buttons d) (ct_rows c ++ ct_rows d)
    (ct_scripts c ++ ct_scripts d).

Definition opt_list {A} (o : option A) : list A := match o with Some x => [x] | None => [] end.

(** What a token adds: an id; a match of [.leg[data-server]]; a match of
    [tbody tr[data-server]]; a script.  [inside] says whether it is in the body
    of a table. *)
Definition read_token (inside : bool) (t : token) : bool * content :=
  match t with
  | Tag false name al =>
      let server := decode <$> dict_get al "data-server" in
      let classes := match dict_get al "class" with Some v => split_ws (decode v) | None => [] end in
      (if bool_decide (name = "tbody") then true else inside,
       mkContent (decode <$> opt_list (dict_get al "id"))
         (if bool_decide ("leg" ∈ classes) then opt_list server else [])
         (if bool_decide (name = "tr") then (if inside then opt_list server else []) else []) [])
  | Tag true name _ => (if bool_decide (name = "tbody") then false else inside, ct_nil)
  | RawText name text => (inside, if bool_decide (name = "script") then mkContent [] [] [] [text] else ct_nil)
  end.

Fixpoint read_doc (inside : bool) (ts : list token) : bool * content :=
  match ts with
  | [] => (inside, ct_nil)
  | t :: ts =>
      let '(inside, c) := read_token inside t in
      let '(inside, d) := read_doc inside ts in (inside, ct_app c d)
  end.

Definition document (html : string) : option content := (fun ts => (read_doc false ts).2) <$> tokenize html.

(** ** Reading part by part *)

(** Text [s], read in state [st], inside or outside the body of a table, leads to
    [st'] and adds [c]. *)
Definition sees (b : bool) (st : tstate) (s : string) (b' : bool) (st' : tstate) (c : content) : Prop :=
  exists ts, reads st s st' ts /\ read_doc b ts = (b', c).

Lemma ct_app_assoc c d e : ct_app (ct_app c d) e = ct_app c (ct_app d e).
Proof. unfold ct_app. cbn. by rewrite !(assoc_L (++)). Qed.

Lemma ct_app_nil_l c : ct_app ct_nil c = c.
Proof. by destruct c. Qed.

Lemma ct_app_nil_r c : ct_app c ct_nil = c.
Proof. unfold ct_app. destruct c. cbn. by rewrite !app_nil_r. Qed.

Lemma read_doc_app b ts1 ts2 :
  read_doc b (ts1 ++ ts2) =
    ((read_doc (read_doc b ts1).1 ts2).1, ct_app (read_doc b ts1).2 (read_doc (read_doc b ts1).1 ts2).2).
Proof.
  revert b. induction ts1 as [|t ts1 IH]; intros b.
  - cbn [app read_doc fst snd]. rewrite ct_app_nil_l. by destruct (read_doc b ts2).
  - change ((t :: ts1) ++ ts2) with (t :: (ts1 ++ ts2)). cbn [read_doc]. destruct (read_token b t) as [b1 c1].
    rewrite IH. destruct (read_doc b1 ts1) as [b2 c2]. cbn [fst snd]. by rewrite ct_app_assoc.
Qed.

Lemma sees_app b st s1 b1 st1 c1 s2 b2 st2 c2 :
  sees b st s1 b1 st1 c1 -> sees b1 st1 s2 b2 st2 c2 -> sees b st (s1 +:+ s2) b2 st2 (ct_app c1 c2).
Proof.
  intros (ts1 & H1 & Hd1) (ts2 & H2 & Hd2). exists (ts1 ++ ts2). split; [by eapply reads_app|].
  rewrite read_doc_app, Hd1. cbn [fst snd]. by rewrite Hd2.
Qed.

Lemma sees_silent b st s st' : reads st s st' [] -> sees b st s b st' ct_nil.
Proof. intros Hr. by exists []. Qed.

Lemma sees_text b s : lacks "<" s = true -> sees b SData s b SData ct_nil.
Proof. intros Hs. by apply sees_silent, reads_text. Qed.

Lemma sees_attr b close name al k v :
  name_ok k = true -> lacks dq v = true ->
  sees b (SBefore close name al) (attr k v) b (SBefore close name (al ++ [(str_lower k, v)])) ct_nil.
Proof. intros Hk Hv. by apply sees_silent, reads_attr. Qed.

Lemma sees_attr_first b close name k v :
  name <> "" -> name_ok k = true -> lacks dq v = true ->
  sees b (STagName close name) (attr k v) b (SBefore close name [(str_lower k, v)]) ct_nil.
Proof. intros Hn Hk Hv. by apply sees_silent, reads_attr_first. Qed.

Lemma sees_run b st s st' ts b' c : run st s = (st', ts) -> read_doc b ts = (b', c) -> sees b st s b' st' c.
Proof. intros Hr Hd. by exists ts. Qed.

Lemma sees_eq b st s b' st' c c' : sees b st s b' st' c -> c = c' -> sees b st s b' st' c'.
Proof. by intros H <-. Qed.

Lemma sees_concat b l cs :
  Forall2 (fun s c => sees b SData s b SData c) l cs ->
  sees b SData (concat_str l) b SData (foldr ct_app ct_nil cs).
Proof.
  unfold concat_str. induction 1 as [|s c l cs Hs Hl IH]; [by apply sees_silent|]. cbn [foldr].
  destruct l as [|t l].
  - apply Forall2_nil_inv_l in Hl as ->. cbn [foldr]. by rewrite ct_app_nil_r.
  - change (join "" (s :: t :: l)) with (s +:+ "" +:+ join "" (t :: l)). change ("" +:+ ?x) with x.
    apply (sees_app _ _ _ _ _ _ _ _ _ _ Hs IH).
Qed.

(** Texts that add nothing. *)
Definition silent (s : string) : Prop := forall b, sees b SData s b SData ct_nil.

Lemma silent_concat l : Forall silent l -> silent (concat_str l).
Proof.
  intros Hl b. eapply sees_eq; [apply (sees_concat b l ((fun _ => ct_nil) <$> l))|].
  - apply Forall2_fmap_r, Forall_Forall2_diag, (Forall_impl _ _ _ Hl). intros s Hs. apply Hs.
  - clear Hl. induction l as [|s l IH]; [done|]. cbn. by rewrite IH.
Qed.

(** ** Texts of numbers *)

(** A character of a formatted number. *)
Definition number_char (c : ascii) : bool :=
  is_digit c || existsb (Ascii.eqb c) ["-"; "."; ","; "n"; "a"; "i"; "f"]%char.

Notation numeric := (all_chars number_char).

Lemma numeric_lacks c s : number_char c = false -> numeric s = true -> lacks c s = true.
Proof. intros Hc. apply all_chars_impl. intros d Hd. apply negb_true_iff, Ascii.eqb_neq. intros ->. congruence. Qed.

Lemma numeric_digits s : all_chars is_digit s = true -> numeric s = true.
Proof. apply all_chars_impl. intros c Hc. unfold number_char. by rewrite Hc. Qed.

Lemma numeric_str z : numeric (str_of_Z z) = true.
Proof.
  destruct (Z.ltb_spec z 0) as [Hz|Hz]; [|by apply numeric_digits, str_of_Z_nonneg].
  destruct z as [|p|p]; try lia. change (str_of_Z (Z.neg p)) with (String "-" (str_of_Z (Z.pos p))).
  apply andb_true_iff. split; [done|]. by apply numeric_digits, str_of_Z_nonneg.
Qed.

Lemma all_chars_substring p i n s : all_chars p s = true -> all_chars p (substring i n s) = true.
Proof.
  revert i n. induction s as [|c s IH]; intros i n Hs; [by destruct i, n|].
  apply andb_true_iff in Hs as [Hc Hs]. destruct i as [|i], n as [|n]; cbn; try done; [|by apply IH..].
  apply andb_true_iff. split; [done|]. by apply IH.
Qed.

Lemma numeric_group s : numeric s = true -> numeric (group3 s) = true.
Proof.
  induction s as [|c s IH]; [done|]. intros [Hc Hs]%andb_true_iff. cbn [group3].
  destruct (_ && _); cbn [all_chars]; by rewrite Hc, IH.
Qed.

Lemma numeric_pad n q : numeric (pad_digits n q) = true.
Proof.
  unfold pad_digits. rewrite all_chars_app, numeric_str, andb_true_r.
  generalize (S n - String.length (str_of_Z q))%nat. intros k. by induction k.
Qed.

Lemma numeric_sign (b : bool) s : numeric s = true -> numeric ((if b then "-" else "") +:+ s) = true.
Proof. intros Hs. rewrite all_chars_app, Hs. by destruct b. Qed.

Lemma numeric_point n s : numeric s = true -> numeric (put_point n s) = true.
Proof.
  intros Hs. unfold put_point. destruct n as [|n]; [done|]. rewrite !all_chars_app.
  by rewrite !all_chars_substring.
Qed.

Lemma numeric_fixed n v : numeric (fmt_fixed n v) = true.
Proof.
  destruct v as [s|[]| |s m e]; cbn [fmt_fixed]; [|done..|]; by apply numeric_sign, numeric_point, numeric_pad.
Qed.

Lemma numeric_comma v : numeric (fmt_comma v) = true.
Proof.
  destruct v as [[]|[]| |s m e]; cbn [fmt_comma]; [done..|]. by apply numeric_sign, numeric_group, numeric_str.
Qed.

Lemma numeric_int_comma z : numeric (int_comma z) = true.
Proof. unfold int_comma. by apply numeric_sign, numeric_group, numeric_str. Qed.

Lemma numeric_chart ch m : ch ∈ CHARTS -> numeric (ch_fmt ch m) = true.
Proof.
  intros Hch. assert (Forall (fun ch => forall m, numeric (ch_fmt ch m) = true) CHARTS) as Hall.
  { repeat (constructor; [intros v; apply numeric_fixed || apply numeric_comma|]). constructor. }
  rewrite Forall_forall in Hall. by apply Hall.
Qed.

Lemma lacks_esc_lt s : lacks "<" (esc s) = true.
Proof. apply esc_roundtrip. Qed.

Lemma lacks_esc s : lacks dq s = true -> lacks dq (esc s) = true.
Proof.
  induction s as [|c s IH]; [done|]. intros [Hc Hs]%andb_true_iff. rewrite esc_cons, lacks_app, IH by done.
  rewrite andb_true_r. destruct c as [[] [] [] [] [] [] [] []]; try reflexivity; discriminate Hc.
Qed.

Lemma length_app_str s t : String.length (s +:+ t) = (String.length s + String.length t)%nat.
Proof. induction s as [|c s IH]; [done|]. cbn. by rewrite IH. Qed.

Lemma decode_esc s : decode (esc s) = s.
Proof.
  assert (forall k, unesc (String.length s + k) (esc s) = s) as Hmore.
  { induction s as [|c s IH]; intros k; [by destruct k|]. rewrite esc_cons. cbn [String.length Nat.add].
    by rewrite unesc_entity, IH. }
  assert (String.length s <= String.length (esc s))%nat as Hlen.
  { clear Hmore. induction s as [|c s IH]; [done|]. rewrite esc_cons, length_app_str. cbn [String.length].
    assert (1 <= String.length (entity c))%nat by (destruct c as [[] [] [] [] [] [] [] []]; cbn; lia). lia. }
  unfold decode. replace (String.length (esc s)) with (String.length s + (String.length (esc s) - String.length s))%nat by lia.
  apply Hmore.
Qed.

(** ** The parts of the page *)

(** [lacks c s = true] for the texts of the page. *)
Ltac numeric_text :=
  first [apply numeric_fixed | apply numeric_comma | apply numeric_int_comma | apply numeric_str | assumption].
Ltac lack :=
  lazymatch goal with
  | |- lacks _ (esc _) = true => first [apply lacks_esc_lt | apply lacks_esc; lack]
  | |- lacks _ (_ +:+ _) = true => rewrite lacks_app; apply andb_true_iff; split; lack
  | |- lacks _ (String _ _) = true => reflexivity
  | |- _ => first [assumption | apply numeric_lacks; [reflexivity|numeric_text] | vm_compute; reflexivity]
  end.

(** Values of attributes that are not written out become variables. *)
Ltac literal s := lazymatch s with String _ _ => idtac | "" => idtac end.
Ltac name_values :=
  repeat match goal with
  | |- context [attr ?k ?v] =>
      assert_fails (is_var v); assert_fails (literal v);
      let x := fresh "v" in let Hx := fresh "Hv" in
      assert (lacks dq v = true) as Hx by lack; revert Hx; generalize v; intros x Hx
  end.

Ltac sees_literal :=
  lazymatch goal with
  | |- sees ?b ?st ?s _ _ _ =>
      let r := eval vm_compute in (run st s) in
      lazymatch r with
      | (?st', ?ts) =>
          let d := eval vm_compute in (read_doc b ts) in
          lazymatch d with (?b', ?c) => refine (sees_run b st s st' ts b' c _ _); vm_compute; reflexivity end
      end
  end.

Create HintDb html.

Ltac html_parts :=
  lazymatch goal with
  | |- sees _ _ (_ +:+ _) _ _ _ => eapply sees_app; [html_parts|html_parts]
  | |- sees _ (SBefore _ _ _) (attr _ _) _ _ _ => apply sees_attr; [reflexivity|lack]
  | |- sees _ (STagName _ _) (attr _ _) _ _ _ => apply sees_attr_first; [discriminate|reflexivity|lack]
  | |- sees _ _ (String _ _) _ _ _ => sees_literal
  | |- sees _ (SRaw _ _ _) _ _ _ _ => sees_literal
  | |- sees _ SData _ _ _ _ => first [eassumption | solve [eauto 3 with html nocore] | apply sees_text; lack]
  end.
(** What the parts add up to. *)
Lemma ct_app_mk i1 b1 r1 s1 i2 b2 r2 s2 :
  ct_app (mkContent i1 b1 r1 s1) (mkContent i2 b2 r2 s2) = mkContent (i1 ++ i2) (b1 ++ b2) (r1 ++ r2) (s1 ++ s2).
Proof. done. Qed.

Ltac contents :=
  change (mkContent [] [] [] []) with ct_nil; rewrite ?ct_app_nil_l, ?ct_app_nil_r, ?ct_app_mk; cbn [app];
  rewrite ?app_nil_r.
Ltac html := name_values; eapply sees_eq; [html_parts|try reflexivity].

Lemma silent_text s : lacks "<" s = true -> silent s.
Proof. intros Hs b. by apply sees_text. Qed.

Lemma silent_swatch v : lacks dq v = true -> silent (swatch v).
Proof. intros Hv b. unfold swatch. html. Qed.

Lemma silent_series_swatch s : silent (series_swatch s).
Proof. apply silent_swatch. lack. Qed.
#[local] Hint Resolve silent_series_swatch : html.
#[local] Hint Unfold silent : html.

Lemma sees_legend_item b s : lacks dq s = true -> sees b SData (legend_item s) b SData (mkContent [] [s] [] []).
Proof.
  intros Hs. rewrite <- (decode_esc s) at 2. unfold legend_item. generalize (silent_series_swatch s b). intros Hsw.
  html.
Qed.

Definition ct_ids_of (l : list string) : content := mkContent l [] [] [].
Definition ct_buttons_of (l : list string) : content := mkContent [] l [] [].
Definition ct_rows_of (l : list string) : content := mkContent [] [] l [].

Definition clean (s : string) : Prop := lacks dq s = true /\ lacks "<" s = true.

Lemma sees_legend servers b :
  Forall (fun s => lacks dq s = true) servers ->
  sees b SData (legend_html servers) b SData (mkContent ["legend"; "show-all"] servers [] []).
Proof.
  intros Hs. unfold legend_html.
  assert (sees b SData (concat_str (legend_item <$> servers)) b SData (ct_buttons_of servers)) as Hitems.
  { eapply sees_eq; [apply (sees_concat _ _ ((fun s => ct_buttons_of [s]) <$> servers))|].
    - apply Forall2_fmap, Forall_Forall2_diag, (Forall_impl _ _ _ Hs). intros s Hl. by apply sees_legend_item.
    - clear Hs. induction servers as [|s servers IH]; [done|]. cbn. by rewrite IH. }
  eapply sees_eq; [html_parts|]. unfold ct_buttons_of. by contents.
Qed.

Lemma sees_table_row s c cells :
  lacks dq s = true -> Forall silent cells -> sees true SData (table_row s c cells) true SData (ct_rows_of [s]).
Proof.
  intros Hs Hcells. rewrite <- (decode_esc s) at 2. unfold table_row.
  pose proof (silent_series_swatch s true) as Hsw. pose proof (silent_concat cells Hcells true) as Hc. html.
Qed.

Lemma silent_cell data s c ch : ch ∈ CHARTS -> silent (cell_text data s c ch).
Proof.
  intros Hch b. unfold cell_text. destruct (values data (ch_field ch) s c) as [|v vals]; [sees_literal|].
  destruct (median (v :: vals)) as [m|e]; [|by apply sees_silent].
  pose proof (numeric_chart ch m Hch) as Hm. html.
Qed.

(** The lines of the table: the pairs with a value in some chart. *)
Definition table_lines (data : table) (servers : list string) (conns : list Z) : list (string * Z) :=
  filter (fun sc => has_value data sc CHARTS = true) (table_pairs servers conns).

Lemma sees_table data servers conns t :
  Forall (fun s => lacks dq s = true) servers -> table_html data servers conns = Ok t ->
  sees false SData t false SData (ct_rows_of (table_lines data servers conns).*1).
Proof.
  intros Hs. unfold table_html. rewrite table_rows_eq. fold (table_lines data servers conns). cbn [mbind res_bind].
  intros Ht%res_Ok_inj. subst t.
  assert (sees true SData (concat_str ((fun sc => table_row sc.1 sc.2 (cell_text data sc.1 sc.2 <$> CHARTS)) <$>
    table_lines data servers conns)) true SData (ct_rows_of (table_lines data servers conns).*1)) as Hrows.
  { eapply sees_eq; [apply (sees_concat _ _ ((fun sc : string * Z => ct_rows_of [sc.1]) <$> table_lines data servers conns))|].
    - apply Forall2_fmap, Forall_Forall2_diag, Forall_forall. intros [s c] [_ Hin]%list_elem_of_filter.
      apply table_pairs_spec in Hin as [Hin _]. rewrite Forall_forall in Hs. apply sees_table_row; [by apply Hs|].
      apply Forall_fmap, Forall_forall. intros ch Hch. by apply silent_cell.
    - generalize (table_lines data servers conns). intros l. induction l as [|sc l IH]; [done|]. cbn. by rewrite IH. }
  assert (sees false SData table_head false SData ct_nil) as Hhead by sees_literal.
  eapply sees_eq; [html_parts|]. unfold ct_rows_of. by contents.
Qed.

Definition chart_ids : list string := (fun i => "chart-" +:+ str_of_Z (Z.of_nat i)) <$> seq 0 (length CHARTS).

Lemma sees_saturation data servers conns src t :
  Forall (fun s => lacks dq s = true) servers -> saturation_body data servers conns src = Ok t ->
  sees false SData t false SData
    (mkContent (["legend"; "show-all"] ++ chart_ids) servers (table_lines data servers conns).*1 []).
Proof.
  intros Hs. unfold saturation_body. intros (table & Htable & Ht)%res_bind_Ok. apply res_Ok_inj in Ht. subst t.
  pose proof (sees_table _ _ _ _ Hs Htable) as Ht. pose proof (sees_legend servers false Hs) as Hl.
  assert (sees false SData (concat_str (chart_card <$> seq 0 (length CHARTS))) false SData (ct_ids_of chart_ids)) as Hcards
    by sees_literal.
  generalize dependent (concat_str (chart_card <$> seq 0 (length CHARTS))). intros cards Hcards.
  eapply sees_eq; [html_parts|]. unfold ct_rows_of, ct_ids_of. by contents.
Qed.

(** ** The timeline adds nothing *)

Lemma res_map_Forall {A B} (f : A -> res B) (P : B -> Prop) l l' :
  res_map f l = Ok l' -> (forall x y, x ∈ l -> f x = Ok y -> P y) -> Forall P l'.
Proof.
  intros Hl%res_map_Ok Hf. induction Hl as [|x y l l' Hxy _ IH]; constructor.
  - apply (Hf x); [left|done].
  - apply IH. intros x' y' Hx. apply Hf. by right.
Qed.

Lemma x_of_numeric maxT t x : x_of maxT t = Ok x -> numeric x = true.
Proof.
  unfold x_of. destruct (maxT <=? 0); intros Hx.
  - apply res_bind_Ok in Hx as (f & _ & Hx). apply res_Ok_inj in Hx. subst x. apply numeric_fixed.
  - apply res_bind_Ok in Hx as (f & _ & (d & _ & Hx)%res_bind_Ok). apply res_Ok_inj in Hx. subst x. apply numeric_fixed.
Qed.

Lemma y_plus_numeric y dy s : y_plus y dy = Ok s -> numeric s = true.
Proof. unfold y_plus. intros (d & _ & Hs)%res_bind_Ok. apply res_Ok_inj in Hs. subst s. apply numeric_fixed. Qed.

Lemma silent_grid_line n k s : grid_line n k = Ok s -> silent s.
Proof.
  unfold grid_line. intros (v & _ & (yf & _ & (y & _ & (ly & Hly%y_plus_numeric & Hs)%res_bind_Ok)%res_bind_Ok)%res_bind_Ok)%res_bind_Ok.
  apply res_Ok_inj in Hs. subst s. intros b. html.
Qed.

Lemma silent_time_tick maxT t s : time_tick maxT t = Ok s -> silent s.
Proof. unfold time_tick. intros (x & Hx%x_of_numeric & Hs)%res_bind_Ok. apply res_Ok_inj in Hs. subst s. intros b. html. Qed.

Lemma path_step_lacks maxT ymax first p s : path_step maxT ymax first p = Ok s -> lacks dq s = true.
Proof.
  unfold path_step. intros (x & Hx%x_of_numeric & (y & _ & Hs)%res_bind_Ok)%res_bind_Ok. apply res_Ok_inj in Hs. subst s.
  destruct first; lack.
Qed.

Lemma join_lacks c sep l : lacks c sep = true -> Forall (fun s => lacks c s = true) l -> lacks c (join sep l) = true.
Proof.
  intros Hsep. induction 1 as [|s l Hs Hl IH]; [done|]. destruct l as [|t l]; [exact Hs|].
  change (join sep (s :: t :: l)) with (s +:+ sep +:+ join sep (t :: l)). by rewrite !lacks_app, Hs, Hsep, IH.
Qed.

Lemma path_data_lacks maxT ymax pts d : path_data maxT ymax pts = Ok d -> lacks dq d = true.
Proof.
  unfold path_data. destruct pts as [|p pts]; [by intros <-%res_Ok_inj|].
  intros (d0 & Hd0%path_step_lacks & (ds & Hds & Hd)%res_bind_Ok)%res_bind_Ok. apply res_Ok_inj in Hd. subst d.
  apply join_lacks; [done|]. constructor; [done|]. eapply res_map_Forall; [exact Hds|]. intros q s _. apply path_step_lacks.
Qed.

Lemma silent_line_svg maxT ymax rows series s :
  series ∈ TL_SERIES -> line_svg maxT ymax rows series = Ok s -> silent s.
Proof.
  intros Hin. assert (lacks dq series.2 = true) as Hcolor.
  { assert (Forall (fun x : string * string * string => lacks dq x.2 = true) TL_SERIES) as Hall by by repeat constructor.
    rewrite Forall_forall in Hall. by apply Hall. }
  destruct series as [[field label] color]. cbn [snd] in Hcolor. unfold line_svg.
  intros (pts & _ & Hs)%res_bind_Ok. destruct (list.last pts) as [p|].
  - apply res_bind_Ok in Hs as (d & Hd%path_data_lacks & (y & _ & (ly & Hly%y_plus_numeric & Hs)%res_bind_Ok)%res_bind_Ok).
    apply res_Ok_inj in Hs. subst s. intros b. html.
  - apply res_Ok_inj in Hs. subst s. intros b. by apply sees_silent.
Qed.

Section Timeline.
Variable log10 : float -> float.
Variable pow10 : Z -> float.

Lemma silent_timeline_svg server conns rows s :
  lacks dq server = true -> timeline_svg log10 pow10 server conns rows = Ok s -> silent s.
Proof.
  intros Hserver. unfold timeline_svg. intros (ts & _ & (vmax & _ & (ymax & _ & (yf & _ & Hs)%res_bind_Ok)%res_bind_Ok)%res_bind_Ok)%res_bind_Ok.
  revert Hs. set (maxT := match ts with [] => 0 | t :: ts => foldl Z.max t ts end). clearbody maxT.
  intros (grid & Hg & (ticks & Ht & (lines & Hl & Hs)%res_bind_Ok)%res_bind_Ok)%res_bind_Ok. apply res_Ok_inj in Hs. subst s.
  intros b.
  assert (sees b SData (concat_str grid) b SData ct_nil) as Hgrid.
  { apply silent_concat, (res_map_Forall _ _ _ _ Hg). intros k s _. apply silent_grid_line. }
  assert (sees b SData (concat_str ticks) b SData ct_nil) as Hticks.
  { apply silent_concat, (res_map_Forall _ _ _ _ Ht). intros t s _. apply silent_time_tick. }
  assert (sees b SData (concat_str lines) b SData ct_nil) as Hlines.
  { apply silent_concat, (res_map_Forall _ _ _ _ Hl). intros x s. apply silent_line_svg. }
  name_values. eapply sees_eq; [html_parts|]. by contents.
Qed.

(** Keys of the timeline with names that fit into an attribute. *)
Definition timeline_names (tl_data : option timeline) : Prop :=
  forall data key, tl_data = Some data -> key ∈ dict_keys data -> lacks dq key.1 = true.

Lemma silent_timeline_card data key s :
  lacks dq key.1 = true -> timeline_card log10 pow10 data key = Ok s -> silent s.
Proof.
  intros Hk. unfold timeline_card. intros (trials & _ & (first & _ & Hs)%res_bind_Ok)%res_bind_Ok.
  destruct (first.2) as [|row rows]; [apply res_Ok_inj in Hs; subst s; intros b; by apply sees_silent|].
  apply res_bind_Ok in Hs as (svg & Hsvg & Hs). apply res_Ok_inj in Hs. subst s. intros b.
  pose proof (silent_timeline_svg _ _ _ _ Hk Hsvg b) as Hb. html.
Qed.

Lemma silent_timeline_body tl_data src s :
  timeline_names tl_data -> timeline_body log10 pow10 tl_data src = Ok s -> silent s.
Proof.
  intros Hnames Hs b. unfold timeline_body in Hs. destruct tl_data as [[|kv data]|];
    [apply res_Ok_inj in Hs; subst s; html| |apply res_Ok_inj in Hs; subst s; html].
  apply res_bind_Ok in Hs as (cards & Hcards & Hs). apply res_Ok_inj in Hs. subst s.
  assert (sees b SData (concat_str cards) b SData ct_nil) as Hc.
  { apply silent_concat, (res_map_Forall _ _ _ _ Hcards). intros key s Hin. apply silent_timeline_card.
    apply (Hnames _ _ eq_refl). unfold timeline_keys in Hin. by rewrite elem_of_sort_by in Hin. }
  assert (sees b SData (concat_str (percentile_legend <$> TL_SERIES)) b SData ct_nil) as Hlegend by sees_literal.
  generalize dependent (concat_str (percentile_legend <$> TL_SERIES)). intros legend Hlegend.
  name_values. eapply sees_eq; [html_parts|]. by contents.
Qed.
End Timeline.
