(* ===== verification/Results.v ===== *)
(** * The result files (runner/run.py, lines 430-445, 496-524; runner/plot.py, lines 55-70)

    - [csv_str], [dict_to_list], [csv_file]: what [csv.DictWriter] writes for
      the rows of [Matrix]; [results_csv] and [timeline_csv] are the two files;
    - [read_rows]: the rows [csv.DictReader] yields to [load] and
      [load_timeline] of the report;  [load_file] and [load_timeline_file] are
      these functions on the text of a file.

    Reading is lazy in Python, so of two errors the one in the earlier row would
    be raised; here a CSV error comes first.  [py_repr] is [repr] of a list or
    dictionary. *)

From Stdlib Require Import Ascii String ZArith Lia.
From S2P Require Import Prelude PyText PyDict PyFloat PyJson PyRepr PyCsv PyPath.
From S2P Require Import RunnerSpecs Procfs Lifecycle Matrix PlotData.

Open Scope string_scope.
Open Scope list_scope.
Open Scope Z_scope.

Section Writer.
Variable py_repr : json -> string.

(** The text of a field. *)
Definition csv_str (v : json) : string :=
  match v with
  | JStr s => s
  | JNull => ""
  | JBool b => if b then "True" else "False"
  | JInt z => str_of_Z z
  | JFloat f => float_repr f
  | JArr _ | JObj _ => py_repr v
  end.

(** [DictWriter._dict_to_list]: keys without a column raise. *)
Definition dict_to_list (fieldnames : list string) (x : row) : res (list string) :=
  if decide (Forall (fun k => k ∈ fieldnames) (dict_keys x)) then
    Ok ((fun k => match dict_get x k with Some v => csv_str v | None => "" end) <$> fieldnames)
  else Raise ValueError.

(** [writer.writeheader()], then [writer.writerow(row)] for each row. *)
Definition csv_file (fieldnames : list string) (rows : list row) : res string :=
  ls ← res_map (dict_to_list fieldnames) rows;
  Ok (csv_text (fieldnames :: ls)).

Definition results_csv (rows : list row) : res string := csv_file fields rows.
Definition timeline_csv (rows : list row) : res string := csv_file tl_fields rows.
End Writer.

(** The path of the timeline, next to the summary. *)
Definition tl_path (out : string) : string := path_join (dirname out) "timeline.csv".

(** [for row in csv.DictReader(f)] *)
Definition read_rows (text : string) : res (list csv_row) :=
  lines ← csv_read text; Ok (dict_rows lines).

Definition load_file (text : string) : res (PlotData.table * list string * list Z) :=
  rows ← read_rows text; load rows.

Definition load_timeline_file (text : string) : res timeline :=
  rows ← read_rows text; load_timeline rows.
