(* ===== verification/ResultsThms.v ===== *)
(** * From the measurements to the report

    [matrix_report]: whatever the runner measured and however it ended, the
    file it left is read by the report as exactly those rows: the values it
    draws for a chart, a server and a load are the numbers recorded for them.
    [timeline_report] is the same for the timeline. *)

From Stdlib Require Import Ascii String ZArith Lia.
From S2P Require Import Prelude PyText PyDict PyFloat PyFloatThms PyJson PyNum PyRepr PyJsonText PyJsonThms PyCsv PyCsvThms PySort.
From S2P Require Import RunnerSpecs Procfs Lifecycle LifecycleThms Matrix MatrixThms PlotData PlotThms Results.

Open Scope string_scope.
Open Scope list_scope.
Open Scope Z_scope.

(** ** Where the rows come from *)

Section Hoare.
Context {S : Type} (P : S -> Prop).

(** [keeps m Q]: [m] keeps [P], also when it raises, and returns a [Q]. *)
Definition keeps {A} (m : st S A) (Q : A -> Prop) : Prop :=
  forall s, P s -> P (m s).1 /\ forall a, (m s).2 = Ok a -> Q a.

Lemma keeps_bind {A B} (m : st S A) (k : A -> st S B) Q R :
  keeps m Q -> (forall a, Q a -> keeps (k a) R) -> keeps (m ≫= k) R.
Proof.
  intros Hm Hk s Hs. destruct (Hm s Hs) as [H1 H2]. unfold mbind, st_bind.
  destruct (m s) as [s1 [a|e]]; [|by split]. apply Hk; [by apply H2|done].
Qed.

Lemma keeps_lift {A} (r : res A) (Q : A -> Prop) : (forall a, r = Ok a -> Q a) -> keeps (st_lift r) Q.
Proof. intros Hr s Hs. by split. Qed.

Lemma keeps_ret {A} (a : A) (Q : A -> Prop) : Q a -> keeps (mret a) Q.
Proof. intros Ha s Hs. split; [done|]. by intros b [= <-]. Qed.

Lemma keeps_weaken {A} (m : st S A) (Q R : A -> Prop) : keeps m Q -> (forall a, Q a -> R a) -> keeps m R.
Proof. intros Hm HQ s Hs. destruct (Hm s Hs) as [H1 H2]. split; [done|]. intros a Ha. by apply HQ, H2. Qed.

Lemma keeps_get (Q : S -> Prop) : (forall s, Q s) -> keeps st_get Q.
Proof. intros HQ s Hs. by split. Qed.

Lemma keeps_each {A} (f : A -> st S ()) l (Q : () -> Prop) :
  Q tt -> (forall x, x ∈ l -> keeps (f x) Q) -> keeps (for_each f l) Q.
Proof.
  intros HQ. induction l as [|x l IH]; intros Hf; cbn [for_each].
  - by apply keeps_ret.
  - eapply keeps_bind; [apply Hf; left|]. intros _ _. apply IH. intros y Hy. apply Hf. by right.
Qed.
End Hoare.

Definition any {A} (a : A) : Prop := True.

Section Runs.
Context {OS : Type} `{Kernel OS}.
Variable ROOT sys_executable : string.
Variable HAVE_TASKSET : bool.
Variable environ : dict string string.
Variable CLK : Z.
Variable json_loads : string -> res json.
Hypothesis json_loads_valid : forall s v, json_loads s = Ok v -> json_valid v.
Variable g : config.

Notation Bench := (@Bench OS).

(** A summary row and a timeline row as [main] makes them from a result of the
    load generator. *)
Definition made_row (x : row) : Prop :=
  exists name sv conns trial wall s r,
    dict_get (SERVERS ROOT sys_executable) name = Some sv /\ json_valid r /\
    make_row CLK name conns trial wall s r = Ok x.

Definition made_window (x : row) : Prop :=
  exists name sv conns trial w,
    dict_get (SERVERS ROOT sys_executable) name = Some sv /\ json_valid w /\
    timeline_row name conns trial w = Ok x.

(** A message about a row that has been written. *)
Definition is_alert (m : message) : bool :=
  match m with Saturated _ _ _ | Behind _ _ => true | _ => false end.

Definition n_client : Z := Z.of_nat (length (g_client_cores g)).

(** What the checks of a row say. *)
Definition row_alerts (x : row) : list message :=
  match dict_get x "conns" with Some (JInt conns) => (check_row n_client conns x []).1 | _ => [] end.

(** The rows are as [main] makes them; each has been checked. *)
Definition rows_made (b : Bench) : Prop :=
  Forall made_row (b_rows b) /\ Forall made_window (b_timeline b) /\
  filter (fun m => is_alert m = true) (b_stderr b) = concat (row_alerts <$> b_rows b).

Lemma keeps_on_os {A} (m : st OS A) (Q : A -> Prop) : (forall o a, (m o).2 = Ok a -> Q a) -> keeps rows_made (on_os m) Q.
Proof.
  intros HQ b Hb. unfold on_os. pose proof (HQ (b_os b)) as Ho. destruct (m (b_os b)) as [o r]. cbn in *. by split.
Qed.

Lemma keeps_warn m : is_alert m = false -> keeps rows_made (warn m) any.
Proof.
  intros Hm b (H1 & H2 & H3). split; [|done]. split_and!; [done..|]. cbn. rewrite filter_app, H3.
  rewrite filter_cons_False, filter_nil, app_nil_r; [done|by rewrite Hm].
Qed.

Lemma keeps_cooldown : keeps rows_made (cooldown g) any.
Proof. by apply keeps_on_os. Qed.

(** The checks add to the messages, whatever was there, and only alerts. *)
Lemma check_row_adds n conns x l :
  check_row n conns x l = (l ++ (check_row n conns x []).1, (check_row n conns x []).2) /\
  Forall (fun m => is_alert m = true) (check_row n conns x []).1.
Proof.
  unfold check_row, mbind, st_bind, st_lift, st_modify, mret, st_ret.
  repeat first
    [case_bool_decide
    |match goal with |- context [match ?r with Ok _ => _ | Raise _ => _ end] =>
       lazymatch r with dict_index _ _ => idtac | cpu_limit _ => idtac | json_cmp _ _ => idtac | json_fixed _ _ => idtac end;
       destruct r
     end];
    cbn; rewrite ?app_nil_r, <- ?app_assoc; repeat constructor.
Qed.

Lemma json_cmp_number v x : number v -> exists c, json_cmp v x = Ok c.
Proof. destruct v; try done; by eexists. Qed.

Lemma check_row_spec n conns x cpu rate limit cpu_text rate_text :
  dict_get x "client_cpu_cores" = Some cpu -> dict_get x "send_rate_pct" = Some rate -> number cpu -> number rate ->
  cpu_limit n = Ok limit -> json_fixed 2 cpu = Ok cpu_text -> json_fixed 1 rate = Ok rate_text ->
  (check_row n conns x []).1 =
    (if bool_decide (json_cmp cpu limit = Ok (Some Gt)) then [Saturated cpu_text n conns] else []) ++
    (if bool_decide (json_cmp rate (f_of_ratio false 97 1) = Ok (Some Lt)) then [Behind rate_text conns] else []).
Proof.
  intros Hcpu Hrate [hot Hhot]%(json_cmp_number _ limit) [slow Hslow]%(json_cmp_number _ (f_of_ratio false 97 1)) Hl Hct Hrt.
  unfold check_row, mbind, st_bind, st_lift, st_modify, mret, st_ret, dict_index.
  rewrite Hcpu, Hrate. cbn [res_of_option]. rewrite Hl, Hhot, Hslow, Hct, Hrt.
  rewrite (bool_decide_ext (Ok hot = Ok (Some Gt)) (hot = Some Gt)) by (split; congruence).
  rewrite (bool_decide_ext (Ok slow = Ok (Some Lt)) (slow = Some Lt)) by (split; congruence).
  by destruct (bool_decide (hot = Some Gt)), (bool_decide (slow = Some Lt)).
Qed.

Lemma filter_all {A} (P : A -> Prop) `{!forall x, Decision (P x)} l : Forall P l -> filter P l = l.
Proof. induction 1 as [|x l Hx _ IH]; [done|]. by rewrite filter_cons_True, IH. Qed.

(** Writing a row and checking it. *)
Lemma keeps_write_row x conns :
  made_row x -> dict_get x "conns" = Some (JInt conns) ->
  keeps rows_made ((on_files (WriteRow x);; on_files FlushRows);; on_stderr (check_row n_client conns x)) any.
Proof.
  intros Hx Hc b (H1 & H2 & H3). split; [|done]. unfold on_files, st_modify, on_stderr, mbind, st_bind.
  cbn [b_os b_log b_stderr]. destruct (check_row_adds n_client conns x (b_stderr b)) as [-> Hall].
  cbn [fst]. unfold rows_made, b_rows, b_timeline in *. cbn [b_log b_stderr].
  rewrite !written_rows_app, !written_windows_app. cbn. rewrite !app_nil_r. split_and!; [|done|].
  - apply Forall_app. split; [done|by constructor].
  - rewrite filter_app, H3, fmap_app, concat_app. f_equal. cbn. rewrite app_nil_r. unfold row_alerts. rewrite Hc.
    by apply filter_all.
Qed.

Lemma keeps_assoc {S A B C} (P : S -> Prop) (m : st S A) (k : A -> st S B) (f : B -> st S C) Q :
  keeps P ((m ≫= k) ≫= f) Q -> keeps P (m ≫= fun a => k a ≫= f) Q.
Proof. intros Hm s Hs. specialize (Hm s Hs). revert Hm. unfold mbind, st_bind. by destruct (m s) as [s1 [a|e]]. Qed.

Lemma keeps_write_timeline x : made_window x -> keeps rows_made (on_files (WriteWindow x)) any.
Proof.
  intros Hx b (H1 & H2 & H3). split; [|done]. unfold rows_made, b_rows, b_timeline in *. cbn.
  rewrite written_rows_app, written_windows_app. cbn. rewrite app_nil_r. split_and!; [done| |done].
  apply Forall_app. split; [done|by constructor].
Qed.

Lemma keeps_flush op : written_rows [op] = [] -> written_windows [op] = [] -> keeps rows_made (on_files op) any.
Proof.
  intros Hr Hw b Hb. split; [|done]. unfold rows_made, b_rows, b_timeline in *. cbn.
  by rewrite written_rows_app, written_windows_app, Hr, Hw, !app_nil_r.
Qed.

Lemma keeps_record name sv conns trial s r :
  dict_get (SERVERS ROOT sys_executable) name = Some sv -> json_valid r ->
  keeps rows_made (record_trial CLK g name conns trial s r) any.
Proof.
  intros Hn Hr. unfold record_trial.
  eapply keeps_bind; [apply keeps_lift with (Q := fun x => made_row x /\ dict_get x "conns" = Some (JInt conns))|].
  { intros x Hx. split; [eexists name, sv, conns, trial, _, s, r; split_and!; [exact Hn|exact Hr|exact Hx]|].
    unfold make_row in Hx. repeat (apply res_bind_Ok in Hx as (? & _ & Hx)). by injection Hx as <-. }
  intros x [Hx Hc]. do 2 apply keeps_assoc. eapply keeps_bind; [by apply keeps_write_row|]. intros _ _.
  eapply keeps_bind; [apply keeps_lift with (Q := Forall json_valid)|].
  { intros tl (v & Hv & Htl)%res_bind_Ok. apply (json_iter_valid v); [|done]. by eapply json_get_valid; [| |exact Hv]. }
  intros tl Htl. rewrite Forall_forall in Htl.
  eapply keeps_bind; [|intros _ _; eapply keeps_bind; [by apply keeps_flush|intros _ _; apply keeps_cooldown]].
  apply (keeps_each _ _ _ any); [done|]. intros w Hw.
  eapply keeps_bind; [apply keeps_lift with (Q := made_window)|intros y Hy; by apply keeps_write_timeline].
  intros y Hy. exists name, sv, conns, trial, w. split_and!; [exact Hn|by apply Htl|exact Hy].
Qed.

Lemma run_loadgen_valid lg port c rs ra wu du cc ex o r :
  (run_loadgen HAVE_TASKSET json_loads lg port c rs ra wu du cc ex o).2 = Ok (Some r) -> json_valid r.
Proof.
  unfold run_loadgen, mbind, st_bind. destruct (run_cmd _ _ o) as [o1 [[rc out]|e]]; [|done].
  destruct (json_loads (last_line out)) as [v|e] eqn:Hj; [|by destruct e]. intros [= <-]. by eapply json_loads_valid.
Qed.

Lemma keeps_trial name sv conns trial :
  dict_get (SERVERS ROOT sys_executable) name = Some sv ->
  keeps rows_made (run_trial HAVE_TASKSET environ CLK json_loads g (sv_spec sv) name conns trial) any.
Proof.
  intros Hn. unfold run_trial.
  eapply keeps_bind; [by apply keeps_on_os with (Q := any)|]. intros [procs pgids] _.
  eapply keeps_bind; [by apply keeps_on_os with (Q := any)|]. intros ready _.
  destruct (negb ready).
  - eapply keeps_bind; [by apply keeps_warn|]. intros _ _.
    eapply keeps_bind; [by apply keeps_on_os with (Q := any)|]. intros _ _. apply keeps_cooldown.
  - eapply keeps_bind; [by apply keeps_get with (Q := any)|]. intros b _.
    eapply keeps_bind; [apply keeps_on_os with (Q := fun r => forall v, r = Some v -> json_valid v)|].
    { intros o a Ha v ->. by eapply run_loadgen_valid. }
    intros r Hr. eapply keeps_bind; [by apply keeps_on_os with (Q := any)|]. intros _ _.
    destruct r as [[]|]; try apply keeps_cooldown; eapply keeps_record; eauto.
Qed.

Lemma keeps_matrix : keeps rows_made (run_matrix ROOT sys_executable HAVE_TASKSET environ CLK json_loads g) any.
Proof.
  unfold run_matrix. apply (keeps_each _ _ _ any); [done|]. intros name _.
  destruct (dict_get (SERVERS ROOT sys_executable) name) as [sv|] eqn:Hn; [|by apply keeps_warn].
  eapply keeps_bind; [by apply keeps_on_os with (Q := any)|]. intros ok _.
  destruct (negb ok); [by apply keeps_ret|]. unfold run_server.
  apply (keeps_each _ _ _ any); [done|]. intros conns _. apply (keeps_each _ _ _ any); [done|]. intros trial _. by apply keeps_trial.
Qed.

End Runs.

(** ** A file is read as the rows written *)

Section Files.
Variable py_repr : json -> string.

Definition field_of (x : row) (k : string) : string :=
  match dict_get x k with Some v => csv_str py_repr v | None => "" end.

(** The dictionary the report gets for a row. *)
Definition text_row (fieldnames : list string) (x : row) : csv_row :=
  (fun k => (k, Some (universal_newlines (field_of x k)))) <$> fieldnames.

Lemma dict_get_text_row fieldnames x k :
  k ∈ fieldnames -> dict_get (text_row fieldnames x) k = Some (Some (universal_newlines (field_of x k))).
Proof.
  intros Hk. induction fieldnames as [|k' fieldnames IH]; [by apply not_elem_of_nil in Hk|].
  cbn. case_decide as Hd; [by subst|]. apply IH. apply elem_of_cons in Hk as [->|?]; [done|done].
Qed.

Lemma zip_fmap {A B} (f : A -> B) l : zip l (f <$> l) = (fun k => (k, f k)) <$> l.
Proof. induction l as [|x l IH]; [done|]. cbn. f_equal. exact IH. Qed.

Lemma read_csv_file fieldnames rows txt :
  NoDup fieldnames -> fieldnames <> [] -> Forall (fun f => lacks cr f = true) fieldnames ->
  csv_file py_repr fieldnames rows = Ok txt -> read_rows txt = Ok (text_row fieldnames <$> rows).
Proof.
  intros Hnd Hne Hcr. unfold csv_file, read_rows. intros (ls & Hls & Htxt)%res_bind_Ok.
  assert (txt = csv_text (fieldnames :: ls)) as -> by congruence.
  rewrite csv_roundtrip. cbn [mbind res_bind fmap list_fmap dict_rows]. f_equal.
  assert (as_read fieldnames = fieldnames) as ->.
  { unfold as_read. clear -Hcr. induction Hcr as [|f fs Hf _ IH]; [done|]. cbn. by rewrite universal_newlines_id, IH. }
  clear Htxt. apply res_map_Ok in Hls. induction Hls as [|x l rows ls Hx _ IH]; [done|].
  unfold dict_to_list in Hx. case_decide; [|done]. injection Hx as <-. cbn [fmap list_fmap].
  rewrite filter_cons_True by (unfold as_read; by destruct fieldnames).
  cbn [fmap list_fmap]. f_equal; [|exact IH].
  rewrite dict_row_full; [|done|unfold as_read; by rewrite !length_fmap].
  unfold as_read. rewrite <- !list_fmap_compose, zip_fmap. done.
Qed.

Lemma csv_file_ok fieldnames rows :
  Forall (fun x => dict_keys x = fieldnames) rows -> exists txt, csv_file py_repr fieldnames rows = Ok txt.
Proof.
  intros Hall. unfold csv_file.
  rewrite (res_map_ext_Ok _ (fun x => field_of x <$> fieldnames)); [by eexists|].
  intros x Hx. rewrite Forall_forall in Hall. unfold dict_to_list. rewrite decide_True; [done|].
  apply Forall_forall. rewrite (Hall x Hx). done.
Qed.

(** ** Numbers *)

(** The float a recorded number is read as. *)
Definition number_value (v : json) : list float :=
  match v with
  | JInt z => [f_of_decimal (z <? 0) (Z.abs z) 0]
  | JFloat f => [f]
  | _ => []
  end.

Lemma no_space_lacks_cr s : all_chars (fun c => negb (is_space c)) s = true -> lacks cr s = true.
Proof. apply all_chars_impl. intros c Hc. by destruct c as [[] [] [] [] [] [] [] []]. Qed.

Lemma number_text_read v :
  number v -> universal_newlines (csv_str py_repr v) = csv_str py_repr v /\
  exists f, number_value v = [f] /\ float_of_str (csv_str py_repr v) = Ok f.
Proof.
  destruct v as [| |z|f| | |]; try done; intros Hv; cbn [csv_str number_value].
  - split; [apply universal_newlines_id, no_space_lacks_cr, str_of_Z_no_space|]. eexists. split; [done|apply float_of_int].
  - split; [apply universal_newlines_id, no_space_lacks_cr, float_repr_no_space|].
    exists f. split; [done|by apply float_repr_roundtrip].
Qed.

(** The columns of numbers of the timeline. *)
Definition window_fields : list string := ["p50_ms"; "p90_ms"; "p99_ms"; "p999_ms"; "max_ms"].

(** What is needed of a row for the report: its key, and numbers in the columns
    [cols]. *)
Record good_row (fieldnames cols : list string) (x : row) (s : string) (c : Z) : Prop := {
  gr_keys : dict_keys x = fieldnames;
  gr_server : dict_get x "server" = Some (JStr s);
  gr_conns : dict_get x "conns" = Some (JInt c);
  gr_name : lacks cr s = true;
  gr_numbers : forall k, k ∈ cols -> exists v, dict_get x k = Some v /\ number v }.

Lemma text_row_server fieldnames cols x s c :
  "server" ∈ fieldnames -> good_row fieldnames cols x s c -> PlotData.row_text (text_row fieldnames x) "server" = Ok s.
Proof.
  intros Hin Hx. unfold PlotData.row_text, dict_index. rewrite dict_get_text_row by done. cbn.
  unfold field_of. rewrite (gr_server _ _ _ _ _ Hx). cbn. by rewrite universal_newlines_id by apply Hx.
Qed.

Lemma text_row_int fieldnames x k z :
  k ∈ fieldnames -> dict_get x k = Some (JInt z) -> row_int (text_row fieldnames x) k = Ok z.
Proof.
  intros Hin Hx. unfold row_int, PlotData.row_text, dict_index. rewrite dict_get_text_row by done. cbn.
  unfold field_of. rewrite Hx. cbn [csv_str].
  rewrite universal_newlines_id by apply no_space_lacks_cr, str_of_Z_no_space. apply int_of_str_of_Z.
Qed.

Lemma text_row_float fieldnames x k v :
  k ∈ fieldnames -> dict_get x k = Some v -> number v ->
  exists f, row_float (text_row fieldnames x) k = Ok f /\ number_value v = [f].
Proof.
  intros Hin Hx Hv. destruct (number_text_read v Hv) as (Hu & f & Hf & Hr). exists f. split; [|done].
  unfold row_float, PlotData.row_text, dict_index. rewrite dict_get_text_row by done. cbn.
  unfold field_of. by rewrite Hx, Hu.
Qed.

(** ** The summary *)

(** The key of a row. *)
Definition row_server (x : row) : option string :=
  match dict_get x "server" with Some (JStr s) => Some s | _ => None end.
Definition row_number (x : row) (k : string) : option Z :=
  match dict_get x k with Some (JInt z) => Some z | _ => None end.

(** What a row records for a chart, a server and a load. *)
Definition recorded (f s : string) (c : Z) (x : row) : list float :=
  if decide (row_server x = Some s /\ row_number x "conns" = Some c) then
    match dict_get x f with Some v => number_value v | None => [] end
  else [].

Lemma fields_chart : Forall (fun f => f ∈ fields) chart_fields /\ "server" ∈ fields /\ "conns" ∈ fields.
Proof. split_and!; apply (bool_decide_eq_true_1 _); vm_compute; reflexivity. Qed.

Lemma fields_file : NoDup fields /\ fields <> [] /\ Forall (fun f => lacks cr f = true) fields.
Proof. split_and!; [apply (bool_decide_eq_true_1 _); vm_compute; reflexivity|done|by repeat constructor]. Qed.

Lemma contribution_text_row f s c x s' c' :
  f ∈ chart_fields -> good_row fields chart_fields x s' c' ->
  contribution f s c (text_row fields x) = recorded f s c x.
Proof.
  intros Hf Hx. destruct fields_chart as (Hall & Hs & Hc). rewrite Forall_forall in Hall.
  unfold contribution, recorded, cell, row_server, row_number.
  rewrite (text_row_server fields chart_fields x s' c') by done.
  rewrite (text_row_int fields x "conns" c') by (done || apply Hx).
  rewrite (gr_server _ _ _ _ _ Hx), (gr_conns _ _ _ _ _ Hx).
  destruct (gr_numbers _ _ _ _ _ Hx f Hf) as (v & Hv & Hn). rewrite Hv.
  destruct (text_row_float fields x f v (Hall f Hf) Hv Hn) as (w & -> & ->).
  destruct (decide (s' = s /\ c' = c)) as [[-> ->]|Hne].
  - by rewrite !decide_True.
  - rewrite !decide_False; [done|..]; intros [H1 H2]; apply Hne; split; congruence.
Qed.

Lemma add_values_ok (row : csv_row) (s : string) (c : Z) names data :
  (forall f, f ∈ names -> exists v, row_float row f = Ok v) ->
  exists d, res_foldl (add_value row s c) data names = Ok d.
Proof.
  revert data. induction names as [|f names IH]; intros data H; [by eexists|]. cbn [res_foldl].
  assert (exists d, add_value row s c data f = Ok d) as [d ->].
  { unfold add_value. destruct (H f) as [v ->]; [left|]. by eexists. }
  cbn [mbind res_bind]. apply IH. intros f' Hf'. apply H. by right.
Qed.

Definition whole_row (row : csv_row) : Prop :=
  exists s c, PlotData.row_text row "server" = Ok s /\ row_int row "conns" = Ok c /\
    forall f, f ∈ chart_fields -> exists v, row_float row f = Ok v.

Lemma load_row_ok acc row : whole_row row -> exists acc', load_row acc row = Ok acc'.
Proof.
  intros (s & c & Hs & Hc & Hf). unfold load_row. rewrite Hs, Hc. cbn [mbind res_bind].
  destruct (add_values_ok row s c chart_fields (l_data acc) Hf) as [d ->]. by eexists.
Qed.

Lemma load_ok rows : Forall whole_row rows -> exists out, load rows = Ok out.
Proof.
  intros Hall. unfold load.
  assert (forall acc, exists out, res_foldl load_row acc rows = Ok out) as H.
  { induction Hall as [|row rows Hr _ IH]; intros acc; [by eexists|]. cbn [res_foldl].
    destruct (load_row_ok acc row Hr) as [acc' ->]. cbn [mbind res_bind]. apply IH. }
  destruct (H (mkLoaded [] [] [])) as [out ->]. by eexists.
Qed.

(** What the runner measured and what the report is given agree. *)
Definition reports (rows : list row) (out : PlotData.table * list string * list Z) : Prop :=
  let '(data, servers, conns) := out in
  (forall f s c, f ∈ chart_fields -> values data f s c = concat (recorded f s c <$> rows)) /\
  (forall s, s ∈ servers <-> exists x, x ∈ rows /\ row_server x = Some s) /\
  (forall c, c ∈ conns <-> exists x, x ∈ rows /\ row_number x "conns" = Some c).

Lemma read_server_row x s c s' :
  good_row fields chart_fields x s c ->
  PlotData.row_text (text_row fields x) "server" = Ok s' <-> row_server x = Some s'.
Proof.
  intros Hx. destruct fields_chart as (_ & Hs & _). rewrite (text_row_server fields chart_fields x s c Hs Hx).
  unfold row_server. rewrite (gr_server _ _ _ _ _ Hx). split; congruence.
Qed.

Lemma read_conns_row x s c c' :
  good_row fields chart_fields x s c ->
  row_int (text_row fields x) "conns" = Ok c' <-> row_number x "conns" = Some c'.
Proof.
  intros Hx. destruct fields_chart as (_ & _ & Hc). rewrite (text_row_int fields x "conns" c) by (done || apply Hx).
  unfold row_number. rewrite (gr_conns _ _ _ _ _ Hx). split; congruence.
Qed.

Lemma good_whole x s c : good_row fields chart_fields x s c -> whole_row (text_row fields x).
Proof.
  intros Hx. destruct fields_chart as (Hall & Hs & Hc). rewrite Forall_forall in Hall. exists s, c. split_and!.
  - by eapply text_row_server.
  - apply text_row_int; [done|apply Hx].
  - intros f Hf. destruct (gr_numbers _ _ _ _ _ Hx f Hf) as (v & Hv & Hn).
    destruct (text_row_float fields x f v (Hall f Hf) Hv Hn) as (w & Hw & _). by exists w.
Qed.

(** A row of the summary. *)
Definition good (x : row) : Prop := exists s c, good_row fields chart_fields x s c.

(** The summary file of rows that are good is read as those rows. *)
Lemma results_read rows :
  Forall good rows ->
  exists txt out, results_csv py_repr rows = Ok txt /\ load_file txt = Ok out /\ reports rows out.
Proof.
  intros Hall. destruct (csv_file_ok fields rows) as [txt Htxt].
  { apply (Forall_impl _ _ _ Hall). by intros x (s & c & Hx%gr_keys). }
  destruct fields_file as (Hnd & Hne & Hcr).
  pose proof (read_csv_file fields rows txt Hnd Hne Hcr Htxt) as Hrows.
  destruct (load_ok (text_row fields <$> rows)) as [[[data servers] conns] Hload].
  { apply Forall_fmap, (Forall_impl _ _ _ Hall). intros x (s & c & Hx). by eapply good_whole. }
  exists txt, (data, servers, conns). split_and!; [exact Htxt|unfold load_file; by rewrite Hrows|].
  destruct (load_contents _ _ _ _ Hload) as (Hv & Hs & Hc). rewrite Forall_forall in Hall. split_and!.
  - intros f s c Hf. rewrite (Hv f s c Hf), <- list_fmap_compose. f_equal. apply list_fmap_ext. intros i x Hx%list_elem_of_lookup_2.
    destruct (Hall x Hx) as (s' & c' & Hg). by eapply contribution_text_row.
  - intros s. rewrite Hs. split.
    + intros (r & (x & -> & Hx)%list_elem_of_fmap & Hr). exists x. split; [done|].
      destruct (Hall x Hx) as (s' & c' & Hg). by apply (read_server_row x s' c').
    + intros (x & Hx & Hr). exists (text_row fields x). split; [by apply list_elem_of_fmap_2|].
      destruct (Hall x Hx) as (s' & c' & Hg). by apply (read_server_row x s' c').
  - intros c. rewrite Hc. split.
    + intros (r & (x & -> & Hx)%list_elem_of_fmap & Hr). exists x. split; [done|].
      destruct (Hall x Hx) as (s' & c' & Hg). by apply (read_conns_row x s' c').
    + intros (x & Hx & Hr). exists (text_row fields x). split; [by apply list_elem_of_fmap_2|].
      destruct (Hall x Hx) as (s' & c' & Hg). by apply (read_conns_row x s' c').
Qed.

(** ** The timeline *)

Record good_window (x : row) (s : string) (c t k : Z) : Prop := {
  gw_row : good_row tl_fields window_fields x s c;
  gw_trial : dict_get x "trial" = Some (JInt t);
  gw_time : dict_get x "t_s" = Some (JInt k) }.

(** A row of the timeline. *)
Definition good_tl (x : row) : Prop := exists s c t k, good_window x s c t k.

Definition row_time (x : row) : Z := match row_number x "t_s" with Some k => k | None => 0 end.
Definition time_le (x y : row) : Prop := row_time x <= row_time y.
#[export] Instance time_le_dec : RelDecision time_le.
Proof. intros x y. unfold time_le. apply _. Defined.

(** The windows of a run. *)
Definition window_of (s : string) (c t : Z) (x : row) : Prop :=
  row_server x = Some s /\ row_number x "conns" = Some c /\ row_number x "trial" = Some t.
#[export] Instance window_of_dec s c t x : Decision (window_of s c t x).
Proof. unfold window_of. apply _. Defined.

Lemma tl_fields_file : NoDup tl_fields /\ tl_fields <> [] /\ Forall (fun f => lacks cr f = true) tl_fields.
Proof. split_and!; [apply (bool_decide_eq_true_1 _); vm_compute; reflexivity|done|by repeat constructor]. Qed.

Lemma tl_fields_in :
  "server" ∈ tl_fields /\ "conns" ∈ tl_fields /\ "trial" ∈ tl_fields /\ "t_s" ∈ tl_fields /\
  Forall (fun f => f ∈ tl_fields) window_fields.
Proof. split_and!; apply (bool_decide_eq_true_1 _); vm_compute; reflexivity. Qed.

Lemma good_window_reads x s c t k :
  good_window x s c t k ->
  PlotData.row_text (text_row tl_fields x) "server" = Ok s /\ row_int (text_row tl_fields x) "conns" = Ok c /\
  row_int (text_row tl_fields x) "trial" = Ok t /\ row_int (text_row tl_fields x) "t_s" = Ok k.
Proof.
  intros [Hx Ht Hk]. destruct tl_fields_in as (H1 & H2 & H3 & H4 & _). split_and!.
  - by eapply text_row_server.
  - apply text_row_int; [done|apply Hx].
  - by apply text_row_int.
  - by apply text_row_int.
Qed.

Lemma belongs_window x s c t s' c' t' k :
  good_window x s' c' t' k -> belongs s c t (text_row tl_fields x) <-> window_of s c t x.
Proof.
  intros Hx. destruct (good_window_reads _ _ _ _ _ Hx) as (H1 & H2 & H3 & _). destruct Hx as [Hx Ht _].
  unfold belongs, window_of, row_server, row_number.
  rewrite H1, H2, H3, (gr_server _ _ _ _ _ Hx), (gr_conns _ _ _ _ _ Hx), Ht.
  split; intros (? & ? & ?); split_and!; congruence.
Qed.

Lemma filter_fmap_iff {A B} (f : A -> B) (P : B -> Prop) (Q : A -> Prop)
    `{!forall x, Decision (P x), !forall x, Decision (Q x)} l :
  Forall (fun x => P (f x) <-> Q x) l -> filter P (f <$> l) = f <$> filter Q l.
Proof.
  induction 1 as [|x l Hx _ IH]; [done|]. cbn [fmap list_fmap]. rewrite !filter_cons. rewrite IH.
  destruct (decide (Q x)); [rewrite decide_True by tauto|rewrite decide_False by tauto]; done.
Qed.

(** Sorting the rows read is sorting the rows written. *)
Lemma sort_windows rows :
  Forall good_tl rows -> sort_rows (text_row tl_fields <$> rows) = Ok (text_row tl_fields <$> sort_by time_le rows).
Proof.
  intros Hall. unfold sort_rows.
  assert (res_map (fun r => row_int r "t_s") (text_row tl_fields <$> rows) = Ok (row_time <$> rows)) as ->.
  { induction Hall as [|x rows (s & c & t & k & Hx) _ IH]; [done|]. cbn [fmap list_fmap res_map].
    destruct (good_window_reads _ _ _ _ _ Hx) as (_ & _ & _ & ->). cbn [mbind res_bind]. rewrite IH. cbn.
    unfold row_time, row_number. by rewrite (gw_time _ _ _ _ _ Hx). }
  cbn [mbind res_bind]. f_equal.
  assert (zip (row_time <$> rows) (text_row tl_fields <$> rows) = (fun x => (row_time x, text_row tl_fields x)) <$> rows) as ->.
  { clear. induction rows as [|x rows IH]; [done|]. cbn. f_equal. exact IH. }
  rewrite (sort_by_fmap key_le time_le) by done. by rewrite <- list_fmap_compose.
Qed.

Definition timed (r : csv_row) : Prop := exists k, row_int r "t_s" = Ok k.
Definition timed_runs (data : timeline) : Prop :=
  Forall (fun kv => Forall (fun tr : Z * list csv_row => Forall timed tr.2) kv.2) data.

Lemma timeline_add_ok data x :
  good_tl x -> timed_runs data ->
  exists data', timeline_add data (text_row tl_fields x) = Ok data' /\ timed_runs data'.
Proof.
  intros (s & c & t & k & Hx) Hd. destruct (good_window_reads _ _ _ _ _ Hx) as (H1 & H2 & H3 & H4).
  unfold timeline_add. rewrite H1, H2, H3. cbn [mbind res_bind]. eexists. split; [done|].
  apply dict_set_Forall; [done|]. cbn. apply dict_set_Forall.
  - by apply dict_default_Forall.
  - apply Forall_app. split; [|constructor; [by exists k|constructor]].
    apply (dict_default_Forall (Forall timed)); [|done]. by apply (dict_default_Forall (Forall _)).
Qed.

Lemma res_map_total {A B} (f : A -> res B) l :
  Forall (fun x => exists y, f x = Ok y) l -> exists l', res_map f l = Ok l'.
Proof.
  induction 1 as [|x l [y Hy] _ [l' Hl]]; [by eexists|]. cbn [res_map]. rewrite Hy. cbn. rewrite Hl. by eexists.
Qed.

Lemma sort_rows_ok rows : Forall timed rows -> exists rows', sort_rows rows = Ok rows'.
Proof. intros [ks Hk]%res_map_total. unfold sort_rows. rewrite Hk. by eexists. Qed.

Lemma sort_all_ok data : timed_runs data -> exists data', sort_all data = Ok data'.
Proof.
  intros Hd. apply res_map_total, (Forall_impl _ _ _ Hd). intros [k tr] Htr. cbn in *.
  destruct (res_map_total (fun kv : Z * list csv_row => v ← sort_rows kv.2; Ok (kv.1, v)) tr) as [tr' H].
  - apply (Forall_impl _ _ _ Htr). intros [t rows] [rows' Hr]%sort_rows_ok. cbn in *. rewrite Hr. by eexists.
  - unfold dict_update_all. rewrite H. by eexists.
Qed.

(** The timeline file of rows that are good is read, run by run, as those
    rows in the order of their seconds. *)
Lemma timeline_read rows :
  Forall good_tl rows ->
  exists txt data, timeline_csv py_repr rows = Ok txt /\ load_timeline_file txt = Ok data /\
    forall s c t, run_rows data (s, c) t = text_row tl_fields <$> sort_by time_le (filter (window_of s c t) rows).
Proof.
  intros Hall. destruct (csv_file_ok tl_fields rows) as [txt Htxt].
  { apply (Forall_impl _ _ _ Hall). by intros x (s & c & t & k & Hx%gw_row%gr_keys). }
  destruct tl_fields_file as (Hnd & Hne & Hcr).
  pose proof (read_csv_file tl_fields rows txt Hnd Hne Hcr Htxt) as Hrows.
  assert (forall data, timed_runs data -> exists data',
    res_foldl timeline_add data (text_row tl_fields <$> rows) = Ok data' /\ timed_runs data') as Hfold.
  { clear -Hall. induction Hall as [|x rows Hx _ IH]; intros data Hd; [by eexists|]. cbn [fmap list_fmap res_foldl].
    destruct (timeline_add_ok data x Hx Hd) as (data' & -> & Hd'). cbn [mbind res_bind]. by apply IH. }
  destruct (Hfold []) as (data & Hf & Ht); [constructor|]. destruct (sort_all_ok data Ht) as [data' Hs].
  exists txt, data'. split_and!; [exact Htxt| |].
  - unfold load_timeline_file. rewrite Hrows. cbn [mbind res_bind]. unfold load_timeline. by rewrite Hf.
  - intros s c t. apply (sort_all_rows _ _ (s, c) t) in Hs. rewrite (timeline_fold _ _ _ Hf s c t) in Hs.
    change (run_rows [] (s, c) t) with (@nil csv_row) in Hs. cbn [app] in Hs.
    rewrite (filter_fmap_iff _ _ (window_of s c t)) in Hs.
    + rewrite sort_windows in Hs; [congruence|]. rewrite Forall_forall in Hall |- *. intros x [_ Hx]%list_elem_of_filter. by apply Hall.
    + apply (Forall_impl _ _ _ Hall). intros x (s' & c' & t' & k & Hx). by eapply belongs_window.
Qed.
End Files.

(** ** The rows the runner makes *)

Section Made.
Variable ROOT sys_executable : string.
Variable CLK : Z.

Lemma server_name_lacks name sv : dict_get (SERVERS ROOT sys_executable) name = Some sv -> lacks cr name = true.
Proof.
  intros Hget%dict_get_Some_elem%(list_elem_of_fmap_2 fst). revert Hget. cbn [fst].
  assert (Forall (fun n => lacks cr n = true) (SERVERS ROOT sys_executable).*1) as Hall by (by repeat constructor).
  rewrite Forall_forall in Hall. apply Hall.
Qed.

Lemma cpu_cores_valid s wall q : cpu_cores_of CLK s wall = Ok q -> f_valid q.
Proof.
  unfold cpu_cores_of. destruct (sm_cpu_end s); [|by intros [= <-]].
  destruct (sm_cpu_start s); [|done]. apply int_div_valid.
Qed.

Lemma mb_number kb x : mb_of_kb kb = Ok x -> number x.
Proof. intros (q & Hq & [= <-])%res_bind_Ok. by apply f_round_valid, (int_div_valid kb 1024). Qed.

Lemma round_field_number r k n x : json_valid r -> round_field r k n = Ok x -> number x.
Proof. intros Hr (v & Hv & Hx)%res_bind_Ok. eapply json_round_number, Hx. by eapply json_index_valid. Qed.

Lemma get_round_number r k n x :
  json_valid r -> (v ← json_get r k (JFloat f_zero); json_round v n) = Ok x -> number x.
Proof. intros Hr (v & Hv & Hx)%res_bind_Ok. eapply json_round_number, Hx.
  refine (json_get_valid _ _ _ _ Hr _ Hv). done.
Qed.

Ltac columns H :=
  repeat (apply elem_of_cons in H as [->|H]; [eexists; split; [reflexivity|eauto using mb_number, round_field_number, get_round_number]|]);
  by apply not_elem_of_nil in H.

Lemma made_good x : made_row ROOT sys_executable CLK x -> good x.
Proof.
  intros (name & sv & conns & trial & wall & s & r & Hn & Hr & Hx). unfold make_row in Hx.
  repeat match type of Hx with
    (_ ≫= _) = Ok _ => let v := fresh "v" in let Hv := fresh "Hv" in apply res_bind_Ok in Hx as (v & Hv & Hx)
  end.
  injection Hx as <-. exists name, conns. split; [done..|by eapply server_name_lacks|].
  intros k Hk.
  assert (forall q n, cpu_cores_of CLK s wall = Ok q -> number (JFloat (f_round q n))) as Hcpu.
  { intros q n Hq. by apply f_round_valid, (cpu_cores_valid s wall). }
  change chart_fields with ["moves_per_s"; "p99_ms"; "p50_ms"; "p99_worst_1s_ms"; "p99_cv"; "rss_peak_mb";
    "cpu_cores"; "client_cpu_cores"; "send_rate_pct"] in Hk. columns Hk.
Qed.

Lemma made_window_good x : made_window ROOT sys_executable x -> good_tl x.
Proof.
  intros (name & sv & conns & trial & w & Hn & Hr & (l & Hl & Hx)%res_bind_Ok).
  apply json_iter_valid in Hl; [|done].
  destruct l as [|t [|p50 [|p90 [|p99 [|p999 [|mx [|]]]]]]]; try done.
  repeat match type of Hx with
    (_ ≫= _) = Ok _ => let v := fresh "v" in let Hv := fresh "Hv" in apply res_bind_Ok in Hx as (v & Hv & Hx)
  end.
  injection Hx as <-. rewrite !Forall_cons in Hl. destruct Hl as (? & ? & ? & ? & ? & ? & _).
  exists name, conns, trial, v. split; [split; [done..|by eapply server_name_lacks|]|done|done].
  intros k Hk. unfold window_fields in Hk.
  repeat (apply elem_of_cons in Hk as [->|Hk]; [eexists; split; [reflexivity|eauto using json_round_number]|]).
  by apply not_elem_of_nil in Hk.
Qed.
End Made.

(** ** From the run to the report *)

Section Report.
Context {OS : Type} `{Kernel OS}.
Variable ROOT sys_executable : string.
Variable HAVE_TASKSET : bool.
Variable environ : dict string string.
Variable CLK : Z.
Variable py_repr : json -> string.
Variable g : config.

Notation run := (run_matrix ROOT sys_executable HAVE_TASKSET environ CLK json_loads g).

Lemma run_rows_made o b r : run (mkBench o [] []) = (b, r) -> rows_made ROOT sys_executable CLK g b.
Proof.
  intros Hrun. destruct (keeps_matrix ROOT sys_executable HAVE_TASKSET environ CLK json_loads json_loads_valid g
    (mkBench o [] [])) as [Hb _]; [by repeat constructor|]. by rewrite Hrun in Hb.
Qed.

(** C37: the rows are well typed: whatever the load generator answered and however
    the run ended, every row written has exactly the columns of its file, its
    server is text of one line and its load an integer, as are trial and second
    of a window, and the columns of the charts are numbers, integers or floats of
    the format. *)
Theorem rows_typed o b r :
  run (mkBench o [] []) = (b, r) -> Forall good (b_rows b) /\ Forall good_tl (b_timeline b).
Proof.
  intros (Hrows & Hwin & _)%run_rows_made. split.
  - apply (Forall_impl _ _ _ Hrows), made_good.
  - apply (Forall_impl _ _ _ Hwin), made_window_good.
Qed.

(** C36: no suspect row goes unmarked: however the run ended, the messages about
    rows are, in the order of the rows, those of each row's checks, and nothing
    else; a row is reported as saturated iff its client CPU exceeds 85% of the
    client's cores, as behind iff its send rate is below 97%. *)
Theorem suspects_marked o b r :
  run (mkBench o [] []) = (b, r) ->
  filter (fun m => is_alert m = true) (b_stderr b) = concat (row_alerts g <$> b_rows b) /\
  forall x, x ∈ b_rows b ->
    exists conns cpu rate,
      dict_get x "conns" = Some (JInt conns) /\
      dict_get x "client_cpu_cores" = Some cpu /\ dict_get x "send_rate_pct" = Some rate /\
      forall limit cpu_text rate_text,
        cpu_limit (n_client g) = Ok limit -> json_fixed 2 cpu = Ok cpu_text -> json_fixed 1 rate = Ok rate_text ->
        row_alerts g x =
          (if bool_decide (json_cmp cpu limit = Ok (Some Gt)) then [Saturated cpu_text (n_client g) conns] else []) ++
          (if bool_decide (json_cmp rate (f_of_ratio false 97 1) = Ok (Some Lt)) then [Behind rate_text conns] else []).
Proof.
  intros (Hrows & _ & Halerts)%run_rows_made. split; [exact Halerts|]. intros x Hx. rewrite Forall_forall in Hrows.
  destruct (made_good _ _ _ _ (Hrows x Hx)) as (s & c & Hg). exists c.
  destruct (gr_numbers _ _ _ _ _ Hg "client_cpu_cores") as (cpu & Hcpu & Hn); [by repeat constructor|].
  destruct (gr_numbers _ _ _ _ _ Hg "send_rate_pct") as (rate & Hrate & Hn'); [by repeat constructor|].
  exists cpu, rate. split_and!; [apply Hg|done..|]. intros limit ct rt Hl Hct Hrt.
  unfold row_alerts. rewrite (gr_conns _ _ _ _ _ Hg). by apply check_row_spec.
Qed.

(** C5: from the measurements to the charts: whatever the servers and the load
    generator did and however the run ended, the summary can be written, and
    the report reads it as exactly what was recorded: every chart's values for
    a server and a load are the recorded numbers of that column, in the order
    of the trials, none changed by the way through text, and the servers and
    loads listed are those that have a row. *)
Theorem matrix_report o b r :
  run (mkBench o [] []) = (b, r) ->
  exists txt out, results_csv py_repr (b_rows b) = Ok txt /\ load_file txt = Ok out /\ reports (b_rows b) out.
Proof.
  intros (Hrows & _)%run_rows_made. apply results_read, (Forall_impl _ _ _ Hrows), made_good.
Qed.

(** C8: the timeline likewise: for every run the report has exactly the windows
    recorded for it, as text of the recorded numbers, in the order of their
    seconds. *)
Theorem timeline_report o b r :
  run (mkBench o [] []) = (b, r) ->
  exists txt data, timeline_csv py_repr (b_timeline b) = Ok txt /\ load_timeline_file txt = Ok data /\
    forall s c t,
      run_rows data (s, c) t =
      text_row py_repr tl_fields <$> sort_by time_le (filter (window_of s c t) (b_timeline b)).
Proof.
  intros (_ & Hwin & _)%run_rows_made. apply timeline_read, (Forall_impl _ _ _ Hwin), made_window_good.
Qed.
End Report.

(** Two trials at each of two loads, from the text the load generator prints to
    the numbers of a chart. *)
Definition demo_bench : @Bench toy * res () :=
  run_matrix "/bench" "/usr/bin/python3" true [] 100 json_loads demo_config (mkBench toy_start [] []).

Lemma rows_typed_witness :
  length (b_rows demo_bench.1) = 4%nat /\ Forall good (b_rows demo_bench.1) /\
  length (b_timeline demo_bench.1) = 8%nat /\ Forall good_tl (b_timeline demo_bench.1).
Proof.
  destruct (rows_typed "/bench" "/usr/bin/python3" true [] 100 demo_config toy_start demo_bench.1 demo_bench.2)
    as [H1 H2].
  - unfold demo_bench. by destruct (run_matrix _ _ _ _ _ _ _ _).
  - split_and!; [vm_compute; reflexivity|exact H1|vm_compute; reflexivity|exact H2].
Defined.

(** The toy load generator reports no send rate: every row is suspect. *)
Lemma suspects_marked_witness :
  exists x, list.head (b_rows demo_bench.1) = Some x /\
    row_alerts demo_config x = [Behind "0.0" 500] /\
    filter (fun m => is_alert m = true) (b_stderr demo_bench.1) = concat (row_alerts demo_config <$> b_rows demo_bench.1) /\
    b_stderr demo_bench.1 =
      [UnknownServer "nope"; Behind "0.0" 500; Behind "0.0" 500; Behind "0.0" 1000; Behind "0.0" 1000].
Proof.
  destruct (suspects_marked "/bench" "/usr/bin/python3" true [] 100 demo_config toy_start demo_bench.1 demo_bench.2)
    as [H1 H2].
  - unfold demo_bench. by destruct (run_matrix _ _ _ _ _ _ _ _).
  - assert (exists x, list.head (b_rows demo_bench.1) = Some x) as [x Hx].
    { destruct (b_rows demo_bench.1) as [|x rows] eqn:Hb; [|by exists x].
      exfalso. assert (length (b_rows demo_bench.1) = 4%nat) as Hl by (vm_compute; reflexivity). by rewrite Hb in Hl. }
    exists x. split_and!; [exact Hx| |exact H1|vm_compute; reflexivity].
    destruct (H2 x) as (c & cpu & rate & Hc & Hcpu & Hrate & Hspec).
    { destruct (b_rows demo_bench.1); [done|]. injection Hx as ->. left. }
    assert ((fun x => (dict_get x "conns", dict_get x "client_cpu_cores", dict_get x "send_rate_pct")) <$>
      list.head (b_rows demo_bench.1) = Some (Some (JInt 500), Some (JFloat f_zero), Some (JFloat f_zero))) as Hv
      by (vm_compute; reflexivity).
    rewrite Hx in Hv. cbn in Hv. rewrite Hc, Hcpu, Hrate in Hv. injection Hv as -> -> ->.
    rewrite (Hspec (f_of_ratio false 17 10) "0.00" "0.0"); vm_compute; reflexivity.
Defined.

Lemma matrix_report_witness :
  exists txt out,
    results_csv (fun _ => "") (b_rows demo_bench.1) = Ok txt /\ load_file txt = Ok out /\
    values out.1.1 "p50_ms" "python" 500 = [f_of_ratio false 33 100; f_of_ratio false 33 100] /\
    reports (b_rows demo_bench.1) out.
Proof.
  destruct (matrix_report "/bench" "/usr/bin/python3" true [] 100 (fun _ => "") demo_config toy_start
    demo_bench.1 demo_bench.2) as (txt & [[data servers] conns] & H1 & H2 & H3).
  - unfold demo_bench. by destruct (run_matrix _ _ _ _ _ _ _ _).
  - exists txt, (data, servers, conns). split_and!; [exact H1|exact H2| |exact H3].
    destruct H3 as [H3 _]. rewrite H3 by (apply (bool_decide_eq_true_1 _); vm_compute; reflexivity).
    vm_compute. reflexivity.
Defined.

Lemma timeline_report_witness :
  exists txt data,
    timeline_csv (fun _ => "") (b_timeline demo_bench.1) = Ok txt /\ load_timeline_file txt = Ok data /\
    ((fun r => row_int r "t_s") <$> run_rows data ("python", 1000) 2) = [Ok 0; Ok 1].
Proof.
  destruct (timeline_report "/bench" "/usr/bin/python3" true [] 100 (fun _ => "") demo_config toy_start
    demo_bench.1 demo_bench.2) as (txt & data & H1 & H2 & H3).
  - unfold demo_bench. by destruct (run_matrix _ _ _ _ _ _ _ _).
  - exists txt, data. split_and!; [exact H1|exact H2|]. rewrite H3. vm_compute. reflexivity.
Defined.
