(* ===== verification/PlotTotal.v ===== *)
(** * The report is made

    The drawing of the timeline raises nothing on the rows the runner writes,
    as long as latencies and seconds are sane, and neither does anything else of
    [report]: [timeline_body_ok].  Of [math.log10] and powers of ten this needs
    what [Section Total] assumes.  *)

From Stdlib Require Import Ascii String ZArith Lia SpecFloat.
From S2P Require Import Prelude PyText PyDict PyFloat PyFloatThms PyJson PyNum PySort.
From S2P Require Import PlotData PlotThms PlotHtml PlotHtmlThms Matrix Results ResultsThms.

Open Scope string_scope.
Open Scope list_scope.
Open Scope Z_scope.

(** ** The ends of an axis *)

Definition f_nonzero (f : float) : bool := match f with S754_zero _ => false | _ => true end.

(** An end of an axis that can be divided by and cut into five. *)
Definition max_ok (n : num) : bool :=
  match num_float n with
  | Ok f => f_nonzero f && forallb (fun k => is_ok (grid_value n k)) [0; 1; 2; 3; 4; 5]
  | Raise _ => false
  end.

Definition factors : list Z := [1; 2; 5; 10].

Definition whole_maxes : list num :=
  concat ((fun k => (fun nf => NInt (nf * 10 ^ Z.of_nat k)) <$> factors) <$> seq 0 23).

Lemma whole_maxes_ok : forallb max_ok whole_maxes = true.
Proof. by vm_compute. Qed.

Lemma whole_scales_ok :
  forallb (fun k => match f_of_Z (10 ^ Z.of_nat k) with Ok f => f_nonzero f | Raise _ => false end) (seq 0 23) = true.
Proof. by vm_compute. Qed.

Lemma fdiv_ok x y : f_nonzero y = true -> exists q, fdiv x y = Ok q.
Proof. intros Hy. unfold fdiv. destruct y; try done; by eexists. Qed.

Lemma is_ok_Ok {A} (r : res A) : is_ok r = true -> exists a, r = Ok a.
Proof. destruct r as [a|e]; [by exists a|done]. Qed.

(** A positive latency: from a hundredth of a millisecond, to where the powers
    of ten stop being floats. *)
Definition latency (v : float) : Prop := fle (f_of_ratio false 1 100) v = true /\ fle v (f_of_ratio false (10 ^ 21) 1) = true.

(** ** Rows that can be drawn *)

Definition sane_value (v : float) : Prop := v = f_zero \/ latency v.

Definition sane_row (row : csv_row) : Prop :=
  (exists t, 0 <= t /\ row_int row "t_s" = Ok t) /\
  (forall x, x ∈ TL_SERIES -> exists v, row_float row x.1.1 = Ok v /\ sane_value v) /\
  exists s, PlotData.row_text row "server" = Ok s /\ lacks "034" s = true.

Definition sane_name (s : string) : Prop := lacks "034" s = true.

Lemma sane_server row s : sane_row row -> PlotData.row_text row "server" = Ok s -> sane_name s.
Proof. intros (_ & _ & s' & Hs' & Hl) Hs. assert (s' = s) as -> by congruence. exact Hl. Qed.

Lemma times_ok rows :
  Forall sane_row rows -> exists ts, times rows = Ok ts /\ Forall (fun t => 0 <= t) ts /\
    forall row t, row ∈ rows -> row_int row "t_s" = Ok t -> t ∈ ts.
Proof.
  unfold times. induction 1 as [|row rows [(t & Ht & Hrow) _] _ (ts & Hts & Hpos & Hin)].
  - exists []. split_and!; [done|constructor|by intros row t []%not_elem_of_nil].
  - exists (t :: ts). cbn [res_map]. rewrite Hrow. cbn [mbind res_bind]. rewrite Hts. split_and!; [done|by constructor|].
    intros row' t' [->|Hr]%elem_of_cons Ht'.
    + assert (t' = t) as -> by congruence. left.
    + right. by eapply Hin.
Qed.

Lemma foldl_max_spec t ts : t <= foldl Z.max t ts /\ Forall (fun x => x <= foldl Z.max t ts) ts.
Proof.
  revert t. induction ts as [|x ts IH]; intros t; cbn [foldl]; [split; [lia|constructor]|].
  destruct (IH (Z.max t x)) as [H1 H2]. split; [lia|]. constructor; [lia|done].
Qed.

Lemma row_max_ok row series vmax :
  (forall x, x ∈ series -> exists v, row_float row x.1.1 = Ok v /\ sane_value v) -> sane_value vmax ->
  exists v, row_max row series vmax = Ok v /\ sane_value v.
Proof.
  revert vmax. induction series as [|[[f l] c] series IH]; intros vmax Hs Hv; cbn [row_max]; [by exists vmax|].
  destruct (Hs (f, l, c)) as (v & Hf & Hsane); [left|]. cbn [fst] in Hf. unfold try_float. rewrite Hf. cbn [mbind res_bind].
  apply IH; [intros x Hx; apply Hs; by right|]. by destruct (flt vmax v).
Qed.

Lemma rows_max_ok rows : Forall sane_row rows -> exists v, rows_max rows = Ok v /\ sane_value v.
Proof.
  unfold rows_max. assert (sane_value f_zero) as H0 by by left. revert H0. generalize f_zero.
  intros v0 H0 Hrows. revert v0 H0. induction Hrows as [|row rows (_ & Hrow & _) _ IH]; intros v0 H0; cbn [res_foldl]; [by exists v0|].
  destruct (row_max_ok row TL_SERIES v0 Hrow H0) as (v & -> & Hv). cbn [mbind res_bind]. by apply IH.
Qed.

(** ** Coordinates *)

Lemma x_of_ok maxT t : 0 <= t <= maxT -> exists x, x_of maxT t = Ok x.
Proof.
  intros Ht. unfold x_of. destruct (maxT <=? 0) eqn:Hm; [by eexists|].
  apply Z.leb_gt in Hm. destruct (int_div_ok ((W - MR - ML) * t) maxT) as [q Hq].
  - lia.
  - change (W - MR - ML) with 700. assert (2 ^ 10 <= 2 ^ 900) by (apply Z.pow_le_mono_r; lia). nia.
  - rewrite Hq. by eexists.
Qed.

Lemma y_of_ok ymax v : f_nonzero ymax = true -> exists y, y_of ymax v = Ok y.
Proof. intros Hy. unfold y_of. destruct (fdiv_ok v ymax Hy) as [q Hq]. rewrite Hq. by eexists. Qed.

Lemma y_plus_4 y : exists s, y_plus y 4 = Ok s.
Proof. by eexists. Qed.

Lemma grid_line_ok n k : max_ok n = true -> k ∈ [0; 1; 2; 3; 4; 5] -> exists s, grid_line n k = Ok s.
Proof.
  unfold max_ok, grid_line. intros Hn Hk. destruct (num_float n) as [f|e]; [|done].
  apply andb_true_iff in Hn as [Hf Hall]. destruct (is_ok_Ok _ (forallb_elem _ _ _ Hall Hk)) as [g ->].
  cbn [mbind res_bind]. destruct (y_of_ok f g Hf) as [y ->]. by eexists.
Qed.

Lemma line_points_ok rows field :
  Forall (fun row => (exists t, 0 <= t /\ row_int row "t_s" = Ok t) /\ exists v, row_float row field = Ok v) rows ->
  exists pts, line_points rows field = Ok pts /\
    Forall (fun p : Z * float => exists row, row ∈ rows /\ row_int row "t_s" = Ok p.1) pts.
Proof.
  induction 1 as [|row rows [(t & Ht & Hrow) (v & Hv)] _ (pts & Hp & Hin)]; [by exists []|].
  cbn [line_points]. rewrite Hrow, Hv. cbn [mbind res_bind]. rewrite Hp. eexists. split; [reflexivity|].
  constructor; [exists row; split; [left|done]|]. apply (Forall_impl _ _ _ Hin). intros p (r & Hr & Hp'). exists r. split; [by right|done].
Qed.

Lemma path_step_ok maxT ymax first p :
  f_nonzero ymax = true -> 0 <= p.1 <= maxT -> exists s, path_step maxT ymax first p = Ok s.
Proof.
  intros Hy Hp. unfold path_step. destruct (x_of_ok maxT p.1 Hp) as [x ->]. cbn [mbind res_bind].
  destruct (y_of_ok ymax p.2 Hy) as [y ->]. by eexists.
Qed.

Lemma line_svg_ok maxT ymax rows series :
  f_nonzero ymax = true -> Forall sane_row rows -> series ∈ TL_SERIES ->
  (forall row t, row ∈ rows -> row_int row "t_s" = Ok t -> 0 <= t <= maxT) ->
  exists s, line_svg maxT ymax rows series = Ok s.
Proof.
  intros Hy Hrows Hs Ht. destruct series as [[field label] color]. unfold line_svg.
  destruct (line_points_ok rows field) as (pts & Hp & Hin).
  { apply (Forall_impl _ _ _ Hrows). intros row (H1 & H2 & _). split; [done|].
    destruct (H2 _ Hs) as (v & Hv & _). by exists v. }
  rewrite Hp. cbn [mbind res_bind].
  assert (Forall (fun p : Z * float => 0 <= p.1 <= maxT) pts) as Hpts.
  { apply (Forall_impl _ _ _ Hin). intros p (row & Hrow & Hr). by eapply Ht. }
  destruct (list.last pts) as [p|]; [|by eexists].
  assert (exists d, path_data maxT ymax pts = Ok d) as [d ->].
  { unfold path_data. destruct Hpts as [|q pts Hq Hpts]; [by eexists|].
    destruct (path_step_ok maxT ymax true q Hy Hq) as [d ->]. cbn [mbind res_bind].
    destruct (res_map_total (path_step maxT ymax false) pts) as [ds ->]; [|by eexists].
    apply (Forall_impl _ _ _ Hpts). intros p'. by apply path_step_ok. }
  cbn [mbind res_bind]. destruct (y_of_ok ymax p.2 Hy) as [y ->]. by eexists.
Qed.

(** ** What [load_timeline] yields *)

Section Drawable.
Variable P : csv_row -> Prop.
Variable K : string -> Prop.
Hypothesis P_server : forall row s, P row -> PlotData.row_text row "server" = Ok s -> K s.

(** A run with a trial, all of whose rows are [P], of a server that is [K]. *)
Record drawable_run (kv : (string * Z) * dict Z (list csv_row)) : Prop := {
  dr_name : K kv.1.1;
  dr_trials : kv.2 <> [];
  dr_rows : Forall (fun tr : Z * list csv_row => Forall P tr.2) kv.2 }.

Lemma timeline_add_drawable data row data' :
  timeline_add data row = Ok data' -> P row -> Forall drawable_run data -> Forall drawable_run data'.
Proof.
  unfold timeline_add. intros (s & Hs & (c & _ & (t & _ & Hd)%res_bind_Ok)%res_bind_Ok)%res_bind_Ok Hrow Hall.
  injection Hd as <-.
  assert (Forall (fun tr : Z * list csv_row => Forall P tr.2) (dict_default data (s, c) [])) as Htr.
  { apply (dict_default_Forall (Forall _)); [|constructor]. apply (Forall_impl _ _ _ Hall). by intros kv []. }
  apply dict_set_Forall; [done|]. split; cbn [fst snd].
  - by apply (P_server row).
  - by destruct (dict_default data (s, c) []) as [|[t' l] trials]; cbn; [|case_decide].
  - apply dict_set_Forall; [done|]. apply Forall_app. split; [|by repeat constructor].
    apply (dict_default_Forall (Forall P)); [done|constructor].
Qed.

Lemma sort_rows_Forall rows rows' : sort_rows rows = Ok rows' -> Forall P rows -> Forall P rows'.
Proof.
  unfold sort_rows. intros (keys & _ & Hs)%res_bind_Ok Hall. injection Hs as <-.
  apply Forall_fmap. rewrite (sort_by_Permutation _ _). apply Forall_forall. intros [k row] Hin.
  rewrite Forall_forall in Hall. by apply Hall, (elem_of_zip_r _ _ _ _ Hin).
Qed.

Lemma sort_all_drawable data data' : sort_all data = Ok data' -> Forall drawable_run data -> Forall drawable_run data'.
Proof.
  unfold sort_all, dict_update_all at 1. intros Hs%res_map_Ok. induction Hs as [|kv kv' data data' Hkv _ IH]; [done|].
  intros [[Hname Hne Hrows] Hall]%Forall_cons. constructor; [|by apply IH]. clear IH Hall.
  apply res_bind_Ok in Hkv as (trials & Ht & Hkv). injection Hkv as <-. unfold dict_update_all in Ht.
  apply res_map_Ok in Ht. split; cbn [fst snd].
  - exact Hname.
  - destruct Ht; [done|discriminate].
  - clear Hne. induction Ht as [|tr tr' trials trials' Htr _ IH]; [constructor|].
    apply Forall_cons in Hrows as [Hr Hrows]. constructor; [|by apply IH].
    apply res_bind_Ok in Htr as (rows & Hsort & Htr). injection Htr as <-. by eapply sort_rows_Forall.
Qed.

Lemma load_timeline_drawable rows data :
  Forall P rows -> load_timeline rows = Ok data -> Forall drawable_run data.
Proof.
  unfold load_timeline. intros Hrows (data1 & Hf & Hs)%res_bind_Ok. apply (sort_all_drawable _ _ Hs). clear Hs.
  assert (Forall drawable_run []) as Hnil by constructor. revert Hf Hnil. generalize (@nil ((string * Z) * dict Z (list csv_row))).
  induction Hrows as [|row rows Hrow _ IH]; intros data0 Hf Hd; cbn [res_foldl] in Hf; [congruence|].
  apply res_bind_Ok in Hf as (data2 & Hadd & Hf). apply (IH data2 Hf). by eapply timeline_add_drawable.
Qed.
End Drawable.

Lemma foldl_min_elem t ts : foldl Z.min t ts ∈ t :: ts.
Proof.
  revert t. induction ts as [|x ts IH]; intros t; cbn [foldl]; [left|].
  specialize (IH (Z.min t x)). rewrite !elem_of_cons in *. destruct IH as [->|IH]; [|tauto].
  destruct (Z.min_spec t x) as [[_ ->]|[_ ->]]; tauto.
Qed.

Lemma first_trial_ok (trials : dict Z (list csv_row)) :
  trials <> [] -> exists tr rows, first_trial trials = Ok (tr, rows) /\ (tr, rows) ∈ trials.
Proof.
  intros Hne. unfold first_trial. destruct (dict_keys trials) as [|t ts] eqn:Hk.
  { destruct trials; [done|discriminate]. }
  pose proof (foldl_min_elem t ts) as Hin. rewrite <- Hk in Hin. apply dict_get_keys in Hin as [rows Hrows].
  exists (foldl Z.min t ts), rows. unfold dict_index. rewrite Hrows. split; [done|]. by apply dict_get_Some_elem.
Qed.

Section Total.
Variable log10 : float -> float.
Variable pow10 : Z -> float.
Hypothesis log10_range : forall v, latency v -> exists k, f_floor (log10 v) = Ok k /\ -2 <= k <= 22.
Hypothesis pow10_tenth : pow10 (-1) = f_of_ratio false 1 10 /\ pow10 (-2) = f_of_ratio false 1 100.

Lemma nice_max_ok v : latency v -> exists n, nice_max log10 pow10 v = Ok n /\ max_ok n = true.
Proof.
  intros Hv. destruct (log10_range v Hv) as (k & Hk & Hr). unfold nice_max.
  destruct (fle v f_zero) eqn:Hz; [exists (NInt 1); split; [done|by vm_compute]|].
  rewrite Hk. cbn [mbind res_bind]. change (f_of_Z 1) with (Ok (f_of_ratio false 1 1)).
  change (f_of_Z 2) with (Ok (f_of_ratio false 2 1)). change (f_of_Z 5) with (Ok (f_of_ratio false 5 1)).
  unfold ten_to. destruct (Z.leb_spec 0 k) as [Hk0|Hk0]; cbn [num_float mbind res_bind].
  - assert (Z.to_nat k ∈ seq 0 23) as Hin by (apply elem_of_seq; lia).
    pose proof (forallb_elem _ _ _ whole_scales_ok Hin) as Hscale. cbv beta in Hscale. rewrite Z2Nat.id in Hscale by done.
    destruct (f_of_Z (10 ^ k)) as [sc|e]; [|done]. cbn [mbind res_bind].
    destruct (fdiv_ok v sc Hscale) as [f ->]. cbn [mbind res_bind]. eexists. split; [reflexivity|].
    apply (forallb_elem _ whole_maxes _ whole_maxes_ok). unfold whole_maxes. apply list_elem_of_In, in_concat.
    exists ((fun nf => NInt (nf * 10 ^ k)) <$> factors). split.
    + apply list_elem_of_In, list_elem_of_fmap. exists (Z.to_nat k). by rewrite Z2Nat.id.
    + apply list_elem_of_In, (list_elem_of_fmap_2 (fun nf => NInt (nf * 10 ^ k))).
      destruct (fle f _); [left|]. destruct (fle f _); [right; left|].
      destruct (fle f _); [right; right; left|right; right; right; left].
  - destruct pow10_tenth as [H1 H2].
    assert (k = -1 \/ k = -2) as [->| ->] by lia; [rewrite H1|rewrite H2];
      [destruct (fdiv_ok v (f_of_ratio false 1 10) eq_refl) as [f ->]
      |destruct (fdiv_ok v (f_of_ratio false 1 100) eq_refl) as [f ->]]; cbn [mbind res_bind];
      (destruct (fle f _); [by eexists; split; [reflexivity|vm_compute]|]);
      (destruct (fle f _); [by eexists; split; [reflexivity|vm_compute]|]);
      (destruct (fle f _); by eexists; split; [reflexivity|vm_compute]).
Qed.

Lemma timeline_svg_ok server conns rows :
  Forall sane_row rows -> exists s, timeline_svg log10 pow10 server conns rows = Ok s.
Proof.
  intros Hrows. unfold timeline_svg. destruct (times_ok rows Hrows) as (ts & -> & Hpos & Hts). cbn [mbind res_bind].
  set (maxT := match ts with [] => 0 | t :: ts => foldl Z.max t ts end).
  assert (forall row t, row ∈ rows -> row_int row "t_s" = Ok t -> 0 <= t <= maxT) as Hrange.
  { intros row t Hrow Ht. pose proof (Hts row t Hrow Ht) as Hin. rewrite Forall_forall in Hpos. split; [by apply Hpos|].
    unfold maxT. destruct ts as [|t0 ts]; [by apply not_elem_of_nil in Hin|].
    destruct (foldl_max_spec t0 ts) as [H1 H2]. rewrite Forall_forall in H2.
    apply elem_of_cons in Hin as [->|Hin]; [done|by apply H2]. }
  destruct (rows_max_ok rows Hrows) as (vmax & -> & Hv). cbn [mbind res_bind].
  assert (exists n, (if flt f_zero vmax then nice_max log10 pow10 vmax else Ok (NInt 1)) = Ok n /\ max_ok n = true)
    as (n & -> & Hn).
  { destruct Hv as [->|Hv]; [by eexists; split; [reflexivity|vm_compute]|].
    destruct (flt f_zero vmax); [by apply nice_max_ok|by eexists; split; [reflexivity|vm_compute]]. }
  cbn [mbind res_bind]. assert (exists f, num_float n = Ok f /\ f_nonzero f = true) as (f & -> & Hf).
  { unfold max_ok in Hn. destruct (num_float n) as [f|e]; [|done]. apply andb_true_iff in Hn as [Hf _]. by exists f. }
  cbn [mbind res_bind].
  destruct (res_map_total (grid_line n) [0; 1; 2; 3; 4; 5]) as [grid ->].
  { apply Forall_forall. intros k Hk. by apply grid_line_ok. }
  cbn [mbind res_bind]. destruct (res_map_total (time_tick maxT) (ticks_of maxT)) as [ticks ->].
  { apply Forall_forall. intros t (k & Hk & -> & Hle)%ticks_of_spec. unfold time_tick.
    destruct (tick_step_bounds maxT) as [Hstep _].
    destruct (x_of_ok maxT (k * tick_step maxT)) as [x ->]; [nia|by eexists]. }
  cbn [mbind res_bind]. destruct (res_map_total (line_svg maxT f rows) TL_SERIES) as [lines ->]; [|by eexists].
  apply Forall_forall. intros series Hs. by apply line_svg_ok.
Qed.

Lemma timeline_card_ok data key :
  Forall (drawable_run sane_row sane_name) data -> key ∈ timeline_keys data -> exists s, timeline_card log10 pow10 data key = Ok s.
Proof.
  intros Hd Hk. unfold timeline_card.
  assert (is_Some (dict_get data key)) as [trials Ht].
  { apply dict_get_keys. unfold timeline_keys in Hk. by rewrite elem_of_sort_by in Hk. }
  unfold dict_index at 1. rewrite Ht. cbn [res_of_option mbind res_bind].
  apply dict_get_Some_elem in Ht. rewrite Forall_forall in Hd. destruct (Hd _ Ht) as [_ Hne Hrows]. cbn [snd] in *.
  destruct (first_trial_ok trials Hne) as (tr & rows & -> & Hin). cbn [mbind res_bind fst snd].
  destruct rows as [|row rows]; [by eexists|]. rewrite Forall_forall in Hrows.
  destruct (timeline_svg_ok key.1 key.2 (row :: rows) (Hrows _ Hin)) as [svg ->]. by eexists.
Qed.

Lemma timeline_body_ok tl_data src :
  match tl_data with Some data => Forall (drawable_run sane_row sane_name) data | None => True end ->
  exists s, timeline_body log10 pow10 tl_data src = Ok s.
Proof.
  destruct tl_data as [data|]; [|by eexists]. intros Hd.
  destruct (res_map_total (timeline_card log10 pow10 data) (timeline_keys data)) as [cards Hc].
  { apply Forall_forall. intros key. by apply timeline_card_ok. }
  destruct data as [|kv data]; [by eexists|]. unfold timeline_body. rewrite Hc. by eexists.
Qed.
End Total.

(** ** The rows the runner writes *)

(** A window of a run with latencies and a second that make sense. *)
Definition sane_window (x : row) : Prop :=
  0 <= row_time x /\ forall k, k ∈ window_fields -> exists v f, dict_get x k = Some v /\ number_value v = [f] /\ sane_value f.

Lemma sane_text_row py_repr x :
  good_tl x -> sane_window x -> (forall s, row_server x = Some s -> lacks "034" s = true) ->
  sane_row (text_row py_repr tl_fields x).
Proof.
  intros (s & c & t & k & Hx) [Ht Hv] Hname. destruct (good_window_reads py_repr x s c t k Hx) as (Hserver & _ & _ & Htime).
  split_and!.
  - exists k. split; [|exact Htime]. unfold row_time, row_number in Ht. by rewrite (gw_time _ _ _ _ _ Hx) in Ht.
  - intros y Hy. assert (y.1.1 ∈ window_fields) as Hin by by apply (list_elem_of_fmap_2 (fun y => y.1.1)) in Hy.
    destruct (Hv _ Hin) as (v & f & Hget & Hnum & Hsane). destruct tl_fields_in as (_ & _ & _ & _ & Hall).
    rewrite Forall_forall in Hall. destruct (gr_numbers _ _ _ _ _ (gw_row _ _ _ _ _ Hx) _ Hin) as (v' & Hget' & Hn).
    assert (v' = v) as -> by congruence.
    destruct (text_row_float py_repr tl_fields x _ v (Hall _ Hin) Hget Hn) as (f' & Hf & Hf'). exists f'.
    split; [exact Hf|]. assert (f' = f) as -> by congruence. exact Hsane.
  - exists s. split; [exact Hserver|]. apply Hname. unfold row_server. by rewrite (gr_server _ _ _ _ _ (gw_row _ _ _ _ _ Hx)).
Qed.

(** The timeline file of sane windows can be drawn. *)
Lemma timeline_drawable py_repr rows txt :
  Forall good_tl rows -> Forall sane_window rows ->
  Forall (fun x => forall s, row_server x = Some s -> lacks "034" s = true) rows -> timeline_csv py_repr rows = Ok txt ->
  exists data, load_timeline_file txt = Ok data /\ Forall (drawable_run sane_row sane_name) data.
Proof.
  intros Hgood Hsane Hnames Htxt. destruct (timeline_read py_repr rows Hgood) as (txt' & data & Htxt' & Hload & _).
  assert (txt' = txt) as -> by congruence. exists data. split; [exact Hload|]. unfold load_timeline_file in Hload.
  destruct tl_fields_file as (Hnd & Hne & Hcr). unfold timeline_csv in Htxt.
  rewrite (read_csv_file py_repr tl_fields rows txt Hnd Hne Hcr Htxt) in Hload. cbn [mbind res_bind] in Hload.
  refine (load_timeline_drawable sane_row sane_name sane_server _ _ _ Hload). apply Forall_fmap, Forall_forall. intros x Hx.
  rewrite Forall_forall in Hgood, Hsane, Hnames. apply sane_text_row; [by apply Hgood|by apply Hsane|by apply Hnames].
Qed.

Lemma saturation_body_ok data servers conns src : exists s, saturation_body data servers conns src = Ok s.
Proof. unfold saturation_body, table_html. rewrite table_rows_eq. by eexists. Qed.
