(* ===== verification/CutShort.v ===== *)
(** * A run that is cut short (runner/run.py, lines 430-445, 455-530)

    What is on the disk when the runner is stopped at any moment, by an
    exception or from outside, and what the report makes of it.

    - [on_disk]: a file may lag behind what was written to it, except at a
      flush;
    - [trial_ops], [tidy]: the operations on the two files are those of whole
      trials and a part of one;
    - [cut_short]: the theorem. *)

From Stdlib Require Import Ascii String ZArith Lia SpecFloat.
From S2P Require Import Prelude PyText PyDict PyFloat PyFloatThms PyJson PyNum PyRepr PyJsonText PyJsonThms PyCsv PyCsvThms.
From S2P Require Import PySort RunnerSpecs Procfs Lifecycle LifecycleThms Matrix MatrixThms PlotData PlotThms Results ResultsThms.

Open Scope string_scope.
Open Scope list_scope.
Open Scope Z_scope.

(** ** Files with a buffer *)

(** [s] begins with [p]. *)
Definition begins (p s : string) : Prop := exists u, s = p +:+ u.

Lemma begins_refl s : begins s s.
Proof. exists "". by rewrite append_nil_r. Qed.

Lemma begins_trans s1 s2 s3 : begins s1 s2 -> begins s2 s3 -> begins s1 s3.
Proof. intros [u ->] [v ->]. exists (u +:+ v). by rewrite append_assoc. Qed.

Lemma begins_antisym s1 s2 : begins s1 s2 -> begins s2 s1 -> s1 = s2.
Proof.
  intros [u ->] [v Hv]. assert (String.length (u +:+ v) = 0%nat) as Hl.
  { apply (f_equal String.length) in Hv. rewrite !length_append in Hv. rewrite length_append. lia. }
  rewrite length_append in Hl. destruct u; [by rewrite append_nil_r|cbn in Hl; lia].
Qed.

Section Disk.
(** What the operations make of the file, and which of them flush it. *)
Variable text : list file_op -> res string.
Variable flushes : file_op -> bool.

(** What can be on the disk after these operations. The operating system keeps
    what it was given when the program is stopped. *)
Inductive on_disk : list file_op -> string -> Prop :=
  | disk_open t d : text [] = Ok t -> begins d t -> on_disk [] d
  | disk_write log op d d' t :
      on_disk log d -> flushes op = false -> text (log ++ [op]) = Ok t -> begins d d' -> begins d' t ->
      on_disk (log ++ [op]) d'
  | disk_flush log op d t :
      on_disk log d -> flushes op = true -> text (log ++ [op]) = Ok t -> on_disk (log ++ [op]) t.

Lemma on_disk_text log d : on_disk log d -> exists t, text log = Ok t /\ begins d t.
Proof. destruct 1 as [t d Ht Hd|log op d d' t _ _ Ht _ Hd|log op d t _ _ Ht]; eauto using begins_refl. Qed.

(** Operations that leave the file alone and do not flush it. *)
Definition passes (op : file_op) : Prop := forall log, text (log ++ [op]) = text log.

(** After a flush, and operations that pass, everything is on the disk. *)
Lemma on_disk_flushed log op rest d :
  flushes op = true -> Forall passes rest -> on_disk (log ++ op :: rest) d ->
  text (log ++ op :: rest) = Ok d.
Proof.
  intros Hop. revert d. induction rest as [|op' rest IH] using rev_ind; intros d Hrest Hd.
  - inversion Hd as [t d0 _ _ Hnil|log' op' d0 d' t _ Hno _ _ _ Heq|log' op' d0 t _ _ Ht Heq]; subst.
    + by destruct log.
    + apply app_inj_tail in Heq as [-> ->]. congruence.
    + apply app_inj_tail in Heq as [-> ->]. done.
  - apply Forall_app in Hrest as [Hrest [Hop' _]%Forall_cons].
    assert (log ++ op :: rest ++ [op'] = (log ++ op :: rest) ++ [op']) as Happ by by rewrite <- (assoc_L (++)).
    rewrite Happ in *. rewrite (Hop' (log ++ op :: rest)).
    inversion Hd as [t d0 _ _ Hnil|log' op'' d0 d' t Hd0 Hno Ht Hd0' Hdt Heq|log' op'' d0 t Hd0 _ Ht Heq]; subst.
    + by destruct log.
    + apply app_inj_tail in Heq as [-> ->]. apply IH in Hd0; [|done]. rewrite (Hop' (log ++ op :: rest)), Hd0 in Ht.
      injection Ht as <-. rewrite Hd0. f_equal. by apply begins_antisym.
    + apply app_inj_tail in Heq as [-> ->]. by rewrite <- (Hop' (log ++ op :: rest)).
Qed.

(** What was on the disk stays. *)
Lemma on_disk_grows log rest d :
  (forall log op t t', text log = Ok t -> text (log ++ [op]) = Ok t' -> begins t t') ->
  on_disk (log ++ rest) d -> exists d0, on_disk log d0 /\ begins d0 d.
Proof.
  intros Hmono. revert d. induction rest as [|op rest IH] using rev_ind; intros d Hd.
  { rewrite app_nil_r in Hd. eauto using begins_refl. }
  rewrite (assoc_L (++)) in Hd.
  inversion Hd as [t d0 _ _ Hnil|log' op'' d0 d' t Hd0 Hno Ht Hd0' Hdt Heq|log' op'' d0 t Hd0 _ Ht Heq]; subst.
  - by destruct log, rest.
  - apply app_inj_tail in Heq as [-> ->]. destruct (IH _ Hd0) as (d1 & H1 & H2). eauto using begins_trans.
  - apply app_inj_tail in Heq as [-> ->]. destruct (IH _ Hd0) as (d1 & H1 & H2).
    destruct (on_disk_text _ _ Hd0) as (t0 & Ht0 & Hb). exists d1. split; [done|].
    eauto using begins_trans.
Qed.
End Disk.

(** ** The operations of a run *)

(** A trial: its row, and its windows. *)
Definition trial_ops (t : row * list row) : list file_op :=
  [WriteRow t.1; FlushRows] ++ (WriteWindow <$> t.2) ++ [FlushWindows].

(** The windows of a trial bear its server, load and number. *)
Definition of_trial (t : row * list row) : Prop := Forall (fun w => key_of w = key_of t.1) t.2.

(** Whole trials, and the first operations of one more. *)
Definition tidy (log : list file_op) : Prop :=
  exists ts t part, Forall of_trial ts /\ of_trial t /\ log = concat (trial_ops <$> ts) ++ part /\ part `prefix_of` trial_ops t.

(** Whole trials. *)
Definition settled (log : list file_op) : Prop :=
  exists ts, Forall of_trial ts /\ log = concat (trial_ops <$> ts).

Lemma settled_tidy log : settled log -> tidy log.
Proof.
  intros (ts & Hts & ->). exists ts, ([], []), []. split_and!; [done|by constructor|by rewrite app_nil_r|apply prefix_nil].
Qed.

Lemma prefix_app_cases {A} (l l1 l2 : list A) :
  l `prefix_of` l1 ++ l2 -> l `prefix_of` l1 \/ exists l', l = l1 ++ l' /\ l' `prefix_of` l2.
Proof.
  intros Hl. destruct (prefix_weak_total l l1 (l1 ++ l2)) as [?|[l' ->]]; [done|by apply prefix_app_r|by left|].
  right. exists l'. split; [done|]. by eapply prefix_app_inv.
Qed.

(** At every moment. *)
Lemma tidy_prefix log log' : tidy log -> log' `prefix_of` log -> tidy log'.
Proof.
  intros (ts & t & part & Hts & Ht & -> & Hpart). revert log'. induction Hts as [|t1 ts Ht1 Hts IH]; intros log' Hlog'.
  - exists [], t, log'. split_and!; [constructor|done|done|]. by etransitivity.
  - rewrite fmap_cons in *. cbn [concat] in *. rewrite <- (assoc_L (++)) in Hlog'. apply prefix_app_cases in Hlog' as [Hlog'|(l & -> & Hl)].
    + exists [], t1, log'. split_and!; [constructor|done..].
    + destruct (IH l Hl) as (ts' & t' & part' & Hts' & Ht' & -> & Hpart'). exists (t1 :: ts'), t', part'.
      split_and!; [by constructor|done| |done].
      rewrite fmap_cons. cbn [concat]. by rewrite (assoc_L (++)).
Qed.

(** Where a trial can be broken off. *)
Lemma part_cases t part :
  part `prefix_of` trial_ops t ->
  part = [] \/ part = [WriteRow t.1] \/ part = trial_ops t \/
  exists ws, ws `prefix_of` t.2 /\ part = WriteRow t.1 :: FlushRows :: (WriteWindow <$> ws).
Proof.
  unfold trial_ops. cbn [app]. destruct part as [|op part]; [by left|]. intros Hp.
  pose proof (prefix_cons_inv_1 _ _ _ _ Hp) as ->. apply prefix_cons_inv_2 in Hp.
  destruct part as [|op part]; [by right; left|]. right; right.
  pose proof (prefix_cons_inv_1 _ _ _ _ Hp) as ->. apply prefix_cons_inv_2 in Hp.
  apply prefix_app_cases in Hp as [Hp|(l & -> & Hl)].
  - right. revert part Hp. generalize (t.2). induction l as [|w l IH]; intros part Hp.
    + apply prefix_nil_inv in Hp as ->. exists []. split; [done|done].
    + destruct part as [|op part]; [exists []; split; [apply prefix_nil|done]|].
      cbn in Hp. pose proof (prefix_cons_inv_1 _ _ _ _ Hp) as ->. apply prefix_cons_inv_2 in Hp.
      destruct (IH part Hp) as (ws & Hws & [= ->]). exists (w :: ws). split; [by apply prefix_cons|done].
  - destruct l as [|op l].
    + right. exists t.2. by rewrite app_nil_r.
    + left. pose proof (prefix_cons_inv_1 _ _ _ _ Hl) as ->. apply prefix_cons_inv_2, prefix_nil_inv in Hl as ->. done.
Qed.

(** A log with its whole trials, and what there is of another. *)
Inductive broken_off (ts : list (row * list row)) : list file_op -> list row -> list row -> Prop :=
  | between : broken_off ts (concat (trial_ops <$> ts)) [] []
  | row_written x : broken_off ts (concat (trial_ops <$> ts) ++ [WriteRow x]) [x] []
  | row_flushed x ws :
      of_trial (x, ws) ->
      broken_off ts (concat (trial_ops <$> ts) ++ WriteRow x :: FlushRows :: (WriteWindow <$> ws)) [x] ws.

Lemma tidy_broken log : tidy log -> exists ts rows ws, Forall of_trial ts /\ broken_off ts log rows ws.
Proof.
  intros (ts & [x ws] & part & Hts & Ht & -> & Hpart). apply part_cases in Hpart as [-> |[-> |[-> |(ws' & Hws & ->)]]].
  - exists ts, [], []. split; [done|]. rewrite app_nil_r. constructor.
  - exists ts, [x], []. split; [done|]. constructor.
  - exists (ts ++ [(x, ws)]), [], []. split; [apply Forall_app; by repeat constructor|].
    assert (concat (trial_ops <$> ts) ++ trial_ops (x, ws) = concat (trial_ops <$> ts ++ [(x, ws)])) as ->; [|constructor].
    rewrite fmap_app, concat_app. cbn. by rewrite app_nil_r.
  - exists ts, [x], ws'. split; [done|]. constructor. destruct Hws as [k Hk]. unfold of_trial in *. cbn in *.
    rewrite Hk in Ht. by apply Forall_app in Ht as [? _].
Qed.

Lemma written_some ws : written_rows (WriteWindow <$> ws) = [] /\ written_windows (WriteWindow <$> ws) = ws.
Proof.
  split; induction ws as [|w ws IH]; [done..| |]; unfold written_rows, written_windows in *; cbn in *; [done|by f_equal].
Qed.

Lemma written_trial t :
  written_rows (trial_ops t) = [t.1] /\ written_windows (trial_ops t) = t.2.
Proof.
  unfold trial_ops. destruct (written_some t.2) as [H1 H2].
  rewrite !written_rows_app, !written_windows_app, H1, H2. split; [done|apply app_nil_r].
Qed.

Lemma written_trials ts :
  written_rows (concat (trial_ops <$> ts)) = ts.*1 /\ written_windows (concat (trial_ops <$> ts)) = concat ts.*2.
Proof.
  induction ts as [|t ts [IH1 IH2]]; [done|]. rewrite !fmap_cons. cbn [concat]. destruct (written_trial t) as [H1 H2].
  by rewrite written_rows_app, written_windows_app, H1, H2, IH1, IH2.
Qed.

Lemma broken_written ts log rows ws :
  broken_off ts log rows ws -> written_rows log = ts.*1 ++ rows /\ written_windows log = concat ts.*2 ++ ws.
Proof.
  destruct (written_trials ts) as [H1 H2]. destruct 1 as [|x|x ws _]; rewrite ?written_rows_app, ?written_windows_app, H1, H2;
    cbn; rewrite ?app_nil_r; [done..|].
  destruct (written_some ws) as [H3 H4]. unfold written_rows, written_windows in *. by rewrite H3, H4.
Qed.

(** ** The operations of a run are tidy *)

Section Runs.
Context {OS : Type} `{Kernel OS}.
Variable ROOT sys_executable : string.
Variable HAVE_TASKSET : bool.
Variable environ : dict string string.
Variable CLK : Z.
Variable g : config.

Notation Bench := (@Bench OS).

(** What [m] does to the files: from [P] to [Q] with a result, to something tidy
    with an exception. *)
Definition logs {A} (P : list file_op -> Prop) (m : st Bench A) (Q : A -> list file_op -> Prop) : Prop :=
  forall b, P (b_log b) -> match m b with (b', Ok a) => Q a (b_log b') | (b', Raise _) => tidy (b_log b') end.

Lemma logs_bind {A B} P (m : st Bench A) (k : A -> st Bench B) Q R :
  logs P m Q -> (forall a, logs (Q a) (k a) R) -> logs P (m ≫= k) R.
Proof.
  intros Hm Hk b Hb. specialize (Hm b Hb). unfold mbind, st_bind. destruct (m b) as [b1 [a|e]]; [by apply Hk|done].
Qed.

Lemma logs_lift {A} (P : list file_op -> Prop) (r : res A) :
  (forall l, P l -> tidy l) -> logs P (st_lift r) (fun a l => r = Ok a /\ P l).
Proof. intros HP b Hb. unfold st_lift. destruct r; [by split|by apply HP]. Qed.

Lemma logs_ret {A} (P : list file_op -> Prop) (a : A) : logs P (mret a) (fun _ => P).
Proof. by intros b Hb. Qed.

Lemma logs_on_os {A} (P : list file_op -> Prop) (m : st OS A) :
  (forall l, P l -> tidy l) -> logs P (on_os m) (fun _ => P).
Proof. intros HP b Hb. unfold on_os. destruct (m (b_os b)) as [o [a|e]]; [done|by apply HP]. Qed.

Lemma logs_on_stderr {A} (P : list file_op -> Prop) (m : st (list message) A) :
  (forall l, P l -> tidy l) -> logs P (on_stderr m) (fun _ => P).
Proof. intros HP b Hb. unfold on_stderr. destruct (m (b_stderr b)) as [l [a|e]]; [done|by apply HP]. Qed.

Lemma logs_op (P Q : list file_op -> Prop) op : (forall l, P l -> Q (l ++ [op])) -> logs P (on_files op) (fun _ => Q).
Proof. intros HQ b Hb. by apply HQ. Qed.

Lemma logs_each {A} (I : list file_op -> Prop) (f : A -> st Bench ()) l :
  (forall x, logs I (f x) (fun _ => I)) -> logs I (for_each f l) (fun _ => I).
Proof.
  intros Hf. induction l as [|x l IH]; cbn [for_each]; [apply logs_ret|].
  eapply logs_bind; [apply Hf|]. intros []. exact IH.
Qed.

Lemma logs_pure {A} (phi : Prop) (P : list file_op -> Prop) (m : st Bench A) Q :
  (phi -> logs P m Q) -> logs (fun l => phi /\ P l) m Q.
Proof. intros Hm b [Hphi Hb]. by apply Hm. Qed.

(** Between the flush of the summary and that of the timeline. *)
Definition open_trial (x : row) (l : list file_op) : Prop :=
  exists ts ws, Forall of_trial ts /\ of_trial (x, ws) /\
    l = concat (trial_ops <$> ts) ++ WriteRow x :: FlushRows :: (WriteWindow <$> ws).

Lemma open_tidy x l : open_trial x l -> tidy l.
Proof.
  intros (ts & ws & Hts & Hws & ->). exists ts, (x, ws), (WriteRow x :: FlushRows :: (WriteWindow <$> ws)).
  split_and!; [done..|]. exists [FlushWindows]. done.
Qed.

Lemma open_window x w l : key_of w = key_of x -> open_trial x l -> open_trial x (l ++ [WriteWindow w]).
Proof.
  intros Hw (ts & ws & Hts & Hws & ->). exists ts, (ws ++ [w]). split_and!; [done| |].
  - apply Forall_app. split; [done|by constructor].
  - by rewrite fmap_app, <- (assoc_L (++)).
Qed.

Lemma open_closed x l : open_trial x l -> settled (l ++ [FlushWindows]).
Proof.
  intros (ts & ws & Hts & Hws & ->). exists (ts ++ [(x, ws)]). split; [apply Forall_app; by repeat constructor|].
  rewrite fmap_app, concat_app, <- (assoc_L (++)). cbn [fmap list_fmap concat]. by rewrite app_nil_r.
Qed.

Lemma make_row_key name conns trial wall s r x :
  make_row CLK name conns trial wall s r = Ok x -> key_of x = job_key (name, conns, trial).
Proof. unfold make_row. intros Hx. repeat (apply res_bind_Ok in Hx as (? & _ & Hx)). by injection Hx as <-. Qed.

Lemma timeline_row_key name conns trial w x :
  timeline_row name conns trial w = Ok x -> key_of x = job_key (name, conns, trial).
Proof.
  intros (l & _ & Hx)%res_bind_Ok. destruct l as [|t [|p50 [|p90 [|p99 [|p999 [|mx [|]]]]]]]; try done.
  repeat (apply res_bind_Ok in Hx as (? & _ & Hx)). by injection Hx as <-.
Qed.

Lemma logs_record name conns trial s r :
  logs settled (record_trial CLK g name conns trial s r) (fun _ => settled).
Proof.
  unfold record_trial. eapply logs_bind; [apply logs_lift, settled_tidy|]. intros x. apply logs_pure. intros Hx%make_row_key.
  eapply logs_bind; [apply logs_op with (Q := fun l => exists l0, settled l0 /\ l = l0 ++ [WriteRow x]); eauto|]. intros [].
  eapply logs_bind; [apply logs_op with (Q := open_trial x)|intros []].
  { intros l (l0 & (ts & Hts & ->) & ->). exists ts, []. split_and!; [done|by constructor|]. by rewrite <- (assoc_L (++)). }
  eapply logs_bind; [apply logs_on_stderr, open_tidy|]. intros [].
  eapply logs_bind; [apply logs_lift, open_tidy|]. intros tl. apply logs_pure. intros _.
  eapply logs_bind; [apply logs_each with (I := open_trial x)|intros []].
  { intros w. eapply logs_bind; [apply logs_lift, open_tidy|]. intros y. apply logs_pure. intros Hy%timeline_row_key.
    apply logs_op. intros l. apply open_window. congruence. }
  eapply logs_bind; [apply logs_op, open_closed|]. intros []. apply logs_on_os, settled_tidy.
Qed.

Lemma logs_trial f name conns trial :
  logs settled (run_trial HAVE_TASKSET environ CLK json_loads g f name conns trial) (fun _ => settled).
Proof.
  unfold run_trial. eapply logs_bind; [apply logs_on_os, settled_tidy|]. intros [procs pgids].
  eapply logs_bind; [apply logs_on_os, settled_tidy|]. intros ready. destruct (negb ready).
  - eapply logs_bind; [apply logs_on_stderr, settled_tidy|]. intros [].
    eapply logs_bind; [apply logs_on_os, settled_tidy|]. intros []. apply logs_on_os, settled_tidy.
  - eapply logs_bind; [by intros b Hb; apply Hb|]. intros b.
    eapply logs_bind; [apply logs_on_os, settled_tidy|]. intros r.
    eapply logs_bind; [apply logs_on_os, settled_tidy|]. intros [].
    destruct r as [[]|]; try apply logs_record; apply logs_on_os, settled_tidy.
Qed.

Lemma logs_matrix :
  logs settled (run_matrix ROOT sys_executable HAVE_TASKSET environ CLK json_loads g) (fun _ => settled).
Proof.
  unfold run_matrix. apply logs_each. intros name. destruct (dict_get _ name) as [sv|]; [|apply logs_on_stderr, settled_tidy].
  eapply logs_bind; [apply logs_on_os, settled_tidy|]. intros ok. destruct (negb ok); [apply logs_ret|].
  unfold run_server. do 2 (apply logs_each; intros ?). apply logs_trial.
Qed.

(** However the run ends. *)
Lemma run_tidy o b r :
  run_matrix ROOT sys_executable HAVE_TASKSET environ CLK json_loads g (mkBench o [] []) = (b, r) -> tidy (b_log b).
Proof.
  intros Hrun. pose proof (logs_matrix (mkBench o [] [])) as Hm. rewrite Hrun in Hm.
  destruct r; [apply settled_tidy|]; apply Hm; exists []; by split.
Qed.
End Runs.

(** ** What the report makes of the files *)

Section Files.
Variable py_repr : json -> string.

Definition summary_text (log : list file_op) : res string := results_csv py_repr (written_rows log).
Definition timeline_text (log : list file_op) : res string := timeline_csv py_repr (written_windows log).

Definition flushes_rows (op : file_op) : bool := match op with FlushRows => true | _ => false end.
Definition flushes_windows (op : file_op) : bool := match op with FlushWindows => true | _ => false end.

Notation summary_disk := (on_disk summary_text flushes_rows).
Notation timeline_disk := (on_disk timeline_text flushes_windows).

(** The report reads these rows, and these windows. *)
Definition summary_reads (d : string) (rows : list row) : Prop :=
  exists out, load_file d = Ok out /\ reports rows out.
Definition timeline_reads (d : string) (windows : list row) : Prop :=
  exists data, load_timeline_file d = Ok data /\
    forall s c t, run_rows data (s, c) t = text_row py_repr tl_fields <$> sort_by time_le (filter (window_of s c t) windows).

Lemma csv_text_app l1 l2 : csv_text (l1 ++ l2) = csv_text l1 +:+ csv_text l2.
Proof. induction l1 as [|x l1 IH]; [done|]. cbn [app csv_text]. by rewrite IH, append_assoc. Qed.

Lemma res_map_app {A B} (f : A -> res B) l1 l2 l :
  res_map f (l1 ++ l2) = Ok l -> exists l1' l2', res_map f l1 = Ok l1' /\ res_map f l2 = Ok l2' /\ l = l1' ++ l2'.
Proof.
  revert l. induction l1 as [|x l1 IH]; intros l; cbn [app res_map]; [eauto|].
  intros (y & Hy & (ys & Hys & [= <-])%res_bind_Ok)%res_bind_Ok. destruct (IH ys Hys) as (a & b & Ha & Hb & ->).
  exists (y :: a), b. rewrite Hy. cbn [mbind res_bind]. by rewrite Ha.
Qed.

(** Rows are added at the end. *)
Lemma csv_file_begins fieldnames rows rows' t t' :
  csv_file py_repr fieldnames rows = Ok t -> csv_file py_repr fieldnames (rows ++ rows') = Ok t' -> begins t t'.
Proof.
  intros (ls & Hls & [= <-])%res_bind_Ok (ls' & Hls' & [= <-])%res_bind_Ok.
  apply res_map_app in Hls' as (a & b & Ha & _ & ->). assert (a = ls) as -> by congruence.
  exists (csv_text b). apply (csv_text_app (fieldnames :: ls)).
Qed.

Lemma summary_begins log rest t t' : summary_text log = Ok t -> summary_text (log ++ rest) = Ok t' -> begins t t'.
Proof. unfold summary_text. rewrite written_rows_app. apply csv_file_begins. Qed.

Lemma timeline_begins log rest t t' : timeline_text log = Ok t -> timeline_text (log ++ rest) = Ok t' -> begins t t'.
Proof. unfold timeline_text. rewrite written_windows_app. apply csv_file_begins. Qed.

Lemma summary_passes op : written_rows [op] = [] -> passes summary_text op.
Proof. intros Hop log. unfold summary_text. by rewrite written_rows_app, Hop, app_nil_r. Qed.

Lemma timeline_passes op : written_windows [op] = [] -> passes timeline_text op.
Proof. intros Hop log. unfold timeline_text. by rewrite written_windows_app, Hop, app_nil_r. Qed.

Lemma windows_pass ws rest : Forall (passes summary_text) rest -> Forall (passes summary_text) ((WriteWindow <$> ws) ++ rest).
Proof.
  intros Hrest. apply Forall_app. split; [|done]. apply Forall_fmap, Forall_true. intros w. by apply summary_passes.
Qed.

(** Between two trials everything is on the disk, headers apart. *)
Lemma summary_settled ts d :
  summary_disk (concat (trial_ops <$> ts)) d -> ts <> [] -> summary_text (concat (trial_ops <$> ts)) = Ok d.
Proof.
  destruct ts as [|[x ws] ts _] using rev_ind; [done|]. intros Hd _.
  rewrite fmap_app, concat_app in *. cbn [fmap list_fmap concat] in *. rewrite app_nil_r in *. unfold trial_ops in *.
  cbn [fst snd app] in *. rewrite (cons_middle (WriteRow x)), (assoc_L (++)) in *.
  apply (on_disk_flushed _ flushes_rows); [done| |done]. apply windows_pass. constructor; [by apply summary_passes|done].
Qed.

Lemma timeline_settled ts rest d :
  timeline_disk (concat (trial_ops <$> ts) ++ rest) d -> Forall (passes timeline_text) rest -> ts <> [] ->
  timeline_text (concat (trial_ops <$> ts) ++ rest) = Ok d.
Proof.
  destruct ts as [|[x ws] ts _] using rev_ind; [done|]. intros Hd Hrest _.
  assert (concat (trial_ops <$> ts ++ [(x, ws)]) ++ rest =
    (concat (trial_ops <$> ts) ++ WriteRow x :: FlushRows :: (WriteWindow <$> ws)) ++ FlushWindows :: rest) as Heq.
  { rewrite fmap_app, concat_app. cbn [fmap list_fmap concat]. rewrite app_nil_r. unfold trial_ops. cbn [fst snd app].
    rewrite <- !(assoc_L (++)). cbn [app]. by rewrite <- (assoc_L (++)). }
  rewrite Heq in *. by apply (on_disk_flushed _ flushes_windows).
Qed.

(** ** A header without rows, whole or not *)

Fixpoint beginnings (s : string) : list string :=
  "" :: match s with "" => [] | String c s => String c <$> beginnings s end.

Lemma begins_in d s : begins d s -> d ∈ beginnings s.
Proof.
  intros [u ->]. induction d as [|c d IH]; [destruct u; left|]. cbn. right. apply list_elem_of_fmap. by exists d.
Qed.

Definition no_rows (d : string) : bool := match read_rows d with Ok [] => true | _ => false end.

Lemma header_no_rows fieldnames d :
  forallb no_rows (beginnings (csv_text [fieldnames])) = true -> begins d (csv_text [fieldnames]) -> read_rows d = Ok [].
Proof.
  intros Hall Hd%begins_in. pose proof (forallb_elem _ _ _ Hall Hd) as Hn. unfold no_rows in Hn.
  by destruct (read_rows d) as [[|]|].
Qed.

Lemma summary_header d : begins d (csv_text [fields]) -> summary_reads d [].
Proof.
  intros Hd. apply header_no_rows in Hd; [|vm_compute; reflexivity].
  destruct (results_read py_repr []) as (txt & out & Ht & Hl & Hr); [done|]. exists out. split; [|done].
  injection Ht as <-. unfold load_file in *. rewrite Hd.
  rewrite (header_no_rows fields) in Hl; [done|vm_compute; reflexivity|apply begins_refl].
Qed.

Lemma timeline_header d : begins d (csv_text [tl_fields]) -> timeline_reads d [].
Proof.
  intros Hd. apply header_no_rows in Hd; [|vm_compute; reflexivity].
  destruct (timeline_read py_repr []) as (txt & data & Ht & Hl & Hr); [done|]. exists data. split; [|done].
  injection Ht as <-. unfold load_timeline_file in *. rewrite Hd.
  rewrite (header_no_rows tl_fields) in Hl; [done|vm_compute; reflexivity|apply begins_refl].
Qed.
End Files.

(** ** Cut short *)

Section CutShort.
Context {OS : Type} `{Kernel OS}.
Variable ROOT sys_executable : string.
Variable HAVE_TASKSET : bool.
Variable environ : dict string string.
Variable CLK : Z.
Variable py_repr : json -> string.
Variable g : config.

Notation run := (run_matrix ROOT sys_executable HAVE_TASKSET environ CLK json_loads g).
Notation summary_disk := (on_disk (summary_text py_repr) flushes_rows).
Notation timeline_disk := (on_disk (timeline_text py_repr) flushes_windows).

(** The summary after the operations [log], of which [ts] are whole trials: it
    is read as the rows written, unless the last of them is just being
    written; then those of the whole trials are on the disk. *)
Definition summary_kept (ts : list (row * list row)) (log : list file_op) (d : string) : Prop :=
  summary_reads d (written_rows log) \/
  exists before x t0 t1,
    log = before ++ [WriteRow x] /\ summary_text py_repr before = Ok t0 /\ summary_text py_repr log = Ok t1 /\
    (ts <> [] -> begins t0 d) /\ begins d t1.

(** The timeline: it is read as the windows written, if those of the trial being
    recorded, [ws], are still to come; those of the whole trials are on the
    disk in any case. *)
Definition timeline_kept (ts : list (row * list row)) (ws : list row) (log : list file_op) (d : string) : Prop :=
  (ws = [] -> timeline_reads py_repr d (written_windows log)) /\
  exists t0 t1,
    timeline_csv py_repr (concat ts.*2) = Ok t0 /\ timeline_text py_repr log = Ok t1 /\
    (ts <> [] -> begins t0 d) /\ begins d t1.

Lemma broken_summary ts log rows ws d :
  broken_off ts log rows ws -> Forall good (written_rows log) -> summary_disk log d -> summary_kept ts log d.
Proof.
  assert (forall log d, Forall good (written_rows log) -> summary_text py_repr log = Ok d -> summary_reads d (written_rows log)) as Hread.
  { intros log' d' Hgood Ht. destruct (results_read py_repr _ Hgood) as (txt & out & Htxt & Hl & Hr).
    assert (txt = d') as -> by (unfold summary_text in Ht; congruence). by exists out. }
  assert (summary_disk (concat (trial_ops <$> ts)) d -> ts = [] -> begins d (csv_text [fields])) as Hopen.
  { intros Hd ->. apply on_disk_text in Hd as (t & Ht & Hd). by injection Ht as <-. }
  intros [|x|x ws' _] Hgood Hd.
  - left. destruct (decide (ts = [])) as [-> |Hts]; [by apply summary_header, Hopen|].
    apply Hread; [done|]. by apply summary_settled.
  - right. exists (concat (trial_ops <$> ts)), x.
    destruct (on_disk_text _ _ _ _ Hd) as (t1 & Ht1 & Hd1).
    pose proof Hd as (d0 & Hd0 & Hd0d)%on_disk_grows; [|by intros ????; apply summary_begins].
    destruct (on_disk_text _ _ _ _ Hd0) as (t0 & Ht0 & _). exists t0, t1. split_and!; [done..| |done].
    intros Hts. apply summary_settled in Hd0; [|done]. assert (t0 = d0) as -> by congruence. done.
  - left. apply Hread; [done|]. rewrite (cons_middle (WriteRow x)), (assoc_L (++)) in *.
    apply (on_disk_flushed _ flushes_rows); [done| |done]. rewrite <- (app_nil_r (WriteWindow <$> ws')).
    by apply windows_pass.
Qed.

Lemma broken_timeline ts log rows ws d :
  broken_off ts log rows ws -> Forall good_tl (written_windows log) -> timeline_disk log d -> timeline_kept ts ws log d.
Proof.
  intros Hb Hgood Hd. pose proof (broken_written _ _ _ _ Hb) as [_ Hw].
  assert (exists rest, log = concat (trial_ops <$> ts) ++ rest /\ (ws = [] -> Forall (passes (timeline_text py_repr)) rest))
    as (rest & -> & Hrest).
  { destruct Hb as [|x|x ws' _].
    - exists []. by rewrite app_nil_r.
    - exists [WriteRow x]. split; [done|]. intros _. constructor; [by apply timeline_passes|done].
    - eexists. split; [done|]. intros ->. repeat constructor; by apply timeline_passes. }
  split.
  - intros Hws. specialize (Hrest Hws). destruct (decide (ts = [])) as [-> |Hts].
    + subst ws. rewrite Hw. apply timeline_header.
      destruct (on_disk_text _ _ _ _ Hd) as (t & Ht & Hdt). unfold timeline_text in Ht. rewrite Hw in Ht.
      by injection Ht as <-.
    + apply timeline_settled in Hd; [|done..]. destruct (timeline_read py_repr _ Hgood) as (txt & data & Htxt & Hl & Hr).
      assert (txt = d) as -> by (unfold timeline_text in Hd; congruence). by exists data.
  - destruct (on_disk_text _ _ _ _ Hd) as (t1 & Ht1 & Hd1).
    pose proof Hd as (d0 & Hd0 & Hd0d)%on_disk_grows; [|by intros ????; apply timeline_begins].
    destruct (on_disk_text _ _ _ _ Hd0) as (t0 & Ht0 & _). exists t0, t1.
    destruct (written_trials ts) as [_ Hws]. unfold timeline_text in Ht0. rewrite Hws in Ht0.
    split_and!; [done..| |done]. intros Hts. rewrite <- (app_nil_r (concat _)) in Hd0.
    apply timeline_settled in Hd0; [|constructor|done]. rewrite app_nil_r in Hd0. unfold timeline_text in Hd0.
    rewrite Hws in Hd0. assert (t0 = d0) as -> by congruence. done.
Qed.

(** C35: whenever the runner is stopped, from outside or by an exception, nothing
    that was recorded is lost: at every moment the operations on the two files
    are those of whole trials and of at most one more, whose windows bear its
    server, load and number; whatever of the buffers is on the disk, the report
    reads the summary as exactly the rows written, unless the last one is just
    being written, and the timeline as exactly the windows written, if none of
    the trial's being recorded is among them; what the whole trials recorded is
    on the disk in every case. *)
Theorem cut_short o b r log d dt :
  run (mkBench o [] []) = (b, r) -> log `prefix_of` b_log b -> summary_disk log d -> timeline_disk log dt ->
  exists ts rows ws,
    Forall of_trial ts /\ written_rows log = ts.*1 ++ rows /\ written_windows log = concat ts.*2 ++ ws /\
    (rows = [] /\ ws = [] \/ exists x, rows = [x] /\ of_trial (x, ws)) /\
    summary_kept ts log d /\ timeline_kept ts ws log dt.
Proof.
  intros Hrun Hlog Hd Hdt. pose proof (run_tidy _ _ _ _ _ _ _ _ _ Hrun) as Htidy.
  destruct (tidy_broken log) as (ts & rows & ws & Hts & Hb); [by eapply tidy_prefix|].
  apply run_rows_made in Hrun as (Hrows & Hwin & _).
  assert (Forall good (written_rows log) /\ Forall good_tl (written_windows log)) as [Hgood Hgood'].
  { destruct Hlog as [rest Hrest]. unfold b_rows, b_timeline in *. rewrite Hrest in Hrows, Hwin.
    rewrite written_rows_app in Hrows. rewrite written_windows_app in Hwin.
    apply Forall_app in Hrows as [Hrows _], Hwin as [Hwin _]. split.
    - apply (Forall_impl _ _ _ Hrows), made_good.
    - apply (Forall_impl _ _ _ Hwin), made_window_good. }
  exists ts, rows, ws. pose proof (broken_written _ _ _ _ Hb) as [H1 H2]. split_and!; [done..| | |].
  - destruct Hb as [|x|x ws Ht]; [by left|right; exists x; split; [done|by constructor]|right; by exists x].
  - by eapply broken_summary.
  - by eapply broken_timeline.
Qed.
End CutShort.

(** A program stopped when it has written the first window of a trial, and
    nothing of the timeline is on the disk. *)
Lemma moment_disk py_repr x w d td :
  summary_text py_repr [WriteRow x] = Ok d -> timeline_text py_repr [WriteRow x; FlushRows; WriteWindow w] = Ok td ->
  on_disk (summary_text py_repr) flushes_rows [WriteRow x; FlushRows; WriteWindow w] d /\
  on_disk (timeline_text py_repr) flushes_windows [WriteRow x; FlushRows; WriteWindow w] "".
Proof.
  intros Hd Htd. assert (forall s, begins "" s) as Hempty by (intros s; by exists s).
  assert (forall text flushes op, text [] = Ok (csv_text [fields]) \/ text [] = Ok (csv_text [tl_fields]) ->
    flushes op = false -> forall t, text [op] = Ok t -> on_disk text flushes [op] "") as Hfirst.
  { intros text flushes op Hopen Hop t Ht. apply (disk_write text flushes [] op "" "" t); auto.
    destruct Hopen as [Hopen|Hopen]; by eapply disk_open. }
  split.
  - apply (disk_write _ _ [WriteRow x; FlushRows] (WriteWindow w) d d d); [|reflexivity|exact Hd|apply begins_refl..].
    apply (disk_flush _ _ [WriteRow x] FlushRows "" d); [|reflexivity|exact Hd].
    apply (Hfirst (summary_text py_repr) flushes_rows (WriteRow x) (or_introl eq_refl) eq_refl d Hd).
  - apply (disk_write _ _ [WriteRow x; FlushRows] (WriteWindow w) "" "" td); [|reflexivity|exact Htd|apply Hempty..].
    apply (disk_write _ _ [WriteRow x] FlushRows "" "" (csv_text [tl_fields])); [|reflexivity|reflexivity|apply Hempty..].
    apply (Hfirst (timeline_text py_repr) flushes_windows (WriteRow x) (or_intror eq_refl) eq_refl (csv_text [tl_fields]) eq_refl).
Qed.

Lemma demo_moment : exists x w, take 3 (b_log demo_bench.1) = [WriteRow x; FlushRows; WriteWindow w].
Proof. vm_compute. eexists _, _. reflexivity. Qed.

Lemma cut_short_witness :
  exists log d out,
    log `prefix_of` b_log demo_bench.1 /\ length (written_rows log) = 1%nat /\ length (written_windows log) = 1%nat /\
    on_disk (timeline_text (fun _ => "")) flushes_windows log "" /\
    load_file d = Ok out /\ reports (written_rows log) out.
Proof.
  destruct demo_moment as (x & w & Hlog).
  assert (exists d, summary_text (fun _ => "") [WriteRow x] = Ok d) as [d Hd].
  { assert (written_rows (take 3 (b_log demo_bench.1)) = [x]) as Hx by (rewrite Hlog; reflexivity).
    unfold summary_text. change (written_rows [WriteRow x]) with [x]. rewrite <- Hx. vm_compute. eexists. reflexivity. }
  assert (exists td, timeline_text (fun _ => "") [WriteRow x; FlushRows; WriteWindow w] = Ok td) as [td Htd].
  { assert (written_windows (take 3 (b_log demo_bench.1)) = [w]) as Hw by (rewrite Hlog; reflexivity).
    unfold timeline_text. change (written_windows [WriteRow x; FlushRows; WriteWindow w]) with [w]. rewrite <- Hw.
    vm_compute. eexists. reflexivity. }
  destruct (moment_disk (fun _ => "") x w d td Hd Htd) as [Hsd Htdd].
  destruct (cut_short "/bench" "/usr/bin/python3" true [] 100 (fun _ => "") demo_config toy_start demo_bench.1 demo_bench.2
    (take 3 (b_log demo_bench.1)) d "") as (ts & rows & ws & _ & _ & _ & _ & Hkept & _).
  - clear. unfold demo_bench. apply surjective_pairing.
  - apply prefix_take.
  - rewrite Hlog. exact Hsd.
  - rewrite Hlog. exact Htdd.
  - destruct Hkept as [(out & Hl & Hr)|(before & y & t0 & t1 & Heq & _)].
    + exists (take 3 (b_log demo_bench.1)), d, out. split; [apply prefix_take|]. rewrite Hlog in Hr |- *.
      repeat (split; [first [reflexivity|exact Htdd|exact Hl]|]). exact Hr.
    + rewrite Hlog in Heq. clear - Heq. destruct before as [|? [|? [|? [|]]]]; discriminate.
Defined.
