(* ===== verification/PlotJs.v ===== *)
(** * The script of the report (runner/plot.py, lines 186-311, and 432-445)

    The page draws its charts itself, with a script that [build_html] puts into
    it.  This file is that script:

    - [js_toFixed], [js_string], [js_group]: numbers and the regular expression
      as JavaScript has them (a JavaScript number is a [float]);
    - [niceMax], [fmt], [xpos], [render] are the functions of those names;
    - [page] is what the script reads and changes of the document, [renderAll],
      [syncTable], [refresh] and [handle_click] its functions and the handler of
      the legend;
    - [sel_tab] is the tab switcher.

    [Math_log10] and [Math_pow10] are [Math.log10] and [Math.pow(10, _)], which
    the language leaves to the implementation.  Objects are dictionaries: the
    names of the members every object inherits ("constructor", "__proto__", ...)
    are taken not to be names of servers. *)

From Stdlib Require Import Ascii String ZArith Lia SpecFloat.
From S2P Require Import Prelude PyText PyDict PyFloat PyNum PyRepr PyJson PlotData PlotHtml.

Open Scope string_scope.
Open Scope list_scope.
Open Scope Z_scope.

(** ** Numbers of the language *)

(** A number literal. *)
Definition js_num (z : Z) : float := binary_normalize f_prec f_emax z 0 false.

(** [x / y]: no error. *)
Definition js_div (x y : float) : float := SFdiv f_prec f_emax x y.

(** [Math.floor(x)] *)
Definition js_floor (x : float) : float :=
  match x with
  | S754_finite s m e =>
      if 0 <=? e then x
      else
        let q := Z.pos m / 2 ^ (- e) in
        if s then js_num (- (if Z.pos m mod 2 ^ (- e) =? 0 then q else q + 1)) else js_num q
  | _ => x
  end.

(** The digits [ds], of which the first [n] stand before the point, as
    [Number::toString] writes them. *)
Definition js_digits (ds : string) (n : Z) : string :=
  let k := Z.of_nat (String.length ds) in
  if (k <=? n) && (n <=? 21) then ds +:+ zeros (Z.to_nat (n - k))
  else if (0 <? n) && (n <=? 21) then substring 0 (Z.to_nat n) ds +:+ "." +:+ slice_from (Z.to_nat n) ds
  else if (-6 <? n) && (n <=? 0) then "0." +:+ zeros (Z.to_nat (- n)) +:+ ds
  else substring 0 1 ds +:+ fraction (slice_from 1 ds) +:+ "e" +:+
       (if n - 1 <? 0 then "-" else "+") +:+ str_of_Z (Z.abs (n - 1)).

(** [String(x)] *)
Definition js_string (x : float) : string :=
  match x with
  | S754_nan => "NaN"
  | S754_infinity s => sign_text s +:+ "Infinity"
  | S754_zero _ => "0"
  | S754_finite s m e =>
      let '(M, E) := exact_decimal m e in
      let '(a, E) := shortest s x M E (pred (String.length (str_of_Z M))) in
      let '(a, E) := strip_zeros (String.length (str_of_Z a)) a E in
      let ds := str_of_Z a in
      sign_text s +:+ js_digits ds (Z.of_nat (String.length ds) + E)
  end.

(** [num / den] rounded to an integer, ties up. *)
Definition round_half_up (num : Z) (den : positive) : Z := (2 * num + Z.pos den) / (2 * Z.pos den).

(** The integer nearest to [m * 2^e * 10^n], the larger one of two. *)
Definition js_scaled (n : nat) (m : positive) (e : Z) : Z :=
  let num := Z.pos m * 10 ^ Z.of_nat n in
  if 0 <=? e then num * 2 ^ e else round_half_up num (Z.to_pos (2 ^ (- e))).

(** [x.toFixed(n)]; [1e21] and beyond are written as [String] does. *)
Definition js_toFixed (x : float) (n : nat) : string :=
  match x with
  | S754_zero _ => put_point n (pad_digits n 0)
  | S754_finite s m e =>
      if (0 <=? e) && (10 ^ 21 <=? Z.pos m * 2 ^ e) then js_string x
      else sign_text s +:+ put_point n (pad_digits n (js_scaled n m e))
  | _ => js_string x
  end.

(** ** [s.replace(/\B(?=(\d{3})+(?!\d))/g, ",")] *)

(** [\w] *)
Definition is_word (c : ascii) : bool :=
  is_digit c || z_in_range 65 91 (ascii_code c) || z_in_range 97 123 (ascii_code c) || Ascii.eqb c "_".

Fixpoint leading_digits (s : string) : nat :=
  match s with
  | String c s => if is_digit c then S (leading_digits s) else O
  | "" => O
  end.

(** [(?=(\d{3})+(?!\d))]: the digits that follow are some groups of three, to
    their end. *)
Definition groups_follow (s : string) : bool :=
  negb (leading_digits s =? 0)%nat && (leading_digits s mod 3 =? 0)%nat.

(** [prev] is whether the character before is one of a word; [\B] holds where
    that does not change. *)
Fixpoint js_group (prev : bool) (s : string) : string :=
  match s with
  | "" => ""
  | String c s' =>
      let rest := String c (js_group (is_word c) s') in
      if Bool.eqb prev (is_word c) && groups_follow s then String "," rest else rest
  end.

Definition js_esc (s : string) : string :=
  replace_char ">"%char "&gt;" (replace_char "<"%char "&lt;" (replace_char "&"%char "&amp;" s)).

(** [fmt(v, spec)]; [spec] is the decimals and the comma. *)
Definition fmt (v : float) (spec : Z * bool) : string :=
  let s := js_toFixed v (Z.to_nat spec.1) in
  if spec.2 then
    match split_char "." s with
    | p0 :: p => join "." (js_group false p0 :: p)
    | [] => s
    end
  else s.

Example js_numbers_ex :
  js_string (f_of_ratio false 1 10) = "0.1" /\ js_string (js_num (10 ^ 21)) = "1e+21" /\
  js_string (f_of_ratio true 123 (10 ^ 9)) = "-1.23e-7" /\ js_string (js_num 900) = "900" /\
  js_string (f_of_ratio false 1 (10 ^ 6)) = "0.000001" /\ js_string (js_num 123456789012345680000) = "123456789012345680000" /\
  js_toFixed (f_of_ratio false 25 100) 1 = "0.3" /\ js_toFixed (f_of_ratio false 5 10) 0 = "1" /\
  js_toFixed (f_of_ratio true 1 100) 1 = "-0.0" /\ js_toFixed (S754_zero true) 2 = "0.00" /\
  js_toFixed (f_of_ratio false 1005 1000) 2 = "1.00" /\
  fmt (f_of_ratio false 12345675 10) (0, true) = "1,234,568" /\ fmt (js_num (-123456)) (1, true) = "-123,456.0" /\
  fmt (js_num (10 ^ 22)) (0, true) = "1e+22" /\ js_group false "1234 567 ab123" = "1,234 567 ab,123".
Proof. vm_compute. repeat split; reflexivity. Qed.

(** ** The configuration *)

Record geom := mkGeom { G_W : float; G_H : float; G_ML : float; G_MR : float; G_MT : float; G_MB : float }.

Record js_chart := mkJsChart {
  jc_field : string; jc_title : string; jc_ylabel : string; jc_spec : Z * bool }.

(** [CFG]: geometry, loads, servers, their colours, and for every chart and
    server the points, load and value. *)
Record js_cfg := mkCfg {
  cf_geom : geom; cf_conns : list float; cf_servers : list string; cf_slot : dict string float;
  cf_series : dict string (dict string (list (float * float))); cf_charts : list js_chart }.

Section Script.
Variable Math_log10 : float -> float.
Variable Math_pow10 : float -> float.

Definition niceMax (v : float) : float :=
  if fle v f_zero then js_num 1
  else
    let exp := js_floor (Math_log10 v) in
    let f := js_div v (Math_pow10 exp) in
    let nf := if fle f (js_num 1) then js_num 1 else if fle f (js_num 2) then js_num 2
              else if fle f (js_num 5) then js_num 5 else js_num 10 in
    fmul nf (Math_pow10 exp).

Variable CFG : js_cfg.

Definition G : geom := cf_geom CFG.
Definition X0 : float := G_ML G.
Definition X1 : float := fsub (G_W G) (G_MR G).
Definition Y0 : float := fsub (G_H G) (G_MB G).
Definition Y1 : float := G_MT G.
Definition conns : list float := cf_conns CFG.

(** [var xi = {}; conns.forEach(function(c,i){ xi[c] = i; });] *)
Definition xi : dict float float :=
  foldl (fun d ci => dict_set d ci.1 ci.2) [] (zip conns (js_num ∘ Z.of_nat <$> seq 0 (length conns))).

Definition xpos (i n : float) : float :=
  if fle n (js_num 1) then X0
  else fadd X0 (js_div (fmul (fsub X1 X0) i) (fsub n (js_num 1))).

(** [undefined] computes like NaN. *)
Definition chart_x (c : float) : float :=
  xpos (match dict_get xi c with Some i => i | None => S754_nan end) (js_num (Z.of_nat (length conns))).

Definition chart_y (ymax v : float) : float := fsub Y0 (fmul (fsub Y0 Y1) (js_div v ymax)).

(** The set of hidden servers; every value is [true]. *)
Notation hidden_set := (dict string bool).

Definition is_hidden (hidden : hidden_set) (s : string) : bool :=
  match dict_get hidden s with Some b => b | None => false end.

(** [CFG.series[chart.field] || {}] *)
Definition by_server (ch : js_chart) : dict string (list (float * float)) :=
  match dict_get (cf_series CFG) (jc_field ch) with Some d => d | None => [] end.

Definition pts_of (ch : js_chart) (s : string) : list (float * float) :=
  match dict_get (by_server ch) s with Some pts => pts | None => [] end.

(** The loop over [CFG.servers]: the servers shown, and the highest value. *)
Definition visit (hidden : hidden_set) (ch : js_chart) (acc : list string * float) (s : string) : list string * float :=
  if is_hidden hidden s then acc
  else match pts_of ch s with
       | [] => acc
       | pts => (acc.1 ++ [s], foldl (fun vmax p => if flt vmax p.2 then p.2 else vmax) acc.2 pts)
       end.

Definition visible (hidden : hidden_set) (ch : js_chart) : list string * float :=
  foldl (visit hidden ch) ([], js_num 0) (cf_servers CFG).

Definition fx1 (x : float) : string := js_toFixed x 1.

Definition js_grid (spec : Z * bool) (ymax : float) (k : Z) : string :=
  let v := js_div (fmul ymax (js_num k)) (js_num 5) in
  let y := chart_y ymax v in
  "<line" +:+ attr "x1" (js_string X0) +:+ attr "y1" (fx1 y) +:+ attr "x2" (js_string X1) +:+
  attr "y2" (fx1 y) +:+ attr "class" "grid" +:+ "/>" +:+
  "<text" +:+ attr "x" (js_string (fsub X0 (js_num 10))) +:+ attr "y" (fx1 (fadd y (js_num 4))) +:+
  attr "class" "tick tick-y" +:+ ">" +:+ fmt v spec +:+ "</text>".

Definition conn_tick (c : float) : string :=
  "<text" +:+ attr "x" (fx1 (chart_x c)) +:+ attr "y" (js_string (fadd Y0 (js_num 22))) +:+
  attr "class" "tick tick-x" +:+ ">" +:+ fmt c (0, true) +:+ "</text>".

(** [CFG.slot[s]||1] *)
Definition slot_of (s : string) : float :=
  match dict_get (cf_slot CFG) s with
  | Some (S754_zero _ | S754_nan) | None => js_num 1
  | Some n => n
  end.

Definition js_step (ymax : float) (first : bool) (p : float * float) : string :=
  (if first then "M" else "L") +:+ fx1 (chart_x p.1) +:+ "," +:+ fx1 (chart_y ymax p.2).

Definition js_path (ymax : float) (pts : list (float * float)) : string :=
  match pts with
  | [] => ""
  | p :: rest => join " " (js_step ymax true p :: (js_step ymax false <$> rest))
  end.

Definition js_dot (ch : js_chart) (ymax : float) (s col : string) (p : float * float) : string :=
  "<circle" +:+ attr "cx" (fx1 (chart_x p.1)) +:+ attr "cy" (fx1 (chart_y ymax p.2)) +:+ attr "r" "4" +:+
  attr "fill" col +:+ attr "stroke" "var(--surface-1)" +:+ attr "stroke-width" "1.5" +:+ "><title>" +:+
  js_esc s +:+ " @ " +:+ fmt p.1 (0, true) +:+ " conns: " +:+ fmt p.2 (jc_spec ch) +:+ " " +:+
  js_esc (jc_ylabel ch) +:+ "</title></circle>".

(** The line of one server, its points and its label at the end. *)
Definition js_line (ch : js_chart) (ymax : float) (s : string) : string :=
  let col := "var(--series-" +:+ js_string (slot_of s) +:+ ")" in
  let pts := pts_of ch s in
  let last_y := match list.last pts with Some p => p.2 | None => S754_nan end in
  let ly := chart_y ymax last_y in
  "<path" +:+ attr "d" (js_path ymax pts) +:+ attr "fill" "none" +:+ attr "stroke" col +:+
  attr "stroke-width" "2" +:+ attr "stroke-linejoin" "round" +:+ attr "stroke-linecap" "round" +:+ "/>" +:+
  concat_str (js_dot ch ymax s col <$> pts) +:+
  "<circle" +:+ attr "cx" (js_string (fadd X1 (js_num 14))) +:+ attr "cy" (fx1 ly) +:+ attr "r" "4" +:+
  attr "fill" col +:+ "/>" +:+
  "<text" +:+ attr "x" (js_string (fadd X1 (js_num 24))) +:+ attr "y" (fx1 (fadd ly (js_num 4))) +:+
  attr "class" "direct-label" +:+ ">" +:+ js_esc s +:+ "</text>".

Definition render (hidden : hidden_set) (ch : js_chart) : string :=
  let '(shown, vmax) := visible hidden ch in
  let ymax := if flt (js_num 0) vmax then niceMax vmax else js_num 1 in
  "<svg" +:+ attr "viewBox" ("0 0 " +:+ js_string (G_W G) +:+ " " +:+ js_string (G_H G)) +:+
  attr "class" "chart" +:+ attr "role" "img" +:+ attr "aria-label" (js_esc (jc_title ch)) +:+
  attr "preserveAspectRatio" "xMidYMid meet" +:+ ">" +:+
  "<text" +:+ attr "x" (js_string (G_ML G)) +:+ attr "y" "24" +:+ attr "class" "c-title" +:+ ">" +:+
  js_esc (jc_title ch) +:+ "</text>" +:+
  concat_str (js_grid (jc_spec ch) ymax <$> [0; 1; 2; 3; 4; 5]) +:+
  "<text" +:+ attr "class" "axis-label" +:+
  attr "transform" ("translate(18," +:+ js_string (js_div (fadd Y0 Y1) (js_num 2)) +:+ ") rotate(-90)") +:+ ">" +:+
  js_esc (jc_ylabel ch) +:+ "</text>" +:+
  concat_str (conn_tick <$> conns) +:+
  "<text" +:+ attr "x" (js_string (js_div (fadd X0 X1) (js_num 2))) +:+
  attr "y" (js_string (fsub (G_H G) (js_num 8))) +:+ attr "class" "axis-label" +:+
  ">connections (offered load)</text>" +:+
  "<line" +:+ attr "x1" (js_string X0) +:+ attr "y1" (js_string Y0) +:+ attr "x2" (js_string X1) +:+
  attr "y2" (js_string Y0) +:+ attr "class" "baseline" +:+ "/>" +:+
  concat_str (js_line ch ymax <$> shown) +:+ "</svg>".

(** ** The document *)

(** What the script reads and changes: its own set, the charts' boxes in the
    order of [CFG.charts], the buttons of the legend with [aria-pressed], the
    rows of the table with the class [dim], and whether "show all" is hidden. *)
Record page := mkPage {
  pg_hidden : hidden_set; pg_charts : list string; pg_buttons : list (string * bool);
  pg_rows : list (string * bool); pg_no_show_all : bool }.

(** The document as it is loaded, for the buttons and rows it has. *)
Definition loaded_page (buttons rows : list string) : page :=
  mkPage [] ((fun _ => "") <$> cf_charts CFG) ((fun s => (s, true)) <$> buttons)
    ((fun s => (s, false)) <$> rows) true.

Definition renderAll (p : page) : page :=
  mkPage (pg_hidden p) (render (pg_hidden p) <$> cf_charts CFG) (pg_buttons p) (pg_rows p) (pg_no_show_all p).

Definition syncTable (p : page) : page :=
  mkPage (pg_hidden p) (pg_charts p) (pg_buttons p)
    ((fun r => (r.1, is_hidden (pg_hidden p) r.1)) <$> pg_rows p) (pg_no_show_all p).

Definition refresh (p : page) : page :=
  syncTable (renderAll
    (mkPage (pg_hidden p) (pg_charts p)
       ((fun b => (b.1, negb (is_hidden (pg_hidden p) b.1))) <$> pg_buttons p)
       (pg_rows p) (bool_decide (dict_keys (pg_hidden p) = [])))).

(** A click in the legend: on the button of a server, on "show all", or beside
    the buttons. *)
Inductive click := OnServer (s : string) | OnShowAll | Beside.

Definition set_hidden (p : page) (h : hidden_set) : page :=
  mkPage h (pg_charts p) (pg_buttons p) (pg_rows p) (pg_no_show_all p).

Definition handle_click (p : page) (e : click) : page :=
  match e with
  | Beside => p
  | OnShowAll => refresh (set_hidden p [])
  | OnServer s =>
      if bool_decide (s = "") then p
      else
        let hidden := pg_hidden p in
        refresh (set_hidden p (if is_hidden hidden s then dict_pop hidden s else dict_set hidden s true))
  end.

(** The page after the script has run and these clicks were made. *)
Definition script_start (buttons rows : list string) : page := renderAll (loaded_page buttons rows).

Definition page_after (buttons rows : list string) (clicks : list click) : page :=
  foldl handle_click (script_start buttons rows) clicks.
End Script.

(** ** The tab switcher *)

(** A tab: its id and the panel it controls. *)
Record tabs := mkTabs {
  tb_tabs : list (string * string); tb_selected : dict string bool; tb_hidden : dict string bool }.

(** [sel(id)]: every tab says whether it is [id], every panel whether it is
    hidden; [panels] are the elements there are. *)
Definition sel_step (panels : list string) (id : string) (t : tabs) (tab : string * string) : tabs :=
  let on := bool_decide (tab.1 = id) in
  mkTabs (tb_tabs t) (dict_set (tb_selected t) tab.1 on)
    (if decide (tab.2 ∈ panels) then dict_set (tb_hidden t) tab.2 (negb on) else tb_hidden t).

Definition sel_tab (panels : list string) (t : tabs) (id : string) : tabs :=
  foldl (sel_step panels id) t (tb_tabs t).
