(* ===== verification/PlotJsThms.v ===== *)
(** * The script of the report: theorems

    [script_page]: what a page shows after any clicks; [fmt_agrees]: where the
    script's numbers read as Python's; [niceMax_agrees]: the two scales are one;
    [one_panel]: the tabs. *)

From Stdlib Require Import Ascii String ZArith Lia SpecFloat.
From S2P Require Import Prelude PyText PyDict PyFloat PyNum PyRepr PlotData PlotThms PlotHtml PlotJs.

Open Scope string_scope.
Open Scope list_scope.
Open Scope Z_scope.

(** ** Grouping *)

Lemma leading_digits_all s : all_chars is_digit s = true -> leading_digits s = String.length s.
Proof.
  induction s as [|c s IH]; [done|]. cbn [all_chars leading_digits]. intros [-> Hs]%andb_true_iff.
  cbn [String.length]. by rewrite IH.
Qed.

Lemma digit_is_word c : is_digit c = true -> is_word c = true.
Proof. intros Hc. unfold is_word. by rewrite Hc. Qed.

Lemma js_group_digits c s :
  all_chars is_digit (String c s) = true -> String c (js_group true s) = group3 (String c s).
Proof.
  revert c. induction s as [|d s IH]; intros c Hs; [done|].
  apply andb_true_iff in Hs as [Hc Hs]. change (all_chars is_digit (String d s) = true) in Hs.
  change (group3 (String c (String d s))) with
    (let r := group3 (String d s) in
     if (String.length (String d s) mod 3 =? 0)%nat && negb (String.length (String d s) =? 0)%nat
     then String c (String "," r) else String c r).
  cbv zeta. rewrite <- (IH d Hs).
  change (js_group true (String d s)) with
    (let rest := String d (js_group (is_word d) s) in
     if Bool.eqb true (is_word d) && groups_follow (String d s) then String "," rest else rest).
  cbv zeta. pose proof Hs as Hd. apply andb_true_iff in Hd as [Hd _].
  rewrite (digit_is_word d Hd). unfold groups_follow. rewrite (leading_digits_all _ Hs). cbn [Bool.eqb andb].
  rewrite andb_comm. by destruct (_ && _).
Qed.

(** On the digits of a number the regular expression is Python's grouping. *)
Lemma js_group_number s : all_chars is_digit s = true -> js_group false s = group3 s.
Proof.
  destruct s as [|c s]; [done|]. intros Hs. pose proof Hs as Hc. apply andb_true_iff in Hc as [Hc _].
  change (js_group false (String c s)) with
    (let rest := String c (js_group (is_word c) s) in
     if Bool.eqb false (is_word c) && groups_follow (String c s) then String "," rest else rest).
  rewrite (digit_is_word c Hc). cbn [Bool.eqb andb]. by apply js_group_digits.
Qed.

Lemma js_group_sign b s : all_chars is_digit s = true -> js_group false (sign_text b +:+ s) = sign_text b +:+ group3 s.
Proof.
  intros Hs. destruct b; [|by apply js_group_number]. change (sign_text true +:+ s) with (String "-" s).
  change (js_group false (String "-" s)) with
    (let rest := String "-" (js_group false s) in
     if groups_follow (String "-" s) then String "," rest else rest).
  cbn [groups_follow leading_digits is_digit]. by rewrite js_group_number.
Qed.

(** ** The script's numbers and Python's *)

(** [v * 10^n] is halfway between two integers, of which the lower is even:
    Python rounds down, the script up. *)
Definition half_even_tie (n : nat) (v : float) : Prop :=
  match v with
  | S754_finite _ m e =>
      e < 0 /\ let num := Z.pos m * 10 ^ Z.of_nat n in let den := 2 ^ (- e) in
      2 * (num mod den) = den /\ Z.even (num / den) = true
  | _ => False
  end.

(** A number the script writes in fixed notation: finite, of a magnitude below
    [1e21]. *)
Definition fixed_number (v : float) : Prop :=
  match v with
  | S754_zero _ => True
  | S754_finite _ m e => 0 <= e -> Z.pos m * 2 ^ e < 10 ^ 21
  | _ => False
  end.

Lemma round_half_up_even num den :
  0 <= num ->
  let tie := 2 * (num mod Z.pos den) = Z.pos den /\ Z.even (num / Z.pos den) = true in
  (~ tie -> round_half_up num den = round_half_even num den) /\
  (tie -> round_half_up num den = round_half_even num den + 1).
Proof.
  intros Hn. unfold round_half_up, round_half_even. cbv zeta.
  set (d := Z.pos den). assert (0 < d) as Hd by (subst d; lia).
  pose proof (Z.div_mod num d ltac:(lia)) as Hdm. pose proof (Z.mod_pos_bound num d Hd) as Hr.
  set (q := num / d) in *. set (r := num mod d) in *.
  assert ((2 * num + d) / (2 * d) = q + (2 * r + d) / (2 * d)) as ->.
  { replace (2 * num + d) with (2 * r + d + q * (2 * d)) by lia. rewrite Z.div_add by lia. lia. }
  destruct (Z.ltb_spec (2 * r) d) as [Hlt|Hge].
  - rewrite (Z.div_small (2 * r + d)) by lia. split; [lia|]. intros [? _]; lia.
  - assert ((2 * r + d) / (2 * d) = 1) as ->.
    { symmetry. apply (Z.div_unique _ _ _ (2 * r - d)); lia. }
    destruct (Z.ltb_spec d (2 * r)); [split; [lia|intros [? _]; lia]|].
    assert (2 * r = d) as Htie by lia. destruct (Z.even q); [split; [tauto|lia]|].
    split; [lia|]. by intros [_ ?].
Qed.

Lemma js_scaled_spec n s m e :
  (~ half_even_tie n (S754_finite s m e) -> js_scaled n m e = scaled n m e) /\
  (half_even_tie n (S754_finite s m e) -> js_scaled n m e = scaled n m e + 1).
Proof.
  unfold js_scaled, scaled, half_even_tie. destruct (Z.leb_spec 0 e) as [He|He]; [split; [done|lia]|].
  assert (0 <= Z.pos m * 10 ^ Z.of_nat n) as Hn by (apply Z.mul_nonneg_nonneg; [lia|apply Z.pow_nonneg; lia]).
  assert (0 < 2 ^ (- e)) as Hp by (apply Z.pow_pos_nonneg; lia).
  destruct (round_half_up_even (Z.pos m * 10 ^ Z.of_nat n) (Z.to_pos (2 ^ (- e))) Hn) as [H1 H2].
  rewrite Z2Pos.id in H1, H2 by done. split.
  - intros Ht. apply H1. intros Htie. apply Ht. by split.
  - intros [_ Ht]. by apply H2.
Qed.

(** The digits of a text. *)
Fixpoint keep_digits (s : string) : string :=
  match s with
  | "" => ""
  | String c s => if is_digit c then String c (keep_digits s) else keep_digits s
  end.

Lemma keep_digits_app s t : keep_digits (s +:+ t) = keep_digits s +:+ keep_digits t.
Proof.
  induction s as [|c s IH]; [done|]. change (String c s +:+ t) with (String c (s +:+ t)). cbn [keep_digits].
  destruct (is_digit c); [|done]. by rewrite IH.
Qed.

Lemma keep_digits_all s : all_chars is_digit s = true -> keep_digits s = s.
Proof. induction s as [|c s IH]; [done|]. cbn. intros [-> Hs]%andb_true_iff. by rewrite IH. Qed.

Lemma keep_digits_group s : all_chars is_digit s = true -> keep_digits (group3 s) = s.
Proof.
  induction s as [|c s IH]; [done|]. cbn [all_chars group3]. intros [Hc Hs]%andb_true_iff.
  destruct (_ && _); cbn [keep_digits]; rewrite Hc; [change (is_digit ",") with false|]; by rewrite (IH Hs).
Qed.

Lemma pad_digits_digits n q : 0 <= q -> all_chars is_digit (pad_digits n q) = true.
Proof. intros Hq. unfold pad_digits. rewrite all_chars_app, digits_zeros. by apply str_of_Z_nonneg. Qed.

Lemma length_pad_digits n q : (n < String.length (pad_digits n q))%nat.
Proof. unfold pad_digits. rewrite length_append, length_zeros. lia. Qed.

Lemma pad_digits_val n q : 0 <= q -> digits_val 0 (pad_digits n q) = q.
Proof. intros Hq. unfold pad_digits. by rewrite digits_val_app, digits_val_zeros, digits_val_str. Qed.

Lemma substring_to_end k n s : (k + n = String.length s)%nat -> substring k n s = slice_from k s.
Proof.
  revert k n. induction s as [|c s IH]; intros [|k] [|n] Hl; cbn in Hl; try done; try lia.
  - cbn. f_equal. by rewrite (IH 0%nat n) by lia.
  - cbn. apply IH. lia.
  - cbn. apply IH. lia.
Qed.

Lemma keep_put_point n s : all_chars is_digit s = true -> (n < String.length s)%nat -> keep_digits (put_point n s) = s.
Proof.
  intros Hs Hn. destruct n as [|n]; [by apply keep_digits_all|]. unfold put_point. cbv zeta.
  rewrite !keep_digits_app. change (keep_digits ".") with "". cbn [append].
  rewrite (substring_to_end _ (S n) s) by lia.
  rewrite !keep_digits_all by by (apply digits_substring || apply digits_slice). apply substring_slice.
Qed.

(** The two texts of a number: fixed notation, and with commas. *)
Definition fixed_text (n : nat) (s : bool) (q : Z) : string := sign_text s +:+ put_point n (pad_digits n q).
Definition comma_text (s : bool) (q : Z) : string := sign_text s +:+ group3 (str_of_Z q).

Lemma keep_sign s t : keep_digits (sign_text s +:+ t) = keep_digits t.
Proof. by destruct s. Qed.

Lemma fixed_text_val n s q : 0 <= q -> digits_val 0 (keep_digits (fixed_text n s q)) = q.
Proof.
  intros Hq. unfold fixed_text.
  by rewrite keep_sign, keep_put_point, pad_digits_val by (done || apply length_pad_digits || by apply pad_digits_digits).
Qed.

Lemma comma_text_val s q : 0 <= q -> digits_val 0 (keep_digits (comma_text s q)) = q.
Proof.
  intros Hq. unfold comma_text. by rewrite keep_sign, keep_digits_group, digits_val_str by (done || by apply str_of_Z_nonneg).
Qed.

Lemma scaled_nonneg n m e : 0 <= scaled n m e.
Proof.
  unfold scaled. assert (0 <= Z.pos m * 10 ^ Z.of_nat n) as Hn by (apply Z.mul_nonneg_nonneg; [lia|apply Z.pow_nonneg; lia]).
  destruct (Z.leb_spec 0 e); [apply Z.mul_nonneg_nonneg; [done|apply Z.pow_nonneg; lia]|].
  unfold round_half_even. cbv zeta.
  pose proof (Z.div_pos (Z.pos m * 10 ^ Z.of_nat n) (Z.pos (Z.to_pos (2 ^ (- e)))) Hn ltac:(lia)).
  repeat case_match; lia.
Qed.

Lemma js_scaled_nonneg n m e : 0 <= js_scaled n m e.
Proof.
  unfold js_scaled. assert (0 <= Z.pos m * 10 ^ Z.of_nat n) as Hn by (apply Z.mul_nonneg_nonneg; [lia|apply Z.pow_nonneg; lia]).
  destruct (Z.leb_spec 0 e); [apply Z.mul_nonneg_nonneg; [done|apply Z.pow_nonneg; lia]|].
  unfold round_half_up. apply Z.div_pos; lia.
Qed.

(** Two texts that show the number agree exactly when the roundings do. *)
Lemma agree_iff (text : Z -> string) n s m e :
  (forall q, 0 <= q -> digits_val 0 (keep_digits (text q)) = q) ->
  text (js_scaled n m e) = text (scaled n m e) <-> ~ half_even_tie n (S754_finite s m e).
Proof.
  intros Htext. destruct (js_scaled_spec n s m e) as [H1 H2]. split; [|intros Ht; by rewrite H1].
  intros Heq Ht. apply (f_equal (fun t => digits_val 0 (keep_digits t))) in Heq.
  rewrite !Htext in Heq by (apply scaled_nonneg || apply js_scaled_nonneg). specialize (H2 Ht). lia.
Qed.

Lemma pad_digits_0 q : pad_digits 0 q = str_of_Z q.
Proof.
  unfold pad_digits. destruct (str_of_Z q) as [|c t] eqn:Hq; [by apply str_of_Z_ne in Hq|]. done.
Qed.

Lemma toFixed_fixed n s m e :
  fixed_number (S754_finite s m e) -> js_toFixed (S754_finite s m e) n = fixed_text n s (js_scaled n m e).
Proof.
  intros Hf. unfold js_toFixed. cbn in Hf.
  destruct (Z.leb_spec 0 e) as [He|He]; [|done]. destruct (Z.leb_spec (10 ^ 21) (Z.pos m * 2 ^ e)); [|done].
  specialize (Hf He). lia.
Qed.

Lemma fmt_comma_text s m e :
  fixed_number (S754_finite s m e) -> fmt (S754_finite s m e) (0, true) = comma_text s (js_scaled 0 m e).
Proof.
  intros Hf. unfold fmt. change (Z.to_nat (0, true).1) with 0%nat. cbv zeta. cbn [snd]. rewrite toFixed_fixed by done.
  unfold fixed_text, comma_text, put_point. rewrite pad_digits_0.
  assert (all_chars is_digit (str_of_Z (js_scaled 0 m e)) = true) as Hd
    by apply str_of_Z_nonneg, js_scaled_nonneg.
  rewrite split_char_lacks.
  2:{ rewrite lacks_app. apply andb_true_iff. split; [by destruct s|by apply digits_lack]. }
  cbn [join]. by rewrite js_group_sign.
Qed.

Lemma fmt_fixed_text n s m e : fmt_fixed n (S754_finite s m e) = fixed_text n s (scaled n m e).
Proof. done. Qed.

Lemma py_comma_text s m e : PyNum.fmt_comma (S754_finite s m e) = comma_text s (scaled 0 m e).
Proof. done. Qed.

(** C38: the two number formats of a chart, the script's for the axes and
    Python's for the table: of the finite numbers of a magnitude below [1e21]
    ([fixed_number]) they agree on every one but minus zero, which Python writes
    with its sign and the script without, and those exactly between two decimals
    of which the lower is even: there Python rounds down and the script up. On
    these the texts differ. *)
Theorem fmt_agrees ch v :
  ch ∈ CHARTS -> fixed_number v ->
  fmt v (ch_spec ch) = ch_fmt ch v <->
  v <> S754_zero true /\ ~ half_even_tie (Z.to_nat (ch_spec ch).1) v.
Proof.
  intros Hch Hv. destruct v as [z| | |s m e]; try done.
  - trans (z = false).
    + revert ch Hch. apply Forall_forall. destruct z; repeat constructor; by intros [=].
    + destruct z; split; [done|by intros [? _]|intros _; split; [done|by intros []]|done].
  - trans (~ half_even_tie (Z.to_nat (ch_spec ch).1) (S754_finite s m e)); [|by split; [|intros [_ ?]]].
    unfold CHARTS in Hch.
    repeat (apply elem_of_cons in Hch as [->|Hch];
      [cbn [ch_spec ch_fmt fst];
       first [rewrite fmt_comma_text, py_comma_text by done; apply (agree_iff (comma_text s)), comma_text_val
             |unfold fmt; cbn [fst snd]; rewrite toFixed_fixed, fmt_fixed_text by done;
              apply (agree_iff (fixed_text _ s)), fixed_text_val]|]).
    by apply not_elem_of_nil in Hch.
Qed.

(** A latency of 2.25 ms: the script shows 2.3, the table 2.2; 2.26 they show
    alike. *)
Lemma fmt_agrees_witness :
  exists ch, ch ∈ CHARTS /\ ch_field ch = "p99_ms" /\
    fmt (f_of_ratio false 225 100) (ch_spec ch) = "2.3" /\ ch_fmt ch (f_of_ratio false 225 100) = "2.2" /\
    fmt (f_of_ratio false 225 100) (ch_spec ch) <> ch_fmt ch (f_of_ratio false 225 100) /\
    fmt (f_of_ratio false 226 100) (ch_spec ch) = ch_fmt ch (f_of_ratio false 226 100) /\
    fmt (S754_zero true) (ch_spec ch) <> ch_fmt ch (S754_zero true).
Proof.
  exists (mkChart "p99_ms" "Latency p99" "ms" (fmt_fixed 1) (1, false)).
  assert (mkChart "p99_ms" "Latency p99" "ms" (fmt_fixed 1) (1, false) ∈ CHARTS) as Hch by (right; left).
  split_and!; [exact Hch|reflexivity|vm_compute; reflexivity..| | |].
  - intros Heq. apply (fmt_agrees _ _ Hch) in Heq; [|by intros He; vm_compute in He]. apply (proj2 Heq).
    vm_compute. by repeat split.
  - apply (fmt_agrees _ _ Hch); [by intros He; vm_compute in He|]. split; [by vm_compute|]. vm_compute. by intros (_ & ? & _).
  - intros Heq. apply (fmt_agrees _ _ Hch) in Heq; [|exact I]. exact (proj1 Heq eq_refl).
Defined.

(** ** The page *)

(** What a click changes for a server; a button without a name does nothing. *)
Definition click_step (s : string) (b : bool) (e : click) : bool :=
  match e with
  | OnServer s' => if decide (s' = s /\ s <> "") then negb b else b
  | OnShowAll => false
  | Beside => b
  end.

(** Whether a server is hidden after these clicks: an odd number of them on its
    button since the last on "show all". *)
Definition off (clicks : list click) (s : string) : bool := foldl (click_step s) false clicks.

(** The configuration of a report on fewer servers. *)
Definition with_servers (CFG : js_cfg) (servers : list string) : js_cfg :=
  mkCfg (cf_geom CFG) (cf_conns CFG) servers (cf_slot CFG) (cf_series CFG) (cf_charts CFG).

Section Page.
Variable Math_log10 Math_pow10 : float -> float.
Variable CFG : js_cfg.

Notation hidden_set := (dict string bool).
Notation page_after := (page_after Math_log10 Math_pow10 CFG).

Lemma visit_filter hidden ch servers acc :
  foldl (visit CFG hidden ch) acc servers =
  foldl (visit CFG [] ch) acc (filter (fun s => is_hidden hidden s = false) servers).
Proof.
  revert acc. induction servers as [|s servers IH]; intros acc; [done|]. rewrite filter_cons. cbn [foldl].
  rewrite IH. destruct (is_hidden hidden s) eqn:Hs.
  - rewrite decide_False by done. unfold visit at 2. by rewrite Hs.
  - rewrite decide_True by done. cbn [foldl]. unfold visit at 2 4. by rewrite Hs.
Qed.

(** A chart with servers hidden is the chart of the report on the others. *)
Lemma render_hidden hidden ch :
  render Math_log10 Math_pow10 CFG hidden ch =
  render Math_log10 Math_pow10
    (with_servers CFG (filter (fun s => is_hidden hidden s = false) (cf_servers CFG))) [] ch.
Proof.
  unfold render. unfold visible at 1. rewrite visit_filter. reflexivity.
Qed.

(** Every entry of the script's set says [true]. *)
Definition all_true (h : hidden_set) : Prop := forall s b, dict_get h s = Some b -> b = true.

Lemma toggle_hidden h s s' :
  all_true h ->
  let h' := if is_hidden h s then dict_pop h s else dict_set h s true in
  all_true h' /\ is_hidden h' s' = if decide (s = s') then negb (is_hidden h s') else is_hidden h s'.
Proof.
  intros Hh. unfold is_hidden. destruct (dict_get h s) as [b|] eqn:Hs; [rewrite (Hh s b Hs)|]; cbv zeta; split.
  - intros k b'. rewrite dict_get_pop. case_decide; [done|]. apply Hh.
  - rewrite dict_get_pop. case_decide as Hd; [|done]. subst s'. by rewrite Hs, (Hh s b Hs).
  - intros k b'. rewrite dict_get_set. case_decide; [by intros [= <-]|]. apply Hh.
  - rewrite dict_get_set. case_decide as Hd; [|done]. subst s'. by rewrite Hs.
Qed.

Lemma hidden_empty h : all_true h -> dict_keys h = [] <-> forall s, is_hidden h s = false.
Proof.
  intros Hh. split.
  - intros Hk s. by destruct h.
  - intros Hs. destruct h as [|[s b] h]; [done|]. specialize (Hs s). unfold is_hidden in Hs. cbn in Hs.
    rewrite decide_True in Hs by done. subst b. exfalso. specialize (Hh s false). cbn in Hh.
    rewrite decide_True in Hh by done. by specialize (Hh eq_refl).
Qed.

(** What the page shows for a set of hidden servers. *)
Record shows (buttons rows : list string) (hide : string -> bool) (p : page) : Prop := {
  sh_set : all_true (pg_hidden p);
  sh_hidden : forall s, is_hidden (pg_hidden p) s = hide s;
  sh_charts : pg_charts p =
    render Math_log10 Math_pow10 (with_servers CFG (filter (fun s => hide s = false) (cf_servers CFG))) []
      <$> cf_charts CFG;
  sh_buttons : pg_buttons p = (fun s => (s, negb (hide s))) <$> buttons;
  sh_rows : pg_rows p = (fun s => (s, hide s)) <$> rows;
  sh_show_all : pg_no_show_all p = true <-> forall s, hide s = false }.

Lemma filter_hidden h hide (servers : list string) :
  (forall s, is_hidden h s = hide s) ->
  filter (fun s => is_hidden h s = false) servers = filter (fun s => hide s = false) servers.
Proof. intros Heq. apply list_filter_iff. intros s. by rewrite Heq. Qed.

Lemma refresh_shows buttons rows hide hide' p h :
  shows buttons rows hide p -> all_true h -> (forall s, is_hidden h s = hide' s) ->
  shows buttons rows hide' (refresh Math_log10 Math_pow10 CFG (set_hidden p h)).
Proof.
  intros [_ _ _ Hb Hr _] Ht Hh. split; cbn.
  - done.
  - done.
  - apply list_fmap_ext. intros i ch _. by rewrite render_hidden, (filter_hidden _ _ _ Hh).
  - rewrite Hb, <- list_fmap_compose. apply list_fmap_ext. intros i s _. cbn. by rewrite Hh.
  - rewrite Hr, <- list_fmap_compose. apply list_fmap_ext. intros i s _. cbn. by rewrite Hh.
  - rewrite bool_decide_eq_true, (hidden_empty _ Ht). by setoid_rewrite Hh.
Qed.

Lemma shows_ext buttons rows hide hide' p :
  (forall s, hide s = hide' s) -> shows buttons rows hide p -> shows buttons rows hide' p.
Proof.
  intros Heq [H1 H2 H3 H4 H5 H6]. split; [done|..].
  - intros s. by rewrite H2.
  - rewrite H3. apply list_fmap_ext. intros i ch _. do 2 f_equal. apply list_filter_iff. intros s. by rewrite Heq.
  - rewrite H4. apply list_fmap_ext. intros i s _. by rewrite Heq.
  - rewrite H5. apply list_fmap_ext. intros i s _. by rewrite Heq.
  - rewrite H6. by setoid_rewrite Heq.
Qed.

Lemma click_shows buttons rows hide p e :
  shows buttons rows hide p ->
  shows buttons rows (fun s => click_step s (hide s) e) (handle_click Math_log10 Math_pow10 CFG p e).
Proof.
  intros Hp. destruct e as [s| |]; cbn [handle_click click_step]; [|by apply (refresh_shows _ _ hide)|done].
  case_bool_decide as Hs.
  - refine (shows_ext _ _ _ _ _ _ Hp). intros s'. rewrite decide_False; [done|]. by intros [<- ?].
  - destruct Hp as [Ht Hh Hrest]. apply (refresh_shows _ _ hide); [by split| |].
    + by apply (toggle_hidden (pg_hidden p) s s).
    + intros s'. destruct (toggle_hidden (pg_hidden p) s s' Ht) as [_ ->]. rewrite Hh.
      destruct (decide (s = s')) as [<-|Hne]; [by rewrite decide_True|by rewrite decide_False by tauto].
Qed.

Lemma start_shows buttons rows :
  shows buttons rows (fun _ => false) (script_start Math_log10 Math_pow10 CFG buttons rows).
Proof. split; cbn; try done. apply list_fmap_ext. intros i ch _. by rewrite render_hidden. Qed.

Lemma clicks_show buttons rows clicks hide p :
  shows buttons rows hide p ->
  shows buttons rows (fun s => foldl (click_step s) (hide s) clicks)
    (foldl (handle_click Math_log10 Math_pow10 CFG) p clicks).
Proof.
  revert hide p. induction clicks as [|e clicks IH]; intros hide p Hp; [exact Hp|].
  apply (IH (fun s => click_step s (hide s) e)). by apply click_shows.
Qed.

(** C6: the report's page is right after any sequence of clicks in the legend. A
    server is hidden exactly if its button was clicked an odd number of times
    since "show all"; every chart is the one of a report made without the hidden
    servers, its axis scaled to the others; the buttons, the dimmed rows of the
    table and "show all" say the same. *)
Theorem script_page buttons rows clicks :
  shows buttons rows (off clicks) (page_after buttons rows clicks).
Proof. apply (clicks_show buttons rows clicks _ _ (start_shows buttons rows)). Qed.
End Page.

(** ** The scale of a chart *)

(** The loop over a server's points. *)
Definition raise_max (vmax : float) (p : float * float) : float := if flt vmax p.2 then p.2 else vmax.

Lemma raise_max_spec pts v0 :
  is_number v0 -> Forall (fun p : float * float => is_number p.2) pts ->
  let v := foldl raise_max v0 pts in
  is_number v /\ f_le v0 v /\ Forall (fun p : float * float => f_le p.2 v) pts /\
  (v = v0 \/ exists p, p ∈ pts /\ v = p.2).
Proof.
  intros Hv0 Hp. revert v0 Hv0. induction Hp as [|p pts Hp _ IH]; intros v0 Hv0; cbn [foldl].
  - split_and!; [done|by apply f_le_refl|constructor|by left].
  - assert (is_number (raise_max v0 p) /\ f_le v0 (raise_max v0 p) /\ f_le p.2 (raise_max v0 p) /\
      (raise_max v0 p = v0 \/ raise_max v0 p = p.2)) as (H1 & H2 & H3 & H4).
    { unfold raise_max. destruct (flt v0 p.2) eqn:Hlt.
      - split_and!; [done|by apply flt_le|by apply f_le_refl|by right].
      - split_and!; [done|by apply f_le_refl|by apply flt_false|by left]. }
    destruct (IH _ H1) as (H5 & H6 & H7 & H8). cbv zeta. split_and!; [done| | |].
    + by apply (f_le_trans _ (raise_max v0 p)).
    + constructor; [by apply (f_le_trans _ (raise_max v0 p))|done].
    + destruct H8 as [->|(q & Hq & ->)]; [|right; exists q; split; [by right|done]].
      destruct H4 as [->| ->]; [by left|right]. exists p. split; [left|done].
Qed.

Section Scale.
Variable CFG : js_cfg.

(** The servers drawn in a chart. *)
Definition drawn (hidden : dict string bool) (ch : js_chart) : list string :=
  filter (fun s => is_hidden hidden s = false /\ pts_of CFG ch s <> []) (cf_servers CFG).

Definition numbers_in (ch : js_chart) : Prop :=
  forall s, s ∈ cf_servers CFG -> Forall (fun p : float * float => is_number p.2) (pts_of CFG ch s).

(** The maximum so far is that of the servers so far. *)
Record fits (ch : js_chart) (acc : list string * float) : Prop := {
  ft_number : is_number acc.2;
  ft_points : forall s p, s ∈ acc.1 -> p ∈ pts_of CFG ch s -> f_le p.2 acc.2 /\ is_number p.2;
  ft_max : acc.2 = js_num 0 \/ exists s p, s ∈ acc.1 /\ p ∈ pts_of CFG ch s /\ acc.2 = p.2 }.

Lemma visit_drawn hidden ch acc s :
  visit CFG hidden ch acc s =
  if decide (is_hidden hidden s = false /\ pts_of CFG ch s <> [])
  then (acc.1 ++ [s], foldl raise_max acc.2 (pts_of CFG ch s)) else acc.
Proof.
  unfold visit. destruct (is_hidden hidden s); [by rewrite decide_False by by intros [? _]|].
  destruct (pts_of CFG ch s); [by rewrite decide_False by by intros [_ ?]|by rewrite decide_True].
Qed.

Lemma visit_fits hidden ch acc s :
  Forall (fun p : float * float => is_number p.2) (pts_of CFG ch s) ->
  fits ch acc -> fits ch (visit CFG hidden ch acc s).
Proof.
  intros Hs [Ha Hp Hm]. rewrite visit_drawn. case_decide; [|by split].
  destruct (raise_max_spec _ acc.2 Ha Hs) as (H1 & H2 & H3 & H4). rewrite Forall_forall in Hs, H3.
  split; cbn [fst snd]; [done| |].
  - intros s' p [Hin| ->%list_elem_of_singleton]%elem_of_app Hpt; [|by auto].
    destruct (Hp s' p Hin Hpt) as [Hle Hn]. split; [|done]. by apply (f_le_trans _ acc.2).
  - destruct H4 as [->|(p & Hin & ->)].
    + destruct Hm as [?|(s' & p & Hs' & Hr)]; [by left|right; exists s', p]. split; [|done]. apply elem_of_app. by left.
    + right. exists s, p. split; [|done]. apply elem_of_app. right. left.
Qed.

Lemma visible_shown hidden ch acc servers :
  (foldl (visit CFG hidden ch) acc servers).1 =
  acc.1 ++ filter (fun s => is_hidden hidden s = false /\ pts_of CFG ch s <> []) servers.
Proof.
  revert acc. induction servers as [|s servers IH]; intros acc; cbn [foldl]; [by rewrite app_nil_r|].
  rewrite IH, visit_drawn, filter_cons. case_decide; [|done]. cbn [fst]. by rewrite <- app_assoc.
Qed.

(** The scale of a chart is that of what it draws: the servers drawn are
    those that are not hidden and have points, in the order of the report; the
    maximum the axis is made for is at least every value drawn, and it is one
    of them, or 0. *)
Theorem visible_spec hidden ch :
  numbers_in ch ->
  let '(shown, vmax) := visible CFG hidden ch in
  shown = drawn hidden ch /\
  (forall s p, s ∈ shown -> p ∈ pts_of CFG ch s -> f_le p.2 vmax) /\
  (vmax = js_num 0 \/ exists s p, s ∈ shown /\ p ∈ pts_of CFG ch s /\ vmax = p.2).
Proof.
  intros Hnum. pose proof (visible_shown hidden ch ([], js_num 0) (cf_servers CFG)) as Hshown.
  assert (fits ch (visible CFG hidden ch)) as [_ Hp Hm].
  { unfold visible. unfold numbers_in in Hnum.
    assert (fits ch ([], js_num 0)) as Hf by (split; [done|by intros s p []%not_elem_of_nil|by left]).
    clear Hshown. revert Hnum Hf. generalize (([], js_num 0) : list string * float).
    induction (cf_servers CFG) as [|s servers IH]; intros acc Hnum Hf; [done|].
    apply IH; [intros s' Hs'; apply Hnum; by right|]. apply visit_fits; [apply Hnum; left|done]. }
  fold (visible CFG hidden ch) in Hshown. destruct (visible CFG hidden ch) as [shown vmax].
  split_and!; [exact Hshown| |exact Hm]. intros s p Hs Hin. by apply (Hp s p).
Qed.
End Scale.

(** Two servers at two loads; "zig" has no values in the second chart. *)
Definition demo_cfg : js_cfg :=
  mkCfg (mkGeom (js_num 900) (js_num 360) (js_num 72) (js_num 128) (js_num 40) (js_num 52))
    [js_num 500; js_num 1000] ["go"; "zig"] [("go", js_num 1); ("zig", js_num 1)]
    [("p99_ms", [("go", [(js_num 500, f_of_ratio false 5 2); (js_num 1000, js_num 7)]); ("zig", [(js_num 500, js_num 30)])]);
     ("p50_ms", [("go", [(js_num 500, js_num 1)])])]
    [mkJsChart "p99_ms" "Latency p99" "ms" (1, false); mkJsChart "p50_ms" "Latency p50" "ms" (1, false)].

Lemma visible_spec_witness :
  let ch := mkJsChart "p99_ms" "Latency p99" "ms" (1, false) in
  visible demo_cfg [] ch = (["go"; "zig"], js_num 30) /\
  visible demo_cfg [("zig", true)] ch = (["go"], js_num 7) /\
  (visible demo_cfg [("zig", true)] ch).1 = drawn demo_cfg [("zig", true)] ch.
Proof.
  intros ch. split_and!; [vm_compute; reflexivity..|].
  pose proof (visible_spec demo_cfg [("zig", true)] ch) as H.
  destruct (visible demo_cfg [("zig", true)] ch) as [shown vmax]. apply H.
  intros s [->|[->|[]%not_elem_of_nil]%elem_of_cons]%elem_of_cons; repeat constructor; discriminate.
Defined.

(** ** Two scales *)

Ltac one_of := apply (bool_decide_eq_true_1 _); reflexivity.

Section NiceMax.
Variable log10 : float -> float.
Variable pow10 : Z -> float.
Variable Math_pow10 : float -> float.

(** A float the decimal powers up to [10^22], and their small multiples, are. *)
Lemma ten_to_float k nf :
  0 <= k <= 22 -> nf ∈ [1; 2; 5; 10] ->
  f_of_Z (10 ^ k) = Ok (js_num (10 ^ k)) /\
  f_of_Z (nf * 10 ^ k) = Ok (fmul (js_num nf) (js_num (10 ^ k))) /\
  exists m e, js_num (10 ^ k) = S754_finite false m e.
Proof.
  intros Hk Hnf.
  assert (Forall (fun k => Forall (fun nf =>
    f_of_Z (10 ^ k) = Ok (js_num (10 ^ k)) /\
    f_of_Z (nf * 10 ^ k) = Ok (fmul (js_num nf) (js_num (10 ^ k))) /\
    exists m e, js_num (10 ^ k) = S754_finite false m e) [1; 2; 5; 10]) (Z.of_nat <$> seq 0 23)) as Hall.
  { repeat (constructor; [repeat (constructor; [split; [|split]; [vm_compute; reflexivity..|
      eexists _, _; vm_compute; reflexivity]|]); constructor|]). constructor. }
  rewrite Forall_forall in Hall. specialize (Hall k). rewrite Forall_forall in Hall.
  apply Hall; [|done]. apply list_elem_of_fmap. exists (Z.to_nat k). split; [lia|]. apply elem_of_seq. lia.
Qed.

(** The two functions that choose the end of an axis agree: for a positive
    value whose power of ten is at most [10^22] (and not zero), [nice_max] does
    not fail and its number is what the script's [niceMax] computes, given that
    [Math.pow] and [**] have the same powers of ten. *)
Theorem niceMax_agrees v k :
  flt f_zero v = true -> f_floor (log10 v) = Ok k -> k <= 22 ->
  Math_pow10 (js_floor (log10 v)) = (if 0 <=? k then js_num (10 ^ k) else pow10 k) ->
  (k < 0 -> forall s, pow10 k <> S754_zero s) ->
  exists n, nice_max log10 pow10 v = Ok n /\ num_float n = Ok (niceMax log10 Math_pow10 v).
Proof.
  intros Hv Hfloor Hk Hpow Hnz. unfold nice_max, niceMax.
  assert (fle v f_zero = false) as ->.
  { unfold flt, SFltb in Hv. unfold fle, SFleb. rewrite SFcompare_swap.
    by destruct (SFcompare f_zero v) as [[]|]. }
  rewrite Hfloor, Hpow. cbn [mbind res_bind]. unfold ten_to.
  destruct (Z.leb_spec 0 k) as [Hk0|Hk0]; cbn [num_float mbind res_bind].
  - assert (forall nf, nf ∈ [1; 2; 5; 10] -> num_float (NInt (nf * 10 ^ k)) = Ok (fmul (js_num nf) (js_num (10 ^ k)))) as Hnum.
    { intros nf Hnf. by apply (ten_to_float k nf). }
    destruct (ten_to_float k 1) as (-> & _ & m & e & Heq); [lia|left|]. cbn [mbind res_bind].
    change (f_of_Z 1) with (Ok (js_num 1)). change (f_of_Z 2) with (Ok (js_num 2)). change (f_of_Z 5) with (Ok (js_num 5)).
    unfold fdiv, js_div. rewrite Heq. rewrite <- Heq. cbn [mbind res_bind].
    set (f := SFdiv _ _ _ _). eexists. split; [reflexivity|].
    destruct (fle f (js_num 1)); [apply Hnum; one_of|]. destruct (fle f (js_num 2)); [apply Hnum; one_of|].
    destruct (fle f (js_num 5)); apply Hnum; one_of.
  - change (f_of_Z 1) with (Ok (js_num 1)). change (f_of_Z 2) with (Ok (js_num 2)). change (f_of_Z 5) with (Ok (js_num 5)).
    assert (fdiv v (pow10 k) = Ok (js_div v (pow10 k))) as ->.
    { unfold fdiv. destruct (pow10 k) as [z| | |] eqn:Hp; try done. by destruct (Hnz Hk0 z). }
    cbn [mbind res_bind]. set (f := js_div v (pow10 k)).
    destruct (fle f (js_num 1)); [by eexists|]. destruct (fle f (js_num 2)); [by eexists|].
    destruct (fle f (js_num 5)); by eexists.
Qed.
End NiceMax.

Lemma niceMax_agrees_witness :
  exists n, nice_max (fun _ => f_of_ratio false 1477 1000) (fun _ => f_zero) (js_num 30) = Ok n /\ n = NInt 50 /\
    num_float n = Ok (niceMax (fun _ => f_of_ratio false 1477 1000) (fun _ => js_num 10) (js_num 30)).
Proof.
  destruct (niceMax_agrees (fun _ => f_of_ratio false 1477 1000) (fun _ => f_zero) (fun _ => js_num 10) (js_num 30) 1)
    as (n & H1 & H2); [vm_compute; reflexivity..|lia|vm_compute; reflexivity|lia|].
  exists n. split_and!; [exact H1| |exact H2].
  assert (Ok n = Ok (NInt 50)) as [= ->]; [|done]. rewrite <- H1. vm_compute. reflexivity.
Defined.

(** ** The tabs *)

Lemma sel_other panels id t tabs a b :
  a ∉ tabs.*1 -> b ∉ tabs.*2 ->
  dict_get (tb_selected (foldl (sel_step panels id) t tabs)) a = dict_get (tb_selected t) a /\
  dict_get (tb_hidden (foldl (sel_step panels id) t tabs)) b = dict_get (tb_hidden t) b.
Proof.
  revert t. induction tabs as [|x tabs IH]; intros t; [done|].
  cbn [fmap list_fmap foldl]. intros [Ha Has]%not_elem_of_cons [Hb Hbs]%not_elem_of_cons.
  destruct (IH (sel_step panels id t x) Has Hbs) as [-> ->]. cbn. split.
  - by apply dict_get_set_ne.
  - case_decide; [by apply dict_get_set_ne|done].
Qed.

(** After a click on a tab exactly that tab is selected and exactly its
    panel is shown, whatever was before. *)
Theorem one_panel panels t id tab :
  NoDup (tb_tabs t).*1 -> NoDup (tb_tabs t).*2 -> (forall x, x ∈ tb_tabs t -> x.2 ∈ panels) ->
  tab ∈ tb_tabs t ->
  dict_get (tb_selected (sel_tab panels t id)) tab.1 = Some (bool_decide (tab.1 = id)) /\
  dict_get (tb_hidden (sel_tab panels t id)) tab.2 = Some (negb (bool_decide (tab.1 = id))).
Proof.
  intros H1 H2 Hp Hin. unfold sel_tab. specialize (Hp tab Hin).
  apply list_elem_of_split in Hin as (l1 & l2 & Heq). rewrite Heq in *. clear Heq.
  rewrite foldl_app. cbn [foldl]. rewrite fmap_app in H1, H2.
  apply NoDup_app in H1 as (_ & _ & [Ha _]%NoDup_cons). apply NoDup_app in H2 as (_ & _ & [Hb _]%NoDup_cons).
  destruct (sel_other panels id (sel_step panels id (foldl (sel_step panels id) t l1) tab) l2 tab.1 tab.2 Ha Hb) as [-> ->].
  cbn. rewrite decide_True by done. by rewrite !dict_get_set_eq.
Qed.

(** The page's two tabs. *)
Definition report_tabs : tabs :=
  mkTabs [("tab-sat", "panel-sat"); ("tab-tl", "panel-tl")]
    [("tab-sat", true); ("tab-tl", false)] [("panel-sat", false); ("panel-tl", true)].

Lemma one_panel_witness :
  let t := sel_tab ["panel-sat"; "panel-tl"] report_tabs "tab-tl" in
  dict_get (tb_hidden t) "panel-sat" = Some true /\ dict_get (tb_hidden t) "panel-tl" = Some false.
Proof.
  split.
  - apply (one_panel ["panel-sat"; "panel-tl"] report_tabs "tab-tl" ("tab-sat", "panel-sat"));
      [apply (bool_decide_eq_true_1 _); reflexivity..| |left].
    intros x [->|[->|[]%not_elem_of_nil]%elem_of_cons]%elem_of_cons; apply (bool_decide_eq_true_1 _); reflexivity.
  - apply (one_panel ["panel-sat"; "panel-tl"] report_tabs "tab-tl" ("tab-tl", "panel-tl"));
      [apply (bool_decide_eq_true_1 _); reflexivity..| |right; left].
    intros x [->|[->|[]%not_elem_of_nil]%elem_of_cons]%elem_of_cons; apply (bool_decide_eq_true_1 _); reflexivity.
Defined.
