(* ===== verification/PlotAssets.v ===== *)
(** * The texts of the report's page (runner/plot.py, lines 128-183, 187-312, 432-445)

    [CSS], [JS] and [TAB_JS], character for character; a double quote is written
    [`] ([qt]). *)

From Stdlib Require Import Ascii String.
From S2P Require Import Prelude PyText PyJsonText.

Open Scope string_scope.

(** The style sheet. *)
Definition CSS : string := qt "
:root{
  --surface-1:#fcfcfb; --page:#f9f9f7; --ink:#0b0b0b; --ink2:#52514e;
  --muted:#898781; --grid:#e1e0d9; --axis:#c3c2b7; --border:rgba(11,11,11,.10);
  --series-1:#2a78d6; --series-2:#1baf7a; --series-3:#eda100; --series-4:#008300; --series-5:#4a3aa7;
}
@media (prefers-color-scheme:dark){:root{
  --surface-1:#1a1a19; --page:#0d0d0d; --ink:#fff; --ink2:#c3c2b7;
  --muted:#898781; --grid:#2c2c2a; --axis:#383835; --border:rgba(255,255,255,.10);
  --series-1:#3987e5; --series-2:#199e70; --series-3:#c98500; --series-4:#008300; --series-5:#9085e9;
}}
*{box-sizing:border-box}
body{margin:0;background:var(--page);color:var(--ink);
  font-family:system-ui,-apple-system,`Segoe UI`,sans-serif;line-height:1.5}
.wrap{max-width:960px;margin:0 auto;padding:32px 20px 64px}
h1{font-size:22px;margin:0 0 4px} .sub{color:var(--ink2);margin:0 0 24px;font-size:14px}
.card{background:var(--surface-1);border:1px solid var(--border);border-radius:12px;
  padding:16px 12px;margin:0 0 20px;overflow-x:auto}
.chart{display:block;width:100%;height:auto;min-width:560px}
.c-title{fill:var(--ink);font-size:15px;font-weight:600}
.grid{stroke:var(--grid);stroke-width:1}
.baseline{stroke:var(--axis);stroke-width:1}
.tick{fill:var(--muted);font-size:11px;font-variant-numeric:tabular-nums}
.tick-y{text-anchor:end} .tick-x{text-anchor:middle}
.axis-label{fill:var(--ink2);font-size:12px;text-anchor:middle}
.direct-label{fill:var(--ink2);font-size:12px;font-weight:500}
.legend{display:flex;gap:10px;flex-wrap:wrap;margin:0 0 20px;align-items:center}
.leg{display:inline-flex;align-items:center;gap:6px;color:var(--ink2);font-size:13px;
  background:transparent;border:1px solid var(--border);border-radius:999px;
  padding:4px 12px 4px 8px;cursor:pointer;font-family:inherit;line-height:1;
  transition:opacity .12s,border-color .12s}
.leg:hover{border-color:var(--axis)}
.leg[aria-pressed=`false`]{opacity:.42}
.leg[aria-pressed=`false`] .leg-name{text-decoration:line-through}
.leg[aria-pressed=`false`] .sw{opacity:.5}
.leg-all{color:var(--ink2);padding:4px 12px}
.sw{width:11px;height:11px;border-radius:3px;flex:none}
tr.dim{opacity:.32}
table{border-collapse:collapse;width:100%;font-size:13px;font-variant-numeric:tabular-nums}
th,td{padding:6px 10px;text-align:right;border-bottom:1px solid var(--grid)}
th:first-child,td:first-child{text-align:left} th{color:var(--ink2);font-weight:600}
th:nth-child(2),td:nth-child(2){text-align:right}
td .sw{display:inline-block;margin-right:6px;vertical-align:middle}
details{margin-top:8px} summary{cursor:pointer;color:var(--ink2);font-size:14px;padding:8px 0}
.noscript{color:var(--ink2);font-size:13px;margin:0 0 16px}
.tabs{display:flex;gap:2px;border-bottom:1px solid var(--border);margin:0 0 24px}
.tab{background:transparent;border:0;border-bottom:2px solid transparent;color:var(--ink2);
  font:inherit;font-size:14px;padding:9px 16px;margin-bottom:-1px;cursor:pointer;
  transition:color .12s,border-color .12s}
.tab:hover{color:var(--ink)}
.tab[aria-selected=`true`]{color:var(--ink);border-bottom-color:var(--series-1);font-weight:600}
[role=`tabpanel`][hidden]{display:none}
.card-meta{color:var(--muted);font-size:12px;margin:0 4px 2px;text-align:right}
.plegend{display:flex;gap:14px;flex-wrap:wrap;margin:0 0 20px;align-items:center}
.pleg{display:inline-flex;align-items:center;gap:6px;color:var(--ink2);font-size:13px}
".

(** The script of the charts, with the place of its configuration; [PlotJs] is
    its meaning. *)
Definition JS : string := qt "
(function(){
  var CFG = __CFG__;
  var G = CFG.geom;
  var X0 = G.ML, X1 = G.W - G.MR, Y0 = G.H - G.MB, Y1 = G.MT;
  var conns = CFG.conns;
  var xi = {}; conns.forEach(function(c,i){ xi[c] = i; });
  var hidden = Object.create(null);

  function esc(s){ return String(s).replace(/&/g,`&amp;`).replace(/</g,`&lt;`).replace(/>/g,`&gt;`); }
  function niceMax(v){
    if(v<=0) return 1;
    var exp = Math.floor(Math.log10(v));
    var f = v / Math.pow(10,exp);
    var nf = f<=1?1 : f<=2?2 : f<=5?5 : 10;
    return nf * Math.pow(10,exp);
  }
  function fmt(v, spec){
    var s = Number(v).toFixed(spec.d);
    if(spec.c){
      var p = s.split(`.`);
      p[0] = p[0].replace(/\B(?=(\d{3})+(?!\d))/g, `,`);
      s = p.join(`.`);
    }
    return s;
  }
  function xpos(i,n){ return n<=1 ? X0 : X0 + (X1-X0)*i/(n-1); }

  function render(chart){
    var svg = [];
    var n = conns.length;
    var byServer = CFG.series[chart.field] || {};
    var spec = chart.spec, ylabel = chart.ylabel;

    // visible series + shared max
    var vmax = 0, visible = [];
    CFG.servers.forEach(function(s){
      if(hidden[s]) return;
      var pts = byServer[s];
      if(!pts || !pts.length) return;
      visible.push(s);
      pts.forEach(function(p){ if(p[1] > vmax) vmax = p[1]; });
    });
    var ymax = vmax > 0 ? niceMax(vmax) : 1;

    function X(c){ return xpos(xi[c], n); }
    function Y(v){ return Y0 - (Y0 - Y1) * (v / ymax); }

    svg.push('<svg viewBox=`0 0 '+G.W+' '+G.H+'` class=`chart` role=`img` aria-label=`'
      + esc(chart.title) + '` preserveAspectRatio=`xMidYMid meet`>');
    svg.push('<text x=`'+G.ML+'` y=`24` class=`c-title`>'+esc(chart.title)+'</text>');

    for(var k=0;k<=5;k++){
      var v = ymax*k/5, y = Y(v);
      svg.push('<line x1=`'+X0+'` y1=`'+y.toFixed(1)+'` x2=`'+X1+'` y2=`'+y.toFixed(1)+'` class=`grid`/>');
      svg.push('<text x=`'+(X0-10)+'` y=`'+(y+4).toFixed(1)+'` class=`tick tick-y`>'+fmt(v,spec)+'</text>');
    }
    svg.push('<text class=`axis-label` transform=`translate(18,'+((Y0+Y1)/2)+') rotate(-90)`>'+esc(ylabel)+'</text>');

    conns.forEach(function(c){
      svg.push('<text x=`'+X(c).toFixed(1)+'` y=`'+(Y0+22)+'` class=`tick tick-x`>'+fmt(c,{d:0,c:true})+'</text>');
    });
    svg.push('<text x=`'+((X0+X1)/2)+'` y=`'+(G.H-8)+'` class=`axis-label`>connections (offered load)</text>');
    svg.push('<line x1=`'+X0+'` y1=`'+Y0+'` x2=`'+X1+'` y2=`'+Y0+'` class=`baseline`/>');

    visible.forEach(function(s){
      var col = `var(--series-` + (CFG.slot[s]||1) + `)`;
      var pts = byServer[s];
      var d = pts.map(function(p,i){ return (i===0?`M`:`L`) + X(p[0]).toFixed(1) + `,` + Y(p[1]).toFixed(1); }).join(` `);
      svg.push('<path d=`'+d+'` fill=`none` stroke=`'+col+'` stroke-width=`2` stroke-linejoin=`round` stroke-linecap=`round`/>');
      pts.forEach(function(p){
        svg.push('<circle cx=`'+X(p[0]).toFixed(1)+'` cy=`'+Y(p[1]).toFixed(1)+'` r=`4` fill=`'+col
          +'` stroke=`var(--surface-1)` stroke-width=`1.5`><title>'+esc(s)+' @ '+fmt(p[0],{d:0,c:true})
          +' conns: '+fmt(p[1],spec)+' '+esc(ylabel)+'</title></circle>');
      });
      var last = pts[pts.length-1], ly = Y(last[1]);
      svg.push('<circle cx=`'+(X1+14)+'` cy=`'+ly.toFixed(1)+'` r=`4` fill=`'+col+'`/>');
      svg.push('<text x=`'+(X1+24)+'` y=`'+(ly+4).toFixed(1)+'` class=`direct-label`>'+esc(s)+'</text>');
    });

    svg.push('</svg>');
    return svg.join(``);
  }

  function renderAll(){
    CFG.charts.forEach(function(chart, i){
      var el = document.getElementById(`chart-`+i);
      if(el) el.innerHTML = render(chart);
    });
  }

  function syncTable(){
    var rows = document.querySelectorAll(`tbody tr[data-server]`);
    for(var i=0;i<rows.length;i++){
      rows[i].classList.toggle(`dim`, !!hidden[rows[i].getAttribute(`data-server`)]);
    }
  }

  function refresh(){
    var btns = document.querySelectorAll(`.leg[data-server]`);
    for(var i=0;i<btns.length;i++){
      var srv = btns[i].getAttribute(`data-server`);
      btns[i].setAttribute(`aria-pressed`, hidden[srv] ? `false` : `true`);
    }
    var showAll = document.getElementById(`show-all`);
    if(showAll) showAll.hidden = Object.keys(hidden).length === 0;
    renderAll();
    syncTable();
  }

  var legend = document.getElementById(`legend`);
  if(legend){
    legend.addEventListener(`click`, function(e){
      var btn = e.target.closest ? e.target.closest(`.leg`) : null;
      if(!btn) return;
      if(btn.id === `show-all`){ hidden = Object.create(null); refresh(); return; }
      var s = btn.getAttribute(`data-server`);
      if(!s) return;
      if(hidden[s]) delete hidden[s]; else hidden[s] = true;
      refresh();
    });
  }

  renderAll();
})();
".

(** The script of the tabs; [PlotJs.sel_tab]. *)
Definition TAB_JS : string := qt "
(function(){
  var tabs = [].slice.call(document.querySelectorAll('.tab'));
  function sel(id){
    tabs.forEach(function(t){
      var on = t.id === id;
      t.setAttribute('aria-selected', on ? 'true' : 'false');
      var p = document.getElementById(t.getAttribute('aria-controls'));
      if(p) p.hidden = !on;
    });
  }
  tabs.forEach(function(t){ t.addEventListener('click', function(){ sel(t.id); }); });
})();
".
