(* ===== verification/PlotPage.v ===== *)
(** * The report's page (runner/plot.py, lines 52, 462-513)

    - [GEOM], [build_cfg] and [build_html] make the page, from the texts of
      [PlotAssets];
    - [script_cfg] is what the script's [CFG] is when the browser has evaluated
      the literal that [build_html] puts into it;
    - [main] is the program: which files it reads, what it writes.

    Paths are those of [PyPath]; directories are there or can be made.  Text is
    UTF-8. *)

From Stdlib Require Import Ascii String ZArith Lia SpecFloat.
From S2P Require Import Prelude PyText PyDict PyFloat PyJson PyJsonText PyPath RunnerSpecs PlotData PlotHtml PlotJs PlotAssets Results.

Open Scope string_scope.
Open Scope list_scope.
Open Scope Z_scope.

(** ** The configuration of the script *)

Definition GEOM : json :=
  JObj [("W", JInt W); ("H", JInt H); ("ML", JInt ML); ("MR", JInt MR); ("MT", JInt MT); ("MB", JInt MB)].

(** [{s: SLOT.get(s, 1) for s in servers}] *)
Definition slots (servers : list string) : dict string json :=
  dict_update [] ((fun s => (s, JInt (slot s))) <$> servers).

(** A line of [series_json]'s result: [[conns, median], ...]. *)
Definition points_json (pts : list (Z * float)) : json :=
  JArr ((fun p => JArr [JInt p.1; JFloat p.2]) <$> pts).

Definition chart_json (ch : chart) : json :=
  JObj [("field", JStr (ch_field ch)); ("title", JStr (ch_title ch)); ("ylabel", JStr (ch_ylabel ch));
        ("spec", JObj [("d", JInt (ch_spec ch).1); ("c", JBool (ch_spec ch).2)])].

Definition build_cfg (data : table) (servers : list string) (all_conns : list Z) : res json :=
  series ← series_json data servers all_conns;
  Ok (JObj [("geom", GEOM); ("conns", JArr (JInt <$> all_conns)); ("servers", JArr (JStr <$> servers));
            ("slot", JObj (slots servers));
            ("series", JObj (dict_map (fun lines => JObj (dict_map points_json lines)) series));
            ("charts", JArr (chart_json <$> CHARTS))]).

(** ** The page *)

(** [s.replace(old, new)] for a non-empty [old]; [skip] characters of an
    occurrence are still to be passed over. *)
Fixpoint replace_from (skip : nat) (old new s : string) : string :=
  match s with
  | "" => ""
  | String c s' =>
      match skip with
      | S skip => replace_from skip old new s'
      | O => if startswith s old then new +:+ replace_from (pred (String.length old)) old new s'
             else String c (replace_from 0 old new s')
      end
  end.
Definition str_replace (old new s : string) : string := replace_from 0 old new s.

Definition nl : string := String "010" "".

Definition tab_button (id panel selected text : string) : string :=
  "<button" +:+ attr "class" "tab" +:+ attr "role" "tab" +:+ attr "id" id +:+ attr "aria-controls" panel +:+
  attr "aria-selected" selected +:+ ">" +:+ text +:+ "</button>".

Definition page_head : string :=
  "<!doctype html><html" +:+ attr "lang" "en" +:+ "><head><meta" +:+ attr "charset" "utf-8" +:+ ">" +:+ nl +:+
  "<meta" +:+ attr "name" "viewport" +:+ attr "content" "width=device-width,initial-scale=1" +:+ ">" +:+ nl +:+
  "<title>game-bench — report</title><style>" +:+ CSS +:+ "</style></head>" +:+ nl +:+
  "<body><div" +:+ attr "class" "wrap" +:+ ">" +:+ nl +:+
  "<h1>game-bench</h1>" +:+ nl +:+
  "<div" +:+ attr "class" "tabs" +:+ attr "role" "tablist" +:+ attr "aria-label" "Views" +:+ ">" +:+ nl +:+
  tab_button "tab-sat" "panel-sat" "true" "Saturation curves" +:+ nl +:+
  tab_button "tab-tl" "panel-tl" "false" "Latency over time" +:+ nl +:+
  "</div>" +:+ nl.

Definition page_panels (sat tl : string) : string :=
  "<section" +:+ attr "id" "panel-sat" +:+ attr "role" "tabpanel" +:+ attr "aria-labelledby" "tab-sat" +:+ ">" +:+
  sat +:+ "</section>" +:+ nl +:+
  "<section" +:+ attr "id" "panel-tl" +:+ attr "role" "tabpanel" +:+ attr "aria-labelledby" "tab-tl" +:+
  " hidden>" +:+ tl +:+ "</section>" +:+ nl +:+
  "</div>" +:+ nl.

Section Page.
Variable log10 : float -> float.
Variable pow10 : Z -> float.

(** [JS.replace("__CFG__", ...)] *)
Definition script_text (cfg : string) : string := str_replace "__CFG__" cfg JS.

(** [tl_src or src] *)
Definition or_src (tl_src src : string) : string := if bool_decide (tl_src = "") then src else tl_src.

Definition build_html (data : table) (servers : list string) (all_conns : list Z) (src : string)
    (tl_data : option timeline) (tl_src : string) : res string :=
  cfg ← build_cfg data servers all_conns;
  sat ← saturation_body data servers all_conns src;
  tl ← timeline_body log10 pow10 tl_data (or_src tl_src src);
  Ok (page_head +:+ page_panels sat tl +:+
      "<script>" +:+ script_text (json_dumps cfg) +:+ "</script>" +:+ nl +:+
      "<script>" +:+ TAB_JS +:+ "</script>" +:+ nl +:+
      "</body></html>").

(** ** The program *)

(** The files, by normalised absolute path. *)
Notation files := (dict string string).

Definition open_read (cwd p : string) (fs : files) : res string :=
  if bool_decide (p = "") then Raise FileNotFoundError
  else res_of_option FileNotFoundError (dict_get fs (abspath cwd p)).

Definition path_exists (cwd p : string) (fs : files) : bool :=
  match open_read cwd p fs with Ok _ => true | Raise _ => false end.

(** What the report is made of: the page for these files, or the exception. *)
Definition report (cwd csv : string) (fs : files) : res string :=
  text ← open_read cwd csv fs;
  loaded ← load_file text;
  let '(data, servers, all_conns) := loaded in
  if bool_decide (servers = []) || bool_decide (all_conns = []) then Raise SystemExit
  else
    let tl_csv := path_join (dirname (abspath cwd csv)) "timeline.csv" in
    tl_data ← (if path_exists cwd tl_csv fs
               then text ← open_read cwd tl_csv fs; d ← load_timeline_file text; Ok (Some d)
               else Ok None);
    build_html data servers all_conns csv tl_data tl_csv.

Definition main (cwd csv out : string) (fs : files) : files * res () :=
  match html ← report cwd csv fs; makedirs (dirname out);; Ok html with
  | Raise e => (fs, Raise e)
  | Ok html => (dict_set fs (abspath cwd out) html, Ok tt)
  end.
End Page.

Example replace_ex :
  str_replace "aa" "b" "aaaxaa" = "baxb".
Proof. vm_compute. repeat split; reflexivity. Qed.

(** ** The literal as the script sees it *)

Definition js_number (v : json) : option float :=
  match v with JInt z => Some (js_num z) | JFloat f => Some f | _ => None end.

Definition as_string (v : json) : option string := match v with JStr s => Some s | _ => None end.
Definition as_list (v : json) : option (list json) := match v with JArr l => Some l | _ => None end.
Definition as_object (v : json) : option (dict string json) := match v with JObj d => Some d | _ => None end.

(** [v.k], read with [f]. *)
Definition member {A} (f : json -> option A) (v : json) (k : string) : option A :=
  d ← as_object v; x ← dict_get d k; f x.

Fixpoint traverse {A B} (f : A -> option B) (l : list A) : option (list B) :=
  match l with
  | [] => Some []
  | x :: l => y ← f x; ys ← traverse f l; Some (y :: ys)
  end.

Definition dict_traverse {A B} (f : A -> option B) (d : dict string A) : option (dict string B) :=
  traverse (fun kv : string * A => y ← f kv.2; Some (kv.1, y)) d.

Definition js_point (v : json) : option (float * float) :=
  l ← as_list v;
  match l with [x; y] => x ← js_number x; y ← js_number y; Some (x, y) | _ => None end.

Definition js_points (v : json) : option (list (float * float)) := l ← as_list v; traverse js_point l.
Definition js_lines (v : json) : option (dict string (list (float * float))) :=
  d ← as_object v; dict_traverse js_points d.

Definition js_geom (v : json) : option geom :=
  w ← member js_number v "W"; h ← member js_number v "H";
  ml ← member js_number v "ML"; mr ← member js_number v "MR";
  mt ← member js_number v "MT"; mb ← member js_number v "MB";
  Some (mkGeom w h ml mr mt mb).

Definition js_spec (v : json) : option (Z * bool) :=
  d ← member Some v "d"; c ← member Some v "c";
  match d, c with JInt d, JBool c => Some (d, c) | _, _ => None end.

Definition js_chart_of (v : json) : option js_chart :=
  field ← member as_string v "field"; title ← member as_string v "title";
  ylabel ← member as_string v "ylabel"; spec ← member js_spec v "spec";
  Some (mkJsChart field title ylabel spec).

Definition script_cfg (v : json) : option js_cfg :=
  g ← member js_geom v "geom";
  conns ← member as_list v "conns"; conns ← traverse js_number conns;
  servers ← member as_list v "servers"; servers ← traverse as_string servers;
  slot ← member as_object v "slot"; slot ← dict_traverse js_number slot;
  series ← member as_object v "series"; series ← dict_traverse js_lines series;
  charts ← member as_list v "charts"; charts ← traverse js_chart_of charts;
  Some (mkCfg g conns servers slot series charts).
