(* ===== verification/PlotCli.v ===== *)
(** * The report's command line (runner/plot.py, lines 491-497)

    [parse_plot_argv] is [ap.parse_args()] for what [main] declares: the summary
    as an optional positional argument, and [-o]/[--out]; the defaults are files
    of the directory [results] beside the program's.

    [program] is [main] from its arguments on.

    [default_out_read]: without arguments the report reads what the runner, in
    the same directory, writes without arguments. *)

From Stdlib Require Import Ascii String ZArith Lia SpecFloat.
From S2P Require Import Prelude PyText PyDict PyFloat PyJson PyPath PyArgparse RunnerSpecs Procfs Lifecycle Matrix RunnerCli PlotPage.

Open Scope string_scope.
Open Scope list_scope.
Open Scope Z_scope.

(** ** Arguments *)

Record PlotArgs := mkPlotArgs { pa_csv : string; pa_out : string }.

Definition plot_option_names : list string := ["-h"; "--help"; "-o"; "--out"].

Definition set_plot_option (ns : PlotArgs) (name v : string) : res PlotArgs :=
  if bool_decide (name = "-o" \/ name = "--out") then Ok (mkPlotArgs (pa_csv ns) v) else Raise SystemExit.

Definition plot_parser : ArgumentParser PlotArgs :=
  mkParser plot_option_names set_plot_option (Some (fun ns csv => mkPlotArgs csv (pa_out ns))).

#[export] Instance plot_option_names_Names : Names plot_option_names.
Proof. reflexivity. Qed.

Definition plot_defaults (root : string) : PlotArgs :=
  mkPlotArgs (path_join (path_join root "results") "results.csv") (path_join (path_join root "results") "report.html").

(** The arguments of the program in [file], run in [cwd]. *)
Definition parse_plot_argv (cwd file : string) (argv : list string) : res PlotArgs :=
  parse plot_parser (plot_defaults (program_root cwd file)) argv.

Section Program.
Variable log10 : float -> float.
Variable pow10 : Z -> float.

Definition program (cwd file : string) (argv : list string) (fs : dict string string) : dict string string * res () :=
  match parse_plot_argv cwd file argv with
  | Raise e => (fs, Raise e)
  | Ok args => PlotPage.main log10 pow10 cwd (pa_csv args) (pa_out args) fs
  end.
End Program.

Example plot_cli_ex :
  parse_plot_argv "/b" "runner/plot.py" [] = Ok (mkPlotArgs "/b/results/results.csv" "/b/results/report.html") /\
  parse_plot_argv "/b" "plot.py" ["x.csv"; "-oy"] = Ok (mkPlotArgs "x.csv" "y") /\
  parse_plot_argv "/" "/p/plot.py" ["--ou=y"; "-5"] = Ok (mkPlotArgs "-5" "y") /\
  parse_plot_argv "/b" "plot.py" ["-o=y"; "-"] = Ok (mkPlotArgs "-" "y") /\
  parse_plot_argv "/b" "plot.py" ["x"; "y"] = Raise SystemExit /\
  parse_plot_argv "/b" "plot.py" ["-o"] = Raise SystemExit /\ parse_plot_argv "/b" "plot.py" ["-hx"] = Raise SystemExit /\
  parse_plot_argv "/b" "plot.py" ["-o"; "-x"] = Raise SystemExit.
Proof. vm_compute. repeat split; reflexivity. Qed.

(** ** Theorems *)

(** What argparse refuses ends the program before it has done anything. *)
Lemma refused_plot_args log10 pow10 cwd file argv e fs :
  parse_plot_argv cwd file argv = Raise e -> program log10 pow10 cwd file argv fs = (fs, Raise SystemExit).
Proof.
  intros Hp. unfold program. rewrite Hp. do 2 f_equal. apply (parse_exits plot_parser) in Hp; [done|].
  intros ns name v e'. unfold ap_set, plot_parser, set_plot_option. case_bool_decide; congruence.
Qed.

Ltac read_out :=
  eapply eq_trans; [apply (parse_option plot_parser); [vm_compute; reflexivity|eassumption|reflexivity]|].

(** What is said is read, in either order and by either name; what is not said
    is the default. *)
Theorem plot_args_read cwd file csv out o :
  classify plot_option_names csv = Value -> classify plot_option_names out = Value -> o = "-o" \/ o = "--out" ->
  let d := plot_defaults (program_root cwd file) in
  parse_plot_argv cwd file [csv; o; out] = Ok (mkPlotArgs csv out) /\
  parse_plot_argv cwd file [o; out; csv] = Ok (mkPlotArgs csv out) /\
  parse_plot_argv cwd file [csv] = Ok (mkPlotArgs csv (pa_out d)) /\
  parse_plot_argv cwd file [o; out] = Ok (mkPlotArgs (pa_csv d) out) /\
  parse_plot_argv cwd file [] = Ok d.
Proof.
  intros Hcsv Hout Ho d. unfold parse_plot_argv, parse. fold d. cbn [ap_positional plot_parser].
  pose proof (fun f ns v argv H => parse_value plot_parser f ns v argv H) as Hval.
  split_and!; [rewrite Hval by exact Hcsv| |by rewrite Hval by exact Hcsv| |reflexivity];
    (destruct Ho as [-> | ->]; read_out; by rewrite ?Hval by exact Hcsv).
Qed.

Lemma plot_args_read_witness :
  parse_plot_argv "/b" "plot.py" ["x.csv"; "-o"; "out dir/y"] = Ok (mkPlotArgs "x.csv" "out dir/y") /\
  parse_plot_argv "/b" "plot.py" ["x.csv"] = Ok (mkPlotArgs "x.csv" "/results/report.html").
Proof.
  destruct (plot_args_read "/b" "plot.py" "x.csv" "out dir/y" "-o") as (H1 & _ & H3 & _);
    [reflexivity|reflexivity|by left|]. split; [exact H1|exact H3].
Defined.

(** The two programs agree about the results when nothing is said. *)
Lemma default_out_read cwd runner_file :
  startswith cwd "/" = true -> file_path runner_file ->
  let ROOT := program_root cwd runner_file in
  let plot_file := path_join (dirname runner_file) "plot.py" in
  a_out <$> parse_argv ROOT [] = pa_csv <$> parse_plot_argv cwd plot_file [] /\
  file_path (a_out (default_args ROOT)).
Proof.
  intros Hcwd Hfile ROOT plot_file. unfold parse_plot_argv, plot_file.
  rewrite program_root_sibling by (done || by repeat split). split; [reflexivity|]. apply file_path_join. by repeat split.
Qed.

(** Where the results go there is a directory to make. *)
Lemma default_out_made root : makedirs (dirname (pa_out (plot_defaults root))) = Ok tt.
Proof.
  unfold makedirs. rewrite bool_decide_eq_false_2; [done|]. cbn [pa_out plot_defaults].
  rewrite (path_join_rel _ "report.html") by done. rewrite (path_join_rel root "results") by done.
  set (h := root +:+ join_sep root +:+ "results").
  assert (rstrip_slash h = h /\ h <> "") as [Hh Hne].
  { unfold h. rewrite !rstrip_slash_app. change (rstrip_slash "results") with "results".
    rewrite !bool_decide_eq_false_2 by by (destruct (join_sep root)). split; [done|]. destruct root; [|done].
    by destruct (join_sep ""). }
  unfold join_sep. rewrite bool_decide_eq_false_2, ends_slash_false by done. cbn [orb].
  rewrite dirname_slash by done. rewrite rstrip_slash_app. change (rstrip_slash "/") with "".
  rewrite (bool_decide_eq_true_2 ("" = "")) by done. by rewrite Hh, bool_decide_eq_false_2.
Qed.
