(* ===== verification/PlotPageThms.v ===== *)
(** * The report's page: theorems

    [page_draws]: the page's text holds the configuration, and what it reads as;
    [main_all_or_nothing], [main_bare_name]: what the program writes. *)

From Stdlib Require Import Ascii String ZArith Lia SpecFloat.
From S2P Require Import Prelude PyText PyDict PyFloat PyFloatThms PyJson PyNum PyRepr PyJsonText PyJsonThms PyPath PySort.
From S2P Require Import RunnerSpecs Procfs Lifecycle LifecycleThms Matrix MatrixThms PlotData PlotThms PlotHtml PlotJs PlotJsThms PlotAssets PlotPage Results ResultsThms PlotTotal.

Open Scope string_scope.
Open Scope list_scope.
Open Scope Z_scope.

(** ** The configuration read back *)

Lemma traverse_fmap {A B C} (f : B -> option C) (g : A -> B) (h : A -> C) l :
  (forall x, f (g x) = Some (h x)) -> traverse f (g <$> l) = Some (h <$> l).
Proof. intros Hf. induction l as [|x l IH]; [done|]. cbn. by rewrite Hf, IH. Qed.

Lemma dict_traverse_map {A B C} (f : B -> option C) (g : A -> B) (h : A -> C) (d : dict string A) :
  (forall x, f (g x) = Some (h x)) -> dict_traverse f (dict_map g d) = Some (dict_map h d).
Proof.
  intros Hf. unfold dict_traverse, dict_map. rewrite (traverse_fmap _ _ (prod_map id h)); [done|].
  intros [k x]. cbn. by rewrite Hf.
Qed.

Definition js_pts (pts : list (Z * float)) : list (float * float) := (fun p => (js_num p.1, p.2)) <$> pts.

Definition js_chart_data (ch : chart) : js_chart :=
  mkJsChart (ch_field ch) (ch_title ch) (ch_ylabel ch) (ch_spec ch).

(** What the script is given. *)
Definition cfg_of (servers : list string) (all_conns : list Z)
    (series : dict string (dict string (list (Z * float)))) : js_cfg :=
  mkCfg (mkGeom (js_num W) (js_num H) (js_num ML) (js_num MR) (js_num MT) (js_num MB))
    (js_num <$> all_conns) servers ((fun s => (s, js_num (slot s))) <$> servers)
    (dict_map (dict_map js_pts) series) (js_chart_data <$> CHARTS).

Lemma slots_nodup servers : NoDup servers -> slots servers = (fun s => (s, JInt (slot s))) <$> servers.
Proof.
  intros Hnd. unfold slots. apply dict_update_nodup. unfold dict_keys.
  rewrite <- list_fmap_compose. by rewrite list_fmap_id.
Qed.

Lemma js_points_json pts : js_points (points_json pts) = Some (js_pts pts).
Proof. unfold js_points, points_json. cbn. by apply traverse_fmap. Qed.

Lemma member_get {A} (f : json -> option A) d k x : dict_get d k = Some x -> member f (JObj d) k = f x.
Proof. intros Hk. unfold member. cbn. by rewrite Hk. Qed.

Lemma build_cfg_reads data servers all_conns :
  NoDup servers ->
  exists series cfg, series_json data servers all_conns = Ok series /\
    build_cfg data servers all_conns = Ok cfg /\ script_cfg cfg = Some (cfg_of servers all_conns series).
Proof.
  intros Hnd. destruct (series_contents data servers all_conns) as (series & Hs & _). exists series.
  unfold build_cfg. rewrite Hs. cbn [mbind res_bind]. eexists. split_and!; [done..|].
  unfold script_cfg. rewrite slots_nodup by done.
  assert (traverse js_number (JInt <$> all_conns) = Some (js_num <$> all_conns)) as Hconns by by apply traverse_fmap.
  assert (traverse as_string (JStr <$> servers) = Some servers) as Hservers.
  { rewrite (traverse_fmap _ _ id) by done. by rewrite list_fmap_id. }
  assert (dict_traverse js_number ((fun s => (s, JInt (slot s))) <$> servers) =
    Some ((fun s => (s, js_num (slot s))) <$> servers)) as Hslots by by apply traverse_fmap.
  assert (dict_traverse js_lines (dict_map (fun lines => JObj (dict_map points_json lines)) series) =
    Some (dict_map (dict_map js_pts) series)) as Hseries.
  { apply dict_traverse_map. intros lines. unfold js_lines. cbn. apply dict_traverse_map, js_points_json. }
  assert (traverse js_chart_of (chart_json <$> CHARTS) = Some (js_chart_data <$> CHARTS)) as Hcharts.
  { apply traverse_fmap. intros ch. unfold js_chart_of, chart_json, js_chart_data. cbn. by destruct (ch_spec ch). }
  erewrite (member_get js_geom) by reflexivity. change (js_geom GEOM) with (Some (mkGeom (js_num W) (js_num H) (js_num ML)
    (js_num MR) (js_num MT) (js_num MB))). cbn [mbind option_bind].
  erewrite (member_get as_list _ "conns"), (member_get as_list _ "servers"), (member_get as_object _ "slot"),
    (member_get as_object _ "series"), (member_get as_list _ "charts") by reflexivity.
  cbn [mbind option_bind as_list as_object]. rewrite Hconns. cbn [mbind option_bind]. rewrite Hservers.
  cbn [mbind option_bind]. rewrite Hslots. cbn [mbind option_bind]. rewrite Hseries. cbn [mbind option_bind].
  by rewrite Hcharts.
Qed.

(** ** The configuration has a faithful text *)

Lemma median_valid vals m : Forall f_valid vals -> median vals = Ok m -> f_valid m.
Proof.
  intros Hv. assert (forall i x, sort_by f_le vals !! i = Some x -> f_valid x) as Hget.
  { intros i x Hx%list_elem_of_lookup_2. rewrite elem_of_sort_by in Hx. rewrite Forall_forall in Hv. by apply Hv. }
  unfold median. destruct (length (sort_by f_le vals)) as [|n]; [done|]. destruct (Nat.odd (S n)).
  - destruct (sort_by f_le vals !! (S n / 2)%nat) as [x|] eqn:Hx; [|done]. intros [= <-]. by eapply Hget.
  - destruct (sort_by f_le vals !! (S n / 2 - 1)%nat) as [x|] eqn:Hx; [|done].
    destruct (sort_by f_le vals !! (S n / 2)%nat) as [y|] eqn:Hy; [|done]. cbn [res_of_option mbind res_bind].
    intros Hm. refine (fdiv_valid _ _ _ _ _ Hm); [|by vm_compute].
    apply fadd_valid; by eapply Hget.
Qed.

Definition values_valid (data : table) : Prop :=
  forall f s c, f ∈ chart_fields -> Forall f_valid (values data f s c).

Lemma load_values_valid rows data servers conns : load rows = Ok (data, servers, conns) -> values_valid data.
Proof.
  intros Hload f s c Hf. destruct (load_contents _ _ _ _ Hload) as (Hv & _). rewrite (Hv f s c Hf).
  apply Forall_concat, Forall_fmap, Forall_true. intros row. cbn. unfold contribution, cell.
  case_decide; [|constructor]. destruct (row_float row f) as [x|e] eqn:Hx; [|constructor].
  constructor; [|constructor]. unfold row_float in Hx. apply res_bind_Ok in Hx as (t & _ & Hx). by eapply float_of_str_valid.
Qed.

Lemma points_valid data f s conns :
  values_valid data -> f ∈ chart_fields ->
  Forall (fun p => f_valid p.2) (omap (point data f s) conns).
Proof.
  intros Hv Hf. apply Forall_forall. intros p (c & _ & Hp)%list_elem_of_omap. revert Hp. unfold point.
  specialize (Hv f s c Hf). destruct (values data f s c) as [|v vals]; [done|].
  destruct (median (v :: vals)) as [m|e] eqn:Hm; [|done]. intros [= <-]. by eapply median_valid.
Qed.

Lemma points_json_ok pts : Forall (fun p => f_valid p.2) pts -> json_ok (points_json pts).
Proof.
  intros Hp. apply json_ok_arr, Forall_fmap, (Forall_impl _ _ _ Hp). intros p Hv. by split_and!.
Qed.

Lemma json_ok_map {A} (g : A -> json) (d : dict string A) :
  NoDup (dict_keys d) -> Forall (fun kv => utf8_ok kv.1 = true /\ json_ok (g kv.2)) d ->
  json_ok (JObj (dict_map g d)).
Proof. intros Hnd Hd. apply json_ok_obj. split; [by apply dict_map_NoDup|]. by apply Forall_fmap. Qed.

Lemma chart_json_ok ch :
  utf8_ok (ch_field ch) = true -> utf8_ok (ch_title ch) = true -> utf8_ok (ch_ylabel ch) = true ->
  json_ok (chart_json ch).
Proof.
  intros H1 H2 H3. apply json_ok_obj. split; [apply (bool_decide_eq_true_1 _); reflexivity|].
  assert (json_ok (JObj [("d", JInt (ch_spec ch).1); ("c", JBool (ch_spec ch).2)])) as H4.
  { apply json_ok_obj. split; [apply (bool_decide_eq_true_1 _); reflexivity|]. by repeat constructor. }
  by repeat (constructor; [split; [reflexivity|done]|]).
Qed.

Lemma build_cfg_ok data servers all_conns cfg :
  NoDup servers -> Forall (fun s => utf8_ok s = true) servers -> values_valid data ->
  build_cfg data servers all_conns = Ok cfg -> json_ok cfg.
Proof.
  intros Hnd Hutf Hv. destruct (series_contents data servers all_conns) as (series & Hs & Hk & Hlines).
  unfold build_cfg. rewrite Hs. cbn [mbind res_bind]. intros [= <-]. apply json_ok_obj. split.
  { apply (bool_decide_eq_true_1 _). reflexivity. }
  assert (json_ok (JArr (JInt <$> all_conns))) as H1 by by apply json_ok_arr, Forall_fmap, Forall_true.
  assert (json_ok (JArr (JStr <$> servers))) as H2 by by apply json_ok_arr, Forall_fmap.
  assert (json_ok (JObj (slots servers))) as H3.
  { rewrite slots_nodup by done. apply json_ok_obj. split.
    - unfold dict_keys. rewrite <- list_fmap_compose. by rewrite list_fmap_id.
    - apply Forall_fmap, (Forall_impl _ _ _ Hutf). by intros s Hu. }
  assert (Forall (fun f => utf8_ok f = true) chart_fields) as Hfields by by repeat constructor.
  assert (json_ok (JObj (dict_map (fun lines => JObj (dict_map points_json lines)) series))) as H4.
  { apply json_ok_map; [rewrite Hk; apply chart_fields_NoDup|]. apply Forall_forall. intros [f lines] Hin.
    assert (f ∈ chart_fields) as Hf by (rewrite <- Hk; by apply (list_elem_of_fmap_2 fst) in Hin).
    destruct (Hlines f Hf) as (lines' & Hl & Hndl & Hget).
    apply dict_elem_get in Hin; [|rewrite Hk; apply chart_fields_NoDup]. assert (lines' = lines) as -> by congruence.
    split; [rewrite Forall_forall in Hfields; by apply Hfields|].
    apply json_ok_map; [done|]. apply Forall_forall. intros [s pts] Hs'. apply dict_elem_get in Hs'; [|done].
    rewrite Hget in Hs'. cbv zeta in Hs'. case_decide as Hd; [|done]. injection Hs' as <-. destruct Hd as [Hd _].
    cbn [fst snd]. split; [rewrite Forall_forall in Hutf; by apply Hutf|]. by apply points_json_ok, points_valid. }
  assert (json_ok (JArr (chart_json <$> CHARTS))) as H5.
  { apply json_ok_arr, Forall_fmap.
    assert (Forall (fun ch => utf8_ok (ch_field ch) = true /\ utf8_ok (ch_title ch) = true /\
      utf8_ok (ch_ylabel ch) = true) CHARTS) as Hc by by repeat constructor.
    apply (Forall_impl _ _ _ Hc). intros ch (? & ? & ?). by apply chart_json_ok. }
  assert (json_ok GEOM) as H6.
  { apply json_ok_obj. split; [apply (bool_decide_eq_true_1 _); reflexivity|]. by repeat constructor. }
  by repeat (constructor; [split; [reflexivity|done]|]).
Qed.

(** ** Where the configuration stands in the page *)

(** The text before and after the first occurrence. *)
Fixpoint cut (old s : string) : option (string * string) :=
  if startswith s old then Some ("", slice_from (String.length old) s)
  else match s with
       | "" => None
       | String c s => '(a, b) ← cut old s; Some (String c a, b)
       end.

Lemma startswith_slice s old : startswith s old = true -> s = old +:+ slice_from (String.length old) s.
Proof.
  unfold startswith. revert s. induction old as [|c old IH]; intros [|d s]; try done.
  cbn. destruct (ascii_dec c d) as [->|]; [|done]. intros Hp. change (String d old +:+ ?t) with (String d (old +:+ t)).
  by rewrite <- IH.
Qed.

Lemma replace_skip old new s t : replace_from (String.length s) old new (s +:+ t) = replace_from 0 old new t.
Proof. induction s as [|c s IH]; [done|]. apply IH. Qed.

Lemma replace_at_once old new t : old <> "" -> replace_from 0 old new (old +:+ t) = new +:+ replace_from 0 old new t.
Proof.
  intros Hold. destruct old as [|c old]; [done|]. pose proof (startswith_app (String c old) t) as Hs.
  change (String c old +:+ t) with (String c (old +:+ t)) in *. cbn [replace_from]. rewrite Hs.
  cbn [String.length Nat.pred]. by rewrite replace_skip.
Qed.

Lemma replace_cut old new s a b :
  old <> "" -> cut old s = Some (a, b) -> str_replace old new s = a +:+ new +:+ str_replace old new b.
Proof.
  intros Hold. unfold str_replace. revert a. induction s as [|c s IH]; intros a; cbn [cut].
  - destruct old; [done|]. done.
  - destruct (startswith (String c s) old) eqn:Hs.
    + intros [= <- <-]. rewrite (startswith_slice _ _ Hs) at 1. by rewrite replace_at_once.
    + destruct (cut old s) as [[a' b']|] eqn:Hc; [|done]. intros [= <- <-]. cbn [replace_from]. rewrite Hs.
      rewrite (IH a') by done. done.
Qed.

Lemma replace_none old new s : cut old s = None -> str_replace old new s = s.
Proof.
  unfold str_replace. induction s as [|c s IH]; [done|]. cbn [cut replace_from].
  destruct (startswith (String c s) old); [done|]. destruct (cut old s) as [[]|]; [done|]. intros _. by rewrite IH.
Qed.

Definition js_before : string := match cut "__CFG__" JS with Some (a, _) => a | None => "" end.
Definition js_after : string := match cut "__CFG__" JS with Some (_, b) => b | None => "" end.

(** The script names its configuration once. *)
Lemma script_text_spec cfg : script_text cfg = js_before +:+ cfg +:+ js_after.
Proof.
  unfold script_text. rewrite (replace_cut "__CFG__" cfg JS js_before js_after) by (done || by vm_compute).
  by rewrite (replace_none "__CFG__" cfg js_after) by by vm_compute.
Qed.

Example script_around :
  exists a b, js_before = a +:+ "var CFG = " /\ js_after = ";" +:+ b.
Proof.
  exists (substring 0 (String.length js_before - 10) js_before), (slice_from 1 js_after).
  split; vm_compute; reflexivity.
Qed.

(** ** What the script is given *)

Record gives (data : table) (servers : list string) (all_conns : list Z) (c : js_cfg) : Prop := {
  gv_servers : cf_servers c = servers;
  gv_conns : cf_conns c = js_num <$> all_conns;
  gv_charts : cf_charts c = js_chart_data <$> CHARTS;
  gv_slots : forall s, s ∈ servers -> slot_of c s = js_num (slot s);
  gv_points : forall ch s, ch ∈ CHARTS -> s ∈ servers ->
    pts_of c (js_chart_data ch) s = js_pts (omap (point data (ch_field ch) s) all_conns) }.

Lemma dict_get_fmap_keys {V} (g : string -> V) servers s :
  s ∈ servers -> dict_get ((fun s => (s, g s)) <$> servers) s = Some (g s).
Proof.
  induction servers as [|s' servers IH]; [by intros []%not_elem_of_nil|]. intros Hin. cbn. case_decide as Hd.
  - by subst.
  - apply IH. by apply elem_of_cons in Hin as [->|?].
Qed.

Lemma slot_values s : exists p e, js_num (slot s) = S754_finite false p e.
Proof.
  unfold slot. assert (Forall (fun kv => exists p e, js_num kv.2 = S754_finite false p e) SLOT) as Hall.
  { repeat (constructor; [eexists _, _; vm_compute; reflexivity|]). constructor. }
  destruct (dict_get SLOT s) as [n|] eqn:Hs; [|eexists _, _; vm_compute; reflexivity].
  apply dict_get_Some_elem in Hs. rewrite Forall_forall in Hall. apply (Hall _ Hs).
Qed.

Lemma cfg_of_gives data servers all_conns series :
  series_json data servers all_conns = Ok series -> gives data servers all_conns (cfg_of servers all_conns series).
Proof.
  intros Hs. destruct (series_contents data servers all_conns) as (out & Ho & _ & Hlines).
  assert (out = series) as -> by congruence. split; try done.
  - intros s Hin. unfold slot_of. cbn [cf_slot cfg_of]. rewrite (dict_get_fmap_keys (fun s => js_num (slot s))) by done.
    by destruct (slot_values s) as (p & e & ->).
  - intros ch s Hch Hin. unfold pts_of, by_server. cbn [cf_series cfg_of js_chart_data jc_field].
    destruct (Hlines (ch_field ch)) as (lines & Hl & _ & Hget); [by apply list_elem_of_fmap_2|].
    rewrite dict_get_map, Hl. cbn [fmap option_fmap option_map]. rewrite dict_get_map, Hget. cbv zeta.
    case_decide as Hd; [done|]. destruct (omap _ _) as [|p pts]; [done|]. by destruct Hd.
Qed.

(** The page [html] holds the script with a text that reads as [c]. *)
Definition holds_cfg (html : string) (c : js_cfg) : Prop :=
  exists pre cfg post v,
    html = pre +:+ "<script>" +:+ js_before +:+ cfg +:+ js_after +:+ "</script>" +:+ post /\
    json_loads cfg = Ok v /\ script_cfg v = Some c.

Section Page.
Variable log10 : float -> float.
Variable pow10 : Z -> float.

Lemma build_html_gives data servers all_conns src tl_data tl_src html :
  NoDup servers -> Forall (fun s => utf8_ok s = true) servers -> values_valid data ->
  build_html log10 pow10 data servers all_conns src tl_data tl_src = Ok html ->
  exists c, holds_cfg html c /\ gives data servers all_conns c.
Proof.
  intros Hnd Hutf Hv. destruct (build_cfg_reads data servers all_conns Hnd) as (series & cfg & Hs & Hcfg & Hread).
  unfold build_html. rewrite Hcfg. cbn [mbind res_bind].
  intros (sat & _ & (tl & _ & Hhtml)%res_bind_Ok)%res_bind_Ok. apply res_Ok_inj in Hhtml. subst html.
  exists (cfg_of servers all_conns series). split; [|by apply cfg_of_gives].
  exists (page_head +:+ page_panels sat tl), (json_dumps cfg).
  exists (nl +:+ "<script>" +:+ TAB_JS +:+ "</script>" +:+ nl +:+ "</body></html>"), cfg. split_and!.
  - rewrite script_text_spec, <- !append_assoc. reflexivity.
  - apply json_roundtrip. by apply (build_cfg_ok data servers all_conns).
  - exact Hread.
Qed.

(** What Python puts into the page the script takes out of it: in every page
    made, the script's literal is valid JSON, and evaluates to the servers, the
    loads, the colours and, for every chart and server, one point per load
    with values, at their median. *)
Theorem page_draws data servers all_conns src tl_data tl_src html :
  NoDup servers -> Forall (fun s => utf8_ok s = true) servers -> values_valid data ->
  build_html log10 pow10 data servers all_conns src tl_data tl_src = Ok html ->
  exists c, holds_cfg html c /\ gives data servers all_conns c.
Proof. apply build_html_gives. Qed.

(** ** The program *)

(** The report is made whole or not at all: when [main] fails, whatever the
    reason, no file has changed; when it succeeds, exactly the output file has,
    and it is the page for the files as they were before. *)
Theorem main_all_or_nothing cwd csv out fs fs' r :
  main log10 pow10 cwd csv out fs = (fs', r) ->
  match r with
  | Raise _ => fs' = fs
  | Ok _ =>
      exists html, report log10 pow10 cwd csv fs = Ok html /\
        dict_get fs' (abspath cwd out) = Some html /\
        forall p, p <> abspath cwd out -> dict_get fs' p = dict_get fs p
  end.
Proof.
  unfold main. destruct (report log10 pow10 cwd csv fs) as [html|e]; cbn [mbind res_bind]; [|by intros [= <- <-]].
  destruct (makedirs (dirname out)) as [u|e]; cbn [mbind res_bind]; intros [= <- <-]; [|done].
  exists html. split_and!; [done|apply dict_get_set_eq|]. intros p Hp. by apply dict_get_set_ne.
Qed.

(** An output file named without a directory is never written: [main] makes
    the whole page and then fails in [os.makedirs], since [os.path.dirname] of
    such a name is empty. *)
Theorem main_bare_name cwd csv out fs :
  lacks "/" out = true ->
  main log10 pow10 cwd csv out fs =
    (fs, Raise (match report log10 pow10 cwd csv fs with Ok _ => FileNotFoundError | Raise e => e end)).
Proof.
  intros Hout. unfold main. destruct (report log10 pow10 cwd csv fs) as [html|e]; [|done].
  by rewrite dirname_bare.
Qed.

Lemma open_read_Ok cwd p fs text : open_read cwd p fs = Ok text -> dict_get fs (abspath cwd p) = Some text.
Proof.
  unfold open_read. destruct (bool_decide (p = "")); [done|].
  destruct (dict_get fs (abspath cwd p)); [|done]. by intros [= ->].
Qed.

Lemma open_read_file cwd p fs text : p <> "" -> dict_get fs (abspath cwd p) = Some text -> open_read cwd p fs = Ok text.
Proof. intros Hp Hf. unfold open_read. rewrite bool_decide_eq_false_2 by done. by rewrite Hf. Qed.

Lemma path_join_ne a b : b <> "" -> path_join a b <> "".
Proof. unfold path_join. intros Hb. destruct (startswith b "/"); [done|]. by destruct a, b, (_ || _). Qed.

(** A report is never made of nothing: if the file is not there, has no row,
    or cannot be read, [main] fails and writes nothing. *)
Theorem report_needs_data cwd csv fs html :
  report log10 pow10 cwd csv fs = Ok html ->
  exists text data servers all_conns,
    dict_get fs (abspath cwd csv) = Some text /\ load_file text = Ok (data, servers, all_conns) /\
    servers <> [] /\ all_conns <> [].
Proof.
  unfold report. intros (text & Ht & ([[data servers] conns] & Hl & Hrest)%res_bind_Ok)%res_bind_Ok.
  apply open_read_Ok in Ht. cbv beta iota in Hrest.
  destruct (bool_decide (servers = []) || bool_decide (conns = [])) eqn:He; [by cbn in Hrest|].
  apply orb_false_iff in He as [H1%bool_decide_eq_false H2%bool_decide_eq_false].
  by exists text, data, servers, conns.
Qed.
End Page.

(** ** A run from the first measurement to the page *)

Definition demo_txt : string := match results_csv (fun _ => "") (b_rows demo_bench.1) with Ok t => t | Raise _ => "" end.
Definition demo_tl_txt : string :=
  match timeline_csv (fun _ => "") (b_timeline demo_bench.1) with Ok t => t | Raise _ => "" end.
Definition demo_files : dict string string :=
  [("/bench/results/results.csv", demo_txt); ("/bench/results/timeline.csv", demo_tl_txt)].

(** [math.log10] where the demonstration needs it: of values from 1 to 10. *)
Definition demo_log10 (_ : float) : float := f_zero.
Definition demo_pow10 (k : Z) : float := f_of_ratio false 1 (Z.to_pos (10 ^ (- k))).

Notation demo_report := (report demo_log10 demo_pow10 "/bench" "results/results.csv" demo_files).

Lemma demo_report_ok : exists html, demo_report = Ok html.
Proof.
  assert (match demo_report with Ok _ => true | Raise _ => false end = true) as H by (vm_compute; reflexivity).
  destruct demo_report as [html|e]; [by exists html|done].
Qed.

Lemma page_draws_witness :
  exists html c,
    build_html demo_log10 demo_pow10 demo_loaded.1.1 ["go"; "zig"] [100; 200] "results.csv" None "" = Ok html /\
    holds_cfg html c /\ pts_of c (mkJsChart "p50_ms" "Latency p50" "ms" (1, false)) "go" = [(js_num 100, js_num 2)].
Proof.
  destruct (build_html demo_log10 demo_pow10 demo_loaded.1.1 ["go"; "zig"] [100; 200] "results.csv" None "")
    as [html|e] eqn:Hhtml.
  - destruct (page_draws demo_log10 demo_pow10 demo_loaded.1.1 ["go"; "zig"] [100; 200] "results.csv" None "" html)
      as (c & Hc & Hgives).
    + apply (bool_decide_eq_true_1 _). reflexivity.
    + repeat constructor.
    + apply (load_values_valid demo_rows demo_loaded.1.1 demo_loaded.1.2 demo_loaded.2). vm_compute. reflexivity.
    + exact Hhtml.
    + exists html, c. split_and!; [reflexivity|exact Hc|].
      change (mkJsChart "p50_ms" "Latency p50" "ms" (1, false)) with
        (js_chart_data (mkChart "p50_ms" "Latency p50" "ms" (fmt_fixed 1) (1, false))).
      rewrite (gv_points _ _ _ _ Hgives) by (left || (right; right; left)). vm_compute. reflexivity.
  - exfalso. assert (match build_html demo_log10 demo_pow10 demo_loaded.1.1 ["go"; "zig"] [100; 200]
      "results.csv" None "" with Ok _ => true | Raise _ => false end = true) as H by (vm_compute; reflexivity).
    by rewrite Hhtml in H.
Defined.

Lemma main_all_or_nothing_witness :
  exists html,
    let fs' := (main demo_log10 demo_pow10 "/bench" "results/results.csv" "results/report.html" demo_files).1 in
    demo_report = Ok html /\ dict_get fs' "/bench/results/report.html" = Some html /\
    dict_get fs' "/bench/results/results.csv" = Some demo_txt.
Proof.
  destruct demo_report_ok as [html Hhtml]. exists html. cbv zeta.
  destruct (main demo_log10 demo_pow10 "/bench" "results/results.csv" "results/report.html" demo_files)
    as [fs' r] eqn:Hmain.
  pose proof (main_all_or_nothing _ _ _ _ _ _ _ _ Hmain) as Hspec.
  destruct r as [u|e].
  - destruct Hspec as (html' & H1 & H2 & H3).
    assert (html' = html) as -> by congruence.
    split_and!; [exact Hhtml|exact H2|]. cbn [fst]. rewrite H3; [reflexivity|]. vm_compute. discriminate.
  - exfalso. unfold main in Hmain.
    assert (makedirs (dirname "results/report.html") = Ok tt) as Hdir by (vm_compute; reflexivity).
    rewrite Hhtml in Hmain. cbn [mbind res_bind] in Hmain. rewrite Hdir in Hmain. by apply (f_equal snd) in Hmain.
Defined.

Lemma main_bare_name_witness :
  main demo_log10 demo_pow10 "/bench" "results/results.csv" "report.html" demo_files =
    (demo_files, Raise FileNotFoundError).
Proof.
  destruct demo_report_ok as [html Hhtml].
  rewrite (main_bare_name demo_log10 demo_pow10 "/bench" "results/results.csv" "report.html" demo_files eq_refl).
  by rewrite Hhtml.
Defined.

Lemma report_needs_data_witness :
  exists text, dict_get demo_files (abspath "/bench" "results/results.csv") = Some text /\ text <> "".
Proof.
  destruct demo_report_ok as [html Hhtml].
  destruct (report_needs_data demo_log10 demo_pow10 "/bench" "results/results.csv" demo_files html Hhtml) as (text & data & servers & conns & H1 & H2 & _).
  exists text. split; [exact H1|]. intros ->. revert H1. vm_compute. discriminate.
Defined.
