(* ===== verification/PlotDocThms.v ===== *)
(** * The document of the report: theorems

    [page_document]: what a browser finds in a page is what the report means,
    whatever the files hold, if no server has a double quote or a [<] in its
    name; [quote_breaks_out] and [script_breaks_off]: what happens if one has. *)

From Stdlib Require Import Ascii String ZArith Lia SpecFloat.
From S2P Require Import Prelude PyText PyDict PyFloat PyJson PyNum PyRepr PyJsonText PyJsonThms PySort Html.
From S2P Require Import PlotData PlotThms PlotHtml PlotHtmlThms PlotTotal PlotJs PlotAssets PlotPage PlotPageThms PlotDoc.

Open Scope string_scope.
Open Scope list_scope.
Open Scope Z_scope.

(** ** The script's literal has no [<] *)

Lemma hex_digit_lt q : -200 <= q <= 200 -> Ascii.eqb (hex_digit q) "<" = false.
Proof.
  intros Hq. assert (forallb (fun n => negb (Ascii.eqb (hex_digit (Z.of_nat n - 200)) "<")) (seq 0 401) = true) as Hall
    by (vm_compute; reflexivity).
  rewrite forallb_forall in Hall. specialize (Hall (Z.to_nat (q + 200))). cbv beta in Hall.
  rewrite Z2Nat.id in Hall by lia. replace (q + 200 - 200) with q in Hall by lia.
  apply negb_true_iff, Hall. apply in_seq. lia.
Qed.

Lemma u_escape_lt z : -200 * 4096 <= z <= 200 * 4096 -> lacks "<" (u_escape z) = true.
Proof.
  intros Hz. unfold u_escape, lacks. cbn [all_chars]. change (Ascii.eqb backslash "<") with false.
  change (Ascii.eqb "u" "<") with false.
  pose proof (Z.mod_pos_bound (z / 256) 16 ltac:(lia)). pose proof (Z.mod_pos_bound (z / 16) 16 ltac:(lia)).
  pose proof (Z.mod_pos_bound z 16 ltac:(lia)).
  assert (-200 <= z / 4096 <= 200) by (split; [apply Z.div_le_lower_bound|apply Z.div_le_upper_bound]; lia).
  rewrite !hex_digit_lt by lia. done.
Qed.

Lemma escape_char_lt c : c <> "<"%char -> lacks "<" (escape_char c) = true.
Proof. intros Hc. destruct c as [[] [] [] [] [] [] [] []]; try (vm_compute; reflexivity); done. Qed.

Lemma escape_point_lt z : -0x90000 <= z <= 0x480000 -> lacks "<" (escape_point z) = true.
Proof.
  intros Hz. unfold escape_point. destruct (Z.ltb_spec z 0x10000); [apply u_escape_lt; lia|].
  pose proof (Z.mod_pos_bound (z - 0x10000) 1024 ltac:(lia)).
  assert (0 <= (z - 0x10000) / 1024 <= 4544) by (split; [apply Z.div_le_lower_bound|apply Z.div_le_upper_bound]; lia).
  rewrite lacks_app, !u_escape_lt by lia. done.
Qed.

Lemma escape_text_lt s : lacks "<" s = true -> lacks "<" (escape_text s) = true.
Proof.
  assert (forall n s, (String.length s <= n)%nat -> lacks "<" s = true -> lacks "<" (escape_text s) = true) as Hall;
    [|by apply (Hall (String.length s))].
  clear s. induction n as [|n IH]; intros s Hn Hs; [by destruct s; cbn in Hn; [|lia]|].
  destruct s as [|a s1]; [done|]. cbn [escape_text String.length] in *. apply andb_true_iff in Hs as [Ha Hs1].
  pose proof (ascii_code_bound a) as Hba.
  destruct (Z.ltb_spec (ascii_code a) 0x80).
  { rewrite lacks_app, escape_char_lt, IH by (done || lia || (intros ->; done)). done. }
  destruct s1 as [|b s2]; [done|]. cbn [String.length] in *. apply andb_true_iff in Hs1 as [_ Hs2].
  pose proof (ascii_code_bound b) as Hbb. unfold cont.
  destruct (Z.ltb_spec (ascii_code a) 0xE0).
  { rewrite lacks_app, escape_point_lt, IH by (done || lia). done. }
  destruct s2 as [|c s3]; [done|]. cbn [String.length] in *. apply andb_true_iff in Hs2 as [_ Hs3].
  pose proof (ascii_code_bound c) as Hbc.
  destruct (Z.ltb_spec (ascii_code a) 0xF0).
  { rewrite lacks_app, escape_point_lt, IH by (done || lia). done. }
  destruct s3 as [|d s4]; [done|]. cbn [String.length] in *. apply andb_true_iff in Hs3 as [_ Hs4].
  pose proof (ascii_code_bound d) as Hbd.
  rewrite lacks_app, escape_point_lt, IH by (done || lia). done.
Qed.

Lemma dumps_string_lt s : lacks "<" s = true -> lacks "<" (dumps_string s) = true.
Proof.
  intros Hs. unfold dumps_string. change (String jquote (escape_text s +:+ ?t)) with (String jquote "" +:+ (escape_text s +:+ t)).
  by rewrite !lacks_app, escape_text_lt.
Qed.

Lemma float_repr_lt f : lacks "<" (float_repr f) = true.
Proof.
  destruct f as [[]|[]| |s m e]; try done. unfold float_repr.
  destruct (exact_decimal_spec m e) as [Hp _]. destruct (exact_decimal m e) as [M E]. cbn [fst] in Hp.
  apply (all_chars_impl float_char); [intros c Hc; apply negb_true_iff, Ascii.eqb_neq; by intros ->|].
  destruct (shortest _ _ M E _) as [a F] eqn:Hs. apply decimal_text_chars.
  apply shortest_pos in Hs; [lia|by apply pred_length_bound].
Qed.

(** The texts in a value, keys included. *)
Fixpoint json_texts (v : json) : list string :=
  match v with
  | JStr s => [s]
  | JArr l => concat (json_texts <$> l)
  | JObj d => concat ((fun kv => kv.1 :: json_texts kv.2) <$> d)
  | _ => []
  end.

Definition no_lt (v : json) : Prop := Forall (fun s => lacks "<" s = true) (json_texts v).

Lemma no_lt_arr l : no_lt (JArr l) <-> Forall no_lt l.
Proof. unfold no_lt. cbn [json_texts]. by rewrite Forall_concat, Forall_fmap. Qed.

Lemma no_lt_obj d : no_lt (JObj d) <-> Forall (fun kv => lacks "<" kv.1 = true /\ no_lt kv.2) d.
Proof.
  unfold no_lt. cbn [json_texts]. rewrite Forall_concat, Forall_fmap.
  split; intros Hd; apply (Forall_impl _ _ _ Hd); intros kv; cbn; by rewrite Forall_cons.
Qed.

Lemma dumps_lt v : no_lt v -> lacks "<" (json_dumps v) = true.
Proof.
  induction v as [|b|z|f|s|l IH|d IH] using json_nested_ind; intros Hv.
  - done.
  - by destruct b.
  - cbn [json_dumps]. apply numeric_lacks; [done|apply numeric_str].
  - cbn [json_dumps]. destruct f as [s|[]| |s m e]; try done; apply float_repr_lt.
  - apply Forall_cons in Hv as [Hs _]. by apply dumps_string_lt.
  - apply no_lt_arr in Hv. cbn [json_dumps]. rewrite !lacks_app. cbn [andb].
    rewrite join_lacks; [done..|]. apply Forall_fmap. rewrite Forall_forall in IH, Hv |- *. intros x Hx. cbn. auto.
  - apply no_lt_obj in Hv. cbn [json_dumps]. rewrite !lacks_app. cbn [andb].
    rewrite join_lacks; [done..|]. apply Forall_fmap. rewrite Forall_forall in IH, Hv |- *. intros kv Hkv.
    change (lacks "<" (dumps_string kv.1 +:+ ": " +:+ json_dumps kv.2) = true).
    destruct (Hv kv Hkv) as [Hk Hx]. by rewrite !lacks_app, dumps_string_lt, (IH kv Hkv Hx) by done.
Qed.

Lemma no_lt_map {A} (g : A -> json) (d : dict string A) :
  Forall (fun kv => lacks "<" kv.1 = true /\ no_lt (g kv.2)) d -> no_lt (JObj (dict_map g d)).
Proof. intros Hd. apply no_lt_obj. by apply Forall_fmap. Qed.

Lemma build_cfg_no_lt data servers conns cfg :
  Forall (fun s => lacks "<" s = true) servers -> NoDup servers -> build_cfg data servers conns = Ok cfg -> no_lt cfg.
Proof.
  intros Hs Hnd. destruct (series_contents data servers conns) as (series & Hseries & Hk & Hlines).
  unfold build_cfg. rewrite Hseries. cbn [mbind res_bind]. intros <-%res_Ok_inj. apply no_lt_obj.
  assert (no_lt (JArr (JInt <$> conns))) as H1 by (apply no_lt_arr, Forall_fmap, Forall_true; constructor).
  assert (no_lt (JArr (JStr <$> servers))) as H2.
  { apply no_lt_arr, Forall_fmap, (Forall_impl _ _ _ Hs). intros s Hl. by repeat constructor. }
  assert (no_lt (JObj (slots servers))) as H3.
  { rewrite slots_nodup by done. apply no_lt_obj, Forall_fmap, (Forall_impl _ _ _ Hs). intros s Hl. split; [done|constructor]. }
  assert (forall pts, no_lt (points_json pts)) as Hpts.
  { intros pts. apply no_lt_arr, Forall_fmap, Forall_true. intros p. apply no_lt_arr. by repeat constructor. }
  assert (Forall (fun f => lacks "<" f = true) chart_fields) as Hfields by by repeat constructor.
  assert (no_lt (JObj (dict_map (fun lines => JObj (dict_map points_json lines)) series))) as H4.
  { apply no_lt_map, Forall_forall. intros [f lines] Hin.
    assert (f ∈ chart_fields) as Hf by (rewrite <- Hk; by apply (list_elem_of_fmap_2 fst) in Hin).
    destruct (Hlines f Hf) as (lines' & Hl & Hndl & Hget).
    apply dict_elem_get in Hin; [|rewrite Hk; apply chart_fields_NoDup]. assert (lines' = lines) as -> by congruence.
    split; [rewrite Forall_forall in Hfields; by apply Hfields|].
    apply no_lt_map, Forall_forall. intros [s pts] Hs'. apply dict_elem_get in Hs'; [|done].
    rewrite Hget in Hs'. cbv zeta in Hs'. case_decide as Hd; [|done]. destruct Hd as [Hd _].
    split; [rewrite Forall_forall in Hs; by apply Hs|apply Hpts]. }
  assert (no_lt (JArr (chart_json <$> CHARTS))) as H5.
  { unfold no_lt. apply Forall_forall. intros s Hin. apply negb_false_iff. apply not_true_is_false. intros Hl.
    assert (forallb (lacks "<") (json_texts (JArr (chart_json <$> CHARTS))) = true) as Hall by (vm_compute; reflexivity).
    rewrite (forallb_elem _ _ _ Hall Hin) in Hl. done. }
  assert (no_lt GEOM) as H6.
  { apply no_lt_obj. by repeat (constructor; [split; [reflexivity|constructor]|]). }
  by repeat (constructor; [split; [reflexivity|done]|]).
Qed.

(** ** The scripts *)

Lemma list_ascii_app s t : list_ascii_of_string (s +:+ t) = list_ascii_of_string s ++ list_ascii_of_string t.
Proof. induction s as [|c s IH]; [done|]. cbn. by rewrite IH. Qed.

Lemma raw_text_app s acc : raw_text (rev (list_ascii_of_string s) ++ acc) = raw_text acc +:+ s.
Proof.
  unfold raw_text. rewrite rev_app_distr, rev_involutive. rewrite <- (string_of_list_ascii_of_string s) at 2.
  generalize (rev acc) (list_ascii_of_string s). intros l1 l2. induction l1 as [|c l1 IH]; [done|]. cbn. by rewrite IH.
Qed.

(** The script's text after the literal, up to its first [<], and the rest. *)
Definition js_calm : string := match cut "<" js_after with Some (a, _) => a | None => "" end.
Definition js_rest : string := match cut "<" js_after with Some (_, b) => String "<" b | None => "" end.

Lemma reads_js acc :
  calm acc = true ->
  reads (SRaw "script" acc "") js_after (SRaw "script" (rev (list_ascii_of_string js_after) ++ acc) "") [].
Proof.
  intros Ha. assert (js_after = js_calm +:+ js_rest) as Heq by (vm_compute; reflexivity).
  rewrite Heq, list_ascii_app, rev_app_distr, <- app_assoc.
  eapply reads_eq; [eapply reads_app; [by apply reads_raw; [|vm_compute]|]|reflexivity].
  clear. unfold reads. vm_compute. reflexivity.
Qed.

Lemma sees_script b js :
  (exists acc, reads (SRaw "script" [] "") js (SRaw "script" acc "") [] /\ raw_text acc = js) ->
  sees b SData ("<script>" +:+ js +:+ "</script>") b SData (mkContent [] [] [] [js]).
Proof.
  intros (acc & Hr & Ht).
  assert (sees b (SRaw "script" [] "") js b (SRaw "script" acc "") ct_nil) as Hs by by apply sees_silent.
  assert (sees b (SRaw "script" acc "") "</script>" b SData (mkContent [] [] [] [js])) as Hend.
  { exists [RawText "script" (raw_text acc); Tag true "script" []]. split; [reflexivity|]. by rewrite Ht. }
  eapply sees_eq; [eapply sees_app; [sees_literal|eapply sees_app; eassumption]|reflexivity].
Qed.

Lemma sees_main_script b cfg :
  lacks "<" cfg = true ->
  sees b SData ("<script>" +:+ script_text cfg +:+ "</script>") b SData
    (mkContent [] [] [] [js_before +:+ cfg +:+ js_after]).
Proof.
  intros Hcfg. rewrite script_text_spec. apply sees_script.
  exists (rev (list_ascii_of_string js_after) ++ (rev (list_ascii_of_string cfg) ++ (rev (list_ascii_of_string js_before) ++ []))).
  split; [|rewrite !raw_text_app; by rewrite append_assoc].
  assert (reads (SRaw "script" [] "") js_before (SRaw "script" (rev (list_ascii_of_string js_before) ++ []) "") []) as Hb
    by (unfold reads; vm_compute; reflexivity).
  assert (forall s acc, lacks "<" s = true -> calm acc = true -> calm (rev (list_ascii_of_string s) ++ acc) = true) as Hcalm.
  { clear. intros s. induction s as [|c s IH]; intros acc Hs Ha; [done|]. apply andb_true_iff in Hs as [Hc Hs].
    cbn [list_ascii_of_string rev]. rewrite <- app_assoc. apply IH; [done|]. unfold calm in *. cbn [app take forallb].
    rewrite Hc. cbn [andb]. destruct acc as [|x [|y acc]]; cbn in *; try done. by destruct (negb (x =? "<")%char), (negb (y =? "<")%char). }
  eapply reads_eq; [eapply reads_app; [exact Hb|eapply reads_app; [apply reads_raw; [vm_compute; reflexivity|done]|]]|reflexivity].
  apply reads_js, Hcalm; [done|vm_compute; reflexivity].
Qed.

Lemma sees_tab_script b : sees b SData ("<script>" +:+ TAB_JS +:+ "</script>") b SData (mkContent [] [] [] [TAB_JS]).
Proof. sees_literal. Qed.

(** ** The page *)

Definition page_ids : list string :=
  ["tab-sat"; "tab-tl"; "panel-sat"; "legend"; "show-all"] ++ chart_ids ++ ["panel-tl"].

Lemma sees_panels sat tl rows servers :
  sees false SData sat false SData (mkContent (["legend"; "show-all"] ++ chart_ids) servers rows []) -> silent tl ->
  sees false SData (page_panels sat tl) false SData
    (mkContent (["panel-sat"; "legend"; "show-all"] ++ chart_ids ++ ["panel-tl"]) servers rows []).
Proof.
  intros Hsat Htl. specialize (Htl false). unfold page_panels.
  eapply sees_eq; [html_parts|]. contents. by rewrite <- ?app_assoc.
Qed.

(** What a browser finds in the page [html] made for this table: the elements
    the script looks up, and the script, with a literal that reads as [c]. *)
Record page_has (html : string) (c : js_cfg) (lines : list string) (doc : content) : Prop := {
  ph_document : document html = Some doc;
  ph_ids : ct_ids doc = page_ids;
  ph_buttons : ct_buttons doc = cf_servers c;
  ph_rows : ct_rows doc = lines;
  ph_scripts : exists cfg v,
    ct_scripts doc = [js_before +:+ cfg +:+ js_after; TAB_JS] /\ json_loads cfg = Ok v /\ script_cfg v = Some c }.

Section Page.
Variable log10 : float -> float.
Variable pow10 : Z -> float.

Lemma build_html_document data servers all_conns src tl_data tl_src html :
  NoDup servers -> Forall (fun s => utf8_ok s = true) servers -> values_valid data ->
  Forall clean servers -> timeline_names tl_data ->
  build_html log10 pow10 data servers all_conns src tl_data tl_src = Ok html ->
  exists c doc,
    page_has html c (table_lines data servers all_conns).*1 doc /\ gives data servers all_conns c.
Proof.
  intros Hnd Hutf Hv Hclean Hnames.
  assert (Forall (fun s => lacks dq s = true) servers) as Hdq by (apply (Forall_impl _ _ _ Hclean); by intros s []).
  assert (Forall (fun s => lacks "<" s = true) servers) as Hlt by (apply (Forall_impl _ _ _ Hclean); by intros s []).
  destruct (build_cfg_reads data servers all_conns Hnd) as (series & cfg & Hs & Hcfg & Hread).
  unfold build_html. rewrite Hcfg. cbn [mbind res_bind].
  intros (sat & Hsat & (tl & Htl & Hhtml)%res_bind_Ok)%res_bind_Ok. apply res_Ok_inj in Hhtml.
  pose proof (sees_panels sat tl _ _ (sees_saturation _ _ _ _ _ Hdq Hsat) (silent_timeline_body _ _ _ _ _ Hnames Htl)) as Hpanels.
  pose proof (sees_main_script false (json_dumps cfg) (dumps_lt _ (build_cfg_no_lt _ _ _ _ Hlt Hnd Hcfg))) as Hscript.
  pose proof (sees_tab_script false) as Htab.
  assert (sees false SData page_head false SData (ct_ids_of ["tab-sat"; "tab-tl"])) as Hhead by sees_literal.
  assert (sees false SData nl false SData ct_nil) as Hnl by sees_literal.
  assert (sees false SData "</body></html>" false SData ct_nil) as Hend by sees_literal.
  exists (cfg_of servers all_conns series). eexists. split; [|by apply cfg_of_gives].
  assert (html = page_head +:+ page_panels sat tl +:+ ("<script>" +:+ script_text (json_dumps cfg) +:+ "</script>") +:+
    nl +:+ ("<script>" +:+ TAB_JS +:+ "</script>") +:+ nl +:+ "</body></html>") as Hparts
    by (rewrite <- Hhtml, <- !append_assoc; reflexivity).
  pose proof (sees_app _ _ _ _ _ _ _ _ _ _ Hhead (sees_app _ _ _ _ _ _ _ _ _ _ Hpanels
    (sees_app _ _ _ _ _ _ _ _ _ _ Hscript (sees_app _ _ _ _ _ _ _ _ _ _ Hnl
    (sees_app _ _ _ _ _ _ _ _ _ _ Htab (sees_app _ _ _ _ _ _ _ _ _ _ Hnl Hend)))))) as (ts & Hts & Hdoc).
  rewrite <- Hparts in Hts. split.
  - unfold document, tokenize. rewrite Hts. cbn [fmap option_fmap option_map]. rewrite Hdoc. reflexivity.
  - unfold ct_ids_of. by contents.
  - unfold ct_ids_of. by contents.
  - unfold ct_ids_of. by contents.
  - exists (json_dumps cfg), cfg. split_and!; [|apply json_roundtrip; by apply (build_cfg_ok data servers all_conns)|exact Hread].
    unfold ct_ids_of. by contents.
Qed.

(** C7: a browser finds in the page what the report means, when the servers have
    distinct names in UTF-8, no name of a server has a double quote or a [<], no
    name in the timeline has a double quote, and the numbers are floats of
    Python's ([values_valid]): the text is
    well formed HTML; the elements the script looks up are there, once each; the
    legend has a button for each server, the table a line for each server and
    load with a value; the scripts are the two of plot.py, the first with a
    literal that is valid JSON and evaluates to the servers, the loads, the
    colours and the medians. ([quote_breaks_out] and [script_breaks_off] are
    pages without the conditions on the names.) *)
Theorem page_document data servers all_conns src tl_data tl_src html :
  NoDup servers -> Forall (fun s => utf8_ok s = true) servers -> values_valid data ->
  Forall clean servers -> timeline_names tl_data ->
  build_html log10 pow10 data servers all_conns src tl_data tl_src = Ok html ->
  exists c doc,
    page_has html c (table_lines data servers all_conns).*1 doc /\ gives data servers all_conns c.
Proof. apply build_html_document. Qed.
End Page.

(** ** A page *)

Notation demo_page names := (build_html demo_log10 demo_pow10 demo_loaded.1.1 names [100; 200] "results.csv" None "").

Lemma page_document_witness :
  exists html doc,
    demo_page ["go"; "zig"] = Ok html /\ document html = Some doc /\
    ct_buttons doc = ["go"; "zig"] /\ ct_rows doc = ["go"; "zig"] /\ length (ct_scripts doc) = 2%nat.
Proof.
  destruct (demo_page ["go"; "zig"]) as [html|e] eqn:Hhtml.
  - destruct (page_document demo_log10 demo_pow10 demo_loaded.1.1 ["go"; "zig"] [100; 200] "results.csv" None "" html)
      as (c & doc & [H1 _ H3 H4 (cfg & v & H5 & _)] & Hgives).
    + apply (bool_decide_eq_true_1 _). reflexivity.
    + repeat constructor.
    + apply (load_values_valid demo_rows demo_loaded.1.1 demo_loaded.1.2 demo_loaded.2). vm_compute. reflexivity.
    + repeat constructor.
    + intros data key. discriminate.
    + exact Hhtml.
    + exists html, doc. split_and!; [reflexivity|exact H1| | |by rewrite H5].
      * by rewrite H3, (gv_servers _ _ _ _ Hgives).
      * rewrite H4. vm_compute. reflexivity.
  - exfalso. assert (is_ok (demo_page ["go"; "zig"]) = true) as H by (vm_compute; reflexivity). by rewrite Hhtml in H.
Defined.

(** ** Names that break out *)

(** A tag with an attribute [k]. *)
Definition has_attr (k : string) (t : token) : bool :=
  match t with Tag false _ al => bool_decide (k ∈ al.*1) | _ => false end.

(** [esc] leaves double quotes, so a name can add attributes to its button:
    here a handler that runs a script. *)
Definition quoted_name : string := "a" +:+ String dq "" +:+ " onclick=" +:+ String dq "alert(1)".

Lemma quote_breaks_out :
  existsb (has_attr "onclick") <$> tokenize (legend_html ["a"]) = Some false /\
  existsb (has_attr "onclick") <$> tokenize (legend_html [quoted_name]) = Some true.
Proof. split; vm_compute; reflexivity. Qed.

(** [json.dumps] leaves [<], so a name can end the script: what remains is no
    program, and the rest of the literal is read as markup. *)
Lemma script_breaks_off :
  ct_scripts <$> document ("<script>" +:+ json_dumps (JStr "a<b>") +:+ "</script>") = Some [json_dumps (JStr "a<b>")] /\
  tokenize ("<script>" +:+ json_dumps (JStr "</script><b>") +:+ "</script>") =
    Some [Tag false "script" []; RawText "script" (String dq ""); Tag true "script" []; Tag false "b" [];
          Tag true "script" []].
Proof. split; vm_compute; reflexivity. Qed.
