(* ===== verification/EndToEnd.v ===== *)
(** * From the measurements to the page

    [measured_to_page]: the two programs one after the other, each from its
    command line on: from what the runner recorded, through its two files, to
    what a browser finds in the report's page. *)

From Stdlib Require Import Ascii String ZArith Lia SpecFloat.
From stdpp Require sorting.
From S2P Require Import Prelude PyText PyDict PyFloat PyFloatThms PyJson PyNum PyRepr PyJsonText PyJsonThms PyPath PyArgparse PySort Html.
From S2P Require Import RunnerSpecs Procfs Lifecycle LifecycleThms Matrix MatrixThms RunnerCli PlotData PlotThms PlotHtml PlotHtmlThms.
From S2P Require Import Results ResultsThms PlotTotal PlotJs PlotJsThms PlotAssets PlotPage PlotCli PlotPageThms PlotDoc PlotDocThms.

Open Scope string_scope.
Open Scope list_scope.
Open Scope Z_scope.

(** ** From the measurements to the charts *)

(** Where the report looks for the timeline. *)
Definition timeline_path (cwd csv : string) : string := path_join (dirname (abspath cwd csv)) "timeline.csv".

(** The point of what was recorded for a chart, a server and a load. *)
Definition recorded_point (rows : list row) (f s : string) (k : Z) : option (Z * float) :=
  match concat (recorded f s k <$> rows) with
  | [] => None
  | vals => match median vals with Ok m => Some (k, m) | Raise _ => None end
  end.

Lemma omap_eq {A B} (f h : A -> option B) (l : list A) : (forall x, f x = h x) -> omap f l = omap h l.
Proof. intros Heq. induction l as [|x l IH]; [done|]. cbn. by rewrite Heq, IH. Qed.

Lemma sorted_lt_NoDup (l : list Z) : StronglySorted Z.lt l -> NoDup l.
Proof.
  induction 1 as [|x l _ IH Hx]; constructor; [|done]. intros Hin. rewrite Forall_forall in Hx. specialize (Hx x Hin). lia.
Qed.

Section Measured.
Context {OS : Type} `{Kernel OS}.
Variable ROOT sys_executable : string.
Variable CLK : Z.
Variable py_repr : json -> string.
Variable log10 : float -> float.
Variable pow10 : Z -> float.

(** Rows as the runner makes them. *)
Definition made (b : @Bench OS) : Prop :=
  Forall (made_row ROOT sys_executable CLK) (b_rows b) /\ Forall (made_window ROOT sys_executable) (b_timeline b).

Lemma server_name_utf8 name sv : dict_get (SERVERS ROOT sys_executable) name = Some sv -> utf8_ok name = true.
Proof.
  intros Hget%dict_get_Some_elem%(list_elem_of_fmap_2 fst). revert Hget. cbn [fst].
  assert (Forall (fun n => utf8_ok n = true) (SERVERS ROOT sys_executable).*1) as Hall by (by repeat constructor).
  rewrite Forall_forall in Hall. apply Hall.
Qed.

Lemma server_name_clean name sv : dict_get (SERVERS ROOT sys_executable) name = Some sv -> clean name.
Proof.
  intros Hget%dict_get_Some_elem%(list_elem_of_fmap_2 fst). revert Hget. cbn [fst].
  assert (Forall clean (SERVERS ROOT sys_executable).*1) as Hall by (by repeat constructor).
  rewrite Forall_forall in Hall. apply Hall.
Qed.

Lemma made_server x s : made_row ROOT sys_executable CLK x -> row_server x = Some s -> utf8_ok s = true.
Proof.
  intros (name & sv & conns & trial & wall & sm & res & Hn & _ & Hx) Hs.
  apply server_name_utf8 in Hn. unfold make_row in Hx. repeat apply res_bind_Ok in Hx as (? & _ & Hx).
  injection Hx as <-. unfold row_server in Hs. cbn in Hs. by injection Hs as <-.
Qed.

Lemma made_clean x s : made_row ROOT sys_executable CLK x -> row_server x = Some s -> clean s.
Proof.
  intros (name & sv & conns & trial & wall & sm & res & Hn & _ & Hx) Hs.
  unfold make_row in Hx. repeat apply res_bind_Ok in Hx as (? & _ & Hx).
  injection Hx as <-. unfold row_server in Hs. cbn in Hs. injection Hs as <-. by eapply server_name_clean.
Qed.

Lemma made_window_clean x s : made_window ROOT sys_executable x -> row_server x = Some s -> lacks dq s = true.
Proof.
  intros (name & sv & conns & trial & w & Hn & _ & (l & _ & Hx)%res_bind_Ok) Hs.
  destruct l as [|t [|p50 [|p90 [|p99 [|p999 [|mx [|]]]]]]]; try done.
  repeat apply res_bind_Ok in Hx as (? & _ & Hx). injection Hx as <-. unfold row_server in Hs. cbn in Hs.
  injection Hs as <-. by eapply server_name_clean.
Qed.

(** The files of a run with the output [csv]: the summary, and the timeline. *)
Definition run_files (b : @Bench OS) (cwd csv : string) (fs : dict string string) : Prop :=
  (exists txt, results_csv py_repr (b_rows b) = Ok txt /\ dict_get fs (abspath cwd csv) = Some txt) /\
  (exists txt, timeline_csv py_repr (b_timeline b) = Ok txt /\ dict_get fs (abspath cwd (tl_path csv)) = Some txt).

Hypothesis log10_range : forall v, latency v -> exists k, f_floor (log10 v) = Ok k /\ -2 <= k <= 22.
Hypothesis pow10_tenth : pow10 (-1) = f_of_ratio false 1 10 /\ pow10 (-2) = f_of_ratio false 1 100.

Lemma lists_nonempty rows data servers conns :
  Forall (made_row ROOT sys_executable CLK) rows -> rows <> [] -> reports rows (data, servers, conns) ->
  servers <> [] /\ conns <> [].
Proof.
  intros Hrows Hne (_ & Hs & Hc). destruct rows as [|x rows]; [done|]. apply Forall_cons in Hrows as [Hx _].
  destruct (made_good _ _ _ _ Hx) as (s & c & Hg).
  assert (s ∈ servers) as Hin.
  { apply Hs. exists x. split; [left|]. unfold row_server. by rewrite (gr_server _ _ _ _ _ Hg). }
  assert (c ∈ conns) as Hinc.
  { apply Hc. exists x. split; [left|]. unfold row_number. by rewrite (gr_conns _ _ _ _ _ Hg). }
  split; intros ->; [by apply not_elem_of_nil in Hin|by apply not_elem_of_nil in Hinc].
Qed.

(** The table has a line for each server and load with a trial. *)
Lemma lines_recorded rows data servers conns s k :
  Forall (made_row ROOT sys_executable CLK) rows -> reports rows (data, servers, conns) ->
  (s, k) ∈ table_lines data servers conns <->
  exists x, x ∈ rows /\ row_server x = Some s /\ row_number x "conns" = Some k.
Proof.
  intros Hrows (Hv & Hs & Hc). unfold table_lines. rewrite list_elem_of_filter, table_pairs_spec. unfold has_value.
  rewrite existsb_exists. cbn [fst snd]. split.
  - intros [(ch & Hch%list_elem_of_In & Hval) _]. rewrite Hv in Hval by by apply list_elem_of_fmap_2.
    destruct (concat (recorded (ch_field ch) s k <$> rows)) as [|v vals] eqn:Hcat; [done|].
    assert (v ∈ concat (recorded (ch_field ch) s k <$> rows)) as Hin by (rewrite Hcat; left).
    apply list_elem_of_In, in_concat in Hin as (l & Hl%list_elem_of_In & Hin).
    apply list_elem_of_fmap in Hl as (x & -> & Hx). exists x. split; [done|]. unfold recorded in Hin.
    by case_decide.
  - intros (x & Hx & Hxs & Hxk). split; [|split; [apply Hs|apply Hc]; by exists x].
    rewrite Forall_forall in Hrows. destruct (made_good _ _ _ _ (Hrows x Hx)) as (s' & c' & Hg).
    destruct (gr_numbers _ _ _ _ _ Hg "p50_ms") as (v & Hp50 & Hn); [by repeat constructor|].
    exists (mkChart "p50_ms" "Latency p50" "ms" (fmt_fixed 1) (1, false)).
    split; [by right; right; left|]. cbn [ch_field]. rewrite Hv by (by repeat constructor).
    destruct (concat (recorded "p50_ms" s k <$> rows)) as [|w vals] eqn:Hcat; [|done]. exfalso.
    assert (exists f, f ∈ recorded "p50_ms" s k x) as [f Hf].
    { unfold recorded. rewrite decide_True, Hp50 by done. destruct v; try done; eexists; left. }
    assert (f ∈ concat (recorded "p50_ms" s k <$> rows)) as Hin.
    { apply list_elem_of_In, in_concat. exists (recorded "p50_ms" s k x). split; apply list_elem_of_In; [|done].
      by apply list_elem_of_fmap_2. }
    rewrite Hcat in Hin. by apply not_elem_of_nil in Hin.
Qed.

(** The files of a run lead to a page for the data they hold. *)
Lemma report_made b cwd csv fs :
  made b -> b_rows b <> [] -> Forall sane_window (b_timeline b) ->
  startswith cwd "/" = true -> file_path csv -> run_files b cwd csv fs ->
  exists html data servers conns tl rows,
    report log10 pow10 cwd csv fs = Ok html /\
    build_html log10 pow10 data servers conns csv (Some tl) (timeline_path cwd csv) = Ok html /\
    load rows = Ok (data, servers, conns) /\ reports (b_rows b) (data, servers, conns) /\ timeline_names (Some tl).
Proof.
  intros [Hrows Hwin] Hne Hsane Hcwd Hcsv ((txt & Htxt & Hfile) & tl & Htl & Htlfile).
  destruct (results_read py_repr (b_rows b)) as (txt' & [[data servers] conns] & Ht & Hl & Hv & Hs & Hc).
  { apply (Forall_impl _ _ _ Hrows), made_good. }
  assert (txt' = txt) as -> by congruence.
  destruct (timeline_drawable py_repr (b_timeline b) tl) as (d & Hd & Hdraw); [|done| |done|].
  { apply (Forall_impl _ _ _ Hwin), made_window_good. }
  { apply (Forall_impl _ _ _ Hwin). intros x Hx s. by apply made_window_clean. }
  assert (dict_get fs (abspath cwd (timeline_path cwd csv)) = Some tl) as Htlp.
  { destruct (sibling_path cwd csv "timeline.csv" Hcwd Hcsv) as [Hq Hqq]; [done|]. rewrite <- Htlfile.
    unfold timeline_path, tl_path. by rewrite Hqq, Hq. }
  pose proof Hl as Hload. unfold load_file in Hload. apply res_bind_Ok in Hload as (rows & _ & Hload).
  unfold report. rewrite (open_read_file cwd csv fs txt) by (done || by apply file_path_ne). cbn [mbind res_bind]. rewrite Hl. cbn [mbind res_bind].
  destruct (lists_nonempty (b_rows b) data servers conns Hrows Hne (conj Hv (conj Hs Hc))) as [Hns Hnc].
  rewrite !bool_decide_eq_false_2 by done.
  cbn [orb]. change (path_join (dirname (abspath cwd csv)) "timeline.csv") with (timeline_path cwd csv).
  unfold path_exists. rewrite (open_read_file cwd _ fs tl) by (done || apply path_join_ne; done). cbn [mbind res_bind].
  rewrite Hd. cbn [mbind res_bind].
  assert (timeline_names (Some d)) as Hnames.
  { intros data' key [= <-] Hk. apply dict_get_keys in Hk as [tr Htr%dict_get_Some_elem].
    rewrite Forall_forall in Hdraw. by destruct (Hdraw _ Htr). }
  assert (exists html, build_html log10 pow10 data servers conns csv (Some d) (timeline_path cwd csv) = Ok html)
    as [html Hhtml]; [|by exists html, data, servers, conns, d, rows].
  unfold build_html.
  destruct (series_contents data servers conns) as (series & Hser & _). unfold build_cfg. rewrite Hser. cbn [mbind res_bind].
  destruct (saturation_body_ok data servers conns csv) as [sat ->]. cbn [mbind res_bind].
  destruct (timeline_body_ok log10 pow10 log10_range pow10_tenth (Some d) (or_src (timeline_path cwd csv) csv) Hdraw)
    as [body ->]. by eexists.
Qed.

(** What a browser finds in the page made from these rows: the medians of what
    was recorded, and a line of the table for each server and load. *)
Definition shows_medians (rows : list row) (html : string) : Prop :=
  exists c doc conns lines,
    page_has html c lines.*1 doc /\
    NoDup lines /\
    (forall s k, (s, k) ∈ lines <-> exists x, x ∈ rows /\ row_server x = Some s /\ row_number x "conns" = Some k) /\
    cf_conns c = js_num <$> conns /\ StronglySorted Z.lt conns /\
    (forall k, k ∈ conns <-> exists x, x ∈ rows /\ row_number x "conns" = Some k) /\
    (forall s, s ∈ cf_servers c <-> exists x, x ∈ rows /\ row_server x = Some s) /\
    forall ch s, ch ∈ CHARTS -> s ∈ cf_servers c ->
      pts_of c (js_chart_data ch) s = js_pts (omap (recorded_point rows (ch_field ch) s) conns).

(** The files of a run without a trial. *)
Lemma report_nothing b cwd csv fs :
  b_rows b = [] -> file_path csv -> run_files b cwd csv fs -> report log10 pow10 cwd csv fs = Raise SystemExit.
Proof.
  intros Hnil Hcsv ((txt & Htxt & Hfile) & _). rewrite Hnil in Htxt.
  destruct (results_read py_repr []) as (txt' & [[data servers] conns] & Ht & Hl & _ & Hs & _); [constructor|].
  assert (txt' = txt) as -> by congruence.
  unfold report. rewrite (open_read_file cwd csv fs txt) by (done || by apply file_path_ne). cbn [mbind res_bind].
  rewrite Hl. cbn [mbind res_bind]. destruct servers as [|s servers]; [done|].
  destruct (proj1 (Hs s)) as (x & Hx & _); [left|]. by apply not_elem_of_nil in Hx.
Qed.

(** The page for the files of such rows. *)
Lemma made_to_page b cwd csv fs :
  made b -> b_rows b <> [] -> Forall sane_window (b_timeline b) ->
  startswith cwd "/" = true -> file_path csv -> run_files b cwd csv fs ->
  exists html, report log10 pow10 cwd csv fs = Ok html /\ shows_medians (b_rows b) html.
Proof.
  intros Hmade Hne Hsane Hcwd Hcsv Hfiles.
  destruct (report_made b cwd csv fs Hmade Hne Hsane Hcwd Hcsv Hfiles)
    as (html & data & servers & conns & tl & rows & Hreport & Hhtml & Hload & Hrep & Hnames).
  exists html. split; [exact Hreport|]. destruct Hmade as [Hmade _].
  pose proof (load_lists _ _ _ _ Hload) as (Hnd & _ & Hsorted). pose proof Hrep as (Hv & Hs & Hc).
  rewrite Forall_forall in Hmade.
  destruct (build_html_document log10 pow10 data servers conns csv (Some tl) (timeline_path cwd csv) html) as (c & doc & Hpage & [G1 G2 _ _ G5]);
    [done| |by eapply load_values_valid| |done|done|].
  { apply Forall_forall. intros s (x & Hx & Hxs)%Hs. apply (made_server x); auto. }
  { apply Forall_forall. intros s (x & Hx & Hxs)%Hs. apply (made_clean x); auto. }
  rewrite <- Forall_forall in Hmade.
  exists c, doc, conns, (table_lines data servers conns). rewrite G1. split_and!; [done| |..|done|done|done|done|].
  - apply NoDup_filter, table_pairs_NoDup; [done|]. by apply sorted_lt_NoDup.
  - intros s k. by apply lines_recorded.
  - intros ch s Hch Hin. rewrite (G5 ch s Hch Hin). f_equal.
    apply omap_eq. intros k. unfold point, recorded_point. by rewrite Hv by by apply list_elem_of_fmap_2.
Qed.
End Measured.

(** ** The two programs *)

Section Programs.
Context {OS : Type} `{Kernel OS}.
Variable sys_executable : string.
Variable HAVE_TASKSET : bool.
Variable environ : dict string string.
Variable CLK ncpu : Z.
Variable py_repr : json -> string.
Variable log10 : float -> float.
Variable pow10 : Z -> float.
Hypothesis log10_range : forall v, latency v -> exists k, f_floor (log10 v) = Ok k /\ -2 <= k <= 22.
Hypothesis pow10_tenth : pow10 (-1) = f_of_ratio false 1 10 /\ pow10 (-2) = f_of_ratio false 1 100.

Section Runner.
Variable ROOT : string.

Notation run := (RunnerCli.program ROOT sys_executable HAVE_TASKSET environ CLK ncpu json_loads).

Lemma keeps_main g :
  keeps (rows_made ROOT sys_executable CLK g) (Matrix.main ROOT sys_executable HAVE_TASKSET environ CLK json_loads g) any.
Proof.
  unfold Matrix.main. eapply keeps_bind; [by apply keeps_on_os with (Q := any)|]. intros ok _.
  destruct (negb ok); [by intros b Hb|]. eapply keeps_bind; [by apply keeps_lift with (Q := any)|]. intros _ _.
  eapply keeps_bind; [apply keeps_matrix, json_loads_valid|]. intros _ _.
  eapply keeps_bind; [|intros _ _]; by apply keeps_flush.
Qed.

(** However the program ends, from its command line on. *)
Lemma program_made argv o b r : run argv (mkBench o [] []) = (b, r) -> made ROOT sys_executable CLK b.
Proof.
  unfold RunnerCli.program, mbind, st_bind, st_lift. destruct (parse_argv ROOT argv) as [args|e]; [|by intros [= <- <-]].
  destruct (core_sets ncpu args) as [cores|e]; [|by intros [= <- <-]].
  assert (exists m, ((if cores_overlap cores then warn Overlap else mret ()) : st (@Bench OS) ()) (mkBench o [] []) =
    (mkBench o [] m, Ok tt) /\ filter (fun m => is_alert m = true) m = []) as (m & -> & Hm).
  { destruct (cores_overlap cores); by eexists. }
  destruct (setup ROOT ncpu args) as [g|e]; [|by intros [= <- <-]]. intros Hmain.
  destruct (keeps_main g (mkBench o [] m)) as [(Hrows & Hwin & _) _]; [by repeat constructor|].
  rewrite Hmain in Hrows, Hwin. by split.
Qed.
End Runner.

(** Two names of the summary: the same files. *)
Lemma run_files_abspath b cwd csv csv' fs :
  startswith cwd "/" = true -> file_path csv -> file_path csv' -> abspath cwd csv' = abspath cwd csv ->
  run_files (OS := OS) py_repr b cwd csv fs -> run_files py_repr b cwd csv' fs.
Proof.
  intros Hcwd Hcsv Hcsv' Heq [Hr Ht]. unfold run_files, tl_path in *. rewrite Heq. split; [done|].
  destruct (sibling_path cwd csv "timeline.csv" Hcwd Hcsv) as [H1 _]; [by repeat split|].
  destruct (sibling_path cwd csv' "timeline.csv" Hcwd Hcsv') as [H2 _]; [by repeat split|]. cbv zeta in *.
  by rewrite <- H2, Heq, H1.
Qed.

(** C4: end to end: the runner, from any command line, measures and writes its
    two files; the report, from any command line that names the summary (by the
    same path or another), finds both. If no trial was recorded it ends with
    [SystemExit] and writes nothing. If there was one, and the latencies over
    time are 0 or between 10 us and 10^21 ms, it makes the page: if the output is
    named without a directory the page is lost and the report fails with
    [FileNotFoundError]; otherwise it is written, without an exception. A browser
    finds in that page a button for each server with a recorded trial, a line of
    the table for each server and load with one, and a script that has, for every
    chart and server, one point for each load with recorded values: the median of
    the numbers the runner recorded for that column, server and load. (Of
    [math.log10] it needs the range on such latencies, of [10 ** -1] and
    [10 ** -2] the value.) *)
Theorem measured_to_page cwd file argv args argv' args' o b r fs :
  startswith cwd "/" = true -> file_path file ->
  let ROOT := program_root cwd file in
  let plot_file := path_join (dirname file) "plot.py" in
  parse_argv ROOT argv = Ok args ->
  RunnerCli.program ROOT sys_executable HAVE_TASKSET environ CLK ncpu json_loads argv (mkBench o [] []) = (b, r) ->
  Forall sane_window (b_timeline b) ->
  file_path (a_out args) -> run_files py_repr b cwd (a_out args) fs ->
  parse_plot_argv cwd plot_file argv' = Ok args' -> file_path (pa_csv args') ->
  abspath cwd (pa_csv args') = abspath cwd (a_out args) ->
  let plot := PlotCli.program log10 pow10 cwd plot_file argv' fs in
  match b_rows b with
  | [] => plot = (fs, Raise SystemExit)
  | _ =>
      if bool_decide (dirname (pa_out args') = "") then plot = (fs, Raise FileNotFoundError)
      else exists html,
        plot = (dict_set fs (abspath cwd (pa_out args')) html, Ok tt) /\ shows_medians (b_rows b) html
  end.
Proof.
  intros Hcwd Hfile ROOT plot_file Hargs Hrun%program_made Hsane Hout Hfiles Hargs' Hcsv Heq plot.
  apply (run_files_abspath b cwd (a_out args) (pa_csv args')) in Hfiles; [|done..].
  assert (plot = PlotPage.main log10 pow10 cwd (pa_csv args') (pa_out args') fs) as -> by
    (unfold plot, PlotCli.program; by rewrite Hargs').
  unfold PlotPage.main. destruct (b_rows b) as [|x rows] eqn:Hrows.
  { by rewrite (report_nothing py_repr log10 pow10 b cwd (pa_csv args') fs Hrows Hcsv Hfiles). }
  destruct (made_to_page ROOT sys_executable CLK py_repr log10 pow10 log10_range pow10_tenth b cwd (pa_csv args') fs)
    as (html & Hreport & Hshows); [done|by rewrite Hrows|done..|].
  rewrite Hreport. cbn [mbind res_bind]. rewrite <- Hrows. unfold makedirs. case_bool_decide; [done|].
  by exists html.
Qed.
End Programs.

(** ** A run from the first measurement to the page *)

Lemma sorted_lt_unique (l1 l2 : list Z) :
  StronglySorted Z.lt l1 -> StronglySorted Z.lt l2 -> (forall k, k ∈ l1 <-> k ∈ l2) -> l1 = l2.
Proof.
  intros H1 H2 Heq. assert (AntiSymm eq Z.lt) by (intros x y; lia).
  apply (sorting.StronglySorted_unique Z.lt); [done..|].
  apply NoDup_Permutation; auto using sorted_lt_NoDup.
Qed.

(** [sane_window] as a test. *)
Definition sane_windowb (x : row) : bool :=
  (0 <=? row_time x) &&
  forallb (fun k => match dict_get x k with
    | Some v => match number_value v with
                | [f] => bool_decide (f = f_zero) || (fle (f_of_ratio false 1 100) f && fle f (f_of_ratio false (10 ^ 21) 1))
                | _ => false
                end
    | None => false
    end) window_fields.

Lemma sane_windowb_spec x : sane_windowb x = true -> sane_window x.
Proof.
  unfold sane_windowb. intros [Ht%Z.leb_le Hall]%andb_true_iff. split; [done|]. intros k Hk.
  pose proof (forallb_elem _ _ _ Hall Hk) as Hf. cbv beta in Hf. destruct (dict_get x k) as [v|]; [|done].
  destruct (number_value v) as [|f [|]] eqn:Hv; try done. exists v, f. split_and!; [done..|].
  apply orb_true_iff in Hf as [Hf%bool_decide_eq_true|[H1 H2]%andb_true_iff]; [by left|by right].
Qed.

(** The runner with some options, the report with none: the summary is where
    both expect it. *)
Definition demo_argv : list string :=
  ["--servers"; "nope,python"; "--conns=500,1000"; "--trials"; "2"; "--cool"; "0"].
Notation demo_run := (RunnerCli.program "/bench" "/usr/bin/python3" true [] 100 8 json_loads demo_argv
  (mkBench toy_start [] [])).
Definition demo_ran : @Bench toy := demo_run.1.

Definition demo_args : Namespace :=
  mkNamespace "nope,python" "500,1000" 2 50 20 30 5 20 "" "" "/bench/results/results.csv" f_zero "odin".

Definition csv_or_empty (r : res string) : string := match r with Ok t => t | Raise _ => "" end.
Definition demo_run_files : dict string string :=
  [("/bench/results/results.csv", csv_or_empty (results_csv (fun _ => "") (b_rows demo_ran)));
   ("/bench/results/timeline.csv", csv_or_empty (timeline_csv (fun _ => "") (b_timeline demo_ran)))].

Lemma demo_loads k :
  (exists x, x ∈ b_rows demo_ran /\ row_number x "conns" = Some k) <-> k ∈ [500; 1000].
Proof.
  rewrite <- (list_elem_of_omap (fun x => row_number x "conns")).
  assert (omap (fun x => row_number x "conns") (b_rows demo_ran) = [500; 500; 1000; 1000]) as -> by (vm_compute; reflexivity).
  rewrite !elem_of_cons. tauto.
Qed.

Lemma demo_first_row : exists x, x ∈ b_rows demo_ran /\ row_server x = Some "python" /\ row_number x "conns" = Some 500.
Proof.
  assert ((fun x => (row_server x, row_number x "conns")) <$> list.head (b_rows demo_ran) =
    Some (Some "python", Some 500)) as Hh by (vm_compute; reflexivity).
  destruct (b_rows demo_ran) as [|x rows]; [done|]. injection Hh as Hx Hk. exists x. split; [left|exact (conj Hx Hk)].
Qed.

Lemma measured_to_page_witness :
  exists html c doc,
    (PlotCli.program demo_log10 demo_pow10 "/bench" "runner/plot.py" [] demo_run_files).1 =
      dict_set demo_run_files "/bench/results/report.html" html /\
    document html = Some doc /\ "python" ∈ ct_buttons doc /\ "python" ∈ ct_rows doc /\
    pts_of c (mkJsChart "p50_ms" "Latency p50" "ms" (1, false)) "python" =
      [(js_num 500, f_of_ratio false 33 100); (js_num 1000, f_of_ratio false 33 100)].
Proof.
  unshelve epose proof (measured_to_page (OS := toy) "/usr/bin/python3" true [] 100 8 (fun _ => "") demo_log10 demo_pow10
    _ _ "/bench" "runner/run.py" demo_argv demo_args [] (mkPlotArgs "/bench/results/results.csv" "/bench/results/report.html")
    toy_start demo_ran demo_run.2 demo_run_files _ _ _ _ _ _ _ _ _ _) as Hend.
  - intros v _. exists 0. split; [reflexivity|lia].
  - split; vm_compute; reflexivity.
  - reflexivity.
  - apply (file_path_join "runner" "run.py"). by repeat split.
  - vm_compute. reflexivity.
  - change (program_root "/bench" "runner/run.py") with "/bench". unfold demo_ran. by destruct demo_run.
  - assert (forallb sane_windowb (b_timeline demo_ran) = true) as Hall by (vm_compute; reflexivity).
    apply Forall_forall. intros x Hx. by apply sane_windowb_spec, (forallb_elem _ _ _ Hall).
  - apply (file_path_join "/bench/results" "results.csv"). by repeat split.
  - split; eexists; split; vm_compute; reflexivity.
  - vm_compute. reflexivity.
  - apply (file_path_join "/bench/results" "results.csv"). by repeat split.
  - reflexivity.
  - cbv zeta in Hend. assert (length (b_rows demo_ran) = 4%nat) as Hl by (vm_compute; reflexivity).
    destruct (b_rows demo_ran) as [|x rows] eqn:Hrows in Hend, Hl; [discriminate Hl|]. rewrite <- Hrows in Hend.
    rewrite bool_decide_eq_false_2 in Hend by (vm_compute; discriminate).
    destruct Hend as (html & Hhtml & c & doc & conns & lines & [Hdoc _ Hbuttons Hrows' _] & _ & Hlines & H2 & H3 & H4 & H5 & H6).
    clear x rows Hrows Hl. exists html, c, doc.
    assert ("python" ∈ cf_servers c) as Hin.
    { apply H5. destruct demo_first_row as (x & Hx & Hs & _). exists x. exact (conj Hx Hs). }
    split; [exact (f_equal fst Hhtml)|]. split; [exact Hdoc|]. split; [rewrite Hbuttons; exact Hin|]. split.
    { rewrite Hrows'. apply list_elem_of_fmap. exists ("python", 500). split; [reflexivity|]. apply Hlines. exact demo_first_row. }
    change (mkJsChart "p50_ms" "Latency p50" "ms" (1, false)) with
      (js_chart_data (mkChart "p50_ms" "Latency p50" "ms" (fmt_fixed 1) (1, false))).
    rewrite H6 by (exact Hin || (right; right; left)).
    assert (conns = [500; 1000]) as ->; [|vm_compute; reflexivity].
    apply (sorted_lt_unique conns [500; 1000]); [exact H3|repeat constructor|].
    intros k. rewrite H4. apply (demo_loads k).
Defined.
